(* ===== verification/_CoqProject ===== *)
-Q . S2P
Prelude.v
Bcrypt.v
GoStd.v
Sha256.v
GoText.v
GoUrl.v
Sql.v
Http.v
GoJson.v
Middleware.v
Gin.v
Server.v
OAuthClient.v
AuthClient.v
TokenStores.v
Risk.v
AuthService.v
AuthFacts.v
TokenSpec.v
AuthDemo.v
Login.v
LoginFacts.v
AuthApi.v
AuthApiFacts.v
LoginDemo.v
Directory.v
DirectoryApi.v
DirectoryFacts.v
SignUpLogin.v
DirectoryDemo.v
Scim.v
ScimFacts.v
ScimDemo.v
DirService.v
Rbac.v
RbacFacts.v
Governance.v
GovernanceFacts.v
GovernanceDirectory.v
GovernanceDemo.v
Campaigns.v
CampaignFacts.v
Connectors.v
Provisioning.v
ProvisioningFacts.v
ConnectorFacts.v
ProvisioningDemo.v
AuditLog.v
AuditFacts.v
Webhooks.v
WebhookFacts.v
Organizations.v
OrganizationFacts.v
AuditDemo.v
Sso.v
Federation.v
FederationFacts.v
FederationDirectory.v
FederationDemo.v
SsoFacts.v
DeveloperApps.v
DeveloperFacts.v
ConnObjects.v
ScimConnector.v
AzureConnector.v
GoogleConnector.v
LdapConnector.v
GovConnectors.v
ConnImplFacts.v
GovConnectorFacts.v
GovConnectorDemo.v
Branding.v
Saml.v
License.v
CommandLine.v
AuthSvc.v
AuthSvcFacts.v
GovSvc.v
ClientSdk.v
ProcessDemo.v
