(* ===== verification/Prelude.v ===== *)
(** * WardSeal: a verification development of the identity platform

    ** The program

    WardSeal is a multi-tenant identity platform of Go services over one
    Postgres database.  The auth service (cmd/authsvc, internal/auth) is an
    OAuth 2.0 server: it logs users in, issues and introspects tokens, scores
    risk, and keeps second factors, developer applications, branding and the
    links of external identities.  The directory service (cmd/dirsvc,
    internal/directory, internal/scim) holds users, groups and passwords, and
    answers the auth service over HTTP.  The governance service (cmd/govsvc,
    internal/governance and others) administers OAuth clients, access requests,
    review campaigns, roles, organizations, webhooks, the audit log, SSO
    providers and the connectors through which users are provisioned into
    external systems; an approval makes it call the directory.  The processes
    share pkg/middleware, pkg/observability, pkg/logger and pkg/database; an SDK
    (pkg/client) and a command line (cmd/admincli) call them.

    ** How it is modelled

    A Go function is a computation [M S A] (this file): it reads the
    surroundings [Env], threads a state [St S], and ends in [Ok], [Err] or
    [Panic].  The surroundings answer everything the program asks of the
    outside (the clock, randomness, generated identifiers, whether the database
    answers) by the number of observations made so far, so that a theorem for
    every [Env] is one for every behaviour of the outside.  [zoom] runs a
    component on its part of a larger state.  [attempt], [ignore], [map_err] and
    [deferred] are Go's ways with errors and deferred calls.  [preserves],
    [readonly] and [keeps] with the tactic [effects] are the invariants'
    automation; [minv] and the [_Ok_inv] lemmas take a run apart.

    A table is a list of rows, an SQL statement the function its text denotes
    (Sql.v), with the constraints of src/migrations; rows come in the order the
    surroundings pick ([row_order]), within what ORDER BY says; a transaction sees
    one clock and is undone when it fails.  Tables the migrations do not create
    are missing in the model too: [SignalDb] and the credentials of WebAuthn are
    optional.  A Go interface is a type class: the
    stores, the HTTP peer of a client, the connectors.  Client theorems are
    proved against the class; instances are the SQL and in-memory
    implementations, or another service's router.  Code that is not in the
    repository is a class too, with the behaviour its documentation promises as
    laws: bcrypt (Bcrypt.v), JWT signatures, TOTP and WebAuthn (AuthService.v,
    AuthApi.v), gin's binding and validation (Http.v), golang.org/x/oauth2
    (Federation.v, GoogleConnector.v), go-ldap (LdapConnector.v), license keys
    (License.v), X.509 (Saml.v), crewjam/saml and key generation (AuthSvc.v),
    gin-contrib/cors (GovSvc.v), prometheus and OpenTelemetry (Server.v), DNS
    (Organizations.v), and what sqlx, the
    driver and Postgres do where their documentation leaves it open ([NilBytes],
    [PgInterval], [PgInet], [RawMessageValue], [NamedCast]).  The files named
    *Demo.v give these concrete instances and meet every hypothesis once.

    A process is its whole state behind gin's router (Gin.v: groups, the radix
    tree's choice of a route, the redirects between a path and the same with a
    slash, which come before the middleware, the conflicts it panics on; the text
    of a redirect's target is the class [GinRedirect]) and the middleware
    [main] stacks (Server.v); a request is its method, path, headers, query and
    body, and the answer has a status, a body and headers.  The client of net/http
    (Http.v) follows redirects and sends Go's User-Agent.  What is proved of a
    process holds for any request, or any sequence of them.

    ** The files

    The language and its library: Prelude.v (the monad, generic lemmas),
    GoStd.v (strings, hex, base64, time), Sha256.v, GoText.v (runes, RFC 3339,
    CSV), GoUrl.v (net/url), GoJson.v, Sql.v, Http.v, Bcrypt.v.

    What processes are made of: Middleware.v (pkg/middleware), Gin.v (the router
    of gin, as its documentation and tree.go describe it), Server.v (security.go,
    pkg/observability, pkg/logger, pkg/database).

    The processes: DirService.v (cmd/dirsvc with the routes of internal/scim),
    AuthSvc.v (cmd/authsvc: [NewService], all [RegisterRoutes], the start-up,
    webauthn_store.go and internal/saml/idp.go), AuthSvcFacts.v, GovSvc.v
    (cmd/govsvc with CORS, cmd/policysvc, cmd/provsvc, and what cmd/govsvc
    guarantees).  Their clients: ClientSdk.v, over CommandLine.v (the flag
    package, and the tools cmd/migrate_patch, cmd/tools/hashgen and
    cmd/tools/licensegen).  At work: ProcessDemo.v.

    internal/oauthclient and internal/auth: OAuthClient.v (repository),
    AuthClient.v (client.go), TokenStores.v (the code, refresh and revocation
    stores of service.go and store_sql.go), Risk.v (risk_engine.go,
    device_store.go, signal_store.go), AuthService.v (service.go: authorization,
    grants, introspection, revocation), Login.v (login and sign-up of service.go
    and api.go, login_attempt_store.go, totp_store.go), AuthApi.v (the other
    handlers: api.go, totp_api.go, mfa_api.go, device_api.go, signal_api.go),
    Federation.v (federation.go,
    service_federation.go, sso_provider_store.go), DeveloperApps.v
    (developer_*.go), Branding.v (branding*.go).  Facts: AuthFacts.v,
    TokenSpec.v (the abstract machine of grants the token service refines),
    LoginFacts.v, AuthApiFacts.v, FederationFacts.v, DeveloperFacts.v.

    internal/directory and internal/scim: Directory.v (service.go),
    DirectoryApi.v (api.go, endpoint.go and the routes), Scim.v.  Facts:
    DirectoryFacts.v, ScimFacts.v.

    internal/rbac: Rbac.v, RbacFacts.v.  internal/policy and
    internal/governance: Governance.v, GovernanceFacts.v,
    Campaigns.v, CampaignFacts.v, Organizations.v, OrganizationFacts.v.
    internal/webhook and internal/event: Webhooks.v, WebhookFacts.v.
    internal/audit: AuditLog.v, AuditFacts.v.  internal/sso: Sso.v, SsoFacts.v.
    internal/saml: Saml.v.  internal/license: License.v.

    internal/connector: Connectors.v (interface, registry, store, service,
    handlers), Provisioning.v (the queue), ConnObjects.v (structs behind
    pointers), ScimConnector.v, LdapConnector.v, AzureConnector.v,
    GoogleConnector.v (the four implementations), GovConnectors.v (the
    registrations of cmd/govsvc).  Facts: ConnectorFacts.v,
    ProvisioningFacts.v, ConnImplFacts.v, GovConnectorFacts.v.

    Composition of services: SignUpLogin.v (auth and directory),
    GovernanceDirectory.v (governance and directory), FederationDirectory.v
    (social login and the directory's SCIM), GovConnectorFacts.v (connector
    service, queue and SCIM connector), ClientSdk.v (the SDK and the command line
    against the three processes).  In these the HTTP peer of the client is the
    other service's router with its middleware.

    ** What the theorems show

    Tokens: a code is redeemed only by the client, redirect URI, tenant and PKCE
    verifier it is bound to, no more often than it was issued, and an issued one
    can be redeemed while the stores are those in memory; refresh tokens rotate; the service refines an abstract
    machine of grants, and every token of the code and refresh grants goes back
    to an authorization that passed every check; a token revoked over HTTP stays
    inactive whatever requests to the process follow; an issued token
    introspects as it was issued; a client authenticates with its secret and
    gets allowed scopes only. Logins: five failures
    lock an account for fifteen minutes whatever the password; enrolments and
    passkeys; a sign-up can log in across the two services; a social login
    leaves a link that is found again.

    Data: the directory's tables keep their integrity and tenants apart,
    whatever is sent to its process, and so do reads; credentials verify exactly
    when a hash accepts; the pages of a SCIM listing put together are the users of
    the tenant; role checks are exact
    and deletion of a role revokes; clients registered through governance, or
    with the command line against its process, resolve in the auth service; an
    approval grants membership in the directory; campaigns only move forward; a
    domain is verified only by its DNS record; the audit store's SQL text is
    equivalent to its specification and its log reads back; SSO providers serve
    the auth service; applications are recognised by their last secret; branding
    reads back; the license tool's keys and tokens let the auth process start
    until the license expires, for the day counts that fit 64 bits.

    Processes: without a tenant every route of the auth process but the public
    ones refuses and changes nothing; no request to the governance process
    touches another tenant's clients, providers, connectors or webhooks, and a
    foreign origin is refused; every answer has the security headers and is
    counted once per metrics middleware; processes started in environments that
    agree accept each other's calls; the SDK's login and listing return what the
    services hold; the rate limiter's map refines one token bucket per address,
    replaced only where its clean-up finds more than ten thousand of them;
    every schedule of the webhook dispatcher's goroutines ends with one signed
    request per subscriber and event, and what receivers redirect it to; one run
    of a provisioning task does what the outcome of its operation says, and its
    runs end after the retries, settled unless a connector panics or the database
    refuses a time; a SCIM connector made by the service provisions the users of queued tasks.

    Where the code does not do what it means to, a theorem says what it does
    instead: for instance that the deployed auth process grants client
    credentials only, that the SQL stores redeem nothing, that security events take
    no effect, that no domain can be verified, that two interleaved
    requests redeem one code twice, that a pending token is active, that
    connectors are not read back, that a Google connector panics, or that the SCIM
    connector takes group changes the platform's own SCIM interface refuses for
    made.

    ** Bounds

    Integers are unbounded [Z] with [int64] where Go's arithmetic can wrap
    (back-off, durations, slices).  Recursion is structural, on lists, strings
    or explicit counters; the one definition with fuel, the blocks of SHA-256, is
    given the length of the padded message, more than their number.  The HTTP
    client gives up after ten requests, as net/http does.  Schedules and request
    sequences are arbitrary lists.

    ** Not modelled

    Listening, TLS and the encoders of logs and traces: I/O without a decision;
    what is logged is an entry beside the stack of middleware, and tracing spans
    are not followed.  Inside the libraries: key generation, certificates,
    signatures, the SAML protocol, WebAuthn's ceremonies.  The list of flags the
    flag package prints, and the time stamps of the log package.  Content types of
    responses, and headers a handler itself sets other than cookies.  The web
    consoles, which are React code over these interfaces.  Concurrency is
    modelled where the code's outcome depends on it (the dispatcher, the
    interleaved redemption); elsewhere a request runs to its end. *)
From stdpp Require Export base decidable option list gmap strings pretty sorting.
From Stdlib Require Export ZArith Lia.

Declare Scope go_scope.
Delimit Scope go_scope with go.

(** ** Strings and integers *)

(** The empty Go string. *)
Abbreviation estr := EmptyString.

(** The byte 0x22, which Go source writes as an escaped quote. *)
Definition dquote : string := String (Ascii.ascii_of_nat 34) EmptyString.

(** A signed 64-bit integer: Go's [int], [int64] and [time.Duration] on the
    platforms the services are built for.  [int64 z] is the value the machine
    holds after an operation whose mathematical result is [z]. *)
Definition int64 (z : Z) : Z :=
  ((z + 2 ^ 63) mod 2 ^ 64 - 2 ^ 63)%Z.

Lemma int64_small z : (- 2 ^ 63 <= z < 2 ^ 63)%Z -> int64 z = z.
Proof. intros H. unfold int64. rewrite Z.mod_small; lia. Qed.

Lemma int64_range z : (- 2 ^ 63 <= int64 z < 2 ^ 63)%Z.
Proof.
  unfold int64.
  pose proof (Z.mod_pos_bound (z + 2 ^ 63) (2 ^ 64) ltac:(lia)). lia.
Qed.

(** ** Go errors

    One constructor per way the code makes an error value: [errors.New] and
    [fmt.Errorf] without a wrapped error, [fmt.Errorf] with [%w] in last
    position, package-level sentinels compared by identity, the errors of the
    database driver, the typed errors [auth.Error] and
    [governance.validationErr], and errors of other libraries. *)
Inductive error : Type :=
| ErrNew (msg : string)
| ErrWrap (prefix : string) (e : error)
| ErrSentinel (name msg : string)
| ErrDB (msg : string)
| ErrService (code message : string)
| ErrValidation (msg : string)
| ErrLib (msg : string).

#[export] Instance error_eq_dec : EqDecision error.
Proof. solve_decision. Defined.

(** [err.Error()] *)
Fixpoint error_string (e : error) : string :=
  match e with
  | ErrNew m | ErrSentinel _ m | ErrDB m | ErrValidation m | ErrLib m => m
  | ErrWrap p e => p +:+ ": " +:+ error_string e
  | ErrService _ m => m
  end.

(** [errors.Is(err, target)]: the target is met somewhere along the chain of
    wrapped errors. *)
Fixpoint errors_Is (e target : error) : bool :=
  bool_decide (e = target) ||
  match e with ErrWrap _ e' => errors_Is e' target | _ => false end.

(** [errors.As(err, &svcErr)] for [svcErr : *auth.Error]. *)
Fixpoint errors_As_service (e : error) : option (string * string) :=
  match e with
  | ErrService c m => Some (c, m)
  | ErrWrap _ e' => errors_As_service e'
  | _ => None
  end.

(** [errors.As(err, &vErr)] for [vErr : *governance.validationErr]. *)
Fixpoint errors_As_validation (e : error) : option string :=
  match e with
  | ErrValidation m => Some m
  | ErrWrap _ e' => errors_As_validation e'
  | _ => None
  end.

(** [sql.ErrNoRows] of [database/sql]. *)
Definition sql_ErrNoRows : error :=
  ErrSentinel "sql.ErrNoRows" "sql: no rows in result set".

(** ** Outcomes

    A call returns a value, returns a non-nil error, or panics (a nil
    dereference); a panic is not an error value and no [if err != nil] sees
    it. *)
Inductive Res (A : Type) : Type :=
| Ok (a : A)
| Err (e : error)
| Panic (msg : string).
Arguments Ok {A} a.
Arguments Err {A} e.
Arguments Panic {A} msg.

#[export] Instance Res_eq_dec `{EqDecision A} : EqDecision (Res A).
Proof. solve_decision. Defined.

Definition is_ok {A} (r : Res A) : bool :=
  match r with Ok _ => true | _ => false end.

(** ** The surroundings of a process

    Everything a service reads that its own code does not determine, indexed
    by the number of such reads made before ([tick]): the clock
    ([time.Now], in nanoseconds since the Unix epoch, and the database's
    [NOW()]), the entropy source ([rand.Read]), the UUID generators
    ([uuid.New] of the process and [gen_random_uuid()] of the database), and
    whether the database answers the statement sent at that tick, and in which
    order it comes across the rows of a table ([row_order], used by [reorder] of
    Sql.v).

    [pg_uuid] is the input conversion of Postgres's [UUID] type (None: the
    statement is rejected; Some u: the value stored or compared, in canonical
    form) and [sqlx_missing dest cols] the check [sqlx] makes before it scans
    a row into a struct: the first column that has no destination among the
    struct's names, if any. *)
Record Env : Type := mkEnv {
  clock : nat -> Z;
  rand_read : nat -> nat -> Res string;
  new_uuid : nat -> string;
  gen_uuid : nat -> string;
  db_fault : nat -> option string;
  pg_uuid : string -> option string;
  sqlx_missing : list string -> list string -> option string;
  row_order : nat -> nat -> nat
}.

(** ** The effect monad

    A Go function over the state [S]: effects made before an error is
    returned stay. *)
Record St (S : Type) : Type := mkSt { tick : nat; st : S }.
Arguments mkSt {S} tick st.
Arguments tick {S} _.
Arguments st {S} _.

Definition M (S A : Type) : Type := Env -> St S -> Res A * St S.

Section Monad.
Context {S : Type}.

Definition ret {A} (a : A) : M S A := fun _ s => (Ok a, s).

Definition fail {A} (e : error) : M S A := fun _ s => (Err e, s).

Definition panic {A} (msg : string) : M S A := fun _ s => (Panic msg, s).

Definition bind {A B} (m : M S A) (k : A -> M S B) : M S B :=
  fun env s =>
    match m env s with
    | (Ok a, s') => k a env s'
    | (Err e, s') => (Err e, s')
    | (Panic p, s') => (Panic p, s')
    end.

(** [v, err := f()]: the caller inspects the error itself. *)
Definition attempt {A} (m : M S A) : M S (A + error) :=
  fun env s =>
    match m env s with
    | (Ok a, s') => (Ok (inl a), s')
    | (Err e, s') => (Ok (inr e), s')
    | (Panic p, s') => (Panic p, s')
    end.

(** [_ = f()]: the error is dropped. *)
Definition ignore {A} (m : M S A) : M S unit :=
  bind (attempt m) (fun _ => ret tt).

(** [defer d()] around the rest of a function: [d] runs however that ends. *)
Definition deferred {A} (m : M S A) (d : M S unit) : M S A :=
  fun env s =>
    let '(r, s') := m env s in
    match d env s' with
    | (Panic p, s'') => (Panic p, s'')
    | (_, s'') => (r, s'')
    end.

(** [if err := f(); err != nil { return ..., g(err) }] *)
Definition map_err {A} (g : error -> error) (m : M S A) : M S A :=
  fun env s =>
    match m env s with
    | (Err e, s') => (Err (g e), s')
    | r => r
    end.

Definition gets {A} (f : S -> A) : M S A := fun _ s => (Ok (f (st s)), s).

Definition modify (f : S -> S) : M S unit :=
  fun _ s => (Ok tt, mkSt (tick s) (f (st s))).

Definition from_res {A} (r : Res A) : M S A := fun _ s => (r, s).

(** One read of the surroundings. *)
Definition observe {A} (f : Env -> nat -> A) : M S A :=
  fun env s => (Ok (f env (tick s)), mkSt (Datatypes.S (tick s)) (st s)).

(** [time.Now()] *)
Definition now : M S Z := observe clock.

(** [uuid.New().String()] *)
Definition uuid_New : M S string := observe new_uuid.

(** [b := make([]byte, n); rand.Read(b)] *)
Definition rand_Read (n : nat) : M S string :=
  bind (observe (fun env t => rand_read env t n)) from_res.

End Monad.

(** A component whose state is a part of a larger state. *)
Definition zoom {S T A} (get : S -> T) (put : T -> S -> S) (m : M T A) : M S A :=
  fun env s =>
    match m env (mkSt (tick s) (get (st s))) with
    | (r, t) => (r, mkSt (tick t) (put (st t) (st s)))
    end.

Notation "x <- m ;; k" := (bind m (fun x => k))
  (at level 100, m at next level, right associativity) : go_scope.
Notation "m ;; k" := (bind m (fun _ => k))
  (at level 100, right associativity) : go_scope.

(** ** Symbolic execution

    Inversion lemmas for the monad's operations: each turns a run of a
    compound computation into runs of its parts. *)
Section MonadFacts.
Context {S : Type}.
Implicit Types (s t u : St S) (env : Env).

Lemma bind_Ok_inv {A B} (m : M S A) (k : A -> M S B) env s b u :
  bind m k env s = (Ok b, u) ->
  exists a t, m env s = (Ok a, t) /\ k a env t = (Ok b, u).
Proof. unfold bind. destruct (m env s) as [[a|e|p] t]; naive_solver. Qed.

Lemma bind_Ok {A B} (m : M S A) (k : A -> M S B) env s a t :
  m env s = (Ok a, t) -> bind m k env s = k a env t.
Proof. unfold bind. by intros ->. Qed.

(** Every outcome of a sequence: the first part failed, or both ran. *)
Lemma bind_inv {A B} (m : M S A) (k : A -> M S B) env s r u :
  bind m k env s = (r, u) ->
  (exists a t, m env s = (Ok a, t) /\ k a env t = (r, u)) \/
  (exists r', m env s = (r', u) /\ is_ok r' = false /\ is_ok r = false).
Proof.
  unfold bind. destruct (m env s) as [[a|e|p] t]; intros; simplify_eq; [left|right..]; eauto.
Qed.

Lemma bind_Err {A B} (m : M S A) (k : A -> M S B) env s e t :
  m env s = (Err e, t) -> bind m k env s = (Err e, t).
Proof. unfold bind. by intros ->. Qed.

Lemma attempt_Ok_inv {A} (m : M S A) env s r u :
  attempt m env s = (Ok r, u) ->
  (exists a, r = inl a /\ m env s = (Ok a, u)) \/
  (exists e, r = inr e /\ m env s = (Err e, u)).
Proof. unfold attempt. destruct (m env s) as [[a|e|p] t]; naive_solver. Qed.

Lemma ignore_Ok_inv {A} (m : M S A) env s x u :
  ignore m env s = (Ok x, u) ->
  (exists a, m env s = (Ok a, u)) \/ (exists e, m env s = (Err e, u)).
Proof.
  unfold ignore, bind, attempt, ret.
  destruct (m env s) as [[a|e|p] t]; naive_solver.
Qed.

Lemma map_err_Ok_inv {A} g (m : M S A) env s a u :
  map_err g m env s = (Ok a, u) -> m env s = (Ok a, u).
Proof. unfold map_err. destruct (m env s) as [[]?]; naive_solver. Qed.

Lemma ret_Ok_inv {A} (a b : A) env s u :
  ret a env s = (Ok b, u) -> a = b /\ s = u.
Proof. unfold ret. naive_solver. Qed.

Lemma fail_Ok_inv {A} e (b : A) env s u : fail e env s = (Ok b, u) -> False.
Proof. done. Qed.

Lemma panic_Ok_inv {A} p (b : A) env s u : panic p env s = (Ok b, u) -> False.
Proof. done. Qed.

Lemma gets_Ok_inv {A} (f : S -> A) b env s u :
  gets f env s = (Ok b, u) -> b = f (st s) /\ s = u.
Proof. unfold gets. naive_solver. Qed.

Lemma modify_Ok_inv f x env s u :
  modify f env s = (Ok x, u) -> u = mkSt (tick s) (f (st s)).
Proof. unfold modify. naive_solver. Qed.

Lemma observe_Ok_inv {A} (f : Env -> nat -> A) b env s u :
  observe f env s = (Ok b, u) ->
  b = f env (tick s) /\ u = mkSt (Datatypes.S (tick s)) (st s).
Proof. unfold observe. naive_solver. Qed.

Lemma from_res_Ok_inv {A} (r : Res A) b env s u :
  from_res r env s = (Ok b, u) -> r = Ok b /\ s = u.
Proof. unfold from_res. naive_solver. Qed.

End MonadFacts.

Lemma zoom_Ok_inv {S T A} get put (m : M T A) env (s : St S) a u :
  zoom get put m env s = (Ok a, u) ->
  exists t, m env (mkSt (tick s) (get (st s))) = (Ok a, t) /\
            u = mkSt (tick t) (put (st t) (st s)).
Proof.
  unfold zoom. destruct (m env _) as [r t] eqn:E. naive_solver.
Qed.

Lemma now_run {S} env (s : St S) : now env s = (Ok (clock env (tick s)), mkSt (Datatypes.S (tick s)) (st s)).
Proof. done. Qed.

Lemma rand_Read_run {S} n env (s : St S) b :
  rand_read env (tick s) n = Ok b -> rand_Read n env s = (Ok b, mkSt (Datatypes.S (tick s)) (st s)).
Proof. intros Hb. unfold rand_Read, bind, observe, from_res. by rewrite Hb. Qed.

Lemma ignore_run {S A} (m : M S A) env s a t :
  m env s = (Ok a, t) -> ignore m env s = (Ok tt, t).
Proof. intros E. unfold ignore, bind, attempt. by rewrite E. Qed.

(** A run known to end in a result. *)
Lemma ok_run {S A} (x : Res A * St S) : is_ok (fst x) = true -> exists a u, x = (Ok a, u).
Proof. destruct x as [[a|e|p] u]; [eauto|done|done]. Qed.

Lemma fst_run {A B} (x : A * B) a : fst x = a -> x = (a, snd x).
Proof. by destruct x; intros <-. Qed.

(** An entropy source that fills the buffers it is given. *)
Definition rand_ok (env : Env) : Prop :=
  forall t n, exists b, rand_read env t n = Ok b /\ String.length b = n.

(** [mgo E] runs the first part of a sequence with [E]. *)
Ltac mgo E := rewrite (bind_Ok _ _ _ _ _ _ E); cbv beta.

(** [minv] opens every successful run in the context: it inverts binds, the
    primitive operations and the case analyses between them, and leaves one
    goal per path that can end in [Ok]. *)
Ltac minv_step :=
  match goal with
  | H : bind _ _ _ _ = (Ok _, _) |- _ =>
      apply bind_Ok_inv in H;
      let a := fresh "a" in let t := fresh "t" in let E := fresh "E" in
      destruct H as (a & t & E & H)
  | H : ret _ _ _ = (Ok _, _) |- _ => apply ret_Ok_inv in H; destruct H; subst
  | H : fail _ _ _ = (Ok _, _) |- _ => exfalso; exact (fail_Ok_inv _ _ _ _ _ H)
  | H : panic _ _ _ = (Ok _, _) |- _ => exfalso; exact (panic_Ok_inv _ _ _ _ _ H)
  | H : gets _ _ _ = (Ok _, _) |- _ => apply gets_Ok_inv in H; destruct H; subst
  | H : modify _ _ _ = (Ok _, _) |- _ => apply modify_Ok_inv in H; subst
  | H : now _ _ = (Ok _, _) |- _ => apply observe_Ok_inv in H; destruct H; subst
  | H : observe _ _ _ = (Ok _, _) |- _ => apply observe_Ok_inv in H; destruct H; subst
  | H : from_res _ _ _ = (Ok _, _) |- _ => apply from_res_Ok_inv in H; destruct H; subst
  | H : map_err _ _ _ _ = (Ok _, _) |- _ => apply map_err_Ok_inv in H
  | H : (if decide ?P then _ else _) _ _ = (Ok _, _) |- _ =>
      let D := fresh "D" in destruct (decide P) as [D|D]
  | H : (if ?b then _ else _) _ _ = (Ok _, _) |- _ =>
      let D := fresh "D" in destruct b eqn:D
  | H : (match ?x with _ => _ end) _ _ = (Ok _, _) |- _ =>
      let D := fresh "D" in destruct x eqn:D
  end.

(** Later files add the inversions of their own operations here. *)
Ltac minv_more := fail.
Ltac minv := repeat (first [minv_step | minv_more]; simplify_eq/=).

(** [mstep] runs a computation forward: it unfolds the primitives on concrete
    states and rewrites with the hypotheses that say how a test comes out. *)
Ltac munfold :=
  unfold ignore, attempt, map_err, bind, ret, fail, panic, gets, modify, now,
    uuid_New, rand_Read, observe, from_res, zoom in *; simpl in *.

(** ** Invariants of computations

    [preserves P m]: whatever [m] ends in (a result, an error, a panic), it
    leaves the state in [P] when it started there. *)
Definition preserves {S A} (P : S -> Prop) (m : M S A) : Prop :=
  forall env s, P (st s) -> P (st (snd (m env s))).

(** [readonly m]: whatever [m] ends in, the state is what it was. *)
Definition readonly {S A} (m : M S A) : Prop :=
  forall env s, st (snd (m env s)) = st s.

Section Preserves.
Context {S : Type} (P : S -> Prop).

Lemma preserves_run {A} (m : M S A) env s r s' :
  preserves P m -> m env s = (r, s') -> P (st s) -> P (st s').
Proof. intros Hm E HP. specialize (Hm env s HP). by rewrite E in Hm. Qed.

Lemma readonly_preserves {A} (m : M S A) : readonly m -> preserves P m.
Proof. intros Hm env s HP. by rewrite Hm. Qed.

Lemma readonly_run {A} (m : M S A) env s r s' :
  readonly m -> m env s = (r, s') -> st s' = st s.
Proof. intros Hm E. specialize (Hm env s). by rewrite E in Hm. Qed.

(** The continuation may rely on the first part having answered. *)
Lemma preserves_bind {A B} (m : M S A) (k : A -> M S B) :
  preserves P m ->
  (forall a env s t, m env s = (Ok a, t) -> preserves P (k a)) ->
  preserves P (bind m k).
Proof.
  intros Hm Hk env s HP. unfold bind. specialize (Hm env s HP).
  destruct (m env s) as [[a|e|p] t] eqn:E; simpl in *; [|done|done].
  by apply (Hk _ _ _ _ E).
Qed.

Lemma preserves_attempt {A} (m : M S A) : preserves P m -> preserves P (attempt m).
Proof.
  intros Hm env s HP. unfold attempt. specialize (Hm env s HP).
  by destruct (m env s) as [[a|e|p] t].
Qed.

Lemma preserves_map_err {A} g (m : M S A) : preserves P m -> preserves P (map_err g m).
Proof.
  intros Hm env s HP. unfold map_err. specialize (Hm env s HP).
  by destruct (m env s) as [[a|e|p] t].
Qed.

Lemma preserves_modify f : (forall x, P x -> P (f x)) -> preserves P (modify f).
Proof. intros Hf env s HP. by apply Hf. Qed.

Lemma readonly_bind {A B} (m : M S A) (k : A -> M S B) :
  readonly m -> (forall a, readonly (k a)) -> readonly (bind m k).
Proof.
  intros Hm Hk env s. unfold bind. specialize (Hm env s).
  destruct (m env s) as [[a|e|p] t]; simpl in *; [by rewrite Hk|done|done].
Qed.

Lemma readonly_attempt {A} (m : M S A) : readonly m -> readonly (attempt m).
Proof.
  intros Hm env s. unfold attempt. specialize (Hm env s).
  by destruct (m env s) as [[a|e|p] t].
Qed.

Lemma readonly_map_err {A} g (m : M S A) : readonly m -> readonly (map_err g m).
Proof.
  intros Hm env s. unfold map_err. specialize (Hm env s).
  by destruct (m env s) as [[a|e|p] t].
Qed.

Lemma readonly_ret {A} (a : A) : readonly (S := S) (ret a).
Proof. done. Qed.

Lemma readonly_fail {A} e : readonly (S := S) (A := A) (fail e).
Proof. done. Qed.

Lemma readonly_panic {A} p : readonly (S := S) (A := A) (panic p).
Proof. done. Qed.

Lemma readonly_gets {A} (f : S -> A) : readonly (gets f).
Proof. done. Qed.

Lemma readonly_observe {A} (f : Env -> nat -> A) : readonly (S := S) (observe f).
Proof. done. Qed.

Lemma readonly_from_res {A} (r : Res A) : readonly (S := S) (from_res r).
Proof. done. Qed.

End Preserves.

Lemma readonly_rand_Read {S} n : readonly (S := S) (rand_Read n).
Proof. unfold rand_Read. apply readonly_bind; [done|]. intros. done. Qed.

Lemma preserves_zoom {S T A} (P : S -> Prop) (Q : T -> Prop) get put (m : M T A) :
  (forall x, P x -> Q (get x)) -> (forall x t, P x -> Q t -> P (put t x)) ->
  preserves Q m -> preserves P (zoom get put m).
Proof.
  intros Hg Hp Hm env s HP. unfold zoom.
  specialize (Hm env (mkSt (tick s) (get (st s))) (Hg _ HP)).
  destruct (m env _) as [r t]. simpl in *. auto.
Qed.

Lemma readonly_zoom {S T A} get put (m : M T A) :
  (forall x : S, put (get x) x = x) -> readonly m -> readonly (zoom get put m).
Proof.
  intros Hg Hm env s. unfold zoom. specialize (Hm env (mkSt (tick s) (get (st s)))).
  destruct (m env _) as [r t]. simpl in *. by rewrite Hm.
Qed.

Create HintDb effects.
#[export] Hint Resolve readonly_ret readonly_fail readonly_panic readonly_gets readonly_observe
  readonly_from_res readonly_rand_Read : effects.

(** [effects] proves [preserves] and [readonly] goals by following the
    computation; what is left are the updates that touch [P]. *)
Ltac effects_step :=
  match goal with
  | |- readonly (bind _ _) => apply readonly_bind; [|intros ?]
  | |- readonly (attempt _) => apply readonly_attempt
  | |- readonly (ignore _) => unfold ignore
  | |- readonly (map_err _ _) => apply readonly_map_err
  | |- preserves _ (bind _ _) =>
      apply preserves_bind; [|let E := fresh "E" in intros ? ? ? ? E]
  | |- preserves _ (attempt _) => apply preserves_attempt
  | |- preserves _ (ignore _) => unfold ignore
  | |- preserves _ (map_err _ _) => apply preserves_map_err
  | |- preserves _ (modify _) => apply preserves_modify; intros ? ?
  | |- readonly (if decide ?P then _ else _) => destruct (decide P)
  | |- preserves _ (if decide ?P then _ else _) => destruct (decide P)
  | |- readonly (match ?x with _ => _ end) => destruct x
  | |- preserves _ (match ?x with _ => _ end) => destruct x
  | |- readonly _ => solve [eauto with effects]
  | |- preserves _ _ => solve [eauto with effects]
  | |- preserves _ _ => apply readonly_preserves; solve [eauto with effects]
  end.
Ltac effects := repeat effects_step.

(** *** In surroundings that satisfy [E]

    [keeps E P m] is [preserves P m] for the surroundings in [E]; a
    continuation may rely on what the first part answered there. *)
Definition keeps {S A} (E : Env -> Prop) (P : S -> Prop) (m : M S A) : Prop :=
  forall env s, E env -> P (st s) -> P (st (snd (m env s))).

Section Keeps.
Context {S : Type} (E : Env -> Prop) (P : S -> Prop).

Lemma preserves_keeps {A} (m : M S A) : preserves P m -> keeps E P m.
Proof. intros Hm env s _. apply Hm. Qed.

Lemma keeps_run {A} (m : M S A) env s r s' :
  keeps E P m -> E env -> m env s = (r, s') -> P (st s) -> P (st s').
Proof. intros Hm HE Hr HP. specialize (Hm env s HE HP). by rewrite Hr in Hm. Qed.

Lemma keeps_bind {A B} (m : M S A) (k : A -> M S B) :
  keeps E P m ->
  (forall a env s t, E env -> m env s = (Ok a, t) -> keeps E P (k a)) ->
  keeps E P (bind m k).
Proof.
  intros Hm Hk env s HE HP. unfold bind. specialize (Hm env s HE HP).
  destruct (m env s) as [[a|e|p] t] eqn:Er; simpl in *; [|done|done].
  by apply (Hk _ _ _ _ HE Er).
Qed.

Lemma keeps_attempt {A} (m : M S A) : keeps E P m -> keeps E P (attempt m).
Proof.
  intros Hm env s HE HP. unfold attempt. specialize (Hm env s HE HP).
  by destruct (m env s) as [[a|e|p] t].
Qed.

Lemma keeps_map_err {A} g (m : M S A) : keeps E P m -> keeps E P (map_err g m).
Proof.
  intros Hm env s HE HP. unfold map_err. specialize (Hm env s HE HP).
  by destruct (m env s) as [[a|e|p] t].
Qed.

End Keeps.

Lemma keeps_and {S A} E (P Q : S -> Prop) (m : M S A) :
  keeps E P m -> keeps E Q m -> keeps E (fun x => P x /\ Q x) m.
Proof. intros HP HQ env s HE [? ?]. split; [by apply HP|by apply HQ]. Qed.

Lemma preserves_and {S A} (P Q : S -> Prop) (m : M S A) :
  preserves P m -> preserves Q m -> preserves (fun x => P x /\ Q x) m.
Proof. intros HP HQ env s [? ?]. split; [by apply HP|by apply HQ]. Qed.

Lemma keeps_zoom {S T A} (E : Env -> Prop) (P : S -> Prop) (Q : T -> Prop) get put (m : M T A) :
  (forall x, P x -> Q (get x)) -> (forall x t, P x -> Q t -> P (put t x)) ->
  keeps E Q m -> keeps E P (zoom get put m).
Proof.
  intros Hg Hp Hm env s HE HP. unfold zoom.
  specialize (Hm env (mkSt (tick s) (get (st s))) HE (Hg _ HP)).
  destruct (m env _) as [r t]. simpl in *. auto.
Qed.

Ltac keeping_step :=
  match goal with
  | |- keeps _ _ (bind _ _) =>
      apply keeps_bind; [|let HE := fresh "HE" in let E := fresh "E" in intros ? ? ? ? HE E]
  | |- keeps _ _ (attempt _) => apply keeps_attempt
  | |- keeps _ _ (ignore _) => unfold ignore
  | |- keeps _ _ (map_err _ _) => apply keeps_map_err
  | |- keeps _ _ (if decide ?P then _ else _) => destruct (decide P)
  | |- keeps _ _ (match ?x with _ => _ end) => destruct x
  | |- keeps _ _ _ => apply preserves_keeps; solve [effects]
  end.
Ltac keeping := repeat keeping_step.

(** ** Lists of rows *)

Lemma Forall_filter_weaken {A} (P Q : A -> Prop) `{!forall x, Decision (Q x)} (l : list A) :
  Forall P l -> Forall P (filter Q l).
Proof. rewrite !Forall_forall. intros HP x [_ Hx]%list_elem_of_filter. auto. Qed.

Lemma filter_map_agree {A} (P : A -> Prop) `{!forall x, Decision (P x)} (f : A -> A) (l : list A) :
  (forall x, P (f x) <-> P x) -> filter P (map f l) = map f (filter P l).
Proof.
  intros Hf. induction l as [|x l IH]; [done|]. simpl.
  rewrite !filter_cons. destruct (decide (P x)) as [Hx|Hx].
  - rewrite decide_True by (by apply Hf). by rewrite IH.
  - rewrite decide_False by (by rewrite Hf). done.
Qed.

Lemma filter_none {A} (P : A -> Prop) `{!forall x, Decision (P x)} (l : list A) :
  (forall x, x ∈ l -> ~ P x) -> filter P l = [].
Proof.
  induction l as [|x l IH]; intros HP; [done|].
  rewrite filter_cons_False by (apply HP; left).
  apply IH. intros y Hy. apply HP. by right.
Qed.

(** The rows outside an update or a deletion. *)
Lemma filter_map_other {A} (P : A -> Prop) `{!forall x, Decision (P x)} (f : A -> A) (l : list A) :
  (forall x, P (f x) <-> P x) -> (forall x, P x -> f x = x) -> filter P (map f l) = filter P l.
Proof.
  intros Hf Hid. induction l as [|x l IH]; [done|]. simpl. rewrite !filter_cons.
  destruct (decide (P x)) as [Hx|Hx].
  - rewrite decide_True by (by apply Hf). by rewrite IH, Hid.
  - rewrite decide_False by (by rewrite Hf). done.
Qed.

Lemma filter_filter_other {A} (P Q : A -> Prop) `{!forall x, Decision (P x), !forall x, Decision (Q x)}
    (l : list A) :
  (forall x, x ∈ l -> P x -> Q x) -> filter P (filter Q l) = filter P l.
Proof.
  induction l as [|x l IH]; intros HQ; [done|]. rewrite !filter_cons.
  assert (filter P (filter Q l) = filter P l) as IH' by (apply IH; intros y Hy; apply HQ; by right).
  destruct (decide (Q x)) as [Hq|Hq].
  - rewrite filter_cons. by destruct (decide (P x)); rewrite IH'.
  - rewrite decide_False; [done|]. intros Hp. apply Hq, HQ; [left|done].
Qed.

Lemma filter_snoc_other {A} (P : A -> Prop) `{!forall x, Decision (P x)} (l : list A) x :
  ~ P x -> filter P (l ++ [x]) = filter P l.
Proof. intros Hx. by rewrite filter_app, filter_cons_False, app_nil_r. Qed.

Lemma filter_all {A} (P : A -> Prop) `{!forall x, Decision (P x)} (l : list A) :
  Forall P l -> filter P l = l.
Proof.
  induction 1 as [|x l Hx Hl IH]; [done|]. by rewrite filter_cons_True, IH.
Qed.

(** *** Tables with a key *)
Section Keyed.
Context {A K : Type} (key : A -> K).
Implicit Types (l : list A).

Lemma filter_key_unique (p : A -> bool) l r :
  NoDup (key <$> l) -> r ∈ l -> (forall x, x ∈ l -> p x = true <-> key x = key r) ->
  filter p l = [r].
Proof.
  induction l as [|x l IH]; intros Hnd Hr Hp; [by apply elem_of_nil in Hr|].
  apply NoDup_cons in Hnd as [Hx Hnd]. rewrite filter_cons.
  apply elem_of_cons in Hr as [->|Hr].
  - rewrite decide_True by (apply Is_true_true, Hp; [left|done]).
    f_equal. apply filter_none. intros y Hy Hpy%Is_true_true%Hp; [|by right].
    apply Hx, list_elem_of_fmap. eauto.
  - rewrite decide_False.
    + apply IH; [done|done|]. intros y Hy. apply Hp. by right.
    + intros Hpx%Is_true_true%Hp; [|left]. apply Hx, list_elem_of_fmap. eauto.
Qed.

Lemma NoDup_key_snoc l r :
  NoDup (key <$> l) -> (forall x, x ∈ l -> key x <> key r) -> NoDup (key <$> l ++ [r]).
Proof.
  intros Hnd Hx. rewrite fmap_app. apply NoDup_app. split_and!; [done| |apply NoDup_singleton].
  intros k (x & -> & Hin)%list_elem_of_fmap Hk%list_elem_of_singleton. by eapply Hx.
Qed.

Lemma NoDup_key_filter (P : A -> Prop) `{!forall x, Decision (P x)} l :
  NoDup (key <$> l) -> NoDup (key <$> filter P l).
Proof.
  induction l as [|x l IH]; [done|]. intros [Hx Hnd]%NoDup_cons. rewrite filter_cons.
  case_decide; [|auto]. apply NoDup_cons. split; [|auto].
  intros (y & Hy & [_ Hin]%list_elem_of_filter)%list_elem_of_fmap.
  apply Hx, list_elem_of_fmap. eauto.
Qed.

Lemma NoDup_key_map (f : A -> A) l :
  (forall x, key (f x) = key x) -> NoDup (key <$> l) -> NoDup (key <$> map f l).
Proof.
  intros Hf. replace (key <$> map f l) with (key <$> l); [done|].
  induction l as [|x l IH]; [done|].
  change (key x :: (key <$> l) = key (f x) :: (key <$> map f l)). by rewrite Hf, IH.
Qed.

Lemma map_ext_key (f : A -> A) l : (forall x, key (f x) = key x) -> key <$> map f l = key <$> l.
Proof.
  intros Hf. induction l as [|x l IH]; [done|].
  change (key (f x) :: (key <$> map f l) = key x :: (key <$> l)). by rewrite Hf, IH.
Qed.

Lemma Forall_key_snoc {B} (f : B -> K) (gs : list B) l x :
  Forall (fun g => f g ∈ (key <$> l)) gs -> Forall (fun g => f g ∈ (key <$> l ++ [x])) gs.
Proof.
  intros H. eapply Forall_impl; [exact H|]. intros g Hg. rewrite fmap_app. apply elem_of_app. by left.
Qed.

(** Rows with one key are one row. *)
Lemma NoDup_key_inj l x y : NoDup (key <$> l) -> x ∈ l -> y ∈ l -> key x = key y -> x = y.
Proof.
  induction l as [|z l IH]; [by intros _ []%elem_of_nil|].
  intros [Hz Hnd]%NoDup_cons [->|Hx]%elem_of_cons [->|Hy]%elem_of_cons Hk; [done| | |auto].
  - exfalso. apply Hz. rewrite Hk. apply list_elem_of_fmap. eauto.
  - exfalso. apply Hz. rewrite <-Hk. apply list_elem_of_fmap. eauto.
Qed.

End Keyed.

(** An update of the row of id [i] keeps another key unique when the new key is
    free. *)
Lemma NoDup_key_map_one {A I K} `{EqDecision I} (id : A -> I) (key : A -> K) (f : A -> A) (i : I) (l : list A) :
  NoDup (id <$> l) -> NoDup (key <$> l) ->
  (forall x, x ∈ l -> id x <> i -> f x = x) ->
  (forall x y, x ∈ l -> y ∈ l -> id x = i -> id y <> i -> key (f x) <> key y) ->
  NoDup (key <$> map f l).
Proof.
  induction l as [|x l IH]; [constructor|]. intros Hid Hk Hf Hnew.
  apply NoDup_cons in Hid as [Hx Hid]. apply NoDup_cons in Hk as [Hkx Hk].
  assert (x ∈ x :: l) as Hin by left.
  change (NoDup (key (f x) :: (key <$> map f l))). apply NoDup_cons. split.
  2: { apply IH; [done|done| |]; intros; [apply Hf|apply Hnew]; try done; by right. }
  intros (y' & Heq & (y & -> & Hy)%list_elem_of_fmap)%list_elem_of_fmap.
  assert (y ∈ x :: l) as Hin' by (by right).
  destruct (decide (id x = i)) as [Hxi|Hxi], (decide (id y = i)) as [Hyi|Hyi].
  - apply Hx, list_elem_of_fmap. exists y. split; [congruence|done].
  - apply (Hnew x y); try done. rewrite <-(Hf y) by done. done.
  - apply (Hnew y x); try done. rewrite <-(Hf x) by done. done.
  - rewrite (Hf x), (Hf y) in Heq by done. apply Hkx, list_elem_of_fmap. eauto.
Qed.

Lemma existsb_false {A} (f : A -> bool) l :
  existsb f l = false <-> forall x, x ∈ l -> f x = false.
Proof.
  induction l as [|y l IH]; simpl.
  - split; [|done]. intros _ x []%elem_of_nil.
  - rewrite orb_false_iff, IH. split.
    + intros [Hy Hl] x [->|Hx]%elem_of_cons; auto.
    + intros H. split; [apply H; left|]. intros x Hx. apply H. by right.
Qed.

Lemma existsb_elem {A} (p : A -> bool) l : existsb p l = true <-> exists x, x ∈ l /\ p x = true.
Proof.
  rewrite existsb_exists. split; intros (x & Hx & Hp); exists x; split; try done;
    by apply list_elem_of_In.
Qed.

Lemma filter_decide {A} (P : A -> Prop) `{!forall x, Decision (P x)} (l : list A) :
  filter (fun x => bool_decide (P x)) l = filter P l.
Proof. apply list_filter_iff. intros x. by rewrite Is_true_true, bool_decide_eq_true. Qed.

(** *** Automation

    [tables] closes the invariants of keyed tables after an insertion, an
    update that keeps the key and a deletion. *)
Create HintDb tables.
#[export] Hint Resolve NoDup_key_snoc NoDup_key_filter NoDup_key_map Forall_filter_weaken : tables.
