(* ===== verification/Bcrypt.v ===== *)
(** * Password hashes

    golang.org/x/crypto/bcrypt, as the services use it: hashing a password
    with a fresh salt, and checking one against a hash. *)
From S2P Require Import Prelude.
Local Open Scope go_scope.

(** [bcrypt.GenerateFromPassword] draws its salt from the surroundings (the
    first argument is the observation it makes) and rejects passwords longer
    than 72 bytes; [bcrypt.CompareHashAndPassword] returns nil on [true]. *)
Class Bcrypt : Type := {
  bcrypt_Generate : nat -> string -> string + error;
  CompareHashAndPassword : string -> string -> bool
}.

(** Documented behaviour: a hash accepts the password it was made from, and is
    60 bytes long, well within the columns it is stored in. *)
Class BcryptLaws {bcrypt : Bcrypt} : Prop := {
  bcrypt_roundtrip : forall n pw h, bcrypt_Generate n pw = inl h -> CompareHashAndPassword h pw = true;
  bcrypt_length : forall n pw h, bcrypt_Generate n pw = inl h -> String.length h <= 255
}.

Definition GenerateFromPassword {bcrypt : Bcrypt} {S} (password : string) : M S string :=
  r <- observe (fun _ n => bcrypt_Generate n password);;
  match r with inl h => ret h | inr e => fail e end.

Lemma GenerateFromPassword_Ok_inv {bcrypt : Bcrypt} {S} pw env (s : St S) h u :
  GenerateFromPassword pw env s = (Ok h, u) ->
  bcrypt_Generate (tick s) pw = inl h /\ u = mkSt (Datatypes.S (tick s)) (st s).
Proof. unfold GenerateFromPassword. intros H. minv. done. Qed.

Lemma readonly_GenerateFromPassword {bcrypt : Bcrypt} {S} pw :
  readonly (S := S) (GenerateFromPassword pw).
Proof. unfold GenerateFromPassword. effects. Qed.
#[export] Hint Resolve readonly_GenerateFromPassword : effects.
