(* ===== verification/GoStd.v ===== *)
(** * The parts of Go's standard library the services use

    Byte-string functions of [strings], [encoding/base64], [encoding/hex],
    [crypto/subtle] and [strconv], as executable definitions.  A Go string is
    a sequence of bytes, here [string].  [strings.ToLower], [strings.Fields]
    and [strings.TrimSpace] are modelled on the ASCII range: the non-ASCII
    letters and spaces of Unicode are left alone. *)
From S2P Require Import Prelude.
From Stdlib Require Import NArith.

(** ** Bytes *)

Definition byte_N (a : Ascii.ascii) : N := Ascii.N_of_ascii a.

Lemma byte_N_lt a : (byte_N a < 256)%N.
Proof. apply Ascii.N_ascii_bounded. Qed.

Lemma byte_N_inv a : Ascii.ascii_of_N (byte_N a) = a.
Proof. apply Ascii.ascii_N_embedding. Qed.

(** ** package strings *)

(** The ASCII bytes that [strings.Fields] and [strings.TrimSpace] treat as
    white space. *)
Definition is_space (a : Ascii.ascii) : bool :=
  match byte_N a with
  | 9 | 10 | 11 | 12 | 13 | 32 => true
  | _ => false
  end%N.

(** Splitting off the leading bytes that satisfy a predicate. *)
Fixpoint span_bytes (f : Ascii.ascii -> bool) (s : string) : string * string :=
  match s with
  | String a r =>
      if f a then let '(x, y) := span_bytes f r in (String a x, y) else (estr, s)
  | EmptyString => (estr, estr)
  end.

(** [strings.Fields]: the maximal runs of non-space bytes, [cur] being the
    run under construction, reversed. *)
Fixpoint fields_aux (cur s : string) : list string :=
  match s with
  | EmptyString => if decide (cur = estr) then [] else [String.rev cur]
  | String a r =>
      if is_space a
      then (if decide (cur = estr) then [] else [String.rev cur]) ++ fields_aux estr r
      else fields_aux (String a cur) r
  end.

Definition strings_Fields (s : string) : list string := fields_aux estr s.

(** [strings.Join(l, sep)] *)
Fixpoint strings_Join (l : list string) (sep : string) : string :=
  match l with
  | [] => estr
  | [x] => x
  | x :: r => x +:+ sep +:+ strings_Join r sep
  end.

(** [strings.Split(s, sep)] for a one-byte separator. *)
Fixpoint strings_Split (s : string) (sep : Ascii.ascii) : list string :=
  match s with
  | EmptyString => [estr]
  | String a r =>
      if decide (a = sep) then estr :: strings_Split r sep
      else match strings_Split r sep with
           | h :: t => String a h :: t
           | [] => [String a estr]
           end
  end.

Definition trim_left (f : Ascii.ascii -> bool) (s : string) : string :=
  snd (span_bytes f s).

Definition trim_right (f : Ascii.ascii -> bool) (s : string) : string :=
  String.rev (trim_left f (String.rev s)).

(** [strings.TrimSpace(s)] *)
Definition strings_TrimSpace (s : string) : string :=
  trim_right is_space (trim_left is_space s).

(** [strings.TrimRight(s, cutset)] for a one-byte cutset. *)
Definition strings_TrimRight (s : string) (c : Ascii.ascii) : string :=
  trim_right (fun a => bool_decide (a = c)) s.

Definition lower_byte (a : Ascii.ascii) : Ascii.ascii :=
  let n := byte_N a in
  if ((65 <=? n) && (n <=? 90))%N then Ascii.ascii_of_N (n + 32) else a.

(** [strings.ToLower(s)] *)
Fixpoint strings_ToLower (s : string) : string :=
  match s with
  | EmptyString => estr
  | String a r => String (lower_byte a) (strings_ToLower r)
  end.

(** [strings.HasPrefix(s, prefix)] *)
Definition strings_HasPrefix (s prefix : string) : bool := String.prefix prefix s.

(** [strings.Contains(s, substr)] *)
Fixpoint strings_Contains (s substr : string) : bool :=
  String.prefix substr s ||
  match s with EmptyString => false | String _ r => strings_Contains r substr end.

(** [strings.ReplaceAll(s, old, new)] for one-byte [old] and [new]. *)
Fixpoint strings_ReplaceAll (s : string) (old new : Ascii.ascii) : string :=
  match s with
  | EmptyString => estr
  | String a r =>
      String (if decide (a = old) then new else a) (strings_ReplaceAll r old new)
  end.

(** Dropping a prefix of known length, as [s[n:]]. *)
Fixpoint drop_bytes (n : nat) (s : string) : string :=
  match n, s with
  | O, _ => s
  | S k, String _ r => drop_bytes k r
  | S _, EmptyString => estr
  end.

(** ** package encoding/hex *)

Definition hex_digit (n : N) : Ascii.ascii :=
  Ascii.ascii_of_N (if (n <? 10)%N then 48 + n else 87 + n).

Definition hex_value (a : Ascii.ascii) : option N :=
  let n := byte_N a in
  if ((48 <=? n) && (n <=? 57))%N then Some (n - 48)%N
  else if ((97 <=? n) && (n <=? 102))%N then Some (n - 87)%N
  else None.

(** [hex.EncodeToString] *)
Fixpoint hex_Encode (s : string) : string :=
  match s with
  | EmptyString => estr
  | String a r =>
      String (hex_digit (byte_N a / 16)) (String (hex_digit (byte_N a mod 16)) (hex_Encode r))
  end.

Fixpoint hex_decode (s : string) : option string :=
  match s with
  | EmptyString => Some estr
  | String a (String b r) =>
      match hex_value a, hex_value b, hex_decode r with
      | Some x, Some y, Some t => Some (String (Ascii.ascii_of_N (16 * x + y)) t)
      | _, _, _ => None
      end
  | String _ EmptyString => None
  end.

(** A property of the numbers below [k] is checked by running through them. *)
Fixpoint below (k : nat) (f : N -> bool) : bool :=
  match k with O => true | S k' => f (N.of_nat k') && below k' f end.

Lemma below_spec k f n : below k f = true -> (n < N.of_nat k)%N -> f n = true.
Proof.
  induction k as [|k IH]; simpl; [lia|].
  intros [Hk Hb]%andb_true_iff Hn.
  destruct (decide (n = N.of_nat k)) as [->|]; [done|]. apply IH; [done|lia].
Qed.

Lemma hex_value_digit n : (n < 16)%N -> hex_value (hex_digit n) = Some n.
Proof.
  intros Hn.
  pose proof (below_spec 16 (fun n => bool_decide (hex_value (hex_digit n) = Some n)) n
    ltac:(by vm_compute) Hn) as H.
  by apply bool_decide_eq_true in H.
Qed.

(** Decoding inverts hexadecimal encoding. *)
Lemma hex_decode_Encode s : hex_decode (hex_Encode s) = Some s.
Proof.
  induction s as [|a s IH]; [done|]. simpl.
  pose proof (byte_N_lt a) as Ha.
  rewrite !hex_value_digit, IH;
    [|apply N.mod_lt; lia|apply N.Div0.div_lt_upper_bound; lia].
  do 2 f_equal. rewrite <-(byte_N_inv a) at 3. f_equal. symmetry. apply N.div_mod'.
Qed.

Lemma hex_Encode_length s : String.length (hex_Encode s) = 2 * String.length s.
Proof. induction s as [|a s IH]; simpl; [done|]. rewrite IH. lia. Qed.

(** ** package encoding/base64: RawURLEncoding *)

Definition b64_char (n : N) : Ascii.ascii :=
  Ascii.ascii_of_N
    (if n <? 26 then 65 + n
     else if n <? 52 then 71 + n
     else if n <? 62 then n - 4
     else if n =? 62 then 45 else 95)%N.

Definition b64_value (a : Ascii.ascii) : option N :=
  (let n := byte_N a in
   if (65 <=? n) && (n <=? 90) then Some (n - 65)
   else if (97 <=? n) && (n <=? 122) then Some (n - 71)
   else if (48 <=? n) && (n <=? 57) then Some (n + 4)
   else if n =? 45 then Some 62
   else if n =? 95 then Some 63
   else None)%N.

(** [base64.RawURLEncoding.EncodeToString]: three bytes become four digits,
    a last group of one or two bytes becomes two or three, no padding. *)
Fixpoint base64_RawURL (s : string) : string :=
  match s with
  | String a (String b (String c r)) =>
      String (b64_char (byte_N a / 4))
     (String (b64_char (byte_N a mod 4 * 16 + byte_N b / 16))
     (String (b64_char (byte_N b mod 16 * 4 + byte_N c / 64))
     (String (b64_char (byte_N c mod 64)) (base64_RawURL r))))
  | String a (String b EmptyString) =>
      String (b64_char (byte_N a / 4))
     (String (b64_char (byte_N a mod 4 * 16 + byte_N b / 16))
     (String (b64_char (byte_N b mod 16 * 4)) estr))
  | String a EmptyString =>
      String (b64_char (byte_N a / 4)) (String (b64_char (byte_N a mod 4 * 16)) estr)
  | EmptyString => estr
  end%N.

Fixpoint base64_decode (s : string) : option string :=
  match s with
  | String p (String q (String u (String v r))) =>
      match b64_value p, b64_value q, b64_value u, b64_value v, base64_decode r with
      | Some w, Some x, Some y, Some z, Some t =>
          Some (String (Ascii.ascii_of_N (w * 4 + x / 16))
               (String (Ascii.ascii_of_N (x mod 16 * 16 + y / 4))
               (String (Ascii.ascii_of_N (y mod 4 * 64 + z)) t)))
      | _, _, _, _, _ => None
      end
  | String p (String q (String u EmptyString)) =>
      match b64_value p, b64_value q, b64_value u with
      | Some w, Some x, Some y =>
          Some (String (Ascii.ascii_of_N (w * 4 + x / 16))
               (String (Ascii.ascii_of_N (x mod 16 * 16 + y / 4)) estr))
      | _, _, _ => None
      end
  | String p (String q EmptyString) =>
      match b64_value p, b64_value q with
      | Some w, Some x => Some (String (Ascii.ascii_of_N (w * 4 + x / 16)) estr)
      | _, _ => None
      end
  | String _ EmptyString => None
  | EmptyString => Some estr
  end%N.

Lemma b64_value_char n : (n < 64)%N -> b64_value (b64_char n) = Some n.
Proof.
  intros Hn.
  pose proof (below_spec 64 (fun n => bool_decide (b64_value (b64_char n) = Some n)) n
    ltac:(by vm_compute) Hn) as H.
  by apply bool_decide_eq_true in H.
Qed.

(** Division facts for the digit arithmetic of base64. *)
Ltac bytes_arith :=
  repeat match goal with
  | |- context [byte_N ?a] =>
      lazymatch goal with
      | _ : (byte_N a < 256)%N |- _ => fail
      | _ => pose proof (byte_N_lt a)
      end
  end.

Lemma b64_join a : Ascii.ascii_of_N a = Ascii.ascii_of_N (byte_N (Ascii.ascii_of_N a)).
Proof. by rewrite byte_N_inv. Qed.

Lemma byte_eq_N (n : N) (a : Ascii.ascii) : n = byte_N a -> Ascii.ascii_of_N n = a.
Proof. intros ->. apply byte_N_inv. Qed.

Lemma string_ind3 (P : string -> Prop) :
  P estr -> (forall a, P (String a estr)) -> (forall a b, P (String a (String b estr))) ->
  (forall a b c s, P s -> P (String a (String b (String c s)))) -> forall s, P s.
Proof.
  intros H0 H1 H2 H3.
  assert (forall n s, String.length s <= n -> P s) as H; [|intros s; by apply (H (String.length s))].
  induction n as [|n IH]; intros [|a [|b [|c s]]] Hs; simpl in *; auto; try lia.
  apply H3, IH. lia.
Qed.

Lemma b64_div_add x y k : (y < k)%N -> ((x * k + y) / k = x)%N.
Proof. intros. rewrite N.add_comm, N.div_add by lia. rewrite N.div_small; lia. Qed.

Lemma b64_mod_add x y k : (y < k)%N -> ((x * k + y) mod k = y)%N.
Proof. intros. rewrite N.add_comm, N.Div0.mod_add. by apply N.mod_small. Qed.

Lemma b64_div_lt n k j : (n < k * j)%N -> (k <> 0)%N -> (n / k < j)%N.
Proof. intros. by apply N.Div0.div_lt_upper_bound. Qed.

(** Decoding inverts base64url encoding; in particular the encoding is
    injective. *)
Lemma base64_decode_RawURL s : base64_decode (base64_RawURL s) = Some s.
Proof.
  assert (forall n k : N, (k <> 0)%N -> (n mod k < k)%N) as Hmod by (intros; by apply N.mod_lt).
  induction s as [|a|a b|a b c s IH] using string_ind3; [done|..]; simpl.
  all: bytes_arith.
  all: pose proof (Hmod (byte_N a) 4%N ltac:(done)).
  all: pose proof (b64_div_lt (byte_N a) 4 64 ltac:(lia) ltac:(done)).
  2,3: pose proof (Hmod (byte_N b) 16%N ltac:(done)).
  2,3: pose proof (b64_div_lt (byte_N b) 16 16 ltac:(lia) ltac:(done)).
  3: pose proof (Hmod (byte_N c) 64%N ltac:(done)).
  3: pose proof (b64_div_lt (byte_N c) 64 4 ltac:(lia) ltac:(done)).
  all: rewrite !b64_value_char by lia.
  - do 2 f_equal. apply byte_eq_N. rewrite N.div_mul by done.
    rewrite N.mul_comm. symmetry. apply N.div_mod'.
  - f_equal. f_equal; [|f_equal]; apply byte_eq_N.
    + rewrite b64_div_add by lia. rewrite N.mul_comm. symmetry. apply N.div_mod'.
    + rewrite b64_mod_add, N.div_mul by lia. rewrite N.mul_comm. symmetry. apply N.div_mod'.
  - rewrite IH. f_equal. f_equal; [|f_equal; [|f_equal]]; apply byte_eq_N.
    + rewrite b64_div_add by lia. rewrite N.mul_comm. symmetry. apply N.div_mod'.
    + rewrite b64_mod_add, b64_div_add by lia. rewrite N.mul_comm. symmetry. apply N.div_mod'.
    + rewrite b64_mod_add by lia. rewrite N.mul_comm. symmetry. apply N.div_mod'.
Qed.

Lemma base64_RawURL_inj s1 s2 : base64_RawURL s1 = base64_RawURL s2 -> s1 = s2.
Proof.
  intros H. apply (f_equal base64_decode) in H.
  rewrite !base64_decode_RawURL in H. by simplify_eq.
Qed.

Lemma base64_RawURL_nonempty s : s <> estr -> base64_RawURL s <> estr.
Proof. destruct s as [|a [|b [|c s]]]; done. Qed.

Example base64_RawURL_vector :
  base64_RawURL "any carnal pleas" = "YW55IGNhcm5hbCBwbGVhcw".
Proof. reflexivity. Qed.

(** [subtle.ConstantTimeCompare(x, y)]: 1 when the slices are equal, 0
    otherwise; the accumulation over the bytes, not a short cut. *)
Fixpoint xor_acc (x y : string) (v : N) : N :=
  match x, y with
  | String a x', String b y' => xor_acc x' y' (N.lor v (N.lxor (byte_N a) (byte_N b)))
  | _, _ => v
  end.

Definition ConstantTimeCompare (x y : string) : Z :=
  if decide (String.length x = String.length y)
  then if (xor_acc x y 0 =? 0)%N then 1%Z else 0%Z
  else 0%Z.

Lemma xor_acc_zero x y v :
  String.length x = String.length y -> xor_acc x y v = 0%N <-> v = 0%N /\ x = y.
Proof.
  revert y v. induction x as [|a x IH]; intros [|b y] v Hl; simpl in *; try done.
  - naive_solver.
  - rewrite IH by lia. rewrite N.lor_eq_0_iff, N.lxor_eq_0_iff.
    assert (byte_N a = byte_N b <-> a = b) as ->; [|naive_solver].
    split; [|naive_solver]. intros E.
    by rewrite <-(byte_N_inv a), E, byte_N_inv.
Qed.

(** The constant-time comparison decides equality. *)
Lemma ConstantTimeCompare_eq x y : ConstantTimeCompare x y = 1%Z <-> x = y.
Proof.
  unfold ConstantTimeCompare. case_decide as Hl; [|naive_solver].
  pose proof (xor_acc_zero x y 0 Hl) as Hx.
  destruct (N.eqb_spec (xor_acc x y 0) 0); naive_solver.
Qed.

(** ** Facts about the string functions *)

Lemma prefix_spec p s : String.prefix p s = true <-> exists q, s = p +:+ q.
Proof.
  revert s. induction p as [|a p IH]; intros s; simpl; [by destruct s; split; eauto|].
  destruct s as [|b s]; [by split; [|intros [? ?]]|].
  simpl. destruct (Ascii.ascii_dec a b) as [->|Hab].
  - rewrite IH. split; intros [q E]; exists q; [by rewrite E|by injection E].
  - split; [done|]. intros [q E]. by injection E as ->.
Qed.

Lemma Contains_app s sub : strings_Contains s sub = true <-> exists p q, s = p +:+ sub +:+ q.
Proof.
  assert (forall s, strings_Contains s sub =
    String.prefix sub s || match s with EmptyString => false | String _ r => strings_Contains r sub end)
    as Hu by (clear; by intros []).
  induction s as [|a s IH]; rewrite Hu, orb_true_iff, prefix_spec.
  - split; [intros [[q E]|]; [by exists estr, q|done]|].
    intros ([|b p] & q & E); [left; eauto|done].
  - rewrite IH. split.
    + intros [[q E]|(p & q & ->)]; [by exists estr, q|by exists (String a p), q].
    + intros ([|b p] & q & E); simpl in *; [left; eauto|].
      right. injection E as -> ->. eauto.
Qed.

Lemma app_str_assoc a b c : (a +:+ b) +:+ c = a +:+ (b +:+ c).
Proof. induction a as [|x a IH]; [done|]. exact (f_equal (String _) IH). Qed.

Lemma app_estr s : s +:+ estr = s.
Proof. induction s as [|c s IH]; [done|]. exact (f_equal (String _) IH). Qed.

Lemma span_bytes_app f s x y : span_bytes f s = (x, y) -> s = x +:+ y.
Proof.
  revert x y. induction s as [|a s IH]; simpl; intros x y H; [by simplify_eq|].
  destruct (f a); [|by simplify_eq]. destruct (span_bytes f s) as [x' y'].
  simplify_eq. exact (f_equal (String a) (IH _ _ eq_refl)).
Qed.

Lemma drop_bytes_app p q : drop_bytes (String.length p) (p +:+ q) = q.
Proof. induction p as [|a p IH]; [done|]. exact IH. Qed.

(** ** Dashed hexadecimal groups, as in a UUID *)

Definition is_hex (a : Ascii.ascii) : bool :=
  (let n := byte_N a in
   ((48 <=? n) && (n <=? 57)) || ((97 <=? n) && (n <=? 102)) || ((65 <=? n) && (n <=? 70)))%N.

(** The rest of [s] after exactly [n] hexadecimal digits. *)
Fixpoint hex_run (n : nat) (s : string) : option string :=
  match n, s with
  | O, _ => Some s
  | S k, String a r => if is_hex a then hex_run k r else None
  | S _, EmptyString => None
  end.

(** Groups of hexadecimal digits of the given lengths separated by dashes,
    and nothing after them. *)
Fixpoint hex_groups (ns : list nat) (s : string) : bool :=
  match ns with
  | [] => false
  | n :: ns' =>
      match hex_run n s, ns' with
      | Some EmptyString, [] => true
      | Some (String a r), _ :: _ => bool_decide (byte_N a = 45%N) && hex_groups ns' r
      | _, _ => false
      end
  end.

(** An encoded string is lower-case hexadecimal. *)
Lemma hex_digit_facts n :
  (n < 16)%N -> is_hex (hex_digit n) = true /\ lower_byte (hex_digit n) = hex_digit n.
Proof.
  intros Hn.
  pose proof (below_spec 16 (fun n => is_hex (hex_digit n) && bool_decide (lower_byte (hex_digit n) = hex_digit n))
    n ltac:(by vm_compute) Hn) as H.
  apply andb_true_iff in H as [H1 H2]. by apply bool_decide_eq_true in H2.
Qed.

Lemma byte_nibbles a : (byte_N a / 16 < 16)%N /\ (byte_N a mod 16 < 16)%N.
Proof. split; [apply N.Div0.div_lt_upper_bound, byte_N_lt|by apply N.mod_lt]. Qed.

Lemma hex_run_Encode s r : hex_run (2 * String.length s) (hex_Encode s +:+ r) = Some r.
Proof.
  induction s as [|a s IH]; [done|].
  replace (2 * String.length (String a s)) with (S (S (2 * String.length s))) by (simpl; lia).
  destruct (byte_nibbles a) as [H1 H2].
  change (hex_Encode (String a s) +:+ r) with
    (String (hex_digit (byte_N a / 16)) (String (hex_digit (byte_N a mod 16)) (hex_Encode s +:+ r))).
  cbn [hex_run]. rewrite (proj1 (hex_digit_facts _ H1)), (proj1 (hex_digit_facts _ H2)). exact IH.
Qed.

Lemma ToLower_hex_Encode s : strings_ToLower (hex_Encode s) = hex_Encode s.
Proof.
  induction s as [|a s IH]; [done|]. destruct (byte_nibbles a) as [H1 H2].
  cbn [hex_Encode strings_ToLower]. rewrite IH.
  by rewrite (proj2 (hex_digit_facts _ H1)), (proj2 (hex_digit_facts _ H2)).
Qed.

(** ** [strconv.Atoi]

    [ParseUint]'s loop over the digits: a byte that is not one stops it with a
    syntax error, a value past 64 bits with a range error. *)
Inductive digits_result : Type := DigitsOk (n : Z) | DigitsRange | DigitsSyntax.

Fixpoint parse_digits (n : Z) (s : string) : digits_result :=
  match s with
  | EmptyString => DigitsOk n
  | String a r =>
      let c := byte_N a in
      if ((48 <=? c) && (c <=? 57))%N then
        let n' := (10 * n + Z.of_N (c - 48))%Z in
        if decide (n' >= 2 ^ 64)%Z then DigitsRange else parse_digits n' r
      else DigitsSyntax
  end.

(** The value and whether the error is nil: 0 on a syntax error, the nearest
    [int] on a range error. *)
Definition strconv_Atoi (s : string) : Z * bool :=
  let '(neg, digits) :=
    match s with
    | EmptyString => (false, s)
    | String a r => if decide (byte_N a = 43%N) then (false, r)
                    else if decide (byte_N a = 45%N) then (true, r) else (false, s)
    end in
  if decide (digits = estr) then (0%Z, false)
  else
    match parse_digits 0 digits with
    | DigitsSyntax => (0%Z, false)
    | DigitsRange => ((if (neg : bool) then - 2 ^ 63 else 2 ^ 63 - 1)%Z, false)
    | DigitsOk n =>
        if neg then (if decide (n > 2 ^ 63)%Z then (- 2 ^ 63, false) else (- n, true))%Z
        else (if decide (n >= 2 ^ 63)%Z then (2 ^ 63 - 1, false) else (n, true))%Z
    end.

Lemma parse_digits_bounds n s m : (0 <= n)%Z -> parse_digits n s = DigitsOk m -> (0 <= m)%Z.
Proof.
  revert n. induction s as [|a s IH]; intros n Hn; cbn -[Z.mul Z.pow]; [by intros [= <-]|].
  destruct ((48 <=? _) && _)%N; [|done]. case_decide; [done|]. apply IH. lia.
Qed.

Lemma strconv_Atoi_range s : (- 2 ^ 63 <= fst (strconv_Atoi s) < 2 ^ 63)%Z.
Proof.
  unfold strconv_Atoi. destruct (match s with EmptyString => _ | _ => _ end) as [neg digits].
  case_decide; [done|]. destruct (parse_digits 0 digits) as [n| |] eqn:E; [|by destruct neg|done].
  apply parse_digits_bounds in E; [|done]. destruct neg; case_decide; cbn [fst]; lia.
Qed.

Example Atoi_values :
  map strconv_Atoi ["42"; "-7"; "+5"; "x"; estr; "-"; "9223372036854775808"; "99999999999999999999z"; "12a"] =
  [(42, true); (-7, true); (5, true); (0, false); (0, false); (0, false);
   (9223372036854775807, false); (9223372036854775807, false); (0, false)]%Z.
Proof. reflexivity. Qed.

(** ** Durations of package time, in nanoseconds *)

Definition second : Z := 1000000000.
Definition minute : Z := 60 * 1000000000.
Definition hour : Z := 3600 * 1000000000.

(** ** [t.Format(time.RFC3339)]

    A time in nanoseconds since the epoch, in UTC: the days give the date of
    the Gregorian calendar, counted in eras of 400 years from 1 March. *)
Definition civil_date (days : Z) : Z * Z * Z :=
  (let z := days + 719468 in
   let era := z / 146097 in
   let doe := z mod 146097 in
   let yoe := (doe - doe / 1460 + doe / 36524 - doe / 146096) / 365 in
   let doy := doe - (365 * yoe + yoe / 4 - yoe / 100) in
   let mp := (5 * doy + 2) / 153 in
   let m := if mp <? 10 then mp + 3 else mp - 9 in
   (yoe + era * 400 + (if m <=? 2 then 1 else 0), m, doy - (153 * mp + 2) / 5 + 1))%Z.

(** The last [n] decimal digits. *)
Fixpoint digits (n : nat) (z : Z) : string :=
  match n with
  | O => estr
  | S n => digits n (z / 10) +:+ String (Ascii.ascii_of_N (48 + Z.to_N (z mod 10))) estr
  end.

Definition time_RFC3339 (t : Z) : string :=
  let sec := (t / 1000000000)%Z in
  let '(y, m, d) := civil_date (sec / 86400) in
  let r := (sec mod 86400)%Z in
  digits 4 y +:+ "-" +:+ digits 2 m +:+ "-" +:+ digits 2 d +:+ "T"
  +:+ digits 2 (r / 3600) +:+ ":" +:+ digits 2 (r / 60 mod 60) +:+ ":" +:+ digits 2 (r mod 60) +:+ "Z".

Example RFC3339_values :
  map (fun s => time_RFC3339 (s * 1000000000)) [0; 951782399; 951782400; 951868800; 1763164800; -1]%Z =
  ["1970-01-01T00:00:00Z"; "2000-02-28T23:59:59Z"; "2000-02-29T00:00:00Z"; "2000-03-01T00:00:00Z";
   "2025-11-15T00:00:00Z"; "1969-12-31T23:59:59Z"].
Proof. vm_compute. reflexivity. Qed.

(** ** [utf8.ValidString] *)
Definition utf8_in (lo hi : N) (a : Ascii.ascii) : bool := ((lo <=? byte_N a) && (byte_N a <=? hi))%N.

Fixpoint utf8_ValidString (s : string) : bool :=
  match s with
  | EmptyString => true
  | String a r =>
      if utf8_in 0 127 a then utf8_ValidString r
      else match r with
      | String b r1 =>
          if utf8_in 194 223 a then utf8_in 128 191 b && utf8_ValidString r1
          else match r1 with
          | String c r2 =>
              if utf8_in 224 239 a then
                utf8_in (if utf8_in 224 224 a then 160 else 128) (if utf8_in 237 237 a then 159 else 191) b &&
                utf8_in 128 191 c && utf8_ValidString r2
              else match r2 with
              | String d r3 =>
                  utf8_in 240 244 a &&
                  utf8_in (if utf8_in 240 240 a then 144 else 128) (if utf8_in 244 244 a then 143 else 191) b &&
                  utf8_in 128 191 c && utf8_in 128 191 d && utf8_ValidString r3
              | EmptyString => false
              end
          | EmptyString => false
          end
      | EmptyString => false
      end
  end.
