(* ===== verification/Sha256.v ===== *)
(** * crypto/sha256 and crypto/hmac

    [sha256.Sum256] as FIPS 180-4 defines it and HMAC as RFC 2104 defines it,
    on 32-bit words held in [N], executable, and checked against the
    published test vectors.  The services use them for the PKCE challenge,
    for the hashes of revoked tokens and for webhook signatures. *)
From S2P Require Import Prelude GoStd.
From Stdlib Require Import NArith.
Local Open Scope N_scope.

(** ** 32-bit words *)

Definition w32 (x : N) : N := N.land x (N.ones 32).

Definition add32 (x y : N) : N := w32 (x + y).

Definition rotr (n x : N) : N :=
  N.lor (N.shiftr x n) (w32 (N.shiftl x (32 - n))).

Definition not32 (x : N) : N := N.lxor x (N.ones 32).

Definition Ch (x y z : N) : N := N.lxor (N.land x y) (N.land (not32 x) z).

Definition Maj (x y z : N) : N :=
  N.lxor (N.land x y) (N.lxor (N.land x z) (N.land y z)).

Definition bigS0 (x : N) : N := N.lxor (rotr 2 x) (N.lxor (rotr 13 x) (rotr 22 x)).

Definition bigS1 (x : N) : N := N.lxor (rotr 6 x) (N.lxor (rotr 11 x) (rotr 25 x)).

Definition smallS0 (x : N) : N := N.lxor (rotr 7 x) (N.lxor (rotr 18 x) (N.shiftr x 3)).

Definition smallS1 (x : N) : N := N.lxor (rotr 17 x) (N.lxor (rotr 19 x) (N.shiftr x 10)).

(** The round constants and the initial hash value are, as the standard
    defines them, the first 32 bits of the fractional parts of the cube roots
    of the first 64 primes and of the square roots of the first eight. *)
Definition is_prime (n : nat) : bool :=
  forallb (fun d => negb (Nat.eqb (n mod d) 0)) (seq 2 (n - 2)).

Definition primes (bound : nat) : list N :=
  N.of_nat <$> filter (fun n => is_prime n) (seq 2 (bound - 2)).

(** The largest [r < 2^k + r0] with [r^e <= n], bit by bit from [r0]. *)
Fixpoint root (e n : N) (k : nat) (r0 : N) : N :=
  match k with
  | O => r0
  | S k' =>
      let r := r0 + 2 ^ N.of_nat k' in
      root e n k' (if r ^ e <=? n then r else r0)
  end.

Definition frac_root (e p : N) : N := w32 (root e (p * 2 ^ (32 * e)) 40 0).

Definition K256 : list N := Eval vm_compute in frac_root 3 <$> primes 312.

Definition H0 : list N := Eval vm_compute in frac_root 2 <$> primes 20.

(** ** Padding and words *)

Fixpoint to_bytes (s : string) : list N :=
  match s with EmptyString => [] | String a r => byte_N a :: to_bytes r end.

Fixpoint of_bytes (l : list N) : string :=
  match l with [] => estr | n :: r => String (Ascii.ascii_of_N n) (of_bytes r) end.

(** The low [k] bytes of [x], most significant first. *)
Fixpoint be_bytes (k : nat) (x : N) : list N :=
  match k with
  | O => []
  | S k' => N.land (N.shiftr x (8 * N.of_nat k')) 255 :: be_bytes k' x
  end.

Definition pad (l : list N) : list N :=
  let len := length l in
  l ++ [128] ++ repeat 0 ((119 - len mod 64) mod 64)%nat ++ be_bytes 8 (8 * N.of_nat len).

Fixpoint be_words (l : list N) : list N :=
  match l with
  | a :: b :: c :: d :: r => (((a * 256 + b) * 256 + c) * 256 + d) :: be_words r
  | _ => []
  end.

(** ** Compression *)

(** The message schedule, newest word first. *)
Fixpoint schedule (k : nat) (w : list N) : list N :=
  match k with
  | O => w
  | S k' =>
      let t i := nth i w 0 in
      schedule k' (add32 (add32 (smallS1 (t 1%nat)) (t 6%nat))
                         (add32 (smallS0 (t 14%nat)) (t 15%nat)) :: w)
  end.

Definition round (h : list N) (kw : N * N) : list N :=
  match h with
  | [a; b; c; d; e; f; g; hh] =>
      let t1 := add32 (add32 hh (bigS1 e)) (add32 (Ch e f g) (add32 (fst kw) (snd kw))) in
      let t2 := add32 (bigS0 a) (Maj a b c) in
      [add32 t1 t2; a; b; c; add32 d t1; e; f; g]
  | _ => h
  end.

Definition compress (h : list N) (block : list N) : list N :=
  let w := rev (schedule 48 (rev (be_words block))) in
  zip_with add32 h (fold_left round (zip K256 w) h).

(** The blocks of the padded message, [fuel] bounding their number. *)
Fixpoint blocks (fuel : nat) (l : list N) : list (list N) :=
  match fuel, l with
  | S f, _ :: _ => take 64 l :: blocks f (drop 64 l)
  | _, _ => []
  end.

Definition sha256_bytes (l : list N) : list N :=
  let p := pad l in
  mjoin (be_bytes 4 <$> fold_left compress (blocks (length p) p) H0).

(** [sha256.Sum256([]byte(s))] *)
Definition sha256_Sum256 (s : string) : string := of_bytes (sha256_bytes (to_bytes s)).

(** [hmac.New(sha256.New, key)], one [Write], [Sum(nil)] *)
Definition hmac_sha256 (key msg : string) : string :=
  let k0 := to_bytes key in
  let k1 := if decide (64 < length k0)%nat then sha256_bytes k0 else k0 in
  let k2 := k1 ++ repeat 0 (64 - length k1) in
  let inner := sha256_bytes ((N.lxor 0x36 <$> k2) ++ to_bytes msg) in
  of_bytes (sha256_bytes ((N.lxor 0x5c <$> k2) ++ inner)).

(** ** Test vectors: FIPS 180-4, RFC 7636 appendix B, RFC 4231 case 2 *)

Example sha256_abc :
  hex_Encode (sha256_Sum256 "abc") =
  "ba7816bf8f01cfea414140de5dae2223b00361a396177a9cb410ff61f20015ad".
Proof. vm_compute. reflexivity. Qed.

Example sha256_two_blocks :
  hex_Encode (sha256_Sum256 "abcdbcdecdefdefgefghfghighijhijkijkljklmklmnlmnomnopnopq") =
  "248d6a61d20638b8e5c026930c3e6039a33ce45964ff2167f6ecedd419db06c1".
Proof. vm_compute. reflexivity. Qed.

Example pkce_rfc7636 :
  base64_RawURL (sha256_Sum256 "dBjftJeZ4CVP-mB92K27uhbUJU1p1r_wW1gFWFOEjXk") =
  "E9Melhoa2OwvFrEMTJguCHaoeK1t8URWbuGJSstw-cM".
Proof. vm_compute. reflexivity. Qed.

Example hmac_rfc4231 :
  hex_Encode (hmac_sha256 "Jefe" "what do ya want for nothing?") =
  "5bdcc146bf60754e6a042426089575c75a003f089d2739839dec58b964ec3843".
Proof. vm_compute. reflexivity. Qed.

(** ** A digest is 32 bytes *)

Lemma round_length h kw : length (round h kw) = length h.
Proof. unfold round. by repeat case_match. Qed.

Lemma rounds_length kws h : length (fold_left round kws h) = length h.
Proof.
  revert h. induction kws as [|kw kws IH]; intros h; simpl; [done|].
  by rewrite IH, round_length.
Qed.

Lemma compress_length h b : length (compress h b) = length h.
Proof.
  unfold compress. rewrite length_zip_with, rounds_length. lia.
Qed.

Lemma fold_compress_length bs h : length (fold_left compress bs h) = length h.
Proof.
  revert h. induction bs as [|b bs IH]; intros h; simpl; [done|].
  by rewrite IH, compress_length.
Qed.

Lemma sha256_bytes_length l : length (sha256_bytes l) = 32%nat.
Proof.
  unfold sha256_bytes. set (h := fold_left compress _ _).
  assert (length h = 8%nat) as Hh by apply fold_compress_length.
  clearbody h. by destruct h as [|? [|? [|? [|? [|? [|? [|? [|? [|]]]]]]]]].
Qed.

Lemma of_bytes_length l : String.length (of_bytes l) = length l.
Proof. induction l as [|n l IH]; simpl; [done|]. by rewrite IH. Qed.

Lemma sha256_Sum256_length s : String.length (sha256_Sum256 s) = 32%nat.
Proof. unfold sha256_Sum256. by rewrite of_bytes_length, sha256_bytes_length. Qed.
