(* ===== verification/GoText.v ===== *)
(** * More of Go's standard library: runes, RFC 3339 times and CSV

    [string(rune)], [time.Parse(time.RFC3339, s)] and the writer of
    [encoding/csv], as the audit service uses them. *)
From S2P Require Import Prelude GoStd.
From Stdlib Require Import NArith Ascii.
Local Open Scope go_scope.

(** ** [string(r)] for a rune: its UTF-8 encoding *)

Definition byte (n : N) : string := String (Ascii.ascii_of_N n) estr.

Definition rune_string (r : Z) : string :=
  let continuation (k : N) := byte (128 + k mod 64) in
  let n := Z.to_N r in
  if decide (r < 0 \/ 1114111 < r \/ 55296 <= r <= 57343)%Z then byte 239 +:+ byte 191 +:+ byte 189
  else if (n <? 128)%N then byte n
  else if (n <? 2048)%N then byte (192 + n / 64) +:+ continuation n
  else if (n <? 65536)%N then byte (224 + n / 4096) +:+ continuation (n / 64)%N +:+ continuation n
  else byte (240 + n / 262144) +:+ continuation (n / 4096)%N +:+ continuation (n / 64)%N +:+ continuation n.

(** ** [time.Parse(time.RFC3339, value)] *)

Definition digit_value (a : Ascii.ascii) : option Z :=
  let c := byte_N a in
  if ((48 <=? c) && (c <=? 57))%N then Some (Z.of_N (c - 48)) else None.

(** [getnum(s, fixed)]: one digit or two, two when [fixed]. *)
Definition getnum (fixed : bool) (s : string) : option (Z * string) :=
  match s with
  | EmptyString => None
  | String a r =>
      match digit_value a with
      | None => None
      | Some x =>
          match r with
          | String b r' =>
              match digit_value b with
              | Some y => Some (10 * x + y, r')%Z
              | None => if fixed then None else Some (x, r)
              end
          | EmptyString => if fixed then None else Some (x, r)
          end
      end
  end.

(** A literal byte of the layout. *)
Definition literal (c : Ascii.ascii) (s : string) : option string :=
  match s with
  | String a r => if decide (a = c) then Some r else None
  | EmptyString => None
  end.

Definition in_range (lo hi : Z) (p : Z * string) : option (Z * string) :=
  if decide (lo <= fst p <= hi)%Z then Some p else None.

Fixpoint year_digits (n : nat) (acc : Z) (s : string) : option (Z * string) :=
  match n, s with
  | O, _ => Some (acc, s)
  | S n, String a r => d ← digit_value a; year_digits n (10 * acc + d)%Z r
  | S _, EmptyString => None
  end.

(** The digits of a fraction: nine count, the rest is dropped. *)
Fixpoint fraction (scale acc : Z) (s : string) : Z * string :=
  match s with
  | EmptyString => (acc, s)
  | String a r =>
      match digit_value a with
      | Some d => fraction (scale / 10) (acc + d * scale) r
      | None => (acc, s)
      end
  end.

Definition nanoseconds (s : string) : Z * string :=
  match s with
  | String a (String b r) =>
      if decide (a = "."%char \/ a = ","%char)
      then match digit_value b with Some _ => fraction 100000000 0 (String b r) | None => (0%Z, s) end
      else (0%Z, s)
  | _ => (0%Z, s)
  end.

(** [Z] or an offset; what is left must be nothing. *)
Definition zone_offset (s : string) : option Z :=
  match s with
  | String a r =>
      if decide (a = "Z"%char) then if decide (r = estr) then Some 0%Z else None
      else
        h ← getnum true r ≫= in_range 0 24;
        r1 ← literal ":"%char (snd h);
        m ← getnum true r1 ≫= in_range 0 60;
        if decide (snd m = estr) then
          if decide (a = "+"%char) then Some ((fst h * 60 + fst m) * 60)%Z
          else if decide (a = "-"%char) then Some (- ((fst h * 60 + fst m) * 60))%Z
          else None
        else None
  | EmptyString => None
  end.

Definition leap (y : Z) : bool := ((y mod 4 =? 0) && (negb (y mod 100 =? 0) || (y mod 400 =? 0)))%Z.

Definition days_in (m y : Z) : Z :=
  if decide (m = 2)%Z then (if leap y then 29 else 28)%Z
  else if decide (m = 4 \/ m = 6 \/ m = 9 \/ m = 11)%Z then 30%Z else 31%Z.

(** The days since the epoch of a date: the inverse of [civil_date]. *)
Definition civil_days (y m d : Z) : Z :=
  (let y := if m <=? 2 then y - 1 else y in
   let era := y / 400 in
   let yoe := y mod 400 in
   let mp := if m <=? 2 then m + 9 else m - 3 in
   let doy := (153 * mp + 2) / 5 + d - 1 in
   era * 146097 + (yoe * 365 + yoe / 4 - yoe / 100 + doy) - 719468)%Z.

Definition time_Parse_RFC3339 (value : string) : option Z :=
  '(y, s) ← year_digits 4 0 value;
  s ← literal "-"%char s;
  '(mo, s) ← getnum true s ≫= in_range 1 12;
  s ← literal "-"%char s;
  '(d, s) ← getnum true s;
  s ← literal "T"%char s;
  '(h, s) ← getnum false s ≫= in_range 0 23;
  s ← literal ":"%char s;
  '(mi, s) ← getnum true s ≫= in_range 0 59;
  s ← literal ":"%char s;
  '(sec, s) ← getnum true s ≫= in_range 0 59;
  let '(ns, s) := nanoseconds s in
  off ← zone_offset s;
  if decide (1 <= d <= days_in mo y)%Z
  then Some ((civil_days y mo d * 86400 + h * 3600 + mi * 60 + sec - off) * 1000000000 + ns)%Z
  else None.

Example Parse_values :
  map time_Parse_RFC3339
    ["1970-01-01T00:00:00Z"; "2000-02-29T00:00:00Z"; "2025-11-15T01:30:00.25+01:30"; "1969-12-31T23:59:59Z";
     "2025-02-29T00:00:00Z"; "2025-11-15"; "2025-11-15T00:00:00"; "2025-11-15T00:00:00Zx"] =
  [Some 0; Some (951782400 * 1000000000); Some (1763164800 * 1000000000 + 250000000); Some (-1000000000);
   None; None; None; None]%Z.
Proof. vm_compute. reflexivity. Qed.

(** ** [csv.Writer] *)

Fixpoint any_byte (f : Ascii.ascii -> bool) (s : string) : bool :=
  match s with EmptyString => false | String a r => f a || any_byte f r end.

(** [fieldNeedsQuotes] with a comma as separator. *)
Definition fieldNeedsQuotes (s : string) : bool :=
  bool_decide (s = String (Ascii.ascii_of_nat 92) ".") ||
  any_byte (fun a => bool_decide (byte_N a ∈ [10; 13; 34; 44]%N)) s ||
  match s with EmptyString => false | String a _ => is_space a end.

Fixpoint csv_escape (s : string) : string :=
  match s with
  | EmptyString => estr
  | String a r => if decide (byte_N a = 34%N) then dquote +:+ dquote +:+ csv_escape r else String a (csv_escape r)
  end.

Definition csv_field (s : string) : string :=
  if fieldNeedsQuotes s then dquote +:+ csv_escape s +:+ dquote else s.

(** [writer.Write(record)] *)
Definition csv_record (l : list string) : string := strings_Join (map csv_field l) "," +:+ byte 10.

Definition csv_document (rows : list (list string)) : string := strings_Join (map csv_record rows) estr.

(** ** [t.Format(time.RFC3339Nano)]: the fraction without its trailing zeros *)
Definition time_RFC3339Nano (t : Z) : string :=
  let whole := time_RFC3339 t in
  let ns := (t mod 1000000000)%Z in
  if decide (ns = 0)%Z then whole
  else String.substring 0 19 whole +:+ "." +:+ strings_TrimRight (digits 9 ns) "0"%char +:+ "Z".

Example RFC3339Nano_values :
  map time_RFC3339Nano [0; 1500000000; 1763164800000000001]%Z =
  ["1970-01-01T00:00:00Z"; "1970-01-01T00:00:01.5Z"; "2025-11-15T00:00:00.000000001Z"].
Proof. vm_compute. reflexivity. Qed.
