(* ===== verification/GoUrl.v ===== *)
(** * net/url

    The parts of Go's [net/url] the services call: [url.Parse],
    [url.ParseRequestURI], [URL.Query], [URL.String], [url.ParseQuery],
    [Values.Set], [Values.Encode], [url.QueryEscape].  They follow the
    library's code, byte by byte; [Values] is kept sorted by key, the order in
    which [Encode] writes it. *)
From S2P Require Import Prelude GoStd.
From Stdlib Require Import NArith.

(** ** Bytes and cuts *)

Definition byte (n : N) : Ascii.ascii := Ascii.ascii_of_N n.

Definition in_range (lo hi n : N) : bool := ((lo <=? n) && (n <=? hi))%N.

Definition is_alnum (a : Ascii.ascii) : bool :=
  let n := byte_N a in in_range 97 122 n || in_range 65 90 n || in_range 48 57 n.

Definition is_digit (a : Ascii.ascii) : bool := in_range 48 57 (byte_N a).

(** [strings.IndexByte(set, a) >= 0] *)
Fixpoint is_in (a : Ascii.ascii) (set : string) : bool :=
  match set with
  | EmptyString => false
  | String b r => bool_decide (a = b) || is_in a r
  end.

(** [strings.Cut(s, sep)] for a one-byte separator. *)
Fixpoint strings_Cut (s : string) (sep : Ascii.ascii) : string * string * bool :=
  match s with
  | EmptyString => (estr, estr, false)
  | String a r =>
      if decide (a = sep) then (estr, r, true)
      else let '(x, y, ok) := strings_Cut r sep in (String a x, y, ok)
  end.

(** The parts of [s] around the last [sep], as [strings.LastIndex] finds it. *)
Fixpoint cut_last (s : string) (sep : Ascii.ascii) : option (string * string) :=
  match s with
  | EmptyString => None
  | String a r =>
      match cut_last r sep with
      | Some (x, y) => Some (String a x, y)
      | None => if decide (a = sep) then Some (estr, r) else None
      end
  end.

(** The parts of [s] around the first [sub]: before it, and from it on. *)
Fixpoint cut_at (s sub : string) : option (string * string) :=
  if String.prefix sub s then Some (estr, s)
  else match s with
       | EmptyString => None
       | String a r =>
           match cut_at r sub with Some (x, y) => Some (String a x, y) | None => None end
       end.

Fixpoint forall_bytes (f : Ascii.ascii -> bool) (s : string) : bool :=
  match s with EmptyString => true | String a r => f a && forall_bytes f r end.

(** [strconv.Quote] on ASCII text. *)
Fixpoint quote_bytes (s : string) : string :=
  match s with
  | EmptyString => estr
  | String a r =>
      let n := byte_N a in
      (if decide (n = 34 \/ n = 92)%N then String (byte 92) (String a estr)
       else if decide (n < 32 \/ n = 127)%N
            then String (byte 92) ("x" +:+ hex_Encode (String a estr))
            else String a estr) +:+ quote_bytes r
  end.

Definition strconv_Quote (s : string) : string := dquote +:+ quote_bytes s +:+ dquote.

(** ** Escaping *)

Inductive encoding : Type :=
| encodePath
| encodeUserPassword
| encodeHost
| encodeZone
| encodeQueryComponent
| encodeFragment.

#[export] Instance encoding_eq_dec : EqDecision encoding.
Proof. solve_decision. Defined.

Definition shouldEscape (c : Ascii.ascii) (mode : encoding) : bool :=
  if is_alnum c then false
  else if bool_decide (mode = encodeHost \/ mode = encodeZone)
          && is_in c ("!$&'()*+,;=:[]<>" +:+ dquote) then false
  else if is_in c "-_.~" then false
  else if is_in c "$&+,/:;=?@" then
    match mode with
    | encodePath => is_in c "?"
    | encodeUserPassword => is_in c "@/?:"
    | encodeQueryComponent => true
    | encodeFragment => false
    | encodeHost | encodeZone => true
    end
  else if bool_decide (mode = encodeFragment) && is_in c "!()*" then false
  else true.

Definition hex_upper (n : N) : Ascii.ascii := if (n <? 10)%N then byte (48 + n) else byte (55 + n).

Definition unhex (a : Ascii.ascii) : option N :=
  let n := byte_N a in
  if in_range 48 57 n then Some (n - 48)%N
  else if in_range 97 102 n then Some (n - 87)%N
  else if in_range 65 70 n then Some (n - 55)%N
  else None.

(** [escape(s, mode)] *)
Fixpoint escape (s : string) (mode : encoding) : string :=
  match s with
  | EmptyString => estr
  | String c r =>
      if shouldEscape c mode then
        if bool_decide (byte_N c = 32%N) && bool_decide (mode = encodeQueryComponent)
        then String (byte 43) (escape r mode)
        else String (byte 37) (String (hex_upper (byte_N c / 16))
               (String (hex_upper (byte_N c mod 16)) (escape r mode)))
      else String c (escape r mode)
  end.

Definition EscapeError (s : string) : error :=
  ErrLib ("invalid URL escape " +:+ strconv_Quote (String.substring 0 3 s)).

Definition InvalidHostError (a : Ascii.ascii) : error :=
  ErrLib ("invalid character " +:+ strconv_Quote (String a estr) +:+ " in host name").

(** What [unescape] rejects of a valid escape [%hl] in a host or zone. *)
Definition bad_escape (mode : encoding) (h l : N) : bool :=
  let v := (h * 16 + l)%N in
  match mode with
  | encodeHost => (h <? 8)%N && negb (v =? 37)%N
  | encodeZone => negb (v =? 37)%N && negb (v =? 32)%N && shouldEscape (byte v) encodeHost
  | _ => false
  end.

(** [unescape(s, mode)] *)
Fixpoint unescape (s : string) (mode : encoding) : string + error :=
  match s with
  | EmptyString => inl estr
  | String c r =>
      if decide (byte_N c = 37%N) then
        match r with
        | String a (String b r') =>
            match unhex a, unhex b with
            | Some h, Some l =>
                if bad_escape mode h l then inr (EscapeError s)
                else match unescape r' mode with
                     | inl t => inl (String (byte (h * 16 + l)) t)
                     | inr e => inr e
                     end
            | _, _ => inr (EscapeError s)
            end
        | _ => inr (EscapeError s)
        end
      else if bool_decide (mode = encodeHost \/ mode = encodeZone) && (byte_N c <? 128)%N
              && shouldEscape c mode then inr (InvalidHostError c)
      else match unescape r mode with
           | inl t =>
               inl (String (if bool_decide (byte_N c = 43%N) && bool_decide (mode = encodeQueryComponent)
                            then byte 32 else c) t)
           | inr e => inr e
           end
  end.

Definition QueryEscape (s : string) : string := escape s encodeQueryComponent.

Definition QueryUnescape (s : string) : string + error := unescape s encodeQueryComponent.

(** ** URLs *)

Record URL : Type := mkURL {
  u_Scheme : string;
  u_Opaque : string;
  u_User : option (string * option string);
  u_Host : string;
  u_Path : string;
  u_RawPath : string;
  u_OmitHost : bool;
  u_ForceQuery : bool;
  u_RawQuery : string;
  u_Fragment : string;
  u_RawFragment : string
}.

(** [getScheme(rawURL)], [n] bytes of which are already in [acc]. *)
Fixpoint getScheme_aux (raw acc s : string) : (string * string) + error :=
  match s with
  | EmptyString => inl (estr, raw)
  | String c r =>
      let n := byte_N c in
      if in_range 97 122 n || in_range 65 90 n then getScheme_aux raw (acc +:+ String c estr) r
      else if is_digit c || is_in c "+-." then
        if decide (acc = estr) then inl (estr, raw)
        else getScheme_aux raw (acc +:+ String c estr) r
      else if decide (n = 58%N) then
        if decide (acc = estr) then inr (ErrLib "missing protocol scheme") else inl (acc, r)
      else inl (estr, raw)
  end.

Definition getScheme (raw : string) : (string * string) + error := getScheme_aux raw estr raw.

(** [validOptionalPort(port)] *)
Definition validOptionalPort (port : string) : bool :=
  match port with
  | EmptyString => true
  | String a r => bool_decide (byte_N a = 58%N) && forall_bytes is_digit r
  end.

Definition err_port (port : string) : error :=
  ErrLib ("invalid port " +:+ strconv_Quote port +:+ " after host").

(** [parseHost(host)] *)
Definition parseHost (host : string) : string + error :=
  if String.prefix "[" host then
    match cut_last host (byte 93) with
    | None => inr (ErrLib "missing ']' in host")
    | Some (inside, colonPort) =>
        if negb (validOptionalPort colonPort) then inr (err_port colonPort)
        else match cut_at inside "%25" with
             | Some (h1, zone) =>
                 match unescape h1 encodeHost, unescape zone encodeZone,
                       unescape ("]" +:+ colonPort) encodeHost with
                 | inl a, inl b, inl c => inl (a +:+ b +:+ c)
                 | inr e, _, _ => inr e
                 | _, inr e, _ => inr e
                 | _, _, inr e => inr e
                 end
             | None => unescape host encodeHost
             end
    end
  else
    match cut_last host (byte 58) with
    | Some (_, port) =>
        if negb (validOptionalPort (":" +:+ port)) then inr (err_port (":" +:+ port))
        else unescape host encodeHost
    | None => unescape host encodeHost
    end.

Definition validUserinfo (s : string) : bool :=
  forall_bytes (fun c => is_alnum c || is_in c "-._:~!$&'()*+,;=%@") s.

(** [parseAuthority(authority)] *)
Definition parseAuthority (authority : string)
    : (option (string * option string) * string) + error :=
  match cut_last authority (byte 64) with
  | None =>
      match parseHost authority with inl h => inl (None, h) | inr e => inr e end
  | Some (userinfo, h) =>
      match parseHost h with
      | inr e => inr e
      | inl host =>
          if negb (validUserinfo userinfo) then inr (ErrLib "net/url: invalid userinfo")
          else
            let '(name, pass, colon) := strings_Cut userinfo (byte 58) in
            if colon : bool then
              match unescape name encodeUserPassword, unescape pass encodeUserPassword with
              | inl n, inl p => inl (Some (n, Some p), host)
              | inr e, _ => inr e
              | _, inr e => inr e
              end
            else match unescape userinfo encodeUserPassword with
                 | inl n => inl (Some (n, None), host)
                 | inr e => inr e
                 end
      end
  end.

(** [setPath(p)]: the decoded path, and the raw one when it is not the
    default encoding of it; [setFragment] alike. *)
Definition set_encoded (p : string) (mode : encoding) : (string * string) + error :=
  match unescape p mode with
  | inr e => inr e
  | inl path => inl (path, if decide (p = escape path mode) then estr else p)
  end.

Definition contains_ctl (s : string) : bool :=
  negb (forall_bytes (fun c => negb ((byte_N c <? 32)%N || (byte_N c =? 127)%N)) s).

(** Splitting the query off: [(rest, forceQuery, rawQuery)]. *)
Definition split_query (s : string) : string * bool * string :=
  let '(before, after, found) := strings_Cut s (byte 63) in
  if (found : bool) && bool_decide (after = estr) then (before, true, estr)
  else (before, false, after).

Definition has_colon_segment (s : string) : bool :=
  let '(segment, _, _) := strings_Cut s (byte 47) in is_in (byte 58) segment.

(** [parse(rawURL, viaRequest)] *)
Definition url_parse (raw : string) (viaRequest : bool) : URL + error :=
  if contains_ctl raw then inr (ErrLib "net/url: invalid control character in URL")
  else if bool_decide (raw = estr) && viaRequest then inr (ErrLib "empty url")
  else if decide (raw = "*") then
    inl (mkURL estr estr None estr "*" estr false false estr estr estr)
  else match getScheme raw with
  | inr e => inr e
  | inl (scheme0, rest0) =>
      let scheme := strings_ToLower scheme0 in
      let '(rest, force, query) := split_query rest0 in
      let hasScheme := negb (bool_decide (scheme = estr)) in
      let slash := String.prefix "/" rest in
      if negb slash && hasScheme then
        inl (mkURL scheme rest None estr estr estr false force query estr estr)
      else if negb slash && viaRequest then inr (ErrLib "invalid URI for request")
      else if negb slash && has_colon_segment rest then
        inr (ErrLib "first path segment in URL cannot contain colon")
      else
        let auth := (hasScheme || negb viaRequest && negb (String.prefix "///" rest))
                    && String.prefix "//" rest in
        let finish user host path omit :=
          match set_encoded path encodePath with
          | inr e => inr e
          | inl (p, rawp) => inl (mkURL scheme estr user host p rawp omit force query estr estr)
          end in
        if auth then
          let '(authority, after, found) := strings_Cut (drop_bytes 2 rest) (byte 47) in
          match parseAuthority authority with
          | inr e => inr e
          | inl (user, host) =>
              finish user host (if found : bool then String (byte 47) after else estr) false
          end
        else finish None estr rest (hasScheme && slash)
  end.

(** [&Error{"parse", u, err}] *)
Definition url_error (raw : string) (e : error) : error :=
  ErrWrap ("parse " +:+ strconv_Quote raw) e.

(** [url.ParseRequestURI(rawURL)] *)
Definition url_ParseRequestURI (raw : string) : URL + error :=
  match url_parse raw true with
  | inl u => inl u
  | inr e => inr (url_error raw e)
  end.

(** [url.Parse(rawURL)] *)
Definition url_Parse (raw : string) : URL + error :=
  let '(u, frag, _) := strings_Cut raw (byte 35) in
  match url_parse u false with
  | inr e => inr (url_error u e)
  | inl url =>
      if decide (frag = estr) then inl url
      else match set_encoded frag encodeFragment with
           | inr e => inr (url_error raw e)
           | inl (f, rawf) =>
               inl (mkURL (u_Scheme url) (u_Opaque url) (u_User url) (u_Host url) (u_Path url)
                      (u_RawPath url) (u_OmitHost url) (u_ForceQuery url) (u_RawQuery url) f rawf)
           end
  end.

(** [validEncoded(s, mode)] *)
Definition validEncoded (s : string) (mode : encoding) : bool :=
  forall_bytes (fun c => is_in c "!$&'()*+,;=:@[]%" || negb (shouldEscape c mode)) s.

(** [EscapedPath] and [EscapedFragment] *)
Definition escaped (v raw : string) (mode : encoding) : string :=
  if negb (bool_decide (raw = estr)) && validEncoded raw mode
     && bool_decide (unescape raw mode = inl v) then raw
  else if bool_decide (mode = encodePath) && bool_decide (v = "*") then "*"
  else escape v mode.

Definition Userinfo_String (u : string * option string) : string :=
  escape (fst u) encodeUserPassword +:+
  match snd u with Some p => ":" +:+ escape p encodeUserPassword | None => estr end.

(** What [String] writes before the query. *)
Definition URL_base (u : URL) : string :=
  let scheme := if decide (u_Scheme u = estr) then estr else u_Scheme u +:+ ":" in
  if decide (u_Opaque u <> estr) then scheme +:+ u_Opaque u
  else
    let authority :=
      if decide (u_Scheme u = estr /\ u_Host u = estr /\ u_User u = None) then estr
      else if decide (u_OmitHost u = true /\ u_Host u = estr /\ u_User u = None) then estr
      else (if decide (u_Host u <> estr \/ u_Path u <> estr \/ u_User u <> None) then "//" else estr)
           +:+ (match u_User u with Some ui => Userinfo_String ui +:+ "@" | None => estr end)
           +:+ escape (u_Host u) encodeHost in
    let path := escaped (u_Path u) (u_RawPath u) encodePath in
    let slash := if decide (path <> estr /\ String.prefix "/" path = false /\ u_Host u <> estr)
                 then "/" else estr in
    let before := scheme +:+ authority +:+ slash in
    let dot := if bool_decide (before = estr) && has_colon_segment path then "./" else estr in
    before +:+ dot +:+ path.

(** [u.String()] *)
Definition URL_String (u : URL) : string :=
  URL_base u +:+
  (if decide (u_ForceQuery u = true \/ u_RawQuery u <> estr) then "?" +:+ u_RawQuery u else estr) +:+
  (if decide (u_Fragment u = estr) then estr
   else "#" +:+ escaped (u_Fragment u) (u_RawFragment u) encodeFragment).

(** [u.RawQuery = q] *)
Definition with_RawQuery (u : URL) (q : string) : URL :=
  mkURL (u_Scheme u) (u_Opaque u) (u_User u) (u_Host u) (u_Path u) (u_RawPath u) (u_OmitHost u)
    (u_ForceQuery u) q (u_Fragment u) (u_RawFragment u).

(** [resolvePath(base, ref)]: the elements written so far, without the leading
    slash, and whether the next one is the first. *)
Fixpoint resolve_elems (elems : list string) (dst : string) (first : bool) : string :=
  match elems with
  | [] => dst
  | elem :: rest =>
      let last := bool_decide (rest = []) in
      if decide (elem = ".") then
        if last then dst +:+ "/" else resolve_elems rest dst false
      else if decide (elem = "..") then
        let '(dst, first) := match cut_last dst (byte 47) with Some (d, _) => (d, first) | None => (estr, true) end in
        if last then dst +:+ "/" else resolve_elems rest dst first
      else resolve_elems rest (dst +:+ (if first then estr else "/") +:+ elem) false
  end.

Definition resolvePath (base ref : string) : string :=
  let full :=
    if decide (ref = estr) then base
    else if String.prefix "/" ref then ref
    else match cut_last base (byte 47) with Some (d, _) => d +:+ "/" +:+ ref | None => ref end in
  if decide (full = estr) then estr
  else
    let dst := resolve_elems (strings_Split full (byte 47)) estr true in
    if String.prefix "/" dst then dst else "/" +:+ dst.

(** [u.ResolveReference(ref)] *)
Definition URL_ResolveReference (u ref : URL) : URL :=
  let with_path (url : URL) (p : string) :=
    match set_encoded p encodePath with
    | inl (path, raw) => mkURL (u_Scheme url) (u_Opaque url) (u_User url) (u_Host url) path raw (u_OmitHost url)
                           (u_ForceQuery url) (u_RawQuery url) (u_Fragment url) (u_RawFragment url)
    | inr _ => url
    end in
  let path_of (x : URL) := escaped (u_Path x) (u_RawPath x) encodePath in
  let scheme := if decide (u_Scheme ref = estr) then u_Scheme u else u_Scheme ref in
  if decide (u_Scheme ref <> estr \/ u_Host ref <> estr \/ u_User ref <> None) then
    with_path (mkURL scheme (u_Opaque ref) (u_User ref) (u_Host ref) (u_Path ref) (u_RawPath ref) (u_OmitHost ref)
                 (u_ForceQuery ref) (u_RawQuery ref) (u_Fragment ref) (u_RawFragment ref))
      (resolvePath (path_of ref) estr)
  else if decide (u_Opaque ref <> estr) then
    mkURL scheme (u_Opaque ref) None estr estr (u_RawPath ref) (u_OmitHost ref) (u_ForceQuery ref) (u_RawQuery ref)
      (u_Fragment ref) (u_RawFragment ref)
  else
    let same := bool_decide (u_Path ref = estr /\ u_ForceQuery ref = false /\ u_RawQuery ref = estr) in
    let query := if same then u_RawQuery u else u_RawQuery ref in
    let fragment := if same && bool_decide (u_Fragment ref = estr) then (u_Fragment u, u_RawFragment u)
                    else (u_Fragment ref, u_RawFragment ref) in
    if decide (u_Path ref = estr /\ u_Opaque u <> estr) then
      mkURL scheme (u_Opaque u) None estr estr (u_RawPath ref) (u_OmitHost ref) (u_ForceQuery ref) query (fst fragment) (snd fragment)
    else
      with_path (mkURL scheme estr (u_User u) (u_Host u) (u_Path ref) (u_RawPath ref) (u_OmitHost ref) (u_ForceQuery ref) query
                   (fst fragment) (snd fragment))
        (resolvePath (path_of u) (path_of ref)).

Example references :
  map (fun ref => match url_Parse "https://h.example/a/b?x=1", url_Parse ref with
                  | inl u, inl r => URL_String (URL_ResolveReference u r) | _, _ => estr end)
    ["/c"; "c"; "../c/./d/"; "?y=2"; "//other.example/p"; "http://k.example:8080/q#f"] =
  ["https://h.example/c"; "https://h.example/a/c"; "https://h.example/c/d/"; "https://h.example/a/b?y=2";
   "https://other.example/p"; "http://k.example:8080/q#f"].
Proof. vm_compute. reflexivity. Qed.

(** ** Query values *)

Definition Values : Type := list (string * list string).

(** A new key goes in its place among the sorted keys. *)
Fixpoint Values_insert (k : string) (vs : list string) (m : Values) : Values :=
  match m with
  | [] => [(k, vs)]
  | (k', vs') :: r =>
      if String.ltb k k' then (k, vs) :: m else (k', vs') :: Values_insert k vs r
  end.

Fixpoint Values_replace (k : string) (f : list string -> list string) (m : Values)
    : option Values :=
  match m with
  | [] => None
  | (k', vs) :: r =>
      if decide (k = k') then Some ((k', f vs) :: r)
      else match Values_replace k f r with Some r' => Some ((k', vs) :: r') | None => None end
  end.

Definition Values_update (k : string) (f : list string -> list string) (m : Values) : Values :=
  match Values_replace k f m with
  | Some m' => m'
  | None => Values_insert k (f []) m
  end.

(** [m.Set(k, v)], [m.Add(k, v)], [m[k]] *)
Definition Values_Set (m : Values) (k v : string) : Values := Values_update k (fun _ => [v]) m.

Definition Values_Add (m : Values) (k v : string) : Values :=
  Values_update k (fun vs => vs ++ [v]) m.

Fixpoint Values_lookup (m : Values) (k : string) : list string :=
  match m with
  | [] => []
  | (k', vs) :: r => if decide (k = k') then vs else Values_lookup r k
  end.

(** One [key=value] setting of a query string; a malformed one is skipped. *)
Definition parse_setting (m : Values) (setting : string) : Values :=
  if is_in (byte 59) setting then m
  else if decide (setting = estr) then m
  else
    let '(k, v, _) := strings_Cut setting (byte 61) in
    match QueryUnescape k, QueryUnescape v with
    | inl k', inl v' => Values_Add m k' v'
    | _, _ => m
    end.

(** [u.Query()] on the raw query, whose errors it drops. *)
Definition url_Query (query : string) : Values :=
  fold_left parse_setting (strings_Split query (byte 38)) [].

(** [m.Encode()] *)
Definition encode_pair (kv : string * string) : string :=
  QueryEscape (fst kv) +:+ "=" +:+ QueryEscape (snd kv).

Definition Values_pairs (m : Values) : list (string * string) :=
  mjoin ((fun kvs => (fun v => (fst kvs, v)) <$> snd kvs) <$> m).

Definition Values_Encode (m : Values) : string :=
  strings_Join (encode_pair <$> Values_pairs m) "&".

(** ** Escaping is invertible *)

Lemma hex_upper_unhex n : (n < 16)%N -> unhex (hex_upper n) = Some n.
Proof.
  intros Hn.
  assert (below 16 (fun n => bool_decide (unhex (hex_upper n) = Some n)) = true) as Hb by done.
  apply (below_spec _ _ n) in Hb; [|done]. by apply bool_decide_eq_true in Hb.
Qed.

Lemma byte_eq n a : n = byte_N a -> byte n = a.
Proof. intros ->. apply byte_N_inv. Qed.

Lemma byte_halves c :
  (byte_N c / 16 < 16)%N /\ (byte_N c mod 16 < 16)%N /\
  byte (byte_N c / 16 * 16 + byte_N c mod 16) = c.
Proof.
  pose proof (byte_N_lt c). split_and!.
  - apply N.Div0.div_lt_upper_bound. lia.
  - by apply N.mod_lt.
  - apply byte_eq. rewrite N.mul_comm. symmetry. apply N.Div0.div_mod.
Qed.

(** A property of every byte, checked on the 256 of them. *)
Lemma byte_cases (f : Ascii.ascii -> bool) :
  below 256 (fun n => f (byte n)) = true -> forall a, f a = true.
Proof.
  intros Hb a. pose proof (below_spec _ _ (byte_N a) Hb (byte_N_lt a)) as Hf.
  simpl in Hf. by rewrite (byte_eq (byte_N a) a eq_refl) in Hf.
Qed.

(** The bytes that [QueryEscape] leaves alone are neither separators nor
    escape characters. *)
Lemma unescaped_query c :
  shouldEscape c encodeQueryComponent = false -> is_in c "%+&=;#" = false.
Proof.
  assert (implb (negb (shouldEscape c encodeQueryComponent)) (negb (is_in c "%+&=;#")) = true) as Hf.
  { revert c. apply byte_cases. by vm_compute. }
  intros Hc. rewrite Hc in Hf. by apply negb_true_iff in Hf.
Qed.

Lemma is_in_false_neq c n set :
  is_in c set = false -> is_in (byte n) set = true -> (n < 256)%N -> byte_N c <> n.
Proof. intros Hc Hn Hlt <-. unfold byte in Hn. rewrite byte_N_inv in Hn. congruence. Qed.

Lemma QueryUnescape_Escape s : QueryUnescape (QueryEscape s) = inl s.
Proof.
  unfold QueryUnescape, QueryEscape. induction s as [|c s IH]; [done|].
  simpl. destruct (shouldEscape c encodeQueryComponent) eqn:Hs.
  - destruct (bool_decide (byte_N c = 32%N)) eqn:Hsp; simpl.
    + rewrite IH. simpl. apply bool_decide_eq_true in Hsp. f_equal. f_equal.
      rewrite <-(byte_N_inv c), Hsp. done.
    + destruct (byte_halves c) as (H1 & H2 & H3).
      rewrite !hex_upper_unhex by done. simpl. by rewrite IH, H3.
  - pose proof (unescaped_query _ Hs) as Hin. simpl.
    rewrite decide_False by (eapply is_in_false_neq; [exact Hin|done|done]).
    simpl. rewrite IH. rewrite (bool_decide_eq_false_2 (byte_N c = 43%N)); [done|].
    eapply is_in_false_neq; [exact Hin|done|done].
Qed.

(** No byte of an escaped query component is one of [set]. *)
Definition avoids (set s : string) : Prop := forall_bytes (fun c => negb (is_in c set)) s = true.

Lemma forall_bytes_app f s t : forall_bytes f (s +:+ t) = forall_bytes f s && forall_bytes f t.
Proof. induction s as [|c s IH]; simpl; [done|]. by rewrite IH, andb_assoc. Qed.

Lemma hex_upper_avoids n : (n < 16)%N -> is_in (hex_upper n) "&=;#" = false.
Proof.
  intros Hn.
  assert (below 16 (fun n => negb (is_in (hex_upper n) "&=;#")) = true) as Hb by done.
  apply (below_spec _ _ n) in Hb; [|done]. by apply negb_true_iff in Hb.
Qed.

Lemma unescaped_query_avoids c :
  shouldEscape c encodeQueryComponent = false -> is_in c "&=;#" = false.
Proof.
  assert (implb (negb (shouldEscape c encodeQueryComponent)) (negb (is_in c "&=;#")) = true) as Hf.
  { revert c. apply byte_cases. by vm_compute. }
  intros Hc. rewrite Hc in Hf. by apply negb_true_iff in Hf.
Qed.

Lemma QueryEscape_avoids s : avoids "&=;#" (QueryEscape s).
Proof.
  unfold avoids, QueryEscape. induction s as [|c s IH]; [done|].
  cbn [escape]. destruct (shouldEscape c encodeQueryComponent) eqn:Hs.
  - destruct (bool_decide _ && _); [exact IH|].
    destruct (byte_halves c) as (H1 & H2 & _). cbn [forall_bytes].
    by rewrite !hex_upper_avoids, IH by done.
  - cbn [forall_bytes]. by rewrite IH, unescaped_query_avoids.
Qed.

Lemma avoids_byte set s n :
  avoids set s -> is_in (byte n) set = true -> forall_bytes (fun c => negb (bool_decide (c = byte n))) s = true.
Proof.
  unfold avoids. intros Hs Hn. induction s as [|c s IH]; [done|]. simpl in *.
  apply andb_prop in Hs as [H1 H2]. rewrite IH by done.
  rewrite bool_decide_eq_false_2; [done|]. intros ->. by rewrite Hn in H1.
Qed.

Lemma strings_Cut_app s t sep :
  forall_bytes (fun c => negb (bool_decide (c = sep))) s = true ->
  strings_Cut (s +:+ String sep t) sep = (s, t, true).
Proof.
  induction s as [|c s IH]; simpl; intros Hs; [by rewrite decide_True|].
  apply andb_prop in Hs as [H1 H2]. rewrite decide_False, IH; [done|done|].
  intros ->. by rewrite bool_decide_eq_true_2 in H1.
Qed.

Lemma forall_bytes_is_in set n s :
  forall_bytes (fun c => negb (is_in c set)) s = true -> is_in (byte n) set = true ->
  is_in (byte n) s = false.
Proof.
  intros Hs Hn. induction s as [|c s IH]; [done|]. cbn [forall_bytes is_in] in *.
  apply andb_prop in Hs as [H1 H2]. rewrite IH by done.
  rewrite bool_decide_eq_false_2; [done|]. intros <-. by rewrite Hn in H1.
Qed.

(** ** [strings.Split] undoes [strings.Join] *)

Lemma Split_avoids s sep :
  forall_bytes (fun c => negb (bool_decide (c = sep))) s = true -> strings_Split s sep = [s].
Proof.
  induction s as [|c s IH]; simpl; intros Hs; [done|].
  apply andb_prop in Hs as [H1 H2]. rewrite decide_False, IH; [done|done|].
  intros ->. by rewrite bool_decide_eq_true_2 in H1.
Qed.

Lemma Split_app s t sep :
  forall_bytes (fun c => negb (bool_decide (c = sep))) s = true ->
  strings_Split (s +:+ String sep t) sep = s :: strings_Split t sep.
Proof.
  induction s as [|c s IH]; simpl; intros Hs; [by rewrite decide_True|].
  apply andb_prop in Hs as [H1 H2]. rewrite decide_False, IH; [done|done|].
  intros ->. by rewrite bool_decide_eq_true_2 in H1.
Qed.

Lemma Split_Join l sep :
  l <> [] ->
  Forall (fun s => forall_bytes (fun c => negb (bool_decide (c = sep))) s = true) l ->
  strings_Split (strings_Join l (String sep estr)) sep = l.
Proof.
  intros Hne Hl. induction Hl as [|s l Hs Hl IH]; [done|].
  destruct l as [|s' l]; [by apply Split_avoids|].
  change (strings_Join (s :: s' :: l) (String sep estr))
    with (s +:+ String sep (strings_Join (s' :: l) (String sep estr))).
  rewrite Split_app by done. by rewrite IH.
Qed.

(** ** Query values round-trip through [Encode] and [Query] *)

Lemma Values_lookup_insert k vs m k' :
  Values_lookup m k = [] -> (forall vs', (k, vs') ∉ m) ->
  Values_lookup (Values_insert k vs m) k' = if decide (k' = k) then vs else Values_lookup m k'.
Proof.
  induction m as [|[k0 vs0] m IH]; simpl; intros Hl Hn; [by repeat case_decide|].
  assert (k <> k0) by (intros ->; apply (Hn vs0); left).
  rewrite decide_False in Hl by done.
  destruct (String.ltb k k0); simpl; [by repeat case_decide|].
  rewrite IH; [by repeat case_decide; congruence|done|].
  intros vs' Hin. apply (Hn vs'). by right.
Qed.

Lemma Values_replace_None k f m :
  Values_replace k f m = None -> Values_lookup m k = [] /\ forall vs', (k, vs') ∉ m.
Proof.
  induction m as [|[k0 vs0] m IH]; simpl; intros H.
  { split; [done|]. intros vs' []%elem_of_nil. }
  destruct (decide (k = k0)) as [->|Hne]; [done|].
  destruct (Values_replace k f m); [done|]. destruct IH as [IH1 IH2]; [done|].
  split; [done|]. intros vs' [?|?]%elem_of_cons; simplify_eq. by eapply IH2.
Qed.

Lemma Values_replace_Some k f m m' k' :
  Values_replace k f m = Some m' ->
  Values_lookup m' k' = if decide (k' = k) then f (Values_lookup m k) else Values_lookup m k'.
Proof.
  revert m'. induction m as [|[k0 vs0] m IH]; simpl; intros m' H; [done|].
  destruct (decide (k = k0)) as [->|Hne]; [simplify_eq; simpl; by repeat case_decide|].
  destruct (Values_replace k f m) as [r|] eqn:E; [|done]. simplify_eq. simpl.
  rewrite (IH r) by done. repeat case_decide; congruence.
Qed.

Lemma Values_lookup_update k f m k' :
  Values_lookup (Values_update k f m) k' =
    if decide (k' = k) then f (Values_lookup m k) else Values_lookup m k'.
Proof.
  unfold Values_update. destruct (Values_replace k f m) eqn:E.
  - by apply Values_replace_Some.
  - apply Values_replace_None in E as [E1 E2].
    rewrite Values_lookup_insert by done. by rewrite E1.
Qed.

Lemma is_in_app a s t : is_in a (s +:+ t) = is_in a s || is_in a t.
Proof. induction s as [|c s IH]; simpl; [done|]. by rewrite IH, orb_assoc. Qed.

Lemma parse_setting_pair m kv :
  parse_setting m (encode_pair kv) = Values_Add m (fst kv) (snd kv).
Proof.
  destruct kv as [k v]. unfold parse_setting, encode_pair. cbn [fst snd].
  pose proof (QueryEscape_avoids k) as Hk. pose proof (QueryEscape_avoids v) as Hv.
  rewrite !is_in_app, (forall_bytes_is_in _ 59 _ Hk), (forall_bytes_is_in _ 59 _ Hv) by done.
  change (is_in (byte 59) "=") with false. cbn [orb].
  rewrite decide_False by (by destruct (QueryEscape k)).
  change ("=" +:+ QueryEscape v) with (String (byte 61) (QueryEscape v)).
  rewrite strings_Cut_app by (by eapply avoids_byte).
  by rewrite !QueryUnescape_Escape.
Qed.

Lemma encode_pair_avoids kv :
  forall_bytes (fun c => negb (bool_decide (c = byte 38))) (encode_pair kv) = true.
Proof.
  unfold encode_pair. rewrite !forall_bytes_app.
  rewrite (avoids_byte _ _ 38 (QueryEscape_avoids (fst kv))) by done.
  by rewrite (avoids_byte _ _ 38 (QueryEscape_avoids (snd kv))).
Qed.

Definition Values_add_all (m : Values) (l : list (string * string)) : Values :=
  fold_left (fun m kv => Values_Add m (fst kv) (snd kv)) l m.

Lemma url_Query_pairs l :
  url_Query (strings_Join (encode_pair <$> l) "&") = Values_add_all [] l.
Proof.
  unfold url_Query. destruct l as [|kv l]; [done|].
  rewrite Split_Join; [|done|].
  - unfold Values_add_all. generalize (kv :: l) ([] : Values). clear kv l.
    intros l. induction l as [|kv l IH]; intros m; [done|]. simpl.
    by rewrite parse_setting_pair.
  - apply Forall_fmap, Forall_true. intros. apply encode_pair_avoids.
Qed.

Lemma Values_lookup_add_all l m k :
  Values_lookup (Values_add_all m l) k =
    Values_lookup m k ++ (snd <$> filter (fun kv => fst kv = k) l).
Proof.
  unfold Values_add_all. revert m. induction l as [|[k0 v0] l IH]; intros m; simpl.
  { by rewrite app_nil_r. }
  rewrite IH. unfold Values_Add. rewrite Values_lookup_update, filter_cons. simpl.
  repeat case_decide; subst; try congruence; simpl; try done. by rewrite <-app_assoc.
Qed.

Lemma Values_pairs_filter m k :
  NoDup (fst <$> m) ->
  snd <$> filter (fun kv => fst kv = k) (Values_pairs m) = Values_lookup m k.
Proof.
  induction m as [|[k0 vs] m IH]; intros Hnd; [done|]. apply NoDup_cons in Hnd as [Hk Hnd].
  change (Values_pairs ((k0, vs) :: m)) with (((fun v => (k0, v)) <$> vs) ++ Values_pairs m).
  rewrite filter_app, fmap_app, IH by done. simpl. case_decide as Hc; subst.
  - rewrite filter_all by (by apply Forall_fmap, Forall_true).
    rewrite <-list_fmap_compose. simpl. rewrite list_fmap_id.
    enough (Values_lookup m k0 = []) as -> by apply app_nil_r.
    clear -Hk. induction m as [|[k vs'] m IH]; [done|]. simpl in *.
    apply not_elem_of_cons in Hk as [? ?]. rewrite decide_False by done. auto.
  - rewrite filter_none; [done|]. intros x (v & -> & _)%list_elem_of_fmap. simpl. congruence.
Qed.

(** Every value of a map with distinct keys is read back. *)
Lemma url_Query_Encode m k :
  NoDup (fst <$> m) -> Values_lookup (url_Query (Values_Encode m)) k = Values_lookup m k.
Proof.
  intros Hnd. unfold Values_Encode.
  rewrite url_Query_pairs, Values_lookup_add_all. by apply Values_pairs_filter.
Qed.

(** The keys stay distinct. *)
Lemma Values_insert_keys k vs m :
  fst <$> Values_insert k vs m ≡ₚ k :: (fst <$> m).
Proof.
  induction m as [|[k0 vs0] m IH]; simpl; [done|].
  destruct (String.ltb k k0); simpl; [done|]. rewrite IH. constructor.
Qed.

Lemma Values_replace_keys k f m m' :
  Values_replace k f m = Some m' -> fst <$> m' = fst <$> m.
Proof.
  revert m'. induction m as [|[k0 vs0] m IH]; simpl; intros m' H; [done|].
  case_decide; [by simplify_eq|]. destruct (Values_replace k f m); [|done].
  simplify_eq. simpl. f_equal. by apply IH.
Qed.

Lemma Values_update_NoDup k f m : NoDup (fst <$> m) -> NoDup (fst <$> Values_update k f m).
Proof.
  intros Hnd. unfold Values_update. destruct (Values_replace k f m) eqn:E.
  - by erewrite Values_replace_keys.
  - apply Values_replace_None in E as [_ Hn]. rewrite Values_insert_keys.
    apply NoDup_cons. split; [|done].
    intros ([k' vs'] & -> & Hin)%list_elem_of_fmap. by eapply Hn.
Qed.

Lemma url_Query_NoDup q : NoDup (fst <$> url_Query q).
Proof.
  unfold url_Query. assert (NoDup (fst <$> ([] : Values))) as Hn by constructor.
  revert Hn. generalize ([] : Values). induction (strings_Split q (byte 38)) as [|s l IH]; [done|].
  intros m Hn. simpl. apply IH. unfold parse_setting. repeat case_match; try done.
  by apply Values_update_NoDup.
Qed.
