(* ===== verification/Sql.v ===== *)
(** * The database layer

    The repositories send SQL text to Postgres through [database/sql] and
    [sqlx].  A table is a list of rows in insertion order; a statement is the
    function its text denotes, run when the database answers (the surroundings
    decide that, statement by statement) and leaving the table alone when it
    does not.  What a statement rejects (a malformed [UUID], a value too long
    for its [VARCHAR], a violated [UNIQUE] or foreign key) is written out by the
    statement that sends it, from the schema under src/migrations.

    Postgres promises no order of the rows a query does not order, nor of rows
    equal under an [ORDER BY]: a query sees them as the surroundings say, each
    query anew. *)
From S2P Require Import Prelude GoStd Sha256.
Local Open Scope go_scope.

(** The characters of a text in UTF-8: the bytes that continue none. *)
Fixpoint char_length (s : string) : nat :=
  match s with
  | EmptyString => 0
  | String a r => if ((128 <=? byte_N a) && (byte_N a <? 192))%N then char_length r else S (char_length r)
  end.

(** Rows in the order Postgres comes across them: each goes to the place [f]
    names among those that were inserted after it. Every order is one of these. *)
Fixpoint reorder {R} (f : nat -> nat) (l : list R) : list R :=
  match l with
  | [] => []
  | x :: r => let l' := reorder f r in take (f (length r)) l' ++ x :: drop (f (length r)) l'
  end.

Section Statements.
Context {S : Type}.

(** One statement: the driver may fail; a rejected statement has no effect. *)
Definition statement {A} (f : Env -> nat -> S -> (A * S) + error) : M S A :=
  fun env s =>
    let s' := mkSt (Datatypes.S (tick s)) (st s) in
    match db_fault env (tick s) with
    | Some msg => (Err (ErrDB msg), s')
    | None =>
        match f env (tick s) (st s) with
        | inl (a, x) => (Ok a, mkSt (Datatypes.S (tick s)) x)
        | inr e => (Err e, s')
        end
    end.

(** A parameter compared with or stored into a [UUID] column. *)
Definition uuid_arg (v : string) : M S string :=
  fun env s =>
    match pg_uuid env v with
    | Some u => (Ok u, s)
    | None => (Err (ErrDB ("pq: invalid input syntax for type uuid: " +:+ dquote +:+ v +:+ dquote)), s)
    end.

(** A parameter stored into a [VARCHAR(n)] column, which holds [n] characters.
    (Of a longer value Postgres would cut off blanks; here it is refused.) *)
Definition varchar_arg (n : nat) (v : string) : M S unit :=
  if decide (char_length v <= n) then ret tt
  else fail (ErrDB ("pq: value too long for type character varying(" +:+ pretty n +:+ ")")).

(** [sqlx] scanning a result with columns [cols] into a struct whose fields
    are known to it as [dest]. *)
Definition sqlx_dest (dest cols : list string) : M S unit :=
  fun env s =>
    match sqlx_missing env dest cols with
    | Some c => (Err (ErrLib ("missing destination name " +:+ c)), s)
    | None => (Ok tt, s)
    end.

End Statements.

Section Tables.
Context {R : Type}.
Implicit Types (rows : list R).

(** [SELECT ... FROM t WHERE p] *)
Definition sql_select (p : R -> bool) : M (list R) (list R) :=
  statement (fun env t rows => inl (reorder (row_order env t) (filter p rows), rows)).

(** [GetContext]: the first row, [sql.ErrNoRows] when there is none. *)
Definition sql_get (p : R -> bool) : M (list R) R :=
  statement (fun env t rows =>
    match reorder (row_order env t) (filter p rows) with
    | r :: _ => inl (r, rows)
    | [] => inr sql_ErrNoRows
    end).

(** The same where a unique constraint covers the columns of [p], so that one
    row fits at most. *)
Definition sql_get_unique (p : R -> bool) : M (list R) R :=
  statement (fun _ _ rows =>
    match filter p rows with
    | r :: _ => inl (r, rows)
    | [] => inr sql_ErrNoRows
    end).

(** [UPDATE t SET ... WHERE p]; the number of rows touched. The new row may
    depend on the server's [NOW()]. *)
Definition sql_update (p : R -> bool) (f : Z -> R -> R) : M (list R) nat :=
  statement (fun env t rows =>
    inl (length (filter p rows), map (fun r => if p r then f (clock env t) r else r) rows)).

(** [DELETE FROM t WHERE p]; the number of rows removed. *)
Definition sql_delete (p : R -> bool) : M (list R) nat :=
  statement (fun _ _ rows =>
    inl (length (filter p rows), filter (fun r => negb (p r)) rows)).

(** [INSERT INTO t ... RETURNING id]: the server's [NOW()] and
    [gen_random_uuid()] are available to the new row; [clash] is the table's
    unique constraints. *)
Definition sql_insert {A} (clash : R -> R -> bool) (mk : Z -> string -> R * A) : M (list R) A :=
  statement (fun env t rows =>
    let '(r, a) := mk (clock env t) (gen_uuid env t) in
    if existsb (clash r) rows
    then inr (ErrDB "pq: duplicate key value violates unique constraint")
    else inl (a, rows ++ [r])).

(** [INSERT ... ON CONFLICT (key) DO UPDATE]: [conflict r old] says the new
    row [r] meets [old] on the key, [merge r old] is the updated row; [clash]
    is the table's other constraints. *)
Definition sql_upsert {A} (conflict clash : R -> R -> bool) (merge : R -> R -> R)
    (mk : Z -> string -> R) (out : R -> A) : M (list R) A :=
  statement (fun env t rows =>
    let r := mk (clock env t) (gen_uuid env t) in
    match filter (conflict r) rows with
    | old :: _ =>
        inl (out (merge r old), map (fun x => if conflict r x then merge r x else x) rows)
    | [] =>
        if existsb (clash r) rows
        then inr (ErrDB "pq: duplicate key value violates unique constraint")
        else inl (out r, rows ++ [r])
    end).

End Tables.

(** [ORDER BY k DESC] and [ORDER BY k], of rows in the order they were come
    across: an insertion sort. *)
Fixpoint insert_by {R} (le : R -> R -> bool) (x : R) (l : list R) : list R :=
  match l with
  | [] => [x]
  | y :: r => if le x y then x :: y :: r else y :: insert_by le x r
  end.

Fixpoint sort_by {R} (le : R -> R -> bool) (l : list R) : list R :=
  match l with [] => [] | x :: r => insert_by le x (sort_by le r) end.

Definition order_by_desc {R} (k : R -> Z) (l : list R) : list R :=
  sort_by (fun x y => (k y <=? k x)%Z) l.

Definition order_by {R} (k : R -> Z) (l : list R) : list R :=
  sort_by (fun x y => (k x <=? k y)%Z) l.

(** [LIMIT n OFFSET m]: a negative count is an error of the server. *)
Definition sql_page {R} (limit offset : Z) (l : list R) : list R + error :=
  if decide (limit < 0)%Z then inr (ErrDB "pq: LIMIT must not be negative")
  else if decide (offset < 0)%Z then inr (ErrDB "pq: OFFSET must not be negative")
  else inl (take (Z.to_nat limit) (drop (Z.to_nat offset) l)).

(** A query for one row where [sql.ErrNoRows] means "not found" and any other
    error is returned. *)
Definition or_nil {S A} (m : M S A) : M S (option A) :=
  r <- attempt m;;
  match r with
  | inl x => ret (Some x)
  | inr err => if errors_Is err sql_ErrNoRows then ret None else fail err
  end.

(** [_, err := db.ExecContext(...)]: the number of rows is not looked at. *)
Definition exec {S A} (m : M S A) : M S unit := m;; ret tt.

(** A value stored into an [INT] column. *)
Definition int4_arg {S} (v : Z) : M S unit :=
  if decide (- 2 ^ 31 <= v < 2 ^ 31)%Z then ret tt
  else fail (ErrDB "pq: integer out of range").

(** ** Inversion of successful statements *)

Lemma statement_Ok_inv {S A} (f : Env -> nat -> S -> (A * S) + error) env s a u :
  statement f env s = (Ok a, u) ->
  db_fault env (tick s) = None /\
  exists x, f env (tick s) (st s) = inl (a, x) /\ u = mkSt (Datatypes.S (tick s)) x.
Proof.
  unfold statement. destruct (db_fault _ _); [done|].
  destruct (f _ _ _) as [[? ?]|]; [|done]. intros [= -> <-]. eauto.
Qed.

Lemma statement_Err {S A} (f : Env -> nat -> S -> (A * S) + error) env s e u :
  statement f env s = (Err e, u) -> u = mkSt (Datatypes.S (tick s)) (st s).
Proof. unfold statement. repeat case_match; intros; by simplify_eq. Qed.

Lemma uuid_arg_Ok_inv {S} v env (s : St S) a u :
  uuid_arg v env s = (Ok a, u) -> pg_uuid env v = Some a /\ u = s.
Proof. unfold uuid_arg. case_match; intros; by simplify_eq. Qed.

Lemma varchar_arg_Ok_inv {S} n v env (s : St S) a u :
  varchar_arg n v env s = (Ok a, u) -> char_length v <= n /\ u = s.
Proof. unfold varchar_arg. case_decide; [|done]; by intros [= <-]. Qed.

Lemma int4_arg_Ok_inv {S} v env (s : St S) a u :
  int4_arg v env s = (Ok a, u) -> (- 2 ^ 31 <= v < 2 ^ 31)%Z /\ u = s.
Proof. unfold int4_arg. case_decide; [|done]; by intros [= <-]. Qed.

Lemma or_nil_Ok_inv {S A} (m : M S A) env s r u :
  or_nil m env s = (Ok r, u) ->
  (exists x, r = Some x /\ m env s = (Ok x, u)) \/
  (exists e, r = None /\ m env s = (Err e, u) /\ errors_Is e sql_ErrNoRows = true).
Proof.
  unfold or_nil, bind, attempt. destruct (m env s) as [[x|e|p] t]; [| |done].
  - intros [= <- <-]. eauto.
  - destruct (errors_Is _ _) eqn:E; [|done]. intros [= <- <-]. eauto.
Qed.

Lemma sqlx_dest_Ok_inv {S} d c env (s : St S) a u :
  sqlx_dest d c env s = (Ok a, u) -> sqlx_missing env d c = None /\ u = s.
Proof. unfold sqlx_dest. case_match; intros; by simplify_eq. Qed.

Lemma char_length_le v : char_length v <= String.length v.
Proof. induction v as [|a v IH]; [done|]. cbn [char_length String.length]. destruct (_ && _); lia. Qed.

Section TableFacts.
Context {R : Type}.
Implicit Types (s u : St (list R)).

Lemma reorder_Permutation f (l : list R) : reorder f l ≡ₚ l.
Proof.
  induction l as [|x l IH]; [done|]. cbn [reorder]. rewrite <-Permutation_middle, take_drop. by constructor.
Qed.

Lemma reorder_elem f (l : list R) x : x ∈ reorder f l <-> x ∈ l.
Proof. by rewrite reorder_Permutation. Qed.

Lemma reorder_nil f (l : list R) : reorder f l = [] <-> l = [].
Proof.
  split; [|by intros ->]. intros H. pose proof (reorder_Permutation f l) as Hp. rewrite H in Hp. by apply Permutation_nil_l in Hp.
Qed.

Lemma reorder_one f (x : R) : reorder f [x] = [x].
Proof. cbn. by destruct (f 0). Qed.

Lemma reorder_length f (l : list R) : length (reorder f l) = length l.
Proof. apply Permutation_length, reorder_Permutation. Qed.

Lemma sql_select_Ok_inv (p : R -> bool) env s a u :
  sql_select p env s = (Ok a, u) ->
  a = reorder (row_order env (tick s)) (filter p (st s)) /\ u = mkSt (Datatypes.S (tick s)) (st s).
Proof. intros (_ & x & ? & ->)%statement_Ok_inv. by simplify_eq. Qed.

Lemma sql_get_Ok_inv (p : R -> bool) env s a u :
  sql_get p env s = (Ok a, u) ->
  a ∈ filter p (st s) /\ u = mkSt (Datatypes.S (tick s)) (st s).
Proof.
  intros (_ & x & E & ->)%statement_Ok_inv. rewrite <-(reorder_Permutation (row_order env (tick s))).
  destruct (reorder _ _); simplify_eq. split; [left|done].
Qed.

Lemma sql_get_spec (p : R -> bool) env s a u :
  sql_get p env s = (Ok a, u) -> a ∈ st s /\ p a = true /\ st u = st s.
Proof.
  intros [Ha ->]%sql_get_Ok_inv. apply list_elem_of_filter in Ha as [? ?]. split_and!; [done| |done].
  by apply Is_true_eq_true.
Qed.

Lemma sql_update_Ok_inv (p : R -> bool) f env s a u :
  sql_update p f env s = (Ok a, u) ->
  a = length (filter p (st s)) /\
  u = mkSt (Datatypes.S (tick s))
        (map (fun r => if p r then f (clock env (tick s)) r else r) (st s)).
Proof. intros (_ & x & ? & ->)%statement_Ok_inv. by simplify_eq. Qed.

Lemma sql_delete_Ok_inv (p : R -> bool) env s a u :
  sql_delete p env s = (Ok a, u) ->
  a = length (filter p (st s)) /\
  u = mkSt (Datatypes.S (tick s)) (filter (fun r => negb (p r)) (st s)).
Proof. intros (_ & x & ? & ->)%statement_Ok_inv. by simplify_eq. Qed.

Lemma sql_insert_Ok_inv {A} clash (mk : Z -> string -> R * A) env s a u :
  sql_insert clash mk env s = (Ok a, u) ->
  exists r, mk (clock env (tick s)) (gen_uuid env (tick s)) = (r, a) /\
    existsb (clash r) (st s) = false /\
    u = mkSt (Datatypes.S (tick s)) (st s ++ [r]).
Proof.
  intros (_ & x & E & ->)%statement_Ok_inv.
  destruct (mk _ _) as [r b]. destruct (existsb _ _) eqn:?; simplify_eq; eauto.
Qed.

Lemma insert_by_Permutation le (x : R) l : insert_by le x l ≡ₚ x :: l.
Proof.
  induction l as [|y l IH]; simpl; [done|]. destruct (le x y); [done|].
  rewrite IH. constructor.
Qed.

Lemma sort_by_Permutation le (l : list R) : sort_by le l ≡ₚ l.
Proof.
  induction l as [|x l IH]; simpl; [done|]. by rewrite insert_by_Permutation, IH.
Qed.

Lemma insert_by_sorted (k : R -> Z) x l :
  StronglySorted (fun x y => (k y <= k x)%Z) l ->
  StronglySorted (fun x y => (k y <= k x)%Z) (insert_by (fun x y => (k y <=? k x)%Z) x l).
Proof.
  induction 1 as [|y l Hl IH Hy]; cbn [insert_by]; [by repeat constructor|].
  destruct (Z.leb_spec (k y) (k x)).
  - constructor; [by constructor|]. constructor; [done|]. eapply Forall_impl; [exact Hy|]. cbn. lia.
  - constructor; [done|]. rewrite insert_by_Permutation. constructor; [lia|done].
Qed.

Lemma order_by_desc_sorted (k : R -> Z) l : StronglySorted (fun x y => (k y <= k x)%Z) (order_by_desc k l).
Proof. induction l as [|x l IH]; [constructor|]. by apply insert_by_sorted. Qed.

Lemma StronglySorted_strict (k : R -> Z) l :
  NoDup (k <$> l) -> StronglySorted (fun x y => (k y <= k x)%Z) l -> StronglySorted (fun x y => (k y < k x)%Z) l.
Proof.
  induction l as [|x l IH]; intros Hnd Hs; [constructor|]. apply NoDup_cons in Hnd as [Hx Hnd].
  apply StronglySorted_inv in Hs as [Hs Hall]. constructor; [auto|]. rewrite Forall_forall in *. intros y Hy.
  specialize (Hall y Hy). cbn in Hall. enough (k y <> k x) by lia. intros He. apply Hx. rewrite <-He. by apply list_elem_of_fmap_2.
Qed.

(** Where no two rows are equal under an [ORDER BY], it decides the order. *)
Lemma order_by_desc_unique (k : R -> Z) l l' :
  NoDup (k <$> l) -> l ≡ₚ l' -> order_by_desc k l = order_by_desc k l'.
Proof.
  intros Hnd Hp. apply (StronglySorted_unique_strong (fun x y => (k y <= k x)%Z)).
  - intros x y Hx Hy H1 H2. unfold order_by_desc in Hx, Hy. rewrite sort_by_Permutation in Hx, Hy. rewrite <-Hp in Hy.
    apply (NoDup_key_inj k l); [done..|lia].
  - apply order_by_desc_sorted.
  - apply order_by_desc_sorted.
  - unfold order_by_desc. by rewrite !sort_by_Permutation.
Qed.

End TableFacts.

Ltac minv_sql :=
  match goal with
  | H : uuid_arg _ _ _ = (Ok _, _) |- _ => apply uuid_arg_Ok_inv in H; destruct H; subst
  | H : int4_arg _ _ _ = (Ok _, _) |- _ => apply int4_arg_Ok_inv in H; destruct H; subst
  | H : varchar_arg _ _ _ _ = (Ok _, _) |- _ => apply varchar_arg_Ok_inv in H; destruct H; subst
  | H : sqlx_dest _ _ _ _ = (Ok _, _) |- _ => apply sqlx_dest_Ok_inv in H; destruct H; subst
  | H : sql_select _ _ _ = (Ok _, _) |- _ => apply sql_select_Ok_inv in H; destruct H; subst
  | H : sql_update _ _ _ _ = (Ok _, _) |- _ => apply sql_update_Ok_inv in H; destruct H; subst
  | H : sql_delete _ _ _ = (Ok _, _) |- _ => apply sql_delete_Ok_inv in H; destruct H; subst
  end.
Ltac minv_more ::= minv_sql.

(** ** A database that answers

    Statements run by a database that does not fail: the forward direction,
    used to run code on concrete and symbolic tables. *)
Definition db_up (env : Env) : Prop := forall t, db_fault env t = None.

Lemma statement_up {S A} (f : Env -> nat -> S -> (A * S) + error) env s :
  db_up env ->
  statement f env s =
    match f env (tick s) (st s) with
    | inl (a, x) => (Ok a, mkSt (Datatypes.S (tick s)) x)
    | inr e => (Err e, mkSt (Datatypes.S (tick s)) (st s))
    end.
Proof. intros Hup. unfold statement. by rewrite Hup. Qed.

Lemma or_nil_run {S A} (m : M S A) env s a t :
  m env s = (Ok a, t) -> or_nil m env s = (Ok (Some a), t).
Proof. intros E. unfold or_nil, bind, attempt. by rewrite E. Qed.

Lemma uuid_arg_run {S} v u env (s : St S) : pg_uuid env v = Some u -> uuid_arg v env s = (Ok u, s).
Proof. intros E. unfold uuid_arg. by rewrite E. Qed.

Lemma uuid_bind {S A} v (k : string -> M S A) env s :
  bind (uuid_arg v) k env s =
    match pg_uuid env v with
    | Some u => k u env s
    | None => (Err (ErrDB ("pq: invalid input syntax for type uuid: " +:+ dquote +:+ v +:+ dquote)), s)
    end.
Proof. unfold bind, uuid_arg. by destruct (pg_uuid env v). Qed.

Lemma varchar_arg_run {S} n v env (s : St S) :
  String.length v <= n -> varchar_arg n v env s = (Ok tt, s).
Proof. intros. unfold varchar_arg. rewrite decide_True; [done|]. pose proof (char_length_le v). lia. Qed.

(** The one row that matches. *)
Lemma sql_get_run {R} (p : R -> bool) r env (s : St (list R)) :
  db_up env -> r ∈ st s -> p r = true -> (forall x, x ∈ st s -> p x = true -> x = r) ->
  sql_get p env s = (Ok r, mkSt (Datatypes.S (tick s)) (st s)).
Proof.
  intros Hup Hr Hp Hone. unfold sql_get. rewrite statement_up by done.
  destruct (reorder _ _) as [|x l] eqn:E.
  - apply reorder_nil in E. assert (r ∈ filter p (st s)) as Hin by (apply list_elem_of_filter; by rewrite Hp).
    rewrite E in Hin. by apply elem_of_nil in Hin.
  - assert (x ∈ reorder (row_order env (tick s)) (filter p (st s))) as Hx by (rewrite E; left).
    apply reorder_elem, list_elem_of_filter in Hx as [Hx Hin]. apply Is_true_eq_true in Hx. by rewrite (Hone x).
Qed.

Lemma sql_get_none {R} (p : R -> bool) env (s : St (list R)) :
  db_up env -> (forall x, x ∈ st s -> p x = false) ->
  sql_get p env s = (Err sql_ErrNoRows, mkSt (Datatypes.S (tick s)) (st s)).
Proof.
  intros Hup Hno. unfold sql_get. rewrite statement_up by done.
  replace (filter p (st s)) with (@nil R); [done|]. symmetry. apply filter_none. intros x Hx Hp. apply Is_true_eq_true in Hp. by rewrite Hno in Hp.
Qed.

(** ** What statements keep *)

Lemma preserves_statement {S A} (P : S -> Prop) (f : Env -> nat -> S -> (A * S) + error) :
  (forall env t x a y, P x -> f env t x = inl (a, y) -> P y) -> preserves P (statement f).
Proof.
  intros Hf env s HP. unfold statement. destruct (db_fault _ _); [done|].
  destruct (f _ _ _) as [[a y]|e] eqn:E; simpl; [by eapply Hf|done].
Qed.

Lemma readonly_statement {S A} (f : Env -> nat -> S -> (A * S) + error) :
  (forall env t x a y, f env t x = inl (a, y) -> y = x) -> readonly (statement f).
Proof.
  intros Hf env s. unfold statement. destruct (db_fault _ _); [done|].
  destruct (f _ _ _) as [[a y]|e] eqn:E; simpl; [by eapply Hf|done].
Qed.

Lemma readonly_uuid_arg {S} v : readonly (S := S) (uuid_arg v).
Proof. intros env s. unfold uuid_arg. by case_match. Qed.

Lemma readonly_varchar_arg {S} n v : readonly (S := S) (varchar_arg n v).
Proof. unfold varchar_arg. by case_decide. Qed.

Lemma readonly_int4_arg {S} v : readonly (S := S) (int4_arg v).
Proof. unfold int4_arg. by case_decide. Qed.

Lemma readonly_or_nil {S A} (m : M S A) : readonly m -> readonly (or_nil m).
Proof. intros. unfold or_nil. effects. Qed.

Lemma readonly_sqlx_dest {S} d c : readonly (S := S) (sqlx_dest d c).
Proof. intros env s. unfold sqlx_dest. by case_match. Qed.

Section KeepFacts.
Context {R : Type} (P : list R -> Prop).

Lemma readonly_sql_select (p : R -> bool) : readonly (sql_select p).
Proof. apply readonly_statement. by intros; simplify_eq. Qed.

Lemma readonly_sql_get (p : R -> bool) : readonly (sql_get p).
Proof. apply readonly_statement. intros. by case_match; simplify_eq. Qed.

Lemma preserves_sql_update (p : R -> bool) f :
  (forall tm l, P l -> P (map (fun r => if p r then f tm r else r) l)) ->
  preserves P (sql_update p f).
Proof. intros Hf. apply preserves_statement. intros; simplify_eq. by apply Hf. Qed.

Lemma preserves_sql_delete (p : R -> bool) :
  (forall l, P l -> P (filter (fun r => negb (p r)) l)) -> preserves P (sql_delete p).
Proof. intros Hf. apply preserves_statement. intros; simplify_eq. by apply Hf. Qed.

Lemma preserves_sql_insert {A} clash (mk : Z -> string -> R * A) :
  (forall tm id l, P l -> existsb (clash (fst (mk tm id))) l = false -> P (l ++ [fst (mk tm id)])) ->
  preserves P (sql_insert clash mk).
Proof.
  intros Hf. apply preserves_statement. intros env t x a y HP E.
  specialize (Hf (clock env t) (gen_uuid env t) x HP). destruct (mk _ _) as [r b]. simpl in *.
  destruct (existsb _ _); simplify_eq. auto.
Qed.

Lemma preserves_sql_upsert {A} conflict clash merge (mk : Z -> string -> R) (out : R -> A) :
  (forall tm id l, P l ->
     (forall x, x ∈ l -> conflict (mk tm id) x = false) ->
     existsb (clash (mk tm id)) l = false -> P (l ++ [mk tm id])) ->
  (forall tm id l, P l ->
     P (map (fun x => if conflict (mk tm id) x then merge (mk tm id) x else x) l)) ->
  preserves P (sql_upsert conflict clash merge mk out).
Proof.
  intros Hi Hu. apply preserves_statement. intros env t x a y HP E. simpl in E.
  destruct (filter _ x) as [|old r] eqn:Ef; simplify_eq; [|by apply Hu].
  destruct (existsb _ _) eqn:Ex; simplify_eq.
  apply Hi; [done| |done]. intros z Hz. destruct (conflict _ z) eqn:Ec; [|done].
  assert (z ∈ filter (conflict (mk (clock env t) (gen_uuid env t))) x) as Hin
    by (apply list_elem_of_filter; by rewrite Ec).
  rewrite Ef in Hin. by apply elem_of_nil in Hin.
Qed.

End KeepFacts.

#[export] Hint Resolve readonly_uuid_arg readonly_varchar_arg readonly_int4_arg readonly_sqlx_dest
  readonly_or_nil
  readonly_sql_select readonly_sql_get : effects.

(** ** sqlx and structs

    [GetContext] and [SelectContext] into a struct known to [sqlx] by the
    names [dest]: the columns are matched against the names once the query has
    answered, before any row is looked at. *)
Definition sqlx_get {R} (dest cols : list string) (p : R -> bool) : M (list R) R :=
  rows <- sql_select p;;
  sqlx_dest dest cols;;
  match rows with r :: _ => ret r | [] => fail sql_ErrNoRows end.

Definition sqlx_select {R} (dest cols : list string) (p : R -> bool) : M (list R) (list R) :=
  rows <- sql_select p;;
  sqlx_dest dest cols;;
  ret rows.

(** The documented behaviour of the match: a column without a destination is
    an error, a struct that covers the columns is not. *)
Definition sqlx_strict (env : Env) : Prop :=
  forall dest cols,
    (Forall (fun c => c ∈ dest) cols -> sqlx_missing env dest cols = None) /\
    (Exists (fun c => c ∉ dest) cols -> exists c, sqlx_missing env dest cols = Some c).

Lemma readonly_sqlx_get {R} dest cols (p : R -> bool) : readonly (sqlx_get dest cols p).
Proof. unfold sqlx_get. effects. Qed.

Lemma readonly_sqlx_select {R} dest cols (p : R -> bool) : readonly (sqlx_select dest cols p).
Proof. unfold sqlx_select. effects. Qed.
#[export] Hint Resolve readonly_sqlx_get readonly_sqlx_select : effects.

(** A struct that misses a column can never be read. *)
Lemma sqlx_get_missing {R} dest cols (p : R -> bool) env s r s' :
  sqlx_strict env -> Exists (fun c => c ∉ dest) cols ->
  sqlx_get dest cols p env s <> (Ok r, s').
Proof.
  intros Hs Hc H. unfold sqlx_get in H. minv;
    destruct (Hs dest cols) as [_ Hm]; destruct (Hm Hc) as [c ?]; congruence.
Qed.

Lemma sqlx_get_missing_err {R} dest cols (p : R -> bool) env s e s' :
  sqlx_strict env -> Exists (fun c => c ∉ dest) cols ->
  sqlx_get dest cols p env s = (Err e, s') -> errors_Is e sql_ErrNoRows = false.
Proof.
  intros Hs Hc. unfold sqlx_get, sql_select, statement, bind, sqlx_dest.
  destruct (Hs dest cols) as [_ Hm]. destruct (Hm Hc) as [c Hmc].
  destruct (db_fault env (tick s)); [by intros [= <- _]|].
  rewrite Hmc. by intros [= <- _].
Qed.

Section UpsertFacts.
Context {R : Type}.

Lemma filter_bool_elem (p : R -> bool) (l : list R) x : x ∈ filter p l <-> x ∈ l /\ p x = true.
Proof. rewrite list_elem_of_filter, Is_true_true. tauto. Qed.

(** An upsert that answers leaves the row it returns in the table. *)
Lemma sql_upsert_Ok_inv {A} conflict clash merge (mk : Z -> string -> R) (out : R -> A) env s a u :
  sql_upsert conflict clash merge mk out env s = (Ok a, u) ->
  let r := mk (clock env (tick s)) (gen_uuid env (tick s)) in
  tick u = S (tick s) /\
  ((exists old, old ∈ st s /\ conflict r old = true /\ a = out (merge r old) /\
     st u = map (fun x => if conflict r x then merge r x else x) (st s)) \/
   ((forall x, x ∈ st s -> conflict r x = false) /\ a = out r /\ st u = st s ++ [r])).
Proof.
  intros (_ & x & E & ->)%statement_Ok_inv. split; [done|]. simpl in *.
  destruct (filter _ (st s)) as [|old rest] eqn:Ef; [|simplify_eq]; [right|left].
  - destruct (existsb _ _); simplify_eq. split_and!; [|done|done]. intros y Hy. destruct (conflict _ y) eqn:Ec; [|done].
    assert (y ∈ filter (conflict (mk (clock env (tick s)) (gen_uuid env (tick s)))) (st s)) as Hin
      by (by apply filter_bool_elem).
    rewrite Ef in Hin. by apply elem_of_nil in Hin.
  - exists old. assert (old ∈ filter (conflict (mk (clock env (tick s)) (gen_uuid env (tick s)))) (st s)) as Hin
      by (rewrite Ef; left).
    by apply filter_bool_elem in Hin as [? ?].
Qed.

(** [sql.ErrNoRows] is the answer of an empty result and of nothing else. *)
Lemma sql_get_NoRows (p : R -> bool) env s e u :
  sql_get p env s = (Err e, u) -> errors_Is e sql_ErrNoRows = true ->
  forall x, x ∈ st s -> p x = false.
Proof.
  unfold sql_get, statement. destruct (db_fault _ _); [by intros [= <- _]|].
  destruct (reorder _ _) as [|r l] eqn:Ef; [|done]. apply reorder_nil in Ef. intros _ _ x Hx.
  destruct (p x) eqn:Hp; [|done].
  assert (x ∈ filter p (st s)) as Hin by (by apply filter_bool_elem).
  rewrite Ef in Hin. by apply elem_of_nil in Hin.
Qed.

(** What a lookup by a unique key finds, and that it changes nothing. *)
Lemma sql_get_unique_spec (p : R -> bool) env s :
  exists r u, sql_get_unique p env s = (r, u) /\ st u = st s /\
    match r with
    | Ok a => head (filter p (st s)) = Some a
    | Err e => errors_Is e sql_ErrNoRows = true -> filter p (st s) = []
    | Panic _ => False
    end.
Proof.
  unfold sql_get_unique, statement. destruct (db_fault _ _); [by repeat eexists|].
  destruct (filter p (st s)) as [|r l] eqn:Ef; repeat eexists; cbn; by rewrite ?Ef.
Qed.

End UpsertFacts.

(** Statements answer or fail; they do not panic. *)
Lemma statement_Panic {S A} (f : Env -> nat -> S -> (A * S) + error) env s p u :
  statement f env s <> (Panic p, u).
Proof. unfold statement. by repeat case_match. Qed.

(** ** Updates of unique columns

    [UPDATE t SET ... WHERE p] on a table with a unique key: rejected when two
    rows of the result would share it. *)
Definition sql_update_unique {R K} `{!EqDecision K} (key : R -> K) (p : R -> bool) (f : Z -> R -> R)
    : M (list R) nat :=
  statement (fun env t rows =>
    let rows' := map (fun r => if p r then f (clock env t) r else r) rows in
    if decide (NoDup (key <$> rows')) then inl (length (filter p rows), rows')
    else inr (ErrDB "pq: duplicate key value violates unique constraint")).

Lemma sql_update_unique_Ok_inv {R K} `{!EqDecision K} (key : R -> K) p f env (s : St (list R)) a u :
  sql_update_unique key p f env s = (Ok a, u) ->
  let rows' := map (fun r => if p r then f (clock env (tick s)) r else r) (st s) in
  NoDup (key <$> rows') /\ u = mkSt (Datatypes.S (tick s)) rows'.
Proof.
  intros (_ & x & E & ->)%statement_Ok_inv. simpl in E. case_decide; by simplify_eq.
Qed.

Lemma preserves_sql_update_unique {R K} `{!EqDecision K} (P : list R -> Prop) (key : R -> K) (p : R -> bool) (f : Z -> R -> R) :
  (forall tm l, P l -> let l' := map (fun r : R => if p r then f tm r else r) l in
     NoDup (key <$> l') -> P l') ->
  preserves P (sql_update_unique key p f).
Proof.
  intros Hf. apply preserves_statement. intros env t x a y HP E. simpl in E. case_decide; simplify_eq. by apply Hf.
Qed.

(** [SELECT COUNT( * ) FROM t WHERE p] *)
Definition sql_count {R} (p : R -> bool) : M (list R) Z :=
  statement (fun _ _ rows => inl (Z.of_nat (length (filter p rows)), rows)).

Lemma readonly_sql_count {R} (p : R -> bool) : readonly (sql_count p).
Proof. apply readonly_statement. by intros; simplify_eq. Qed.
#[export] Hint Resolve readonly_sql_count : effects.

(** ** Transactions

    [BeginTxx], the statements, and [Commit]; when a statement fails the
    deferred [Rollback] undoes what was done.  Inside a transaction [NOW()] is
    the time it began.  A commit that reports an error has not happened. *)
Definition frozen (env : Env) (n : nat) : Env :=
  mkEnv (fun _ => clock env n) (rand_read env) (new_uuid env) (gen_uuid env) (db_fault env)
    (pg_uuid env) (sqlx_missing env) (row_order env).

Definition transaction {S A} (m : M S A) : M S A :=
  fun env s =>
    match db_fault env (tick s) with
    | Some msg => (Err (ErrDB msg), mkSt (Datatypes.S (tick s)) (st s))
    | None =>
        match m (frozen env (tick s)) (mkSt (Datatypes.S (tick s)) (st s)) with
        | (Ok a, t) =>
            match db_fault env (tick t) with
            | Some msg => (Err (ErrDB msg), mkSt (Datatypes.S (tick t)) (st s))
            | None => (Ok a, mkSt (Datatypes.S (tick t)) (st t))
            end
        | (Err e, t) => (Err e, mkSt (Datatypes.S (tick t)) (st s))
        | (Panic p, t) => (Panic p, mkSt (Datatypes.S (tick t)) (st s))
        end
    end.

Lemma transaction_Ok_inv {S A} (m : M S A) env s a u :
  transaction m env s = (Ok a, u) ->
  exists t, m (frozen env (tick s)) (mkSt (Datatypes.S (tick s)) (st s)) = (Ok a, t) /\
    st u = st t /\ tick u = Datatypes.S (tick t).
Proof.
  unfold transaction. destruct (db_fault _ _); [done|].
  destruct (m _ _) as [[b|e|p] t]; [|done..]. destruct (db_fault _ _); [done|].
  intros [= <- <-]. eauto.
Qed.

(** A transaction that does not commit has no effect. *)
Lemma transaction_atomic {S A} (m : M S A) env s r u :
  transaction m env s = (r, u) -> is_ok r = false -> st u = st s.
Proof.
  unfold transaction. destruct (db_fault _ _); [by intros [= <- <-]|].
  destruct (m _ _) as [[b|e|p] t]; [|by intros [= <- <-]..].
  destruct (db_fault _ _); by intros [= <- <-].
Qed.

Lemma preserves_transaction {S A} (P : S -> Prop) (m : M S A) :
  preserves P m -> preserves P (transaction m).
Proof.
  intros Hm env s HP. unfold transaction. destruct (db_fault _ _); [done|].
  specialize (Hm (frozen env (tick s)) (mkSt (Datatypes.S (tick s)) (st s)) HP).
  destruct (m _ _) as [[b|e|p] t]; [|done..]. by destruct (db_fault _ _).
Qed.

Lemma keeps_transaction {S A} (E : Env -> Prop) (P : S -> Prop) (m : M S A) :
  (forall env n, E env -> E (frozen env n)) -> keeps E P m -> keeps E P (transaction m).
Proof.
  intros HE Hm env s He HP. unfold transaction. destruct (db_fault _ _); [done|].
  specialize (Hm (frozen env (tick s)) (mkSt (Datatypes.S (tick s)) (st s)) (HE _ _ He) HP).
  destruct (m _ _) as [[b|e|p] t]; [|done..]. by destruct (db_fault _ _).
Qed.

(** A statement on one table of a database. *)
Lemma preserves_zoom_statement {S T A} (P : S -> Prop) get put (f : Env -> nat -> T -> (A * T) + error) :
  (forall x, put (get x) x = x) ->
  (forall env t x a y, P x -> f env t (get x) = inl (a, y) -> P (put y x)) ->
  preserves P (zoom get put (statement f)).
Proof.
  intros Hid Hf env s HP. unfold zoom, statement. cbn [tick st].
  destruct (db_fault _ _); [cbn; by rewrite Hid|].
  destruct (f _ _ _) as [[a y]|e] eqn:E; cbn; [by eapply Hf|by rewrite Hid].
Qed.

Lemma transaction_up {S A} (m : M S A) env s a t :
  db_up env -> m (frozen env (tick s)) (mkSt (Datatypes.S (tick s)) (st s)) = (Ok a, t) ->
  transaction m env s = (Ok a, mkSt (Datatypes.S (tick t)) (st t)).
Proof. intros Hup E. unfold transaction. by rewrite Hup, E, Hup. Qed.

(** ** Concrete surroundings

    A machine to run examples on: one second per observation, a database that
    answers, entropy and identifiers numbered by the observation that asked
    for them. *)
Definition demo_uuid (n : nat) : string :=
  "00000000-0000-4000-8000-" +:+
  hex_Encode (Sha256.of_bytes (Sha256.be_bytes 6 (N.of_nat n))).

Definition demo_env : Env := {|
  clock := fun n => (Z.of_nat n * 1000000000)%Z;
  rand_read := fun t n => Ok (Sha256.of_bytes (Sha256.be_bytes n (N.of_nat t)));
  new_uuid := demo_uuid;
  gen_uuid := demo_uuid;
  db_fault := fun _ => None;
  pg_uuid := fun s => if hex_groups [8; 4; 4; 4; 12] s then Some (strings_ToLower s) else None;
  sqlx_missing := fun dest cols => head (filter (fun c => c ∉ dest) cols);
  row_order := fun _ _ => 0
|}.

Lemma demo_env_strict : sqlx_strict demo_env.
Proof.
  intros dest cols. simpl. split.
  - intros Hall. rewrite filter_none; [done|]. intros c Hc.
    rewrite Forall_forall in Hall. intros Hn. by apply Hn, Hall.
  - induction 1 as [c cols Hc|c cols Hc IH].
    + rewrite filter_cons_True by done. by eexists.
    + rewrite filter_cons. case_decide; [by eexists|done].
Qed.

Lemma demo_env_up : db_up demo_env.
Proof. done. Qed.

Lemma be_bytes_length k x : length (Sha256.be_bytes k x) = k.
Proof. revert x. induction k as [|k IH]; intros x; simpl; [done|]. by rewrite IH. Qed.

(** The identifiers it hands out are in canonical form. *)
Lemma demo_uuid_canonical n : pg_uuid demo_env (demo_uuid n) = Some (demo_uuid n).
Proof.
  cbn [pg_uuid demo_env]. unfold demo_uuid.
  set (s := Sha256.of_bytes (Sha256.be_bytes 6 (N.of_nat n))).
  assert (hex_run 12 (hex_Encode s) = Some estr) as Hr.
  { pose proof (hex_run_Encode s estr) as H. rewrite app_estr in H.
    replace 12 with (2 * String.length s); [done|].
    subst s. by rewrite Sha256.of_bytes_length, be_bytes_length. }
  assert (hex_groups [8; 4; 4; 4; 12] ("00000000-0000-4000-8000-" +:+ hex_Encode s) = true) as ->.
  { change (match hex_run 12 (hex_Encode s), @nil nat with
            | Some EmptyString, [] => true
            | Some (String a r), _ :: _ => bool_decide (byte_N a = 45%N) && hex_groups [] r
            | _, _ => false end = true).
    by rewrite Hr. }
  f_equal. exact (f_equal (fun x => "00000000-0000-4000-8000-" +:+ x) (ToLower_hex_Encode s)).
Qed.
