(* ===== verification/Http.v ===== *)
(** * HTTP requests, responses and handlers

    What the handlers see of [net/http] and gin: a request with its headers,
    query, path parameters and body, the context the middleware fills, and the
    response a handler writes.  A JSON document is the tree it denotes; a
    [time.Time] in it stands as the number of its nanoseconds.

    Turning a request into a Go struct ([ShouldBindJSON], [ShouldBind],
    [ShouldBindQuery]) and checking a struct's [validate] tags are gin's and
    the validator's: a handler takes them as the classes [Binder] and
    [Validator]. *)
From S2P Require Import Prelude GoStd GoUrl.
Local Open Scope go_scope.

Inductive json : Type :=
| JNull
| JBool (b : bool)
| JNum (z : Z)
| JStr (s : string)
| JArr (l : list json)
| JObj (fields : list (string * json)).

(** A document that encoding and decoding give back: text in UTF-8, and whole
    numbers that a float64 holds. *)
Fixpoint json_exact (j : json) : bool :=
  match j with
  | JNull | JBool _ => true
  | JNum z => (Z.abs z <=? 2 ^ 53)%Z
  | JStr s => utf8_ValidString s
  | JArr l => forallb json_exact l
  | JObj fields => forallb (fun kv => utf8_ValidString (fst kv) && json_exact (snd kv)) fields
  end.

Record Request : Type := mkRequest {
  rq_headers : list (string * string);
  rq_query : list (string * string);
  rq_params : list (string * string);
  rq_cookies : list (string * string);
  rq_body : json;
  rq_ip : string
}.

(** gin's context: the request and the tenant the middleware stored, both
    under [c.Set] and in the request's [context.Context]. *)
Record GinCtx : Type := mkGinCtx {
  gc_request : Request;
  gc_tenant : option string
}.

Record Cookie : Type := mkCookie {
  ck_name : string;
  ck_value : string;
  ck_maxage : Z;
  ck_path : string;
  ck_secure : bool;
  ck_httponly : bool
}.

Record Response : Type := mkResponse {
  rs_status : Z;
  rs_body : json;
  rs_cookies : list Cookie;
  rs_location : option string
}.

(** [c.JSON(status, body)] *)
Definition respond (status : Z) (body : json) : Response :=
  mkResponse status body [] None.

(** [gin.H{"error": msg}] *)
Definition error_body (msg : string) : json := JObj [("error", JStr msg)].

(** [c.Status(status)] *)
Definition respond_status (status : Z) : Response := mkResponse status JNull [] None.

Definition Handler (S : Type) : Type := GinCtx -> M S Response.

(** The first value under a key. *)
Fixpoint assoc_get (k : string) (l : list (string * string)) : option string :=
  match l with
  | [] => None
  | (k', v) :: r => if decide (k = k') then Some v else assoc_get k r
  end.

(** [c.GetHeader(name)]: header names are compared without case; a missing
    header reads as the empty string. *)
Fixpoint header_get (name : string) (l : list (string * string)) : string :=
  match l with
  | [] => estr
  | (k, v) :: r =>
      if decide (strings_ToLower k = strings_ToLower name) then v else header_get name r
  end.

Definition GetHeader (c : GinCtx) (name : string) : string :=
  header_get name (rq_headers (gc_request c)).

(** [c.Query(key)] and [c.DefaultQuery(key, d)] *)
Definition Query (c : GinCtx) (key : string) : string :=
  default estr (assoc_get key (rq_query (gc_request c))).

Definition DefaultQuery (c : GinCtx) (key d : string) : string :=
  default d (assoc_get key (rq_query (gc_request c))).

(** [c.Param(key)] *)
Definition Param (c : GinCtx) (key : string) : string :=
  default estr (assoc_get key (rq_params (gc_request c))).

(** [c.ClientIP()] *)
Definition ClientIP (c : GinCtx) : string := rq_ip (gc_request c).

(** gin's binding of a request to a struct, and the validator's check of the
    struct's tags. *)
Class Binder (A : Type) : Type := should_bind : Request -> A + error.

Class Validator (A : Type) : Type := validate_struct : A -> option error.

(** gin's [Recovery] middleware: a panic in a handler becomes a 500. *)
Definition serve {S} (h : Handler S) : Handler S :=
  fun c env s =>
    match h c env s with
    | (Panic _, s') => (Ok (respond_status 500), s')
    | r => r
    end.

(** ** Calling another service

    A request as a client puts it together. *)
Record HttpCall : Type := mkHttpCall {
  hc_method : string;
  hc_url : string;
  hc_headers : list (string * string);
  hc_query : Values;
  hc_body : json
}.

(** One request and its answer; [Err] is a transport failure. *)
Class HttpPeer (X : Type) : Type := http_RoundTrip : HttpCall -> M X Response.

(** What the client of net/http makes of an answer: a redirect to the place the
    answer names, with GET and without the body unless the status (307, 308)
    keeps both. Credentials are kept for the same host and those below it. *)
Definition url_Hostname (u : URL) : string :=
  let '(before, _, colon) := strings_Cut (u_Host u) (byte 58) in
  if negb colon then u_Host u
  else let '(inside, _, bracket) := strings_Cut (u_Host u) (byte 93) in
       if (bracket : bool) then (if String.prefix "[" inside then drop_bytes 1 inside else inside) else before.

Definition isDomainOrSubdomain (sub parent : string) : bool :=
  bool_decide (sub = parent) ||
  (negb (is_in (byte 58) sub || is_in (byte 37) sub) &&
   bool_decide (drop_bytes (String.length sub - String.length parent - 1) sub = "." +:+ parent)).

Definition sensitive_header (kv : string * string) : bool :=
  bool_decide (strings_ToLower (fst kv) ∈ ["authorization"; "www-authenticate"; "cookie"; "cookie2"; "proxy-authorization"; "proxy-authenticate"]).

Definition referer (last next : URL) (explicit : string) : string :=
  if decide (u_Scheme last = "https" /\ u_Scheme next = "http") then estr
  else if decide (explicit <> estr) then explicit
  else URL_String (mkURL (u_Scheme last) (u_Opaque last) None (u_Host last) (u_Path last) (u_RawPath last) (u_OmitHost last)
                     (u_ForceQuery last) (u_RawQuery last) (u_Fragment last) (u_RawFragment last)).

Definition redirect_headers (first last next : URL) (headers : list (string * string)) : list (string * string) :=
  let kept := if isDomainOrSubdomain (url_Hostname next) (url_Hostname first) then headers
              else filter (fun kv => sensitive_header kv = false) headers in
  let ref := referer last next (header_get "Referer" kept) in
  if decide (ref = estr) then kept
  else filter (fun kv => strings_ToLower (fst kv) <> "referer") kept ++ [("Referer", ref)].

Definition redirect_call (first call : HttpCall) (resp : Response) : option (HttpCall + error) :=
  match rs_location resp with
  | None => None
  | Some loc =>
      if decide (loc = estr \/ rs_status resp ∉ [301; 302; 303; 307; 308]%Z) then None
      else match url_Parse (hc_url first), url_Parse (hc_url call), url_Parse loc with
      | inl first, inl last, inl ref =>
          let next := URL_ResolveReference last ref in
          let keeps := bool_decide (rs_status resp ∈ [307; 308]%Z) in
          let method := if keeps || bool_decide (hc_method call ∈ ["GET"; "HEAD"]) then hc_method call else "GET" in
          Some (inl (mkHttpCall method (URL_String next) (redirect_headers first last next (hc_headers call))
                       (url_Query (u_RawQuery next)) (if keeps then hc_body call else JNull)))
      | _, _, _ => Some (inr (ErrLib ("failed to parse Location header " +:+ strconv_Quote loc)))
      end
  end.

(** [http.Client.Do], which makes ten requests at most. *)
Fixpoint http_follow {X} {peer : HttpPeer X} (redirects : nat) (first call : HttpCall) : M X Response :=
  resp <- http_RoundTrip call;;
  match redirect_call first call resp with
  | None => ret resp
  | Some (inr err) => fail err
  | Some (inl next) =>
      match redirects with
      | 0 => fail (ErrLib "stopped after 10 redirects")
      | S k => http_follow k first next
      end
  end.

Definition http_Do {X} {peer : HttpPeer X} (call : HttpCall) : M X Response := http_follow 9 call call.

(** [http.NewRequestWithContext(ctx, method, url, body)] rejects a URL that
    does not parse. *)
Definition http_NewRequest {S} (method url : string) (body : json) : M S HttpCall :=
  match url_Parse url with
  | inr err => fail err
  | inl u => ret (mkHttpCall method url [] (url_Query (u_RawQuery u)) body)
  end.

(** [req.Header.Set(name, value)] *)
Definition with_header (name value : string) (r : HttpCall) : HttpCall :=
  mkHttpCall (hc_method r) (hc_url r)
    (filter (fun kv => strings_ToLower (fst kv) <> strings_ToLower name) (hc_headers r) ++ [(name, value)])
    (hc_query r) (hc_body r).

(** [q := req.URL.Query(); q.Add(key, value); req.URL.RawQuery = q.Encode()] *)
Definition add_query (key value : string) (r : HttpCall) : HttpCall :=
  mkHttpCall (hc_method r) (hc_url r) (hc_headers r) (Values_Add (hc_query r) key value) (hc_body r).

(** ** Decoding JSON into structs

    [encoding/json]: names match without case, a missing or null field leaves
    the zero value, a value of another kind is an error, and anything but an
    object (or null) is an error for a struct. *)
Fixpoint json_field (k : string) (fields : list (string * json)) : json :=
  match fields with
  | [] => JNull
  | (k', v) :: r =>
      match json_field k r with
      | JNull => if decide (strings_ToLower k = strings_ToLower k') then v else JNull
      | v' => v'
      end
  end.

Definition err_json : error := ErrLib "json: cannot unmarshal".

Definition json_object (j : json) : list (string * json) + error :=
  match j with JObj fields => inl fields | JNull => inl [] | _ => inr err_json end.

Definition json_string (j : json) : string + error :=
  match j with JStr s => inl s | JNull => inl estr | _ => inr err_json end.

Definition json_bool (j : json) : bool + error :=
  match j with JBool b => inl b | JNull => inl false | _ => inr err_json end.

(** A [map[string]string]: a null element is the empty string. *)
Fixpoint json_map_fields (fields : list (string * json)) (m : gmap string string) : gmap string string + error :=
  match fields with
  | [] => inl m
  | (k, v) :: r =>
      match json_string v with
      | inl s => json_map_fields r (<[k := s]> m)
      | inr e => inr e
      end
  end.

Definition json_string_map (j : json) : gmap string string + error :=
  match json_object j with inl fields => json_map_fields fields ∅ | inr e => inr e end.

(** The fields of a struct, one after the other. *)
Definition field {A B} (decode : json -> A + error) (k : string) (fields : list (string * json))
    (rest : A -> B + error) : B + error :=
  match decode (json_field k fields) with inl a => rest a | inr e => inr e end.

(** The string at [path] of a document decoded into nested structs. *)
Fixpoint json_path (path : list string) (j : json) : string + error :=
  match path with
  | [] => json_string j
  | k :: rest =>
      match json_object j with
      | inl fields => json_path rest (json_field k fields)
      | inr e => inr e
      end
  end.

(** A decoding step in a handler. *)
Definition decoded {S A} (r : A + error) : M S A :=
  match r with inl a => ret a | inr e => fail e end.

Lemma decoded_Ok_inv {S A} (r : A + error) env (s : St S) a u :
  decoded r env s = (Ok a, u) -> r = inl a /\ u = s.
Proof. destruct r; [|done]. by intros [= <- <-]. Qed.

(** ** Handlers in parts *)

(** A method called on a nil interface. *)
Definition nil_deref : string := "runtime error: invalid memory address or nil pointer dereference".

Definition non_nil {S A} (present : bool) (m : M S A) : M S A :=
  if present then m else panic nil_deref.

(** The first lines of a handler: the request bound to a struct, and
    [if err := h.validate.Struct(req); err != nil]. *)
Definition bound {S A} `{!Binder A} (c : GinCtx) (k : A -> M S Response) : M S Response :=
  match should_bind (gc_request c) with
  | inr err => ret (respond 400 (error_body (error_string err)))
  | inl req => k req
  end.

Definition validated {S A} `{!Validator A} (req : A) (k : M S Response) : M S Response :=
  match validate_struct req with
  | Some err => ret (respond 400 (error_body (error_string err)))
  | None => k
  end.

(** A call whose failure is answered, and what follows it otherwise. *)
Definition or_respond {S A} (f : error -> Response) (m : M S A) (k : A -> M S Response)
    : M S Response :=
  r <- attempt m;;
  match r with
  | inr err => ret (f err)
  | inl a => k a
  end.

(** [c.JSON(status, gin.H{"error": msg})] *)
Definition fixed (status : Z) (msg : string) (_ : error) : Response := respond status (error_body msg).

(** [c.JSON(status, gin.H{"error": err.Error()})] *)
Definition verbatim (status : Z) (err : error) : Response :=
  respond status (error_body (error_string err)).

Definition or_500 {S A} (msg : string) (m : M S A) (k : A -> M S Response) : M S Response :=
  or_respond (fixed 500 msg) m k.

(** Struct fields that are [omitempty]. *)
Definition omitempty (k v : string) : list (string * json) :=
  if decide (v = estr) then [] else [(k, JStr v)].

Definition omitzero (k : string) (v : Z) : list (string * json) :=
  if decide (v = 0%Z) then [] else [(k, JNum v)].

(** A slice no row was appended to is nil. *)
Definition slice_json {A} (f : A -> json) (l : list A) : json :=
  match l with [] => JNull | _ => JArr (map f l) end.

Lemma or_respond_Ok_inv {S A} f (m : M S A) k env s resp u :
  or_respond f m k env s = (Ok resp, u) ->
  (exists a t, m env s = (Ok a, t) /\ k a env t = (Ok resp, u)) \/
  (exists e, m env s = (Err e, u) /\ resp = f e).
Proof.
  unfold or_respond. intros H. apply bind_Ok_inv in H as (r & t & E & H).
  apply attempt_Ok_inv in E as [(a & -> & E)|(e & -> & E)]; [left; eauto|right]. minv. eauto.
Qed.

Lemma or_respond_run {S A} f (m : M S A) k env s a t :
  m env s = (Ok a, t) -> or_respond f m k env s = k a env t.
Proof. intros E. unfold or_respond, bind, attempt. by rewrite E. Qed.

Lemma or_respond_err {S A} f (m : M S A) (k : A -> M S Response) env s e t :
  m env s = (Err e, t) -> or_respond f m k env s = (Ok (f e), t).
Proof. intros E. unfold or_respond, bind, attempt. by rewrite E. Qed.

Lemma or_500_Ok_inv {S A} msg (m : M S A) k env s resp u :
  or_500 msg m k env s = (Ok resp, u) -> rs_status resp <> 500%Z ->
  exists a t, m env s = (Ok a, t) /\ k a env t = (Ok resp, u).
Proof. intros [H|(e & _ & ->)]%or_respond_Ok_inv Hs; [done|]. by destruct Hs. Qed.

Lemma or_500_run {S A} msg (m : M S A) k env s a t :
  m env s = (Ok a, t) -> or_500 msg m k env s = k a env t.
Proof. apply or_respond_run. Qed.

(** ** Clients and redirects *)

Section Client.
Context {X : Type} {peer : HttpPeer X}.

Lemma redirect_call_none first call resp : rs_location resp = None -> redirect_call first call resp = None.
Proof. unfold redirect_call. by intros ->. Qed.

(** An answer that names no other place is the client's. *)
Lemma http_Do_run call env s resp t :
  http_RoundTrip call env s = (Ok resp, t) -> rs_location resp = None -> http_Do call env s = (Ok resp, t).
Proof. intros E Hl. unfold http_Do. cbn [http_follow]. rewrite (bind_Ok _ _ _ _ _ _ E). by rewrite redirect_call_none. Qed.

Lemma http_Do_inv call env s resp t :
  http_Do call env s = (Ok resp, t) ->
  (forall r u, http_RoundTrip call env s = (Ok r, u) -> rs_location r = None) ->
  http_RoundTrip call env s = (Ok resp, t).
Proof.
  unfold http_Do. cbn [http_follow]. intros H Hr. apply bind_Ok_inv in H as (r & u & E & H).
  rewrite redirect_call_none in H by (by eapply Hr). by apply ret_Ok_inv in H as [<- <-].
Qed.

(** What each request keeps, the client keeps. *)
Lemma http_Do_keeps (E : Env -> Prop) (P : X -> Prop) call :
  (forall c, keeps E P (http_RoundTrip c)) -> keeps E P (http_Do call).
Proof.
  intros H. unfold http_Do. generalize call at 2. generalize 9. intros k. induction k as [|k IH]; intros c; cbn [http_follow];
    (apply keeps_bind; [apply H|intros resp ? ? ? _ _]); destruct (redirect_call _ _ _) as [[next|err]|]; keeping; apply IH.
Qed.
End Client.

(** Computations whose answers name no other place *)
Definition stays {S} (m : M S Response) : Prop := forall env s resp t, m env s = (Ok resp, t) -> rs_location resp = None.

Lemma stays_ret {S} r : rs_location r = None -> stays (S := S) (ret r).
Proof. intros Hr env s resp t H. by apply ret_Ok_inv in H as [<- _]. Qed.

Lemma stays_bind {S A} (m : M S A) k : (forall a, stays (k a)) -> stays (bind m k).
Proof. intros Hk env s resp t H. apply bind_Ok_inv in H as (a & u & _ & H). by eapply Hk. Qed.

Lemma stays_fail {S} e : stays (S := S) (fail e).
Proof. by intros env s resp t H. Qed.

Lemma stays_panic {S} p : stays (S := S) (panic p).
Proof. by intros env s resp t H. Qed.

Lemma stays_zoom {S T} get put (m : M T Response) : stays m -> stays (S := S) (zoom get put m).
Proof. intros Hm env s resp t H. apply zoom_Ok_inv in H as (v & H & _). by eapply Hm. Qed.

Lemma stays_or_respond {S A} f (m : M S A) k :
  (forall e, rs_location (f e) = None) -> (forall a, stays (k a)) -> stays (or_respond f m k).
Proof. intros Hf Hk. apply stays_bind. intros [a|e]; [apply Hk|by apply stays_ret]. Qed.

Lemma stays_bound {S A} `{!Binder A} c (k : A -> M S Response) : (forall a, stays (k a)) -> stays (bound c k).
Proof. intros Hk. unfold bound. destruct (should_bind _); [apply Hk|by apply stays_ret]. Qed.

Lemma stays_validated {S A} `{!Validator A} (req : A) (k : M S Response) : stays k -> stays (validated req k).
Proof. intros Hk. unfold validated. destruct (validate_struct _); [by apply stays_ret|done]. Qed.

Lemma stays_serve {S} (h : Handler S) c : stays (h c) -> stays (serve h c).
Proof.
  intros Hh env s resp t. unfold serve. destruct (h c env s) as [[r|e|p] u] eqn:E; [|done|by intros [= <- _]].
  intros [= <- _]. by eapply Hh.
Qed.

(** A client whose call is answered in place. *)
Lemma http_Do_stays {X} {peer : HttpPeer X} call env s :
  stays (http_RoundTrip call) -> http_Do call env s = http_RoundTrip call env s.
Proof.
  intros Hst. destruct (http_RoundTrip call env s) as [[resp|e|p] t] eqn:E.
  - apply http_Do_run; [done|]. by eapply Hst.
  - unfold http_Do. cbn [http_follow]. unfold bind. by rewrite E.
  - unfold http_Do. cbn [http_follow]. unfold bind. by rewrite E.
Qed.

Create HintDb stays.
#[export] Hint Resolve stays_fail stays_panic stays_zoom : stays.

Ltac staying :=
  repeat first
    [ solve [auto with stays]
    | apply stays_ret; reflexivity
    | apply stays_or_respond; [intros ?; repeat case_match; reflexivity|intros ?]
    | apply stays_bound; intros ?
    | apply stays_validated
    | apply stays_zoom
    | apply stays_bind; intros ?
    | case_match ].

(** ** Headers *)

Abbreviation lower := strings_ToLower.

Lemma header_get_app_None name l l' :
  (forall kv, kv ∈ l -> lower (fst kv) <> lower name) -> header_get name (l ++ l') = header_get name l'.
Proof.
  induction l as [|[k v] l IH]; intros Hl; [done|]. cbn. rewrite decide_False by (apply (Hl (k, v)); left).
  apply IH. intros kv Hkv. apply Hl. by right.
Qed.

Lemma header_get_set name v r : header_get name (hc_headers (with_header name v r)) = v.
Proof.
  cbn. rewrite header_get_app_None.
  - cbn. by rewrite decide_True.
  - intros kv [Hk _]%list_elem_of_filter. done.
Qed.

Lemma header_get_other name name' v r :
  lower name <> lower name' ->
  header_get name (hc_headers (with_header name' v r)) = header_get name (hc_headers r).
Proof.
  intros Hne. cbn. induction (hc_headers r) as [|[k w] l IH].
  - cbn. by rewrite decide_False.
  - rewrite filter_cons. cbn [fst]. destruct (decide (lower k <> lower name')) as [Hk|Hk]; cbn.
    + by rewrite IH.
    + apply dec_stable in Hk. rewrite (decide_False (P := lower k = lower name)) by congruence. done.
Qed.

Lemma serve_Ok_inv {S} (h : Handler S) c env s resp t :
  serve h c env s = (Ok resp, t) -> rs_status resp <> 500%Z -> h c env s = (Ok resp, t).
Proof.
  unfold serve. destruct (h c env s) as [[r|e|p] u]; [done|done|]. intros [= <- <-] Hs. by destruct Hs.
Qed.
