(* ===== verification/GoJson.v ===== *)
(** * [json.Marshal]

    The bytes [encoding/json] writes for a document: no spaces, the escapes of
    its default encoder (HTML characters included).  Bytes from 128 on are
    copied, which is what the encoder does to valid UTF-8 other than U+2028 and
    U+2029. *)
From S2P Require Import Prelude GoStd Http.
From Stdlib Require Import NArith.
Local Open Scope go_scope.

Definition backslash : string := String (Ascii.ascii_of_nat 92) estr.

Definition json_escape_byte (a : Ascii.ascii) : string :=
  let n := byte_N a in
  if decide (n = 34%N) then backslash +:+ dquote
  else if decide (n = 92%N) then backslash +:+ backslash
  else if decide (n = 8%N) then backslash +:+ "b"
  else if decide (n = 12%N) then backslash +:+ "f"
  else if decide (n = 10%N) then backslash +:+ "n"
  else if decide (n = 13%N) then backslash +:+ "r"
  else if decide (n = 9%N) then backslash +:+ "t"
  else if decide (n < 32 \/ n = 60 \/ n = 62 \/ n = 38)%N then backslash +:+ "u00" +:+ hex_Encode (String a estr)
  else String a estr.

Fixpoint json_escape (s : string) : string :=
  match s with
  | EmptyString => estr
  | String a r => json_escape_byte a +:+ json_escape r
  end.

Definition json_quote (s : string) : string := dquote +:+ json_escape s +:+ dquote.

Fixpoint json_Marshal (j : json) : string :=
  match j with
  | JNull => "null"
  | JBool b => if b then "true" else "false"
  | JNum z => pretty z
  | JStr s => json_quote s
  | JArr l => "[" +:+ strings_Join (map json_Marshal l) "," +:+ "]"
  | JObj fields =>
      "{" +:+ strings_Join (map (fun '(k, v) => json_quote k +:+ ":" +:+ json_Marshal v) fields) "," +:+ "}"
  end.

Example Marshal_value :
  json_Marshal (JObj [("a", JArr [JNum (-3); JNull]); ("b", JBool true)]) =
  "{" +:+ dquote +:+ "a" +:+ dquote +:+ ":[-3,null]," +:+ dquote +:+ "b" +:+ dquote +:+ ":true}".
Proof. vm_compute. reflexivity. Qed.
