(* ===== verification/Middleware.v ===== *)
(** * pkg/middleware

    The tenant extractor, the service-to-service authenticator and the per-IP
    rate limiter every service puts in front of its handlers. *)
From S2P Require Import Prelude GoStd Http.
Local Open Scope go_scope.

(** ** tenant.go *)

Definition DefaultTenantHeader : string := "X-Tenant-ID".

(** [uuidRegex.MatchString] *)
Definition uuidRegex (s : string) : bool := hex_groups [8; 4; 4; 4; 12] s.

Record TenantConfig : Type := mkTenantConfig {
  tc_HeaderName : string;
  tc_AllowFallback : bool;
  tc_DefaultTenantID : string
}.

(** [TenantConfig{}] *)
Definition noTenantConfig : TenantConfig := mkTenantConfig estr false estr.

(** [TenantExtractor(cfg)] in front of the handlers that follow it. *)
Definition TenantExtractor {S} (cfg : TenantConfig) (next : Handler S) : Handler S :=
  fun c =>
    let headerName :=
      if decide (tc_HeaderName cfg = estr) then DefaultTenantHeader else tc_HeaderName cfg in
    let tenantID := GetHeader c headerName in
    if decide (tenantID = estr /\ ~ (tc_AllowFallback cfg = true /\ tc_DefaultTenantID cfg <> estr))
    then ret (respond 400 (error_body "missing tenant identifier"))
    else
      let tenantID := if decide (tenantID = estr) then tc_DefaultTenantID cfg else tenantID in
      if negb (uuidRegex tenantID)
      then ret (respond 400 (error_body "invalid tenant id format"))
      else next (mkGinCtx (gc_request c) (Some tenantID)).

Definition err_no_tenant : error := ErrNew "tenant id not found in context".

(** [TenantIDFromGinContext] and [TenantIDFromContext]: the extractor stores
    the same value in both places. *)
Definition TenantIDFromContext {S} (c : GinCtx) : M S string :=
  match gc_tenant c with
  | Some t => if decide (t = estr) then fail err_no_tenant else ret t
  | None => fail err_no_tenant
  end.

(** [tenantID, err := middleware.TenantIDFromGinContext(c)] at the start of a
    handler. *)
Definition with_tenant {S} (msg : string) (c : GinCtx) (k : string -> M S Response) : M S Response :=
  or_respond (fixed 400 msg) (TenantIDFromContext c) k.

(** ** serviceauth.go *)

Definition DefaultServiceAuthHeader : string := "X-Service-Token".

Record ServiceAuthConfig : Type := mkServiceAuthConfig {
  sc_HeaderName : string;
  sc_Token : string
}.

(** [ServiceAuthenticator(cfg)] *)
Definition ServiceAuthenticator {S} (cfg : ServiceAuthConfig) (next : Handler S) : Handler S :=
  fun c =>
    let headerName :=
      if decide (sc_HeaderName cfg = estr) then DefaultServiceAuthHeader else sc_HeaderName cfg in
    let expected := sc_Token cfg in
    let provided := GetHeader c headerName in
    if decide (String.length expected = 0 \/ provided = estr \/
               ConstantTimeCompare provided expected <> 1%Z)
    then ret (respond 401 (error_body "invalid service token"))
    else next c.

(** ** ratelimit.go

    The token bucket itself is golang.org/x/time/rate's: a limiter type, a
    fresh limiter, and [Allow] at a time. *)
Section RateLimit.
Context {L : Type} (NewLimiter : L) (Allow : Z -> L -> bool * L).

(** [i.GetLimiter(ip)]: the limiter of the address, created on first use. *)
Definition GetLimiter (ip : string) : M (gmap string L) L :=
  ips <- gets id;;
  match ips !! ip with
  | Some limiter => ret limiter
  | None => modify (fun m => <[ip := NewLimiter]> m);; ret NewLimiter
  end.

(** The body of the cleanup loop. *)
Definition limiter_cleanup : M (gmap string L) unit :=
  modify (fun m => if (10000 <? Z.of_nat (size m))%Z then ∅ else m).

(** [limiter.GetLimiter(ip).Allow()]; [Allow] updates the limiter the map
    points to in place. *)
Definition limiter_Allow (ip : string) : M (gmap string L) bool :=
  limiter <- GetLimiter ip;;
  t <- now;;
  let '(ok, limiter') := Allow t limiter in
  modify (fun m => <[ip := limiter']> m);;
  ret ok.

(** [RateLimitMiddleware(limit, burst)] in front of handlers over [S]. *)
Definition RateLimitMiddleware {S} (next : Handler S) : Handler (gmap string L * S) :=
  fun c =>
    ok <- zoom fst (fun m s => (m, snd s)) (limiter_Allow (ClientIP c));;
    if negb ok then ret (respond 429 (error_body "Too many requests"))
    else zoom snd (fun x s => (fst s, x)) (next c).

End RateLimit.

(** ** Properties *)

Lemma uuidRegex_nonempty s : uuidRegex s = true -> s <> estr.
Proof. by intros H ->. Qed.

(** With no fallback configured, a request reaches a
    tenant-protected handler exactly when its header holds a well-formed UUID,
    and the handler then reads that very value from its context; every other
    request is answered 400 and the handler does not run. *)
Theorem TenantExtractor_gate {S} (next : Handler S) c env s :
  let tenant := GetHeader c DefaultTenantHeader in
  let r := TenantExtractor (mkTenantConfig estr false estr) next c env s in
  (uuidRegex tenant = true /\
     exists c', r = next c' env s /\ gc_request c' = gc_request c /\
       TenantIDFromContext c' env s = (Ok tenant, s)) \/
  (uuidRegex tenant = false /\ exists body, r = (Ok (respond 400 body), s)).
Proof.
  intros tenant r. subst r. unfold TenantExtractor. simpl.
  change (GetHeader c DefaultTenantHeader) with tenant.
  destruct (uuidRegex tenant) eqn:Hu; [left|right]; (split; [done|]).
  - pose proof (uuidRegex_nonempty _ Hu) as Hne.
    rewrite decide_False by tauto. rewrite (decide_False (P := tenant = estr)) by done.
    rewrite Hu. simpl. eexists. split_and!; [done|done|].
    unfold TenantIDFromContext. simpl. by rewrite decide_False by done.
  - case_decide as Hd; [by eexists|].
    rewrite (decide_False (P := tenant = estr)).
    + rewrite Hu. by eexists.
    + intros He. apply Hd. split; [done|]. intros [? _]. done.
Qed.

(** An internal endpoint runs exactly when a non-empty token is
    configured and the request presents it byte for byte; otherwise the answer
    is 401 and the handler does not run. *)
Theorem ServiceAuthenticator_gate {S} header token (next : Handler S) c env s :
  let name := if decide (header = estr) then DefaultServiceAuthHeader else header in
  let r := ServiceAuthenticator (mkServiceAuthConfig header token) next c env s in
  (token <> estr /\ GetHeader c name = token /\ r = next c env s) \/
  ((token = estr \/ GetHeader c name <> token) /\
   r = (Ok (respond 401 (error_body "invalid service token")), s)).
Proof.
  intros name r. subst r. unfold ServiceAuthenticator. simpl. fold name.
  destruct (decide (token <> estr /\ GetHeader c name = token)) as [[Ht Hh]|Hn].
  - left. split_and!; [done..|]. rewrite decide_False; [done|].
    rewrite Hh. rewrite (proj2 (ConstantTimeCompare_eq token token) eq_refl).
    intros [?|[?|?]]; [|done..]. by destruct token.
  - right. split.
    { destruct (decide (token = estr)); [by left|right; tauto]. }
    rewrite decide_True; [done|].
    destruct (decide (token = estr)) as [->|]; [by left|].
    right; right. intros ?%ConstantTimeCompare_eq. tauto.
Qed.

(** *** Rate limiting

    The map of limiters refines one limiter per address. *)
Section RateLimitFacts.
Context {L : Type} (NewLimiter : L) (Allow : Z -> L -> bool * L).

(** What happens to the limiter: a request from an address, or a round of the
    goroutine that [NewIPRateLimiter] starts. *)
Inductive LimiterStep : Type := Arrives (ip : string) | CleansUp.

(** A sequence of them, and the answers to the requests; each request reads the
    clock once. *)
Fixpoint limiter_run (steps : list LimiterStep) : M (gmap string L) (list bool) :=
  match steps with
  | [] => ret []
  | Arrives ip :: rest =>
      ok <- limiter_Allow NewLimiter Allow ip;;
      oks <- limiter_run rest;;
      ret (ok :: oks)
  | CleansUp :: rest => limiter_cleanup;; limiter_run rest
  end.

(** The addresses of a sequence, in the order in which they are served. *)
Fixpoint arrivals (steps : list LimiterStep) : list string :=
  match steps with
  | [] => []
  | Arrives ip :: rest => ip :: arrivals rest
  | CleansUp :: rest => arrivals rest
  end.

(** The answers [ip] received. *)
Fixpoint answers_of (ip : string) (ips : list string) (oks : list bool) : list bool :=
  match ips, oks with
  | i :: ips', ok :: oks' =>
      if decide (i = ip) then ok :: answers_of ip ips' oks' else answers_of ip ips' oks'
  | _, _ => []
  end.

(** One token bucket: asked at a time, or ([None]) replaced by a new one. *)
Fixpoint bucket_run (l : L) (asks : list (option Z)) : list bool :=
  match asks with
  | [] => []
  | Some t :: rest => let '(ok, l') := Allow t l in ok :: bucket_run l' rest
  | None :: rest => bucket_run NewLimiter rest
  end.

(** What becomes of the bucket of [ip] when the first request is served at tick
    [n] and the addresses of [seen] have been served since the map was last
    emptied: it is asked when [ip] is served, and replaced in a round that finds
    more than ten thousand addresses. *)
Fixpoint asks_of (env : Env) (ip : string) (n : nat) (seen : gset string) (steps : list LimiterStep) : list (option Z) :=
  match steps with
  | [] => []
  | Arrives i :: rest =>
      let later := asks_of env ip (Datatypes.S n) ({[i]} ∪ seen) rest in
      if decide (i = ip) then Some (clock env n) :: later else later
  | CleansUp :: rest =>
      if (10000 <? Z.of_nat (size seen))%Z then None :: asks_of env ip n ∅ rest else asks_of env ip n seen rest
  end.

(** The times at which [ip] is served. *)
Fixpoint times_of (env : Env) (ip : string) (n : nat) (ips : list string) : list Z :=
  match ips with
  | [] => []
  | i :: rest =>
      if decide (i = ip) then clock env n :: times_of env ip (Datatypes.S n) rest
      else times_of env ip (Datatypes.S n) rest
  end.

Lemma limiter_Allow_eq ip env m n :
  limiter_Allow NewLimiter Allow ip env (mkSt n m) =
    let '(ok, l) := Allow (clock env n) (default NewLimiter (m !! ip)) in
    (Ok ok, mkSt (Datatypes.S n) (<[ip := l]> m)).
Proof.
  unfold limiter_Allow, GetLimiter. munfold. unfold id.
  destruct (m !! ip) as [l|]; simpl; destruct (Allow _ _); simpl; [done|].
  by rewrite insert_insert_eq.
Qed.

(** Up to ten thousand addresses, no bucket is replaced. *)
Lemma asks_of_few env ip n seen steps :
  (Z.of_nat (size (seen ∪ list_to_set (arrivals steps))) <= 10000)%Z ->
  asks_of env ip n seen steps = Some <$> times_of env ip n (arrivals steps).
Proof.
  revert n seen. induction steps as [|[i|] steps IH]; intros n seen Hs; [done|..]; cbn [asks_of arrivals times_of].
  - rewrite IH; [by case_decide|]. cbn [arrivals list_to_set foldr] in Hs. by rewrite (union_comm_L {[i]}), <-union_assoc_L.
  - pose proof (subseteq_size seen (seen ∪ list_to_set (arrivals steps)) (union_subseteq_l _ _)) as Hseen.
    change (arrivals (CleansUp :: steps)) with (arrivals steps) in Hs.
    rewrite (proj2 (Z.ltb_ge _ _)) by lia. by apply IH.
Qed.

(** The run against the buckets. *)
Lemma limiter_run_buckets env steps m n :
  exists oks s', limiter_run steps env (mkSt n m) = (Ok oks, s') /\
    length oks = length (arrivals steps) /\
    forall ip, answers_of ip (arrivals steps) oks =
      bucket_run (default NewLimiter (m !! ip)) (asks_of env ip n (dom m) steps).
Proof.
  revert m n. induction steps as [|[i|] steps IH]; intros m n.
  - by repeat eexists.
  - cbn [limiter_run arrivals asks_of]. unfold bind at 1. rewrite limiter_Allow_eq.
    destruct (Allow (clock env n) (default NewLimiter (m !! i))) as [ok l] eqn:E.
    destruct (IH (<[i := l]> m) (S n)) as (oks & s' & Hr & Hlen & Hip).
    exists (ok :: oks), s'. unfold bind. rewrite Hr. split_and!; [done|simpl; by f_equal|].
    intros ip. cbn [answers_of]. rewrite dom_insert_L in Hip. case_decide; subst; cbn [bucket_run]; rewrite Hip.
    + rewrite E. by rewrite lookup_insert_eq.
    + by rewrite lookup_insert_ne.
  - cbn [limiter_run arrivals asks_of]. unfold bind, limiter_cleanup at 1, modify. cbn [st tick].
    rewrite size_dom. destruct (10000 <? _)%Z; [|apply IH].
    destruct (IH ∅ n) as (oks & s' & Hr & Hlen & Hip). exists oks, s'. split_and!; [exact Hr|done|].
    intros ip. cbn [bucket_run]. rewrite Hip, dom_empty_L. by rewrite lookup_empty.
Qed.

(** Property C14. A sequence of requests and rounds of the clean-up is always
    answered. As long as the map and the requests together have no more than ten
    thousand addresses, the answers an address receives are those of its own
    token bucket, asked at the times its own requests arrive: no client consumes
    another client's budget. With more addresses the only thing others do to a
    bucket is to replace it by a new one, in a round of the clean-up that finds
    more than ten thousand of them. *)
Theorem limiter_run_isolated env steps m n :
  exists oks s', limiter_run steps env (mkSt n m) = (Ok oks, s') /\
    length oks = length (arrivals steps) /\
    forall ip,
      answers_of ip (arrivals steps) oks = bucket_run (default NewLimiter (m !! ip)) (asks_of env ip n (dom m) steps) /\
      ((Z.of_nat (size (dom m ∪ list_to_set (arrivals steps))) <= 10000)%Z ->
       answers_of ip (arrivals steps) oks =
         bucket_run (default NewLimiter (m !! ip)) (Some <$> times_of env ip n (arrivals steps))).
Proof.
  destruct (limiter_run_buckets env steps m n) as (oks & s' & Hr & Hlen & Hip).
  exists oks, s'. split_and!; [done..|]. intros ip. split; [apply Hip|].
  intros Hs. by rewrite Hip, asks_of_few.
Qed.

End RateLimitFacts.

(** The tenant extractor in front of a handler, on a request with a tenant. *)
Lemma TenantExtractor_run {S} (next : Handler S) r tid :
  header_get DefaultTenantHeader (rq_headers r) = tid -> tid <> estr -> uuidRegex tid = true ->
  TenantExtractor noTenantConfig next (mkGinCtx r None) = next (mkGinCtx r (Some tid)).
Proof.
  intros Hh Hne Hre. unfold TenantExtractor, GetHeader. cbn [tc_HeaderName noTenantConfig gc_request].
  rewrite (decide_True (P := estr = estr)) by done. rewrite Hh. rewrite decide_False by (by intros []).
  rewrite decide_False by done. by rewrite Hre.
Qed.

Lemma TenantExtractor_refuses {S} (next : Handler S) r tid env s resp t :
  header_get DefaultTenantHeader (rq_headers r) = tid -> ~ (tid <> estr /\ uuidRegex tid = true) ->
  TenantExtractor noTenantConfig next (mkGinCtx r None) env s = (Ok resp, t) -> rs_status resp = 400%Z.
Proof.
  intros Hh Hno. unfold TenantExtractor, GetHeader. cbn [tc_HeaderName noTenantConfig gc_request].
  rewrite (decide_True (P := estr = estr)) by done. rewrite Hh.
  destruct (decide (tid = estr)) as [->|Hne].
  - rewrite decide_True; [by intros [= <- _]|]. split; [done|]. by intros [].
  - rewrite decide_False by (by intros []).
    destruct (uuidRegex tid) eqn:Hre; [by destruct Hno|]. by intros [= <- _].
Qed.

Lemma tenant_context {S} r tid env (s : St S) :
  tid <> estr -> TenantIDFromContext (mkGinCtx r (Some tid)) env s = (Ok tid, s).
Proof. intros Hne. unfold TenantIDFromContext. cbn. by rewrite decide_False. Qed.
