(* ===== verification/Gin.v ===== *)
(** * gin's router

    What the processes under cmd/ use of gin-gonic/gin 1.11: groups that carry
    middleware, routes with [:name] segments, the tree's choice among the
    routes a path matches, the registrations at which it panics, and the
    [Recovery] of [gin.Default()].

    A path that fits no route gets a 404, after the middleware of the engine.
    Where the path with or without a last slash fits one, gin answers with a
    redirect to it, before any middleware; the place it names, which depends on
    the raw URL and on the header X-Forwarded-Prefix, is a parameter. *)
From S2P Require Import Prelude GoStd GoUrl Http Middleware.
Local Open Scope go_scope.

(** ** Patterns *)

Inductive segment : Type :=
| Static (s : string)
| Wild (name : string).

#[export] Instance segment_eq_dec : EqDecision segment.
Proof. solve_decision. Defined.

Abbreviation slash := (Ascii.ascii_of_N 47).

Definition segment_of (s : string) : segment :=
  match s with
  | String a name => if decide (a = Ascii.ascii_of_N 58) then Wild name else Static s
  | estr => Static estr
  end.

(** The segments of a path given to [Group] or [GET]: gin joins paths with
    [path.Join], to which missing and doubled slashes mean nothing. *)
Definition segments (path : string) : list segment :=
  segment_of <$> filter (fun s => s <> estr) (strings_Split path slash).

Abbreviation Params := (list (string * string)).

(** A pattern against a path; a parameter takes one segment, which is not
    empty at the end of the path. *)
Fixpoint match_path (p : list segment) (path : list string) : option Params :=
  match p, path with
  | [], [] => Some []
  | Static a :: p', s :: rest => if decide (a = s) then match_path p' rest else None
  | Wild n :: p', s :: rest =>
      if decide (rest = [] /\ s = estr) then None
      else match match_path p' rest with Some ps => Some ((n, s) :: ps) | None => None end
  | _, _ => None
  end.

(** Two patterns that cannot both be in the tree: they are the same, or part
    at two parameters with different names. *)
Fixpoint clash (p q : list segment) : bool :=
  match p, q with
  | [], [] => true
  | Static a :: p', Static b :: q' => if decide (a = b) then clash p' q' else false
  | Wild a :: p', Wild b :: q' => if decide (a = b) then clash p' q' else true
  | _, _ => false
  end.

(** [p] is tried before [q]: where they part, [p] has a fixed segment. *)
Fixpoint before (p q : list segment) : bool :=
  match p, q with
  | Static a :: p', Static b :: q' => if decide (a = b) then before p' q' else false
  | Wild _ :: p', Wild _ :: q' => before p' q'
  | Static _ :: _, Wild _ :: _ => true
  | _, _ => false
  end.

(** ** The tree *)

Section Tree.
Context {A : Type}.

(** A route below the current node: the rest of its pattern, the parameters
    bound on the way, and its handlers. *)
Definition Candidate : Type := list segment * (Params * A).

Definition static_child (s : string) (c : Candidate) : option Candidate :=
  match c with
  | (Static a :: p, x) => if decide (a = s) then Some (p, x) else None
  | _ => None
  end.

Definition wild_child (s : string) (c : Candidate) : option Candidate :=
  match c with
  | (Wild n :: p, (ps, h)) => Some (p, (ps ++ [(n, s)], h))
  | _ => None
  end.

Definition at_end (c : Candidate) : option (Params * A) :=
  match c with ([], x) => Some x | _ => None end.

(** [getValue]: fixed segments first, back to the parameter where they lead
    nowhere. *)
Fixpoint find_route (path : list string) (cs : list Candidate) : option (Params * A) :=
  match path with
  | [] => head (omap at_end cs)
  | s :: rest =>
      match find_route rest (omap (static_child s) cs) with
      | Some r => Some r
      | None => if decide (rest = [] /\ s = estr) then None
                else find_route rest (omap (wild_child s) cs)
      end
  end.

Definition candidate (r : list segment * A) : Candidate := (fst r, ([], snd r)).

(** The routes of one method. *)
Definition route_lookup (table : list (list segment * A)) (path : list string) : option (Params * A) :=
  find_route path (candidate <$> table).

(** No two registrations clash: none of them panics. *)
Fixpoint conflict_free (ps : list (list segment)) : bool :=
  match ps with
  | [] => true
  | p :: rest => forallb (fun q => negb (clash p q)) rest && conflict_free rest
  end.
End Tree.

(** ** Engines, groups and routes *)

Record Route (S : Type) : Type := mkRoute {
  ro_method : string;
  ro_path : list segment;
  ro_handler : Handler S
}.
Arguments mkRoute {S} _ _ _.
Arguments ro_method {S} _.
Arguments ro_path {S} _.
Arguments ro_handler {S} _.

Record RouterGroup (S : Type) : Type := mkGroup {
  g_path : list segment;
  g_use : Handler S -> Handler S
}.
Arguments mkGroup {S} _ _.
Arguments g_path {S} _.
Arguments g_use {S} _.

Section Groups.
Context {S : Type}.

(** The engine itself, as a group. *)
Definition root : RouterGroup S := mkGroup [] (fun h => h).

(** [g.Group(path)] *)
Definition Group (g : RouterGroup S) (path : string) : RouterGroup S :=
  mkGroup (g_path g ++ segments path) (g_use g).

(** [g.Use(mw)], before the routes it is for *)
Definition Use (g : RouterGroup S) (mw : Handler S -> Handler S) : RouterGroup S :=
  mkGroup (g_path g) (fun h => g_use g (mw h)).

Definition handle (method : string) (g : RouterGroup S) (path : string) (h : Handler S) : Route S :=
  mkRoute method (g_path g ++ segments path) (g_use g h).

Definition GET := handle "GET".
Definition POST := handle "POST".
Definition PUT := handle "PUT".
Definition PATCH := handle "PATCH".
Definition DELETE := handle "DELETE".

Definition method_table (routes : list (Route S)) (method : string) : list (list segment * Handler S) :=
  (fun r => (ro_path r, ro_handler r)) <$> filter (fun r => ro_method r = method) routes.

(** No registration panics. *)
Definition registered (routes : list (Route S)) : bool :=
  forallb (fun m => conflict_free (fst <$> method_table routes m)) (ro_method <$> routes).

(** The path with its last slash taken off or put on. *)
Definition other_slash (path : list string) : list string :=
  match reverse path with
  | estr :: p :: rest => reverse (p :: rest)
  | _ => path ++ [estr]
  end.

Definition resolve (routes : list (Route S)) (method : string) (path : list string)
    : option (Params * Handler S) :=
  route_lookup (method_table routes method) path.

(** [RedirectTrailingSlash]: no route for the path, and one for the other. *)
Definition slash_redirect (routes : list (Route S)) (method : string) (path : list string) : bool :=
  match resolve routes method path, resolve routes method (other_slash path) with
  | None, Some _ => bool_decide (path <> [estr])
  | _, _ => false
  end.

(** The handlers a request runs. *)
Definition dispatch (routes : list (Route S)) (method : string) (path : list string) : Handler S :=
  fun c =>
    match resolve routes method path with
    | None => ret (respond_status 404)
    | Some (params, h) =>
        let r := gc_request c in
        h (mkGinCtx (mkRequest (rq_headers r) (rq_query r) params (rq_cookies r) (rq_body r) (rq_ip r)) (gc_tenant c))
    end.
End Groups.

(** Where a redirect to the path with the other slash points *)
Class GinRedirect : Type := slash_location : Request -> list string -> string.

(** The engine: a redirect, or its middleware around the handlers. *)
Definition engine {S} {gin : GinRedirect} (routes : list (Route S)) (use : Handler S -> Handler S)
    (method : string) (path : list string) : Handler S :=
  fun c =>
    if slash_redirect routes method path then
      ret (mkResponse (if decide (method = "GET") then 301 else 307)%Z JNull []
             (Some (slash_location (gc_request c) (other_slash path))))
    else use (dispatch routes method path) c.

(** The segments of the path of a URL below [base], decoded. *)
Definition path_segments (raw : string) : option (list string) :=
  let path := fst (fst (strings_Cut (fst (fst (strings_Cut raw (byte 35)))) (byte 63))) in
  match unescape path encodePath with inl path => Some (strings_Split path slash) | inr _ => None end.

Definition request_path (base url : string) : option (list string) :=
  if String.prefix (base +:+ "/") url then path_segments (drop_bytes (String.length (base +:+ "/")) url) else None.

Lemma request_path_app base q p : q = "/" +:+ p -> request_path base (base +:+ q) = path_segments p.
Proof.
  intros ->. unfold request_path. rewrite <-app_str_assoc.
  rewrite (proj2 (prefix_spec _ _)) by eauto. by rewrite drop_bytes_app.
Qed.

(** Segments that stand for themselves in a URL. *)
Definition plain (s : string) : Prop := avoids "/%?#" s.

Lemma avoids_Join set l :
  is_in slash set = false -> Forall (avoids set) l -> avoids set (strings_Join l "/").
Proof.
  intros Hs Hl. induction Hl as [|x l Hx Hl IH]; [done|]. destruct l as [|y l]; [done|].
  change (strings_Join (x :: y :: l) "/") with (x +:+ "/" +:+ strings_Join (y :: l) "/").
  unfold avoids in *. rewrite !forall_bytes_app, Hx. cbn [andb forall_bytes].
  by rewrite (Hs : is_in (Ascii.Ascii true true true true false true false false) set = false).
Qed.

Lemma Cut_none s sep :
  forall_bytes (fun c => negb (bool_decide (c = sep))) s = true -> strings_Cut s sep = (s, estr, false).
Proof.
  induction s as [|c s IH]; cbn; intros Hs; [done|]. apply andb_prop in Hs as [H1 H2].
  rewrite decide_False, IH; [done|done|]. intros ->. by rewrite bool_decide_eq_true_2 in H1.
Qed.

Lemma unescape_plain s :
  forall_bytes (fun c => negb (bool_decide (c = byte 37))) s = true -> unescape s encodePath = inl s.
Proof.
  induction s as [|c s IH]; [done|]. cbn [forall_bytes unescape]. intros [H1 H2]%andb_prop.
  rewrite decide_False, IH; [cbn; by rewrite andb_false_r|done|].
  intros Hc. apply negb_true_iff, bool_decide_eq_false in H1. apply H1. symmetry. by apply byte_eq.
Qed.

Lemma avoids_weaken set set' s : (forall c, is_in c set' = true -> is_in c set = true) -> avoids set s -> avoids set' s.
Proof.
  unfold avoids. intros Hs. induction s as [|c s IH]; [done|]. cbn. intros [H1 H2]%andb_prop. rewrite IH by done.
  apply negb_true_iff in H1. rewrite andb_true_r. apply negb_true_iff, not_true_iff_false. intros Hc%Hs. congruence.
Qed.

Lemma path_segments_Join l :
  l <> [] -> Forall plain l -> path_segments (strings_Join l "/") = Some l.
Proof.
  intros Hne Hl. assert (avoids "%?#" (strings_Join l "/")) as Ha.
  { apply avoids_Join; [done|]. eapply Forall_impl; [exact Hl|]. intros s. apply avoids_weaken.
    intros c Hc. cbn in *. repeat case_bool_decide; done. }
  unfold path_segments. rewrite (Cut_none (strings_Join l "/") (byte 35)) by (by apply (avoids_byte "%?#")). cbn [fst].
  rewrite Cut_none by (by apply (avoids_byte "%?#")). cbn [fst]. rewrite unescape_plain by (by apply (avoids_byte "%?#")).
  f_equal. apply (Split_Join l slash); [done|]. eapply Forall_impl; [exact Hl|]. intros s Hs. by apply (avoids_byte "/%?#").
Qed.

(** The headers that arrive: net/http names itself where the caller does not. *)
Definition sent_headers (call : HttpCall) : list (string * string) :=
  hc_headers call ++
  (if existsb (fun kv => bool_decide (strings_ToLower (fst kv) = "user-agent")) (hc_headers call) then []
   else [("User-Agent", "Go-http-client/1.1")]).

Lemma sent_headers_other name call :
  lower name <> "user-agent" -> header_get name (sent_headers call) = header_get name (hc_headers call).
Proof.
  intros Hn. unfold sent_headers. destruct (existsb _ _); [by rewrite app_nil_r|].
  induction (hc_headers call) as [|[k v] l IH]; cbn; [by rewrite decide_False|]. by rewrite IH.
Qed.

Lemma sent_headers_found name call v :
  header_get name (hc_headers call) = v -> v <> estr -> header_get name (sent_headers call) = v.
Proof.
  unfold sent_headers. generalize (if existsb (fun kv => bool_decide (strings_ToLower (fst kv) = "user-agent")) (hc_headers call)
    then [] else [("User-Agent", "Go-http-client/1.1")]). intros more Hv Hne. revert Hv.
  induction (hc_headers call) as [|[k w] l IH]; cbn; [by intros <-|]. by case_decide.
Qed.

Lemma sent_header_set name v call :
  lower name <> "user-agent" -> header_get name (sent_headers (with_header name v call)) = v.
Proof. intros Hn. rewrite sent_headers_other by done. apply header_get_set. Qed.

(** What a server makes of a call. *)
Definition call_request (ip : string) (call : HttpCall) : Request :=
  mkRequest (sent_headers call) (flat_map (fun kv => map (pair (fst kv)) (snd kv)) (hc_query call)) [] []
    (hc_body call) ip.

(** ** What the tree finds *)

Section Find.
Context {A : Type}.
Implicit Types (c : Candidate (A := A)) (cs : list (Candidate (A := A))).

Definition match_candidate c (path : list string) : option (Params * A) :=
  match match_path (fst c) path with Some ps => Some (fst (snd c) ++ ps, snd (snd c)) | None => None end.

Lemma match_static s rest c r :
  (exists c', static_child s c = Some c' /\ match_candidate c' rest = Some r) <->
  (exists p, fst c = Static s :: p) /\ match_candidate c (s :: rest) = Some r.
Proof.
  destruct c as [[|[a|n] p] x]; cbn; [naive_solver| |naive_solver].
  unfold match_candidate. cbn. case_decide; naive_solver.
Qed.

Lemma match_wild s rest c r :
  ~ (rest = [] /\ s = estr) ->
  (exists c', wild_child s c = Some c' /\ match_candidate c' rest = Some r) <->
  (exists n p, fst c = Wild n :: p) /\ match_candidate c (s :: rest) = Some r.
Proof.
  intros Hne. destruct c as [[|[a|n] p] [ps h]]; cbn; [naive_solver|naive_solver|].
  unfold match_candidate. cbn. rewrite decide_False by done. split.
  - intros (c' & [= <-] & H). cbn in H. split; [eauto|].
    destruct (match_path p rest); [|done]. by rewrite <-app_assoc in H.
  - intros [_ H]. eexists. split; [done|]. cbn. destruct (match_path p rest); [|done]. by rewrite <-app_assoc.
Qed.

Lemma find_route_complete path cs c :
  c ∈ cs -> is_Some (match_candidate c path) -> is_Some (find_route path cs).
Proof.
  revert c cs. induction path as [|s rest IH]; intros c cs Hc [r Hr]; cbn.
  - destruct c as [[|[]] x]; [|done..]. destruct (omap at_end cs) as [|y l] eqn:E; [|by exists y].
    exfalso. assert (x ∈ omap at_end cs) as Hx by (apply list_elem_of_omap; by eexists).
    rewrite E in Hx. by apply elem_of_nil in Hx.
  - destruct (find_route rest (omap (static_child s) cs)) eqn:E; [done|].
    destruct c as [[|[a|n] p] [ps h]]; [done| |].
    + exfalso. destruct (proj2 (match_static s rest (Static a :: p, (ps, h)) r)) as (c' & Hs & Hm).
      { split; [|done]. unfold match_candidate in Hr. cbn in Hr. case_decide; [subst; eauto|done]. }
      destruct (IH c' (omap (static_child s) cs)) as [? ?]; [apply list_elem_of_omap; eauto|by exists r|congruence].
    + unfold match_candidate in Hr. cbn in Hr. case_decide as Hne; [done|].
      destruct (proj2 (match_wild s rest (Wild n :: p, (ps, h)) r Hne)) as (c' & Hs & Hm).
      { split; [eauto|]. unfold match_candidate. cbn. by rewrite decide_False. }
      apply (IH c'); [apply list_elem_of_omap; eauto|by exists r].
Qed.

(** What is found matches, and nothing that matches is tried before it. *)
Lemma find_route_sound path cs r :
  find_route path cs = Some r ->
  exists c, c ∈ cs /\ match_candidate c path = Some r /\
    forall c', c' ∈ cs -> is_Some (match_candidate c' path) -> before (fst c') (fst c) = false.
Proof.
  revert cs. induction path as [|s rest IH]; intros cs H; cbn in H.
  - apply head_Some_elem_of, list_elem_of_omap in H as (c & Hc & H). exists c.
    destruct c as [[|] [ps h]]; cbn in H; simplify_eq.
    split_and!; [done|by unfold match_candidate; cbn; rewrite app_nil_r|]. by intros [[|[]] x].
  - destruct (find_route rest (omap (static_child s) cs)) as [r'|] eqn:E; simplify_eq.
    + apply IH in E as (c1 & (c & Hc & Hs)%list_elem_of_omap & Hm & Hmin).
      destruct (proj1 (match_static s rest c r)) as [(p & Hp) Hm']; [eauto|].
      exists c. split_and!; [done..|]. intros c' Hc' [r' Hr'].
      destruct c as [? x], c' as [[|[b|n] q] y]; cbn in *; subst; [done| |done].
      rewrite decide_True in Hs by done. simplify_eq. case_decide; [subst|done]. apply (Hmin (q, y)).
      * apply list_elem_of_omap. eexists. split; [done|]. cbn. by rewrite decide_True.
      * exists r'. unfold match_candidate in *. cbn in Hr'. by rewrite decide_True in Hr'.
    + case_decide as Hne; [done|]. apply IH in H as (c1 & (c & Hc & Hs)%list_elem_of_omap & Hm & Hmin).
      destruct (proj1 (match_wild s rest c r Hne)) as [(n & p & Hp) Hm']; [eauto|].
      exists c. split_and!; [done..|]. intros c' Hc' [r' Hr'].
      destruct c as [? [ps h]]; cbn in *; subst; simplify_eq.
      destruct c' as [[|[b|m] q] [ps' h']]; cbn; [done| |].
      * exfalso. destruct (proj2 (match_static s rest (Static b :: q, (ps', h')) r')) as (c' & Hs' & Hm2).
        { split; [|done]. unfold match_candidate in Hr'. cbn in Hr'. case_decide; [subst; eauto|done]. }
        destruct (find_route_complete rest (omap (static_child s) cs) c') as [? ?]; [|by exists r'|congruence].
        apply list_elem_of_omap. eauto.
      * destruct (proj2 (match_wild s rest (Wild m :: q, (ps', h')) r' Hne)) as (c' & [= <-] & Hm2); [eauto|].
        apply (Hmin (q, (ps' ++ [(m, s)], h'))); [|by exists r'].
        apply list_elem_of_omap. by exists (Wild m :: q, (ps', h')).
Qed.

(** Patterns that match one path are comparable, unless they clash. *)
Lemma before_total p q path ps qs :
  match_path p path = Some ps -> match_path q path = Some qs ->
  clash p q = false -> before p q = true \/ before q p = true.
Proof.
  revert q path ps qs. induction p as [|[a|n] p IH]; intros [|[b|m] q] [|s rest] ps qs; cbn; try done; auto.
  - repeat case_decide; try done; simplify_eq. apply IH.
  - repeat case_decide; try done; destruct (match_path p rest) eqn:E1, (match_path q rest) eqn:E2; try done;
      intros _ _; by eapply IH.
Qed.

Lemma clash_sym p q : clash p q = clash q p.
Proof.
  revert q. induction p as [|[a|n] p IH]; intros [|[b|m] q]; cbn; try done;
    repeat case_decide; try done; congruence || apply IH.
Qed.

(** Handlers play no part in the search, and a route that does not match none
    either. *)
Lemma find_route_map {A'} (f : A -> A') path cs :
  find_route path (map (fun c => (fst c, (fst (snd c), f (snd (snd c))))) cs) =
  (fun r => (fst r, f (snd r))) <$> find_route path cs.
Proof.
  revert cs. induction path as [|s rest IH]; intros cs; cbn.
  - induction cs as [|[[|[]] [ps h]] cs IHc]; cbn; done.
  - assert (forall g g', (forall c, g' (fst c, (fst (snd c), f (snd (snd c)))) =
        (fun c => (fst c, (fst (snd c), f (snd (snd c))))) <$> g c) ->
      omap g' (map (fun c => (fst c, (fst (snd c), f (snd (snd c))))) cs) =
      map (fun c => (fst c, (fst (snd c), f (snd (snd c))))) (omap g cs)) as Hom.
    { intros g g' Hg. induction cs as [|c cs IHc]; [done|]. cbn. rewrite Hg. destruct (g c); cbn; by rewrite IHc. }
    rewrite (Hom (static_child s)), IH.
    2: { intros [[|[a|n] p] [ps h]]; cbn; [done|by case_decide|done]. }
    destruct (find_route rest (omap (static_child s) cs)); cbn; [done|]. case_decide; [done|].
    rewrite (Hom (wild_child s)), IH; [done|]. by intros [[|[a|n] p] [ps h]].
Qed.

Lemma find_route_snoc path cs c : match_candidate c path = None -> find_route path (cs ++ [c]) = find_route path cs.
Proof.
  revert cs c. induction path as [|s rest IH]; intros cs c Hc; cbn.
  - rewrite omap_app. assert (omap at_end [c] = []) as ->; [|by rewrite app_nil_r].
    destruct c as [[|] x]; [done|done].
  - rewrite !omap_app.
    assert (forall g, (forall c', g c = Some c' -> match_candidate c' rest = None) ->
      find_route rest (omap g cs ++ omap g [c]) = find_route rest (omap g cs)) as Hg.
    { intros g Hg. cbn. destruct (g c) as [c'|]; [by apply IH, Hg|by rewrite app_nil_r]. }
    rewrite Hg.
    + destruct (find_route rest _); [done|]. case_decide as Hne; [done|]. apply Hg. intros c' Hs.
      destruct (match_candidate c' rest) as [r|] eqn:E; [|done].
      destruct (proj1 (match_wild s rest c r Hne)) as [_ ?]; [eauto|congruence].
    + intros c' Hs. destruct (match_candidate c' rest) as [r|] eqn:E; [|done].
      destruct (proj1 (match_static s rest c r)) as [_ ?]; [eauto|congruence].
Qed.

Lemma conflict_free_elem ps i j p q :
  conflict_free ps = true -> ps !! i = Some p -> ps !! j = Some q -> i <> j -> clash p q = false.
Proof.
  revert i j. induction ps as [|x ps IH]; intros i j Hf Hi Hj Hne; [done|].
  cbn in Hf. apply andb_true_iff in Hf as [Hx Hf]. rewrite forallb_forall in Hx.
  destruct i as [|i], j as [|j]; cbn in *; simplify_eq.
  - apply negb_true_iff, Hx. apply list_elem_of_In. by eapply list_elem_of_lookup_2.
  - rewrite clash_sym. apply negb_true_iff, Hx. apply list_elem_of_In. by eapply list_elem_of_lookup_2.
  - apply (IH i j); [done..|congruence].
Qed.
End Find.

Section Lookup.
Context {A : Type} (table : list (list segment * A)).

Lemma route_lookup_sound path ps h :
  route_lookup table path = Some (ps, h) ->
  exists i p, table !! i = Some (p, h) /\ match_path p path = Some ps /\
    forall j q k, table !! j = Some (q, k) -> is_Some (match_path q path) -> before q p = false.
Proof.
  intros (c & Hc & Hm & Hmin)%find_route_sound.
  apply list_elem_of_fmap in Hc as ([p h'] & -> & [i Hi]%list_elem_of_lookup).
  unfold match_candidate in Hm. cbn in Hm. destruct (match_path p path) as [ps'|] eqn:Ep; simplify_eq.
  exists i, p. split_and!; [done..|]. intros j q k Hj [qs Hq]. apply (Hmin (candidate (q, k))).
  - apply list_elem_of_fmap. eexists. split; [done|]. by eapply list_elem_of_lookup_2.
  - unfold match_candidate. cbn. rewrite Hq. by eexists.
Qed.

Lemma route_lookup_complete path j q k :
  table !! j = Some (q, k) -> is_Some (match_path q path) -> is_Some (route_lookup table path).
Proof.
  intros Hj [qs Hq]. apply (find_route_complete _ _ (candidate (q, k))).
  - apply list_elem_of_fmap. eexists. split; [done|]. by eapply list_elem_of_lookup_2.
  - unfold match_candidate. cbn. rewrite Hq. by eexists.
Qed.

(** In a table whose registration did not panic, a path is served by the one
    route that matches it and comes before every other that does, with its
    parameters bound to the segments of the path. *)
Theorem route_lookup_iff path ps h :
  conflict_free (fst <$> table) = true ->
  route_lookup table path = Some (ps, h) <->
  exists i p, table !! i = Some (p, h) /\ match_path p path = Some ps /\
    forall j q k, table !! j = Some (q, k) -> is_Some (match_path q path) -> j = i \/ before p q = true.
Proof.
  intros Hf.
  assert (forall i j p q h k, table !! i = Some (p, h) -> table !! j = Some (q, k) -> i <> j -> clash p q = false) as Hcl.
  { intros i j p q h0 k Hi Hj Hne. apply (conflict_free_elem (fst <$> table) i j); [done| | |done];
      by rewrite list_lookup_fmap, ?Hi, ?Hj. }
  split.
  - intros (i & p & Hi & Hm & Hmin)%route_lookup_sound. exists i, p. split_and!; [done..|].
    intros j q k Hj [qs Hq]. destruct (decide (j = i)) as [|Hne]; [by left|right].
    destruct (before_total p q path ps qs) as [|Hb]; [done..|by eapply Hcl|done|].
    rewrite (Hmin j q k) in Hb; [done..|by exists qs].
  - intros (i & p & Hi & Hm & Hfirst).
    destruct (route_lookup_complete path i p h Hi) as [[ps' h'] Hr]; [by exists ps|].
    rewrite Hr. apply route_lookup_sound in Hr as (i' & p' & Hi' & Hm' & Hmin).
    destruct (Hfirst i' p' h' Hi') as [->|Hb]; [by exists ps'|congruence|].
    rewrite (Hmin i p h) in Hb; [done..|by exists ps].
Qed.
End Lookup.

(** ** Invariants of a server *)

Section Serving.
Context {S : Type} (P : S -> Prop).

Lemma preserves_serve (h : Handler S) c : preserves P (h c) -> preserves P (serve h c).
Proof. intros Hh env s HP. specialize (Hh env s HP). unfold serve. by destruct (h c env s) as [[] ?]. Qed.

Lemma TenantExtractor_preserves cfg (h : Handler S) c :
  (forall c', preserves P (h c')) -> preserves P (TenantExtractor cfg h c).
Proof. intros Hh. unfold TenantExtractor. cbv zeta. effects. Qed.

Lemma method_table_elem (routes : list (Route S)) method path ps h :
  route_lookup (method_table routes method) path = Some (ps, h) ->
  exists r, r ∈ routes /\ ro_method r = method /\ ro_handler r = h /\ match_path (ro_path r) path = Some ps.
Proof.
  intros (i & p & Hi & Hm & _)%route_lookup_sound. apply list_elem_of_lookup_2 in Hi.
  apply list_elem_of_fmap in Hi as (r & [= -> ->] & [Hr1 Hr2]%list_elem_of_filter). eauto.
Qed.

Lemma resolve_elem (routes : list (Route S)) method path ps h :
  resolve routes method path = Some (ps, h) ->
  exists r, r ∈ routes /\ ro_method r = method /\ ro_handler r = h /\ match_path (ro_path r) path = Some ps.
Proof. apply method_table_elem. Qed.

(** A path with a route is not redirected. *)
Lemma resolve_no_redirect (routes : list (Route S)) method path r :
  resolve routes method path = Some r -> slash_redirect routes method path = false.
Proof. unfold slash_redirect. by intros ->. Qed.

Lemma dispatch_stays (routes : list (Route S)) method path c :
  (forall r c, r ∈ routes -> stays (ro_handler r c)) -> stays (dispatch routes method path c).
Proof.
  intros Hr. unfold dispatch. destruct (resolve _ _ _) as [[ps h]|] eqn:E; [|by apply stays_ret].
  apply resolve_elem in E as (r & Hin & _ & <- & _). by apply Hr.
Qed.

Lemma engine_routed {gin : GinRedirect} (routes : list (Route S)) use method path c :
  slash_redirect routes method path = false -> engine routes use method path c = use (dispatch routes method path) c.
Proof. unfold engine. by intros ->. Qed.

(** An invariant every handler keeps is kept by every request. *)
Lemma dispatch_preserves (routes : list (Route S)) method path c :
  (forall r c', r ∈ routes -> preserves P (ro_handler r c')) ->
  preserves P (dispatch routes method path c).
Proof.
  intros Hr. unfold dispatch. destruct (resolve _ _ _) as [[ps h]|] eqn:E; [|effects].
  apply resolve_elem in E as (r & Hin & _ & <- & _). by apply Hr.
Qed.

Lemma engine_preserves {gin : GinRedirect} (routes : list (Route S)) use method path c :
  preserves P (use (dispatch routes method path) c) -> preserves P (engine routes use method path c).
Proof. intros Hu. unfold engine. destruct (slash_redirect _ _ _); [effects|done]. Qed.
End Serving.

(** The same in some surroundings only. *)
Section Keeping.
Context {S : Type} (E : Env -> Prop) (P : S -> Prop).

Lemma TenantExtractor_keeps (h : Handler S) r :
  keeps E P (h (mkGinCtx r (Some (header_get DefaultTenantHeader (rq_headers r))))) ->
  keeps E P (TenantExtractor noTenantConfig h (mkGinCtx r None)).
Proof.
  intros Hh env s HE HP. destruct (uuidRegex (header_get DefaultTenantHeader (rq_headers r))) eqn:Hu.
  - rewrite (TenantExtractor_run h r _ eq_refl (uuidRegex_nonempty _ Hu) Hu). by apply Hh.
  - destruct (TenantExtractor_gate h (mkGinCtx r None) env s) as [[Hu' _]|[_ (b & Eb)]].
    + change (uuidRegex (header_get DefaultTenantHeader (rq_headers r)) = true) in Hu'. congruence.
    + unfold noTenantConfig. rewrite Eb. done.
Qed.

Lemma with_tenant_keeps msg r tid (k : string -> M S Response) :
  keeps E P (k tid) -> keeps E P (with_tenant msg (mkGinCtx r (Some tid)) k).
Proof.
  intros Hk env s HE HP. unfold with_tenant, or_respond, TenantIDFromContext, bind, attempt. cbn.
  destruct (decide _); cbn; [done|by apply Hk].
Qed.

Lemma or_respond_keeps {A} f (m : M S A) k :
  keeps E P m -> (forall a, keeps E P (k a)) -> keeps E P (or_respond f m k).
Proof. intros Hm Hk. unfold or_respond. apply keeps_bind; [by apply keeps_attempt|]. intros [a|e] **; [done|]. keeping. Qed.

Lemma bound_keeps {A} `{!Binder A} c (k : A -> M S Response) : (forall a, keeps E P (k a)) -> keeps E P (bound c k).
Proof. intros Hk. unfold bound. case_match; [done|]. keeping. Qed.

Lemma deferred_preserves {A} (m : M S A) d : preserves P m -> preserves P d -> preserves P (deferred m d).
Proof.
  intros Hm Hd env s HP. unfold deferred. specialize (Hm env s HP). destruct (m env s) as [r t]. specialize (Hd env t Hm).
  destruct (d env t) as [[] u]; done.
Qed.

Lemma dispatch_keeps (routes : list (Route S)) method path r :
  (forall rt ps, rt ∈ routes ->
     keeps E P (ro_handler rt (mkGinCtx (mkRequest (rq_headers r) (rq_query r) ps (rq_cookies r) (rq_body r) (rq_ip r)) None))) ->
  keeps E P (dispatch routes method path (mkGinCtx r None)).
Proof.
  intros Hr. unfold dispatch. destruct (resolve _ _ _) as [[ps h]|] eqn:Eq; [|keeping].
  apply resolve_elem in Eq as (rt & Hin & _ & <- & _). by apply Hr.
Qed.

Lemma engine_keeps {gin : GinRedirect} (routes : list (Route S)) use method path c :
  keeps E P (use (dispatch routes method path) c) -> keeps E P (engine routes use method path c).
Proof. intros Hu. unfold engine. destruct (slash_redirect _ _ _); [keeping|done]. Qed.

Lemma serve_keeps (h : Handler S) c : keeps E P (h c) -> keeps E P (serve h c).
Proof. intros Hh env s HE HP. specialize (Hh env s HE HP). unfold serve. by destruct (h c env s) as [[] ?]. Qed.
End Keeping.

Lemma preserves_always {S A} (P : S -> Prop) (m : M S A) : keeps (fun _ => True) P m -> preserves P m.
Proof. intros Hm env s. by apply Hm. Qed.

(** For concrete runs: the path as it was sent, with the other slash. *)
Definition demo_gin : GinRedirect := fun _ path => "/" +:+ strings_Join path "/".
