(* ===== verification/Server.v ===== *)
(** * What every server process puts around its routes

    pkg/observability, pkg/logger, pkg/database, pkg/middleware/security.go and
    the order in which the mains under cmd/ stack middleware: [gin.Default()]'s
    recovery outermost, then metrics, security headers, the rate limiter, and the
    routes. What is logged is modelled as the entry of a request, outside the
    stack: it changes nothing a service reads.

    The headers of a response are a map the middleware fills before the
    handlers run; it is part of the server's state, cleared for each request.
    The exposition format of [promhttp] is a parameter. *)
From S2P Require Import Prelude GoStd GoUrl Http Middleware Gin.
Local Open Scope go_scope.

(** ** metrics.go *)

(** The values of a counter by its labels. *)
Abbreviation CounterVec := (gmap (list string) Z).

Record Metrics : Type := mkMetrics {
  mt_RequestsTotal : CounterVec;
  mt_RequestDuration : gmap (list string) (list Z);
  mt_TokensIssued : CounterVec;
  mt_TokenErrors : CounterVec;
  mt_TokenIntrospections : CounterVec;
  mt_TokenRevocations : Z
}.

(** [vec.WithLabelValues(labels...).Inc()] and [.Observe(v)] *)
Definition counter_Inc (labels : list string) (v : CounterVec) : CounterVec :=
  <[labels := (default 0 (v !! labels) + 1)%Z]> v.

Definition histogram_Observe (labels : list string) (x : Z) (v : gmap (list string) (list Z)) : gmap (list string) (list Z) :=
  <[labels := default [] (v !! labels) ++ [x]]> v.

(** The names of prometheus's default registry; a second registration of a name
    panics. *)
Abbreviation MetricNames := (gset string).

Definition prometheus_MustRegister (name : string) : M MetricNames unit :=
  names <- gets id;;
  if decide (name ∈ names) then panic "duplicate metrics collector registration attempted"
  else modify (fun r => {[name]} ∪ r).

Definition NewMetrics : M MetricNames Metrics :=
  prometheus_MustRegister "http_requests_total";;
  prometheus_MustRegister "http_request_duration_seconds";;
  prometheus_MustRegister "auth_tokens_issued_total";;
  prometheus_MustRegister "auth_token_errors_total";;
  prometheus_MustRegister "auth_token_introspections_total";;
  prometheus_MustRegister "auth_token_revocations_total";;
  ret (mkMetrics ∅ ∅ ∅ ∅ ∅ 0).

Definition RecordTokenIssued (grantType tenantID : string) (m : Metrics) : Metrics :=
  mkMetrics (mt_RequestsTotal m) (mt_RequestDuration m) (counter_Inc [grantType; tenantID] (mt_TokensIssued m))
    (mt_TokenErrors m) (mt_TokenIntrospections m) (mt_TokenRevocations m).

Definition RecordTokenError (errorType grantType : string) (m : Metrics) : Metrics :=
  mkMetrics (mt_RequestsTotal m) (mt_RequestDuration m) (mt_TokensIssued m)
    (counter_Inc [errorType; grantType] (mt_TokenErrors m)) (mt_TokenIntrospections m) (mt_TokenRevocations m).

Definition RecordTokenIntrospection (active : bool) (tokenType : string) (m : Metrics) : Metrics :=
  let activeStr := if active then "true" else "false" in
  mkMetrics (mt_RequestsTotal m) (mt_RequestDuration m) (mt_TokensIssued m) (mt_TokenErrors m)
    (counter_Inc [activeStr; tokenType] (mt_TokenIntrospections m)) (mt_TokenRevocations m).

Definition RecordTokenRevocation (m : Metrics) : Metrics :=
  mkMetrics (mt_RequestsTotal m) (mt_RequestDuration m) (mt_TokensIssued m) (mt_TokenErrors m)
    (mt_TokenIntrospections m) (mt_TokenRevocations m + 1).

(** What [PrometheusMiddleware] records of a request; the latency in
    nanoseconds. *)
Definition record_request (code method path : string) (latency : Z) (m : Metrics) : Metrics :=
  let labels := [code; method; path] in
  mkMetrics (counter_Inc labels (mt_RequestsTotal m)) (histogram_Observe labels latency (mt_RequestDuration m))
    (mt_TokensIssued m) (mt_TokenErrors m) (mt_TokenIntrospections m) (mt_TokenRevocations m).

(** ** The state of a server *)

Record Server (LS S : Type) : Type := mkServer {
  sv_header : list (string * string);
  sv_limiters : LS;
  sv_metrics : Metrics;
  sv_app : S
}.
Arguments mkServer {LS S} _ _ _ _.
Arguments sv_header {LS S} _.
Arguments sv_limiters {LS S} _.
Arguments sv_metrics {LS S} _.
Arguments sv_app {LS S} _.

(** [promhttp.Handler()] on the metrics it finds *)
Class PromHttp : Type := metrics_page : Metrics -> Response.

Section Server.
Context {LS S : Type}.
Abbreviation Srv := (Server LS S).

Definition on_header {A} (m : M (list (string * string)) A) : M Srv A :=
  zoom sv_header (fun h s => mkServer h (sv_limiters s) (sv_metrics s) (sv_app s)) m.

Definition on_metrics {A} (m : M Metrics A) : M Srv A :=
  zoom sv_metrics (fun x s => mkServer (sv_header s) (sv_limiters s) x (sv_app s)) m.

Definition on_app {A} (m : M S A) : M Srv A :=
  zoom sv_app (fun x s => mkServer (sv_header s) (sv_limiters s) (sv_metrics s) x) m.

(** [c.Writer.Header().Set(name, value)] *)
Definition Header_Set (name value : string) : M Srv unit :=
  on_header (modify (fun h => filter (fun kv => strings_ToLower (fst kv) <> strings_ToLower name) h ++ [(name, value)])).

(** ** security.go *)

Definition ContentSecurityPolicy : string :=
  "default-src 'self'; script-src 'self' 'unsafe-inline'; style-src 'self' 'unsafe-inline'; img-src 'self' data:; font-src 'self' data:".

Definition SecurityHeadersMiddleware (next : Handler Srv) : Handler Srv :=
  fun c =>
    Header_Set "X-Content-Type-Options" "nosniff";;
    Header_Set "X-Frame-Options" "DENY";;
    Header_Set "X-XSS-Protection" "1; mode=block";;
    Header_Set "Content-Security-Policy" ContentSecurityPolicy;;
    next c.

(** ** metrics.go, the middleware

    A panic below passes through: there is no deferred call. *)
Definition PrometheusMiddleware (method path : string) (next : Handler Srv) : Handler Srv :=
  fun c =>
    start <- now;;
    resp <- next c;;
    t <- now;;
    on_metrics (modify (record_request (pretty (rs_status resp)) method path (t - start)));;
    ret resp.

(** ** ratelimit.go, in front of handlers of the server *)
Definition RateLimit {L} (NewLimiter : L) (Allow : Z -> L -> bool * L) (get : LS -> gmap string L)
    (put : gmap string L -> LS -> LS) (next : Handler Srv) : Handler Srv :=
  fun c => zoom (fun sv => (get (sv_limiters sv), sv))
    (fun p _ => mkServer (sv_header (snd p)) (put (fst p) (sv_limiters (snd p))) (sv_metrics (snd p)) (sv_app (snd p)))
    (RateLimitMiddleware NewLimiter Allow next c).

(** ** Routes *)

(** A route of the application, on the server. *)
Definition app_route (r : Route S) : Route Srv :=
  mkRoute (ro_method r) (ro_path r) (fun c => on_app (ro_handler r c)).

(** [router.GET("/metrics", gin.WrapH(observability.PrometheusHandler()))] *)
Definition metrics_route `{!PromHttp} : Route Srv :=
  GET root "/metrics" (fun _ => on_metrics (gets metrics_page)).

(** One request: the headers and the answer. *)
Definition ServeHTTP (chain : Handler Srv) (r : Request) : M Srv (list (string * string) * Response) :=
  on_header (modify (fun _ => []));;
  resp <- serve chain (mkGinCtx r None);;
  h <- on_header (gets id);;
  ret (h, resp).

(** The process at an address, as a client of it sees it. *)
Definition server_Do (base ip : string) (chain : string -> list string -> Handler Srv) : HttpPeer Srv :=
  fun call =>
    match request_path base (hc_url call) with
    | None => fail (ErrLib "dial tcp: connection refused")
    | Some path =>
        r <- ServeHTTP (chain (hc_method call) path) (call_request ip call);;
        ret (snd r)
    end.
End Server.

(** ** Starting up *)

(** [os.Getenv] and [os.ReadFile] *)
Class Host : Type := {
  os_Getenv : string -> string;
  os_ReadFile : string -> string + error
}.

Definition check_error {S} (e : option error) : M S unit :=
  match e with Some err => fail err | None => ret tt end.

Definition envOr {host : Host} (key fallback : string) : string :=
  let value := os_Getenv key in if decide (value <> estr) then value else fallback.

(** pkg/database: the connection string *)
Record DbConfig : Type := mkDbConfig {
  db_Host : string;
  db_Port : Z;
  db_User : string;
  db_Password : string;
  db_DBName : string;
  db_SSLMode : string
}.

Definition connStr (c : DbConfig) : string :=
  "host=" +:+ db_Host c +:+ " port=" +:+ pretty (db_Port c) +:+ " user=" +:+ db_User c +:+ " password=" +:+ db_Password c
  +:+ " dbname=" +:+ db_DBName c +:+ " sslmode=" +:+ db_SSLMode c.

(** [sqlx.Connect], by the connection string, and the ping; the sizes of the
    pool are not seen by the services. *)
Definition NewConnection {S} (connect : string -> option error) (c : DbConfig) : M S unit :=
  check_error (connect (connStr c)).

(** ** logger.go

    The level of the logger, and the entry [RequestLogger] writes once a request
    is answered: a record of fields, of which two are there only where the
    request has them. *)
Inductive LogLevel : Type := DebugLevel | InfoLevel | WarnLevel | ErrorLevel.

#[export] Instance LogLevel_eq_dec : EqDecision LogLevel.
Proof. solve_decision. Defined.

Definition NewFromEnv {host : Host} : LogLevel :=
  let levelStr := os_Getenv "LOG_LEVEL" in
  if decide (levelStr ∈ ["debug"; "DEBUG"]) then DebugLevel
  else if decide (levelStr ∈ ["info"; "INFO"]) then InfoLevel
  else if decide (levelStr ∈ ["warn"; "WARN"]) then WarnLevel
  else if decide (levelStr ∈ ["error"; "ERROR"]) then ErrorLevel
  else InfoLevel.

Record LogEntry : Type := mkLogEntry {
  le_level : LogLevel;
  le_msg : string;
  le_fields : list (string * string)
}.

Definition correlation_id (c : GinCtx) : string :=
  let correlationID := GetHeader c "X-Correlation-ID" in
  if decide (correlationID = estr) then GetHeader c "X-Request-ID" else correlationID.

(** The sizes and times are those of the answer; [tenantID] is what the gin
    context holds after the handlers. *)
Definition request_entry (method path query : string) (latency status size : Z) (tenantID : option string) (c : GinCtx) : LogEntry :=
  let correlationID := correlation_id c in
  let fields :=
    [("status", pretty status); ("method", method); ("path", path); ("query", query); ("latency", pretty latency);
     ("client_ip", ClientIP c); ("body_size", pretty size)]
    ++ (if decide (correlationID <> estr) then [("correlation_id", correlationID)] else [])
    ++ (match tenantID with Some t => [("tenant_id", t)] | None => [] end) in
  if decide (status >= 500)%Z then mkLogEntry ErrorLevel "Request completed with server error" fields
  else if decide (status >= 400)%Z then mkLogEntry WarnLevel "Request completed with client error" fields
  else mkLogEntry InfoLevel "Request completed" fields.

(** ** tracing.go

    The exporter and the resource of OpenTelemetry are parameters; what
    [InitTracer] returns is how to shut tracing down. *)
Class Otel : Type := {
  otlptracegrpc_New : string -> option error;
  resource_Merge : list (string * string) -> option error
}.

Record TracerConfig : Type := mkTracerConfig {
  tc_ServiceName : string;
  tc_ServiceVersion : string;
  tc_Environment : string;
  tc_OTLPEndpoint : string
}.

Inductive Shutdown : Type :=
| ShutdownNothing
| ShutdownProvider (endpoint : string).

Definition InitTracer {host : Host} {otel : Otel} {S} (cfg : TracerConfig) : M S Shutdown :=
  let endpoint := if decide (tc_OTLPEndpoint cfg = estr) then os_Getenv "OTEL_EXPORTER_OTLP_ENDPOINT" else tc_OTLPEndpoint cfg in
  if decide (endpoint = estr) then ret ShutdownNothing
  else
    check_error (otlptracegrpc_New endpoint);;
    check_error (resource_Merge [("service.name", tc_ServiceName cfg); ("service.version", tc_ServiceVersion cfg);
                                 ("deployment.environment", tc_Environment cfg)]);;
    ret (ShutdownProvider endpoint).

(** ** What the middleware keeps *)

Section Facts.
Context {LS S : Type}.
Abbreviation Srv := (Server LS S).

(** Predicates on one part of the server, and computations on another. *)
Lemma header_elsewhere {A} (P : LS -> Metrics -> S -> Prop) (m : M (list (string * string)) A) :
  preserves (fun sv : Srv => P (sv_limiters sv) (sv_metrics sv) (sv_app sv)) (on_header m).
Proof. apply (preserves_zoom _ (fun _ => True)); [done|by intros []|done]. Qed.

Lemma metrics_elsewhere {A} (P : list (string * string) -> LS -> S -> Prop) (m : M Metrics A) :
  preserves (fun sv : Srv => P (sv_header sv) (sv_limiters sv) (sv_app sv)) (on_metrics m).
Proof. apply (preserves_zoom _ (fun _ => True)); [done|by intros []|done]. Qed.

Lemma app_elsewhere {A} (P : list (string * string) -> LS -> Metrics -> Prop) (m : M S A) :
  preserves (fun sv : Srv => P (sv_header sv) (sv_limiters sv) (sv_metrics sv)) (on_app m).
Proof. apply (preserves_zoom _ (fun _ => True)); [done|by intros []|done]. Qed.

Lemma on_app_preserves {A} (P : S -> Prop) (m : M S A) :
  preserves P m -> preserves (fun sv : Srv => P (sv_app sv)) (on_app m).
Proof. apply preserves_zoom; [done|]. by intros []. Qed.

Section Keeps.
Context (E : Env -> Prop) (P : S -> Prop).
Abbreviation app_keeps := (keeps E (fun sv : Srv => P (sv_app sv))).

Lemma on_app_keeps {A} (m : M S A) : keeps E P m -> app_keeps (on_app m).
Proof. apply keeps_zoom; [done|]. by intros []. Qed.

Lemma RateLimit_keeps {L} NewLimiter (Allow : Z -> L -> bool * L) get put (next : Handler Srv) c :
  app_keeps (next c) -> app_keeps (RateLimit NewLimiter Allow get put next c).
Proof.
  intros Hn. unfold RateLimit. apply (keeps_zoom _ _ (fun p => P (sv_app (snd p)))); [done|by intros x [m []]|].
  unfold RateLimitMiddleware. apply keeps_bind; [|intros [] ? ? ? _ _; cbn].
  - apply preserves_keeps, (preserves_zoom _ (fun _ => True)); [done|by intros [] ?|done].
  - by apply (keeps_zoom _ _ (fun sv => P (sv_app sv))).
  - keeping.
Qed.

Lemma SecurityHeaders_keeps (next : Handler Srv) c : app_keeps (next c) -> app_keeps (SecurityHeadersMiddleware next c).
Proof.
  intros Hn. unfold SecurityHeadersMiddleware, Header_Set.
  do 4 (apply keeps_bind; [apply preserves_keeps, (header_elsewhere (fun _ _ => P))|intros _ ? ? ? _ _]). done.
Qed.

Lemma Prometheus_keeps method path (next : Handler Srv) c :
  app_keeps (next c) -> app_keeps (PrometheusMiddleware method path next c).
Proof.
  intros Hn. unfold PrometheusMiddleware. apply keeps_bind; [keeping|intros start ? ? ? _ _].
  apply keeps_bind; [done|intros resp ? ? ? _ _]. apply keeps_bind; [keeping|intros stop ? ? ? _ _].
  apply keeps_bind; [apply preserves_keeps, (metrics_elsewhere (fun _ _ => P))|intros ? ? ? ? _ _]. keeping.
Qed.

Lemma routes_keep `{!PromHttp} (rs : list (Route S)) method path r :
  (forall rt ps, rt ∈ rs ->
     keeps E P (ro_handler rt (mkGinCtx (mkRequest (rq_headers r) (rq_query r) ps (rq_cookies r) (rq_body r) (rq_ip r)) None))) ->
  app_keeps (dispatch (map app_route rs ++ [metrics_route]) method path (mkGinCtx r None)).
Proof.
  intros Hrs. apply dispatch_keeps. intros rt ps [Hr|Hr]%elem_of_app.
  - apply list_elem_of_fmap in Hr as (rt0 & -> & Hr). by apply on_app_keeps, Hrs.
  - apply list_elem_of_singleton in Hr as ->. apply preserves_keeps, (metrics_elsewhere (fun _ _ => P)).
Qed.

Lemma ServeHTTP_keeps (chain : Handler Srv) r : app_keeps (chain (mkGinCtx r None)) -> app_keeps (ServeHTTP chain r).
Proof.
  intros Hc. unfold ServeHTTP. apply keeps_bind; [apply preserves_keeps, (header_elsewhere (fun _ _ => P))|intros _ ? ? ? _ _].
  apply keeps_bind; [by apply serve_keeps|intros resp ? ? ? _ _].
  apply keeps_bind; [apply preserves_keeps, (header_elsewhere (fun _ _ => P))|intros h ? ? ? _ _]. keeping.
Qed.
End Keeps.

(** A request that is redirected runs nothing. *)
Lemma ServeHTTP_redirect {gin : GinRedirect} (routes : list (Route Srv)) use method path r env s :
  slash_redirect routes method path = true ->
  exists resp u, ServeHTTP (engine routes use method path) r env s = (Ok ([], resp), u) /\
    rs_status resp = (if decide (method = "GET") then 301 else 307)%Z /\ sv_app (st u) = sv_app (st s).
Proof.
  intros Hsl. unfold ServeHTTP, engine, serve. rewrite Hsl. eexists _, _. split; [reflexivity|]. by destruct s as [? []].
Qed.

Lemma ServeHTTP_routed {gin : GinRedirect} (routes : list (Route Srv)) use method path r env s :
  slash_redirect routes method path = false ->
  ServeHTTP (engine routes use method path) r env s = ServeHTTP (use (dispatch routes method path)) r env s.
Proof. intros Hsl. unfold ServeHTTP, engine, serve. by rewrite Hsl. Qed.

(** *** Security headers *)

Definition hardened (h : list (string * string)) : Prop :=
  header_get "X-Content-Type-Options" h = "nosniff" /\ header_get "X-Frame-Options" h = "DENY" /\
  header_get "X-XSS-Protection" h = "1; mode=block" /\
  header_get "Content-Security-Policy" h = ContentSecurityPolicy.

(** The middleware runs what follows with the headers set. *)
Lemma SecurityHeaders_run (next : Handler Srv) c env s :
  exists h, hardened h /\ SecurityHeadersMiddleware next c env s =
    next c env (mkSt (tick s) (mkServer h (sv_limiters (st s)) (sv_metrics (st s)) (sv_app (st s)))).
Proof.
  unfold SecurityHeadersMiddleware.
  assert (forall name value (t : St Srv), Header_Set name value env t =
    (Ok tt, mkSt (tick t) (mkServer (hc_headers (with_header name value (mkHttpCall estr estr (sv_header (st t)) [] JNull)))
       (sv_limiters (st t)) (sv_metrics (st t)) (sv_app (st t))))) as Hset by done.
  do 4 (erewrite bind_Ok by apply Hset; cbv beta). cbn [st tick sv_header sv_limiters sv_metrics sv_app].
  eexists. split; [|reflexivity].
  split_and!; repeat first [rewrite header_get_set; reflexivity|rewrite header_get_other by (by vm_compute); cbn [hc_headers]].
Qed.

(** The limiter refuses, or lets the handlers run. *)
Lemma RateLimit_run {L} NewLimiter (Allow : Z -> L -> bool * L) get put (next : Handler Srv) c env s :
  exists n m,
    RateLimit NewLimiter Allow get put next c env s =
      (Ok (respond 429 (error_body "Too many requests")),
       mkSt n (mkServer (sv_header (st s)) (put m (sv_limiters (st s))) (sv_metrics (st s)) (sv_app (st s)))) \/
    RateLimit NewLimiter Allow get put next c env s =
      (let '(r, t) := next c env (mkSt n (st s)) in
       (r, mkSt (tick t) (mkServer (sv_header (st t)) (put m (sv_limiters (st t))) (sv_metrics (st t)) (sv_app (st t))))).
Proof.
  destruct (limiter_Allow NewLimiter Allow (ClientIP c) env (mkSt (tick s) (get (sv_limiters (st s))))) as [r t] eqn:E.
  assert (exists b, r = Ok b) as (b & ->).
  { revert E. unfold limiter_Allow, GetLimiter, bind, gets, modify, ret. cbn.
    destruct (_ !! _); cbn; destruct (Allow _ _); intros [= <- <-]; eauto. }
  exists (tick t), (st t). unfold RateLimit, RateLimitMiddleware, zoom, bind. cbn [tick st fst snd]. rewrite E.
  destruct b; [right|by left]. cbn. destruct (next c env _). reflexivity.
Qed.

(** *** Metrics *)

Definition counter_total (v : CounterVec) : Z := map_fold (fun _ x acc => (x + acc)%Z) 0%Z v.

Lemma counter_total_insert k x v : v !! k = None -> counter_total (<[k := x]> v) = (x + counter_total v)%Z.
Proof. intros Hk. unfold counter_total. apply map_fold_insert_L; [|done]. intros. lia. Qed.

Lemma counter_total_Inc labels v : counter_total (counter_Inc labels v) = (counter_total v + 1)%Z.
Proof.
  unfold counter_Inc. destruct (v !! labels) as [x|] eqn:E; cbn.
  - rewrite <-(insert_delete_id v labels x) at 2 by done. rewrite <-insert_delete_eq.
    rewrite !counter_total_insert by apply lookup_delete_eq. lia.
  - rewrite counter_total_insert by done. lia.
Qed.

Definition requests_total (m : Metrics) : Z := counter_total (mt_RequestsTotal m).

(** An answer is counted once, under its status; a panic is not counted. *)
Lemma Prometheus_counts method path (next : Handler Srv) c env s r t :
  (forall m, preserves (fun sv => sv_metrics sv = m) (next c)) ->
  PrometheusMiddleware method path next c env s = (r, t) ->
  match r with
  | Ok resp => requests_total (sv_metrics (st t)) = (requests_total (sv_metrics (st s)) + 1)%Z
  | _ => sv_metrics (st t) = sv_metrics (st s)
  end.
Proof.
  intros Hn H. unfold PrometheusMiddleware in H. rewrite (bind_Ok _ _ _ _ _ _ (now_run env s)) in H.
  specialize (Hn (sv_metrics (st s)) env (mkSt (Datatypes.S (tick s)) (st s)) eq_refl). unfold bind in H.
  destruct (next c env _) as [[resp|e|p] u]; cbn -[counter_Inc counter_total] in *; simplify_eq; [|done|done].
  injection H as <- <-. unfold requests_total. cbn -[counter_Inc counter_total]. by rewrite counter_total_Inc, Hn.
Qed.

(** *** Routes of the application *)

(** The path of the metrics. *)
Definition not_metrics (method : string) (path : list string) : Prop :=
  method = "GET" -> match_path [Static "metrics"] path = None.

Lemma resolve_app `{!PromHttp} (rs : list (Route S)) method path :
  not_metrics method path ->
  resolve (map app_route rs ++ [metrics_route]) method path =
  (fun r : Params * Handler S => (fst r, fun c => on_app (LS := LS) (snd r c))) <$> resolve rs method path.
Proof.
  intros Hp. unfold resolve, route_lookup, method_table. rewrite filter_app, !fmap_app.
  transitivity (find_route path (candidate <$> ((fun r => (ro_path r, ro_handler r)) <$>
    filter (fun r => ro_method r = method) (map (app_route (LS := LS)) rs)))).
  - rewrite filter_cons. destruct (decide _) as [He|]; [|by rewrite app_nil_r].
    rewrite filter_nil. cbn [fmap list_fmap]. apply find_route_snoc. unfold match_candidate.
    change (fst (candidate _)) with [Static "metrics"]. by rewrite Hp.
  - etransitivity; [|apply (find_route_map (fun (h : Handler S) x => on_app (LS := LS) (h x)))]. f_equal. clear.
    induction rs as [|r rs IH]; [done|]. cbn [map]. rewrite !filter_cons. cbn [ro_method app_route].
    destruct (decide _); cbn; by rewrite ?IH.
Qed.

Lemma dispatch_app `{!PromHttp} (rs : list (Route S)) method path c env (s : St Srv) :
  not_metrics method path ->
  dispatch (map app_route rs ++ [metrics_route]) method path c env s = on_app (dispatch rs method path c) env s.
Proof.
  intros Hm. unfold dispatch. rewrite resolve_app by done. destruct (resolve rs method path) as [[ps h]|]; [done|].
  by destruct s as [? []].
Qed.

(** *** A request through the stack

    Metrics, headers and the limiter around any handlers: the limiter answers,
    or the handlers run on the application as it is; the answer carries the
    headers also when they panic, and is counted when they do not. *)
Section Stack.
Context {L : Type} (NewLimiter : L) (Allow : Z -> L -> bool * L) (get : LS -> gmap string L) (put : gmap string L -> LS -> LS).

Definition stack (method path : string) (next : Handler Srv) : Handler Srv :=
  PrometheusMiddleware method path (SecurityHeadersMiddleware (RateLimit NewLimiter Allow get put next)).

Definition outcome (h : list (string * string)) (r : Res Response) : Res (list (string * string) * Response) :=
  match r with Ok resp => Ok (h, resp) | Err e => Err e | Panic _ => Ok (h, respond_status 500) end.

Definition counted (r : Res Response) (m m' : Metrics) : Prop :=
  match r with
  | Ok _ => requests_total m' = (requests_total m + 1)%Z
  | _ => m' = m
  end.

Lemma Prometheus_run method path (next : Handler Srv) c env s r t :
  next c env (mkSt (Datatypes.S (tick s)) (st s)) = (r, t) ->
  exists u, PrometheusMiddleware method path next c env s = (r, u) /\ counted r (sv_metrics (st t)) (sv_metrics (st u)) /\
    sv_header (st u) = sv_header (st t) /\ sv_limiters (st u) = sv_limiters (st t) /\ sv_app (st u) = sv_app (st t).
Proof.
  intros E. unfold PrometheusMiddleware, bind. rewrite now_run, E. destruct r; cbn -[counter_Inc]; eexists; split_and!; try done.
  apply counter_total_Inc.
Qed.

Lemma ServeHTTP_stack method path next r env s :
  exists h n, hardened h /\
    ((exists u, ServeHTTP (stack method path next) r env s = (Ok (h, respond 429 (error_body "Too many requests")), u) /\
        sv_app (st u) = sv_app (st s) /\ requests_total (sv_metrics (st u)) = (requests_total (sv_metrics (st s)) + 1)%Z) \/
     (forall res t,
        next (mkGinCtx r None) env (mkSt n (mkServer h (sv_limiters (st s)) (sv_metrics (st s)) (sv_app (st s)))) = (res, t) ->
        exists u, ServeHTTP (stack method path next) r env s = (outcome (sv_header (st t)) res, u) /\
          sv_app (st u) = sv_app (st t) /\ counted res (sv_metrics (st t)) (sv_metrics (st u)))).
Proof.
  set (c := mkGinCtx r None). set (s0 := mkSt (tick s) (mkServer [] (sv_limiters (st s)) (sv_metrics (st s)) (sv_app (st s)))).
  destruct (SecurityHeaders_run (RateLimit NewLimiter Allow get put next) c env (mkSt (Datatypes.S (tick s)) (st s0)))
    as (h & Hh & Esec).
  cbn [tick st s0 sv_limiters sv_metrics sv_app] in Esec.
  destruct (RateLimit_run NewLimiter Allow get put next c env
    (mkSt (Datatypes.S (tick s)) (mkServer h (sv_limiters (st s)) (sv_metrics (st s)) (sv_app (st s))))) as (n & m & Hrl).
  exists h, n. split; [done|].
  assert (forall res t, RateLimit NewLimiter Allow get put next c env
      (mkSt (Datatypes.S (tick s)) (mkServer h (sv_limiters (st s)) (sv_metrics (st s)) (sv_app (st s)))) = (res, t) ->
    exists u, ServeHTTP (stack method path next) r env s = (outcome (sv_header (st t)) res, u) /\
      sv_app (st u) = sv_app (st t) /\ counted res (sv_metrics (st t)) (sv_metrics (st u))) as Hserve.
  { intros res t Et.
    destruct (Prometheus_run method path (SecurityHeadersMiddleware (RateLimit NewLimiter Allow get put next)) c env s0 res t)
      as (u & Eu & Hc & Hhd & _ & Ha); [by etransitivity; [exact Esec|]|].
    unfold ServeHTTP. rewrite (bind_Ok _ _ _ _ tt s0) by done. unfold bind, serve. fold c. unfold stack. rewrite Eu.
    destruct res as [resp|e|p]; cbn; rewrite <-?Hhd; eexists; (split; [reflexivity|]); by destruct u as [? []]. }
  cbn [st] in Hrl. destruct Hrl as [Hrl|Hrl]; [left|right].
  - destruct (Hserve _ _ Hrl) as (u & Eu & Ha & Hc). exists u. by split_and!.
  - intros res t Et. rewrite Et in Hrl. destruct (Hserve _ _ Hrl) as (u & Eu & Ha & Hc). exists u. by split_and!.
Qed.

(** The same for the routes of an application. *)
Lemma ServeHTTP_app_routes `{!PromHttp} {gin : GinRedirect} (rs : list (Route S)) method path text r env s :
  not_metrics method path -> slash_redirect (map (app_route (LS := LS)) rs ++ [metrics_route]) method path = false ->
  exists h n, hardened h /\
    ((exists u, ServeHTTP (engine (map app_route rs ++ [metrics_route]) (stack method text) method path : Handler Srv) r env s =
        (Ok (h, respond 429 (error_body "Too many requests")), u) /\ sv_app (st u) = sv_app (st s)) \/
     (forall res t, dispatch rs method path (mkGinCtx r None) env (mkSt n (sv_app (st s))) = (res, t) ->
        exists u, ServeHTTP (engine (map app_route rs ++ [metrics_route]) (stack method text) method path : Handler Srv) r env s =
          (outcome h res, u) /\ sv_app (st u) = st t)).
Proof.
  intros Hm Hsl. rewrite (ServeHTTP_routed _ _ _ _ _ _ _ Hsl). destruct (ServeHTTP_stack method text (dispatch (map app_route rs ++ [metrics_route]) method path) r env s)
    as (h & n & Hh & [(u & Eu & Ha & _)|Hrun]); exists h, n; (split; [done|]); [left; eauto|right].
  intros res t Et. destruct (Hrun res (mkSt (tick t) (mkServer h (sv_limiters (st s)) (sv_metrics (st s)) (st t)))) as (u & Eu & Ha & _).
  - rewrite dispatch_app by done. unfold on_app, zoom. cbn [tick st sv_app]. by rewrite Et.
  - exists u. by split.
Qed.
End Stack.
End Facts.

(** ** Routes behind the tenant extractor *)

Section Gate.
Context {S : Type} (rs : list (Route S)) (public : list (string * string)).

(** Every route is listed as public or behind the extractor. *)
Definition guarded : Prop :=
  forall r, r ∈ rs ->
  existsb (fun mp => bool_decide (fst mp = ro_method r /\ segments (snd mp) = ro_path r)) public = true \/
  exists h, ro_handler r = TenantExtractor noTenantConfig h.

(** Method and path are those of a public route, or of the metrics. *)
Definition is_public (method : string) (path : list string) : bool :=
  existsb (fun mp => bool_decide (fst mp = method) && bool_decide (is_Some (match_path (segments (snd mp)) path)))
    (("GET", "/metrics") :: public).

Lemma route_public method path r ps :
  existsb (fun mp => bool_decide (fst mp = ro_method r /\ segments (snd mp) = ro_path r)) public = true ->
  ro_method r = method ->
  match_path (ro_path (S := S) r) path = Some ps -> is_public method path = true.
Proof.
  intros (mp & Hin & [Hm Hp]%bool_decide_eq_true)%existsb_exists <- Hmatch. apply existsb_exists. exists mp.
  split; [by right|]. rewrite bool_decide_eq_true_2 by done. cbn. rewrite Hp, bool_decide_eq_true. eauto.
Qed.

Lemma public_not_metrics method path : is_public method path = false -> not_metrics method path.
Proof.
  intros Hpub ->. destruct (match_path [Static "metrics"] path) eqn:E; [exfalso|done].
  apply not_true_iff_false in Hpub. apply Hpub, existsb_exists. exists ("GET", "/metrics"). split; [by left|].
  apply andb_true_iff. split; [done|]. apply bool_decide_eq_true. by eexists.
Qed.

(** Without a well-formed tenant no handler runs. *)
Lemma dispatch_refused method path r env s :
  guarded -> is_public method path = false -> uuidRegex (header_get DefaultTenantHeader (rq_headers r)) = false ->
  exists resp, dispatch rs method path (mkGinCtx r None) env s = (Ok resp, s) /\
    (rs_status resp = 400%Z \/ rs_status resp = 404%Z).
Proof.
  intros Hg Hpub Hu. unfold dispatch. destruct (resolve _ _ _) as [[ps h]|] eqn:E; [|by eexists; split; [|right]].
  apply resolve_elem in E as (r0 & Hin & Hm & <- & Hmatch).
  destruct (Hg r0 Hin) as [Hp|(h' & ->)].
  { by rewrite (route_public method path r0 ps) in Hpub. }
  destruct (TenantExtractor_gate h' (mkGinCtx (mkRequest (rq_headers r) (rq_query r) ps (rq_cookies r) (rq_body r) (rq_ip r)) None) env s)
    as [[Hu' _]|[_ (body & Eb)]]; [change (uuidRegex (header_get DefaultTenantHeader (rq_headers r)) = true) in Hu'; congruence|].
  eexists. split; [exact Eb|by left].
Qed.
End Gate.

(** ** The log

    An entry is an error from 500 on and a warning from 400, and has a
    correlation id only where the client sent one: none is made up. *)
Lemma request_entry_level method path query latency status size tenantID c :
  le_level (request_entry method path query latency status size tenantID c) = ErrorLevel <-> (500 <= status)%Z.
Proof. unfold request_entry. repeat case_decide; cbn; split; try done; lia. Qed.

Lemma request_entry_correlation method path query latency status size tenantID c :
  (exists id, ("correlation_id", id) ∈ le_fields (request_entry method path query latency status size tenantID c)) <->
  GetHeader c "X-Correlation-ID" <> estr \/ GetHeader c "X-Request-ID" <> estr.
Proof.
  assert (forall l, l = le_fields (request_entry method path query latency status size tenantID c) ->
    (exists id, ("correlation_id", id) ∈ l) <-> correlation_id c <> estr) as Hf.
  { intros l ->. unfold request_entry. repeat case_decide; destruct tenantID; cbn [le_fields]; set_solver. }
  rewrite (Hf _ eq_refl). unfold correlation_id. case_decide; naive_solver.
Qed.
