(* ===== verification/OAuthClient.v ===== *)
(** * internal/oauthclient

    The registrations of OAuth clients: the record, the [Store] interface both
    the auth and the governance service are written against, and its Postgres
    implementation over the table of migration 000004. *)
From S2P Require Import Prelude GoStd Sql.
Local Open Scope go_scope.

Record Client : Type := mkClient {
  oc_ID : string;
  oc_TenantID : string;
  oc_ClientID : string;
  oc_ClientType : string;
  oc_Name : string;
  oc_Description : option string;
  oc_RedirectURIs : list string;
  oc_AllowedScopes : list string;
  oc_ClientSecretHash : string;
  oc_CreatedAt : Z;
  oc_UpdatedAt : Z
}.

Definition ErrNotFound : error := ErrSentinel "oauthclient.ErrNotFound" "oauth client not found".

(** A slice argument: [None] is the nil slice, which the driver sends as
    [NULL]. *)
Record CreateClientParams : Type := mkCreateClientParams {
  cp_TenantID : string;
  cp_ClientID : string;
  cp_ClientType : string;
  cp_Name : string;
  cp_Description : option string;
  cp_RedirectURIs : option (list string);
  cp_AllowedScopes : option (list string);
  cp_ClientSecretHash : string
}.

Record UpdateClientParams : Type := mkUpdateClientParams {
  up_Name : option string;
  up_Description : option string;
  up_RedirectURIs : option (list string);
  up_AllowedScopes : option (list string);
  up_ClientType : option string;
  up_ClientSecretHash : option string
}.

(** The interface [oauthclient.Store]. *)
Class OAuthStore (C : Type) : Type := {
  ListClients : M C (list Client);
  ListClientsByTenant : string -> M C (list Client);
  GetClient : string -> string -> M C Client;
  CreateClient : CreateClientParams -> M C Client;
  UpdateClient : string -> string -> UpdateClientParams -> M C Client;
  DeleteClient : string -> string -> M C unit
}.

(** What its clients rely on: a lookup changes nothing and answers with the
    registration that was asked for. *)
Class OAuthStoreLaws (C : Type) `{!OAuthStore C} : Prop := {
  GetClient_id : forall tenantID clientID env s r s',
    GetClient tenantID clientID env s = (Ok r, s') -> oc_ClientID r = clientID;
  GetClient_readonly : forall tenantID clientID, readonly (GetClient tenantID clientID)
}.

(** ** Repository: the table oauth_clients *)

Abbreviation oauth_clients := (list Client).

Definition err_not_null (col : string) : error :=
  ErrDB ("pq: null value in column " +:+ dquote +:+ col +:+ dquote +:+ " violates not-null constraint").

(** A slice stored into a [TEXT[] NOT NULL] column. *)
Definition array_arg {S} (col : string) (v : option (list string)) : M S (list string) :=
  match v with Some l => ret l | None => fail (err_not_null col) end.

Definition same_client (tenant clientID : string) (r : Client) : bool :=
  bool_decide (oc_TenantID r = tenant /\ oc_ClientID r = clientID).

Definition Repository_ListClients : M oauth_clients (list Client) :=
  sql_select (fun _ => true).

Definition Repository_ListClientsByTenant (tenantID : string) : M oauth_clients (list Client) :=
  t <- uuid_arg tenantID;;
  sql_select (fun r => bool_decide (oc_TenantID r = t)).

Definition Repository_GetClient (tenantID clientID : string) : M oauth_clients Client :=
  map_err (fun err => if errors_Is err sql_ErrNoRows then ErrNotFound else err)
    (t <- uuid_arg tenantID;; sql_get (same_client t clientID)).

Definition Repository_CreateClient (params : CreateClientParams) : M oauth_clients Client :=
  t <- uuid_arg (cp_TenantID params);;
  uris <- array_arg "redirect_uris" (cp_RedirectURIs params);;
  scopes <- array_arg "allowed_scopes" (cp_AllowedScopes params);;
  sql_insert (fun new old => same_client (oc_TenantID new) (oc_ClientID new) old)
    (fun tm id =>
       let r := mkClient id t (cp_ClientID params) (cp_ClientType params) (cp_Name params)
                  (cp_Description params) uris scopes (cp_ClientSecretHash params) tm tm in
       (r, r)).

(** [SET col = COALESCE($n, col)] for every field of the parameters *)
Definition update_client (params : UpdateClientParams) (tm : Z) (r : Client) : Client :=
  mkClient (oc_ID r) (oc_TenantID r) (oc_ClientID r)
    (default (oc_ClientType r) (up_ClientType params))
    (default (oc_Name r) (up_Name params))
    (match up_Description params with Some d => Some d | None => oc_Description r end)
    (default (oc_RedirectURIs r) (up_RedirectURIs params))
    (default (oc_AllowedScopes r) (up_AllowedScopes params))
    (default (oc_ClientSecretHash r) (up_ClientSecretHash params))
    (oc_CreatedAt r) tm.

Definition Repository_UpdateClient (tenantID clientID : string) (params : UpdateClientParams)
    : M oauth_clients Client :=
  t <- uuid_arg tenantID;;
  _ <- sql_update (same_client t clientID) (update_client params);;
  Repository_GetClient tenantID clientID.

Definition Repository_DeleteClient (tenantID clientID : string) : M oauth_clients unit :=
  t <- uuid_arg tenantID;;
  rows <- sql_delete (same_client t clientID);;
  if decide (rows = 0) then fail ErrNotFound else ret tt.

#[export] Instance Repository_Store : OAuthStore oauth_clients := {|
  ListClients := Repository_ListClients;
  ListClientsByTenant := Repository_ListClientsByTenant;
  GetClient := Repository_GetClient;
  CreateClient := Repository_CreateClient;
  UpdateClient := Repository_UpdateClient;
  DeleteClient := Repository_DeleteClient
|}.

(** ** Lemmas *)

Lemma same_client_true t c r :
  same_client t c r = true <-> oc_TenantID r = t /\ oc_ClientID r = c.
Proof. apply bool_decide_eq_true. Qed.

Lemma Repository_GetClient_Ok tenantID clientID env s r s' :
  Repository_GetClient tenantID clientID env s = (Ok r, s') ->
  r ∈ st s /\ pg_uuid env tenantID = Some (oc_TenantID r) /\ oc_ClientID r = clientID /\
  st s' = st s.
Proof.
  unfold Repository_GetClient. intros H. minv.
  apply sql_get_spec in H as (Hin & [<- <-]%same_client_true & Hs). done.
Qed.

Lemma Repository_GetClient_readonly tenantID clientID :
  readonly (Repository_GetClient tenantID clientID).
Proof. unfold Repository_GetClient. effects. Qed.
#[export] Hint Resolve Repository_GetClient_readonly : effects.

#[export] Instance Repository_Laws : OAuthStoreLaws oauth_clients.
Proof.
  split; simpl; intros *.
  - intros (_ & _ & ? & ?)%Repository_GetClient_Ok. done.
  - apply Repository_GetClient_readonly.
Qed.

(** The unique constraint: at most one registration per tenant and client. *)
Definition clients_ok (l : oauth_clients) : Prop :=
  NoDup ((fun r => (oc_TenantID r, oc_ClientID r)) <$> l).

(** The operations that write keep it, however they end. *)
Lemma Repository_CreateClient_preserves params :
  preserves clients_ok (Repository_CreateClient params).
Proof.
  unfold Repository_CreateClient, array_arg. effects; apply preserves_sql_insert.
  intros tm id l Hl Hex. simpl in *. rewrite existsb_false in Hex.
  apply NoDup_key_snoc; [done|]. intros x Hx [= H1 H2]. apply Hex, not_true_iff_false in Hx.
  apply Hx. by apply same_client_true.
Qed.

Lemma Repository_UpdateClient_preserves tenantID clientID params :
  preserves clients_ok (Repository_UpdateClient tenantID clientID params).
Proof.
  unfold Repository_UpdateClient. effects. apply preserves_sql_update.
  intros tm l. apply NoDup_key_map. intros x. by case_match.
Qed.

Lemma Repository_DeleteClient_preserves tenantID clientID :
  preserves clients_ok (Repository_DeleteClient tenantID clientID).
Proof.
  unfold Repository_DeleteClient. effects.
  apply preserves_sql_delete. intros l. apply NoDup_key_filter.
Qed.
#[export] Hint Resolve Repository_CreateClient_preserves Repository_UpdateClient_preserves
  Repository_DeleteClient_preserves : effects.
