(* ===== verification/AuthClient.v ===== *)
(** * internal/auth/client.go

    The auth service's own view of an OAuth client: its configuration, the
    checks made on it, and the registry of statically configured clients. *)
From S2P Require Import Prelude GoStd GoUrl OAuthClient.
Local Open Scope go_scope.

Record ClientConfig : Type := mkClientConfig {
  cc_ID : string;
  cc_TenantID : string;
  cc_Name : string;
  cc_Description : string;
  cc_ClientType : string;
  cc_RedirectURIs : list string;
  cc_AllowedScopes : list string
}.

(** The first redirect URI that does not parse, with the parser's error. *)
Fixpoint bad_uri (uris : list string) : option (string * error) :=
  match uris with
  | [] => None
  | uri :: rest =>
      match url_ParseRequestURI uri with
      | inr err => Some (uri, err)
      | inl _ => bad_uri rest
      end
  end.

(** [c.validate()]: the error, if any. *)
Definition validate (c : ClientConfig) : option error :=
  let client := "client " +:+ cc_ID c in
  if decide (cc_ID c = estr) then Some (ErrNew "client id is required")
  else if decide (cc_TenantID c = estr) then Some (ErrNew (client +:+ " must include tenant_id"))
  else if decide (cc_RedirectURIs c = []) then
    Some (ErrNew (client +:+ " must define at least one redirect URI"))
  else match bad_uri (cc_RedirectURIs c) with
  | Some (uri, err) => Some (ErrWrap (client +:+ " has invalid redirect URI " +:+ uri) err)
  | None =>
      if decide (cc_AllowedScopes c = []) then
        Some (ErrNew (client +:+ " must declare at least one scope"))
      else if decide (cc_ClientType c <> "public" /\ cc_ClientType c <> "confidential") then
        Some (ErrNew (client +:+ " has invalid client_type " +:+ cc_ClientType c))
      else None
  end.

(** [c.allowsRedirect(redirect)] *)
Fixpoint allows_uri (uris : list string) (redirect : string) : bool :=
  match uris with
  | [] => false
  | uri :: rest => if decide (uri = redirect) then true else allows_uri rest redirect
  end.

Definition allowsRedirect (c : ClientConfig) (redirect : string) : bool :=
  allows_uri (cc_RedirectURIs c) redirect.

(** [c.validateScopes(requested)] *)
Fixpoint check_scopes (allowed : gset string) (req : list string) : option error :=
  match req with
  | [] => None
  | scope :: rest =>
      if decide (scope ∈ allowed) then check_scopes allowed rest
      else Some (ErrNew ("scope " +:+ scope +:+ " is not allowed"))
  end.

Definition validateScopes (c : ClientConfig) (requested : string) : option error :=
  check_scopes (list_to_set (cc_AllowedScopes c)) (strings_Fields requested).

(** [c.withDefaults()] *)
Definition withDefaults (c : ClientConfig) : ClientConfig :=
  mkClientConfig (cc_ID c) (cc_TenantID c) (cc_Name c) (cc_Description c)
    (if decide (cc_ClientType c = estr) then "public" else cc_ClientType c)
    (cc_RedirectURIs c) (cc_AllowedScopes c).

(** [clientKey]: tenant and client id. *)
Abbreviation clientKey := (string * string)%type.

Definition key_of (c : ClientConfig) : clientKey := (cc_TenantID c, cc_ID c).

(** [buildClientMap(clients)] *)
Fixpoint build_clients (registry : gmap clientKey ClientConfig) (clients : list ClientConfig)
    : gmap clientKey ClientConfig + error :=
  match clients with
  | [] => inl registry
  | raw :: rest =>
      let client := withDefaults raw in
      match validate client with
      | Some err => inr err
      | None =>
          match registry !! key_of client with
          | Some _ =>
              inr (ErrNew ("duplicate oauth client id " +:+ cc_ID client +:+ " for tenant " +:+ cc_TenantID client))
          | None => build_clients (<[key_of client := client]> registry) rest
          end
      end
  end.

Definition buildClientMap (clients : list ClientConfig) : gmap clientKey ClientConfig + error :=
  if decide (clients = []) then inr (ErrNew "at least one oauth client must be configured")
  else build_clients ∅ clients.

(** service.go, [clientConfigFromRecord(record)] *)
Definition clientConfigFromRecord (record : Client) : ClientConfig :=
  let description := default estr (oc_Description record) in
  let clientType := if decide (oc_ClientType record = estr) then "public" else oc_ClientType record in
  mkClientConfig (oc_ClientID record) (oc_TenantID record) (oc_Name record) description clientType
    (oc_RedirectURIs record) (oc_AllowedScopes record).

(** ** Lemmas *)

(** What a valid client satisfies. *)
Record client_valid (c : ClientConfig) : Prop := {
  cv_ID : cc_ID c <> estr;
  cv_TenantID : cc_TenantID c <> estr;
  cv_RedirectURIs : cc_RedirectURIs c <> [];
  cv_uris : Forall (fun uri => exists u, url_ParseRequestURI uri = inl u) (cc_RedirectURIs c);
  cv_AllowedScopes : cc_AllowedScopes c <> [];
  cv_ClientType : cc_ClientType c = "public" \/ cc_ClientType c = "confidential"
}.

Lemma bad_uri_None uris :
  bad_uri uris = None <-> Forall (fun uri => exists u, url_ParseRequestURI uri = inl u) uris.
Proof.
  induction uris as [|uri uris IH]; simpl; [by split; constructor|].
  rewrite Forall_cons, <-IH. destruct (url_ParseRequestURI uri) as [u|e].
  - split; [intros; split; eauto|by intros [_ ?]].
  - split; [done|]. by intros [[u ?] _].
Qed.

Lemma validate_None c : validate c = None <-> client_valid c.
Proof.
  unfold validate. split.
  - intros H. destruct (bad_uri _) as [[? ?]|] eqn:Hb; [by repeat case_decide|].
    repeat case_decide; try done. split; try done.
    + by apply bad_uri_None.
    + destruct (decide (cc_ClientType c = "public")); [by left|right].
      apply dec_stable. tauto.
  - intros [? ? ? Hu ? Ht]. rewrite !decide_False by done.
    apply bad_uri_None in Hu as ->. by rewrite !decide_False by tauto.
Qed.

Lemma allowsRedirect_spec c redirect :
  allowsRedirect c redirect = true <-> redirect ∈ cc_RedirectURIs c.
Proof.
  unfold allowsRedirect. induction (cc_RedirectURIs c) as [|uri uris IH]; simpl.
  - split; [done|]. by intros ?%elem_of_nil.
  - rewrite elem_of_cons, <-IH. case_decide as Hu; [subst; tauto|].
    split; [auto|]. intros [?|?]; congruence.
Qed.

Lemma check_scopes_None allowed req :
  check_scopes allowed req = None <-> Forall (fun scope => scope ∈ allowed) req.
Proof.
  induction req as [|scope req IH]; simpl; [by split; constructor|].
  rewrite Forall_cons, <-IH. case_decide; [tauto|]. split; [done|tauto].
Qed.

Lemma validateScopes_None c requested :
  validateScopes c requested = None <->
  Forall (fun scope => scope ∈ cc_AllowedScopes c) (strings_Fields requested).
Proof.
  unfold validateScopes. rewrite check_scopes_None.
  by setoid_rewrite elem_of_list_to_set.
Qed.

(** The registry the list denotes. *)
Definition client_entry (c : ClientConfig) : clientKey * ClientConfig := (key_of c, withDefaults c).

Lemma client_entry_keys clients : (client_entry <$> clients).*1 = key_of <$> clients.
Proof. rewrite <-list_fmap_compose. by apply list_fmap_ext. Qed.

Lemma build_clients_spec clients registry m :
  build_clients registry clients = inl m <->
  Forall (fun c => client_valid (withDefaults c)) clients /\
  NoDup (key_of <$> clients) /\
  (forall c, c ∈ clients -> registry !! key_of c = None) /\
  m = list_to_map (client_entry <$> clients) ∪ registry.
Proof.
  revert registry. induction clients as [|raw clients IH]; intros registry; simpl.
  { rewrite map_empty_union. split; [|by intros (_ & _ & _ & ->)].
    intros [= ->]. split_and!; [constructor|constructor|by intros ? ?%elem_of_nil|done]. }
  destruct (validate (withDefaults raw)) as [e|] eqn:Hv.
  { split; [done|]. intros (Hall & _). apply Forall_cons in Hall as [Hr _].
    apply validate_None in Hr. congruence. }
  apply validate_None in Hv. change (key_of (withDefaults raw)) with (key_of raw).
  destruct (registry !! key_of raw) as [c0|] eqn:Hr.
  { split; [done|]. intros (_ & _ & Hf & _). rewrite (Hf raw) in Hr; [done|left]. }
  rewrite IH. rewrite Forall_cons, NoDup_cons, <-insert_union_l.
  assert (key_of raw ∉ key_of <$> clients ->
          list_to_map (client_entry <$> clients) ∪ <[key_of raw := withDefaults raw]> registry =
          <[key_of raw := withDefaults raw]> (list_to_map (client_entry <$> clients) ∪ registry)) as Hins.
  { intros Hn. symmetry. apply insert_union_r. apply not_elem_of_list_to_map.
    by rewrite client_entry_keys. }
  split.
  - intros (Hall & Hnd & Hf & ->).
    assert (key_of raw ∉ key_of <$> clients) as Hk.
    { intros (c & Hk & Hc)%list_elem_of_fmap. apply Hf in Hc.
      rewrite <-Hk, lookup_insert_eq in Hc. done. }
    split_and!; [done|done|done|done| |by apply Hins].
    intros c [->|Hc]%elem_of_cons; [done|]. apply Hf in Hc. by apply lookup_insert_None in Hc as [? _].
  - intros ((? & ?) & (Hk & ?) & Hf & ->). split_and!; [done|done| |by rewrite Hins].
    intros c Hc. apply lookup_insert_None. split; [apply Hf; by right|].
    intros He. apply Hk. rewrite He. apply list_elem_of_fmap. eauto.
Qed.

(** The registry of static clients is built exactly when the list
    is not empty, every client (its type defaulted to public) is valid, and no
    tenant has two clients of the same id; it then holds those clients under
    their tenant and id, and nothing else. *)
Theorem buildClientMap_iff clients m :
  buildClientMap clients = inl m <->
  clients <> [] /\
  Forall (fun c => client_valid (withDefaults c)) clients /\
  NoDup (key_of <$> clients) /\
  m = list_to_map (client_entry <$> clients).
Proof.
  unfold buildClientMap. case_decide as Hne.
  - split; [done|]. by intros (? & _).
  - rewrite build_clients_spec, map_union_empty. split; [tauto|].
    intros (_ & ? & ? & ->). split_and!; [done|done| |done]. intros. apply lookup_empty.
Qed.
