(* ===== verification/TokenStores.v ===== *)
(** * The token stores of the auth service

    internal/auth/service.go declares three store interfaces and gives each an
    in-memory implementation; internal/auth/store_sql.go gives each a Postgres
    implementation over the tables of migration 000016, which cmd/authsvc
    uses.  The interfaces are classes; what the service relies on are their
    laws, proved for the implementations that satisfy them. *)
From S2P Require Import Prelude GoStd Sha256 Sql.
Local Open Scope go_scope.

(** ** Records *)

Record authorizationCode : Type := mkAuthorizationCode {
  ac_Code : string;
  ac_ClientID : string;
  ac_RedirectURI : string;
  ac_Scope : string;
  ac_TenantID : string;
  ac_CodeChallenge : string;
  ac_CodeChallengeMethod : string;
  ac_ExpiresAt : Z
}.

#[export] Instance authorizationCode_eq_dec : EqDecision authorizationCode.
Proof. solve_decision. Defined.

Record refreshTokenEntry : Type := mkRefreshTokenEntry {
  rt_Token : string;
  rt_ClientID : string;
  rt_TenantID : string;
  rt_Scope : string;
  rt_SubjectType : string;
  rt_ExpiresAt : Z
}.

(** ** Interfaces *)

Class AuthorizationCodeStore (C : Type) : Type := {
  code_Save : authorizationCode -> M C unit;
  code_Get : string -> M C (option authorizationCode);
  code_Delete : string -> M C unit
}.

Class RefreshTokenStore (R : Type) : Type := {
  refresh_Save : refreshTokenEntry -> M R unit;
  refresh_Get : string -> M R (option refreshTokenEntry);
  refresh_Delete : string -> M R unit
}.

Class RevocationStore (V : Type) : Type := {
  rev_Revoke : string -> M V unit;
  rev_IsRevoked : string -> M V bool
}.

(** A store that does not fail is a map from the key to the entry. *)
Class CodeStoreMap (C : Type) `{!AuthorizationCodeStore C} : Type := {
  code_view : C -> gmap string authorizationCode;
  code_Save_map : forall e env s, exists n c,
    code_Save e env s = (Ok tt, mkSt n c) /\ code_view c = <[ac_Code e := e]> (code_view (st s));
  code_Get_map : forall k env s, exists n,
    code_Get k env s = (Ok (code_view (st s) !! k), mkSt n (st s));
  code_Delete_map : forall k env s, exists n c,
    code_Delete k env s = (Ok tt, mkSt n c) /\ code_view c = delete k (code_view (st s))
}.

Class RefreshStoreMap (R : Type) `{!RefreshTokenStore R} : Type := {
  refresh_view : R -> gmap string refreshTokenEntry;
  refresh_Save_map : forall e env s, exists n c,
    refresh_Save e env s = (Ok tt, mkSt n c) /\
    refresh_view c = <[rt_Token e := e]> (refresh_view (st s));
  refresh_Get_map : forall k env s, exists n,
    refresh_Get k env s = (Ok (refresh_view (st s) !! k), mkSt n (st s));
  refresh_Delete_map : forall k env s, exists n c,
    refresh_Delete k env s = (Ok tt, mkSt n c) /\
    refresh_view c = delete k (refresh_view (st s))
}.

(** Both revocation stores satisfy these, the one in Postgres too when it
    answers: a token is revoked once [Revoke] has returned, revocations are
    never forgotten by later calls, and [IsRevoked] tells. *)
Class RevocationLaws (V : Type) `{!RevocationStore V} : Type := {
  revoked : V -> string -> Prop;
  rev_Revoke_Ok : forall token env s s',
    rev_Revoke token env s = (Ok tt, s') -> revoked (st s') token;
  rev_Revoke_mono : forall token token' env s,
    revoked (st s) token' -> revoked (st (snd (rev_Revoke token env s))) token';
  rev_IsRevoked_Ok : forall token env s b s',
    rev_IsRevoked token env s = (Ok b, s') -> (b = true <-> revoked (st s) token);
  rev_IsRevoked_readonly : forall token, readonly (rev_IsRevoked token);
  rev_IsRevoked_total : forall token env s p s', rev_IsRevoked token env s <> (Panic p, s');
  rev_Revoke_total : forall token env s p s', rev_Revoke token env s <> (Panic p, s')
}.

(** ** In memory *)

Definition authorizationCodeStore_Save (code : authorizationCode)
    : M (gmap string authorizationCode) unit :=
  modify (fun codes => <[ac_Code code := code]> codes).

Definition authorizationCodeStore_Get (code : string)
    : M (gmap string authorizationCode) (option authorizationCode) :=
  gets (fun codes => codes !! code).

Definition authorizationCodeStore_Delete (code : string)
    : M (gmap string authorizationCode) unit :=
  modify (fun codes => delete code codes).

#[export] Instance mem_code_store : AuthorizationCodeStore (gmap string authorizationCode) := {|
  code_Save := authorizationCodeStore_Save;
  code_Get := authorizationCodeStore_Get;
  code_Delete := authorizationCodeStore_Delete
|}.

Definition refreshTokenStore_Save (entry : refreshTokenEntry)
    : M (gmap string refreshTokenEntry) unit :=
  modify (fun tokens => <[rt_Token entry := entry]> tokens).

Definition refreshTokenStore_Get (token : string)
    : M (gmap string refreshTokenEntry) (option refreshTokenEntry) :=
  gets (fun tokens => tokens !! token).

Definition refreshTokenStore_Delete (token : string)
    : M (gmap string refreshTokenEntry) unit :=
  modify (fun tokens => delete token tokens).

#[export] Instance mem_refresh_store : RefreshTokenStore (gmap string refreshTokenEntry) := {|
  refresh_Save := refreshTokenStore_Save;
  refresh_Get := refreshTokenStore_Get;
  refresh_Delete := refreshTokenStore_Delete
|}.

Definition tokenRevocationStore_Revoke (token : string) : M (gmap string Z) unit :=
  t <- now;; modify (fun m => <[token := t]> m).

Definition tokenRevocationStore_IsRevoked (token : string) : M (gmap string Z) bool :=
  gets (fun m => bool_decide (is_Some (m !! token))).

#[export] Instance mem_revocation_store : RevocationStore (gmap string Z) := {|
  rev_Revoke := tokenRevocationStore_Revoke;
  rev_IsRevoked := tokenRevocationStore_IsRevoked
|}.

#[export] Instance mem_code_map : CodeStoreMap (gmap string authorizationCode).
Proof.
  refine {| code_view := fun m => m |}; simpl; intros ? ? [n m];
    (by eexists) || (by eexists _, _).
Defined.

#[export] Instance mem_refresh_map : RefreshStoreMap (gmap string refreshTokenEntry).
Proof.
  refine {| refresh_view := fun m => m |}; simpl; intros ? ? [n m];
    (by eexists) || (by eexists _, _).
Defined.

#[export] Instance mem_revocation_laws : RevocationLaws (gmap string Z).
Proof.
  refine {| revoked := fun m token => is_Some (m !! token) |}; simpl.
  - unfold tokenRevocationStore_Revoke. intros token env s s' H. minv.
    rewrite lookup_insert_eq. eauto.
  - intros token token' env s H. apply lookup_insert_is_Some'. by right.
  - unfold tokenRevocationStore_IsRevoked. intros token env s b s' H. minv.
    apply bool_decide_eq_true.
  - intros token. apply readonly_gets.
  - done.
  - done.
Defined.

(** ** In Postgres *)

(** [sqlx]'s name for a field without a [db] tag is the field's name in lower
    case. *)
Definition authorizationCode_names : list string :=
  strings_ToLower <$> ["Code"; "ClientID"; "RedirectURI"; "Scope"; "TenantID"; "CodeChallenge";
                       "CodeChallengeMethod"; "ExpiresAt"].

Definition authorization_codes_columns : list string :=
  ["code"; "client_id"; "redirect_uri"; "scope"; "tenant_id"; "code_challenge";
   "code_challenge_method"; "expires_at"].

Definition SQLAuthorizationCodeStore_Save (code : authorizationCode)
    : M (list authorizationCode) unit :=
  varchar_arg 255 (ac_Code code);;
  varchar_arg 255 (ac_ClientID code);;
  tenant <- uuid_arg (ac_TenantID code);;
  varchar_arg 255 (ac_CodeChallenge code);;
  varchar_arg 10 (ac_CodeChallengeMethod code);;
  sql_insert (fun new old => bool_decide (ac_Code new = ac_Code old))
    (fun _ _ =>
       (mkAuthorizationCode (ac_Code code) (ac_ClientID code) (ac_RedirectURI code) (ac_Scope code)
          tenant (ac_CodeChallenge code) (ac_CodeChallengeMethod code) (ac_ExpiresAt code), tt)).

Definition SQLAuthorizationCodeStore_Get (code : string)
    : M (list authorizationCode) (option authorizationCode) :=
  or_nil (sqlx_get authorizationCode_names authorization_codes_columns
                  (fun r => bool_decide (ac_Code r = code))).

Definition SQLAuthorizationCodeStore_Delete (code : string) : M (list authorizationCode) unit :=
  sql_delete (fun r => bool_decide (ac_Code r = code));; ret tt.

Definition SQLAuthorizationCodeStore_CleanupExpired : M (list authorizationCode) unit :=
  t <- now;;
  sql_delete (fun r => (ac_ExpiresAt r <? t)%Z);; ret tt.

#[export] Instance sql_code_store : AuthorizationCodeStore (list authorizationCode) := {|
  code_Save := SQLAuthorizationCodeStore_Save;
  code_Get := SQLAuthorizationCodeStore_Get;
  code_Delete := SQLAuthorizationCodeStore_Delete
|}.

Definition refreshTokenEntry_names : list string :=
  strings_ToLower <$> ["Token"; "ClientID"; "TenantID"; "Scope"; "SubjectType"; "ExpiresAt"].

Definition refresh_tokens_columns : list string :=
  ["token"; "client_id"; "tenant_id"; "scope"; "subject_type"; "expires_at"].

Definition SQLRefreshTokenStore_Save (entry : refreshTokenEntry) : M (list refreshTokenEntry) unit :=
  varchar_arg 255 (rt_Token entry);;
  varchar_arg 255 (rt_ClientID entry);;
  tenant <- uuid_arg (rt_TenantID entry);;
  varchar_arg 50 (rt_SubjectType entry);;
  sql_insert (fun new old => bool_decide (rt_Token new = rt_Token old))
    (fun _ _ =>
       (mkRefreshTokenEntry (rt_Token entry) (rt_ClientID entry) tenant (rt_Scope entry)
          (rt_SubjectType entry) (rt_ExpiresAt entry), tt)).

Definition SQLRefreshTokenStore_Get (token : string)
    : M (list refreshTokenEntry) (option refreshTokenEntry) :=
  or_nil (sqlx_get refreshTokenEntry_names refresh_tokens_columns
                  (fun r => bool_decide (rt_Token r = token))).

Definition SQLRefreshTokenStore_Delete (token : string) : M (list refreshTokenEntry) unit :=
  sql_delete (fun r => bool_decide (rt_Token r = token));; ret tt.

Definition SQLRefreshTokenStore_CleanupExpired : M (list refreshTokenEntry) unit :=
  t <- now;;
  sql_delete (fun r => (rt_ExpiresAt r <? t)%Z);; ret tt.

#[export] Instance sql_refresh_store : RefreshTokenStore (list refreshTokenEntry) := {|
  refresh_Save := SQLRefreshTokenStore_Save;
  refresh_Get := SQLRefreshTokenStore_Get;
  refresh_Delete := SQLRefreshTokenStore_Delete
|}.

(** A row of revoked_tokens: the hash and when it was added. *)
Record revokedToken : Type := mkRevokedToken {
  rv_token_hash : string;
  rv_revoked_at : Z
}.

Definition hashToken (token : string) : string := hex_Encode (sha256_Sum256 token).

(** [INSERT ... ON CONFLICT DO NOTHING] *)
Definition SQLRevocationStore_Revoke (token : string) : M (list revokedToken) unit :=
  let hash := hashToken token in
  varchar_arg 64 hash;;
  sql_upsert (fun new old => bool_decide (rv_token_hash new = rv_token_hash old))
    (fun _ _ => false) (fun _ old => old) (fun tm _ => mkRevokedToken hash tm) (fun _ => tt).

Definition SQLRevocationStore_IsRevoked (token : string) : M (list revokedToken) bool :=
  let hash := hashToken token in
  r <- attempt (sql_get (fun r => bool_decide (rv_token_hash r = hash)));;
  match r with
  | inl _ => ret true
  | inr err => if errors_Is err sql_ErrNoRows then ret false else fail err
  end.

Definition SQLRevocationStore_CleanupOld (olderThan : Z) : M (list revokedToken) unit :=
  t <- now;;
  let cutoff := (t - olderThan)%Z in
  sql_delete (fun r => (rv_revoked_at r <? cutoff)%Z);; ret tt.

#[export] Instance sql_revocation_store : RevocationStore (list revokedToken) := {|
  rev_Revoke := SQLRevocationStore_Revoke;
  rev_IsRevoked := SQLRevocationStore_IsRevoked
|}.

(** ** Laws of the Postgres revocation store *)

Definition sql_revoked (l : list revokedToken) (token : string) : Prop :=
  exists r, r ∈ l /\ rv_token_hash r = hashToken token.

Lemma hashToken_length token : String.length (hashToken token) = 64.
Proof. unfold hashToken. by rewrite hex_Encode_length, sha256_Sum256_length. Qed.

Lemma sql_revoked_preserved token token' :
  preserves (fun l => sql_revoked l token') (SQLRevocationStore_Revoke token).
Proof.
  unfold SQLRevocationStore_Revoke. effects. apply preserves_sql_upsert.
  - intros tm id l (r & Hr & Hh) _ _. exists r. split; [apply elem_of_app; by left|done].
  - intros tm id l (r & Hr & Hh). exists r. split; [|done].
    apply list_elem_of_fmap. exists r. by case_bool_decide.
Qed.

#[export] Instance sql_revocation_laws : RevocationLaws (list revokedToken).
Proof.
  refine {| revoked := sql_revoked |}; simpl.
  - intros token env s s' H. unfold SQLRevocationStore_Revoke in H. minv.
    apply sql_upsert_Ok_inv in H as [_ [(old & Hold & Hc & _ & ->)|(_ & _ & ->)]].
    + apply bool_decide_eq_true in Hc. simpl in Hc. exists old. split; [|done].
      apply list_elem_of_fmap. exists old. by case_bool_decide.
    + eexists. split; [apply elem_of_app; right; left|done].
  - intros token token' env s H. by apply sql_revoked_preserved.
  - intros token env s b s' H. unfold SQLRevocationStore_IsRevoked in H. minv;
      apply attempt_Ok_inv in E as [(x & ? & E)|(x & ? & E)]; simplify_eq.
    + apply sql_get_spec in E as (Hin & Hp%bool_decide_eq_true & _). split; [|done].
      intros _. by exists x.
    + split; [done|]. intros (y & Hy & Hh). exfalso.
      pose proof (sql_get_NoRows _ _ _ _ _ E ltac:(done) y Hy) as Hf.
      apply bool_decide_eq_false in Hf. done.
  - intros token. unfold SQLRevocationStore_IsRevoked. effects.
  - intros token env s p s'. unfold SQLRevocationStore_IsRevoked, bind, attempt.
    destruct (sql_get _ _ _) as [[]?] eqn:E; [done| |by apply statement_Panic in E].
    by destruct (errors_Is _ _).
  - intros token env s p s'. unfold SQLRevocationStore_Revoke, bind, varchar_arg.
    case_decide; [|done]. apply statement_Panic.
Defined.

(** ** The Postgres code and refresh stores cannot be read

    The structs carry no [db] tags, so [sqlx] has no destination for the
    columns whose names contain an underscore. *)

Lemma SQLAuthorizationCodeStore_Get_fails code env s r s' :
  sqlx_strict env -> SQLAuthorizationCodeStore_Get code env s <> (Ok r, s').
Proof.
  intros Hs H. unfold SQLAuthorizationCodeStore_Get, or_nil in H.
  assert (Exists (fun c => c ∉ authorizationCode_names) authorization_codes_columns) as Hc.
  { apply Exists_cons_tl, Exists_cons_hd. refine (bool_decide_unpack _ _). by vm_compute. }
  minv; apply attempt_Ok_inv in E as [(x & ? & E)|(x & ? & E)]; simplify_eq.
  - by apply sqlx_get_missing in E.
  - apply (sqlx_get_missing_err _ _ _ _ _ _ _ Hs Hc) in E. congruence.
Qed.

Lemma SQLRefreshTokenStore_Get_fails token env s r s' :
  sqlx_strict env -> SQLRefreshTokenStore_Get token env s <> (Ok r, s').
Proof.
  intros Hs H. unfold SQLRefreshTokenStore_Get, or_nil in H.
  assert (Exists (fun c => c ∉ refreshTokenEntry_names) refresh_tokens_columns) as Hc.
  { apply Exists_cons_tl, Exists_cons_hd. refine (bool_decide_unpack _ _). by vm_compute. }
  minv; apply attempt_Ok_inv in E as [(x & ? & E)|(x & ? & E)]; simplify_eq.
  - by apply sqlx_get_missing in E.
  - apply (sqlx_get_missing_err _ _ _ _ _ _ _ Hs Hc) in E. congruence.
Qed.
