(* ===== verification/Risk.v ===== *)
(** * Devices, signals and risk

    internal/auth/device_store.go, signal_store.go and risk_engine.go, and the
    user-agent parser of service.go: the devices a user signs in from, the
    security events recorded about a subject, and the score a login gets from
    both. *)
From S2P Require Import Prelude GoStd Sql.
Local Open Scope go_scope.

(** [time.Time{}], the instant [IsZero] tests for: 1 January of year 1. *)
Definition time_zero : Z := -62135596800 * 1000000000.

(** ** device_store.go *)

Record Device : Type := mkDevice {
  dv_ID : string;
  dv_TenantID : string;
  dv_UserID : string;
  dv_DeviceIdentifier : string;
  dv_OS : string;
  dv_OSVersion : string;
  dv_IsManaged : bool;
  dv_IsCompliant : bool;
  dv_LastSeenAt : Z;
  dv_RiskScore : Z;
  dv_CreatedAt : Z;
  dv_UpdatedAt : Z
}.

Class DeviceStore (D : Type) : Type := {
  device_Register : Device -> M D Device;
  device_GetByID : string -> M D (option Device);
  device_GetByIdentifier : string -> string -> M D (option Device);
  device_UpdatePosture : string -> bool -> Z -> M D unit;
  device_ListByUser : string -> M D (list Device);
  device_List : string -> M D (list Device);
  device_Delete : string -> M D unit
}.

Definition same_device (new old : Device) : bool :=
  bool_decide (dv_TenantID old = dv_TenantID new /\
               dv_DeviceIdentifier old = dv_DeviceIdentifier new).

(** [Register(ctx, device)] fills in the id and the times of the struct it is
    given; the answer is that struct afterwards. *)
Definition deviceRepo_Register (device : Device) : M (list Device) Device :=
  id <- (if decide (dv_ID device = estr) then uuid_New else ret (dv_ID device));;
  createdAt <- now;;
  updatedAt <- now;;
  lastSeenAt <- now;;
  id' <- uuid_arg id;;
  tenant <- uuid_arg (dv_TenantID device);;
  user <- uuid_arg (dv_UserID device);;
  varchar_arg 255 (dv_DeviceIdentifier device);;
  varchar_arg 50 (dv_OS device);;
  varchar_arg 50 (dv_OSVersion device);;
  int4_arg (dv_RiskScore device);;
  sql_upsert same_device (fun new old => bool_decide (dv_ID new = dv_ID old))
    (fun new old =>
       mkDevice (dv_ID old) (dv_TenantID old) (dv_UserID old) (dv_DeviceIdentifier old) (dv_OS old)
         (dv_OSVersion new) (dv_IsManaged new) (dv_IsCompliant old) (dv_LastSeenAt new)
         (dv_RiskScore old) (dv_CreatedAt old) (dv_UpdatedAt new))
    (fun _ _ =>
       mkDevice id' tenant user (dv_DeviceIdentifier device) (dv_OS device) (dv_OSVersion device)
         (dv_IsManaged device) (dv_IsCompliant device) lastSeenAt (dv_RiskScore device)
         createdAt updatedAt)
    (fun _ =>
       mkDevice id (dv_TenantID device) (dv_UserID device) (dv_DeviceIdentifier device) (dv_OS device)
         (dv_OSVersion device) (dv_IsManaged device) (dv_IsCompliant device) lastSeenAt
         (dv_RiskScore device) createdAt updatedAt).

Definition deviceRepo_GetByID (id : string) : M (list Device) (option Device) :=
  or_nil (u <- uuid_arg id;; sql_get (fun d => bool_decide (dv_ID d = u))).

Definition deviceRepo_GetByIdentifier (tenantID identifier : string)
    : M (list Device) (option Device) :=
  or_nil (t <- uuid_arg tenantID;;
          sql_get (fun d => bool_decide (dv_TenantID d = t /\ dv_DeviceIdentifier d = identifier))).

Definition set_posture (isCompliant : bool) (riskScore tm : Z) (d : Device) : Device :=
  mkDevice (dv_ID d) (dv_TenantID d) (dv_UserID d) (dv_DeviceIdentifier d) (dv_OS d) (dv_OSVersion d)
    (dv_IsManaged d) isCompliant (dv_LastSeenAt d) riskScore (dv_CreatedAt d) tm.

Definition deviceRepo_UpdatePosture (id : string) (isCompliant : bool) (riskScore : Z)
    : M (list Device) unit :=
  tm <- now;;
  int4_arg riskScore;;
  u <- uuid_arg id;;
  sql_update (fun d => bool_decide (dv_ID d = u)) (fun _ => set_posture isCompliant riskScore tm);;
  ret tt.

Definition deviceRepo_ListByUser (userID : string) : M (list Device) (list Device) :=
  u <- uuid_arg userID;;
  sql_select (fun d => bool_decide (dv_UserID d = u)).

Definition deviceRepo_List (tenantID : string) : M (list Device) (list Device) :=
  t <- uuid_arg tenantID;;
  rows <- sql_select (fun d => bool_decide (dv_TenantID d = t));;
  ret (order_by_desc dv_LastSeenAt rows).

Definition deviceRepo_Delete (id : string) : M (list Device) unit :=
  u <- uuid_arg id;;
  sql_delete (fun d => bool_decide (dv_ID d = u));;
  ret tt.

#[export] Instance deviceRepo_store : DeviceStore (list Device) := {|
  device_Register := deviceRepo_Register;
  device_GetByID := deviceRepo_GetByID;
  device_GetByIdentifier := deviceRepo_GetByIdentifier;
  device_UpdatePosture := deviceRepo_UpdatePosture;
  device_ListByUser := deviceRepo_ListByUser;
  device_List := deviceRepo_List;
  device_Delete := deviceRepo_Delete
|}.

(** ** signal_store.go

    No migration creates the table security_events: after the migrations the
    database answers its statements with an error. For a table that was made by
    other means, columns are taken as text and instants, with a key on the id. *)

Record SecurityEvent : Type := mkSecurityEvent {
  se_ID : string;
  se_TenantID : string;
  se_SubjectID : string;
  se_EventType : string;
  se_EventTime : Z;
  se_JTI : string;
  se_Reason : string;
  se_CreatedAt : Z
}.

Class SignalStore (G : Type) : Type := {
  signal_Ingest : SecurityEvent -> M G unit;
  signal_GetLatestCriticalEvent : string -> Z -> M G SecurityEvent
}.

Definition SignalDb : Type := option (list SecurityEvent).

Definition in_security_events {A} (m : M (list SecurityEvent) A) : M SignalDb A :=
  fun env s =>
    match st s with
    | None => statement (fun _ _ _ => inr (ErrDB "pq: relation security_events does not exist")) env s
    | Some rows => let '(r, u) := m env (mkSt (tick s) rows) in (r, mkSt (tick u) (Some (st u)))
    end.

Definition signalRepo_Ingest (event : SecurityEvent) : M SignalDb unit :=
  id <- (if decide (se_ID event = estr) then uuid_New else ret (se_ID event));;
  eventTime <- (if decide (se_EventTime event = time_zero) then now else ret (se_EventTime event));;
  createdAt <- now;;
  in_security_events (sql_insert (fun new old => bool_decide (se_ID new = se_ID old))
    (fun _ _ =>
       (mkSecurityEvent id (se_TenantID event) (se_SubjectID event) (se_EventType event) eventTime
          (se_JTI event) (se_Reason event) createdAt, tt))).

Definition signalRepo_GetLatestCriticalEvent (subjectID : string) (since : Z)
    : M SignalDb SecurityEvent :=
  rows <- in_security_events
    (sql_select (fun e => bool_decide (se_SubjectID e = subjectID) && (since <? se_EventTime e)%Z));;
  match order_by_desc se_EventTime rows with
  | event :: _ => ret event
  | [] => fail sql_ErrNoRows
  end.

#[export] Instance signalRepo_store : SignalStore SignalDb := {|
  signal_Ingest := signalRepo_Ingest;
  signal_GetLatestCriticalEvent := signalRepo_GetLatestCriticalEvent
|}.

(** ** risk_engine.go *)

Inductive RiskLevel : Type := RiskLevelLow | RiskLevelMedium | RiskLevelHigh.

#[export] Instance RiskLevel_eq_dec : EqDecision RiskLevel.
Proof. solve_decision. Defined.

Record RiskScore : Type := mkRiskScore {
  rs_Score : Z;
  rs_Level : RiskLevel;
  rs_Factors : list string
}.

Section RiskEngine.
Context {D G : Type} `{!DeviceStore D, !SignalStore G}.

Definition on_devices {A} (m : M D A) : M (D * G) A := zoom fst (fun d s => (d, snd s)) m.

Definition on_signals {A} (m : M G A) : M (D * G) A := zoom snd (fun g s => (fst s, g)) m.

(** The contribution of the device: points and factors. *)
Definition device_risk (deviceID : string) : M (D * G) (Z * list string) :=
  if decide (deviceID <> estr) then
    r <- attempt (on_devices (device_GetByID deviceID));;
    match r with
    | inr _ => ret (20%Z, ["device_lookup_error"])
    | inl None => ret (20%Z, ["unknown_device"])
    | inl (Some device) =>
        let '(score, factors) :=
          if dv_IsCompliant device then (0%Z, []) else (50%Z, ["device_non_compliant"]) in
        ret (if decide (dv_RiskScore device > 0)%Z
             then (int64 (score + dv_RiskScore device), factors ++ ["device_reported_risk"])
             else (score, factors))
    end
  else ret (10%Z, ["no_device_id"]).

(** The level of a score. *)
Definition risk_level (score : Z) : RiskLevel :=
  if decide (score >= 80)%Z then RiskLevelHigh
  else if decide (score >= 40)%Z then RiskLevelMedium
  else RiskLevelLow.

(** [e.Evaluate(ctx, userID, deviceID, ip)]; [signals] tells whether the
    engine has a signal store. *)
Definition RiskEngine_Evaluate (signals : bool) (userID deviceID ip : string) : M (D * G) RiskScore :=
  dr <- device_risk deviceID;;
  let '(score, factors) := dr in
  sf <- (if signals then
           t <- now;;
           let since := (t - 24 * hour)%Z in
           r <- attempt (on_signals (signal_GetLatestCriticalEvent userID since));;
           match r with
           | inl event => ret (int64 (score + 30), factors ++ ["recent_security_event: " +:+ se_EventType event])
           | inr _ => ret (score, factors)
           end
         else ret (score, factors));;
  let '(score, factors) := sf in
  let score := if decide (score > 100)%Z then 100%Z else score in
  ret (mkRiskScore score (risk_level score) factors).

End RiskEngine.

(** ** parseUserAgent

    [regexp]: the leftmost place where [prefix] is followed by a non-empty run
    of [cls] and then by [suffix]; the submatch is the run.  No pattern of the
    parser has a suffix that starts with a byte of its class, so the longest
    run is the only candidate. *)
Definition match_at (prefix : string) (cls : Ascii.ascii -> bool) (suffix s : string)
    : option string :=
  if String.prefix prefix s then
    let '(run, rest) := span_bytes cls (drop_bytes (String.length prefix) s) in
    if negb (bool_decide (run = estr)) && String.prefix suffix rest then Some run else None
  else None.

Fixpoint find_submatch (prefix : string) (cls : Ascii.ascii -> bool) (suffix s : string)
    : option string :=
  match match_at prefix cls suffix s, s with
  | Some run, _ => Some run
  | None, EmptyString => None
  | None, String _ r => find_submatch prefix cls suffix r
  end.

Definition digit_or (c : N) (a : Ascii.ascii) : bool :=
  let n := byte_N a in ((48 <=? n) && (n <=? 57) || (n =? c))%N.

(** [_] to [.] *)
Definition dotted (v : string) : string :=
  strings_ReplaceAll v (Ascii.ascii_of_N 95) (Ascii.ascii_of_N 46).

Definition parseUserAgent (ua : string) : string * string :=
  let uaLower := strings_ToLower ua in
  let has := strings_Contains uaLower in
  if has "macintosh" || has "mac os" then
    ("macOS", match find_submatch "mac os x " (digit_or 95) estr uaLower with
              | Some v => dotted v | None => "Unknown" end)
  else if has "windows" then
    ("Windows", default "Unknown" (find_submatch "windows nt " (digit_or 46) estr uaLower))
  else if has "iphone" || has "ipad" then
    ("iOS", match find_submatch "os " (digit_or 95) " like mac os x" uaLower with
            | Some v => dotted v | None => "Unknown" end)
  else if has "android" then
    ("Android", default "Unknown" (find_submatch "android " (digit_or 46) estr uaLower))
  else if has "linux" then ("Linux", "Unknown")
  else ("Unknown", "Unknown").

(** ** Lemmas *)

(** The table's constraints: one row per id, one per tenant and identifier,
    and scores that fit the column. *)
Record devices_ok (l : list Device) : Prop := {
  dok_id : NoDup (dv_ID <$> l);
  dok_key : NoDup ((fun d => (dv_TenantID d, dv_DeviceIdentifier d)) <$> l);
  dok_score : Forall (fun d => (- 2 ^ 31 <= dv_RiskScore d < 2 ^ 31)%Z) l
}.

Lemma devices_ok_map f l :
  (forall d, dv_ID (f d) = dv_ID d) ->
  (forall d, dv_TenantID (f d) = dv_TenantID d) ->
  (forall d, dv_DeviceIdentifier (f d) = dv_DeviceIdentifier d) ->
  (forall d, (- 2 ^ 31 <= dv_RiskScore d < 2 ^ 31)%Z -> (- 2 ^ 31 <= dv_RiskScore (f d) < 2 ^ 31)%Z) ->
  devices_ok l -> devices_ok (map f l).
Proof.
  intros H1 H2 H3 H4 [Hid Hkey Hs]. split.
  - by apply NoDup_key_map.
  - apply NoDup_key_map; [|done]. intros d. by rewrite H2, H3.
  - apply Forall_fmap. eapply Forall_impl; [exact Hs|done].
Qed.

Lemma deviceRepo_Register_preserves d : preserves devices_ok (deviceRepo_Register d).
Proof.
  unfold deviceRepo_Register, uuid_New, now.
  effects.
  match goal with E : int4_arg _ _ _ = _ |- _ => apply int4_arg_Ok_inv in E as [Hr _] end.
  apply preserves_sql_upsert.
  - intros tm id l [Hid Hkey Hs] Hc Hx. rewrite existsb_false in Hx. split.
    + apply NoDup_key_snoc; [done|]. intros x Hin He. apply Hx, bool_decide_eq_false in Hin.
      by apply Hin.
    + apply NoDup_key_snoc; [done|]. intros x Hin [= He1 He2].
      apply Hc, bool_decide_eq_false in Hin. by apply Hin.
    + apply Forall_app. split; [done|]. by apply Forall_singleton.
  - intros tm id l. apply devices_ok_map; intros x; destruct (_ : bool); simpl; auto.
Qed.

Lemma deviceRepo_UpdatePosture_preserves id c r : preserves devices_ok (deviceRepo_UpdatePosture id c r).
Proof.
  unfold deviceRepo_UpdatePosture, now. effects. minv. apply preserves_sql_update.
  intros tm l. apply devices_ok_map; intros x; destruct (_ : bool); simpl; auto.
Qed.

Lemma deviceRepo_Delete_preserves id : preserves devices_ok (deviceRepo_Delete id).
Proof.
  unfold deviceRepo_Delete. effects. apply preserves_sql_delete.
  intros l [? ? ?]. split; auto with tables.
Qed.

Abbreviation sqlRisk := (list Device * SignalDb)%type.

(** The device looked up by id answers a row of the table, or nothing. *)
Lemma deviceRepo_GetByID_cases id env (s : St (list Device)) :
  exists u, st u = st s /\
  ((exists d, d ∈ st s /\ pg_uuid env id = Some (dv_ID d) /\
      deviceRepo_GetByID id env s = (Ok (Some d), u)) \/
   deviceRepo_GetByID id env s = (Ok None, u) \/
   exists e, deviceRepo_GetByID id env s = (Err e, u)).
Proof.
  pose proof (readonly_or_nil _ (readonly_bind _ _ (readonly_uuid_arg id)
    (fun u => readonly_sql_get (fun d => bool_decide (dv_ID d = u)))) env s) as Hro.
  fold (deviceRepo_GetByID id) in Hro.
  destruct (deviceRepo_GetByID id env s) as [r u] eqn:E. exists u. split; [done|].
  destruct r as [[d|]|e|p]; [left| |by eauto|].
  - apply or_nil_Ok_inv in E as [(x & [= <-] & E)|(e & ? & _)]; [|done]. minv.
    apply sql_get_spec in E as (Hin & Hd%bool_decide_eq_true & _). subst. eauto.
  - by eauto.
  - exfalso. revert E. unfold deviceRepo_GetByID, or_nil, attempt, bind, uuid_arg.
    destruct (pg_uuid env id); [|by destruct (errors_Is _ _)].
    destruct (sql_get _ _ _) as [[]?] eqn:E; [done|by destruct (errors_Is _ _)|].
    by apply statement_Panic in E.
Qed.

(** A device the directory of devices puts at risk. *)
Definition risky (d : Device) : Prop := dv_IsCompliant d = false \/ (dv_RiskScore d > 0)%Z.

Lemma device_risk_spec deviceID env (s : St sqlRisk) :
  devices_ok (fst (st s)) ->
  exists pts fs u, device_risk deviceID env s = (Ok (pts, fs), u) /\ st u = st s /\
    (0 <= pts < 2 ^ 31 + 50)%Z /\
    (20 < pts -> exists d, d ∈ fst (st s) /\ pg_uuid env deviceID = Some (dv_ID d) /\ risky d)%Z.
Proof.
  intros Hok. unfold device_risk. case_decide; [|by eexists _, _, _].
  unfold on_devices, attempt, bind, zoom. simpl.
  destruct (deviceRepo_GetByID_cases deviceID env (mkSt (tick s) (fst (st s))))
    as (u & Hu & [(d & Hd & Hid & E)|[E|[e E]]]); rewrite E; simpl in *;
    [|by eexists _, _, _; rewrite Hu; destruct s as [? []]..].
  assert (- 2 ^ 31 <= dv_RiskScore d < 2 ^ 31)%Z as Hr.
  { by apply (proj1 (Forall_forall _ _) (dok_score _ Hok)) in Hd. }
  unfold ret, risky. destruct (dv_IsCompliant d) eqn:Hc; simpl;
    rewrite int64_small by lia; rewrite Hu;
    case_decide; eexists _, _, _; (split; [reflexivity|]);
    (split; [by destruct s as [? []]|]); (split; [lia|]); intros; try lia; exists d; auto.
Qed.

(** The lookup of an event answers one or fails, and changes nothing. *)
Lemma GetLatestCriticalEvent_run subjectID since env (s : St SignalDb) :
  exists r u, signalRepo_GetLatestCriticalEvent subjectID since env s =
    (match r with inl event => Ok event | inr e => Err e end, u) /\ st u = st s.
Proof.
  destruct s as [n [rows|]]; unfold signalRepo_GetLatestCriticalEvent, bind, in_security_events, sql_select, statement; cbn [st tick];
    destruct (db_fault env n) as [e|]; cbn [st tick]; try by eexists (inr _), _.
  destruct (order_by_desc _ _) as [|event l]; [by eexists (inr _), _|by eexists (inl _), _].
Qed.

(** Property C13. On devices whose scores fit their column, a risk evaluation
    always answers and changes nothing; the score is between 0 and 100, the
    level is the one its thresholds (40 and 80) give, and a login is put at
    high risk only on account of a registered device, the one whose id it
    presents, that is not compliant or has a reported score. *)
Theorem RiskEngine_Evaluate_bounds signals userID deviceID ip env (s : St sqlRisk) :
  devices_ok (fst (st s)) ->
  exists r u, RiskEngine_Evaluate signals userID deviceID ip env s = (Ok r, u) /\ st u = st s /\
    (0 <= rs_Score r <= 100)%Z /\
    (rs_Level r = RiskLevelHigh <-> 80 <= rs_Score r)%Z /\
    (rs_Level r = RiskLevelLow <-> rs_Score r < 40)%Z /\
    (rs_Level r = RiskLevelHigh ->
       exists d, d ∈ fst (st s) /\ pg_uuid env deviceID = Some (dv_ID d) /\ risky d).
Proof.
  intros Hok. unfold RiskEngine_Evaluate.
  destruct (device_risk_spec deviceID env s Hok) as (pts & fs & u & E & Hu & Hp & Hd).
  rewrite (bind_Ok _ _ _ _ _ _ E). simpl.
  assert (forall pts' fs' u', st u' = st s -> (0 <= pts' /\ (pts' = pts \/ pts' = pts + 30))%Z ->
    exists r v, (ret (mkRiskScore (if decide (pts' > 100) then 100 else pts')%Z
                  (risk_level (if decide (pts' > 100) then 100 else pts')%Z) fs') : M sqlRisk RiskScore) env u'
        = (Ok r, v) /\ st v = st s /\
      (0 <= rs_Score r <= 100)%Z /\
      (rs_Level r = RiskLevelHigh <-> 80 <= rs_Score r)%Z /\
      (rs_Level r = RiskLevelLow <-> rs_Score r < 40)%Z /\
      (rs_Level r = RiskLevelHigh ->
       exists d, d ∈ fst (st s) /\ pg_uuid env deviceID = Some (dv_ID d) /\ risky d)) as Hfin.
  { intros pts' fs' u' Hu' Hpts. eexists _, _. split; [reflexivity|]. split; [done|]. simpl.
    unfold risk_level. split; [case_decide; lia|].
    repeat case_decide; (split; [split; intros; (done || lia)|]);
      (split; [split; intros; (done || lia)|]); intros; try done; apply Hd; lia. }
  destruct signals; [|rewrite (bind_Ok _ _ _ _ (pts, fs) u) by done; apply Hfin; [done|lia]].
  unfold bind, now, observe, attempt, on_signals, zoom. simpl.
  assert (int64 (pts + 30) = pts + 30)%Z as -> by (apply int64_small; lia).
  destruct (GetLatestCriticalEvent_run userID (clock env (tick u) - 24 * hour)%Z env (mkSt (S (tick u)) (snd (st u))))
    as ([event|e] & v & -> & Hv); simpl; apply Hfin; simpl; try lia; rewrite Hv; simpl; by rewrite Hu; destruct s as [? []].
Qed.

(** A login from a laptop that was found not to be compliant and reported a
    score of 40: 90 points, high risk. *)
Lemma RiskEngine_Evaluate_bounds_witness :
  let laptop := mkDevice (demo_uuid 1) (demo_uuid 2) (demo_uuid 3) "laptop" "macOS" "14.1"
                  true false 0 40 0 0 in
  exists r u, RiskEngine_Evaluate true (demo_uuid 3) (demo_uuid 1) "10.0.0.1" demo_env
                (mkSt 0 ([laptop], None)) = (Ok r, u) /\ (0 <= rs_Score r <= 100)%Z.
Proof.
  intros laptop.
  destruct (RiskEngine_Evaluate_bounds true (demo_uuid 3) (demo_uuid 1) "10.0.0.1" demo_env
              (mkSt 0 ([laptop], None))) as (r & u & E & _ & Hs & _).
  - split; simpl; [apply NoDup_singleton|apply NoDup_singleton|].
    apply Forall_singleton. simpl. lia.
  - exists r, u. split; [exact E|exact Hs].
Defined.

(** *** The user agent *)

Lemma match_at_spec prefix cls suffix s run :
  match_at prefix cls suffix s = Some run -> exists b, s = prefix +:+ run +:+ suffix +:+ b.
Proof.
  unfold match_at. destruct (String.prefix prefix s) eqn:Hp; [|done].
  apply prefix_spec in Hp as [q ->]. rewrite drop_bytes_app.
  destruct (span_bytes cls q) as [run' rest] eqn:Hs. apply span_bytes_app in Hs as ->.
  destruct (negb _ && _) eqn:Hn; [|done]. apply andb_prop in Hn as [_ [b ->]%prefix_spec].
  intros [= ->]. eauto.
Qed.

Lemma find_submatch_spec prefix cls suffix s run :
  find_submatch prefix cls suffix s = Some run ->
  exists a b, s = a +:+ prefix +:+ run +:+ suffix +:+ b.
Proof.
  induction s as [|c s IH]; simpl; intros H;
    destruct (match_at prefix cls suffix _) as [run'|] eqn:Hm; simplify_eq.
  - apply match_at_spec in Hm as [b Hb]. by exists estr, b.
  - apply match_at_spec in Hm as [b Hb]. by exists estr, b.
  - apply IH in H as (a & b & ->). by exists (String c a), b.
Qed.

(** No user agent is ever recognised as an iOS device with a
    version: the agents that carry one also carry the words the macOS test
    looks for, and that test comes first. *)
Theorem parseUserAgent_no_iOS_version ua :
  fst (parseUserAgent ua) = "iOS" -> snd (parseUserAgent ua) = "Unknown".
Proof.
  unfold parseUserAgent. set (l := strings_ToLower ua).
  destruct (_ || strings_Contains l "mac os") eqn:Hmac; [done|].
  apply orb_false_iff in Hmac as [_ Hmac].
  destruct (strings_Contains l "windows"); [done|].
  destruct (strings_Contains l "iphone" || _).
  - intros _. cbn [snd]. destruct (find_submatch _ _ _ l) as [v|] eqn:Hf; [|done].
    exfalso. apply find_submatch_spec in Hf as (a & b & Hl).
    enough (strings_Contains l "mac os" = true) by congruence.
    apply Contains_app. exists (a +:+ "os " +:+ v +:+ " like "), (" x" +:+ b).
    rewrite Hl, !app_str_assoc. done.
  - destruct (strings_Contains l "android"); [done|].
    by destruct (strings_Contains l "linux").
Qed.

(** An iPhone running iOS 16.5 is a macOS machine of unknown version; an old
    iPad whose agent says only [CPU OS 3_2] gets as far as the iOS test. *)
Lemma parseUserAgent_no_iOS_version_witness :
  parseUserAgent "Mozilla/5.0 (iPhone; CPU iPhone OS 16_5 like Mac OS X)" = ("macOS", "Unknown") /\
  snd (parseUserAgent "iPad; CPU OS 3_2") = "Unknown".
Proof.
  split; [vm_compute; reflexivity|].
  apply parseUserAgent_no_iOS_version. vm_compute. reflexivity.
Defined.
