(* ===== verification/AuthService.v ===== *)
(** * The OAuth 2.0 core of the auth service

    internal/auth/service.go: clients, the authorization endpoint with PKCE,
    the three token grants, introspection and revocation (their handlers are in
    AuthApi.v).

    The service holds its stores behind interfaces; so does the model: the
    state is a record over the types of the stores, and the operations are
    written against their classes.  Signing and parsing JWTs
    (golang-jwt) and comparing bcrypt hashes (x/crypto) are parameters, with
    what the code relies on as the laws [JwtLaws]. *)
From S2P Require Import Prelude Bcrypt GoStd GoUrl Sha256 Sql.
From S2P Require Import Http Middleware OAuthClient AuthClient TokenStores Risk.
Local Open Scope go_scope.

(** [t.Unix()] *)
Definition unix (t : Z) : Z := t / second.

(** ** Errors *)

Definition ErrInvalidCredentials : error :=
  ErrService "invalid_credentials" "invalid username or password".
Definition ErrMissingCodeChallenge : error :=
  ErrService "invalid_request" "code_challenge is required".
Definition ErrInvalidCodeChallengeMethod : error :=
  ErrService "invalid_request" "only S256 code_challenge_method is supported".
Definition ErrInvalidAuthorizationCode : error :=
  ErrService "invalid_grant" "authorization code is invalid or expired".
Definition ErrUnsupportedGrantType : error :=
  ErrService "unsupported_grant_type" "only authorization_code grant is supported".
Definition ErrInvalidCodeVerifier : error :=
  ErrService "invalid_grant" "code_verifier does not match code_challenge".
Definition ErrInvalidClient : error :=
  ErrService "invalid_client" "client_id is not recognized".
Definition ErrInvalidRedirectURI : error :=
  ErrService "invalid_request" "redirect_uri is not registered for this client".

Definition newInvalidScopeError (detail : string) : error := ErrService "invalid_scope" detail.

(** ** Requests and responses *)

Record AuthorizeRequest : Type := mkAuthorizeRequest {
  ar_ResponseType : string;
  ar_ClientID : string;
  ar_RedirectURI : string;
  ar_Scope : string;
  ar_State : string;
  ar_CodeChallenge : string;
  ar_CodeChallengeMethod : string
}.

Record TokenRequest : Type := mkTokenRequest {
  tr_GrantType : string;
  tr_Code : string;
  tr_RedirectURI : string;
  tr_CodeVerifier : string;
  tr_ClientID : string;
  tr_ClientSecret : string;
  tr_Scope : string;
  tr_RefreshToken : string
}.

Record TokenResponse : Type := mkTokenResponse {
  ts_AccessToken : string;
  ts_TokenType : string;
  ts_ExpiresIn : Z;
  ts_RefreshToken : string;
  ts_Scope : string
}.

Record IntrospectResponse : Type := mkIntrospectResponse {
  ir_Active : bool;
  ir_Scope : string;
  ir_ClientID : string;
  ir_TokenType : string;
  ir_Exp : Z;
  ir_Iat : Z;
  ir_Sub : string;
  ir_Aud : string;
  ir_Iss : string;
  ir_TenantID : string
}.

Definition inactive : IntrospectResponse :=
  mkIntrospectResponse false estr estr estr 0 0 estr estr estr estr.

(** ** JWT and bcrypt *)

Abbreviation Claims := (list (string * json)).

Fixpoint claim (k : string) (claims : Claims) : option json :=
  match claims with
  | [] => None
  | (k', v) :: r => if decide (k = k') then Some v else claim k r
  end.

(** [x, _ := claims[k].(string)] and [.(float64)] *)
Definition claim_string (k : string) (claims : Claims) : string :=
  match claim k claims with Some (JStr s) => s | _ => estr end.

Definition claim_number (k : string) (claims : Claims) : Z :=
  match claim k claims with Some (JNum z) => z | _ => 0%Z end.

(** [SignedString kid claims]: the token, signed with the service's key;
    [jwt_Parse t token]: the claims of a token that carries an RSA signature
    of that key and is valid at the time [t]; and bcrypt. *)
Class Crypto : Type := {
  SignedString : string -> Claims -> string + error;
  jwt_Parse : Z -> string -> option Claims;
  crypto_bcrypt :: Bcrypt
}.

(** Documented behaviour of golang-jwt: a signed token parses back to its
    claims, where JSON can hold them, until the instant of its exp claim, and is
    refused from then on; a string without dots is not a token. *)
Class JwtLaws {crypto : Crypto} : Prop := {
  jwt_roundtrip : forall kid claims token e t,
    SignedString kid claims = inl token -> claim "exp" claims = Some (JNum e) ->
    claim "nbf" claims = None -> json_exact (JObj claims) = true ->
    jwt_Parse t token = if decide (t < e * second)%Z then Some claims else None;
  jwt_segments : forall t token, strings_Contains token "." = false -> jwt_Parse t token = None
}.

(** ** The service *)

Record AuthState (C R V O D G : Type) : Type := mkAuth {
  au_codes : C;
  au_refresh : R;
  au_revoked : V;
  au_clients : O;
  au_risk : D * G
}.
Arguments mkAuth {C R V O D G}.
Arguments au_codes {C R V O D G}.
Arguments au_refresh {C R V O D G}.
Arguments au_revoked {C R V O D G}.
Arguments au_clients {C R V O D G}.
Arguments au_risk {C R V O D G}.

(** What [NewService] fixes: whether clients come from a store, the static
    clients otherwise (nil when there is a store), whether there is a signal
    store, and the key id. *)
Record AuthConfig : Type := mkAuthConfig {
  a_clientStore : bool;
  a_clients : option (gmap clientKey ClientConfig);
  a_signalStore : bool;
  a_keyID : string
}.

Section Service.
Context {crypto : Crypto}.
Context {C R V O D G : Type}.
Context `{!AuthorizationCodeStore C, !RefreshTokenStore R, !RevocationStore V, !OAuthStore O,
          !DeviceStore D, !SignalStore G}.
Context (cfg : AuthConfig).

Abbreviation Auth := (M (AuthState C R V O D G)).

Definition on_codes {A} (m : M C A) : Auth A :=
  zoom au_codes (fun c s => mkAuth c (au_refresh s) (au_revoked s) (au_clients s) (au_risk s)) m.

Definition on_refresh {A} (m : M R A) : Auth A :=
  zoom au_refresh (fun r s => mkAuth (au_codes s) r (au_revoked s) (au_clients s) (au_risk s)) m.

Definition on_revoked {A} (m : M V A) : Auth A :=
  zoom au_revoked (fun v s => mkAuth (au_codes s) (au_refresh s) v (au_clients s) (au_risk s)) m.

Definition on_clients {A} (m : M O A) : Auth A :=
  zoom au_clients (fun o s => mkAuth (au_codes s) (au_refresh s) (au_revoked s) o (au_risk s)) m.

Definition on_risk {A} (m : M (D * G) A) : Auth A :=
  zoom au_risk (fun x s => mkAuth (au_codes s) (au_refresh s) (au_revoked s) (au_clients s) x) m.

(** [if err := ...; err != nil { return err }] for the checks of a client *)
Definition check (e : option error) : Auth unit :=
  match e with Some err => fail err | None => ret tt end.

Definition resolveClient (tenantID clientID : string) : Auth ClientConfig :=
  if a_clientStore cfg then
    record <- map_err (fun err => if errors_Is err ErrNotFound then ErrInvalidClient else err)
                (on_clients (GetClient tenantID clientID));;
    let client := clientConfigFromRecord record in
    check (validate client);;
    ret client
  else
    match a_clients cfg with
    | None => fail ErrInvalidClient
    | Some clients =>
        match clients !! (tenantID, clientID) with
        | Some client => ret client
        | None => fail ErrInvalidClient
        end
    end.

Definition generateAuthorizationCode : Auth string :=
  b <- rand_Read 32;; ret (base64_RawURL b).

Definition verifyCodeChallenge (challenge method verifier : string) : option error :=
  if decide (method <> "S256") then Some ErrInvalidCodeChallengeMethod
  else
    let computed := base64_RawURL (sha256_Sum256 verifier) in
    if decide (ConstantTimeCompare computed challenge <> 1%Z) then Some ErrInvalidCodeVerifier
    else None.

Definition buildAuthorizationRedirect (baseURI code state : string) : Auth string :=
  match url_Parse baseURI with
  | inr err => fail err
  | inl parsed =>
      let values := Values_Set (url_Query (u_RawQuery parsed)) "code" code in
      let values := if decide (state <> estr) then Values_Set values "state" state else values in
      ret (URL_String (with_RawQuery parsed (Values_Encode values)))
  end.

Definition Authorize (ctx : GinCtx) (req : AuthorizeRequest) : Auth string :=
  tenantID <- TenantIDFromContext ctx;;
  client <- resolveClient tenantID (ar_ClientID req);;
  if decide (cc_TenantID client <> tenantID) then fail ErrInvalidClient
  else if negb (allowsRedirect client (ar_RedirectURI req)) then fail ErrInvalidRedirectURI
  else match validateScopes client (ar_Scope req) with
  | Some err => fail (newInvalidScopeError (error_string err))
  | None =>
      if decide (ar_CodeChallenge req = estr) then fail ErrMissingCodeChallenge
      else
        let method := if decide (ar_CodeChallengeMethod req = estr) then "S256"
                      else ar_CodeChallengeMethod req in
        if decide (method <> "S256") then fail ErrInvalidCodeChallengeMethod
        else
          code <- generateAuthorizationCode;;
          t <- now;;
          let expiresAt := (t + 5 * minute)%Z in
          ignore (on_codes (code_Save
            (mkAuthorizationCode code (ar_ClientID req) (ar_RedirectURI req) (ar_Scope req) tenantID
               (ar_CodeChallenge req) method expiresAt)));;
          buildAuthorizationRedirect (ar_RedirectURI req) code (ar_State req)
  end.

(** [claims]: exp and iat are read from the clock in turn. *)
Definition generateAccessToken (tenantID clientID scope subjectType : string) : Auth string :=
  t1 <- now;;
  t2 <- now;;
  let claims :=
    [("sub", JStr clientID); ("iss", JStr "identity-platform"); ("aud", JStr "client-app");
     ("exp", JNum (unix (t1 + hour))); ("iat", JNum (unix t2)); ("scope", JStr scope);
     ("tenant", JStr tenantID); ("subject_type", JStr subjectType)] in
  match SignedString (a_keyID cfg) claims with
  | inl token => ret token
  | inr err => fail err
  end.

Definition generateRefreshToken (tenantID clientID scope subjectType : string) : Auth string :=
  b <- rand_Read 32;;
  let refreshToken := base64_RawURL b in
  t <- now;;
  on_refresh (refresh_Save
    (mkRefreshTokenEntry refreshToken clientID tenantID scope subjectType (t + 7 * 24 * hour)%Z));;
  ret refreshToken.

Definition issueTokens (tenantID clientID scope subjectType : string) : Auth TokenResponse :=
  accessToken <- generateAccessToken tenantID clientID scope subjectType;;
  refreshToken <- generateRefreshToken tenantID clientID scope subjectType;;
  ret (mkTokenResponse accessToken "Bearer" 3600 refreshToken scope).

Definition handleAuthorizationCodeGrant (tenantID : string) (req : TokenRequest)
    : Auth TokenResponse :=
  if decide (tr_ClientID req = estr \/ tr_Code req = estr \/ tr_RedirectURI req = estr \/
             tr_CodeVerifier req = estr)
  then fail (ErrService "invalid_request" "missing required parameters for authorization_code grant")
  else
    client <- resolveClient tenantID (tr_ClientID req);;
    if negb (allowsRedirect client (tr_RedirectURI req)) then fail ErrInvalidRedirectURI
    else
      found <- on_codes (code_Get (tr_Code req));;
      match found with
      | None => fail ErrInvalidAuthorizationCode
      | Some code =>
          t <- now;;
          if decide (t > ac_ExpiresAt code)%Z then fail ErrInvalidAuthorizationCode
          else if decide (ac_ClientID code <> tr_ClientID req \/
                          ac_RedirectURI code <> tr_RedirectURI req \/
                          ac_TenantID code <> tenantID)
          then fail ErrInvalidAuthorizationCode
          else match verifyCodeChallenge (ac_CodeChallenge code) (ac_CodeChallengeMethod code)
                       (tr_CodeVerifier req) with
          | Some err => fail err
          | None =>
              ignore (on_codes (code_Delete (tr_Code req)));;
              issueTokens tenantID (tr_ClientID req) (ac_Scope code) "user"
          end
      end.

Definition verifyClientSecret (secret hash : string) : bool := CompareHashAndPassword hash secret.

Definition handleClientCredentialsGrant (tenantID : string) (req : TokenRequest)
    : Auth TokenResponse :=
  if decide (tr_ClientID req = estr) then fail (ErrService "invalid_request" "client_id is required")
  else
    client <- resolveClient tenantID (tr_ClientID req);;
    if decide (cc_ClientType client <> "confidential") then
      fail (ErrService "unauthorized_client" "client_credentials grant requires a confidential client")
    else if decide (tr_ClientSecret req = estr) then
      fail (ErrService "invalid_request" "client_secret is required for confidential clients")
    else if a_clientStore cfg then
      record <- map_err (fun _ => ErrInvalidClient) (on_clients (GetClient tenantID (tr_ClientID req)));;
      if decide (oc_ClientSecretHash record = estr) then
        fail (ErrService "invalid_client" "client has no secret configured")
      else if negb (verifyClientSecret (tr_ClientSecret req) (oc_ClientSecretHash record)) then
        fail (ErrService "invalid_client" "invalid client secret")
      else
        scope <- (if decide (tr_Scope req = estr) then ret (strings_Join (cc_AllowedScopes client) " ")
                  else match validateScopes client (tr_Scope req) with
                       | Some err => fail (newInvalidScopeError (error_string err))
                       | None => ret (tr_Scope req)
                       end);;
        accessToken <- generateAccessToken tenantID (tr_ClientID req) scope "client";;
        ret (mkTokenResponse accessToken "Bearer" 3600 estr scope)
    else fail (ErrService "invalid_client" "client_credentials requires database-backed clients").

Definition handleRefreshTokenGrant (tenantID : string) (req : TokenRequest) : Auth TokenResponse :=
  if decide (tr_RefreshToken req = estr) then
    fail (ErrService "invalid_request" "refresh_token is required")
  else
    revoked <- on_revoked (rev_IsRevoked (tr_RefreshToken req));;
    if (revoked : bool) then fail (ErrService "invalid_grant" "refresh token has been revoked")
    else
      found <- on_refresh (refresh_Get (tr_RefreshToken req));;
      match found with
      | None => fail (ErrService "invalid_grant" "refresh token is invalid or expired")
      | Some stored =>
          t <- now;;
          if decide (t > rt_ExpiresAt stored)%Z then
            fail (ErrService "invalid_grant" "refresh token is invalid or expired")
          else if decide (rt_TenantID stored <> tenantID) then
            fail (ErrService "invalid_grant" "refresh token tenant mismatch")
          else
            ignore (on_refresh (refresh_Delete (tr_RefreshToken req)));;
            issueTokens tenantID (rt_ClientID stored) (rt_Scope stored) (rt_SubjectType stored)
      end.

Definition Token (ctx : GinCtx) (req : TokenRequest) : Auth TokenResponse :=
  tenantID <- TenantIDFromContext ctx;;
  if decide (tr_GrantType req = "authorization_code") then handleAuthorizationCodeGrant tenantID req
  else if decide (tr_GrantType req = "client_credentials") then
    handleClientCredentialsGrant tenantID req
  else if decide (tr_GrantType req = "refresh_token") then handleRefreshTokenGrant tenantID req
  else fail ErrUnsupportedGrantType.

Definition on_signal_store {A} (m : M G A) : Auth A := on_risk (on_signals m).

Definition Introspect (token : string) : Auth IntrospectResponse :=
  revoked <- on_revoked (rev_IsRevoked token);;
  if (revoked : bool) then ret inactive
  else
    t <- now;;
    match jwt_Parse t token with
    | None =>
        r <- attempt (on_refresh (refresh_Get token));;
        match r with
        | inl (Some stored) =>
            t' <- now;;
            if decide (t' < rt_ExpiresAt stored)%Z then
              ret (mkIntrospectResponse true (rt_Scope stored) (rt_ClientID stored) "refresh_token"
                     (unix (rt_ExpiresAt stored)) 0 estr estr estr (rt_TenantID stored))
            else ret inactive
        | _ => ret inactive
        end
    | Some claims =>
        let iat := claim_number "iat" claims in
        let sub := claim_string "sub" claims in
        let active :=
          mkIntrospectResponse true (claim_string "scope" claims) sub "access_token"
            (claim_number "exp" claims) iat sub (claim_string "aud" claims)
            (claim_string "iss" claims) (claim_string "tenant" claims) in
        if a_signalStore cfg then
          event <- attempt (on_signal_store (signal_GetLatestCriticalEvent sub (iat * second)));;
          match event with
          | inl _ => ret inactive
          | inr _ => ret active
          end
        else ret active
    end.

Definition Revoke (token : string) : Auth unit :=
  on_revoked (rev_Revoke token);;
  ignore (on_refresh (refresh_Delete token)).

End Service.
