(* ===== verification/AuthFacts.v ===== *)
(** * What the OAuth core guarantees

    Theorems about the operations of AuthService.v, proved against the
    interfaces of the stores: the conditions under which each grant succeeds
    and what it leaves behind, single use of codes, rotation of refresh
    tokens, permanence of revocation, and the agreement of issued tokens with
    introspection. *)
From S2P Require Import Prelude Bcrypt GoStd GoUrl Sha256 Sql Http.
From S2P Require Import Middleware OAuthClient AuthClient TokenStores Risk AuthService.
Local Open Scope go_scope.

Section Facts.
Context {crypto : Crypto}.
Context {C R V O D G : Type}.
Context `{!AuthorizationCodeStore C, !RefreshTokenStore R, !RevocationStore V, !OAuthStore O,
          !DeviceStore D, !SignalStore G}.
Context `{!CodeStoreMap C, !RefreshStoreMap R, !RevocationLaws V, !OAuthStoreLaws O}.
Context (cfg : AuthConfig).

Abbreviation State := (AuthState C R V O D G).
Implicit Types (s : St State) (env : Env).

Definition codes_of s : gmap string authorizationCode := code_view (au_codes (st s)).
Definition refresh_of s : gmap string refreshTokenEntry := refresh_view (au_refresh (st s)).
Definition is_revoked s (token : string) : Prop := revoked (au_revoked (st s)) token.

(** *** The stores, seen from the service *)

(** What an operation on one store leaves of the others. *)
Definition keeps_codes s (u : St State) : Prop := codes_of u = codes_of s.
Definition keeps_refresh s (u : St State) : Prop := refresh_of u = refresh_of s.
Definition keeps_rest s (u : St State) : Prop :=
  au_revoked (st u) = au_revoked (st s) /\ au_clients (st u) = au_clients (st s) /\
  au_risk (st u) = au_risk (st s).

Lemma au_eta (x : State) :
  mkAuth (au_codes x) (au_refresh x) (au_revoked x) (au_clients x) (au_risk x) = x.
Proof. by destruct x. Qed.

Lemma on_codes_Get k env s :
  exists n, on_codes (code_Get k) env s = (Ok (codes_of s !! k), mkSt n (st s)).
Proof.
  destruct (code_Get_map k env (mkSt (tick s) (au_codes (st s)))) as (n & E).
  exists n. unfold on_codes, zoom. rewrite E. simpl. by rewrite au_eta.
Qed.

Lemma on_refresh_Get k env s :
  exists n, on_refresh (refresh_Get k) env s = (Ok (refresh_of s !! k), mkSt n (st s)).
Proof.
  destruct (refresh_Get_map k env (mkSt (tick s) (au_refresh (st s)))) as (n & E).
  exists n. unfold on_refresh, zoom. rewrite E. simpl. by rewrite au_eta.
Qed.

Lemma on_codes_Delete k env s :
  exists u, on_codes (code_Delete k) env s = (Ok tt, u) /\
  codes_of u = delete k (codes_of s) /\ keeps_refresh s u /\ keeps_rest s u.
Proof.
  destruct (code_Delete_map k env (mkSt (tick s) (au_codes (st s)))) as (n & c & E & Hc).
  eexists. unfold on_codes, zoom. by rewrite E.
Qed.

Lemma on_codes_Save e env s :
  exists u, on_codes (code_Save e) env s = (Ok tt, u) /\
  codes_of u = <[ac_Code e := e]> (codes_of s) /\ keeps_refresh s u /\ keeps_rest s u.
Proof.
  destruct (code_Save_map e env (mkSt (tick s) (au_codes (st s)))) as (n & c & E & Hc).
  eexists. unfold on_codes, zoom. by rewrite E.
Qed.

Lemma on_refresh_Save e env s :
  exists u, on_refresh (refresh_Save e) env s = (Ok tt, u) /\
  refresh_of u = <[rt_Token e := e]> (refresh_of s) /\ keeps_codes s u /\ keeps_rest s u.
Proof.
  destruct (refresh_Save_map e env (mkSt (tick s) (au_refresh (st s)))) as (n & c & E & Hc).
  eexists. unfold on_refresh, zoom. by rewrite E.
Qed.

Lemma on_refresh_Delete k env s :
  exists u, on_refresh (refresh_Delete k) env s = (Ok tt, u) /\
  refresh_of u = delete k (refresh_of s) /\ keeps_codes s u /\ keeps_rest s u.
Proof.
  destruct (refresh_Delete_map k env (mkSt (tick s) (au_refresh (st s)))) as (n & c & E & Hc).
  eexists. unfold on_refresh, zoom. by rewrite E.
Qed.

Lemma on_revoked_IsRevoked token env s b u :
  on_revoked (rev_IsRevoked token) env s = (Ok b, u) ->
  (b = true <-> is_revoked s token) /\ st u = st s.
Proof.
  intros (t & E & ->)%zoom_Ok_inv. split.
  - by apply rev_IsRevoked_Ok in E.
  - apply (readonly_run _ _ _ _ _ (rev_IsRevoked_readonly token)) in E. simpl in *.
    by rewrite E, au_eta.
Qed.

(** *** Clients *)

Lemma on_clients_readonly {A} (m : M O A) : readonly m -> readonly (on_clients m : M State A).
Proof. apply readonly_zoom, au_eta. Qed.
Hint Resolve on_clients_readonly GetClient_readonly : effects.

Lemma resolveClient_readonly tenantID clientID :
  readonly (resolveClient cfg tenantID clientID : M State ClientConfig).
Proof. unfold resolveClient, check. effects. Qed.
Hint Resolve resolveClient_readonly : effects.

Lemma resolveClient_run tenantID clientID env s r u :
  resolveClient cfg tenantID clientID env s = (r, u) -> st u = st s.
Proof. apply readonly_run, resolveClient_readonly. Qed.

(** *** Tokens *)

(** The claims an access token carries. *)
Definition access_claims (tenantID clientID scope subjectType : string) (t1 t2 : Z) : Claims :=
  [("sub", JStr clientID); ("iss", JStr "identity-platform"); ("aud", JStr "client-app");
   ("exp", JNum (unix (t1 + hour))); ("iat", JNum (unix t2)); ("scope", JStr scope);
   ("tenant", JStr tenantID); ("subject_type", JStr subjectType)].

(** A key that signs. *)
Definition can_sign : Prop :=
  forall tenantID clientID scope subjectType t1 t2, exists token,
    SignedString (a_keyID cfg) (access_claims tenantID clientID scope subjectType t1 t2) = inl token.

Lemma generateAccessToken_inv tenantID clientID scope subjectType env s token u :
  generateAccessToken cfg tenantID clientID scope subjectType env s = (Ok token, u) ->
  SignedString (a_keyID cfg)
    (access_claims tenantID clientID scope subjectType (clock env (tick s)) (clock env (S (tick s))))
    = inl token /\ u = mkSt (S (S (tick s))) (st s).
Proof. unfold generateAccessToken. intros H. minv. done. Qed.

(** A refresh token is issued whenever the entropy source answers. *)
Lemma generateRefreshToken_run tenantID clientID scope subjectType env s b :
  rand_read env (tick s) 32 = Ok b ->
  let token := base64_RawURL b in
  let entry := mkRefreshTokenEntry token clientID tenantID scope subjectType
                 (clock env (S (tick s)) + 7 * 24 * hour)%Z in
  exists u, generateRefreshToken tenantID clientID scope subjectType env s = (Ok token, u) /\
    refresh_of u = <[token := entry]> (refresh_of s) /\ keeps_codes s u /\ keeps_rest s u.
Proof.
  intros Hb token entry. unfold generateRefreshToken.
  destruct (on_refresh_Save entry env (mkSt (S (S (tick s))) (st s))) as (u & E & Hr & Hc & Hk).
  exists u. split; [|by repeat split; first [exact Hr|exact Hc|apply Hk]].
  mgo (rand_Read_run 32 env s b Hb). mgo (now_run env (mkSt (S (tick s)) (st s))).
  by mgo E.
Qed.

Lemma generateRefreshToken_inv tenantID clientID scope subjectType env s token u :
  generateRefreshToken tenantID clientID scope subjectType env s = (Ok token, u) ->
  exists b, rand_read env (tick s) 32 = Ok b /\ token = base64_RawURL b /\
  let entry := mkRefreshTokenEntry token clientID tenantID scope subjectType
                 (clock env (S (tick s)) + 7 * 24 * hour)%Z in
  refresh_of u = <[token := entry]> (refresh_of s) /\ keeps_codes s u /\ keeps_rest s u.
Proof.
  intros H. destruct (rand_read env (tick s) 32) as [b|e|p] eqn:Hb.
  - destruct (generateRefreshToken_run tenantID clientID scope subjectType env s b Hb)
      as (v & E & Hr). rewrite E in H. simplify_eq. eauto.
  - unfold generateRefreshToken, rand_Read in H. minv. congruence.
  - unfold generateRefreshToken, rand_Read in H. minv. congruence.
Qed.

(** What a pair of tokens leaves behind: the refresh token's entry, and an
    access token with these claims. *)
Record issued (tenantID clientID scope subjectType : string) env s (resp : TokenResponse)
    (u : St State) : Prop := {
  is_access : SignedString (a_keyID cfg)
    (access_claims tenantID clientID scope subjectType
       (clock env (tick s)) (clock env (S (tick s)))) = inl (ts_AccessToken resp);
  is_entry : refresh_of u =
    <[ts_RefreshToken resp :=
        mkRefreshTokenEntry (ts_RefreshToken resp) clientID tenantID scope subjectType
          (clock env (S (S (S (tick s)))) + 7 * 24 * hour)%Z]> (refresh_of s);
  is_scope : ts_Scope resp = scope;
  is_type : ts_TokenType resp = "Bearer" /\ ts_ExpiresIn resp = 3600%Z;
  is_codes : keeps_codes s u;
  is_rest : keeps_rest s u
}.

Lemma issueTokens_inv tenantID clientID scope subjectType env s resp u :
  issueTokens cfg tenantID clientID scope subjectType env s = (Ok resp, u) ->
  issued tenantID clientID scope subjectType env s resp u.
Proof.
  unfold issueTokens. intros H. minv.
  apply generateAccessToken_inv in E as [Ha ->].
  apply generateRefreshToken_inv in E0 as (b & Hb & -> & Hr & Hc & Hk). by split.
Qed.

Lemma issueTokens_run tenantID clientID scope subjectType env s access b :
  SignedString (a_keyID cfg)
    (access_claims tenantID clientID scope subjectType
       (clock env (tick s)) (clock env (S (tick s)))) = inl access ->
  rand_read env (S (S (tick s))) 32 = Ok b ->
  exists resp u, issueTokens cfg tenantID clientID scope subjectType env s = (Ok resp, u) /\
    issued tenantID clientID scope subjectType env s resp u.
Proof.
  intros Ha Hb. unfold issueTokens.
  assert (generateAccessToken cfg tenantID clientID scope subjectType env s =
          (Ok access, mkSt (S (S (tick s))) (st s))) as E1.
  { unfold generateAccessToken. munfold. unfold access_claims in Ha. by rewrite Ha. }
  destruct (generateRefreshToken_run tenantID clientID scope subjectType env
              (mkSt (S (S (tick s))) (st s)) b Hb) as (u & E2 & Hr & Hc & Hk).
  eexists _, u. split; [mgo E1; by mgo E2|by split].
Qed.

(** *** The authorization code grant *)

Lemma verifyCodeChallenge_None challenge method verifier :
  verifyCodeChallenge challenge method verifier = None <->
  method = "S256" /\ challenge = base64_RawURL (sha256_Sum256 verifier).
Proof.
  unfold verifyCodeChallenge.
  destruct (decide (method <> "S256")) as [Hm|Hm%dec_stable]; [by split; [|intros [? _]]|].
  destruct (decide (_ <> _)) as [Hc|Hc%dec_stable]; split; try done.
  - intros [_ ->]. by rewrite (proj2 (ConstantTimeCompare_eq _ _) eq_refl) in Hc.
  - intros _. split; [done|]. symmetry. by apply ConstantTimeCompare_eq.
Qed.

(** A request that meets a stored code at the time [t]. *)
Record code_matches (tenantID : string) (req : TokenRequest) (code : authorizationCode) (t : Z)
    : Prop := {
  cm_fresh : (t <= ac_ExpiresAt code)%Z;
  cm_client : ac_ClientID code = tr_ClientID req;
  cm_redirect : ac_RedirectURI code = tr_RedirectURI req;
  cm_tenant : ac_TenantID code = tenantID;
  cm_pkce : ac_CodeChallengeMethod code = "S256" /\
            ac_CodeChallenge code = base64_RawURL (sha256_Sum256 (tr_CodeVerifier req))
}.

(** The handler in two parts, as it runs: the checks, which only read, and the
    redemption, which deletes the code and issues tokens. *)
Definition redeem_check (tenantID : string) (req : TokenRequest) : M State authorizationCode :=
  if decide (tr_ClientID req = estr \/ tr_Code req = estr \/ tr_RedirectURI req = estr \/
             tr_CodeVerifier req = estr)
  then fail (ErrService "invalid_request" "missing required parameters for authorization_code grant")
  else
    client <- resolveClient cfg tenantID (tr_ClientID req);;
    if negb (allowsRedirect client (tr_RedirectURI req)) then fail ErrInvalidRedirectURI
    else
      found <- on_codes (code_Get (tr_Code req));;
      match found with
      | None => fail ErrInvalidAuthorizationCode
      | Some code =>
          t <- now;;
          if decide (t > ac_ExpiresAt code)%Z then fail ErrInvalidAuthorizationCode
          else if decide (ac_ClientID code <> tr_ClientID req \/
                          ac_RedirectURI code <> tr_RedirectURI req \/
                          ac_TenantID code <> tenantID)
          then fail ErrInvalidAuthorizationCode
          else match verifyCodeChallenge (ac_CodeChallenge code) (ac_CodeChallengeMethod code)
                       (tr_CodeVerifier req) with
               | Some err => fail err
               | None => ret code
               end
      end.

Definition redeem_finish (tenantID : string) (req : TokenRequest) (code : authorizationCode)
    : M State TokenResponse :=
  ignore (on_codes (code_Delete (tr_Code req)));;
  issueTokens cfg tenantID (tr_ClientID req) (ac_Scope code) "user".

Lemma code_grant_split tenantID req env s :
  handleAuthorizationCodeGrant cfg tenantID req env s =
  bind (redeem_check tenantID req) (redeem_finish tenantID req) env s.
Proof.
  unfold handleAuthorizationCodeGrant, redeem_check, redeem_finish.
  case_decide; [done|]. unfold bind, now, observe, fail, ret.
  destruct (resolveClient _ _ _ _ _) as [[client|e|p] t]; [|done..].
  destruct (negb _); [done|].
  destruct (on_codes _ _ _) as [[[code|]|e|p] t']; [|done..].
  repeat (case_decide; [done|]). by destruct (verifyCodeChallenge _ _ _).
Qed.

(** When the checks pass: the client resolves, has registered the redirect
    URI, and the stored code meets the request when it is looked at. *)
Record redeemable (tenantID : string) (req : TokenRequest) env s (code : authorizationCode)
    (u : St State) : Prop := {
  rd_params : tr_ClientID req <> estr /\ tr_Code req <> estr /\ tr_RedirectURI req <> estr /\
              tr_CodeVerifier req <> estr;
  rd_code : codes_of s !! tr_Code req = Some code;
  rd_client : exists client n,
    resolveClient cfg tenantID (tr_ClientID req) env s = (Ok client, mkSt n (st s)) /\
    tr_RedirectURI req ∈ cc_RedirectURIs client /\
    exists n', on_codes (code_Get (tr_Code req)) env (mkSt n (st s)) = (Ok (Some code), mkSt n' (st s)) /\
      u = mkSt (S n') (st s) /\ code_matches tenantID req code (clock env n')
}.

Lemma redeem_check_iff tenantID req env s code u :
  redeem_check tenantID req env s = (Ok code, u) <-> redeemable tenantID req env s code u.
Proof.
  unfold redeem_check. split.
  - intros H. minv. rename a into client.
    match goal with D : negb (allowsRedirect _ _) = false |- _ =>
      apply negb_false_iff, allowsRedirect_spec in D end.
    pose proof (resolveClient_run _ _ _ _ _ _ E) as Ht. destruct t as [n x]. simpl in Ht. subst x.
    destruct (on_codes_Get (tr_Code req) env (mkSt n (st s))) as [n' En].
    pose proof E0 as Eget. rewrite En in E0. simplify_eq.
    split; [tauto|done|]. exists client, n. split_and!; [done|done|]. exists n'.
    split_and!; [done|done|]. simpl in *. split; [lia|apply dec_stable; tauto..|].
    by apply verifyCodeChallenge_None.
  - intros [Hp Hc (client & n & E & Hr & n' & En & -> & [Hf H1 H2 H3 Hv])].
    rewrite decide_False by tauto. mgo E.
    apply allowsRedirect_spec in Hr as ->. simpl. mgo En. mgo (now_run env (mkSt n' (st s))). simpl.
    rewrite decide_False by lia. rewrite decide_False by (rewrite H1, H2, H3; tauto).
    apply verifyCodeChallenge_None in Hv as ->. done.
Qed.

Lemma code_grant_inv tenantID req env s resp u :
  handleAuthorizationCodeGrant cfg tenantID req env s = (Ok resp, u) ->
  exists code t v, redeemable tenantID req env s code t /\
    codes_of v = delete (tr_Code req) (codes_of s) /\ keeps_refresh s v /\ keeps_rest s v /\
    issued tenantID (tr_ClientID req) (ac_Scope code) "user" env v resp u.
Proof.
  rewrite code_grant_split. intros H. minv. apply redeem_check_iff in E as Hd.
  assert (st t = st s) as Hst by (destruct Hd as [_ _ (? & ? & _ & _ & ? & _ & -> & _)]; done).
  unfold redeem_finish in H. minv.
  destruct (on_codes_Delete (tr_Code req) env t) as (v & Ev & Hc & Hr & Hk).
  rewrite (ignore_run _ _ _ _ _ Ev) in E0. simplify_eq. apply issueTokens_inv in H.
  unfold keeps_refresh, keeps_rest, codes_of, refresh_of in *. rewrite Hst in *.
  eexists _, _, _. split_and!; try done; tauto.
Qed.

(** Property C1. The authorization-code grant succeeds only for a client that
    resolves in the tenant and has registered the redirect URI, on a stored
    code issued to the same client, redirect URI and tenant, not expired when
    it is looked at, whose S256 challenge is the SHA-256 of the presented
    verifier.  It then deletes that code and no other, and stores one refresh
    token for the client with the code's scope. *)
Theorem code_grant_sound tenantID req env s resp u :
  handleAuthorizationCodeGrant cfg tenantID req env s = (Ok resp, u) ->
  exists client code n n',
    resolveClient cfg tenantID (tr_ClientID req) env s = (Ok client, mkSt n (st s)) /\
    tr_RedirectURI req ∈ cc_RedirectURIs client /\
    codes_of s !! tr_Code req = Some code /\
    on_codes (code_Get (tr_Code req)) env (mkSt n (st s)) = (Ok (Some code), mkSt n' (st s)) /\
    (clock env n' <= ac_ExpiresAt code)%Z /\
    ac_ClientID code = tr_ClientID req /\ ac_RedirectURI code = tr_RedirectURI req /\
    ac_TenantID code = tenantID /\ ac_CodeChallengeMethod code = "S256" /\
    ac_CodeChallenge code = base64_RawURL (sha256_Sum256 (tr_CodeVerifier req)) /\
    codes_of u = delete (tr_Code req) (codes_of s) /\
    exists expires, refresh_of u =
      <[ts_RefreshToken resp :=
          mkRefreshTokenEntry (ts_RefreshToken resp) (tr_ClientID req) tenantID (ac_Scope code)
            "user" expires]> (refresh_of s).
Proof.
  intros (code & t & v & [_ Hc (client & n & E & Hr & n' & En & _ & [? ? ? ? [? ?]])] & Hv & Hvr & _ & [_ Hi _ _ Hic _])
    %code_grant_inv.
  exists client, code, n, n'. split_and!; try done.
  - unfold keeps_codes in Hic. congruence.
  - rewrite Hi, Hvr. eauto.
Qed.

(** *** Framing

    An operation on one store keeps every predicate on the others. *)
Ltac frame :=
  let env := fresh "env" in let s := fresh "s" in let HP := fresh "HP" in
  intros env s HP; unfold on_codes, on_refresh, on_revoked, on_clients, on_risk, zoom;
  match goal with |- context [?m env (mkSt ?n ?x)] => destruct (m env (mkSt n x)) end; exact HP.

Hint Extern 2 (preserves _ (on_codes _)) => solve [frame] : effects.
Hint Extern 2 (preserves _ (on_refresh _)) => solve [frame] : effects.
Hint Extern 2 (preserves _ (on_revoked _)) => solve [frame] : effects.
Hint Extern 2 (preserves _ (on_clients _)) => solve [frame] : effects.
Hint Extern 2 (preserves _ (on_risk _)) => solve [frame] : effects.

Lemma readonly_TenantIDFromContext ctx : readonly (TenantIDFromContext ctx : M State string).
Proof. unfold TenantIDFromContext. effects. Qed.

Lemma readonly_now : readonly (now : M State Z).
Proof. done. Qed.
Hint Resolve readonly_TenantIDFromContext readonly_now : effects.

Lemma generateAccessToken_readonly t c sc st : readonly (generateAccessToken cfg t c sc st : M State string).
Proof. unfold generateAccessToken. effects. Qed.

Lemma generateAuthorizationCode_readonly : readonly (generateAuthorizationCode : M State string).
Proof. unfold generateAuthorizationCode. effects. Qed.

Lemma buildAuthorizationRedirect_readonly b c x :
  readonly (buildAuthorizationRedirect b c x : M State string).
Proof. unfold buildAuthorizationRedirect. effects. Qed.
Hint Resolve generateAccessToken_readonly generateAuthorizationCode_readonly
  buildAuthorizationRedirect_readonly : effects.

Lemma redeem_check_readonly tenantID req : readonly (redeem_check tenantID req).
Proof.
  unfold redeem_check. effects. intros env s.
  by destruct (on_codes_Get (tr_Code req) env s) as [? ->].
Qed.

(** Only the authorization endpoint and the code grant touch the codes. *)
Lemma keeps_codes_grants (Q : C -> Prop) tenantID req :
  preserves (fun x : State => Q (au_codes x)) (handleClientCredentialsGrant cfg tenantID req) /\
  preserves (fun x : State => Q (au_codes x)) (handleRefreshTokenGrant cfg tenantID req).
Proof.
  unfold handleClientCredentialsGrant, handleRefreshTokenGrant, issueTokens, generateRefreshToken.
  split; effects.
Qed.

Lemma keeps_codes_Introspect (Q : C -> Prop) token :
  preserves (fun x : State => Q (au_codes x)) (Introspect cfg token).
Proof. unfold Introspect, on_signal_store. effects. Qed.

Lemma keeps_codes_Revoke (Q : C -> Prop) token :
  preserves (fun x : State => Q (au_codes x)) (Revoke token).
Proof. unfold Revoke. effects. Qed.

(** The authorization endpoint, in the same two parts: the checks, which end
    with the entry to store, and the effect. *)
Definition authorize_check (ctx : GinCtx) (req : AuthorizeRequest) : M State authorizationCode :=
  tenantID <- TenantIDFromContext ctx;;
  client <- resolveClient cfg tenantID (ar_ClientID req);;
  if decide (cc_TenantID client <> tenantID) then fail ErrInvalidClient
  else if negb (allowsRedirect client (ar_RedirectURI req)) then fail ErrInvalidRedirectURI
  else match validateScopes client (ar_Scope req) with
  | Some err => fail (newInvalidScopeError (error_string err))
  | None =>
      if decide (ar_CodeChallenge req = estr) then fail ErrMissingCodeChallenge
      else
        let method := if decide (ar_CodeChallengeMethod req = estr) then "S256"
                      else ar_CodeChallengeMethod req in
        if decide (method <> "S256") then fail ErrInvalidCodeChallengeMethod
        else
          code <- generateAuthorizationCode;;
          t <- now;;
          ret (mkAuthorizationCode code (ar_ClientID req) (ar_RedirectURI req) (ar_Scope req) tenantID
                 (ar_CodeChallenge req) method (t + 5 * minute)%Z)
  end.

Definition authorize_finish (req : AuthorizeRequest) (e : authorizationCode) : M State string :=
  ignore (on_codes (code_Save e));;
  buildAuthorizationRedirect (ar_RedirectURI req) (ac_Code e) (ar_State req).

Lemma Authorize_split ctx req env s :
  Authorize cfg ctx req env s = bind (authorize_check ctx req) (authorize_finish req) env s.
Proof.
  unfold Authorize, authorize_check, authorize_finish. unfold bind, now, observe, fail, ret.
  destruct (TenantIDFromContext _ _ _) as [[tenant|e|p] t0]; [|done..].
  destruct (resolveClient _ _ _ _ _) as [[client|e|p] t1]; [|done..].
  case_decide; [done|]. destruct (negb _); [done|].
  destruct (validateScopes _ _); [done|]. repeat (case_decide; [done|]).
  by destruct (generateAuthorizationCode _ _) as [[code|e|p] t2].
Qed.

Lemma authorize_check_readonly ctx req : readonly (authorize_check ctx req).
Proof. unfold authorize_check. effects. Qed.

Lemma Authorize_codes ctx req env s r u :
  Authorize cfg ctx req env s = (r, u) ->
  (codes_of u = codes_of s \/ exists e, codes_of u = <[ac_Code e := e]> (codes_of s)) /\
  keeps_refresh s u /\ keeps_rest s u.
Proof.
  rewrite Authorize_split. intros [(e & t & E1 & E2)|(r' & E1 & _)]%bind_inv.
  - apply (readonly_run _ _ _ _ _ (authorize_check_readonly ctx req)) in E1 as Ht.
    unfold authorize_finish in E2.
    destruct (on_codes_Save e env t) as (v & Ev & Hc & Hr & Hk).
    rewrite (bind_Ok _ _ _ _ _ _ (ignore_run _ _ _ _ _ Ev)) in E2.
    apply (readonly_run _ _ _ _ _ (buildAuthorizationRedirect_readonly _ _ _)) in E2 as Hu.
    unfold keeps_refresh, keeps_rest, codes_of, refresh_of in *. rewrite Hu, <-Ht.
    split_and!; [|exact Hr|apply Hk..]. right. eauto.
  - apply (readonly_run _ _ _ _ _ (authorize_check_readonly ctx req)) in E1.
    unfold keeps_refresh, keeps_rest, codes_of, refresh_of. rewrite E1. auto.
Qed.

(** *** Single use *)

Lemma code_grant_codes tenantID req env s r u :
  handleAuthorizationCodeGrant cfg tenantID req env s = (r, u) ->
  (codes_of u = codes_of s /\ is_ok r = false) \/
  (is_Some (codes_of s !! tr_Code req) /\ codes_of u = delete (tr_Code req) (codes_of s)).
Proof.
  rewrite code_grant_split. intros [(code & t & E1 & E2)|(r' & E1 & _ & Hr)]%bind_inv.
  - right. apply redeem_check_iff in E1 as Hd.
    assert (st t = st s) as Hst by (destruct Hd as [_ _ (? & ? & _ & _ & ? & _ & -> & _)]; done).
    split; [by rewrite (rd_code _ _ _ _ _ _ Hd)|]. unfold redeem_finish in E2.
    destruct (on_codes_Delete (tr_Code req) env t) as (v & Ev & Hc & _).
    rewrite (bind_Ok _ _ _ _ _ _ (ignore_run _ _ _ _ _ Ev)) in E2.
    assert (codes_of u = codes_of v) as ->.
    { eapply (preserves_run (fun x : State => code_view (au_codes x) = codes_of v)); [|exact E2|done].
      unfold issueTokens, generateRefreshToken. effects. }
    unfold codes_of in *. by rewrite Hc, Hst.
  - left. apply (readonly_run _ _ _ _ _ (redeem_check_readonly tenantID req)) in E1.
    unfold codes_of. by rewrite E1.
Qed.

Lemma keeps_codes_run {A} (m : M State A) env s r u :
  (forall Q : C -> Prop, preserves (fun x : State => Q (au_codes x)) m) ->
  m env s = (r, u) -> codes_of u = codes_of s.
Proof.
  intros Hm E.
  apply (preserves_run _ _ _ _ _ _ (Hm (fun x => code_view x = codes_of s)) E eq_refl).
Qed.

(** The requests the service answers. *)
Inductive op : Type :=
| OpAuthorize (ctx : GinCtx) (req : AuthorizeRequest)
| OpToken (ctx : GinCtx) (req : TokenRequest)
| OpIntrospect (token : string)
| OpRevoke (token : string).

(** A step of the service, with whether it answered tokens. *)
Definition step env (o : op) s : bool * St State :=
  match o with
  | OpAuthorize ctx req => let '(_, u) := Authorize cfg ctx req env s in (false, u)
  | OpToken ctx req => let '(r, u) := Token cfg ctx req env s in (is_ok r, u)
  | OpIntrospect token => let '(_, u) := Introspect cfg token env s in (false, u)
  | OpRevoke token => let '(_, u) := Revoke token env s in (false, u)
  end.

Definition redeems (c : string) (o : op) (ok : bool) : nat :=
  match o with
  | OpToken _ req =>
      if decide (tr_GrantType req = "authorization_code" /\ tr_Code req = c) then Nat.b2n ok else 0
  | _ => 0
  end.

(** Runs of the service in which the code [c] was issued [i] times (an
    authorization stored an entry under it) and redeemed [r] times. *)
Inductive run (c : string) env : St State -> St State -> nat -> nat -> Prop :=
| run_nil s : run c env s s 0 0
| run_step s0 s o ok u i r :
    run c env s0 s i r -> step env o s = (ok, u) ->
    run c env s0 u
      (i + if decide (codes_of u !! c = codes_of s !! c) then 0
           else match o with OpAuthorize _ _ => 1 | _ => 0 end)
      (r + redeems c o ok).

Lemma run_step_eq c env s0 s o ok u i r i' r' :
  run c env s0 s i r -> step env o s = (ok, u) ->
  i' = i + (if decide (codes_of u !! c = codes_of s !! c) then 0
            else match o with OpAuthorize _ _ => 1 | _ => 0 end) ->
  r' = r + redeems c o ok -> run c env s0 u i' r'.
Proof. intros Hr Hs -> ->. by apply run_step. Qed.

Definition stored (c : string) s : nat := if decide (is_Some (codes_of s !! c)) then 1 else 0.

Lemma Token_codes ctx req env s r u :
  Token cfg ctx req env s = (r, u) ->
  (codes_of u = codes_of s /\
     (tr_GrantType req = "authorization_code" -> is_ok r = false)) \/
  (tr_GrantType req = "authorization_code" /\ is_Some (codes_of s !! tr_Code req) /\
     codes_of u = delete (tr_Code req) (codes_of s)).
Proof.
  unfold Token. intros [(t & s' & E1 & E2)|(r' & E1 & _ & Hr)]%bind_inv.
  - apply (readonly_run _ _ _ _ _ (readonly_TenantIDFromContext ctx)) in E1.
    assert (codes_of s' = codes_of s) as Hs by (unfold codes_of; by rewrite E1). rewrite <-Hs.
    destruct (decide (tr_GrantType req = "authorization_code")) as [Hg|Hg].
    + apply code_grant_codes in E2 as [[? ?]|[? ?]]; auto.
    + left. split; [|done]. revert E2.
      repeat case_decide; [apply keeps_codes_run; intros Q; apply (keeps_codes_grants Q)..|].
      by intros [= _ ->].
  - left. apply (readonly_run _ _ _ _ _ (readonly_TenantIDFromContext ctx)) in E1.
    unfold codes_of. by rewrite E1.
Qed.

(** Property C2. However authorizations, token requests, introspections and
    revocations follow each other, a code is redeemed for tokens no more often
    than it was issued: once it has been used, it is gone. *)
Theorem code_single_use c env s0 s i r :
  run c env s0 s i r -> r + stored c s <= i + stored c s0.
Proof.
  induction 1 as [|s0 s o ok u i r Hrun IH Hstep]; [lia|].
  enough (redeems c o ok + stored c u <= stored c s +
    if decide (codes_of u !! c = codes_of s !! c) then 0
    else match o with OpAuthorize _ _ => 1 | _ => 0 end) by lia.
  clear IH Hrun. unfold stored, redeems. destruct o as [ctx req|ctx req|token|token]; simpl in Hstep.
  - repeat case_decide; simpl; try lia; congruence.
  - destruct (Token cfg ctx req env s) as [res t] eqn:E. injection Hstep as <- <-.
    apply Token_codes in E as [[-> Hok]|(Hg & Hs & Hd)].
    + rewrite (decide_True (P := codes_of s !! c = codes_of s !! c)) by done.
      destruct (decide (tr_GrantType req = _ /\ _)) as [[Hg _]|_]; [rewrite (Hok Hg)|];
        simpl; case_decide; lia.
    + rewrite Hd. destruct (decide (tr_Code req = c)) as [<-|Hne].
      * rewrite lookup_delete_eq, (decide_True (P := is_Some (codes_of s !! _))) by done.
        rewrite (decide_False (P := is_Some None)) by (by intros []).
        destruct (is_ok res); simpl; repeat case_decide; lia.
      * rewrite lookup_delete_ne by done. repeat case_decide; try tauto; lia.
  - destruct (Introspect cfg token env s) as [res t] eqn:E. injection Hstep as _ <-.
    apply keeps_codes_run in E as ->; [|intros; apply keeps_codes_Introspect]. repeat case_decide; lia.
  - destruct (Revoke token env s) as [res t] eqn:E. injection Hstep as _ <-.
    apply keeps_codes_run in E as ->; [|intros; apply keeps_codes_Revoke]. repeat case_decide; lia.
Qed.

(** *** Two redemptions at once

    Requests run concurrently, and nothing makes the checks and the deletion
    one step. *)

Lemma redeem_finish_run tenantID req code env s :
  can_sign ->
  rand_ok env ->
  exists resp u v, redeem_finish tenantID req code env s = (Ok resp, u) /\
    codes_of v = delete (tr_Code req) (codes_of s) /\
    issued tenantID (tr_ClientID req) (ac_Scope code) "user" env v resp u.
Proof.
  intros Hsign Hrand. unfold redeem_finish.
  destruct (on_codes_Delete (tr_Code req) env s) as (v & Ev & Hc & _).
  destruct (Hsign tenantID (tr_ClientID req) (ac_Scope code) "user"
    (clock env (tick v)) (clock env (S (tick v)))) as [access Ha].
  destruct (Hrand (S (S (tick v))) 32) as (b & Hb & _).
  destruct (issueTokens_run _ _ _ _ _ _ _ _ Ha Hb) as (resp & u & E & Hi).
  exists resp, u, v. by rewrite (bind_Ok _ _ _ _ _ _ (ignore_run _ _ _ _ _ Ev)).
Qed.

(** Two requests that both pass the checks on one code before
    either deletes it both receive tokens with that code's scope, as long as
    signing and the entropy source work: the lookup and the deletion of a code
    are not one step. *)
Theorem code_redeemed_twice tenantID req1 req2 env s code1 s1 code2 s2 :
  can_sign ->
  rand_ok env ->
  tr_Code req1 = tr_Code req2 ->
  redeem_check tenantID req1 env s = (Ok code1, s1) ->
  redeem_check tenantID req2 env s1 = (Ok code2, s2) ->
  code1 = code2 /\ codes_of s !! tr_Code req1 = Some code1 /\
  exists resp1 s3 resp2 s4,
    redeem_finish tenantID req1 code1 env s2 = (Ok resp1, s3) /\
    redeem_finish tenantID req2 code2 env s3 = (Ok resp2, s4) /\
    ts_Scope resp1 = ac_Scope code1 /\ ts_Scope resp2 = ac_Scope code1.
Proof.
  intros Hsign Hrand Hcode E1 E2.
  pose proof (readonly_run _ _ _ _ _ (redeem_check_readonly _ _) E1) as H1.
  apply redeem_check_iff, rd_code in E1, E2. unfold codes_of in E2. rewrite H1, <-Hcode in E2.
  assert (code1 = code2) as <- by (unfold codes_of in E1; congruence).
  destruct (redeem_finish_run tenantID req1 code1 env s2 Hsign Hrand) as (r1 & s3 & v3 & F1 & _ & [_ _ Hs1 _ _ _]).
  destruct (redeem_finish_run tenantID req2 code1 env s3 Hsign Hrand) as (r2 & s4 & v4 & F2 & _ & [_ _ Hs2 _ _ _]).
  split_and!; [done|done|]. by exists r1, s3, r2, s4.
Qed.

(** *** Refresh tokens *)

Lemma refresh_grant_revoked tenantID req env s resp u :
  handleRefreshTokenGrant cfg tenantID req env s = (Ok resp, u) ->
  ~ is_revoked s (tr_RefreshToken req).
Proof.
  unfold handleRefreshTokenGrant. intros H. case_decide; [by minv|].
  apply bind_Ok_inv in H as (b & t & Eb & H). apply on_revoked_IsRevoked in Eb as [Hb _].
  rewrite <-Hb. intros ->. by minv.
Qed.

(** The refresh grant succeeds only on a token that is stored,
    not revoked, of the caller's tenant and not expired when it is looked at.
    The token is spent: it is replaced by a new one for the same client, scope
    and kind of subject, valid for seven days, and no code is touched. *)
Theorem refresh_rotation tenantID req env s resp u :
  handleRefreshTokenGrant cfg tenantID req env s = (Ok resp, u) ->
  ~ is_revoked s (tr_RefreshToken req) /\
  exists stored m n expires,
    refresh_of s !! tr_RefreshToken req = Some stored /\
    on_revoked (rev_IsRevoked (tr_RefreshToken req)) env s = (Ok false, mkSt m (st s)) /\
    on_refresh (refresh_Get (tr_RefreshToken req)) env (mkSt m (st s)) =
       (Ok (Some stored), mkSt n (st s)) /\
    (clock env n <= rt_ExpiresAt stored)%Z /\ rt_TenantID stored = tenantID /\
    refresh_of u =
      <[ts_RefreshToken resp :=
          mkRefreshTokenEntry (ts_RefreshToken resp) (rt_ClientID stored) tenantID (rt_Scope stored)
            (rt_SubjectType stored) expires]> (delete (tr_RefreshToken req) (refresh_of s)) /\
    (exists m, expires = clock env m + 7 * 24 * hour)%Z /\
    codes_of u = codes_of s.
Proof.
  intros H. split; [by apply refresh_grant_revoked in H|].
  unfold handleRefreshTokenGrant in H. minv.
  match goal with E : on_revoked _ _ _ = _ |- _ =>
    pose proof E as Erev; apply on_revoked_IsRevoked in E as [_ Ht] end.
  destruct t as [m x]. simpl in Ht. subst x.
  destruct (on_refresh_Get (tr_RefreshToken req) env (mkSt m (st s))) as [n En].
  match goal with E : on_refresh (refresh_Get _) _ _ = _ |- _ =>
    pose proof E as Eg; rewrite En in E; injection E as Es Et; subst end. simpl in *.
  match goal with E : ignore (on_refresh (refresh_Delete ?k)) _ ?w = _ |- _ =>
    destruct (on_refresh_Delete k env w) as (v & Ev & Hd & Hc & Hk);
    rewrite (ignore_run _ _ _ _ _ Ev) in E; simplify_eq end.
  apply issueTokens_inv in H as [_ Hi _ _ Hic _].
  eexists _, m, n, _. split_and!; [exact Es|exact Erev|exact Eg|lia|by apply dec_stable| |by eauto|].
  - rewrite Hi, Hd. done.
  - unfold keeps_codes in *. by rewrite Hic, Hc.
Qed.

(** *** Revocation *)

Lemma keeps_revoked_Revoke token token' :
  preserves (fun x : State => revoked (au_revoked x) token') (Revoke token).
Proof.
  unfold Revoke. effects.
  eapply preserves_zoom with (Q := fun v => revoked v token'); [done|done|].
  intros env s. apply rev_Revoke_mono.
Qed.

Lemma on_revoked_IsRevoked_readonly token : readonly (on_revoked (rev_IsRevoked token) : M State bool).
Proof. apply readonly_zoom; [apply au_eta|apply rev_IsRevoked_readonly]. Qed.
Hint Resolve on_revoked_IsRevoked_readonly : effects.

Lemma keeps_revoked_step token env o s ok u :
  step env o s = (ok, u) -> is_revoked s token -> is_revoked u token.
Proof.
  intros E Hs. destruct o as [ctx req|ctx req|t|t]; simpl in E.
  - destruct (Authorize cfg ctx req env s) as [r v] eqn:Ea. injection E as _ <-.
    apply Authorize_codes in Ea as (_ & _ & Hr & _). unfold is_revoked. by rewrite Hr.
  - destruct (Token cfg ctx req env s) as [r v] eqn:Ea. injection E as _ <-.
    eapply (preserves_run (fun x : State => revoked (au_revoked x) token)); [|exact Ea|exact Hs].
    unfold Token, handleAuthorizationCodeGrant, handleClientCredentialsGrant,
      handleRefreshTokenGrant, issueTokens, generateRefreshToken. effects.
  - destruct (Introspect cfg t env s) as [r v] eqn:Ea. injection E as _ <-.
    eapply (preserves_run (fun x : State => revoked (au_revoked x) token)); [|exact Ea|exact Hs].
    unfold Introspect, on_signal_store. effects.
  - destruct (Revoke t env s) as [r v] eqn:Ea. injection E as _ <-.
    eapply (preserves_run (fun x : State => revoked (au_revoked x) token)); [|exact Ea|exact Hs].
    apply keeps_revoked_Revoke.
Qed.

(** States reached by answering requests. *)
Inductive reach env : St State -> St State -> Prop :=
| reach_nil s : reach env s s
| reach_step s o ok t u : step env o s = (ok, t) -> reach env t u -> reach env s u.

Lemma reach_revoked token env s u : reach env s u -> is_revoked s token -> is_revoked u token.
Proof. induction 1; [done|]. intros. eauto using keeps_revoked_step. Qed.

(** Once a token has been revoked, it stays revoked: whatever
    requests follow, introspection never reports it active and the refresh
    grant never accepts it. *)
Theorem revoked_for_good token env s s1 s2 :
  Revoke token env s = (Ok tt, s1) -> reach env s1 s2 ->
  (forall r u, Introspect cfg token env s2 = (Ok r, u) -> ir_Active r = false) /\
  (forall tenantID req resp u, tr_RefreshToken req = token ->
     handleRefreshTokenGrant cfg tenantID req env s2 <> (Ok resp, u)).
Proof.
  intros E Hreach.
  assert (is_revoked s1 token) as H1.
  { unfold Revoke in E. apply bind_Ok_inv in E as (x & t & E & E2). destruct x.
    assert (is_revoked t token) as Ht.
    { apply zoom_Ok_inv in E as (v & Ev & ->). by apply rev_Revoke_Ok in Ev. }
    eapply (preserves_run (fun x : State => revoked (au_revoked x) token)); [|exact E2|exact Ht].
    effects. }
  pose proof (reach_revoked _ _ _ _ Hreach H1) as H2. split.
  - intros r u E'. unfold Introspect in E'. apply bind_Ok_inv in E' as (b & t & Eb & E').
    apply on_revoked_IsRevoked in Eb as [Hb _]. apply Hb in H2 as ->. by minv.
  - intros tenantID req resp u <- E'. by apply refresh_grant_revoked in E'.
Qed.

(** *** Introspection of access tokens *)

Lemma access_claims_read tenantID clientID scope subjectType t1 t2 :
  let claims := access_claims tenantID clientID scope subjectType t1 t2 in
  claim_string "sub" claims = clientID /\ claim_string "scope" claims = scope /\
  claim_string "tenant" claims = tenantID /\ claim_string "aud" claims = "client-app" /\
  claim_string "iss" claims = "identity-platform" /\
  claim_number "exp" claims = unix (t1 + hour) /\ claim_number "iat" claims = unix t2.
Proof. done. Qed.

(** Property C9. An access token the service has signed introspects as it
    was issued (client, scope, tenant, times) as long as it is not revoked,
    no critical event has been recorded for its subject, and its hour has not
    passed; from then on it is inactive. Its claims are to be ones that JSON can
    hold: text in UTF-8, times below 2^53 seconds. *)
Theorem introspect_access_token `{!JwtLaws} tenantID clientID scope subjectType env s token s1 s2 m :
  generateAccessToken cfg tenantID clientID scope subjectType env s = (Ok token, s1) ->
  json_exact (JObj (access_claims tenantID clientID scope subjectType (clock env (tick s)) (clock env (S (tick s))))) = true ->
  on_revoked (rev_IsRevoked token) env s2 = (Ok false, mkSt m (st s2)) ->
  (a_signalStore cfg = true -> exists e u,
     on_signal_store (signal_GetLatestCriticalEvent clientID (unix (clock env (S (tick s))) * second))
       env (mkSt (S m) (st s2)) = (Err e, u)) ->
  let exp := unix (clock env (tick s) + hour) in
  let iat := unix (clock env (S (tick s))) in
  (clock env m < exp * second -> exists u, Introspect cfg token env s2 =
     (Ok (mkIntrospectResponse true scope clientID "access_token" exp iat clientID "client-app"
            "identity-platform" tenantID), u))%Z /\
  (exp * second <= clock env m -> refresh_of s2 !! token = None ->
     exists u, Introspect cfg token env s2 = (Ok inactive, u))%Z.
Proof.
  intros [Hsign _]%generateAccessToken_inv Hexact Hrev Hsig exp iat.
  pose proof (jwt_roundtrip _ _ _ exp (clock env m) Hsign eq_refl eq_refl Hexact) as Hparse.
  unfold Introspect. rewrite (bind_Ok _ _ _ _ _ _ Hrev). cbv beta iota.
  rewrite (bind_Ok _ _ _ _ _ _ (now_run env (mkSt m (st s2)))). cbn [tick st].
  split.
  - intros Hlt. rewrite decide_True in Hparse by done. rewrite Hparse.
    destruct (access_claims_read tenantID clientID scope subjectType (clock env (tick s))
      (clock env (S (tick s)))) as (-> & -> & -> & -> & -> & -> & ->). cbv zeta.
    destruct (a_signalStore cfg); [|by eexists].
    destruct (Hsig eq_refl) as (e & u & Eu). unfold bind, attempt. rewrite Eu. by eexists.
  - intros Hge Hnone. rewrite decide_False in Hparse by lia. rewrite Hparse.
    destruct (on_refresh_Get token env (mkSt (S m) (st s2))) as [n En].
    unfold bind, attempt. rewrite En. unfold refresh_of in *. cbn [st]. rewrite Hnone. by eexists.
Qed.

(** *** The client-credentials grant *)

(** Property C10. The client-credentials grant succeeds only for a
    confidential client of the store whose secret hash is set and matches the
    secret presented.  The token's scope is within what the client may ask
    for, there is no refresh token, and no store is touched. *)
Theorem client_credentials_sound tenantID req env s resp u :
  handleClientCredentialsGrant cfg tenantID req env s = (Ok resp, u) ->
  a_clientStore cfg = true /\ st u = st s /\ ts_RefreshToken resp = estr /\
  exists client record n n',
    resolveClient cfg tenantID (tr_ClientID req) env s = (Ok client, mkSt n (st s)) /\
    cc_ClientType client = "confidential" /\
    on_clients (GetClient tenantID (tr_ClientID req)) env (mkSt n (st s)) =
      (Ok record, mkSt n' (st s)) /\
    oc_ClientSecretHash record <> estr /\
    CompareHashAndPassword (oc_ClientSecretHash record) (tr_ClientSecret req) = true /\
    ((tr_Scope req = estr /\ ts_Scope resp = strings_Join (cc_AllowedScopes client) " ") \/
     (ts_Scope resp = tr_Scope req /\
      Forall (fun scope => scope ∈ cc_AllowedScopes client) (strings_Fields (tr_Scope req)))) /\
    SignedString (a_keyID cfg)
      (access_claims tenantID (tr_ClientID req) (ts_Scope resp) "client"
         (clock env n') (clock env (S n'))) = inl (ts_AccessToken resp).
Proof.
  unfold handleClientCredentialsGrant. intros H. case_decide; [by minv|].
  apply bind_Ok_inv in H as (client & t & E & H).
  pose proof (resolveClient_run _ _ _ _ _ _ E) as Ht. destruct t as [n x]. simpl in Ht. subst x.
  destruct (decide (cc_ClientType client <> _)) as [|Hct%dec_stable]; [by minv|].
  case_decide; [by minv|]. destruct (a_clientStore cfg) eqn:Hcs; [|by minv].
  apply bind_Ok_inv in H as (record & t & Er & H). apply map_err_Ok_inv in Er.
  pose proof (readonly_run _ _ _ _ _ (on_clients_readonly _ (GetClient_readonly _ _)) Er) as Ht.
  destruct t as [n' x]. simpl in Ht. subst x.
  case_decide; [by minv|]. destruct (verifyClientSecret _ _) eqn:Hv; [|by minv]. simpl in H.
  apply bind_Ok_inv in H as (scope & t & Es & H).
  assert (t = mkSt n' (st s) /\
    ((tr_Scope req = estr /\ scope = strings_Join (cc_AllowedScopes client) " ") \/
     (scope = tr_Scope req /\
      Forall (fun scope => scope ∈ cc_AllowedScopes client) (strings_Fields (tr_Scope req)))))
    as [-> Hscope].
  { clear H. minv; (split; [done|]); [by left|right]. split; [done|]. by apply validateScopes_None. }
  clear Es. minv. apply generateAccessToken_inv in E0 as [Ha ->].
  split_and!; [done|done|done|]. by exists client, record, n, n'.
Qed.

(** *** The authorization endpoint *)

(** The entry an accepted authorization stores. *)
Record authorized (ctx : GinCtx) (req : AuthorizeRequest) env s (e : authorizationCode)
    (t : St State) : Prop := {
  az_tenant : gc_tenant ctx = Some (ac_TenantID e) /\ ac_TenantID e <> estr;
  az_client : exists client n b,
    resolveClient cfg (ac_TenantID e) (ar_ClientID req) env s = (Ok client, mkSt n (st s)) /\
    cc_TenantID client = ac_TenantID e /\
    ar_RedirectURI req ∈ cc_RedirectURIs client /\
    Forall (fun scope => scope ∈ cc_AllowedScopes client) (strings_Fields (ar_Scope req)) /\
    rand_read env n 32 = Ok b /\ ac_Code e = base64_RawURL b /\
    ac_ExpiresAt e = (clock env (S n) + 5 * minute)%Z;
  az_challenge : ar_CodeChallenge req <> estr;
  az_entry : ac_ClientID e = ar_ClientID req /\ ac_RedirectURI e = ar_RedirectURI req /\
    ac_Scope e = ar_Scope req /\ ac_CodeChallenge e = ar_CodeChallenge req /\
    ac_CodeChallengeMethod e = "S256";
  az_state : st t = st s
}.

Lemma TenantIDFromContext_inv ctx env s tenant t :
  TenantIDFromContext ctx env s = (Ok tenant, t) -> gc_tenant ctx = Some tenant /\ tenant <> estr /\ t = s.
Proof. unfold TenantIDFromContext. intros H. by minv. Qed.

Lemma authorize_check_inv ctx req env s e t :
  authorize_check ctx req env s = (Ok e, t) -> authorized ctx req env s e t.
Proof.
  unfold authorize_check, generateAuthorizationCode, rand_Read. intros H.
  apply bind_Ok_inv in H as (tenant & t0 & E0 & H).
  apply TenantIDFromContext_inv in E0 as (Htn & Hne & ->).
  apply bind_Ok_inv in H as (client & t1 & E1 & H).
  pose proof (resolveClient_run _ _ _ _ _ _ E1) as Ht. destruct t1 as [n x]. simpl in Ht. subst x.
  minv; match goal with D : negb (allowsRedirect _ _) = false |- _ =>
    apply negb_false_iff, allowsRedirect_spec in D end;
  (split; simpl; [by split| |done|split_and!; try done; by apply dec_stable|done]);
  eexists client, n, _; split_and!; try done; try (by apply dec_stable);
  by apply validateScopes_None.
Qed.

(** The redirect: where it leads is the registered URI, with the code (and
    the state, when there is one) set among its query parameters. *)
Lemma buildAuthorizationRedirect_inv baseURI code state env s uri t :
  buildAuthorizationRedirect baseURI code state env s = (Ok uri, t) ->
  exists parsed q, url_Parse baseURI = inl parsed /\ uri = URL_String (with_RawQuery parsed q) /\
    Values_lookup (url_Query q) "code" = [code] /\
    (state <> estr -> Values_lookup (url_Query q) "state" = [state]) /\
    (forall k, k <> "code" -> k <> "state" ->
       Values_lookup (url_Query q) k = Values_lookup (url_Query (u_RawQuery parsed)) k) /\ t = s.
Proof.
  unfold buildAuthorizationRedirect. intros H. minv. eexists _, _. split; [done|]. split; [done|].
  set (vals := if decide (state <> estr) then _ else _).
  assert (NoDup vals.*1) as Hnd.
  { subst vals. pose proof (url_Query_NoDup (u_RawQuery u)).
    unfold Values_Set. case_decide; repeat apply Values_update_NoDup; done. }
  assert (forall k, Values_lookup (url_Query (Values_Encode vals)) k = Values_lookup vals k) as Hq
    by (intros; by apply url_Query_Encode).
  rewrite !Hq. split_and!; [|intros Hs|intros k Hk1 Hk2; rewrite Hq|done]; subst vals;
    unfold Values_Set; case_decide; rewrite ?Values_lookup_update; repeat case_decide; congruence.
Qed.

(** Property C5. The authorization endpoint answers only for a client of the
    request's tenant, a redirect URI the client registered, scopes it may ask
    for and an S256 challenge.  It then stores exactly one entry, under a code
    of 32 fresh random bytes, that expires five minutes later and binds
    client, redirect URI, scope, tenant and challenge; and it redirects to the
    registered URI with that code and the caller's state, every other
    parameter of the URI kept. *)
Theorem authorize_sound ctx req env s uri u :
  Authorize cfg ctx req env s = (Ok uri, u) ->
  exists e t parsed q, authorized ctx req env s e t /\
    codes_of u = <[ac_Code e := e]> (codes_of s) /\ refresh_of u = refresh_of s /\
    url_Parse (ar_RedirectURI req) = inl parsed /\ uri = URL_String (with_RawQuery parsed q) /\
    Values_lookup (url_Query q) "code" = [ac_Code e] /\
    (ar_State req <> estr -> Values_lookup (url_Query q) "state" = [ar_State req]) /\
    (forall k, k <> "code" -> k <> "state" ->
       Values_lookup (url_Query q) k = Values_lookup (url_Query (u_RawQuery parsed)) k).
Proof.
  rewrite Authorize_split. intros H. apply bind_Ok_inv in H as (e & t & E1 & E2).
  apply authorize_check_inv in E1 as Ha. pose proof (az_state _ _ _ _ _ _ Ha) as Ht.
  unfold authorize_finish in E2. destruct (on_codes_Save e env t) as (v & Ev & Hc & Hr & Hk).
  rewrite (bind_Ok _ _ _ _ _ _ (ignore_run _ _ _ _ _ Ev)) in E2.
  apply buildAuthorizationRedirect_inv in E2 as (parsed & q & Hp & -> & H1 & H2 & H3 & ->).
  exists e, t, parsed, q. unfold keeps_refresh, codes_of, refresh_of in *. by rewrite <-Ht.
Qed.

End Facts.

(** ** With the code store in memory *)
Section InMemory.
Context {crypto : Crypto}.
Context {R V O D G : Type}.
Context `{!RefreshTokenStore R, !RevocationStore V, !OAuthStore O, !DeviceStore D, !SignalStore G}.
Context `{!RefreshStoreMap R, !RevocationLaws V, !OAuthStoreLaws O}.
Context (cfg : AuthConfig).

Abbreviation InMemory := (AuthState (gmap string authorizationCode) R V O D G).

(** Requests that leave a code alone: none redeems it, and no authorization
    draws the same one. *)
Definition spares (c : string) env (o : op) (s : St InMemory) : Prop :=
  match o with
  | OpAuthorize ctx req => forall e t, authorize_check cfg ctx req env s = (Ok e, t) -> ac_Code e <> c
  | OpToken _ _ => redeems c o (fst (step cfg env o s)) = 0
  | _ => True
  end.

Inductive meanwhile (c : string) env : St InMemory -> St InMemory -> Prop :=
| meanwhile_nil s : meanwhile c env s s
| meanwhile_step s o ok t u : step cfg env o s = (ok, t) -> spares c env o s -> meanwhile c env t u -> meanwhile c env s u.

(** A redemption that fails leaves the code. *)
Lemma Token_spares c ctx req env (s : St InMemory) r u :
  can_sign cfg -> rand_ok env -> Token cfg ctx req env s = (r, u) -> redeems c (OpToken ctx req) (is_ok r) = 0 ->
  codes_of u !! c = codes_of s !! c.
Proof.
  intros Hsign Hrand E Hno. unfold Token in E. apply bind_inv in E as [(t & s' & E1 & E2)|(r' & E1 & _ & Hr)].
  - apply (readonly_run _ _ _ _ _ (readonly_TenantIDFromContext ctx)) in E1.
    assert (codes_of s' = codes_of s) as <- by (unfold codes_of; by rewrite E1).
    destruct (decide (tr_GrantType req = "authorization_code")) as [Hg|Hg].
    + rewrite code_grant_split in E2. apply bind_inv in E2 as [(code & t' & F1 & F2)|(r' & F1 & _)].
      * destruct (redeem_finish_run cfg t req code env t' Hsign Hrand) as (resp & w & v & F & Hd & Hi).
        pose proof (eq_trans (eq_sym F) F2) as [= <- <-]. cbn in Hno.
        pose proof (readonly_run _ _ _ _ _ (redeem_check_readonly cfg t req) F1) as Hst.
        destruct Hi as [_ _ _ _ Hic _]. unfold keeps_codes in Hic. rewrite Hic, Hd. unfold codes_of at 1. rewrite Hst.
        destruct (decide (tr_Code req = c)) as [Hc|Hc]; [|by rewrite lookup_delete_ne].
        rewrite decide_True in Hno by done. discriminate.
      * apply (readonly_run _ _ _ _ _ (redeem_check_readonly cfg t req)) in F1. unfold codes_of. by rewrite F1.
    + f_equal. revert E2. repeat case_decide; [apply keeps_codes_run; intros Q; apply (keeps_codes_grants cfg Q)..|].
      by intros [= _ ->].
  - apply (readonly_run _ _ _ _ _ (readonly_TenantIDFromContext ctx)) in E1. unfold codes_of. by rewrite E1.
Qed.

Lemma spares_step c env o (s : St InMemory) ok u :
  can_sign cfg -> rand_ok env -> step cfg env o s = (ok, u) -> spares c env o s -> codes_of u !! c = codes_of s !! c.
Proof.
  intros Hsign Hrand Hstep Hs. destruct o as [ctx req|ctx req|token|token]; simpl in Hstep.
  - destruct (Authorize cfg ctx req env s) as [res t] eqn:E. injection Hstep as _ <-. rewrite Authorize_split in E.
    apply bind_inv in E as [(e & t' & E1 & E2)|(r' & E1 & _)].
    + pose proof (readonly_run _ _ _ _ _ (authorize_check_readonly cfg ctx req) E1) as Hst. unfold authorize_finish in E2.
      destruct (on_codes_Save e env t') as (v & Ev & Hc & _). rewrite (bind_Ok _ _ _ _ _ _ (ignore_run _ _ _ _ _ Ev)) in E2.
      pose proof (readonly_run _ _ _ _ _ (buildAuthorizationRedirect_readonly _ _ _) E2) as Hu.
      unfold codes_of in *. rewrite Hu, Hc, Hst. apply lookup_insert_ne. by eapply Hs.
    + apply (readonly_run _ _ _ _ _ (authorize_check_readonly cfg ctx req)) in E1. unfold codes_of. by rewrite E1.
  - simpl in Hs. destruct (Token cfg ctx req env s) as [res t] eqn:E. injection Hstep as _ <-. by eapply Token_spares.
  - destruct (Introspect cfg token env s) as [res t] eqn:E. injection Hstep as _ <-.
    apply keeps_codes_run in E as ->; [done|intros; apply keeps_codes_Introspect].
  - destruct (Revoke token env s) as [res t] eqn:E. injection Hstep as _ <-.
    apply keeps_codes_run in E as ->; [done|intros; apply keeps_codes_Revoke].
Qed.

Lemma meanwhile_code c env s u :
  can_sign cfg -> rand_ok env -> meanwhile c env s u -> codes_of u !! c = codes_of s !! c.
Proof. intros Hs Hr. induction 1 as [|s o ok t u E Hsp _ IH]; [done|]. rewrite IH. by eapply spares_step. Qed.

(** Property C4. A code the authorization endpoint hands out can be redeemed:
    with the code store in memory, whatever other requests are answered in
    between, the client that presents it with the redirect URI it was issued for
    and the verifier of its challenge, before the five minutes are over, receives
    tokens with the authorized scope. In between nobody is to have redeemed the
    code or drawn the same one. *)
Theorem authorize_then_token ctx req env (s : St InMemory) uri u :
  can_sign cfg -> rand_ok env ->
  Authorize cfg ctx req env s = (Ok uri, u) ->
  exists e t parsed q, authorized cfg ctx req env s e t /\
    uri = URL_String (with_RawQuery parsed q) /\ Values_lookup (url_Query q) "code" = [ac_Code e] /\
    forall w ctx' treq client n,
      meanwhile (ac_Code e) env u w -> gc_tenant ctx' = gc_tenant ctx -> tr_GrantType treq = "authorization_code" ->
      tr_Code treq = ac_Code e -> tr_ClientID treq = ar_ClientID req -> ar_ClientID req <> estr ->
      tr_RedirectURI treq = ar_RedirectURI req -> ar_RedirectURI req <> estr ->
      tr_CodeVerifier treq <> estr ->
      base64_RawURL (sha256_Sum256 (tr_CodeVerifier treq)) = ar_CodeChallenge req ->
      resolveClient cfg (ac_TenantID e) (ar_ClientID req) env w = (Ok client, mkSt n (st w)) ->
      ar_RedirectURI req ∈ cc_RedirectURIs client ->
      (clock env n <= ac_ExpiresAt e)%Z ->
      exists resp v, Token cfg ctx' treq env w = (Ok resp, v) /\ ts_Scope resp = ar_Scope req.
Proof.
  intros Hsign Hrand H. rewrite Authorize_split in H. apply bind_Ok_inv in H as (e & t & E1 & E2).
  apply authorize_check_inv in E1 as Ha. unfold authorize_finish in E2.
  destruct (on_codes_Save e env t) as (v & Ev & Hc & Hr & Hk).
  rewrite (bind_Ok _ _ _ _ _ _ (ignore_run _ _ _ _ _ Ev)) in E2.
  apply buildAuthorizationRedirect_inv in E2 as (parsed & q & _ & -> & H1 & _ & _ & ->).
  exists e, t, parsed, q. split_and!; [done|done|done|].
  intros w ctx' treq client n Hm Hctx Hgrant Hcode Hcl Hne1 Hru Hne2 Hne3 Hpkce Eres Hin Hfresh.
  apply meanwhile_code in Hm; [|done..]. rewrite Hc, lookup_insert_eq in Hm.
  destruct Ha as [[Hten Htne] (cl & m & b & _ & _ & _ & _ & Hb & Hcb & _) _ (A1 & A2 & A3 & A4 & A5) _].
  assert (redeem_check cfg (ac_TenantID e) treq env w = (Ok e, mkSt (S n) (st w))) as Echeck.
  { apply redeem_check_iff. split.
    - rewrite Hcode, Hcl, Hru, Hcb. split_and!; try done. apply base64_RawURL_nonempty.
      destruct (Hrand m 32) as (b' & Hb' & Hlen). rewrite Hb in Hb'. injection Hb' as <-.
      by intros ->.
    - by rewrite Hcode.
    - exists client, n. rewrite Hcl, Hru. split_and!; [done|done|]. exists n. rewrite Hcode. split_and!; [|done|].
      + unfold on_codes, zoom. cbn. unfold codes_of in Hm. cbn in Hm. rewrite Hm. by rewrite au_eta.
      + by split; rewrite ?Hcl, ?Hru, ?Hpkce. }
  destruct (redeem_finish_run cfg (ac_TenantID e) treq e env (mkSt (S n) (st w)) Hsign Hrand)
    as (resp & x & v' & Efin & _ & Hi).
  exists resp, x. unfold Token. rewrite (bind_Ok _ _ _ _ (ac_TenantID e) w); cycle 1.
  { unfold TenantIDFromContext. rewrite Hctx, Hten. by rewrite decide_False. }
  rewrite decide_True by done. rewrite code_grant_split, (bind_Ok _ _ _ _ _ _ Echeck). split; [done|].
  destruct Hi as [_ _ -> _ _ _]. done.
Qed.
End InMemory.

(** ** With the stores cmd/authsvc configures *)
Section Deployed.
Context {crypto : Crypto} {V O D : Type}.
Context `{!RevocationStore V, !OAuthStore O, !DeviceStore D}.
Context (cfg : AuthConfig).

Abbreviation Deployed :=
  (AuthState (list authorizationCode) (list refreshTokenEntry) V O D SignalDb).

(** With the Postgres stores, neither the authorization-code nor
    the refresh-token grant can ever succeed: [sqlx] finds no destination for
    the underscored columns in the untagged structs. *)
Theorem sql_grants_fail ctx req env (s : St Deployed) resp u :
  sqlx_strict env ->
  tr_GrantType req = "authorization_code" \/ tr_GrantType req = "refresh_token" ->
  Token cfg ctx req env s <> (Ok resp, u).
Proof.
  intros Hstrict Hg H. unfold Token in H. apply bind_Ok_inv in H as (tenant & t & _ & H).
  destruct Hg as [Hg|Hg]; rewrite Hg in H; simpl in H.
  - unfold handleAuthorizationCodeGrant in H. minv;
      match goal with E : on_codes _ _ _ = _ |- _ => apply zoom_Ok_inv in E as (x & Ex & _) end;
      by apply SQLAuthorizationCodeStore_Get_fails in Ex.
  - unfold handleRefreshTokenGrant in H. minv;
      match goal with E : on_refresh _ _ _ = _ |- _ => apply zoom_Ok_inv in E as (x & Ex & _) end;
      by apply SQLRefreshTokenStore_Get_fails in Ex.
Qed.

(** A security event recorded for a subject after its token was issued makes the
    token inactive at the next introspection (continuous access evaluation), in a
    database that has the table of events. *)
Theorem event_deactivates token claims event rows env (s : St Deployed) m :
  db_up env -> a_signalStore cfg = true ->
  on_revoked (rev_IsRevoked token) env s = (Ok false, mkSt m (st s)) ->
  jwt_Parse (clock env m) token = Some claims ->
  snd (au_risk (st s)) = Some rows -> event ∈ rows -> se_SubjectID event = claim_string "sub" claims ->
  (claim_number "iat" claims * second < se_EventTime event)%Z ->
  exists u, Introspect cfg token env s = (Ok inactive, u).
Proof.
  intros Hup Hsig Hrev Hparse Hrows Hin Hsub Htime. unfold Introspect.
  rewrite (bind_Ok _ _ _ _ _ _ Hrev). cbv beta iota.
  rewrite (bind_Ok _ _ _ _ _ _ (now_run env (mkSt m (st s)))). cbn [tick st].
  rewrite Hparse, Hsig. cbv zeta.
  unfold bind at 1, attempt, on_signal_store, on_risk, on_signals, zoom. cbn [tick st signal_GetLatestCriticalEvent signalRepo_store].
  rewrite Hrows. unfold signalRepo_GetLatestCriticalEvent, bind, in_security_events, sql_select. cbn [st tick].
  rewrite statement_up by done. cbn [tick st]. destruct (order_by_desc _ _) as [|e0 l] eqn:El; [|by eexists].
  exfalso. apply (f_equal length) in El. unfold order_by_desc in El.
  rewrite (Permutation_length (sort_by_Permutation _ _)) in El.
  apply nil_length_inv, reorder_nil in El. eapply elem_of_nil. rewrite <-El. apply filter_bool_elem.
  split; [exact Hin|]. rewrite bool_decide_eq_true_2 by done. by apply Z.ltb_lt.
Qed.

(** The configuration without a signal store. *)
Definition unsignalled : AuthConfig := mkAuthConfig (a_clientStore cfg) (a_clients cfg) false (a_keyID cfg).

(** Without the table, introspection answers as if there were none. *)
Lemma Introspect_unsignalled token env (s : St Deployed) :
  snd (au_risk (st s)) = None -> fst (Introspect cfg token env s) = fst (Introspect unsignalled token env s).
Proof.
  intros Hnone. unfold Introspect. cbn [a_signalStore unsignalled].
  destruct (on_revoked (rev_IsRevoked token) env s) as [[b|e|p] t] eqn:E; [|unfold bind; by rewrite E..].
  rewrite !(bind_Ok _ _ _ _ _ _ E).
  assert (snd (au_risk (st t)) = None) as Ht.
  { unfold on_revoked, zoom in E. destruct (rev_IsRevoked _ _ _). injection E as _ <-. exact Hnone. }
  destruct b; [done|]. rewrite !(bind_Ok _ _ _ _ _ _ (now_run env t)).
  destruct (jwt_Parse _ token) as [claims|]; [|done]. destruct (a_signalStore cfg); [|done]. cbv zeta.
  unfold on_signal_store, on_risk, on_signals, bind, attempt, zoom. cbn [tick st signal_GetLatestCriticalEvent signalRepo_store].
  rewrite Ht. unfold signalRepo_GetLatestCriticalEvent, bind, in_security_events, statement. cbn [st tick].
  by destruct (db_fault _ _).
Qed.
End Deployed.
