(* ===== verification/TokenSpec.v ===== *)
(** * The token service as an abstract machine

    What the OAuth core promises its clients, without stores, signatures or
    handlers: a machine over the outstanding codes, the outstanding refresh
    tokens and the revoked tokens. The operations of AuthService.v refine it,
    step by step, and what holds of every run of the machine, that each token
    descends from an authorization, holds of the service. *)
From S2P Require Import Prelude Bcrypt GoStd GoUrl Sha256 Sql Http.
From S2P Require Import Middleware OAuthClient AuthClient TokenStores Risk AuthService AuthFacts.
Local Open Scope go_scope.

(** ** The machine *)

Record Grants : Type := mkGrants {
  gr_codes : gmap string authorizationCode;
  gr_refresh : gmap string refreshTokenEntry;
  gr_revoked : string -> Prop
}.

(** What can happen: a code is handed out; a code or a refresh token is
    exchanged for a new refresh token, or spent for nothing; a token is revoked;
    nothing. *)
Inductive event : Type :=
| Authorized (e : authorizationCode)
| Exchanged (code : string) (e : authorizationCode) (new : refreshTokenEntry)
| Refreshed (token : string) (old new : refreshTokenEntry)
| SpentCode (code : string)
| SpentRefresh (token : string)
| Revoked (token : string)
| Quiet.

(** The new token of an exchange: for the same client, tenant and scope. *)
Definition descends_code (e : authorizationCode) (new : refreshTokenEntry) : Prop :=
  rt_ClientID new = ac_ClientID e /\ rt_TenantID new = ac_TenantID e /\ rt_Scope new = ac_Scope e /\
  rt_SubjectType new = "user".

Definition descends_refresh (old new : refreshTokenEntry) : Prop :=
  rt_ClientID new = rt_ClientID old /\ rt_TenantID new = rt_TenantID old /\ rt_Scope new = rt_Scope old /\
  rt_SubjectType new = rt_SubjectType old.

(** A step at the time [t]. Revoked tokens stay revoked; a new refresh token is
    good for seven days from some time [t']. *)
Inductive spec_step (t : Z) : Grants -> event -> Grants -> Prop :=
| spec_authorize c r v e :
    ac_ExpiresAt e = (t + 5 * minute)%Z -> ac_CodeChallengeMethod e = "S256" ->
    spec_step t (mkGrants c r v) (Authorized e) (mkGrants (<[ac_Code e := e]> c) r v)
| spec_exchange c r v code e new t' :
    c !! code = Some e -> (t <= ac_ExpiresAt e)%Z ->
    descends_code e new -> rt_ExpiresAt new = (t' + 7 * 24 * hour)%Z ->
    spec_step t (mkGrants c r v) (Exchanged code e new) (mkGrants (delete code c) (<[rt_Token new := new]> r) v)
| spec_refresh c r v token old new t' :
    r !! token = Some old -> ~ v token -> (t <= rt_ExpiresAt old)%Z ->
    descends_refresh old new -> rt_ExpiresAt new = (t' + 7 * 24 * hour)%Z ->
    spec_step t (mkGrants c r v) (Refreshed token old new) (mkGrants c (<[rt_Token new := new]> (delete token r)) v)
| spec_spent_code c r v code :
    is_Some (c !! code) ->
    spec_step t (mkGrants c r v) (SpentCode code) (mkGrants (delete code c) r v)
| spec_spent_refresh c r v token :
    is_Some (r !! token) -> ~ v token ->
    spec_step t (mkGrants c r v) (SpentRefresh token) (mkGrants c (delete token r) v)
| spec_revoke c r v v' token :
    (forall x, v x -> v' x) -> v' token ->
    spec_step t (mkGrants c r v) (Revoked token) (mkGrants c (delete token r) v')
| spec_quiet c r v v' :
    (forall x, v x -> v' x) ->
    spec_step t (mkGrants c r v) Quiet (mkGrants c r v').

(** Runs, each step at a time the clock shows. *)
Inductive spec_run (env : Env) : Grants -> list event -> Grants -> Prop :=
| spec_run_nil g : spec_run env g [] g
| spec_run_snoc g h i evs ev n :
    spec_run env g evs h -> spec_step (clock env n) h ev i -> spec_run env g (evs ++ [ev]) i.

(** ** Descent

    What is outstanding goes back to an authorization of the run. *)
Definition from_code (evs : list event) (client tenant scope : string) : Prop :=
  exists e, Authorized e ∈ evs /\ ac_ClientID e = client /\ ac_TenantID e = tenant /\ ac_Scope e = scope.

Record traced (evs : list event) (g : Grants) : Prop := {
  tr_codes : forall k e, gr_codes g !! k = Some e -> Authorized e ∈ evs;
  tr_refresh : forall k r, gr_refresh g !! k = Some r ->
    from_code evs (rt_ClientID r) (rt_TenantID r) (rt_Scope r) /\ rt_SubjectType r = "user"
}.

Lemma from_code_app evs l client tenant scope :
  from_code evs client tenant scope -> from_code (evs ++ l) client tenant scope.
Proof. intros (e & He & H). exists e. split; [set_solver|done]. Qed.

Lemma spec_step_traced t evs g ev h : spec_step t g ev h -> traced evs g -> traced (evs ++ [ev]) h.
Proof.
  intros Hs [Hc Hr].
  assert (forall k e, gr_codes g !! k = Some e -> Authorized e ∈ evs ++ [ev]) as Hc' by set_solver.
  assert (forall k r, gr_refresh g !! k = Some r ->
    from_code (evs ++ [ev]) (rt_ClientID r) (rt_TenantID r) (rt_Scope r) /\ rt_SubjectType r = "user") as Hr'.
  { intros k r Hk. destruct (Hr k r Hk). split; [by apply from_code_app|done]. }
  destruct Hs as [c r v e _ _|c r v code e new t' He _ (Hcl & Ht & Hsc & Hty) _|c r v token old new t' Ho _ _ (Hcl & Ht & Hsc & Hty) _
    |c r v code _|c r v token _ _|c r v v' token _ _|c r v v' _]; cbn in *; split; cbn;
    try done; try (intros k x [_ Hk]%lookup_delete_Some; by eauto);
    intros k x [[_ <-]|[_ Hk]]%lookup_insert_Some; try (by eauto).
  - set_solver.
  - split; [|done]. exists e. split_and!; eauto.
  - rewrite Hcl, Ht, Hsc, Hty. by eapply Hr'.
  - apply lookup_delete_Some in Hk as [_ Hk]. eauto.
Qed.

(** ** The service *)

Section Service.
Context {crypto : Crypto}.
Context {C R V O D G : Type}.
Context `{!AuthorizationCodeStore C, !RefreshTokenStore R, !RevocationStore V, !OAuthStore O,
          !DeviceStore D, !SignalStore G}.
Context `{!CodeStoreMap C, !RefreshStoreMap R, !RevocationLaws V, !OAuthStoreLaws O}.
Context (cfg : AuthConfig).

Abbreviation State := (AuthState C R V O D G).
Implicit Types (s : St State) (env : Env).

(** The state of the machine a state of the service stands for. *)
Definition view s : Grants := mkGrants (codes_of s) (refresh_of s) (is_revoked s).

(** What a caller is answered. *)
Inductive answer : Type :=
| AnsRedirect (uri : string)
| AnsTokens (resp : TokenResponse)
| AnsIntrospect (resp : IntrospectResponse)
| AnsRevoked
| AnsFailed.

Definition answer_of {A} (f : A -> answer) (r : Res A) : answer :=
  match r with Ok a => f a | _ => AnsFailed end.

Definition serve_op env (o : op) s : answer * St State :=
  match o with
  | OpAuthorize ctx req => let '(r, u) := Authorize cfg ctx req env s in (answer_of AnsRedirect r, u)
  | OpToken ctx req => let '(r, u) := Token cfg ctx req env s in (answer_of AnsTokens r, u)
  | OpIntrospect token => let '(r, u) := Introspect cfg token env s in (answer_of AnsIntrospect r, u)
  | OpRevoke token => let '(r, u) := Revoke token env s in (answer_of (fun _ => AnsRevoked) r, u)
  end.

(** The access token of a response carries these claims. *)
Definition access_for (tenant client scope subjectType : string) (resp : TokenResponse) : Prop :=
  exists t1 t2, SignedString (a_keyID cfg) (access_claims tenant client scope subjectType t1 t2) = inl (ts_AccessToken resp).

(** What a request and its answer say about the step of the machine: an
    exchange is answered only to the client, redirect URI, tenant and PKCE
    verifier of the code, with the code's scope; a refresh to the tenant of the
    token, with its scope; no token is reported active once it is revoked; and
    whatever is answered otherwise is no step, or spends what was presented. *)
Inductive observed env s : op -> answer -> event -> Prop :=
| obs_authorize ctx req e t uri :
    authorized cfg ctx req env s e t -> observed env s (OpAuthorize ctx req) (AnsRedirect uri) (Authorized e)
| obs_unredirected ctx req e t err :
    authorized cfg ctx req env s e t -> url_Parse (ar_RedirectURI req) = inr err ->
    observed env s (OpAuthorize ctx req) AnsFailed (Authorized e)
| obs_exchange ctx req resp e new :
    tr_GrantType req = "authorization_code" -> gc_tenant ctx = Some (ac_TenantID e) ->
    tr_ClientID req = ac_ClientID e -> tr_RedirectURI req = ac_RedirectURI e ->
    ac_CodeChallenge e = base64_RawURL (sha256_Sum256 (tr_CodeVerifier req)) ->
    ts_RefreshToken resp = rt_Token new -> ts_Scope resp = ac_Scope e ->
    access_for (ac_TenantID e) (ac_ClientID e) (ac_Scope e) "user" resp ->
    observed env s (OpToken ctx req) (AnsTokens resp) (Exchanged (tr_Code req) e new)
| obs_refresh ctx req resp old new :
    tr_GrantType req = "refresh_token" -> gc_tenant ctx = Some (rt_TenantID old) ->
    ts_RefreshToken resp = rt_Token new -> ts_Scope resp = rt_Scope old ->
    access_for (rt_TenantID old) (rt_ClientID old) (rt_Scope old) (rt_SubjectType old) resp ->
    observed env s (OpToken ctx req) (AnsTokens resp) (Refreshed (tr_RefreshToken req) old new)
| obs_client_credentials ctx req resp :
    tr_GrantType req = "client_credentials" -> ts_RefreshToken resp = estr ->
    observed env s (OpToken ctx req) (AnsTokens resp) Quiet
| obs_spent_code ctx req :
    tr_GrantType req = "authorization_code" ->
    observed env s (OpToken ctx req) AnsFailed (SpentCode (tr_Code req))
| obs_spent_refresh ctx req :
    tr_GrantType req = "refresh_token" ->
    observed env s (OpToken ctx req) AnsFailed (SpentRefresh (tr_RefreshToken req))
| obs_introspect token resp :
    (ir_Active resp = true -> ~ is_revoked s token) ->
    observed env s (OpIntrospect token) (AnsIntrospect resp) Quiet
| obs_revoke token : observed env s (OpRevoke token) AnsRevoked (Revoked token)
| obs_failed o : observed env s o AnsFailed Quiet.

(** *** Steps *)

Lemma view_eq s u : st u = st s -> view u = view s.
Proof. unfold view, codes_of, refresh_of, is_revoked. by intros ->. Qed.

Lemma quiet_eq t s u : st u = st s -> spec_step t (view s) Quiet (view u).
Proof. intros ->%view_eq. by constructor. Qed.

(** Tokens that are not issued leave nothing behind. *)
Lemma issueTokens_failed tenantID clientID scope subjectType env s r u :
  issueTokens cfg tenantID clientID scope subjectType env s = (r, u) -> is_ok r = false -> st u = st s.
Proof.
  unfold issueTokens. intros [(access & t & E1 & E2)|(r' & E1 & _)]%bind_inv Hr.
  - apply (readonly_run _ _ _ _ _ (generateAccessToken_readonly cfg _ _ _ _)) in E1 as Ht. rewrite <-Ht.
    apply bind_inv in E2 as [(refresh & v & _ & E3)|(r' & E2 & Hf & _)]; [by injection E3 as <- _|].
    unfold generateRefreshToken in E2. apply bind_inv in E2 as [(b & v & E2 & E3)|(r0 & E2 & _)].
    + cbv zeta in E3. rewrite (bind_Ok _ _ _ _ _ _ (now_run env v)) in E3.
      match type of E3 with bind (on_refresh (refresh_Save ?e)) _ _ ?w = _ =>
        destruct (on_refresh_Save e env w) as (x & Ex & _); rewrite (bind_Ok _ _ _ _ _ _ Ex) in E3 end.
      by injection E3 as <- _.
    + by eapply (readonly_run _ _ _ _ _ (readonly_rand_Read 32)) in E2.
  - by eapply (readonly_run _ _ _ _ _ (generateAccessToken_readonly cfg _ _ _ _)) in E1.
Qed.

Lemma Authorize_step ctx req env s r u :
  Authorize cfg ctx req env s = (r, u) ->
  exists n ev, spec_step (clock env n) (view s) ev (view u) /\
    observed env s (OpAuthorize ctx req) (answer_of AnsRedirect r) ev.
Proof.
  rewrite Authorize_split. intros [(e & t & E1 & E2)|(r' & E1 & _ & Hr)]%bind_inv.
  - apply authorize_check_inv in E1 as Ha. pose proof Ha as [_ (client & n & b & _ & _ & _ & _ & _ & _ & Hexp) _ (_ & _ & _ & _ & Hm) Ht].
    unfold authorize_finish in E2. destruct (on_codes_Save e env t) as (v & Ev & Hc & Hk & Hrev & _).
    rewrite (bind_Ok _ _ _ _ _ _ (ignore_run _ _ _ _ _ Ev)) in E2.
    apply (readonly_run _ _ _ _ _ (buildAuthorizationRedirect_readonly _ _ _)) in E2 as Hu.
    exists (S n), (Authorized e). split.
    + rewrite (view_eq v u) by done. rewrite <-(view_eq s t) by done. unfold view. rewrite Hc, Hk.
      unfold is_revoked. rewrite Hrev. by constructor.
    + destruct r as [uri|err|p]; [by eapply obs_authorize|..]; unfold buildAuthorizationRedirect in E2;
        destruct (url_Parse _) eqn:Ep; try done; by eapply obs_unredirected.
  - apply (readonly_run _ _ _ _ _ (authorize_check_readonly cfg ctx req)) in E1. exists 0, Quiet.
    split; [by apply quiet_eq|]. destruct r; [done|constructor..].
Qed.

(** The new refresh token of a response, in the view. *)
Lemma issued_view tenantID clientID scope subjectType env s resp u :
  issued cfg tenantID clientID scope subjectType env s resp u ->
  exists new t', rt_Token new = ts_RefreshToken resp /\ rt_ClientID new = clientID /\ rt_TenantID new = tenantID /\
    rt_Scope new = scope /\ rt_SubjectType new = subjectType /\ rt_ExpiresAt new = (t' + 7 * 24 * hour)%Z /\
    view u = mkGrants (codes_of s) (<[rt_Token new := new]> (refresh_of s)) (is_revoked s) /\
    access_for tenantID clientID scope subjectType resp.
Proof.
  intros [Ha He _ _ Hc (Hv & _)]. eexists (mkRefreshTokenEntry _ _ _ _ _ _), _. split_and!; [done..| |eexists _, _; exact Ha].
  unfold view, is_revoked. rewrite He, Hv. unfold keeps_codes in Hc. by rewrite Hc.
Qed.

Lemma code_grant_step ctx tenantID req env s r u :
  gc_tenant ctx = Some tenantID -> tr_GrantType req = "authorization_code" ->
  handleAuthorizationCodeGrant cfg tenantID req env s = (r, u) ->
  exists n ev, spec_step (clock env n) (view s) ev (view u) /\
    observed env s (OpToken ctx req) (answer_of AnsTokens r) ev.
Proof.
  intros Hctx Hg H. destruct (is_ok r) eqn:Hok.
  - destruct r as [resp| |]; [|done..]. apply code_grant_inv in H as (e & t & v & Hd & Hc & Hrf & (Hrv & _) & Hi).
    pose proof (is_scope _ _ _ _ _ _ _ _ _ Hi) as Hsc.
    apply issued_view in Hi as (new & t' & Htok & Hcl & Htn & Hscope & Hty & Hexp & Hview & Hacc).
    destruct Hd as [_ Hcode (client & n & _ & _ & n' & _ & _ & [Hf H1 H2 H3 [_ H4]])].
    exists n', (Exchanged (tr_Code req) e new). split.
    + rewrite Hview, Hc, Hrf. unfold is_revoked. rewrite Hrv. eapply spec_exchange; [done|done|split_and!; congruence|done].
    + eapply obs_exchange; try done; [by rewrite H3|by rewrite H3, H1].
  - rewrite code_grant_split in H. apply bind_inv in H as [(e & t & E1 & E2)|(r' & E1 & _)].
    + apply redeem_check_iff in E1 as Hd.
      assert (st t = st s) as Hst by (destruct Hd as [_ _ (? & ? & _ & _ & ? & _ & -> & _)]; done).
      unfold redeem_finish in E2. destruct (on_codes_Delete (tr_Code req) env t) as (v & Ev & Hc & Hrf & Hrv & _).
      rewrite (bind_Ok _ _ _ _ _ _ (ignore_run _ _ _ _ _ Ev)) in E2.
      apply issueTokens_failed in E2 as Hu; [|done]. exists 0, (SpentCode (tr_Code req)). split.
      * rewrite (view_eq v u) by done. rewrite <-(view_eq s t) by done. unfold view. rewrite Hc, Hrf. unfold is_revoked. rewrite Hrv.
        constructor. apply rd_code in Hd. unfold codes_of in *. rewrite Hst, Hd. done.
      * destruct r; [done|by constructor..].
    + apply (readonly_run _ _ _ _ _ (redeem_check_readonly cfg tenantID req)) in E1. exists 0, Quiet.
      split; [by apply quiet_eq|]. destruct r; [done|constructor..].
Qed.

(** A request that is refused without an effect. *)
Lemma refused_step o env s (r : Res TokenResponse) u :
  st u = st s -> is_ok r = false ->
  exists n ev, spec_step (clock env n) (view s) ev (view u) /\ observed env s o (answer_of AnsTokens r) ev.
Proof. intros Hu Hr. exists 0, Quiet. split; [by apply quiet_eq|]. destruct r; [done|constructor..]. Qed.

Lemma refresh_grant_step ctx tenantID req env s r u :
  gc_tenant ctx = Some tenantID -> tr_GrantType req = "refresh_token" ->
  handleRefreshTokenGrant cfg tenantID req env s = (r, u) ->
  exists n ev, spec_step (clock env n) (view s) ev (view u) /\
    observed env s (OpToken ctx req) (answer_of AnsTokens r) ev.
Proof.
  intros Hctx Hg H. unfold handleRefreshTokenGrant in H.
  case_decide; [by apply refused_step; injection H as <- <-|].
  apply bind_inv in H as [(b & t & Eb & H)|(r' & Eb & _ & Hr)]; cycle 1.
  { apply refused_step; [|done]. by eapply readonly_run in Eb; [|apply on_revoked_IsRevoked_readonly]. }
  apply on_revoked_IsRevoked in Eb as [Hb Ht].
  destruct b; [by apply refused_step; injection H as <- <-|].
  destruct (on_refresh_Get (tr_RefreshToken req) env t) as (n & En). rewrite (bind_Ok _ _ _ _ _ _ En) in H.
  destruct (refresh_of t !! tr_RefreshToken req) as [old|] eqn:Hold; [|by apply refused_step; injection H as <- <-].
  rewrite (bind_Ok _ _ _ _ _ _ (now_run env (mkSt n (st t)))) in H. cbn [tick st] in H.
  case_decide as Hexp; [by apply refused_step; injection H as <- <-|].
  case_decide as Htn; [by apply refused_step; injection H as <- <-|].
  destruct (on_refresh_Delete (tr_RefreshToken req) env (mkSt (S n) (st t))) as (v & Ev & Hd & Hc & Hrv & _).
  rewrite (bind_Ok _ _ _ _ _ _ (ignore_run _ _ _ _ _ Ev)) in H.
  assert (view v = mkGrants (codes_of s) (delete (tr_RefreshToken req) (refresh_of s)) (is_revoked s)) as Hv.
  { unfold view, keeps_codes, is_revoked, codes_of, refresh_of in *. cbn [st] in *. by rewrite Hd, Hc, Hrv, Ht. }
  assert (refresh_of s !! tr_RefreshToken req = Some old) as Hs by (unfold refresh_of in *; by rewrite <-Ht).
  assert (~ is_revoked s (tr_RefreshToken req)) as Hnr by (rewrite <-Hb; done).
  destruct (is_ok r) eqn:Hok.
  - destruct r as [resp| |]; [|done..]. apply issueTokens_inv in H as Hi. pose proof (is_scope _ _ _ _ _ _ _ _ _ Hi) as Hsc.
    apply issued_view in Hi as (new & t' & Htok & Hcl & Htn' & Hscope & Hty & Hexp' & Hview & Hacc).
    exists n, (Refreshed (tr_RefreshToken req) old new). split.
    + injection Hv as Hv1 Hv2 Hv3. rewrite Hview, Hv1, Hv2, Hv3. eapply spec_refresh; [done|done|lia|split_and!; congruence|done].
    + eapply obs_refresh; try done; by rewrite Htn.
  - apply issueTokens_failed in H as Hu; [|done]. exists 0, (SpentRefresh (tr_RefreshToken req)). split.
    + rewrite (view_eq v u), Hv by done. constructor; [by rewrite Hs|done].
    + destruct r; [done|by constructor..].
Qed.

Lemma client_credentials_readonly tenantID req :
  readonly (handleClientCredentialsGrant cfg tenantID req : M State TokenResponse).
Proof.
  pose proof (resolveClient_readonly (C := C) (R := R) (V := V) (D := D) (G := G) cfg) as H1.
  pose proof (generateAccessToken_readonly (C := C) (R := R) (V := V) (O := O) (D := D) (G := G) cfg) as H2.
  unfold handleClientCredentialsGrant. effects; try done; apply on_clients_readonly, GetClient_readonly.
Qed.

Lemma client_credentials_inv tenantID req env s resp u :
  handleClientCredentialsGrant cfg tenantID req env s = (Ok resp, u) -> ts_RefreshToken resp = estr.
Proof. unfold handleClientCredentialsGrant. intros H. by minv. Qed.

Lemma Token_step ctx req env s r u :
  Token cfg ctx req env s = (r, u) ->
  exists n ev, spec_step (clock env n) (view s) ev (view u) /\
    observed env s (OpToken ctx req) (answer_of AnsTokens r) ev.
Proof.
  unfold Token. intros [(tenantID & t & E & H)|(r' & E & _ & Hr)]%bind_inv.
  - apply TenantIDFromContext_inv in E as (Hctx & _ & ->).
    case_decide as Hg; [by eapply code_grant_step|]. case_decide as Hg2; [|case_decide as Hg3; [by eapply refresh_grant_step|]].
    + apply (readonly_run _ _ _ _ _ (client_credentials_readonly tenantID req)) in H as Hu. exists 0, Quiet.
      split; [by apply quiet_eq|]. destruct r as [resp| |]; [|constructor..].
      apply client_credentials_inv in H. by constructor.
    + by apply refused_step; injection H as <- <-.
  - apply refused_step; [|done]. eapply readonly_run in E; [done|]. unfold TenantIDFromContext. effects.
Qed.

(** Introspection looks, and answers active only for a token it found not
    revoked. *)
Lemma Introspect_view token env s r u : Introspect cfg token env s = (r, u) -> view u = view s.
Proof.
  set (P := fun x : State => mkGrants (code_view (au_codes x)) (refresh_view (au_refresh x)) (revoked (au_revoked x)) = view s).
  intros E. refine (preserves_run P _ _ _ _ _ _ E eq_refl).
  assert (forall x y, P x -> code_view (au_codes y) = code_view (au_codes x) ->
    refresh_view (au_refresh y) = refresh_view (au_refresh x) -> au_revoked y = au_revoked x -> P y) as HP.
  { unfold P. intros x y Hx -> -> ->. done. }
  assert (preserves P (on_revoked (rev_IsRevoked token))) as H1.
  { apply readonly_preserves, on_revoked_IsRevoked_readonly. }
  assert (preserves P (on_refresh (refresh_Get token))) as H2.
  { intros env' s' Hs. by destruct (on_refresh_Get token env' s') as (n & ->). }
  assert (forall sub iat, preserves P (on_signal_store (signal_GetLatestCriticalEvent sub iat))) as H3.
  { intros sub iat env' s' Hs. unfold on_signal_store, on_risk, zoom.
    destruct (on_signals (signal_GetLatestCriticalEvent sub iat) env' (mkSt (tick s') (au_risk (st s')))) as [x v]. by eapply HP. }
  unfold Introspect. effects; done.
Qed.

Lemma Introspect_active token env s resp u :
  Introspect cfg token env s = (Ok resp, u) -> ir_Active resp = true -> ~ is_revoked s token.
Proof.
  unfold Introspect. intros H Hact. apply bind_Ok_inv in H as (b & t & Eb & H).
  apply on_revoked_IsRevoked in Eb as [Hb _]. rewrite <-Hb. intros ->. apply ret_Ok_inv in H as [<- _]. done.
Qed.

Lemma Revoke_step t0 token env s r u :
  Revoke token env s = (r, u) ->
  exists ev, spec_step t0 (view s) ev (view u) /\ observed env s (OpRevoke token) (answer_of (fun _ => AnsRevoked) r) ev.
Proof.
  unfold Revoke. intros [([] & t & E & H)|(r' & E & Hr' & Hr)]%bind_inv; unfold on_revoked, zoom in E;
    pose proof (fun x => rev_Revoke_mono token x env (mkSt (tick s) (au_revoked (st s)))) as Hmono;
    destruct (rev_Revoke token env _) as [x v] eqn:Ev; cbn [snd] in Hmono.
  - injection E as -> <-. apply rev_Revoke_Ok in Ev as Hv.
    match type of H with ignore _ _ ?w = _ => destruct (on_refresh_Delete token env w) as (y & Ey & Hd & Hc & Hrv & _) end.
    rewrite (ignore_run _ _ _ _ _ Ey) in H. injection H as <- <-. exists (Revoked token). split; [|constructor].
    unfold view. rewrite Hd. unfold keeps_codes, codes_of in *. rewrite Hc. unfold is_revoked. rewrite Hrv. by constructor.
  - injection E as -> <-. exists Quiet. split; [by constructor|]. destruct r; [done|constructor..].
Qed.

(** Every answer of the service is a step of the machine. *)
Lemma serve_op_step env o s a u :
  serve_op env o s = (a, u) ->
  exists n ev, spec_step (clock env n) (view s) ev (view u) /\ observed env s o a ev.
Proof.
  destruct o as [ctx req|ctx req|token|token]; cbn.
  - destruct (Authorize cfg ctx req env s) as [r v] eqn:E. intros [= <- <-]. by apply Authorize_step.
  - destruct (Token cfg ctx req env s) as [r v] eqn:E. intros [= <- <-]. by apply Token_step.
  - destruct (Introspect cfg token env s) as [r v] eqn:E. intros [= <- <-]. exists 0, Quiet. split.
    + rewrite (Introspect_view _ _ _ _ _ E). by constructor.
    + destruct r as [resp| |]; constructor. by eapply Introspect_active.
  - destruct (Revoke token env s) as [r v] eqn:E. intros [= <- <-]. exists 0. by eapply Revoke_step.
Qed.

(** *** Runs *)

(** The requests a service has answered, each with the state it found. *)
Inductive exec env : St State -> list (St State * op * answer) -> St State -> Prop :=
| exec_nil s : exec env s [] s
| exec_snoc s t u l o a :
    exec env s l t -> serve_op env o t = (a, u) -> exec env s (l ++ [(t, o, a)]) u.

Definition explains env (x : St State * op * answer) (ev : event) : Prop :=
  let '(s, o, a) := x in observed env s o a ev.

(** Property C6. The token service refines the abstract machine: whatever
    authorization, token, introspection and revocation requests it answers, in
    any order and whatever their outcome, the codes, refresh tokens and revoked
    tokens it is left with are those of a run of the machine, and each answer is
    one the machine's step allows. *)
Theorem auth_refines env s l u :
  exec env s l u -> exists evs, spec_run env (view s) evs (view u) /\ Forall2 (explains env) l evs.
Proof.
  induction 1 as [s|s t u l o a _ (evs & Hrun & Hl) Hs].
  - exists []. split; constructor.
  - apply serve_op_step in Hs as (n & ev & Hstep & Hobs). exists (evs ++ [ev]).
    split; [by econstructor|]. by apply Forall2_app; [|constructor].
Qed.

Lemma exec_traced env s0 l s :
  codes_of s0 = ∅ -> refresh_of s0 = ∅ -> exec env s0 l s ->
  exists evs, traced evs (view s) /\ Forall2 (explains env) l evs.
Proof.
  intros Hc Hr. induction 1 as [s|s t u l o a _ IH Hs].
  - exists []. split; [|constructor]. split; cbn; [rewrite Hc|rewrite Hr]; intros ? ?; by rewrite lookup_empty.
  - destruct (IH Hc Hr) as (evs & Ht & Hl). apply serve_op_step in Hs as (n & ev & Hstep & Hobs).
    exists (evs ++ [ev]). split; [by eapply spec_step_traced|]. by apply Forall2_app; [|constructor].
Qed.

(** An authorization among the events is one among the requests. *)
Lemma authorized_explained env l evs e :
  Forall2 (explains env) l evs -> Authorized e ∈ evs ->
  exists s ctx req a t, (s, OpAuthorize ctx req, a) ∈ l /\ authorized cfg ctx req env s e t.
Proof.
  induction 1 as [|[[s o] a] ev l evs Hx _ IH]; [by intros ?%elem_of_nil|].
  intros [<-|Hin]%elem_of_cons.
  - cbn in Hx. inversion Hx; subst; eexists _, _, _, _, _; (split; [left|done]).
  - destruct (IH Hin) as (s' & ctx & req & a' & t & Hl & Ha). exists s', ctx, req, a', t. split; [by right|done].
Qed.

(** Property C7. Every token of the code and refresh grants descends from an
    authorization: started with no code and no refresh token outstanding, and
    after any requests, tokens are issued only for the tenant, the client, the
    scope and the kind of subject of an earlier authorization request that
    passed every check. *)
Theorem tokens_traceable env s0 l s ctx req resp u :
  codes_of s0 = ∅ -> refresh_of s0 = ∅ -> exec env s0 l s ->
  Token cfg ctx req env s = (Ok resp, u) -> tr_GrantType req <> "client_credentials" ->
  exists s1 ctx1 req1 a e t, (s1, OpAuthorize ctx1 req1, a) ∈ l /\ authorized cfg ctx1 req1 env s1 e t /\
    gc_tenant ctx = gc_tenant ctx1 /\ ts_Scope resp = ar_Scope req1 /\
    access_for (ac_TenantID e) (ar_ClientID req1) (ar_Scope req1) "user" resp /\
    (tr_GrantType req = "authorization_code" -> tr_ClientID req = ar_ClientID req1).
Proof.
  intros Hc Hr Hexec H Hg. destruct (exec_traced env s0 l s Hc Hr Hexec) as (evs & [Tc Tr] & Hl).
  apply Token_step in H as (n & ev & Hstep & Hobs). cbn in Hobs.
  inversion Hobs as [| |? ? ? e new Hgc Hctx Hcl Hru Hch Htok Hsc Hacc|? ? ? old new Hgr Hctx Htok Hsc Hacc| | | | | |]; subst; [| |done].
  - inversion Hstep as [|? ? ? ? ? ? ? He| | | | |]; subst. apply Tc in He.
    destruct (authorized_explained env l evs e Hl He) as (s1 & ctx1 & req1 & a & t & Hin & Ha). pose proof Ha as [[Ht _] _ _ (A1 & _ & A3 & _) _].
    exists s1, ctx1, req1, a, e, t. rewrite <-A1, <-A3, Hctx, Ht. by split_and!.
  - inversion Hstep as [| |? ? ? ? ? ? ? Ho| | | |]; subst. apply Tr in Ho as [(e & He & E1 & E2 & E3) Hty].
    destruct (authorized_explained env l evs e Hl He) as (s1 & ctx1 & req1 & a & t & Hin & Ha). pose proof Ha as [[Ht _] _ _ (A1 & _ & A3 & _) _].
    exists s1, ctx1, req1, a, e, t. rewrite <-A1, <-A3, Hctx, Ht, E1, E2, E3. rewrite Hty in Hacc. split_and!; try done.
    intros Hgc. rewrite Hgc in Hgr. done.
Qed.
End Service.
