(* ===== verification/AuthDemo.v ===== *)
(** * The OAuth core at work

    A concrete signer (tokens are the claims, spelled out), one static client
    and one client of a store, and the flows of AuthFacts.v run on them: the
    hypotheses of its theorems can be met. *)
From S2P Require Import Prelude Bcrypt GoStd GoUrl Sha256 Sql Http.
From S2P Require Import Middleware OAuthClient AuthClient TokenStores Risk AuthService AuthFacts TokenSpec.
Local Open Scope go_scope.

(** ** Spelling claims out *)

Definition bit0 : Ascii.ascii := Ascii.ascii_of_N 48.
Definition bit1 : Ascii.ascii := Ascii.ascii_of_N 49.
Definition tag_s : Ascii.ascii := Ascii.ascii_of_N 115.
Definition tag_z : Ascii.ascii := Ascii.ascii_of_N 122.
Definition tag_p : Ascii.ascii := Ascii.ascii_of_N 112.
Definition tag_m : Ascii.ascii := Ascii.ascii_of_N 109.
Definition dot : Ascii.ascii := Ascii.ascii_of_N 46.

Fixpoint spell_pos (p : positive) : string :=
  match p with
  | xI q => String bit1 (spell_pos q)
  | xO q => String bit0 (spell_pos q)
  | xH => estr
  end.

Fixpoint read_pos (s : string) : positive :=
  match s with
  | EmptyString => xH
  | String c r => if decide (c = bit1) then xI (read_pos r) else xO (read_pos r)
  end.

Definition spell_json (v : json) : option string :=
  match v with
  | JStr s => Some (String tag_s (hex_Encode s))
  | JNum Z0 => Some (String tag_z estr)
  | JNum (Zpos p) => Some (String tag_p (spell_pos p))
  | JNum (Zneg p) => Some (String tag_m (spell_pos p))
  | _ => None
  end.

Definition read_json (s : string) : option json :=
  match s with
  | EmptyString => None
  | String c r =>
      if decide (c = tag_s) then JStr <$> hex_decode r
      else if decide (c = tag_z) then Some (JNum 0)
      else if decide (c = tag_p) then Some (JNum (Zpos (read_pos r)))
      else if decide (c = tag_m) then Some (JNum (Zneg (read_pos r)))
      else None
  end.

Fixpoint spell_claims (claims : Claims) : option string :=
  match claims with
  | [] => Some estr
  | (k, v) :: r =>
      match spell_json v, spell_claims r with
      | Some x, Some y => Some (hex_Encode k +:+ String dot (x +:+ String dot y))
      | _, _ => None
      end
  end.

Fixpoint read_claims (parts : list string) : option Claims :=
  match parts with
  | [EmptyString] => Some []
  | k :: v :: r =>
      match hex_decode k, read_json v, read_claims r with
      | Some k', Some v', Some r' => Some ((k', v') :: r')
      | _, _, _ => None
      end
  | _ => None
  end.

(** Dots separate: neither a key nor a value contains one. *)
Abbreviation nodot := (forall_bytes (fun c => negb (bool_decide (c = dot)))).

Lemma hex_Encode_nodot s : nodot (hex_Encode s) = true.
Proof.
  induction s as [|a s IH]; [done|]. simpl. rewrite IH.
  assert (forall n, (n < 16)%N -> hex_digit n <> dot) as Hd.
  { intros n Hn. assert (below 16 (fun n => negb (bool_decide (hex_digit n = dot))) = true) as Hb by done.
    apply (below_spec _ _ n) in Hb; [|done].
    by apply negb_true_iff, bool_decide_eq_false in Hb. }
  rewrite !bool_decide_eq_false_2; [done|apply Hd; by apply N.mod_lt|].
  apply Hd, N.Div0.div_lt_upper_bound, byte_N_lt.
Qed.

Lemma spell_pos_nodot p : nodot (spell_pos p) = true.
Proof. by induction p. Qed.

Lemma read_spell_pos p : read_pos (spell_pos p) = p.
Proof. induction p as [p IH|p IH|]; simpl; [by rewrite IH..|done]. Qed.

Lemma read_spell_json v x : spell_json v = Some x -> read_json x = Some v /\ nodot x = true.
Proof.
  destruct v as [|b|[|p|p]|s| |]; simpl; intros; simplify_eq; simpl;
    rewrite ?read_spell_pos, ?hex_decode_Encode, ?spell_pos_nodot, ?hex_Encode_nodot; done.
Qed.

Lemma read_spell_claims claims x :
  spell_claims claims = Some x -> read_claims (strings_Split x dot) = Some claims.
Proof.
  revert x. induction claims as [|[k v] r IH]; intros x H; simpl in H; [by simplify_eq|].
  destruct (spell_json v) as [y|] eqn:Hv; [|done].
  destruct (spell_claims r) as [z|]; [|done]. simplify_eq.
  apply read_spell_json in Hv as [Hv Hn].
  rewrite Split_app by apply hex_Encode_nodot. rewrite Split_app by done. simpl.
  rewrite hex_decode_Encode, Hv, (IH z eq_refl). by destruct (hex_Encode k).
Qed.

(** ** The signer and the hashes *)

#[export] Instance demo_bcrypt : Bcrypt := {|
  bcrypt_Generate := fun _ secret =>
    if decide (String.length secret <= 72) then inl ("hash of " +:+ secret)
    else inr (ErrLib "bcrypt: password length exceeds 72 bytes");
  CompareHashAndPassword := fun hash secret => bool_decide (hash = "hash of " +:+ secret)
|}.

#[export] Instance demo_bcrypt_laws : BcryptLaws.
Proof.
  split; intros n pw h H; simpl in *; case_decide; simplify_eq.
  - by apply bool_decide_eq_true.
  - change (8 + String.length pw <= 255). lia.
Qed.

#[export] Instance demo_crypto : Crypto := {|
  SignedString := fun kid claims =>
    match spell_claims claims with
    | Some x => inl x
    | None => inr (ErrLib "json: unsupported value")
    end;
  jwt_Parse := fun t token =>
    match read_claims (strings_Split token dot) with
    | Some claims =>
        match claim "exp" claims with
        | Some (JNum e) => if decide (t < e * second)%Z then Some claims else None
        | _ => None
        end
    | None => None
    end;
  crypto_bcrypt := demo_bcrypt
|}.

#[export] Instance demo_jwt : JwtLaws.
Proof.
  split.
  - intros kid claims token e t Hs He _ _. simpl in *.
    destruct (spell_claims claims) as [x|] eqn:Hx; [|done]. simplify_eq.
    by rewrite (read_spell_claims _ _ Hx), He.
  - intros t token Hd. simpl.
    enough (strings_Split token dot = [token]) as -> by (by destruct token).
    apply Split_avoids. induction token as [|c token IH]; [done|].
    simpl in *. apply orb_false_iff in Hd as [H1 H2]. rewrite (IH H2).
    rewrite bool_decide_eq_false_2; [done|]. intros ->. by destruct token.
Qed.

(** ** A deployment in memory with one static client *)

Definition tenant : string := demo_uuid 77.

Definition web : ClientConfig :=
  mkClientConfig "web" tenant "Web" estr "public" ["https://app.example.com/cb?x=1"] ["openid"; "email"].

Definition demo_cfg : AuthConfig :=
  mkAuthConfig false (Some {[ (tenant, "web") := web ]}) false "key-1".

Abbreviation Memory :=
  (AuthState (gmap string authorizationCode) (gmap string refreshTokenEntry) (gmap string Z)
     (list Client) (list Device) SignalDb).

Definition fresh : St Memory := mkSt 0 (mkAuth ∅ ∅ ∅ [] ([], None)).

Definition demo_ctx : GinCtx := mkGinCtx (mkRequest [] [] [] [] JNull "10.0.0.1") (Some tenant).

(** The verifier of RFC 7636, appendix B, and its challenge. *)
Definition verifier : string := "dBjftJeZ4CVP-mB92K27uhbUJU1p1r_wW1gFWFOEjXk".

Definition authorize_req : AuthorizeRequest :=
  mkAuthorizeRequest "code" "web" "https://app.example.com/cb?x=1" "openid" "xyz"
    "E9Melhoa2OwvFrEMTJguCHaoeK1t8URWbuGJSstw-cM" "S256".

Definition after {A} (r : Res A * St Memory) : St Memory := snd r.

(** The state after one authorization, and the code it handed out. *)
Definition s_authorized : St Memory := after (Authorize demo_cfg demo_ctx authorize_req demo_env fresh).

Definition demo_code : string := base64_RawURL (of_bytes (be_bytes 32 0)).

Definition token_req : TokenRequest :=
  mkTokenRequest "authorization_code" demo_code "https://app.example.com/cb?x=1" verifier "web"
    estr estr estr.

(** The redirect a browser is sent to. *)
Example authorize_redirect :
  fst (Authorize demo_cfg demo_ctx authorize_req demo_env fresh) =
  Ok ("https://app.example.com/cb?code=" +:+ demo_code +:+ "&state=xyz&x=1").
Proof. vm_compute. reflexivity. Qed.

Lemma demo_can_sign : can_sign demo_cfg.
Proof.
  intros t c sc sb t1 t2. unfold access_claims. simpl.
  destruct (unix (t1 + hour)), (unix t2); eexists; reflexivity.
Qed.

Lemma demo_rand_ok : rand_ok demo_env.
Proof.
  intros t n. eexists. split; [reflexivity|]. rewrite of_bytes_length.
  generalize (N.of_nat t). induction n as [|n IH]; intros k; simpl; [done|]. by rewrite IH.
Qed.

(** ** Witnesses *)

(** Evaluates a run that ends in a result. *)
Ltac evaluates := vm_compute; reflexivity.

Lemma code_grant_sound_witness :
  exists resp u, handleAuthorizationCodeGrant demo_cfg tenant token_req demo_env s_authorized = (Ok resp, u) /\
    codes_of u = delete (tr_Code token_req) (codes_of s_authorized).
Proof.
  assert (is_ok (fst (handleAuthorizationCodeGrant demo_cfg tenant token_req demo_env s_authorized)) = true) as Hok by evaluates.
  destruct (ok_run _ Hok) as (resp & u & E).
  exists resp, u. split; [exact E|].
  destruct (code_grant_sound demo_cfg tenant token_req demo_env s_authorized resp u E)
    as (client & code & n & n' & _ & _ & _ & _ & _ & _ & _ & _ & _ & _ & H & _).
  exact H.
Defined.

(** A code authorized once, redeemed once, and refused the second time. *)
Definition demo_step (o : op) (s : St Memory) : bool * St Memory := step demo_cfg demo_env o s.

Definition run1 : St Memory := snd (demo_step (OpAuthorize demo_ctx authorize_req) fresh).
Definition run2 : St Memory := snd (demo_step (OpToken demo_ctx token_req) run1).
Definition run3 : St Memory := snd (demo_step (OpToken demo_ctx token_req) run2).

Lemma code_single_use_witness : 1 + stored demo_code run3 <= 1 + stored demo_code fresh.
Proof.
  assert (fst (demo_step (OpAuthorize demo_ctx authorize_req) fresh) = false) as H1 by evaluates.
  assert (fst (demo_step (OpToken demo_ctx token_req) run1) = true) as H2 by evaluates.
  assert (fst (demo_step (OpToken demo_ctx token_req) run2) = false) as H3 by evaluates.
  apply (code_single_use demo_cfg demo_code demo_env fresh run3 1 1).
  refine (run_step_eq demo_cfg demo_code demo_env fresh run2 (OpToken demo_ctx token_req) false run3
            1 1 1 1 _ (fst_run _ _ H3) _ _); [|evaluates..].
  refine (run_step_eq demo_cfg demo_code demo_env fresh run1 (OpToken demo_ctx token_req) true run2
            1 0 1 1 _ (fst_run _ _ H2) _ _); [|evaluates..].
  refine (run_step_eq demo_cfg demo_code demo_env fresh fresh (OpAuthorize demo_ctx authorize_req) false
            run1 0 0 1 0 (run_nil _ _ _ _) (fst_run _ _ H1) _ _); evaluates.
Defined.

Lemma code_redeemed_twice_witness :
  exists resp1 resp2 (s2 s3 s4 : St Memory) code,
    redeem_finish demo_cfg tenant token_req code demo_env s2 = (Ok resp1, s3) /\
    redeem_finish demo_cfg tenant token_req code demo_env s3 = (Ok resp2, s4).
Proof.
  assert (is_ok (fst (redeem_check demo_cfg tenant token_req demo_env s_authorized)) = true) as Hok by evaluates.
  destruct (ok_run _ Hok) as (c1 & s1 & E1).
  assert (is_ok (fst (redeem_check demo_cfg tenant token_req demo_env s1)) = true) as H2.
  { replace s1 with (snd (redeem_check demo_cfg tenant token_req demo_env s_authorized))
      by (rewrite E1; reflexivity).
    evaluates. }
  destruct (ok_run _ H2) as (c2 & s2 & E2).
  destruct (code_redeemed_twice demo_cfg tenant token_req token_req demo_env s_authorized c1 s1 c2 s2
              demo_can_sign demo_rand_ok eq_refl E1 E2) as (Hc & _ & r1 & s3 & r2 & s4 & F1 & F2 & _).
  subst c2. exists r1, r2, s2, s3, s4, c1. split; [exact F1|exact F2].
Defined.

(** The state after the code has been redeemed, and the refresh token. *)
Definition s_issued : St Memory :=
  after (handleAuthorizationCodeGrant demo_cfg tenant token_req demo_env s_authorized).

Definition demo_refresh : string :=
  match fst (handleAuthorizationCodeGrant demo_cfg tenant token_req demo_env s_authorized) with
  | Ok resp => ts_RefreshToken resp | _ => estr end.

Definition demo_access : string :=
  match fst (handleAuthorizationCodeGrant demo_cfg tenant token_req demo_env s_authorized) with
  | Ok resp => ts_AccessToken resp | _ => estr end.

Definition refresh_req : TokenRequest :=
  mkTokenRequest "refresh_token" estr estr estr estr estr estr demo_refresh.

Lemma refresh_rotation_witness :
  exists resp u, handleRefreshTokenGrant demo_cfg tenant refresh_req demo_env s_issued = (Ok resp, u) /\
    ~ is_revoked s_issued demo_refresh.
Proof.
  assert (is_ok (fst (handleRefreshTokenGrant demo_cfg tenant refresh_req demo_env s_issued)) = true) as Hok by evaluates.
  destruct (ok_run _ Hok) as (resp & u & E).
  exists resp, u. split; [exact E|].
  destruct (refresh_rotation demo_cfg tenant refresh_req demo_env s_issued resp u E) as [H _]. exact H.
Defined.

Definition s_revoked : St Memory := after (Revoke demo_refresh demo_env s_issued).

Definition s_later : St Memory := snd (demo_step (OpAuthorize demo_ctx authorize_req) s_revoked).

Lemma revoked_for_good_witness :
  exists r u, Introspect demo_cfg demo_refresh demo_env s_later = (Ok r, u) /\ ir_Active r = false.
Proof.
  assert (fst (Revoke demo_refresh demo_env s_issued) = Ok tt) as H1 by evaluates.
  assert (fst (demo_step (OpAuthorize demo_ctx authorize_req) s_revoked) = false) as H2 by evaluates.
  assert (is_ok (fst (Introspect demo_cfg demo_refresh demo_env s_later)) = true) as H3 by evaluates.
  destruct (ok_run _ H3) as (r & u & E). exists r, u. split; [exact E|].
  exact (proj1 (revoked_for_good demo_cfg demo_refresh demo_env s_issued s_revoked s_later
    (fst_run _ _ H1) (reach_step demo_cfg demo_env s_revoked _ false _ _ (fst_run _ _ H2) (reach_nil _ _ _)))
    r u E).
Defined.

Lemma memory_IsRevoked token env (s : St Memory) b :
  bool_decide (is_Some (au_revoked (st s) !! token)) = b ->
  on_revoked (rev_IsRevoked token) env s = (Ok b, mkSt (tick s) (st s)).
Proof. by intros <-; destruct s as [n []]. Qed.

Lemma introspect_access_token_witness :
  exists u, Introspect demo_cfg demo_access demo_env s_issued =
    (Ok (mkIntrospectResponse true "openid" "web" "access_token" 3603 4 "web" "client-app"
           "identity-platform" tenant), u).
Proof.
  destruct (introspect_access_token demo_cfg tenant "web" "openid" "user" demo_env
              (mkSt 3 (st s_issued)) demo_access
              (after (generateAccessToken demo_cfg tenant "web" "openid" "user" demo_env (mkSt 3 (st s_issued))))
              s_issued (tick s_issued)) as [H _].
  - apply fst_run. evaluates.
  - evaluates.
  - apply memory_IsRevoked. evaluates.
  - intros [=].
  - apply H. evaluates.
Defined.

(** A confidential client of the store. *)
Definition store_cfg : AuthConfig := mkAuthConfig true None true "key-1".

Definition service_client : Client :=
  mkClient (demo_uuid 5) tenant "svc" "confidential" "Service" None ["https://svc.example.com/cb"]
    ["read"; "write"] "hash of s3cret" 0 0.

Definition with_store : St Memory := mkSt 0 (mkAuth ∅ ∅ ∅ [service_client] ([], None)).

Definition credentials_req : TokenRequest :=
  mkTokenRequest "client_credentials" estr estr estr "svc" "s3cret" "read" estr.

Lemma client_credentials_sound_witness :
  exists resp u, handleClientCredentialsGrant store_cfg tenant credentials_req demo_env with_store = (Ok resp, u) /\
    st u = st with_store /\ ts_RefreshToken resp = estr.
Proof.
  assert (is_ok (fst (handleClientCredentialsGrant store_cfg tenant credentials_req demo_env with_store)) = true)
    as Hok by evaluates.
  destruct (ok_run _ Hok) as (resp & u & E). exists resp, u. split; [exact E|].
  destruct (client_credentials_sound store_cfg tenant credentials_req demo_env with_store resp u E)
    as (_ & H1 & H2 & _). split; [exact H1|exact H2].
Defined.

Lemma authorize_sound_witness :
  exists uri u, Authorize demo_cfg demo_ctx authorize_req demo_env fresh = (Ok uri, u) /\
    exists e, codes_of u = <[ac_Code e := e]> (codes_of fresh).
Proof.
  assert (is_ok (fst (Authorize demo_cfg demo_ctx authorize_req demo_env fresh)) = true) as Hok by evaluates.
  destruct (ok_run _ Hok) as (uri & u & E). exists uri, u. split; [exact E|].
  destruct (authorize_sound demo_cfg demo_ctx authorize_req demo_env fresh uri u E)
    as (e & t & parsed & q & _ & H & _).
  exists e. exact H.
Defined.

Definition demo_entry : authorizationCode :=
  mkAuthorizationCode demo_code "web" "https://app.example.com/cb?x=1" "openid" tenant
    "E9Melhoa2OwvFrEMTJguCHaoeK1t8URWbuGJSstw-cM" "S256" (1000000000 + 5 * minute).

Lemma demo_resolve (s : St Memory) :
  resolveClient demo_cfg tenant "web" demo_env s = (Ok web, mkSt (tick s) (st s)).
Proof. by destruct s. Qed.

(** Somebody presents the code without its verifier, and fails. *)
Definition stolen : op :=
  OpToken demo_ctx (mkTokenRequest "authorization_code" demo_code "https://app.example.com/cb?x=1" "guess" "web" estr estr estr).

Definition s_between : St Memory := snd (step demo_cfg demo_env stolen s_authorized).

Lemma demo_meanwhile : meanwhile demo_cfg demo_code demo_env s_authorized s_between.
Proof.
  refine (meanwhile_step demo_cfg demo_code demo_env s_authorized stolen false s_between s_between _ _ (meanwhile_nil _ _ _ _)).
  - assert (fst (step demo_cfg demo_env stolen s_authorized) = false) as Hf by evaluates.
    rewrite <-Hf. apply surjective_pairing.
  - evaluates.
Qed.

Lemma authorize_then_token_witness :
  exists resp v, Token demo_cfg demo_ctx token_req demo_env s_between = (Ok resp, v) /\ ts_Scope resp = "openid".
Proof.
  assert (is_ok (fst (Authorize demo_cfg demo_ctx authorize_req demo_env fresh)) = true) as Hok by evaluates.
  destruct (ok_run _ Hok) as (uri & u & E).
  assert (u = s_authorized) as Hu by (unfold s_authorized, after; rewrite E; reflexivity).
  destruct (authorize_then_token demo_cfg demo_ctx authorize_req demo_env fresh uri u
              demo_can_sign demo_rand_ok E) as (e & t & parsed & q & Ha & _ & _ & H).
  assert (e = demo_entry) as ->.
  { destruct Ha as [[Ht _] (cl & n & b & Er & _ & _ & _ & Hb & Hc & He) _ (A1 & A2 & A3 & A4 & A5) _].
    destruct e as [ec ecl er es et ech em ee]. cbn in Ht, A1, A2, A3, A4, A5, Hc, He.
    injection Ht as <-. rewrite demo_resolve in Er. injection Er as _ <-. injection Hb as <-.
    subst. reflexivity. }
  subst u. apply (H s_between demo_ctx token_req web (tick s_between));
    [exact demo_meanwhile|reflexivity|reflexivity|reflexivity|reflexivity|discriminate|reflexivity|discriminate|discriminate|evaluates
    |exact (demo_resolve s_between)|left|vm_compute; discriminate].
Defined.

(** The same request, on a Postgres store that holds the code. *)
Definition sql_authorized : St (AuthState (list authorizationCode) (list refreshTokenEntry) (gmap string Z)
                                  (list Client) (list Device) SignalDb) :=
  mkSt 2 (mkAuth [demo_entry] [] ∅ [] ([], None)).

Lemma sql_grants_fail_witness :
  is_ok (fst (Token demo_cfg demo_ctx token_req demo_env sql_authorized)) = false.
Proof.
  destruct (Token demo_cfg demo_ctx token_req demo_env sql_authorized) as [[resp|e|p] u] eqn:E;
    [|reflexivity|reflexivity].
  exfalso. refine (sql_grants_fail demo_cfg demo_ctx token_req demo_env sql_authorized resp u
                     demo_env_strict _ E).
  left. reflexivity.
Defined.

(** The password of the subject changed a minute after the token was issued. *)
Definition signalled : St (AuthState (list authorizationCode) (list refreshTokenEntry) (gmap string Z)
                             (list Client) (list Device) SignalDb) :=
  mkSt 70 (mkAuth [] [] ∅ [] ([], Some [mkSecurityEvent (demo_uuid 9) tenant "web" "password-changed"
                                          (64 * second) estr estr 0])).

Lemma event_deactivates_witness :
  exists u, Introspect store_cfg demo_access demo_env signalled = (Ok inactive, u).
Proof.
  refine (event_deactivates store_cfg demo_access
            (access_claims tenant "web" "openid" "user" (3 * second) (4 * second))
            (mkSecurityEvent (demo_uuid 9) tenant "web" "password-changed" (64 * second) estr estr 0) _
            demo_env signalled 70 demo_env_up eq_refl _ _ eq_refl _ eq_refl _).
  - evaluates.
  - evaluates.
  - left.
  - evaluates.
Defined.

(** ** Runs of the abstract machine *)

Definition demo_serve (o : op) (s : St Memory) : answer * St Memory := serve_op demo_cfg demo_env o s.

Definition flow_ops : list op :=
  [OpAuthorize demo_ctx authorize_req; OpToken demo_ctx token_req; OpRevoke "unknown"; OpToken demo_ctx token_req].

(** The answers to a list of requests, and the state they lead to. *)
Fixpoint served (s : St Memory) (l : list op) : list (St Memory * op * answer) * St Memory :=
  match l with
  | [] => ([], s)
  | o :: l => let '(a, t) := demo_serve o s in let '(r, u) := served t l in ((s, o, a) :: r, u)
  end.

Lemma exec_served s0 l0 l s : exec demo_cfg demo_env s0 l0 s -> exec demo_cfg demo_env s0 (l0 ++ fst (served s l)) (snd (served s l)).
Proof.
  revert l0 s. induction l as [|o l IH]; intros l0 s H; cbn; [by rewrite app_nil_r|].
  destruct (demo_serve o s) as [a t] eqn:E. specialize (IH (l0 ++ [(s, o, a)]) t). destruct (served t l) as [r u].
  cbn in *. rewrite <-app_assoc in IH. apply IH. by eapply exec_snoc.
Qed.

Lemma exec_from s l : exec demo_cfg demo_env s (fst (served s l)) (snd (served s l)).
Proof. apply (exec_served s [] l s), exec_nil. Qed.

Lemma auth_refines_witness :
  exists evs, length evs = 4 /\ spec_run demo_env (view fresh) evs (view (snd (served fresh flow_ops))).
Proof.
  destruct (auth_refines demo_cfg demo_env fresh (fst (served fresh flow_ops)) (snd (served fresh flow_ops))) as (evs & Hrun & Hl).
  - exact (exec_from fresh flow_ops).
  - exists evs. split; [|exact Hrun]. rewrite <-(Forall2_length _ _ _ Hl). vm_compute. reflexivity.
Defined.

Definition flow_start : list op := [OpAuthorize demo_ctx authorize_req; OpToken demo_ctx token_req].

(** The refresh token the exchange was answered with. *)
Definition flow_refresh : TokenRequest :=
  mkTokenRequest "refresh_token" estr estr estr estr estr estr
    (match last (fst (served fresh flow_start)) with Some (_, _, AnsTokens resp) => ts_RefreshToken resp | _ => estr end).

Lemma tokens_traceable_witness :
  exists s1 ctx1 req1 a resp u, Token demo_cfg demo_ctx flow_refresh demo_env (snd (served fresh flow_start)) = (Ok resp, u) /\
    (s1, OpAuthorize ctx1 req1, a) ∈ fst (served fresh flow_start) /\ ts_Scope resp = ar_Scope req1.
Proof.
  assert (is_ok (fst (Token demo_cfg demo_ctx flow_refresh demo_env (snd (served fresh flow_start)))) = true) as Hok by (vm_compute; reflexivity).
  destruct (ok_run _ Hok) as (resp & u & E).
  assert (codes_of fresh = ∅) as Hc by reflexivity. assert (refresh_of fresh = ∅) as Hr by reflexivity.
  assert (tr_GrantType flow_refresh <> "client_credentials") as Hg by discriminate.
  destruct (tokens_traceable demo_cfg demo_env fresh (fst (served fresh flow_start)) (snd (served fresh flow_start)) demo_ctx flow_refresh resp u
    Hc Hr (exec_from fresh flow_start) E Hg)
    as (s1 & ctx1 & req1 & a & e & t & Hin & _ & _ & Hsc & _).
  exists s1, ctx1, req1, a, resp, u. split; [exact E|]. split; [exact Hin|exact Hsc].
Defined.
