(* ===== verification/Login.v ===== *)
(** * Login, lockout and TOTP

    internal/auth/login_attempt_store.go and totp_store.go, the [Login] and
    [SignUp] operations of service.go, and the login, signup, second-factor and
    logout handlers of api.go around them.

    The directory service answers over HTTP: it is the [HttpPeer] of the
    state.  Checking a TOTP code (pquerna/otp) and generating a TOTP key are
    parameters. *)
From S2P Require Import Prelude GoStd GoUrl Sha256 Sql Http Middleware.
From S2P Require Import OAuthClient AuthClient TokenStores Risk AuthService.
Local Open Scope go_scope.

(** ** login_attempt_store.go *)

Definition MaxFailedAttempts : Z := 5.
Definition LockoutDuration : Z := 15 * minute.

Record LoginAttempt : Type := mkLoginAttempt {
  lg_ID : string;
  lg_TenantID : string;
  lg_Username : string;
  lg_IP : string;
  lg_Success : bool;
  lg_AttemptedAt : Z
}.

Record Lockout : Type := mkLockout {
  lo_ID : string;
  lo_TenantID : string;
  lo_Username : string;
  lo_LockedAt : Z;
  lo_LockedUntil : Z
}.

Class LoginAttemptStore (L : Type) : Type := {
  attempt_Record : string -> string -> string -> bool -> M L unit;
  attempt_GetRecentFailures : string -> string -> M L Z;
  attempt_IsLocked : string -> string -> M L (option Z);
  attempt_LockAccount : string -> string -> M L unit;
  attempt_UnlockAccount : string -> string -> M L unit
}.

(** The two tables. *)
Record Attempts : Type := mkAttempts {
  at_attempts : list LoginAttempt;
  at_lockouts : list Lockout
}.

Definition on_attempts {A} (m : M (list LoginAttempt) A) : M Attempts A :=
  zoom at_attempts (fun l s => mkAttempts l (at_lockouts s)) m.

Definition on_lockouts {A} (m : M (list Lockout) A) : M Attempts A :=
  zoom at_lockouts (fun l s => mkAttempts (at_attempts s) l) m.

Definition same_account (tenant username : string) (l : Lockout) : bool :=
  bool_decide (lo_TenantID l = tenant /\ lo_Username l = username).

Definition loginAttemptRepo_RecordAttempt (tenantID username ip : string) (success : bool)
    : M Attempts unit :=
  t <- uuid_arg tenantID;;
  varchar_arg 255 username;;
  varchar_arg 45 ip;;
  on_attempts (sql_insert
    (fun new old => bool_decide (lg_TenantID new = lg_TenantID old /\ lg_Username new = lg_Username old
                                 /\ lg_AttemptedAt new = lg_AttemptedAt old))
    (fun tm id => (mkLoginAttempt id t username ip success tm, tt))).

(** The window the query counts in. *)
Definition recent_failure (tenant username : string) (tm : Z) (a : LoginAttempt) : bool :=
  bool_decide (lg_TenantID a = tenant /\ lg_Username a = username) && negb (lg_Success a)
  && (tm - 15 * minute <? lg_AttemptedAt a)%Z.

Definition loginAttemptRepo_GetRecentFailures (tenantID username : string) : M Attempts Z :=
  t <- uuid_arg tenantID;;
  on_attempts (statement (fun env n rows =>
    inl (Z.of_nat (length (filter (recent_failure t username (clock env n)) rows)), rows))).

Definition loginAttemptRepo_UnlockAccount (tenantID username : string) : M Attempts unit :=
  t <- uuid_arg tenantID;;
  on_lockouts (sql_delete (same_account t username));;
  ret tt.

(** [(true, lockedUntil)] is [Some lockedUntil]. *)
Definition loginAttemptRepo_IsLocked (tenantID username : string) : M Attempts (option Z) :=
  row <- or_nil (t <- uuid_arg tenantID;; on_lockouts (sql_get_unique (same_account t username)));;
  match row with
  | None => ret None
  | Some lockout =>
      t <- now;;
      if decide (t > lo_LockedUntil lockout)%Z then
        ignore (loginAttemptRepo_UnlockAccount tenantID username);;
        ret None
      else ret (Some (lo_LockedUntil lockout))
  end.

Definition loginAttemptRepo_LockAccount (tenantID username : string) : M Attempts unit :=
  t <- now;;
  let lockedUntil := (t + LockoutDuration)%Z in
  tenant <- uuid_arg tenantID;;
  varchar_arg 255 username;;
  on_lockouts (sql_upsert (fun new old => same_account (lo_TenantID new) (lo_Username new) old)
    (fun _ _ => false)
    (fun new old => mkLockout (lo_ID old) (lo_TenantID old) (lo_Username old) (lo_LockedAt new)
                      (lo_LockedUntil new))
    (fun tm id => mkLockout id tenant username tm lockedUntil)
    (fun _ => tt)).

#[export] Instance loginAttemptRepo_store : LoginAttemptStore Attempts := {|
  attempt_Record := loginAttemptRepo_RecordAttempt;
  attempt_GetRecentFailures := loginAttemptRepo_GetRecentFailures;
  attempt_IsLocked := loginAttemptRepo_IsLocked;
  attempt_LockAccount := loginAttemptRepo_LockAccount;
  attempt_UnlockAccount := loginAttemptRepo_UnlockAccount
|}.

(** ** totp_store.go *)

Record TOTPSecret : Type := mkTOTPSecret {
  tp_ID : string;
  tp_IdentityID : string;
  tp_TenantID : string;
  tp_Secret : string;
  tp_Verified : bool;
  tp_CreatedAt : Z;
  tp_VerifiedAt : option Z
}.

Class TOTPStore (T : Type) : Type := {
  totp_Create : string -> string -> string -> M T (string * Z);
  totp_GetByIdentity : string -> string -> M T (option TOTPSecret);
  totp_MarkVerified : string -> M T unit;
  totp_Delete : string -> string -> M T unit
}.

Definition same_identity (tenant identity : string) (s : TOTPSecret) : bool :=
  bool_decide (tp_TenantID s = tenant /\ tp_IdentityID s = identity).

(** [Create(ctx, secret)] from the secret's identity, tenant and key; it
    answers the id and creation time. *)
Definition totpRepo_Create (identityID tenantID secret : string)
    : M (list TOTPSecret) (string * Z) :=
  varchar_arg 255 identityID;;
  t <- uuid_arg tenantID;;
  varchar_arg 64 secret;;
  sql_upsert (fun new old => same_identity (tp_TenantID new) (tp_IdentityID new) old)
    (fun new old => bool_decide (tp_ID new = tp_ID old))
    (fun new old => mkTOTPSecret (tp_ID old) (tp_IdentityID old) (tp_TenantID old) (tp_Secret new)
                      false (tp_CreatedAt old) None)
    (fun tm id => mkTOTPSecret id identityID t secret false tm None)
    (fun r => (tp_ID r, tp_CreatedAt r)).

Definition totpRepo_GetByIdentity (tenantID identityID : string)
    : M (list TOTPSecret) (option TOTPSecret) :=
  or_nil (t <- uuid_arg tenantID;; sql_get_unique (same_identity t identityID)).

Definition totpRepo_MarkVerified (id : string) : M (list TOTPSecret) unit :=
  u <- uuid_arg id;;
  sql_update (fun s => bool_decide (tp_ID s = u))
    (fun tm s => mkTOTPSecret (tp_ID s) (tp_IdentityID s) (tp_TenantID s) (tp_Secret s) true
                   (tp_CreatedAt s) (Some tm));;
  ret tt.

Definition totpRepo_Delete (tenantID identityID : string) : M (list TOTPSecret) unit :=
  t <- uuid_arg tenantID;;
  sql_delete (same_identity t identityID);;
  ret tt.

#[export] Instance totpRepo_store : TOTPStore (list TOTPSecret) := {|
  totp_Create := totpRepo_Create;
  totp_GetByIdentity := totpRepo_GetByIdentity;
  totp_MarkVerified := totpRepo_MarkVerified;
  totp_Delete := totpRepo_Delete
|}.

(** ** The service *)

Record LoginState (A X L T : Type) : Type := mkLogin {
  ls_auth : A;
  ls_dir : X;
  ls_attempts : L;
  ls_totp : T
}.
Arguments mkLogin {A X L T}.
Arguments ls_auth {A X L T}.
Arguments ls_dir {A X L T}.
Arguments ls_attempts {A X L T}.
Arguments ls_totp {A X L T}.

(** The rest of the service's and the handler's configuration: the directory,
    the service token, whether there is an attempt store and a TOTP store, and
    whether ENVIRONMENT is production. *)
Record LoginConfig : Type := mkLoginConfig {
  lc_directoryServiceURL : string;
  lc_serviceAuthHeader : string;
  lc_serviceAuthToken : string;
  lc_loginAttemptStore : bool;
  lc_totpStore : bool;
  lc_production : bool
}.

(** pquerna/otp: a code checked at a time, and a generated key (secret and
    URL) with its QR image, or the error of the step that failed. *)
Class Totp : Type := {
  totp_Validate : Z -> string -> string -> bool;
  totp_Generate : nat -> string -> (string * string * string) + error
}.

Section Service.
Context {crypto : Crypto} {totp : Totp}.
Context {C R V O D G X L T : Type}.
Context `{!AuthorizationCodeStore C, !RefreshTokenStore R, !RevocationStore V, !OAuthStore O,
          !DeviceStore D, !SignalStore G}.
Context {peer : HttpPeer X} `{!LoginAttemptStore L, !TOTPStore T}.
Context (cfg : AuthConfig) (lc : LoginConfig).

Abbreviation Auth := (AuthState C R V O D G).
Abbreviation LM := (M (LoginState Auth X L T)).

Definition in_auth {A} (m : M Auth A) : LM A :=
  zoom ls_auth (fun a s => mkLogin a (ls_dir s) (ls_attempts s) (ls_totp s)) m.

Definition in_dir {A} (m : M X A) : LM A :=
  zoom ls_dir (fun x s => mkLogin (ls_auth s) x (ls_attempts s) (ls_totp s)) m.

Definition in_attempts {A} (m : M L A) : LM A :=
  zoom ls_attempts (fun l s => mkLogin (ls_auth s) (ls_dir s) l (ls_totp s)) m.

Definition in_totp {A} (m : M T A) : LM A :=
  zoom ls_totp (fun x s => mkLogin (ls_auth s) (ls_dir s) (ls_attempts s) x) m.

(** The service token, when one is configured. *)
Definition service_auth (r : HttpCall) : HttpCall :=
  if decide (lc_serviceAuthToken lc <> estr)
  then with_header (lc_serviceAuthHeader lc) (lc_serviceAuthToken lc) r else r.

(** A token for a user, as [Login] and [SignUp] mint it. *)
Definition signUserToken (tenantID userID : string) : LM string :=
  t1 <- now;;
  t2 <- now;;
  let claims :=
    [("sub", JStr userID); ("iss", JStr "identity-platform"); ("aud", JStr "client-app");
     ("exp", JNum (unix (t1 + hour))); ("iat", JNum (unix t2));
     ("scope", JStr "openid profile email"); ("tenant", JStr tenantID)] in
  match SignedString (a_keyID cfg) claims with
  | inl token => ret token
  | inr err => fail err
  end.

(** The device of a login, registered with the user agent's system and the
    version the client reports; a failure does not stop the login. *)
Definition registerLoginDevice (tenantID userID deviceID userAgent clientOSVersion : string) : LM unit :=
  if decide (deviceID <> estr) then
    let '(osName, osVersion) := parseUserAgent userAgent in
    let osVersion := if decide (clientOSVersion <> estr) then clientOSVersion else osVersion in
    ignore (in_auth (on_risk (on_devices (device_Register
      (mkDevice estr tenantID userID deviceID osName osVersion false true 0 0 0 0)))))
  else ret tt.

(** [s.Login(...)] *)
Definition Login (ctx : GinCtx) (username password deviceID userAgent ip clientOSVersion : string)
    : LM string :=
  tenantID <- TenantIDFromContext ctx;;
  req <- http_NewRequest "POST" (lc_directoryServiceURL lc +:+ "/internal/credentials/verify")
           (JObj [("email", JStr username); ("password", JStr password)]);;
  let req := with_header "Content-Type" "application/json" req in
  let req := service_auth (with_header DefaultTenantHeader tenantID req) in
  resp <- in_dir (http_Do req);;
  if decide (rs_status resp = 401%Z) then fail ErrInvalidCredentials
  else if decide (rs_status resp <> 200%Z) then
    fail (ErrNew ("directory service returned status " +:+ pretty (rs_status resp)))
  else
    userID <- decoded (json_path ["user"; "id"] (rs_body resp));;
    _ <- decoded (json_path ["user"; "email"] (rs_body resp));;
    risk <- attempt (in_auth (on_risk (RiskEngine_Evaluate (a_signalStore cfg) userID deviceID ip)));;
    match risk with
    | inl score =>
        if decide (rs_Level score = RiskLevelHigh) then
          fail (ErrService "access_denied" "login blocked due to security risk")
        else registerLoginDevice tenantID userID deviceID userAgent clientOSVersion;;
             signUserToken tenantID userID
    | inr _ => registerLoginDevice tenantID userID deviceID userAgent clientOSVersion;;
               signUserToken tenantID userID
    end.

(** [s.SignUp(...)]: a new tenant, its first user in the directory, a token. *)
Definition SignUp (email password companyName : string) : LM (string * string) :=
  tenantID <- uuid_New;;
  req <- http_NewRequest "POST" (lc_directoryServiceURL lc +:+ "/users")
           (JObj [("user", JObj [("email", JStr email); ("password", JStr password);
                                 ("status", JStr "active")])]);;
  let req := with_header "Content-Type" "application/json" req in
  let req := with_header DefaultTenantHeader tenantID req in
  resp <- in_dir (http_Do req);;
  if decide (rs_status resp <> 201%Z) then
    let msg := match json_path ["error"] (rs_body resp) with inl m => m | inr _ => estr end in
    fail (ErrNew ("failed to create user: status " +:+ pretty (rs_status resp) +:+ ", error: " +:+ msg))
  else
    userID <- map_err (ErrWrap "failed to decode create user response")
                (decoded (json_path ["user_id"] (rs_body resp)));;
    token <- signUserToken tenantID userID;;
    ret (token, tenantID).

(** ** Handlers *)

Record LoginRequest : Type := mkLoginRequest {
  lr_Username : string;
  lr_Password : string
}.

Record MFALoginRequest : Type := mkMFALoginRequest {
  mr_PendingToken : string;
  mr_TOTPCode : string;
  mr_UserID : string
}.

Definition AccessTokenCookie : string := "wardseal_access_token".
Definition RefreshTokenCookie : string := "wardseal_refresh_token".

(** [setAuthCookies(c, access, refresh)]: the cookies it adds. *)
Definition setAuthCookies (accessToken refreshToken : string) : list Cookie :=
  mkCookie AccessTokenCookie accessToken 3600 "/" (lc_production lc) true ::
  (if decide (refreshToken <> estr)
   then [mkCookie RefreshTokenCookie refreshToken (7 * 24 * 3600) "/oauth2/token" (lc_production lc) true]
   else []).

(** [clearAuthCookies(c)] *)
Definition clearAuthCookies : list Cookie :=
  [mkCookie AccessTokenCookie estr (-1) "/" false true;
   mkCookie RefreshTokenCookie estr (-1) "/oauth2/token" false true].

Definition respondOAuthError (code message : string) : Response :=
  respond (if decide (code = "invalid_credentials") then 401 else 400)
    (JObj [("error", JStr code); ("error_description", JStr message)]).

Definition login_response (token : string) : Response :=
  mkResponse 200 (JObj [("token", JStr token)]) (setAuthCookies token estr) None.

Definition locked_response (lockedUntil : Z) : Response :=
  respond 429 (JObj [("error", JStr "account_locked");
    ("error_description", JStr "Too many failed login attempts. Please try again later.");
    ("locked_until", JNum lockedUntil)]).

Definition mfa_response (token username : string) : Response :=
  respond 200 (JObj [("mfa_required", JBool true); ("pending_token", JStr token);
                     ("user_id", JStr username)]).

(** A failed login: the attempt is recorded, and the account locked once the
    recent failures reach the limit.  Errors of the store are dropped. *)
Definition recordFailure (tenantID username ip : string) : LM unit :=
  if decide (lc_loginAttemptStore lc = true /\ tenantID <> estr) then
    ignore (in_attempts (attempt_Record tenantID username ip false));;
    failures <- attempt (in_attempts (attempt_GetRecentFailures tenantID username));;
    match failures with
    | inl n => if decide (n >= MaxFailedAttempts)%Z
               then ignore (in_attempts (attempt_LockAccount tenantID username)) else ret tt
    | inr _ => ret tt
    end
  else ret tt.

(** [h.login(c)] *)
Definition login `{!Binder LoginRequest, !Validator LoginRequest} : Handler (LoginState Auth X L T) :=
  fun c =>
  match should_bind (A := LoginRequest) (gc_request c) with
  | inr err => ret (respond 400 (error_body (error_string err)))
  | inl req =>
  match validate_struct req with
  | Some err => ret (respond 400 (error_body (error_string err)))
  | None =>
  let deviceID := GetHeader c "X-Device-ID" in
  let ip := ClientIP c in
  let tenantID := GetHeader c "X-Tenant-ID" in
  locked <- (if decide (lc_loginAttemptStore lc = true /\ tenantID <> estr) then
               r <- attempt (in_attempts (attempt_IsLocked tenantID (lr_Username req)));;
               ret (match r with inl l => l | inr _ => None end)
             else ret None);;
  match locked with
  | Some lockedUntil => ret (locked_response lockedUntil)
  | None =>
  let userAgent := GetHeader c "User-Agent" in
  let clientOSVersion := GetHeader c "X-OS-Version" in
  r <- attempt (Login c (lr_Username req) (lr_Password req) deviceID userAgent ip clientOSVersion);;
  match r with
  | inr err =>
      recordFailure tenantID (lr_Username req) ip;;
      if errors_Is err ErrInvalidCredentials then
        ret (respondOAuthError "invalid_credentials" "invalid username or password")
      else ret (respond 500 (error_body (error_string err)))
  | inl token =>
      (if decide (lc_loginAttemptStore lc = true /\ tenantID <> estr) then
         ignore (in_attempts (attempt_Record tenantID (lr_Username req) ip true));;
         ignore (in_attempts (attempt_UnlockAccount tenantID (lr_Username req)))
       else ret tt);;
      secret <- (if decide (lc_totpStore lc = true /\ tenantID <> estr) then
                   r <- attempt (in_totp (totp_GetByIdentity tenantID (lr_Username req)));;
                   ret (match r with inl x => x | inr _ => None end)
                 else ret None);;
      match secret with
      | Some s => if tp_Verified s then ret (mfa_response token (lr_Username req))
                  else ret (login_response token)
      | None => ret (login_response token)
      end
  end
  end
  end
  end.

(** [h.completeMFALogin(c)] *)
Definition completeMFALogin `{!Binder MFALoginRequest} : Handler (LoginState Auth X L T) :=
  fun c =>
  match should_bind (A := MFALoginRequest) (gc_request c) with
  | inr err => ret (respond 400 (error_body (error_string err)))
  | inl req =>
      let tenantID := GetHeader c "X-Tenant-ID" in
      if decide (tenantID = estr) then ret (respond 400 (error_body "X-Tenant-ID header required"))
      else
        if lc_totpStore lc then
          r <- attempt (in_totp (totp_GetByIdentity tenantID (mr_UserID req)));;
          match r with
          | inl (Some secret) =>
              t <- now;;
              if negb (totp_Validate t (mr_TOTPCode req) (tp_Secret secret)) then
                ret (respond 401 (error_body "invalid TOTP code"))
              else ret (login_response (mr_PendingToken req))
          | _ => ret (respond 401 (error_body "TOTP not configured"))
          end
        else panic "invalid memory address or nil pointer dereference"
  end.

Record SignupRequest : Type := mkSignupRequest {
  su_Email : string;
  su_Password : string;
  su_CompanyName : string
}.

(** [h.signup(c)] *)
Definition signup `{!Binder SignupRequest} : Handler (LoginState Auth X L T) :=
  fun c =>
  match should_bind (A := SignupRequest) (gc_request c) with
  | inr err => ret (respond 400 (error_body (error_string err)))
  | inl req =>
      r <- attempt (SignUp (su_Email req) (su_Password req) (su_CompanyName req));;
      match r with
      | inr err =>
          if strings_Contains (error_string err) "conflict" || strings_Contains (error_string err) "exists"
          then ret (respond 409 (error_body "Signup failed, possibly duplicate data"))
          else ret (respond 500 (error_body "Signup failed"))
      | inl (token, tenantID) =>
          ret (mkResponse 201 (JObj [("token", JStr token); ("tenant_id", JStr tenantID);
                                     ("message", JStr "Signup successful")])
                 (setAuthCookies token estr) None)
      end
  end.

(** [h.logout(c)] *)
Definition logout : Handler (LoginState Auth X L T) :=
  fun _ => ret (mkResponse 200 (JObj [("message", JStr "logged out successfully")]) clearAuthCookies None).

End Service.
