(* ===== verification/LoginFacts.v ===== *)
(** * What login guarantees

    Lockout after repeated failures, and what a second factor does and does
    not add. *)
From S2P Require Import Prelude GoStd GoUrl Sha256 Sql Http Middleware.
From S2P Require Import OAuthClient AuthClient TokenStores Risk AuthService AuthFacts AuthDemo Login.
Local Open Scope go_scope.

(** ** The attempt store, on a database that answers *)

Section Attempts.
Context (env : Env) (Hup : db_up env) (tenantID tenant username : string).
Hypothesis Htenant : pg_uuid env tenantID = Some tenant.

(** The account is locked until [until]: the row the queries find. *)
Definition locked_row (a : Attempts) (until : Z) : Prop :=
  exists l rest, filter (same_account tenant username) (at_lockouts a) = l :: rest /\
    lo_LockedUntil l = until.

Lemma IsLocked_locked n a until :
  locked_row a until -> (clock env (S n) <= until)%Z ->
  loginAttemptRepo_IsLocked tenantID username env (mkSt n a) = (Ok (Some until), mkSt (S (S n)) a).
Proof.
  intros (l & rest & Hf & <-) Ht. unfold loginAttemptRepo_IsLocked.
  assert (on_lockouts (sql_get_unique (same_account tenant username)) env (mkSt n a) = (Ok l, mkSt (S n) a)) as Eget.
  { unfold on_lockouts, zoom, sql_get_unique. rewrite statement_up by done. simpl. rewrite Hf.
    by destruct a. }
  mgo (or_nil_run (t <- uuid_arg tenantID;; on_lockouts (sql_get_unique (same_account t username))) env
         (mkSt n a) l (mkSt (S n) a) ltac:(mgo (uuid_arg_run (S := Attempts) _ _ _ (mkSt n a) Htenant); exact Eget)).
  mgo (now_run env (mkSt (S n) a)). simpl. by rewrite decide_False by lia.
Qed.

Lemma IsLocked_free n a :
  filter (same_account tenant username) (at_lockouts a) = [] ->
  loginAttemptRepo_IsLocked tenantID username env (mkSt n a) = (Ok None, mkSt (S n) a).
Proof.
  intros Hf. unfold loginAttemptRepo_IsLocked, or_nil, attempt, bind.
  rewrite (uuid_arg_run _ _ _ _ Htenant).
  unfold on_lockouts, zoom, sql_get_unique. rewrite statement_up by done. simpl. rewrite Hf. simpl.
  by destruct a.
Qed.

(** A recorded attempt is a row stamped with the server's clock. *)
Lemma RecordAttempt_run n a ip success :
  String.length username <= 255 -> String.length ip <= 45 ->
  (forall x, x ∈ at_attempts a -> lg_TenantID x = tenant -> lg_Username x = username ->
     lg_AttemptedAt x <> clock env n) ->
  loginAttemptRepo_RecordAttempt tenantID username ip success env (mkSt n a) =
  (Ok tt, mkSt (S n) (mkAttempts
     (at_attempts a ++ [mkLoginAttempt (gen_uuid env n) tenant username ip success (clock env n)])
     (at_lockouts a))).
Proof.
  intros Hu Hip Huniq. unfold loginAttemptRepo_RecordAttempt.
  mgo (uuid_arg_run (S := Attempts) _ _ env (mkSt n a) Htenant).
  mgo (varchar_arg_run (S := Attempts) 255 username env (mkSt n a) Hu).
  mgo (varchar_arg_run (S := Attempts) 45 ip env (mkSt n a) Hip).
  unfold on_attempts, zoom, sql_insert. rewrite statement_up by done. simpl.
  rewrite (proj2 (existsb_false _ _)); [done|].
  intros x Hx. apply bool_decide_eq_false. intros (H1 & H2 & H3). simpl in *.
  by eapply Huniq.
Qed.

Lemma GetRecentFailures_run n a :
  loginAttemptRepo_GetRecentFailures tenantID username env (mkSt n a) =
  (Ok (Z.of_nat (length (filter (recent_failure tenant username (clock env n)) (at_attempts a)))),
   mkSt (S n) a).
Proof.
  unfold loginAttemptRepo_GetRecentFailures.
  mgo (uuid_arg_run (S := Attempts) _ _ env (mkSt n a) Htenant).
  unfold on_attempts, zoom. rewrite statement_up by done. simpl. by destruct a.
Qed.

Lemma LockAccount_run n a :
  String.length username <= 255 ->
  filter (same_account tenant username) (at_lockouts a) = [] ->
  exists u, loginAttemptRepo_LockAccount tenantID username env (mkSt n a) = (Ok tt, u) /\
    at_attempts (st u) = at_attempts a /\ tick u = S (S n) /\
    locked_row (st u) (clock env n + LockoutDuration).
Proof.
  intros Hu Hf. unfold loginAttemptRepo_LockAccount.
  mgo (now_run env (mkSt n a)). cbn [tick st].
  mgo (uuid_arg_run (S := Attempts) _ _ env (mkSt (S n) a) Htenant).
  mgo (varchar_arg_run (S := Attempts) 255 username env (mkSt (S n) a) Hu).
  unfold on_lockouts, zoom, sql_upsert. rewrite statement_up by done. cbn [tick st].
  cbv zeta. cbn [lo_TenantID lo_Username]. rewrite Hf. cbn [existsb].
  replace (existsb _ _) with false by (symmetry; apply existsb_false; done).
  eexists. split; [reflexivity|]. split_and!; [done|done|].
  eexists _, []. cbn [st at_lockouts]. rewrite filter_app, Hf.
  rewrite filter_cons_True; [done|]. apply Is_true_true, bool_decide_eq_true. done.
Qed.

End Attempts.

(** ** Lockout *)
Section Lockout.
Context {crypto : Crypto} {totp : Totp}.
Context {C R V O D G X T : Type}.
Context `{!AuthorizationCodeStore C, !RefreshTokenStore R, !RevocationStore V, !OAuthStore O,
          !DeviceStore D, !SignalStore G}.
Context {peer : HttpPeer X} `{!TOTPStore T}.
Context `{!Binder LoginRequest, !Validator LoginRequest}.
Context (cfg : AuthConfig) (lc : LoginConfig).

Abbreviation State := (LoginState (AuthState C R V O D G) X Attempts T).

(** [Login] does not touch the attempts. *)
Lemma Login_attempts ctx u p d ua ip v env (s : St State) r t :
  Login cfg lc ctx u p d ua ip v env s = (r, t) -> ls_attempts (st t) = ls_attempts (st s).
Proof.
  assert (forall A (m : M (AuthState C R V O D G) A) (Q : Attempts -> Prop),
            preserves (fun x : State => Q (ls_attempts x)) (in_auth m)) as Ha.
  { intros A m Q env' s' HQ. unfold in_auth, zoom. by destruct (m env' _). }
  assert (forall A (m : M X A) (Q : Attempts -> Prop),
            preserves (fun x : State => Q (ls_attempts x)) (in_dir m)) as Hd.
  { intros A m Q env' s' HQ. unfold in_dir, zoom. by destruct (m env' _). }
  intros E. eapply (preserves_run (fun x : State => ls_attempts x = ls_attempts (st s))); [|exact E|done].
  unfold Login, registerLoginDevice, signUserToken, http_NewRequest, TenantIDFromContext, decoded, now.
  effects; first [apply (Ha _ _ (fun x => x = _))|apply (Hd _ _ (fun x => x = _))].
Qed.

(** A request of the user [username] of the tenant in its header. *)
Record login_request (c : GinCtx) (tenantID username password : string) : Prop := {
  lq_bind : should_bind (A := LoginRequest) (gc_request c) = inl (mkLoginRequest username password);
  lq_valid : validate_struct (mkLoginRequest username password) = None;
  lq_tenant : GetHeader c "X-Tenant-ID" = tenantID;
  lq_nonempty : tenantID <> estr
}.

Lemma in_attempts_run {A} (m : M Attempts A) env (s : St State) a n l :
  m env (mkSt (tick s) (ls_attempts (st s))) = (Ok a, mkSt n l) ->
  in_attempts m env s = (Ok a, mkSt n (mkLogin (ls_auth (st s)) (ls_dir (st s)) l (ls_totp (st s)))).
Proof. intros E. unfold in_attempts, zoom. by rewrite E. Qed.

Lemma attempt_run {S A} (m : M S A) env s a t :
  m env s = (Ok a, t) -> attempt m env s = (Ok (inl a), t).
Proof. intros E. unfold attempt. by rewrite E. Qed.

Lemma login_locked c tenantID tenant username password env n (x : State) until :
  db_up env -> pg_uuid env tenantID = Some tenant -> lc_loginAttemptStore lc = true ->
  login_request c tenantID username password ->
  locked_row tenant username (ls_attempts x) until -> (clock env (S n) <= until)%Z ->
  login cfg lc c env (mkSt n x) = (Ok (locked_response until), mkSt (S (S n)) x).
Proof.
  intros Hup Hten Hlc [Hb Hv Ht Hne] Hrow Htime. unfold login. rewrite Hb, Hv. cbv zeta. rewrite Ht.
  rewrite decide_True by done. cbn [lr_Username].
  pose proof (attempt_run _ _ _ _ _ (in_attempts_run _ env (mkSt n x) _ _ _
    (IsLocked_locked env Hup tenantID tenant username Hten n (ls_attempts x) until Hrow Htime))) as E.
  rewrite (bind_Ok _ _ _ _ (Some until) (mkSt (S (S n)) x)); [done|].
  rewrite (bind_Ok _ _ _ _ _ _ E). cbn. by destruct x.
Qed.

Lemma ignore_attempts_run {A} (m : M Attempts A) env (s : St State) a n l :
  m env (mkSt (tick s) (ls_attempts (st s))) = (Ok a, mkSt n l) ->
  ignore (in_attempts m) env s =
    (Ok tt, mkSt n (mkLogin (ls_auth (st s)) (ls_dir (st s)) l (ls_totp (st s)))).
Proof. intros E. by eapply ignore_run, in_attempts_run. Qed.

(** The failures that count at [tm]. *)
Definition recent_failures (tenant username : string) (tm : Z) (a : Attempts) : nat :=
  length (filter (recent_failure tenant username tm) (at_attempts a)).

Lemma recordFailure_locks tenantID tenant username ip env n (x : State) :
  db_up env -> pg_uuid env tenantID = Some tenant -> tenantID <> estr ->
  lc_loginAttemptStore lc = true ->
  String.length username <= 255 -> String.length ip <= 45 ->
  (forall a, a ∈ at_attempts (ls_attempts x) -> lg_TenantID a = tenant -> lg_Username a = username ->
     lg_AttemptedAt a <> clock env n) ->
  (clock env (S n) - 15 * minute < clock env n)%Z ->
  filter (same_account tenant username) (at_lockouts (ls_attempts x)) = [] ->
  4 <= recent_failures tenant username (clock env (S n)) (ls_attempts x) ->
  exists m y, recordFailure lc tenantID username ip env (mkSt n x) = (Ok tt, mkSt m y) /\
    locked_row tenant username (ls_attempts y) (clock env (S (S n)) + LockoutDuration) /\
    ls_auth y = ls_auth x /\ ls_dir y = ls_dir x /\ ls_totp y = ls_totp x.
Proof.
  intros Hup Hten Hne Hlc Hu Hip Huniq Hclk Hfree Hfour. unfold recordFailure.
  rewrite decide_True by done.
  pose proof (RecordAttempt_run env Hup tenantID tenant username Hten n (ls_attempts x) ip false
                Hu Hip Huniq) as E1.
  mgo (ignore_attempts_run _ env (mkSt n x) _ _ _ E1). cbn [st ls_auth ls_dir ls_totp].
  set (a1 := mkAttempts _ _). set (x1 := mkLogin _ _ a1 _).
  pose proof (GetRecentFailures_run env Hup tenantID tenant username Hten (S n) a1) as E2.
  mgo (attempt_run _ _ _ _ _ (in_attempts_run _ env (mkSt (S n) x1) _ _ _ E2)). cbn [st ls_auth ls_dir ls_totp].
  rewrite decide_True.
  - destruct (LockAccount_run env Hup tenantID tenant username Hten (S (S n)) a1 Hu Hfree)
      as ([m l] & E3 & _ & _ & Hrow).
    eexists m, _. split; [exact (ignore_attempts_run _ env (mkSt (S (S n)) x1) _ _ _ E3)|]. done.
  - subst a1. cbn [at_attempts]. rewrite filter_app, length_app. unfold recent_failures in Hfour.
    rewrite filter_cons_True; [unfold MaxFailedAttempts; cbn; lia|].
    apply Is_true_true. unfold recent_failure. rewrite bool_decide_eq_true_2 by done. cbn.
    by apply Z.ltb_lt.
Qed.


End Lockout.

(** ** The second factor *)
Section SecondFactor.
Context {crypto : Crypto} {totp : Totp}.
Context {C R V O D G X L T : Type}.
Context `{!AuthorizationCodeStore C, !RefreshTokenStore R, !RevocationStore V, !OAuthStore O,
          !DeviceStore D, !SignalStore G}.
Context {peer : HttpPeer X} `{!LoginAttemptStore L, !TOTPStore T}.
Context (cfg : AuthConfig) (lc : LoginConfig).

Abbreviation Auth := (AuthState C R V O D G).
Abbreviation State := (LoginState Auth X L T).

Definition user_claims (tenantID userID : string) (t1 t2 : Z) : Claims :=
  [("sub", JStr userID); ("iss", JStr "identity-platform"); ("aud", JStr "client-app");
   ("exp", JNum (unix (t1 + hour))); ("iat", JNum (unix t2));
   ("scope", JStr "openid profile email"); ("tenant", JStr tenantID)].

Lemma signUserToken_inv tenantID userID env (s : St State) token u :
  signUserToken cfg tenantID userID env s = (Ok token, u) ->
  SignedString (a_keyID cfg)
    (user_claims tenantID userID (clock env (tick s)) (clock env (S (tick s)))) = inl token.
Proof. unfold signUserToken. intros H. by minv. Qed.

(** What a successful login vouches for: the directory answered 200 with this
    user, and the token is signed for that user and the request's tenant. *)
Lemma Login_inv ctx username password d ua ip v env (s : St State) token u :
  Login cfg lc ctx username password d ua ip v env s = (Ok token, u) ->
  exists tenantID userID n call resp x y,
    gc_tenant ctx = Some tenantID /\
    hc_body call = JObj [("email", JStr username); ("password", JStr password)] /\
    http_Do call env (mkSt (tick s) (ls_dir (st s))) = (Ok resp, mkSt x y) /\ rs_status resp = 200%Z /\
    json_path ["user"; "id"] (rs_body resp) = inl userID /\
    SignedString (a_keyID cfg) (user_claims tenantID userID (clock env n) (clock env (S n))) = inl token.
Proof.
  unfold Login. intros H. apply bind_Ok_inv in H as (tenantID & t0 & E0 & H).
  assert (gc_tenant ctx = Some tenantID /\ t0 = s) as [Hten ->].
  { unfold TenantIDFromContext in E0. by minv. }
  unfold http_NewRequest in H. destruct (url_Parse _) as [url|e]; [|by minv].
  rewrite (bind_Ok _ _ _ _ _ s eq_refl) in H. cbv zeta in H.
  apply bind_Ok_inv in H as (resp & t1 & E1 & H). apply zoom_Ok_inv in E1 as ([x y] & E1 & ->).
  case_decide; [by minv|]. destruct (decide (rs_status resp <> 200%Z)) as [|Hst%dec_stable]; [by minv|].
  apply bind_Ok_inv in H as (userID & t2 & E2 & H). unfold decoded at 1 in E2. 
  destruct (json_path ["user"; "id"] _) eqn:Hid; [|by minv]. apply ret_Ok_inv in E2 as [<- <-].
  apply bind_Ok_inv in H as (em & t3 & _ & H). apply bind_Ok_inv in H as (risk & t4 & _ & H).
  assert (exists t, signUserToken cfg tenantID s0 env t = (Ok token, u)) as [t Ht].
  { destruct risk as [score|e]; [case_decide; [by minv|]|];
      apply bind_Ok_inv in H as (? & t & _ & H); eauto. }
  apply signUserToken_inv in Ht. exists tenantID, s0, (tick t). eexists. exists resp, x, y.
  split_and!; [done| |exact E1|done|done|done].
  unfold service_auth. by case_decide.
Qed.

(** *** What a login leaves of the second factors *)
Abbreviation totp_is rows := (fun x : State => ls_totp x = rows).

Lemma in_auth_totp {A} (m : M Auth A) rows : preserves (totp_is rows) (in_auth m).
Proof. intros env s HQ. unfold in_auth, zoom. by destruct (m env _). Qed.

Lemma in_dir_totp {A} (m : M X A) rows : preserves (totp_is rows) (in_dir m).
Proof. intros env s HQ. unfold in_dir, zoom. by destruct (m env _). Qed.

Lemma in_attempts_totp {A} (m : M L A) rows : preserves (totp_is rows) (in_attempts m).
Proof. intros env s HQ. unfold in_attempts, zoom. by destruct (m env _). Qed.

#[local] Hint Resolve in_auth_totp in_dir_totp in_attempts_totp : effects.

Lemma Login_totp ctx u p d ua ip v rows :
  preserves (totp_is rows) (Login cfg lc ctx u p d ua ip v).
Proof.
  unfold Login, registerLoginDevice, signUserToken, http_NewRequest, TenantIDFromContext, decoded, now.
  effects.
Qed.

(** Property C16. The pending token of a login that still needs its second
    factor is an ordinary access token: presented to introspection it is
    active, for the user, with the full scope of a login, until it expires, is
    revoked or a critical event is found for the user. *)
Theorem mfa_pending_token_active `{!JwtLaws, !RevocationLaws V}
    `{!Binder LoginRequest, !Validator LoginRequest} c env (s : St State) token username u :
  login cfg lc c env s = (Ok (mfa_response token username), u) ->
  exists tenantID userID n, gc_tenant c = Some tenantID /\
    SignedString (a_keyID cfg) (user_claims tenantID userID (clock env n) (clock env (S n))) = inl token /\
    forall (s2 : St Auth) m,
      json_exact (JObj (user_claims tenantID userID (clock env n) (clock env (S n)))) = true ->
      on_revoked (rev_IsRevoked token) env s2 = (Ok false, mkSt m (st s2)) ->
      (a_signalStore cfg = true -> exists e u,
         on_signal_store (signal_GetLatestCriticalEvent userID (unix (clock env (S n)) * second)) env (mkSt (S m) (st s2)) = (Err e, u)) ->
      (clock env m < unix (clock env n + hour) * second)%Z ->
      exists v, Introspect cfg token env s2 =
        (Ok (mkIntrospectResponse true "openid profile email" userID "access_token"
               (unix (clock env n + hour)) (unix (clock env (S n))) userID "client-app"
               "identity-platform" tenantID), v).
Proof.
  intros Hl. unfold login in Hl.
  destruct (should_bind _) as [req|e]; [|by minv]. destruct (validate_struct req); [by minv|]. cbv zeta in Hl.
  apply bind_Ok_inv in Hl as (locked & t1 & _ & Hl). destruct locked; [by minv|].
  apply bind_Ok_inv in Hl as (r & t2 & Er & Hl). apply attempt_Ok_inv in Er as [(tk & -> & Er)|(e & -> & Er)].
  - apply bind_Ok_inv in Hl as (x & t3 & _ & Hl). apply bind_Ok_inv in Hl as (sec & t4 & _ & Hl).
    assert (tk = token) as ->.
    { destruct sec as [sec|]; [destruct (tp_Verified sec)|]; minv; congruence. }
    apply Login_inv in Er as (tenantID & userID & n & call & resp & ? & ? & Hten & _ & _ & _ & _ & Hsign).
    exists tenantID, userID, n. split; [done|]. split; [done|]. intros s2 m Hexact Hrev Hsig Hlt.
    pose proof (jwt_roundtrip _ _ _ (unix (clock env n + hour)) (clock env m) Hsign eq_refl eq_refl Hexact) as Hp.
    rewrite decide_True in Hp by done. unfold Introspect. mgo Hrev.
    mgo (now_run env (mkSt m (st s2))). cbn [tick st]. rewrite Hp.
    destruct (a_signalStore cfg); [|by eexists]. destruct (Hsig eq_refl) as (e & w & Ew). cbv zeta.
    change (claim_string "sub" (user_claims tenantID userID (clock env n) (clock env (S n)))) with userID.
    change (claim_number "iat" (user_claims tenantID userID (clock env n) (clock env (S n)))) with (unix (clock env (S n))).
    unfold bind, attempt. rewrite Ew. by eexists.
  - apply bind_Ok_inv in Hl as (x & t3 & _ & Hl). destruct (errors_Is _ _); by minv.
Qed.

(** The second step of a login never looks at the pending token:
    with a valid code for an enrolled user, verified or not, whatever string
    the request carries is returned and set as the session's access token. *)
Theorem completeMFALogin_any_token `{!Binder MFALoginRequest} c env (s : St State) token code userID secret s1 :
  lc_totpStore lc = true ->
  GetHeader c "X-Tenant-ID" <> estr ->
  should_bind (A := MFALoginRequest) (gc_request c) = inl (mkMFALoginRequest token code userID) ->
  in_totp (totp_GetByIdentity (GetHeader c "X-Tenant-ID") userID) env s = (Ok (Some secret), s1) ->
  totp_Validate (clock env (tick s1)) code (tp_Secret secret) = true ->
  exists u, completeMFALogin lc c env s = (Ok (login_response lc token), u) /\
    In (mkCookie AccessTokenCookie token 3600 "/" (lc_production lc) true)
       (rs_cookies (login_response lc token)).
Proof.
  intros Hlc Hne Hb Hget Hval. unfold completeMFALogin. rewrite Hb. cbv zeta.
  rewrite decide_False by done. rewrite Hlc. cbn [mr_UserID mr_TOTPCode mr_PendingToken].
  mgo (attempt_run _ _ _ _ _ Hget). mgo (now_run env s1). rewrite Hval. cbn.
  eexists. split; [reflexivity|]. by left.
Qed.

End SecondFactor.
