(* ===== verification/AuthApi.v ===== *)
(** * The auth service's HTTP handlers

    The handlers of internal/auth/api.go that are not about passwords
    (those are in Login.v), totp_api.go, device_api.go, signal_api.go and
    mfa_api.go, with the [LookupUser] and WebAuthn operations of service.go
    they call.

    Each handler runs on the part of the service's state it uses.  The
    ceremonies of WebAuthn are go-webauthn's and a class; its credentials are
    behind [WebAuthnRepository], which AuthSvc.v implements. *)
From S2P Require Import Prelude GoStd GoUrl Sha256 Sql Http Middleware.
From S2P Require Import OAuthClient AuthClient TokenStores Risk AuthService Login.
Local Open Scope go_scope.

(** ** OAuth (api.go) *)

Record IntrospectRequest : Type := mkIntrospectRequest {
  iq_Token : string;
  iq_TokenTypeHint : string
}.

Record RevokeRequest : Type := mkRevokeRequest {
  vq_Token : string;
  vq_TokenTypeHint : string
}.

Definition TokenResponse_json (r : TokenResponse) : json :=
  JObj ([("access_token", JStr (ts_AccessToken r)); ("token_type", JStr (ts_TokenType r));
         ("expires_in", JNum (ts_ExpiresIn r))]
        ++ omitempty "refresh_token" (ts_RefreshToken r) ++ omitempty "scope" (ts_Scope r)).

Definition IntrospectResponse_json (r : IntrospectResponse) : json :=
  JObj ([("active", JBool (ir_Active r))]
        ++ omitempty "scope" (ir_Scope r) ++ omitempty "client_id" (ir_ClientID r)
        ++ omitempty "token_type" (ir_TokenType r) ++ omitzero "exp" (ir_Exp r)
        ++ omitzero "iat" (ir_Iat r) ++ omitempty "sub" (ir_Sub r) ++ omitempty "aud" (ir_Aud r)
        ++ omitempty "iss" (ir_Iss r) ++ omitempty "tenant_id" (ir_TenantID r)).

(** The errors of a service call, as [authorize] and [token] answer them. *)
Definition oauth_failure (err : error) : Response :=
  match errors_As_service err with
  | Some (code, message) => respondOAuthError code message
  | None => respond 500 (error_body (error_string err))
  end.

Section OAuth.
Context {crypto : Crypto}.
Context {C R V O D G : Type}.
Context `{!AuthorizationCodeStore C, !RefreshTokenStore R, !RevocationStore V, !OAuthStore O,
          !DeviceStore D, !SignalStore G}.
Context (cfg : AuthConfig).

Abbreviation Auth := (AuthState C R V O D G).

(** [h.authorize(c)]: [c.Redirect(http.StatusFound, ...)] *)
Definition authorize `{!Binder AuthorizeRequest, !Validator AuthorizeRequest} : Handler Auth :=
  fun c => bound c (fun req : AuthorizeRequest => validated req (
    r <- attempt (Authorize cfg c req);;
    match r with
    | inr err => ret (oauth_failure err)
    | inl redirectURI => ret (mkResponse 302 JNull [] (Some redirectURI))
    end)).

(** [h.token(c)] *)
Definition token `{!Binder TokenRequest, !Validator TokenRequest} : Handler Auth :=
  fun c => bound c (fun req : TokenRequest => validated req (
    r <- attempt (Token cfg c req);;
    match r with
    | inr err => ret (oauth_failure err)
    | inl resp => ret (respond 200 (TokenResponse_json resp))
    end)).

(** [h.introspect(c)] *)
Definition introspect `{!Binder IntrospectRequest, !Validator IntrospectRequest} : Handler Auth :=
  fun c => bound c (fun req : IntrospectRequest => validated req (
    r <- attempt (Introspect cfg (iq_Token req));;
    match r with
    | inr err => ret (respond 500 (error_body (error_string err)))
    | inl resp => ret (respond 200 (IntrospectResponse_json resp))
    end)).

(** [h.revoke(c)] *)
Definition revoke `{!Binder RevokeRequest, !Validator RevokeRequest} : Handler Auth :=
  fun c => bound c (fun req : RevokeRequest => validated req (
    r <- attempt (Revoke (vq_Token req));;
    match r with
    | inr err => ret (respond 500 (error_body (error_string err)))
    | inl _ => ret (respond_status 200)
    end)).

End OAuth.

(** ** TOTP (totp_api.go) *)

Record TOTPVerifyRequest : Type := mkTOTPVerifyRequest {
  tv_UserID : string;
  tv_Code : string
}.

(** [TOTPEnrollRequest] has one field. *)
Record TOTPEnrollRequest : Type := mkTOTPEnrollRequest { te_UserID : string }.

Section TotpApi.
Context {totp : Totp} {T : Type} `{!TOTPStore T}.
Context (totpStore : bool).

(** [tenantID := c.GetHeader("X-Tenant-ID")], required. *)
Definition header_tenant (c : GinCtx) (k : string -> M T Response) : M T Response :=
  let tenantID := GetHeader c "X-Tenant-ID" in
  if decide (tenantID = estr) then ret (respond 400 (error_body "X-Tenant-ID header required"))
  else k tenantID.

(** [userID := c.Query("user_id")], required. *)
Definition query_user (c : GinCtx) (k : string -> M T Response) : M T Response :=
  let userID := Query c "user_id" in
  if decide (userID = estr) then ret (respond 400 (error_body "user_id query parameter required"))
  else k userID.

(** [h.enrollTOTP(c)]; the key and its QR code come from one call, whose error
    carries the handler's message. *)
Definition enrollTOTP `{!Binder TOTPEnrollRequest} : Handler T :=
  fun c => bound c (fun req : TOTPEnrollRequest => header_tenant c (fun tenantID =>
    key <- observe (fun _ n => totp_Generate n (te_UserID req));;
    match key with
    | inr err => ret (respond 500 (error_body (error_string err)))
    | inl (secret, url, png) =>
        or_500 "failed to store TOTP secret"
          (non_nil totpStore (totp_Create (te_UserID req) tenantID secret)) (fun _ =>
        ret (respond 200 (JObj [("secret", JStr secret); ("qr_code", JStr png);
                                ("otpauth_url", JStr url)])))
    end)).

(** [h.verifyTOTP(c)] *)
Definition verifyTOTP `{!Binder TOTPVerifyRequest} : Handler T :=
  fun c => bound c (fun req : TOTPVerifyRequest => header_tenant c (fun tenantID =>
    or_500 "failed to retrieve TOTP secret"
      (non_nil totpStore (totp_GetByIdentity tenantID (tv_UserID req))) (fun stored =>
    match stored with
    | None => ret (respond 404 (error_body "TOTP not enrolled for this user"))
    | Some stored =>
        t <- now;;
        if negb (totp_Validate t (tv_Code req) (tp_Secret stored)) then
          ret (respond 401 (error_body "invalid TOTP code"))
        else
          let verified := ret (respond 200 (JObj [("verified", JBool true)])) in
          if tp_Verified stored then verified
          else or_500 "failed to verify TOTP" (totp_MarkVerified (tp_ID stored)) (fun _ => verified)
    end))).

(** [h.deleteTOTP(c)] *)
Definition deleteTOTP : Handler T :=
  fun c => query_user c (fun userID => header_tenant c (fun tenantID =>
    or_500 "failed to delete TOTP" (non_nil totpStore (totp_Delete tenantID userID)) (fun _ =>
    ret (respond 200 (JObj [("message", JStr "TOTP deleted")]))))).

(** [h.getTOTPStatus(c)] *)
Definition getTOTPStatus : Handler T :=
  fun c => query_user c (fun userID => header_tenant c (fun tenantID =>
    or_500 "failed to get TOTP status" (non_nil totpStore (totp_GetByIdentity tenantID userID)) (fun stored =>
    match stored with
    | None => ret (respond 200 (JObj [("enrolled", JBool false); ("verified", JBool false)]))
    | Some stored =>
        ret (respond 200 (JObj [("enrolled", JBool true); ("verified", JBool (tp_Verified stored));
                                ("created_at", JNum (tp_CreatedAt stored))]))
    end))).

End TotpApi.

(** ** Devices and signals (device_api.go, signal_api.go) *)

Definition AnonymousUserID : string := "00000000-0000-0000-0000-000000000000".

Record RegisterDeviceRequest : Type := mkRegisterDeviceRequest {
  rd_DeviceIdentifier : string;
  rd_OS : string;
  rd_OSVersion : string;
  rd_IsManaged : bool
}.

Record UpdatePostureRequest : Type := mkUpdatePostureRequest {
  up_IsCompliant : bool;
  up_RiskScore : Z
}.

Record IngestSignalRequest : Type := mkIngestSignalRequest {
  ig_SubjectID : string;
  ig_EventType : string;
  ig_Reason : string
}.

Definition Device_json (d : Device) : json :=
  JObj [("id", JStr (dv_ID d)); ("tenant_id", JStr (dv_TenantID d)); ("user_id", JStr (dv_UserID d));
        ("device_identifier", JStr (dv_DeviceIdentifier d)); ("os", JStr (dv_OS d));
        ("os_version", JStr (dv_OSVersion d)); ("is_managed", JBool (dv_IsManaged d));
        ("is_compliant", JBool (dv_IsCompliant d)); ("last_seen_at", JNum (dv_LastSeenAt d));
        ("risk_score", JNum (dv_RiskScore d)); ("created_at", JNum (dv_CreatedAt d));
        ("updated_at", JNum (dv_UpdatedAt d))].

Section DeviceApi.
Context {D : Type} `{!DeviceStore D} (deviceStore : bool).

(** [h.registerDevice(c)] *)
Definition registerDevice `{!Binder RegisterDeviceRequest} : Handler D :=
  fun c => bound c (fun req : RegisterDeviceRequest => with_tenant "missing tenant context" c (fun tenantID =>
    let userID := GetHeader c "X-User-ID" in
    let userID := if decide (userID = estr) then AnonymousUserID else userID in
    t <- now;;
    or_500 "failed to register device" (non_nil deviceStore (device_Register
      (mkDevice estr tenantID userID (rd_DeviceIdentifier req) (rd_OS req) (rd_OSVersion req)
         (rd_IsManaged req) true t 0 0 0))) (fun device =>
    ret (respond 201 (Device_json device))))).

(** [h.updatePosture(c)] *)
Definition updatePosture `{!Binder UpdatePostureRequest} : Handler D :=
  fun c =>
    let id := Param c "id" in
    bound c (fun req : UpdatePostureRequest =>
    or_500 "failed to update device posture"
      (non_nil deviceStore (device_UpdatePosture id (up_IsCompliant req) (up_RiskScore req))) (fun _ =>
    ret (respond_status 200))).

(** [h.listDevices(c)] *)
Definition listDevices : Handler D :=
  fun c => with_tenant "missing tenant context" c (fun tenantID =>
    or_500 "failed to list devices" (non_nil deviceStore (device_List tenantID)) (fun devices =>
    ret (respond 200 (JArr (map Device_json devices))))).

(** [h.deleteDevice(c)] *)
Definition deleteDevice : Handler D :=
  fun c =>
    let id := Param c "id" in
    or_500 "failed to delete device" (non_nil deviceStore (device_Delete id)) (fun _ =>
    ret (respond_status 204)).

End DeviceApi.

(** [h.ingestSignal(c)] *)
Definition ingestSignal {G} `{!SignalStore G} (signalStore : bool) `{!Binder IngestSignalRequest}
    : Handler G :=
  fun c => bound c (fun req : IngestSignalRequest => with_tenant "missing tenant context" c (fun tenantID =>
    t <- now;;
    or_500 "failed to ingest signal" (non_nil signalStore (signal_Ingest
      (mkSecurityEvent estr tenantID (ig_SubjectID req) (ig_EventType req) t estr (ig_Reason req) 0)))
      (fun _ => ret (respond_status 202)))).

(** ** WebAuthn (mfa_api.go, service.go) *)

Definition SystemTenantID : string := "11111111-1111-1111-1111-111111111111".

(** go-webauthn's credential, with its authenticator. *)
Record Credential : Type := mkCredential {
  cr_ID : string;
  cr_PublicKey : string;
  cr_AttestationType : string;
  cr_AAGUID : string;
  cr_SignCount : Z;
  cr_CloneWarning : bool
}.

Record WebAuthnUser : Type := mkWebAuthnUser {
  wu_ID : string;
  wu_Name : string;
  wu_DisplayName : string;
  wu_Credentials : list Credential
}.

Class WebAuthnRepository (W : Type) : Type := {
  wa_SaveCredential : string -> string -> Credential -> M W unit;
  wa_ListCredentials : string -> M W (list Credential);
  wa_UpdateCredential : Credential -> M W unit
}.

(** go-webauthn's ceremonies: options for the browser with a session to
    remember, and the check of the browser's answer against the session. *)
Class WebAuthn (SD : Type) : Type := {
  wa_BeginRegistration : nat -> WebAuthnUser -> (json * SD) + error;
  wa_FinishRegistration : WebAuthnUser -> SD -> Request -> Credential + error;
  wa_BeginLogin : nat -> WebAuthnUser -> (json * SD) + error;
  wa_FinishLogin : WebAuthnUser -> SD -> Request -> Credential + error
}.

(** [LookupResult] *)
Record LookupResult : Type := mkLookupResult {
  lk_UserID : string;
  lk_WebAuthnEnabled : bool;
  lk_TenantID : string
}.

Record LookupRequest : Type := mkLookupRequest { lu_Email : string }.

Section Lookup.
Context {X W : Type} {peer : HttpPeer X} `{!WebAuthnRepository W}.
Context (lc : LoginConfig).

Definition on_peer {A} (m : M X A) : M (X * W) A := zoom fst (fun x s => (x, snd s)) m.
Definition on_creds {A} (m : M W A) : M (X * W) A := zoom snd (fun w s => (fst s, w)) m.

(** Tenant discovery, when the request names none. *)
Definition discoverTenant (email : string) : M (X * W) string :=
  req <- http_NewRequest "GET" (lc_directoryServiceURL lc +:+ "/internal/discover") JNull;;
  let req := service_auth lc (add_query "email" email req) in
  resp <- map_err (ErrWrap "failed to discover tenant") (on_peer (http_Do req));;
  if decide (rs_status resp = 404%Z) then
    fail (ErrNew "user not found (or tenant could not be discovered)")
  else if decide (rs_status resp <> 200%Z) then
    fail (ErrNew ("directory discovery returned status " +:+ pretty (rs_status resp)))
  else map_err (ErrWrap "failed to decode discovery response")
         (decoded (json_path ["tenant_id"] (rs_body resp))).

(** [s.LookupUser(ctx, tenantID, email)] *)
Definition LookupUser (tenantID email : string) : M (X * W) LookupResult :=
  tenantID <- (if decide (tenantID = estr) then discoverTenant email else ret tenantID);;
  req <- http_NewRequest "GET" (lc_directoryServiceURL lc +:+ "/users") JNull;;
  let req := with_header "Content-Type" "application/json" (add_query "email" email req) in
  let req := service_auth lc (with_header DefaultTenantHeader tenantID req) in
  resp <- on_peer (http_Do req);;
  if decide (rs_status resp = 404%Z) then fail (ErrNew "user not found")
  else if decide (rs_status resp <> 200%Z) then
    fail (ErrNew ("directory service returned status " +:+ pretty (rs_status resp)))
  else
    userID <- decoded (json_path ["user"; "id"] (rs_body resp));;
    creds <- attempt (on_creds (wa_ListCredentials userID));;
    let enabled := match creds with inl (_ :: _) => true | _ => false end in
    ret (mkLookupResult userID enabled tenantID).

(** [h.lookupUser(c)] *)
Definition lookupUser `{!Binder LookupRequest} : Handler (X * W) :=
  fun c => bound c (fun req : LookupRequest =>
    r <- attempt (LookupUser (GetHeader c "X-Tenant-ID") (lu_Email req));;
    match r with
    | inr _ => ret (respond 404 (error_body "user not found"))
    | inl result =>
        ret (respond 200 (JObj ([("user_id", JStr (lk_UserID result));
                                 ("webauthn_enabled", JBool (lk_WebAuthnEnabled result))]
                                ++ omitempty "tenant_id" (lk_TenantID result))))
    end).

End Lookup.

(** The credentials, the auth state tokens are minted in, and the sessions
    [webAuthnSessions] between the two halves of a ceremony. *)
Record PasskeyState (A W SD : Type) : Type := mkPasskey {
  pk_auth : A;
  pk_creds : W;
  pk_sessions : gmap string SD
}.
Arguments mkPasskey {A W SD}.
Arguments pk_auth {A W SD}.
Arguments pk_creds {A W SD}.
Arguments pk_sessions {A W SD}.

Record BeginLoginRequest : Type := mkBeginLoginRequest { bl_UserID : string }.

Section Passkeys.
Context {crypto : Crypto} {SD : Type} {lib : WebAuthn SD}.
Context {C R V O D G W : Type}.
Context `{!WebAuthnRepository W}.
Context (cfg : AuthConfig).

Abbreviation Auth := (AuthState C R V O D G).
Abbreviation State := (PasskeyState Auth W SD).

Definition in_pk_auth {A} (m : M Auth A) : M State A :=
  zoom pk_auth (fun a s => mkPasskey a (pk_creds s) (pk_sessions s)) m.

Definition in_pk_creds {A} (m : M W A) : M State A :=
  zoom pk_creds (fun w s => mkPasskey (pk_auth s) w (pk_sessions s)) m.

(** [webAuthnSessions[k] = v] and [delete(webAuthnSessions, k)] *)
Definition set_session (k : string) (v : SD) : M State unit :=
  modify (fun s => mkPasskey (pk_auth s) (pk_creds s) (<[k := v]> (pk_sessions s))).

Definition delete_session (k : string) : M State unit :=
  modify (fun s => mkPasskey (pk_auth s) (pk_creds s) (delete k (pk_sessions s))).

Definition BeginWebAuthnRegistration (userID : string) : M State (json * SD) :=
  creds <- attempt (in_pk_creds (wa_ListCredentials userID));;
  let user := mkWebAuthnUser userID userID "User" (match creds with inl l => l | inr _ => [] end) in
  r <- observe (fun _ n => wa_BeginRegistration n user);;
  decoded r.

Definition FinishWebAuthnRegistration (userID : string) (session : SD) (req : Request) : M State unit :=
  credential <- decoded (wa_FinishRegistration (mkWebAuthnUser userID estr estr []) session req);;
  in_pk_creds (wa_SaveCredential SystemTenantID userID credential).

Definition BeginWebAuthnLogin (userID : string) : M State (json * SD) :=
  creds <- in_pk_creds (wa_ListCredentials userID);;
  if decide (creds = []) then fail (ErrNew "no credentials found for user")
  else r <- observe (fun _ n => wa_BeginLogin n (mkWebAuthnUser userID estr estr creds));;
       decoded r.

Definition FinishWebAuthnLogin (userID : string) (session : SD) (req : Request) : M State string :=
  creds <- in_pk_creds (wa_ListCredentials userID);;
  credential <- decoded (wa_FinishLogin (mkWebAuthnUser userID estr estr creds) session req);;
  ignore (in_pk_creds (wa_UpdateCredential credential));;
  in_pk_auth (generateAccessToken cfg SystemTenantID userID "openid" "user").

(** [h.beginWebAuthnRegistration(c)] *)
Definition beginWebAuthnRegistration : Handler State :=
  fun c =>
    let userID := GetHeader c "X-User-ID" in
    if decide (userID = estr) then ret (respond 400 (error_body "user_id required"))
    else
      r <- attempt (BeginWebAuthnRegistration userID);;
      match r with
      | inr err => ret (respond 500 (error_body (error_string err)))
      | inl (options, session) => set_session userID session;; ret (respond 200 options)
      end.

(** [h.finishWebAuthnRegistration(c)] *)
Definition finishWebAuthnRegistration : Handler State :=
  fun c =>
    let userID := GetHeader c "X-User-ID" in
    if decide (userID = estr) then ret (respond 400 (error_body "user_id required"))
    else
      sessions <- gets pk_sessions;;
      match sessions !! userID with
      | None => ret (respond 400 (error_body "session not found"))
      | Some session =>
          r <- attempt (FinishWebAuthnRegistration userID session (gc_request c));;
          match r with
          | inr err => ret (respond 400 (error_body (error_string err)))
          | inl _ => delete_session userID;;
                     ret (respond 200 (JObj [("message", JStr "Registration successful")]))
          end
      end.

(** [h.beginWebAuthnLogin(c)] *)
Definition beginWebAuthnLogin `{!Binder BeginLoginRequest} : Handler State :=
  fun c =>
    match should_bind (A := BeginLoginRequest) (gc_request c) with
    | inr _ => ret (respond 400 (error_body "invalid request"))
    | inl req =>
        r <- attempt (BeginWebAuthnLogin (bl_UserID req));;
        match r with
        | inr err => ret (respond 500 (error_body (error_string err)))
        | inl (options, session) => set_session (bl_UserID req) session;; ret (respond 200 options)
        end
    end.

(** [h.finishWebAuthnLogin(c)] *)
Definition finishWebAuthnLogin : Handler State :=
  fun c =>
    let userID := Query c "user_id" in
    if decide (userID = estr) then ret (respond 400 (error_body "user_id query param required"))
    else
      sessions <- gets pk_sessions;;
      match sessions !! userID with
      | None => ret (respond 400 (error_body "session not found"))
      | Some session =>
          r <- attempt (FinishWebAuthnLogin userID session (gc_request c));;
          match r with
          | inr err => ret (respond 401 (error_body (error_string err)))
          | inl token => delete_session userID;;
                         ret (respond 200 (JObj [("access_token", JStr token);
                                                 ("token_type", JStr "Bearer")]))
          end
      end.

End Passkeys.
