(* ===== verification/AuthApiFacts.v ===== *)
(** * What the handlers of the auth service guarantee

    Enrolment in TOTP, what enrolling again does to the second factor, and
    what a finished passkey ceremony vouches for. *)
From S2P Require Import Prelude GoStd GoUrl Sha256 Sql Http Middleware.
From S2P Require Import OAuthClient AuthClient TokenStores Risk AuthService AuthFacts AuthDemo.
From S2P Require Import Login LoginFacts AuthApi.
Local Open Scope go_scope.

(** ** TOTP *)
Section Totp.
Context {totp : Totp} `{!Binder TOTPEnrollRequest, !Binder TOTPVerifyRequest}.

(** The row a user's codes are checked against. *)
Definition totp_row (tenant userID : string) (rows : list TOTPSecret) : option TOTPSecret :=
  head (filter (same_identity tenant userID) rows).

Lemma GetByIdentity_run tenantID tenant userID env n rows :
  db_up env -> pg_uuid env tenantID = Some tenant ->
  totpRepo_GetByIdentity tenantID userID env (mkSt n rows) =
    (Ok (totp_row tenant userID rows), mkSt (S n) rows).
Proof.
  intros Hup Ht. unfold totpRepo_GetByIdentity, or_nil, attempt, bind.
  rewrite (uuid_arg_run _ _ _ _ Ht). unfold sql_get_unique. rewrite statement_up by done. cbn [st tick].
  unfold totp_row. by destruct (filter _ rows).
Qed.

Lemma filter_map_merge {A} (p : A -> bool) (f : A -> A) (l : list A) :
  (forall x, p (f x) = p x) ->
  filter p (map (fun x => if p x then f x else x) l) = map f (filter p l).
Proof.
  intros Hf. induction l as [|x l IH]; [done|]. cbn [map]. rewrite !filter_cons.
  destruct (p x) eqn:Hp.
  - rewrite decide_True by (rewrite Hf, Hp; done). rewrite decide_True by done. by rewrite IH.
  - rewrite !decide_False by (rewrite Hp; auto). done.
Qed.

(** A created secret is the user's, and is not verified. *)
Lemma totpRepo_Create_row userID tenantID secret env s a u :
  totpRepo_Create userID tenantID secret env s = (Ok a, u) ->
  exists tenant r, pg_uuid env tenantID = Some tenant /\
    totp_row tenant userID (st u) = Some r /\ tp_Secret r = secret /\ tp_Verified r = false /\
    (tp_ID r = gen_uuid env (tick s) \/ exists r', r' ∈ st s /\ tp_ID r = tp_ID r').
Proof.
  unfold totpRepo_Create. intros H. minv. apply sql_upsert_Ok_inv in H as [_ H]. cbn in H.
  exists a1. destruct H as [(old & Hin & Hc & _ & Hst)|(Hno & _ & Hst)]; rewrite Hst.
  - unfold totp_row. erewrite filter_map_merge by done.
    assert (old ∈ filter (same_identity a1 userID) (st s)) as Hf by by apply filter_bool_elem.
    destruct (filter _ (st s)) as [|x rest] eqn:Ef; [by apply elem_of_nil in Hf|].
    assert (x ∈ filter (same_identity a1 userID) (st s)) as Hx by (rewrite Ef; left).
    apply filter_bool_elem in Hx as [Hx _].
    eexists. split_and!; [done|reflexivity|done|done|]. right. exists x. done.
  - unfold totp_row. rewrite filter_app, filter_none.
    + rewrite filter_cons_True; [|apply Is_true_true; unfold same_identity; by rewrite bool_decide_eq_true].
      eexists. split_and!; [done|reflexivity|done|done|]. by left.
    + intros x Hx Hp%Is_true_true. by rewrite Hno in Hp.
Qed.

(** What an enrolment that answers 200 leaves behind. *)
Lemma enrollTOTP_row c env s resp u userID tenantID :
  should_bind (A := TOTPEnrollRequest) (gc_request c) = inl (mkTOTPEnrollRequest userID) ->
  GetHeader c "X-Tenant-ID" = tenantID ->
  enrollTOTP true c env s = (Ok resp, u) -> rs_status resp = 200%Z ->
  exists tenant r, pg_uuid env tenantID = Some tenant /\
    totp_row tenant userID (st u) = Some r /\ json_path ["secret"] (rs_body resp) = inl (tp_Secret r) /\
    tp_Verified r = false /\ tenantID <> estr /\
    ((exists n, tp_ID r = gen_uuid env n) \/ exists r', r' ∈ st s /\ tp_ID r = tp_ID r').
Proof.
  intros Hb Ht H Hs. unfold enrollTOTP, bound in H. rewrite Hb in H. unfold header_tenant in H.
  rewrite Ht in H. cbv zeta in H. destruct (decide (tenantID = estr)) as [|Hne]; [by minv|].
  apply bind_Ok_inv in H as (key & t & E & H). apply observe_Ok_inv in E as [-> ->].
  destruct (totp_Generate _ _) as [[[secret url] png]|e]; [|by minv].
  apply or_500_Ok_inv in H as (a & t & E & H); [|by rewrite Hs].
  apply ret_Ok_inv in H as [<- <-]. apply totpRepo_Create_row in E as (tenant & r & ? & ? & ? & ? & Hid).
  exists tenant, r. split_and!; [done|done|by subst secret|done|done|].
  destruct Hid as [|]; [left; eauto|by right].
Qed.

(** Enrolment works: after an enrolment that answered 200, a
    code that is valid for the secret it handed out verifies it, and from then
    on the user's second factor counts as verified. *)
Theorem totp_enrolment c c' env s resp u userID tenantID code :
  db_up env ->
  (forall n, pg_uuid env (gen_uuid env n) = Some (gen_uuid env n)) ->
  (forall r, r ∈ st s -> pg_uuid env (tp_ID r) = Some (tp_ID r)) ->
  should_bind (A := TOTPEnrollRequest) (gc_request c) = inl (mkTOTPEnrollRequest userID) ->
  GetHeader c "X-Tenant-ID" = tenantID ->
  enrollTOTP true c env s = (Ok resp, u) -> rs_status resp = 200%Z ->
  should_bind (A := TOTPVerifyRequest) (gc_request c') = inl (mkTOTPVerifyRequest userID code) ->
  GetHeader c' "X-Tenant-ID" = tenantID ->
  exists tenant secret, pg_uuid env tenantID = Some tenant /\
    json_path ["secret"] (rs_body resp) = inl secret /\
    (totp_Validate (clock env (S (tick u))) code secret = true ->
     exists v r, verifyTOTP true c' env u = (Ok (respond 200 (JObj [("verified", JBool true)])), v) /\
       totp_row tenant userID (st v) = Some r /\ tp_Verified r = true /\ tp_Secret r = secret).
Proof.
  intros Hup Hgen Hcanon Hb Ht H Hs Hb' Ht'.
  destruct (enrollTOTP_row c env s resp u userID tenantID Hb Ht H Hs)
    as (tenant & r & Hten & Hrow & Hsec & Hver & Hne & Hid).
  exists tenant, (tp_Secret r). split_and!; [done|done|]. intros Hval.
  assert (pg_uuid env (tp_ID r) = Some (tp_ID r)) as Hc.
  { destruct Hid as [[n ->]|(r' & Hr' & ->)]; auto. }
  destruct u as [n rows]. cbn [st tick] in *.
  unfold verifyTOTP, bound. rewrite Hb'. unfold header_tenant. rewrite Ht'. cbv zeta.
  rewrite decide_False by done. cbn [tv_UserID tv_Code].
  erewrite or_500_run; [|exact (GetByIdentity_run tenantID tenant userID env n rows Hup Hten)].
  rewrite Hrow. mgo (now_run env (mkSt (S n) rows)). cbn [tick st]. rewrite Hval, Hver. cbn [negb].
  erewrite or_500_run; cycle 1.
  { cbn [totp_MarkVerified totpRepo_store]. unfold totpRepo_MarkVerified.
    mgo (uuid_arg_run (S := list TOTPSecret) _ _ env (mkSt (S (S n)) rows) Hc).
    unfold bind, sql_update. rewrite statement_up by done. reflexivity. }
  unfold totp_row in Hrow. eexists. eexists. split; [reflexivity|]. cbn [st]. unfold totp_row.
  rewrite filter_map_agree by (intros x; by destruct (bool_decide _)).
  destruct (filter _ rows) as [|x rest]; [done|]. cbn [head] in Hrow. injection Hrow as ->. cbn [map head].
  rewrite bool_decide_eq_true_2 by done. done.
Qed.

End Totp.

(** ** Security events *)
Section Signals.
Context {crypto : Crypto} {V O D : Type} `{!RevocationStore V, !OAuthStore O, !DeviceStore D}.
Context (cfg : AuthConfig) `{!Binder IngestSignalRequest}.

(** Property C11. In the database as the migrations leave it, without the table
    security_events, no security event takes effect: a signal that is posted is
    answered 400 or 500 and stored nowhere, and introspection answers the same,
    for every token, as with no signal store configured. *)
Theorem signals_ineffective env :
  (forall c n, exists resp v, ingestSignal true c env (mkSt n (None : SignalDb)) = (Ok resp, v) /\
     rs_status resp ∈ [400; 500]%Z /\ st v = None) /\
  (forall token (s : St (AuthState (list authorizationCode) (list refreshTokenEntry) V O D SignalDb)),
     snd (au_risk (st s)) = None ->
     fst (Introspect cfg token env s) =
     fst (Introspect (mkAuthConfig (a_clientStore cfg) (a_clients cfg) false (a_keyID cfg)) token env s)).
Proof.
  split; [|intros token s; apply Introspect_unsignalled].
  intros c n. unfold ingestSignal, bound. destruct (should_bind _) as [req|e]; [|by eexists _, _; split_and!; [reflexivity|left|]].
  unfold with_tenant, TenantIDFromContext.
  destruct (gc_tenant c) as [t|]; [case_decide|]; try by eexists _, _; split_and!; [reflexivity|left|].
  rewrite (or_respond_run (S := SignalDb) _ _ _ env _ t (mkSt n None)) by done.
  rewrite (bind_Ok _ _ _ _ _ _ (now_run env _)). cbn [tick st non_nil signal_Ingest signalRepo_store].
  assert (forall ev, exists e m, signalRepo_Ingest ev env (mkSt (S n) (None : SignalDb)) = (Err e, mkSt m None)) as Hing.
  { intros ev. unfold signalRepo_Ingest, uuid_New, now, bind, observe, in_security_events, statement.
    repeat case_decide; cbn; destruct (db_fault _ _); by eexists _, _. }
  edestruct Hing as (e & m & E). unfold or_500. rewrite (or_respond_err _ _ _ _ _ _ _ E).
  eexists _, _. split_and!; [reflexivity|right; left|done].
Qed.
End Signals.

(** ** Enrolling again and the second factor *)
Section Reenrol.
Context {crypto : Crypto} {totp : Totp}.
Context {C R V O D G X L : Type}.
Context `{!AuthorizationCodeStore C, !RefreshTokenStore R, !RevocationStore V, !OAuthStore O,
          !DeviceStore D, !SignalStore G}.
Context {peer : HttpPeer X} `{!LoginAttemptStore L}.
Context `{!Binder LoginRequest, !Validator LoginRequest, !Binder TOTPEnrollRequest}.
Context (cfg : AuthConfig) (lc : LoginConfig).

Abbreviation Auth := (AuthState C R V O D G).
Abbreviation State := (LoginState Auth X L (list TOTPSecret)).
Abbreviation totp_is rows := (fun x : State => ls_totp x = rows).

#[local] Hint Resolve in_auth_totp in_dir_totp in_attempts_totp : effects.

(** Enrolling is open to anyone who knows a user's name and
    tenant, and it undoes the second factor: after an enrolment that answered
    200, a login of that user is never asked for a code, whether or not the
    old secret was verified. *)
Theorem enroll_disables_second_factor c env n0 rows0 resp m rows tenantID username c' password
    (s : St State) resp' u token :
  db_up env ->
  should_bind (A := TOTPEnrollRequest) (gc_request c) = inl (mkTOTPEnrollRequest username) ->
  GetHeader c "X-Tenant-ID" = tenantID ->
  enrollTOTP true c env (mkSt n0 rows0) = (Ok resp, mkSt m rows) -> rs_status resp = 200%Z ->
  login_request c' tenantID username password ->
  ls_totp (st s) = rows ->
  login cfg lc c' env s = (Ok resp', u) ->
  resp' <> mfa_response token username.
Proof.
  intros Hup Hb Ht Hen Hs [Hb' Hv' Ht' Hne] Hx Hl ->.
  destruct (enrollTOTP_row c env _ resp _ username tenantID Hb Ht Hen Hs)
    as (tenant & r & Hten & Hrow & _ & Hver & _). cbn [st] in Hrow.
  unfold login in Hl. rewrite Hb', Hv' in Hl. cbv zeta in Hl. rewrite Ht' in Hl. cbn [lr_Username lr_Password] in Hl.
  apply bind_Ok_inv in Hl as (locked & t1 & E1 & Hl).
  assert (ls_totp (st t1) = rows) as H1.
  { refine (preserves_run (totp_is rows) _ _ _ _ _ _ E1 Hx). effects. }
  destruct locked; [by minv|].
  apply bind_Ok_inv in Hl as (rl & t2 & E2 & Hl).
  assert (ls_totp (st t2) = rows) as H2.
  { refine (preserves_run (totp_is rows) _ _ _ _ _ _ E2 H1). apply preserves_attempt, Login_totp. }
  destruct rl as [tk|e].
  - apply bind_Ok_inv in Hl as (? & t3 & E3 & Hl).
    assert (ls_totp (st t3) = rows) as H3.
    { refine (preserves_run (totp_is rows) _ _ _ _ _ _ E3 H2). effects. }
    apply bind_Ok_inv in Hl as (sec & t4 & E4 & Hl).
    assert (sec = None \/ sec = Some r) as Hsec.
    { case_decide; [|minv; by left]. apply bind_Ok_inv in E4 as (q & t5 & E5 & E4).
      unfold attempt, in_totp, zoom in E5. cbn [totp_GetByIdentity totpRepo_store] in E5.
      rewrite (GetByIdentity_run tenantID tenant username env _ _ Hup Hten), H3, Hrow in E5.
      injection E5 as <- <-. apply ret_Ok_inv in E4 as [<- _]. by right. }
    destruct Hsec as [->| ->]; [|rewrite Hver in Hl]; by minv.
  - apply bind_Ok_inv in Hl as (? & t3 & _ & Hl). destruct (errors_Is _ _); by minv.
Qed.

End Reenrol.

(** ** Passkeys *)
Section Passkeys.
Context {crypto : Crypto} {SD : Type} {lib : WebAuthn SD}.
Context {C R V O D G W : Type}.
Context `{!WebAuthnRepository W}.
Context (cfg : AuthConfig).

Abbreviation Auth := (AuthState C R V O D G).
Abbreviation State := (PasskeyState Auth W SD).

(** A finished passkey login vouches for the ceremony: a session
    of that user was open, go-webauthn accepted the answer against it and the
    user's stored credentials, and the session is gone.  The token is for the
    user and for the system tenant, whatever tenant the request was made to. *)
Theorem passkey_login_sound c env (s : St State) resp u :
  finishWebAuthnLogin cfg c env s = (Ok resp, u) -> rs_status resp = 200%Z ->
  let userID := Query c "user_id" in
  exists session creds w n credential token t,
    pk_sessions (st s) !! userID = Some session /\
    wa_ListCredentials userID env (mkSt (tick s) (pk_creds (st s))) = (Ok creds, mkSt n w) /\
    wa_FinishLogin (mkWebAuthnUser userID estr estr creds) session (gc_request c) = inl credential /\
    SignedString (a_keyID cfg)
      (access_claims SystemTenantID userID "openid" "user" (clock env t) (clock env (S t))) = inl token /\
    rs_body resp = JObj [("access_token", JStr token); ("token_type", JStr "Bearer")] /\
    pk_sessions (st u) = delete userID (pk_sessions (st s)) /\ pk_auth (st u) = pk_auth (st s).
Proof.
  intros H Hs. cbv zeta. unfold finishWebAuthnLogin in H. cbv zeta in H.
  set (userID := Query c "user_id") in *. case_decide; [by minv|].
  apply bind_Ok_inv in H as (sess & t0 & E0 & H). apply gets_Ok_inv in E0 as [-> <-].
  destruct (pk_sessions (st s) !! userID) as [session|] eqn:Hsess; [|by minv].
  apply bind_Ok_inv in H as (r & t1 & E1 & H).
  apply attempt_Ok_inv in E1 as [(token & -> & E1)|(e & -> & E1)]; [|by minv].
  unfold FinishWebAuthnLogin in E1.
  apply bind_Ok_inv in E1 as (creds & t2 & E2 & E1). apply zoom_Ok_inv in E2 as ([n w] & E2 & ->).
  apply bind_Ok_inv in E1 as (cred & t3 & E3 & E1). unfold decoded in E3.
  destruct (wa_FinishLogin _ _ _) as [x|] eqn:Hfin; [|by minv]. apply ret_Ok_inv in E3 as [<- <-].
  apply bind_Ok_inv in E1 as (? & t4 & E4 & E1).
  assert (pk_sessions (st t4) = pk_sessions (st s) /\ pk_auth (st t4) = pk_auth (st s)) as [Hs4 Ha4].
  { apply ignore_Ok_inv in E4. unfold in_pk_creds, zoom in E4.
    destruct (wa_UpdateCredential _ _ _) as [r' t'].
    destruct E4 as [[? E4]|[? E4]]; injection E4 as _ <-; done. }
  apply zoom_Ok_inv in E1 as (t5 & E5 & ->). unfold generateAccessToken in E5. minv.
  unfold delete_session in *. minv. exists session, creds, w, n, x, token, (tick t4).
  rewrite <-Hs4, <-Ha4. by split_and!.
Qed.

End Passkeys.
