(* ===== verification/LoginDemo.v ===== *)
(** * Login at work

    A directory that knows one user, a one-digit TOTP and the JSON bodies of
    the login requests: the hypotheses of the theorems of LoginFacts.v and
    AuthApiFacts.v can be met. *)
From S2P Require Import Prelude GoStd GoUrl Sha256 Sql Http Middleware.
From S2P Require Import OAuthClient AuthClient TokenStores Risk AuthService AuthFacts AuthDemo.
From S2P Require Import Login LoginFacts AuthApi AuthApiFacts.
Local Open Scope go_scope.

(** A directory that holds nothing but alice. *)
#[local] Instance alice_directory : HttpPeer unit := fun call =>
  ret (match json_path ["email"] (hc_body call), json_path ["password"] (hc_body call) with
       | inl email, inl password =>
           if decide (email = "alice@example.com" /\ password = "correct horse") then
             respond 200 (JObj [("user", JObj [("id", JStr (demo_uuid 11)); ("email", JStr email)])])
           else respond 401 (error_body "invalid credentials")
       | _, _ => respond 400 (error_body "bad request")
       end).

#[local] Instance six_ones : Totp := {|
  totp_Validate := fun _ code secret => bool_decide (code = "111111");
  totp_Generate := fun _ _ => inl ("JBSWY3DPEHPK3PXP", "otpauth://totp/x", "png")
|}.

#[local] Instance bind_login : Binder LoginRequest := fun r =>
  match json_path ["username"] (rq_body r), json_path ["password"] (rq_body r) with
  | inl u, inl p => inl (mkLoginRequest u p)
  | _, _ => inr (ErrLib "EOF")
  end.

#[local] Instance required_login : Validator LoginRequest := fun r =>
  if decide (lr_Username r = estr \/ lr_Password r = estr) then Some (ErrLib "required") else None.

#[local] Instance bind_mfa : Binder MFALoginRequest := fun r =>
  match json_path ["pending_token"] (rq_body r), json_path ["totp_code"] (rq_body r),
        json_path ["user_id"] (rq_body r) with
  | inl t, inl c, inl u => inl (mkMFALoginRequest t c u)
  | _, _, _ => inr (ErrLib "EOF")
  end.

Definition demo_lc : LoginConfig :=
  mkLoginConfig "http://dirsvc:8081" "X-Service-Token" "secret" true true true.

Abbreviation Deployment := (LoginState Memory unit Attempts (list TOTPSecret)).

Definition post (body : json) : GinCtx :=
  mkGinCtx (mkRequest [("X-Tenant-ID", tenant)] [] [] [] body "10.0.0.1") (Some tenant).

Definition login_as (password : string) : GinCtx :=
  post (JObj [("username", JStr "alice@example.com"); ("password", JStr password)]).

Lemma login_as_request password :
  password <> estr -> login_request (login_as password) tenant "alice@example.com" password.
Proof.
  intros Hp. split; [done| |done|done]. unfold validate_struct, required_login. cbn.
  rewrite decide_False; [done|]. by intros [|].
Qed.

(** Alice has mistyped the password four times. *)
Definition mistyped (n : nat) : LoginAttempt :=
  mkLoginAttempt (demo_uuid n) tenant "alice@example.com" "10.0.0.1" false (Z.of_nat n * second).

Definition alice_totp (verified : bool) : TOTPSecret :=
  mkTOTPSecret (demo_uuid 21) "alice@example.com" tenant "JBSWY3DPEHPK3PXP" verified 0 None.

Definition four_failures : St Deployment :=
  mkSt 10 (mkLogin (st fresh) tt (mkAttempts [mistyped 1; mistyped 2; mistyped 3; mistyped 4] []) []).


(** Alice has a verified second factor. *)
Definition enrolled (verified : bool) : St Deployment :=
  mkSt 10 (mkLogin (st fresh) tt (mkAttempts [] []) [alice_totp verified]).

Definition demo_pending : string :=
  match SignedString (a_keyID demo_cfg)
          (user_claims tenant (demo_uuid 11) (11 * second) (12 * second)) with
  | inl token => token
  | inr _ => estr
  end.

(** The same service with a signal store, in a database without the table. *)
Definition sig_cfg : AuthConfig := mkAuthConfig false (a_clients demo_cfg) true "key-1".

Definition sig_pending : string :=
  match fst (login sig_cfg demo_lc (login_as "correct horse") demo_env (enrolled true)) with
  | Ok r => match json_path ["pending_token"] (rs_body r) with inl token => token | inr _ => estr end
  | _ => estr
  end.

Lemma mfa_pending_token_active_witness :
  exists r v, Introspect sig_cfg sig_pending demo_env (mkSt 30 (st fresh)) = (Ok r, v) /\ ir_Active r = true.
Proof.
  assert (fst (login sig_cfg demo_lc (login_as "correct horse") demo_env (enrolled true)) =
          Ok (mfa_response sig_pending "alice@example.com")) as E by (vm_compute; reflexivity).
  destruct (mfa_pending_token_active sig_cfg demo_lc (login_as "correct horse") demo_env
              (enrolled true) sig_pending "alice@example.com" _ (fst_run _ _ E))
    as (t & u & n & _ & Hs & H).
  assert (match read_claims (strings_Split sig_pending dot) with Some claims => json_exact (JObj claims) | None => false end = true)
    as Hexact by (vm_compute; reflexivity).
  clear E. revert Hs H Hexact. generalize sig_pending. intros token Hs H Hexact.
  destruct (read_claims (strings_Split token dot)) as [claims|] eqn:Hc; [|discriminate Hexact].
  assert (user_claims t u (clock demo_env n) (clock demo_env (S n)) = claims) as Hcl.
  { cbn [SignedString demo_crypto] in Hs. destruct (spell_claims _) as [x|] eqn:Hx; [|discriminate Hs]. injection Hs as ->.
    apply read_spell_claims in Hx. rewrite Hc in Hx. injection Hx as Hx. symmetry. exact Hx. }
  destruct (H (mkSt 30 (st fresh)) 30) as [v Ev].
  - rewrite Hcl. exact Hexact.
  - apply memory_IsRevoked. reflexivity.
  - intros _. eexists _, _. reflexivity.
  - cbn [clock demo_env]. unfold unix, hour, second. rewrite <-Z.mul_add_distr_r, Z.div_mul; lia.
  - eexists _, v. split; [exact Ev|reflexivity].
Defined.

(** Alice never finished enrolling; the pending token is made up. *)
Lemma completeMFALogin_any_token_witness :
  exists u, completeMFALogin demo_lc
    (post (JObj [("pending_token", JStr "made up"); ("totp_code", JStr "111111");
                 ("user_id", JStr "alice@example.com")])) demo_env (enrolled false) =
    (Ok (login_response demo_lc "made up"), u).
Proof.
  destruct (completeMFALogin_any_token (C := gmap string authorizationCode) (R := gmap string refreshTokenEntry)
    (V := gmap string Z) (O := list Client) (D := list Device) (G := SignalDb)
    demo_lc (post (JObj [("pending_token", JStr "made up");
      ("totp_code", JStr "111111"); ("user_id", JStr "alice@example.com")])) demo_env (enrolled false)
      "made up" "111111" "alice@example.com" (alice_totp false) (mkSt 11 (st (enrolled false))))
    as (u & E & _).
  - reflexivity.
  - discriminate.
  - reflexivity.
  - vm_compute. reflexivity.
  - reflexivity.
  - exists u. exact E.
Defined.

#[local] Instance bind_enroll : Binder TOTPEnrollRequest := fun r =>
  match json_path ["user_id"] (rq_body r) with
  | inl u => inl (mkTOTPEnrollRequest u)
  | inr e => inr e
  end.

#[local] Instance bind_verify : Binder TOTPVerifyRequest := fun r =>
  match json_path ["user_id"] (rq_body r), json_path ["code"] (rq_body r) with
  | inl u, inl c => inl (mkTOTPVerifyRequest u c)
  | _, _ => inr (ErrLib "EOF")
  end.

Definition enroll_alice : GinCtx := post (JObj [("user_id", JStr "alice@example.com")]).

Definition verify_alice : GinCtx :=
  post (JObj [("user_id", JStr "alice@example.com"); ("code", JStr "111111")]).

Definition reset_totp : St (list TOTPSecret) :=
  snd (enrollTOTP true enroll_alice demo_env (mkSt 10 [alice_totp true])).

Definition enroll_answer : Response :=
  respond 200 (JObj [("secret", JStr "JBSWY3DPEHPK3PXP"); ("qr_code", JStr "png");
                     ("otpauth_url", JStr "otpauth://totp/x")]).

Lemma enroll_alice_run :
  enrollTOTP true enroll_alice demo_env (mkSt 10 [alice_totp true]) = (Ok enroll_answer, reset_totp).
Proof. apply fst_run. vm_compute. reflexivity. Qed.

Lemma totp_enrolment_witness :
  exists v, verifyTOTP true verify_alice demo_env reset_totp =
    (Ok (respond 200 (JObj [("verified", JBool true)])), v).
Proof.
  destruct (totp_enrolment enroll_alice verify_alice demo_env (mkSt 10 [alice_totp true])
              enroll_answer reset_totp "alice@example.com" tenant "111111" demo_env_up
              demo_uuid_canonical) as (t & secret & _ & _ & H).
  - intros r Hr. apply list_elem_of_singleton in Hr as ->. apply demo_uuid_canonical.
  - reflexivity.
  - reflexivity.
  - exact enroll_alice_run.
  - reflexivity.
  - reflexivity.
  - reflexivity.
  - destruct (H eq_refl) as (v & r & E & _). exists v. exact E.
Defined.

(** Alice's second factor is verified; somebody enrols as alice; alice's next
    login is complete with the password. *)
Lemma enroll_disables_second_factor_witness :
  exists resp u, login demo_cfg demo_lc (login_as "correct horse") demo_env
      (mkSt 20 (mkLogin (st fresh) tt (mkAttempts [] []) (st reset_totp))) = (Ok resp, u) /\
    resp <> mfa_response demo_pending "alice@example.com".
Proof.
  assert (is_ok (fst (login demo_cfg demo_lc (login_as "correct horse") demo_env
      (mkSt 20 (mkLogin (st fresh) tt (mkAttempts [] []) (st reset_totp))))) = true) as Hok.
  { vm_compute. reflexivity. }
  destruct (ok_run _ Hok) as (resp & u & E). exists resp, u. split; [exact E|].
  apply (enroll_disables_second_factor demo_cfg demo_lc enroll_alice demo_env 10 [alice_totp true]
           enroll_answer (tick reset_totp) (st reset_totp) tenant "alice@example.com"
           (login_as "correct horse") "correct horse"
           (mkSt 20 (mkLogin (st fresh) tt (mkAttempts [] []) (st reset_totp))) resp u).
  - exact demo_env_up.
  - reflexivity.
  - reflexivity.
  - exact enroll_alice_run.
  - reflexivity.
  - apply login_as_request. discriminate.
  - reflexivity.
  - exact E.
Defined.

(** ** A passkey *)

#[local] Instance trusting_webauthn : WebAuthn string := {|
  wa_BeginRegistration := fun _ u => inl (JObj [("challenge", JStr "c")], wu_ID u);
  wa_FinishRegistration := fun u _ _ => inl (mkCredential "cred" "key" "none" estr 0 false);
  wa_BeginLogin := fun _ u => inl (JObj [("challenge", JStr "c")], wu_ID u);
  wa_FinishLogin := fun u _ _ =>
    match wu_Credentials u with
    | c :: _ => inl c
    | [] => inr (ErrLib "no credential")
    end
|}.

#[local] Instance listed_credentials : WebAuthnRepository (list (string * Credential)) := {|
  wa_SaveCredential := fun _ user c => modify (fun l => l ++ [(user, c)]);
  wa_ListCredentials := fun user => gets (fun l => map snd (filter (fun uc => fst uc = user) l));
  wa_UpdateCredential := fun _ => ret tt
|}.

Definition passkey_state : St (PasskeyState Memory (list (string * Credential)) string) :=
  mkSt 5 (mkPasskey (st fresh) [("alice", mkCredential "cred" "key" "none" estr 0 false)]
            {[ "alice" := "alice" ]}).

Definition finish_alice : GinCtx :=
  mkGinCtx (mkRequest [] [("user_id", "alice")] [] [] JNull "10.0.0.1") (Some tenant).

Lemma passkey_login_sound_witness :
  exists resp u, finishWebAuthnLogin demo_cfg finish_alice demo_env passkey_state = (Ok resp, u) /\
    pk_sessions (st u) !! "alice" = None.
Proof.
  assert (fst (finishWebAuthnLogin demo_cfg finish_alice demo_env passkey_state) =
    Ok (respond 200 (JObj [("access_token", JStr (match SignedString (a_keyID demo_cfg)
          (access_claims SystemTenantID "alice" "openid" "user" (5 * second) (6 * second)) with
          | inl t => t | inr _ => estr end)); ("token_type", JStr "Bearer")]))) as E.
  { vm_compute. reflexivity. }
  eexists _, _. split; [exact (fst_run _ _ E)|].
  destruct (passkey_login_sound demo_cfg finish_alice demo_env passkey_state _ _ (fst_run _ _ E) eq_refl)
    as (? & ? & ? & ? & ? & ? & ? & _ & _ & _ & _ & _ & H & _).
  rewrite H. reflexivity.
Defined.
