(* ===== verification/Directory.v ===== *)
(** * The directory service

    internal/directory/service.go over the tables of migrations 1-3:
    identities with their accounts, groups and memberships.  [DirectoryService]
    is the interface [directory.Service] the handlers and the SCIM service are
    written against; [directoryService] is its implementation on Postgres.

    Rows of other services refer to identities as well; the ones whose foreign
    key does not cascade (access requests and their approvals) block a
    deletion, and [d_referenced] lists the identities they refer to. *)
From S2P Require Import Prelude Bcrypt GoStd Sql Http Middleware.
Local Open Scope go_scope.

(** ** Data *)

Record User : Type := mkUser {
  us_ID : string;
  us_TenantID : string;
  us_Email : string;
  us_Password : string;
  us_Status : string;
  us_CreatedAt : Z;
  us_UpdatedAt : Z
}.

Record Group : Type := mkGroup {
  gr_ID : string;
  gr_TenantID : string;
  gr_Name : string;
  gr_CreatedAt : Z;
  gr_UpdatedAt : Z
}.

Record identity : Type := mkIdentity {
  id_id : string;
  id_tenant : string;
  id_status : string;
  id_created : Z;
  id_updated : Z
}.

Record account : Type := mkAccount {
  an_id : string;
  an_identity : string;
  an_tenant : string;
  an_login : string;
  an_hash : string
}.

Record membership : Type := mkMembership {
  mb_identity : string;
  mb_group : string;
  mb_tenant : string
}.

Record DirDb : Type := mkDir {
  d_identities : list identity;
  d_accounts : list account;
  d_groups : list Group;
  d_members : list membership;
  d_referenced : list string
}.

Definition ErrInvalidCredentials : error :=
  ErrSentinel "directory.ErrInvalidCredentials" "invalid credentials".

(** ** The interface *)

Class DirectoryService (X : Type) : Type := {
  dir_HealthCheck : M X bool;
  dir_CreateUser : string -> User -> M X string;
  dir_GetUserByID : string -> string -> M X User;
  dir_GetUserByEmail : string -> string -> M X User;
  dir_ListUsers : string -> Z -> Z -> M X (list User * Z);
  dir_UpdateUser : string -> string -> User -> M X unit;
  dir_DeleteUser : string -> string -> M X unit;
  dir_CreateGroup : string -> Group -> M X string;
  dir_GetGroupByID : string -> string -> M X Group;
  dir_ListGroups : string -> Z -> Z -> M X (list Group * Z);
  dir_UpdateGroup : string -> string -> Group -> M X unit;
  dir_DeleteGroup : string -> string -> M X unit;
  dir_AddUserToGroup : string -> string -> string -> M X unit;
  dir_RemoveUserFromGroup : string -> string -> string -> M X unit;
  dir_VerifyCredentials : string -> string -> string -> M X User;
  dir_GetTenantByEmail : string -> M X string
}.

(** ** Statements over the tables *)

Definition on_identities {A} (m : M (list identity) A) : M DirDb A :=
  zoom d_identities
    (fun x d => mkDir x (d_accounts d) (d_groups d) (d_members d) (d_referenced d)) m.

Definition on_accounts {A} (m : M (list account) A) : M DirDb A :=
  zoom d_accounts
    (fun x d => mkDir (d_identities d) x (d_groups d) (d_members d) (d_referenced d)) m.

Definition on_groups {A} (m : M (list Group) A) : M DirDb A :=
  zoom d_groups
    (fun x d => mkDir (d_identities d) (d_accounts d) x (d_members d) (d_referenced d)) m.

Definition on_members {A} (m : M (list membership) A) : M DirDb A :=
  zoom d_members
    (fun x d => mkDir (d_identities d) (d_accounts d) (d_groups d) x (d_referenced d)) m.

(** [FROM identities i JOIN accounts a ON i.id = a.identity_id] *)
Definition joined (d : DirDb) : list (identity * account) :=
  flat_map (fun i => map (pair i) (filter (fun a => an_identity a = id_id i) (d_accounts d)))
    (d_identities d).

(** The columns the user queries select. *)
Definition row_user (r : identity * account) : User :=
  mkUser (id_id (fst r)) (id_tenant (fst r)) (an_login (snd r)) estr (id_status (fst r))
    (id_created (fst r)) (id_updated (fst r)).

Definition select_joined (p : identity * account -> bool) : M DirDb (list (identity * account)) :=
  statement (fun env n d => inl (reorder (row_order env n) (filter p (joined d)), d)).

Definition get_joined (p : identity * account -> bool) : M DirDb (identity * account) :=
  rows <- select_joined p;;
  match rows with r :: _ => ret r | [] => fail sql_ErrNoRows end.

(** [WHERE i.id = $1 AND i.tenant_id = $2] *)
Definition is_identity (id tenant : string) (i : identity) : bool :=
  bool_decide (id_id i = id /\ id_tenant i = tenant).

(** [WHERE identity_id = $2 AND tenant_id = $3] *)
Definition is_account_of (id tenant : string) (a : account) : bool :=
  bool_decide (an_identity a = id /\ an_tenant a = tenant).

(** [WHERE a.login = $1 AND a.tenant_id = $2 AND i.tenant_id = $2] *)
Definition is_login (email tenant : string) (r : identity * account) : bool :=
  bool_decide (an_login (snd r) = email /\ an_tenant (snd r) = tenant /\ id_tenant (fst r) = tenant).

Definition is_group (id tenant : string) (g : Group) : bool :=
  bool_decide (gr_ID g = id /\ gr_TenantID g = tenant).

Definition err_fk : error := ErrDB "pq: insert or update violates foreign key constraint".
Definition err_unique : error := ErrDB "pq: duplicate key value violates unique constraint".

(** [INSERT INTO accounts ...]: the identity must exist, ids and logins of a
    tenant are unique. *)
Definition insert_account (identityID tenant login hash : string) : M DirDb unit :=
  statement (fun env t d =>
    let a := mkAccount (gen_uuid env t) identityID tenant login hash in
    if existsb (fun i => bool_decide (id_id i = identityID)) (d_identities d) then
      if existsb (fun b => bool_decide (an_id b = an_id a \/
                             (an_tenant b = tenant /\ an_login b = login))) (d_accounts d)
      then inr err_unique
      else inl (tt, mkDir (d_identities d) (d_accounts d ++ [a]) (d_groups d) (d_members d)
                      (d_referenced d))
    else inr err_fk).

(** ** Operations *)
Section Service.
Context {bcrypt : Bcrypt}.

Definition HealthCheck : M DirDb bool := statement (fun _ _ d => inl (true, d)).

Definition CreateUser (tenantID : string) (user : User) : M DirDb string :=
  hashedPassword <- GenerateFromPassword (us_Password user);;
  transaction (
    t <- uuid_arg tenantID;;
    userID <- on_identities (sql_insert (fun new old => bool_decide (id_id new = id_id old))
                (fun tm id => (mkIdentity id t "active" tm tm, id)));;
    t' <- uuid_arg tenantID;;
    varchar_arg 255 (us_Email user);;
    varchar_arg 255 hashedPassword;;
    insert_account userID t' (us_Email user) hashedPassword;;
    ret userID).

Definition GetUserByID (tenantID id : string) : M DirDb User :=
  i <- uuid_arg id;;
  t <- uuid_arg tenantID;;
  r <- get_joined (fun r => is_identity i t (fst r));;
  ret (row_user r).

Definition GetUserByEmail (tenantID email : string) : M DirDb User :=
  t <- uuid_arg tenantID;;
  r <- get_joined (is_login email t);;
  ret (row_user r).

Definition ListUsers (tenantID : string) (limit offset : Z) : M DirDb (list User * Z) :=
  t <- uuid_arg tenantID;;
  total <- on_identities (sql_count (fun i => bool_decide (id_tenant i = t)));;
  rows <- statement (fun env n d =>
    match sql_page limit offset
            (order_by_desc (fun r => id_created (fst r))
               (reorder (row_order env n) (filter (fun r => id_tenant (fst r) = t) (joined d)))) with
    | inl page => inl (page, d)
    | inr err => inr err
    end);;
  ret (map row_user rows, total).

(** The statements of [UpdateUser] *)
Definition set_login (login : string) (a : account) : account :=
  mkAccount (an_id a) (an_identity a) (an_tenant a) login (an_hash a).
Definition set_hash (hash : string) (a : account) : account :=
  mkAccount (an_id a) (an_identity a) (an_tenant a) (an_login a) hash.
Definition set_status (status : string) (i : identity) : identity :=
  mkIdentity (id_id i) (id_tenant i) status (id_created i) (id_updated i).
Definition touch (tm : Z) (i : identity) : identity :=
  mkIdentity (id_id i) (id_tenant i) (id_status i) (id_created i) tm.

Definition UpdateUser (tenantID id : string) (user : User) : M DirDb unit :=
  transaction (
    (if decide (us_Email user <> estr) then
       varchar_arg 255 (us_Email user);;
       i <- uuid_arg id;; t <- uuid_arg tenantID;;
       exec (on_accounts (sql_update_unique (fun a => (an_tenant a, an_login a))
         (is_account_of i t) (fun _ => set_login (us_Email user))))
     else ret tt);;
    (if decide (us_Password user <> estr) then
       hashedPassword <- GenerateFromPassword (us_Password user);;
       varchar_arg 255 hashedPassword;;
       i <- uuid_arg id;; t <- uuid_arg tenantID;;
       exec (on_accounts (sql_update (is_account_of i t) (fun _ => set_hash hashedPassword)))
     else ret tt);;
    (if decide (us_Status user <> estr) then
       varchar_arg 20 (us_Status user);;
       i <- uuid_arg id;; t <- uuid_arg tenantID;;
       exec (on_identities (sql_update (is_identity i t) (fun _ => set_status (us_Status user))))
     else ret tt);;
    i <- uuid_arg id;; t <- uuid_arg tenantID;;
    exec (on_identities (sql_update (is_identity i t) touch))).

(** The identity goes, and its accounts and memberships with it. *)
Definition DeleteUser (tenantID id : string) : M DirDb unit :=
  i <- uuid_arg id;;
  t <- uuid_arg tenantID;;
  statement (fun _ _ d =>
    if existsb (is_identity i t) (d_identities d) then
      if decide (i ∈ d_referenced d) then inr err_fk
      else inl (tt, mkDir (filter (fun x => negb (is_identity i t x)) (d_identities d))
                      (filter (fun a => an_identity a <> i) (d_accounts d)) (d_groups d)
                      (filter (fun m => mb_identity m <> i) (d_members d)) (d_referenced d))
    else inl (tt, d)).

Definition CreateGroup (tenantID : string) (group : Group) : M DirDb string :=
  t <- uuid_arg tenantID;;
  varchar_arg 255 (gr_Name group);;
  on_groups (sql_insert
    (fun new old => bool_decide (gr_ID new = gr_ID old \/
                      (gr_TenantID new = gr_TenantID old /\ gr_Name new = gr_Name old)))
    (fun tm id => (mkGroup id t (gr_Name group) tm tm, id))).

Definition GetGroupByID (tenantID id : string) : M DirDb Group :=
  i <- uuid_arg id;;
  t <- uuid_arg tenantID;;
  on_groups (sql_get (is_group i t)).

Definition ListGroups (tenantID : string) (limit offset : Z) : M DirDb (list Group * Z) :=
  t <- uuid_arg tenantID;;
  total <- on_groups (sql_count (fun g => bool_decide (gr_TenantID g = t)));;
  rows <- on_groups (statement (fun env n gs =>
    match sql_page limit offset
            (order_by_desc gr_CreatedAt (reorder (row_order env n) (filter (fun g => gr_TenantID g = t) gs))) with
    | inl page => inl (page, gs)
    | inr err => inr err
    end));;
  ret (rows, total).

Definition UpdateGroup (tenantID id : string) (group : Group) : M DirDb unit :=
  varchar_arg 255 (gr_Name group);;
  i <- uuid_arg id;;
  t <- uuid_arg tenantID;;
  exec (on_groups (sql_update_unique (fun g => (gr_TenantID g, gr_Name g)) (is_group i t)
    (fun tm g => mkGroup (gr_ID g) (gr_TenantID g) (gr_Name group) (gr_CreatedAt g) tm))).

Definition DeleteGroup (tenantID id : string) : M DirDb unit :=
  i <- uuid_arg id;;
  t <- uuid_arg tenantID;;
  statement (fun _ _ d =>
    if existsb (is_group i t) (d_groups d) then
      inl (tt, mkDir (d_identities d) (d_accounts d)
                 (filter (fun g => negb (is_group i t g)) (d_groups d))
                 (filter (fun m => mb_group m <> i) (d_members d)) (d_referenced d))
    else inl (tt, d)).

(** [INSERT ... SELECT ... WHERE EXISTS ... AND EXISTS ...] *)
Definition AddUserToGroup (tenantID userID groupID : string) : M DirDb unit :=
  i <- uuid_arg userID;;
  g <- uuid_arg groupID;;
  t <- uuid_arg tenantID;;
  statement (fun _ _ d =>
    if existsb (is_identity i t) (d_identities d) && existsb (is_group g t) (d_groups d) then
      if existsb (fun m => bool_decide (mb_identity m = i /\ mb_group m = g)) (d_members d)
      then inr err_unique
      else inl (tt, mkDir (d_identities d) (d_accounts d) (d_groups d)
                      (d_members d ++ [mkMembership i g t]) (d_referenced d))
    else inl (tt, d)).

Definition RemoveUserFromGroup (tenantID userID groupID : string) : M DirDb unit :=
  i <- uuid_arg userID;;
  g <- uuid_arg groupID;;
  t <- uuid_arg tenantID;;
  exec (on_members (sql_delete
    (fun m => bool_decide (mb_identity m = i /\ mb_group m = g /\ mb_tenant m = t)))).

Definition VerifyCredentials (tenantID email password : string) : M DirDb User :=
  record <- map_err (fun err => if errors_Is err sql_ErrNoRows then ErrInvalidCredentials else err)
              (t <- uuid_arg tenantID;; get_joined (is_login email t));;
  if negb (CompareHashAndPassword (an_hash (snd record)) password) then fail ErrInvalidCredentials
  else ret (row_user record).

Definition GetTenantByEmail (email : string) : M DirDb string :=
  row <- or_nil (on_accounts (sql_get (fun a => bool_decide (an_login a = email))));;
  ret (match row with Some a => an_tenant a | None => estr end).

#[export] Instance directoryService : DirectoryService DirDb := {|
  dir_HealthCheck := HealthCheck;
  dir_CreateUser := CreateUser;
  dir_GetUserByID := GetUserByID;
  dir_GetUserByEmail := GetUserByEmail;
  dir_ListUsers := ListUsers;
  dir_UpdateUser := UpdateUser;
  dir_DeleteUser := DeleteUser;
  dir_CreateGroup := CreateGroup;
  dir_GetGroupByID := GetGroupByID;
  dir_ListGroups := ListGroups;
  dir_UpdateGroup := UpdateGroup;
  dir_DeleteGroup := DeleteGroup;
  dir_AddUserToGroup := AddUserToGroup;
  dir_RemoveUserFromGroup := RemoveUserFromGroup;
  dir_VerifyCredentials := VerifyCredentials;
  dir_GetTenantByEmail := GetTenantByEmail
|}.

End Service.
