(* ===== verification/DirectoryApi.v ===== *)
(** * The directory service over HTTP

    internal/directory/api.go and endpoint.go: the handlers, the routes with
    the middleware in front of them, and the service as the [HttpPeer] the auth
    service calls. *)
From S2P Require Import Prelude Bcrypt GoStd GoUrl Sql Http Middleware Gin Directory.
Local Open Scope go_scope.

(** ** Requests *)

Record CreateUserRequest : Type := mkCreateUserRequest { cu_User : User }.
Record GetUserByEmailRequest : Type := mkGetUserByEmailRequest { gu_Email : string }.
Record GetUserByIDRequest : Type := mkGetUserByIDRequest { gi_ID : string }.
Record UpdateUserRequest : Type := mkUpdateUserRequest { uu_ID : string; uu_User : User }.
Record DeleteUserRequest : Type := mkDeleteUserRequest { xu_ID : string }.
Record CreateGroupRequest : Type := mkCreateGroupRequest { cg_Group : Group }.
Record GetGroupByIDRequest : Type := mkGetGroupByIDRequest { gg_ID : string }.
Record UpdateGroupRequest : Type := mkUpdateGroupRequest { ug_ID : string; ug_Group : Group }.
Record DeleteGroupRequest : Type := mkDeleteGroupRequest { xg_ID : string }.
Record AddUserToGroupRequest : Type := mkAddUserToGroupRequest { au_UserID : string; au_GroupID : string }.
Record RemoveUserFromGroupRequest : Type :=
  mkRemoveUserFromGroupRequest { ru_UserID : string; ru_GroupID : string }.
Record VerifyCredentialsRequest : Type :=
  mkVerifyCredentialsRequest { vc_Email : string; vc_Password : string }.

(** ** Responses *)

Definition User_json (u : User) : json :=
  JObj (omitempty "id" (us_ID u) ++ omitempty "tenant_id" (us_TenantID u)
        ++ [("email", JStr (us_Email u))] ++ omitempty "password" (us_Password u)
        ++ omitempty "status" (us_Status u)
        ++ [("created_at", JNum (us_CreatedAt u)); ("updated_at", JNum (us_UpdatedAt u))]).

Definition Group_json (g : Group) : json :=
  JObj (omitempty "id" (gr_ID g) ++ omitempty "tenant_id" (gr_TenantID g)
        ++ [("name", JStr (gr_Name g)); ("created_at", JNum (gr_CreatedAt g));
            ("updated_at", JNum (gr_UpdatedAt g))]).

Section Api.
Context {X : Type} `{!DirectoryService X}.
Context `{!Binder CreateUserRequest, !Validator CreateUserRequest, !Validator GetUserByEmailRequest,
          !Validator GetUserByIDRequest, !Binder User, !Validator UpdateUserRequest,
          !Validator DeleteUserRequest, !Binder CreateGroupRequest, !Validator CreateGroupRequest,
          !Validator GetGroupByIDRequest, !Binder Group, !Validator UpdateGroupRequest,
          !Validator DeleteGroupRequest, !Binder AddUserToGroupRequest,
          !Validator AddUserToGroupRequest, !Validator RemoveUserFromGroupRequest,
          !Binder VerifyCredentialsRequest, !Validator VerifyCredentialsRequest}.

(** [h.tenantID(c)] *)
Definition handler_tenantID (c : GinCtx) (k : string -> M X Response) : M X Response :=
  with_tenant "tenant id required" c k.

(** [c.JSON(http.StatusInternalServerError, gin.H{"error": err.Error()})] *)
Definition or_error {A} (m : M X A) (k : A -> M X Response) : M X Response :=
  or_respond (verbatim 500) m k.

Definition healthCheck : Handler X :=
  fun _ => or_error dir_HealthCheck (fun ok => ret (respond 200 (JObj [("healthy", JBool ok)]))).

Definition createUser : Handler X :=
  fun c => handler_tenantID c (fun tenantID =>
    bound c (fun req : CreateUserRequest => validated req (
    or_error (dir_CreateUser tenantID (cu_User req)) (fun userID =>
    ret (respond 201 (JObj [("user_id", JStr userID)])))))).

Definition getUserByID : Handler X :=
  fun c => handler_tenantID c (fun tenantID =>
    let req := mkGetUserByIDRequest (Param c "id") in
    validated req (
    or_error (dir_GetUserByID tenantID (gi_ID req)) (fun user =>
    ret (respond 200 (JObj [("user", User_json user)]))))).

Definition getUserByEmail : Handler X :=
  fun c => handler_tenantID c (fun tenantID =>
    let req := mkGetUserByEmailRequest (Query c "email") in
    validated req (
    or_error (dir_GetUserByEmail tenantID (gu_Email req)) (fun user =>
    ret (respond 200 (JObj [("user", User_json user)]))))).

Definition updateUser : Handler X :=
  fun c => handler_tenantID c (fun tenantID =>
    let id := Param c "id" in
    bound c (fun user : User =>
    let req := mkUpdateUserRequest id user in
    validated req (
    or_error (dir_UpdateUser tenantID id (uu_User req)) (fun _ => ret (respond_status 200))))).

Definition deleteUser : Handler X :=
  fun c => handler_tenantID c (fun tenantID =>
    let req := mkDeleteUserRequest (Param c "id") in
    validated req (
    or_error (dir_DeleteUser tenantID (xu_ID req)) (fun _ => ret (respond_status 204)))).

Definition createGroup : Handler X :=
  fun c => handler_tenantID c (fun tenantID =>
    bound c (fun req : CreateGroupRequest => validated req (
    or_error (dir_CreateGroup tenantID (cg_Group req)) (fun groupID =>
    ret (respond 201 (JObj [("group_id", JStr groupID)])))))).

Definition getGroupByID : Handler X :=
  fun c => handler_tenantID c (fun tenantID =>
    let req := mkGetGroupByIDRequest (Param c "id") in
    validated req (
    or_error (dir_GetGroupByID tenantID (gg_ID req)) (fun group =>
    ret (respond 200 (JObj [("group", Group_json group)]))))).

Definition updateGroup : Handler X :=
  fun c => handler_tenantID c (fun tenantID =>
    let id := Param c "id" in
    bound c (fun group : Group =>
    let req := mkUpdateGroupRequest id group in
    validated req (
    or_error (dir_UpdateGroup tenantID id (ug_Group req)) (fun _ => ret (respond_status 200))))).

Definition deleteGroup : Handler X :=
  fun c => handler_tenantID c (fun tenantID =>
    let req := mkDeleteGroupRequest (Param c "id") in
    validated req (
    or_error (dir_DeleteGroup tenantID (xg_ID req)) (fun _ => ret (respond_status 204)))).

Definition addUserToGroup : Handler X :=
  fun c => handler_tenantID c (fun tenantID =>
    let groupID := Param c "id" in
    bound c (fun req0 : AddUserToGroupRequest =>
    let req := mkAddUserToGroupRequest (au_UserID req0) groupID in
    validated req (
    or_error (dir_AddUserToGroup tenantID (au_UserID req) groupID) (fun _ => ret (respond_status 204))))).

Definition removeUserFromGroup : Handler X :=
  fun c => handler_tenantID c (fun tenantID =>
    let req := mkRemoveUserFromGroupRequest (Param c "userID") (Param c "id") in
    validated req (
    or_error (dir_RemoveUserFromGroup tenantID (ru_UserID req) (ru_GroupID req)) (fun _ =>
    ret (respond_status 204)))).

(** The answer to credentials that do not verify. *)
Definition verify_failure (err : error) : Response :=
  if errors_Is err ErrInvalidCredentials
  then respond 401 (error_body (error_string ErrInvalidCredentials))
  else respond 500 (error_body (error_string err)).

Definition verifyCredentials : Handler X :=
  fun c => handler_tenantID c (fun tenantID =>
    bound c (fun req : VerifyCredentialsRequest => validated req (
    or_respond verify_failure
      (dir_VerifyCredentials tenantID (vc_Email req) (vc_Password req)) (fun user =>
    ret (respond 200 (JObj [("user", User_json user)])))))).

Definition discoverTenant : Handler X :=
  fun c =>
    let email := Query c "email" in
    if decide (email = estr) then ret (respond 400 (error_body "email required"))
    else
      or_error (dir_GetTenantByEmail email) (fun tenantID =>
      if decide (tenantID = estr) then ret (respond_status 404)
      else ret (respond 200 (JObj [("tenant_id", JStr tenantID)]))).

(** ** Routes *)
Context (serviceAuth : ServiceAuthConfig).

(** [RegisterRoutes] *)
Definition RegisterRoutes : list (Route X) :=
  let tenantProtected := Use (Gin.Group root "/") (TenantExtractor noTenantConfig) in
  let internalRoutes :=
    Use (Use (Gin.Group root "/internal") (ServiceAuthenticator serviceAuth)) (TenantExtractor noTenantConfig) in
  let globalInternalRoutes := Use (Gin.Group root "/internal") (ServiceAuthenticator serviceAuth) in
  let users := Gin.Group tenantProtected "/users" in
  let groups := Gin.Group tenantProtected "/groups" in
  let groupMembership := Gin.Group groups ":id/users" in
  [GET root "/health" healthCheck;
   POST internalRoutes "/credentials/verify" verifyCredentials;
   GET globalInternalRoutes "/discover" discoverTenant;
   POST users estr createUser; GET users "/:id" getUserByID; GET users estr getUserByEmail;
   PUT users "/:id" updateUser; DELETE users "/:id" deleteUser;
   POST groups estr createGroup; GET groups "/:id" getGroupByID; PUT groups "/:id" updateGroup;
   DELETE groups "/:id" deleteGroup;
   POST groupMembership estr addUserToGroup; DELETE groupMembership "/:userID" removeUserFromGroup].

(** ** The service behind a URL

    [base] is the address the service listens on, without a trailing slash:
    a call to [base/path] is routed, any other does not reach it. *)
Context {gin : GinRedirect} (base : string).

Definition directory_Do : HttpPeer X :=
  fun call =>
    match request_path base (hc_url call) with
    | None => fail (ErrLib "dial tcp: connection refused")
    | Some path => serve (engine RegisterRoutes id (hc_method call) path) (mkGinCtx (call_request "10.0.0.2" call) None)
    end.

(** No handler redirects. *)
Lemma directory_stays r c : r ∈ RegisterRoutes -> stays (ro_handler r c).
Proof.
  unfold RegisterRoutes. cbv zeta. intros Hin.
  repeat (apply elem_of_cons in Hin as [->|Hin]; [cbn [ro_handler handle GET POST PUT PATCH DELETE g_use Use Gin.Group root];
    unfold TenantExtractor, ServiceAuthenticator, healthCheck, verifyCredentials, discoverTenant, createUser, getUserByID,
      getUserByEmail, updateUser, deleteUser, createGroup, getGroupByID, updateGroup, deleteGroup, addUserToGroup,
      removeUserFromGroup, handler_tenantID, with_tenant, or_error, verify_failure; cbv zeta; by staying|]).
  by apply elem_of_nil in Hin.
Qed.

(** A call that reaches a route. *)
Lemma routed call q p l params h env s :
  hc_url call = base +:+ q -> q = "/" +:+ p -> path_segments p = Some l ->
  resolve RegisterRoutes (hc_method call) l = Some (params, h) ->
  http_Do (peer := directory_Do) call env s = serve h (mkGinCtx
    (mkRequest (sent_headers call) (flat_map (fun kv => map (pair (fst kv)) (snd kv)) (hc_query call))
       params [] (hc_body call) "10.0.0.2") None) env s.
Proof.
  intros Hu Hq Hl Hr. rewrite http_Do_stays; unfold http_RoundTrip, directory_Do; rewrite Hu, (request_path_app _ _ p Hq), Hl; cycle 1.
  { apply stays_serve. intros env' s'. rewrite engine_routed by by eapply resolve_no_redirect. apply dispatch_stays, directory_stays. }
  unfold serve. rewrite engine_routed by by eapply resolve_no_redirect. unfold id, dispatch. by rewrite Hr.
Qed.

End Api.
