(* ===== verification/DirectoryFacts.v ===== *)
(** * What the directory guarantees

    The integrity of its tables, the isolation of its tenants, and that the
    users it creates can sign in until they are deleted. *)
From S2P Require Import Prelude Bcrypt GoStd Sql Http Middleware Directory.
Local Open Scope go_scope.

(** ** Integrity *)

(** An account and its identity belong together, and to one tenant. *)
Definition owned (d : DirDb) (a : account) : Prop :=
  exists i, i ∈ d_identities d /\ id_id i = an_identity a /\ id_tenant i = an_tenant a.

(** Both ends of a membership exist, in its tenant. *)
Definition anchored (d : DirDb) (m : membership) : Prop :=
  (exists i, i ∈ d_identities d /\ id_id i = mb_identity m /\ id_tenant i = mb_tenant m) /\
  (exists g, g ∈ d_groups d /\ gr_ID g = mb_group m /\ gr_TenantID g = mb_tenant m).

Abbreviation login_key := (fun a => (an_tenant a, an_login a)).
Abbreviation name_key := (fun g => (gr_TenantID g, gr_Name g)).
Abbreviation member_key := (fun m => (mb_identity m, mb_group m)).

Record dir_ok (d : DirDb) : Prop := {
  ok_identities : NoDup (id_id <$> d_identities d);
  ok_accounts : NoDup (an_id <$> d_accounts d);
  ok_logins : NoDup (login_key <$> d_accounts d);
  ok_owned : Forall (owned d) (d_accounts d);
  ok_groups : NoDup (gr_ID <$> d_groups d);
  ok_names : NoDup (name_key <$> d_groups d);
  ok_anchored : Forall (anchored d) (d_members d);
  ok_members : NoDup (member_key <$> d_members d)
}.

(** The part of the tables that belongs to a tenant. *)
Definition tenant_view (t : string) (d : DirDb)
    : list identity * list account * list Group * list membership :=
  (filter (fun i => id_tenant i = t) (d_identities d), filter (fun a => an_tenant a = t) (d_accounts d),
   filter (fun g => gr_TenantID g = t) (d_groups d), filter (fun m => mb_tenant m = t) (d_members d)).

Section Service.
Context {bcrypt : Bcrypt}.

(** The operations, by the tenant they are called for. *)
Inductive dir_call (tenantID : string) : forall {A}, M DirDb A -> Prop :=
| call_CreateUser user : dir_call tenantID (CreateUser tenantID user)
| call_GetUserByID id : dir_call tenantID (GetUserByID tenantID id)
| call_GetUserByEmail email : dir_call tenantID (GetUserByEmail tenantID email)
| call_ListUsers limit offset : dir_call tenantID (ListUsers tenantID limit offset)
| call_UpdateUser id user : dir_call tenantID (UpdateUser tenantID id user)
| call_DeleteUser id : dir_call tenantID (DeleteUser tenantID id)
| call_CreateGroup group : dir_call tenantID (CreateGroup tenantID group)
| call_GetGroupByID id : dir_call tenantID (GetGroupByID tenantID id)
| call_ListGroups limit offset : dir_call tenantID (ListGroups tenantID limit offset)
| call_UpdateGroup id group : dir_call tenantID (UpdateGroup tenantID id group)
| call_DeleteGroup id : dir_call tenantID (DeleteGroup tenantID id)
| call_AddUserToGroup u g : dir_call tenantID (AddUserToGroup tenantID u g)
| call_RemoveUserFromGroup u g : dir_call tenantID (RemoveUserFromGroup tenantID u g)
| call_VerifyCredentials email pw : dir_call tenantID (VerifyCredentials tenantID email pw)
| call_GetTenantByEmail email : dir_call tenantID (GetTenantByEmail email)
| call_HealthCheck : dir_call tenantID HealthCheck.

(** ** What each operation does to the tables *)

(** A user is created whole or not at all. *)
Lemma CreateUser_spec tenantID user env s r u :
  CreateUser tenantID user env s = (r, u) ->
  match r with
  | Ok id => exists t h tm aid, pg_uuid env tenantID = Some t /\
      bcrypt_Generate (tick s) (us_Password user) = inl h /\
      (forall i, i ∈ d_identities (st s) -> id_id i <> id) /\
      (forall a, a ∈ d_accounts (st s) -> an_id a <> aid /\ login_key a <> (t, us_Email user)) /\
      (exists n, id = gen_uuid env n) /\
      st u = mkDir (d_identities (st s) ++ [mkIdentity id t "active" tm tm])
               (d_accounts (st s) ++ [mkAccount aid id t (us_Email user) h])
               (d_groups (st s)) (d_members (st s)) (d_referenced (st s))
  | _ => st u = st s
  end.
Proof.
  intros H. unfold CreateUser in H.
  destruct r as [id|e|p]; cycle 1.
  { apply bind_inv in H as [(h & t & E & H)|(r' & E & _)].
    - apply GenerateFromPassword_Ok_inv in E as [_ ->]. by apply transaction_atomic in H.
    - by apply (readonly_run _ _ _ _ _ (readonly_GenerateFromPassword _) E). }
  { apply bind_inv in H as [(h & t & E & H)|(r' & E & _)].
    - apply GenerateFromPassword_Ok_inv in E as [_ ->]. by apply transaction_atomic in H.
    - by apply (readonly_run _ _ _ _ _ (readonly_GenerateFromPassword _) E). }
  apply bind_Ok_inv in H as (h & t & E & H). apply GenerateFromPassword_Ok_inv in E as [Hh ->].
  apply transaction_Ok_inv in H as (t & H & -> & _). cbn [tick st] in *.
  apply bind_Ok_inv in H as (ten & t1 & E1 & H). apply uuid_arg_Ok_inv in E1 as [Hten ->].
  apply bind_Ok_inv in H as (uid & t1 & E1 & H). apply zoom_Ok_inv in E1 as (t2 & E1 & ->).
  apply sql_insert_Ok_inv in E1 as (i & Hi & Hcl & ->). cbn in Hi, Hten. injection Hi as <- <-.
  minv. apply statement_Ok_inv in E2 as (_ & x & E2 & ->). cbn in E2.
  destruct (existsb _ _) eqn:Hfk; [|done]. destruct (existsb _ (d_accounts _)) eqn:Hun; [done|].
  simplify_eq. exists ten, h, (clock env (S (tick s))), (gen_uuid env (S (S (S (tick s))))).
  split_and!; [done|done| | |by eexists|reflexivity].
  - intros i Hi Heq. rewrite existsb_false in Hcl. specialize (Hcl i Hi). cbn in Hcl.
    by apply bool_decide_eq_false in Hcl.
  - intros b Hb. rewrite existsb_false in Hun. specialize (Hun b Hb).
    apply bool_decide_eq_false in Hun. split; [intros Heq|intros [= H1 H2]]; apply Hun; auto.
Qed.

(** *** Integrity is kept *)

Lemma DeleteUser_keeps_ok d i t :
  dir_ok d -> existsb (is_identity i t) (d_identities d) = true ->
  dir_ok (mkDir (filter (fun x => negb (is_identity i t x)) (d_identities d))
            (filter (fun a => an_identity a <> i) (d_accounts d)) (d_groups d)
            (filter (fun m => mb_identity m <> i) (d_members d)) (d_referenced d)).
Proof.
  intros [] _. split; cbn; auto using NoDup_key_filter.
  - apply Forall_forall. intros a [Ha Hin]%list_elem_of_filter.
    rewrite Forall_forall in ok_owned0. destruct (ok_owned0 a Hin) as (x & Hx & Hid & Ht).
    exists x. split_and!; [|done|done]. apply filter_bool_elem. split; [done|].
    apply negb_true_iff, bool_decide_eq_false. intros [? ?]. congruence.
  - apply Forall_forall. intros m [Hm Hin]%list_elem_of_filter.
    rewrite Forall_forall in ok_anchored0. destruct (ok_anchored0 m Hin) as [(x & Hx & Hid & Ht) Hg].
    split; [|done]. exists x. split_and!; [|done|done]. apply filter_bool_elem. split; [done|].
    apply negb_true_iff, bool_decide_eq_false. intros [? ?]. congruence.
Qed.

Lemma DeleteGroup_keeps_ok d i t :
  dir_ok d ->
  dir_ok (mkDir (d_identities d) (d_accounts d) (filter (fun g => negb (is_group i t g)) (d_groups d))
            (filter (fun m => mb_group m <> i) (d_members d)) (d_referenced d)).
Proof.
  intros []. split; cbn; auto using NoDup_key_filter.
  apply Forall_forall. intros m [Hm Hin]%list_elem_of_filter.
  rewrite Forall_forall in ok_anchored0. destruct (ok_anchored0 m Hin) as [Hi (g & Hg & Hid & Ht)].
  split; [done|]. exists g. split_and!; [|done|done]. apply filter_bool_elem. split; [done|].
  apply negb_true_iff, bool_decide_eq_false. intros [? ?]. congruence.
Qed.

(** New identities and accounts, rows that keep their keys. *)
Lemma identities_keep_ok d ids :
  dir_ok d -> NoDup (id_id <$> ids) ->
  (forall i, i ∈ d_identities d -> exists i', i' ∈ ids /\ id_id i' = id_id i /\ id_tenant i' = id_tenant i) ->
  dir_ok (mkDir ids (d_accounts d) (d_groups d) (d_members d) (d_referenced d)).
Proof.
  intros [] Hnd Hsub. split; cbn; try done.
  - eapply Forall_impl; [done|]. intros a (i & Hi & ? & ?).
    destruct (Hsub i Hi) as (i' & ? & ? & ?). exists i'. split_and!; [done|congruence..].
  - eapply Forall_impl; [done|]. intros m [(i & Hi & ? & ?) Hg]. split; [|done].
    destruct (Hsub i Hi) as (i' & ? & ? & ?). exists i'. split_and!; [done|congruence..].
Qed.

Lemma accounts_keep_ok d f :
  dir_ok d -> (forall a, an_id (f a) = an_id a /\ an_identity (f a) = an_identity a /\ an_tenant (f a) = an_tenant a) ->
  NoDup (login_key <$> map f (d_accounts d)) ->
  dir_ok (mkDir (d_identities d) (map f (d_accounts d)) (d_groups d) (d_members d) (d_referenced d)).
Proof.
  intros [] Hf Hnd. split; cbn; try done.
  - apply NoDup_key_map; [|done]. intros a. by destruct (Hf a).
  - apply Forall_forall. intros a (b & -> & Hb)%list_elem_of_fmap.
    rewrite Forall_forall in ok_owned0. destruct (ok_owned0 b Hb) as (i & Hi & ? & ?).
    destruct (Hf b) as (_ & ? & ?). exists i. split_and!; [done|congruence..].
Qed.

Lemma map_identities_keep_ok d f :
  dir_ok d -> (forall i, id_id (f i) = id_id i /\ id_tenant (f i) = id_tenant i) ->
  dir_ok (mkDir (map f (d_identities d)) (d_accounts d) (d_groups d) (d_members d) (d_referenced d)).
Proof.
  intros Hok Hf. apply identities_keep_ok; [done| |].
  - apply NoDup_key_map; [intros i; by destruct (Hf i)|apply Hok].
  - intros i Hi. exists (f i). destruct (Hf i). split_and!; [|done|done].
    apply list_elem_of_fmap. eauto.
Qed.

Lemma groups_keep_ok d gs :
  dir_ok d -> NoDup (gr_ID <$> gs) -> NoDup (name_key <$> gs) ->
  (forall g, g ∈ d_groups d -> exists g', g' ∈ gs /\ gr_ID g' = gr_ID g /\ gr_TenantID g' = gr_TenantID g) ->
  dir_ok (mkDir (d_identities d) (d_accounts d) gs (d_members d) (d_referenced d)).
Proof.
  intros [] Hnd Hnd' Hsub. split; cbn; try done.
  eapply Forall_impl; [done|]. intros m [Hi (g & Hg & ? & ?)]. split; [done|].
  destruct (Hsub g Hg) as (g' & ? & ? & ?). exists g'. split_and!; [done|congruence..].
Qed.

Lemma CreateUser_ok tenantID user : preserves dir_ok (CreateUser tenantID user).
Proof.
  intros env s Hok. destruct (CreateUser _ _ _ _) as [r u] eqn:H. apply CreateUser_spec in H. cbn [snd].
  destruct r as [id|e|p]; [|by rewrite H..].
  destruct H as (t & h & tm & aid & _ & _ & Hid & Hacc & _ & ->). destruct Hok.
  split; cbn; try done.
  - apply NoDup_key_snoc; [done|]. intros i Hi. by apply Hid.
  - apply NoDup_key_snoc; [done|]. intros a Ha. by apply Hacc.
  - apply (NoDup_key_snoc login_key); [done|]. intros a Ha. by apply Hacc.
  - apply Forall_app. split; [|apply Forall_singleton].
    + eapply Forall_impl; [done|]. intros a (i & Hi & ?). exists i. cbn. by rewrite elem_of_app; eauto.
    + eexists. split; [cbn; apply elem_of_app; right; left|done].
  - eapply Forall_impl; [done|]. intros m [(i & Hi & ?) Hg]. split; [|done].
    exists i. cbn. by rewrite elem_of_app; eauto.
Qed.

Lemma UpdateUser_ok tenantID id user : preserves dir_ok (UpdateUser tenantID id user).
Proof.
  apply preserves_transaction. unfold exec. effects; apply preserves_zoom_statement; try (by intros []);
    intros ? ? x ? y Hok Hf; cbn in Hf; [case_decide|..]; simplify_eq.
  - apply accounts_keep_ok; [done| |done]. intros b. by destruct (is_account_of _ _ b).
  - apply accounts_keep_ok; [done| |].
    + intros b. by destruct (is_account_of _ _ b).
    + apply (NoDup_key_map login_key); [|apply Hok]. intros b. by destruct (is_account_of _ _ b).
  - apply map_identities_keep_ok; [done|]. intros i. by destruct (is_identity _ _ i).
  - apply map_identities_keep_ok; [done|]. intros i. by destruct (is_identity _ _ i).
Qed.

Lemma DeleteUser_ok tenantID id : preserves dir_ok (DeleteUser tenantID id).
Proof.
  unfold DeleteUser. effects. apply preserves_statement. intros ? ? d ? d' Hok Hf.
  destruct (existsb _ _) eqn:Hex; [|by simplify_eq]. case_decide; simplify_eq.
  by apply DeleteUser_keeps_ok.
Qed.

Lemma CreateGroup_ok tenantID group : preserves dir_ok (CreateGroup tenantID group).
Proof.
  unfold CreateGroup. effects. apply preserves_zoom_statement; [by intros []|].
  intros ? ? d ? gs Hok Hf. cbn in Hf. destruct (existsb _ _) eqn:Hex; [done|]. simplify_eq.
  rewrite existsb_false in Hex.
  apply groups_keep_ok; [done| | |].
  - apply NoDup_key_snoc; [apply Hok|]. intros g Hg. specialize (Hex g Hg).
    apply bool_decide_eq_false in Hex. intros ?. apply Hex. by left.
  - apply (NoDup_key_snoc name_key); [apply Hok|]. intros g Hg. specialize (Hex g Hg).
    apply bool_decide_eq_false in Hex. intros [= ? ?]. apply Hex. by right.
  - intros g Hg. exists g. split_and!; [apply elem_of_app; by left|done|done].
Qed.

Lemma UpdateGroup_ok tenantID id group : preserves dir_ok (UpdateGroup tenantID id group).
Proof.
  unfold UpdateGroup, exec. effects. apply preserves_zoom_statement; [by intros []|].
  intros ? ? d ? gs Hok Hf. cbn in Hf. case_decide; simplify_eq.
  apply groups_keep_ok; [done| |done|].
  - apply NoDup_key_map; [|apply Hok]. intros g. by destruct (is_group _ _ g).
  - intros g Hg. eexists. split; [apply list_elem_of_fmap; eauto|]. by destruct (is_group _ _ g).
Qed.

Lemma DeleteGroup_ok tenantID id : preserves dir_ok (DeleteGroup tenantID id).
Proof.
  unfold DeleteGroup. effects. apply preserves_statement. intros ? ? d ? d' Hok Hf.
  destruct (existsb _ _); simplify_eq; [|done]. by apply DeleteGroup_keeps_ok.
Qed.

Lemma AddUserToGroup_ok tenantID u g : preserves dir_ok (AddUserToGroup tenantID u g).
Proof.
  unfold AddUserToGroup. effects. apply preserves_statement. intros ? ? d ? d' [] Hf.
  destruct (existsb (is_identity _ _) _ && _) eqn:Hex; [|by simplify_eq].
  destruct (existsb _ (d_members d)) eqn:Hm; simplify_eq.
  apply andb_true_iff in Hex as [(i & Hi & Hi')%existsb_elem (g' & Hg & Hg')%existsb_elem].
  apply bool_decide_eq_true in Hi' as [? ?]. apply bool_decide_eq_true in Hg' as [? ?].
  rewrite existsb_false in Hm. split; cbn; try done.
  - apply Forall_app. split; [done|]. apply Forall_singleton. split; eauto.
  - apply (NoDup_key_snoc member_key); [done|]. intros m Hin. specialize (Hm m Hin).
    apply bool_decide_eq_false in Hm. intros [= ? ?]. by apply Hm.
Qed.

Lemma RemoveUserFromGroup_ok tenantID u g : preserves dir_ok (RemoveUserFromGroup tenantID u g).
Proof.
  unfold RemoveUserFromGroup, exec. effects. apply preserves_zoom_statement; [by intros []|].
  intros ? ? d ? ms [] Hf. simplify_eq. split; cbn; try done.
  - by apply Forall_filter_weaken.
  - by apply (NoDup_key_filter member_key).
Qed.

Lemma readonly_reads tenantID :
  (forall id, readonly (GetUserByID tenantID id)) /\ (forall e, readonly (GetUserByEmail tenantID e)) /\
  (forall l o, readonly (ListUsers tenantID l o)) /\ (forall id, readonly (GetGroupByID tenantID id)) /\
  (forall l o, readonly (ListGroups tenantID l o)) /\
  (forall e p, readonly (VerifyCredentials tenantID e p)) /\ (forall e, readonly (GetTenantByEmail e)) /\
  readonly HealthCheck.
Proof.
  assert (forall A (f : Env -> nat -> DirDb -> (A * DirDb) + error),
    (forall env n d a d', f env n d = inl (a, d') -> d' = d) -> readonly (statement f)) as Hst.
  { intros A f Hf. apply readonly_statement. intros. by eapply Hf. }
  split_and!; intros;
    unfold GetUserByID, GetUserByEmail, ListUsers, GetGroupByID, ListGroups, VerifyCredentials,
      GetTenantByEmail, HealthCheck, get_joined, select_joined; effects.
  all: first [apply Hst; intros; repeat case_match; by simplify_eq
             | apply readonly_zoom; [by intros []|]; effects;
               apply readonly_statement; intros; repeat case_match; by simplify_eq
             | apply readonly_or_nil, readonly_zoom; [by intros []|]; effects ].
Qed.

(** Every operation keeps the directory's integrity, whatever it
    ends in: identities, accounts, groups and memberships stay unique on their
    keys, an account stays with an identity of its tenant, and a membership
    between an identity and a group of its tenant. *)
Theorem dir_integrity tenantID A (m : M DirDb A) : dir_call tenantID m -> preserves dir_ok m.
Proof.
  intros Hc. destruct (readonly_reads tenantID) as (H1 & H2 & H3 & H4 & H5 & H6 & H7 & H8).
  destruct Hc; auto using CreateUser_ok, UpdateUser_ok, DeleteUser_ok, CreateGroup_ok, UpdateGroup_ok,
    DeleteGroup_ok, AddUserToGroup_ok, RemoveUserFromGroup_ok, @readonly_preserves.
Qed.

(** *** Tenants are isolated *)

(** Calls whose tenant is not [t']. *)
Definition elsewhere (tenantID t' : string) (env : Env) : Prop := pg_uuid env tenantID <> Some t'.

Abbreviation view_is t' v := (fun d => tenant_view t' d = v).

Lemma uuid_elsewhere tenantID t' env {S} (s : St S) t u :
  elsewhere tenantID t' env -> uuid_arg tenantID env s = (Ok t, u) -> t <> t'.
Proof. intros HE [Ht _]%uuid_arg_Ok_inv ->. by apply HE. Qed.

Lemma CreateUser_isolated tenantID t' v user :
  keeps (elsewhere tenantID t') (view_is t' v) (CreateUser tenantID user).
Proof.
  intros env s HE Hv. destruct (CreateUser _ _ _ _) as [r u] eqn:H. apply CreateUser_spec in H. cbn [snd].
  destruct r as [id|e|p]; [|by rewrite H..].
  destruct H as (t & h & tm & aid & Ht & _ & _ & _ & _ & ->). rewrite <-Hv. unfold tenant_view. cbn.
  rewrite !filter_snoc_other; [done|cbn; intros ->; by apply HE..].
Qed.

Lemma UpdateUser_isolated tenantID t' v id user :
  keeps (elsewhere tenantID t') (view_is t' v) (UpdateUser tenantID id user).
Proof.
  apply keeps_transaction; [done|]. unfold exec. keeping.
  all: match goal with HE : elsewhere ?T _ ?e, H : uuid_arg ?T ?e _ = (Ok _, _) |- _ =>
         pose proof (uuid_elsewhere _ _ _ _ _ _ HE H) end.
  all: apply preserves_keeps, preserves_zoom_statement; [by intros []|].
  all: intros ? ? x ? y <- Hf; cbn in Hf; try case_decide; simplify_eq; unfold tenant_view, is_account_of, is_identity; cbn.
  all: rewrite filter_map_other; [done|intros z; by destruct (bool_decide _)|intros z <-].
  all: match goal with |- (if ?b then _ else _) = _ => destruct b eqn:Hb; [|done] end.
  all: apply bool_decide_eq_true in Hb as [_ ?]; congruence.
Qed.

Lemma DeleteUser_isolated tenantID t' id env s :
  elsewhere tenantID t' env -> dir_ok (st s) ->
  tenant_view t' (st (snd (DeleteUser tenantID id env s))) = tenant_view t' (st s).
Proof.
  intros HE Hok. unfold DeleteUser, bind, uuid_arg. destruct (pg_uuid env id) as [i|]; [|done].
  destruct (pg_uuid env tenantID) as [t|] eqn:Ht; [|done].
  assert (t <> t') as Hne by (intros ->; by apply HE). unfold statement.
  destruct (db_fault _ _); [done|]. destruct (existsb _ _) eqn:Hex; [|done]. case_decide; [done|].
  apply existsb_elem in Hex as (x & Hx & Hp). apply bool_decide_eq_true in Hp as [<- <-].
  destruct Hok. unfold tenant_view. cbn. rewrite !filter_filter_other; [done| | |].
  - intros m Hm <- Heq. rewrite Forall_forall in ok_anchored0.
    destruct (ok_anchored0 m Hm) as [(y & Hy & Hid & Hty) _]. rewrite <-Hty in Hne. apply Hne.
    f_equal. eapply (NoDup_key_inj id_id); [done..|congruence].
  - intros a Ha <- Heq. rewrite Forall_forall in ok_owned0.
    destruct (ok_owned0 a Ha) as (y & Hy & Hid & Hty). rewrite <-Hty in Hne. apply Hne.
    f_equal. eapply (NoDup_key_inj id_id); [done..|congruence].
  - intros y Hy <-. apply Is_true_true, negb_true_iff, bool_decide_eq_false. intros [_ ?]. congruence.
Qed.

Lemma CreateGroup_isolated tenantID t' v group :
  keeps (elsewhere tenantID t') (view_is t' v) (CreateGroup tenantID group).
Proof.
  unfold CreateGroup. keeping. pose proof (uuid_elsewhere _ _ _ _ _ _ HE E).
  apply preserves_keeps, preserves_zoom_statement; [by intros []|].
  intros ? ? x ? y <- Hf; cbn in Hf. destruct (existsb _ _); simplify_eq. unfold tenant_view; cbn.
  by rewrite filter_snoc_other.
Qed.

Lemma UpdateGroup_isolated tenantID t' v id group :
  keeps (elsewhere tenantID t') (view_is t' v) (UpdateGroup tenantID id group).
Proof.
  unfold UpdateGroup, exec. keeping. pose proof (uuid_elsewhere _ _ _ _ _ _ HE1 E1).
  apply preserves_keeps, preserves_zoom_statement; [by intros []|].
  intros ? ? x ? y <- Hf; cbn in Hf. case_decide; simplify_eq. unfold tenant_view; cbn.
  rewrite filter_map_other; [done|intros z; by destruct (is_group _ _ z)|intros z <-].
  destruct (is_group _ _ z) eqn:Hb; [|done]. apply bool_decide_eq_true in Hb as [_ ?]. congruence.
Qed.

Lemma DeleteGroup_isolated tenantID t' id env s :
  elsewhere tenantID t' env -> dir_ok (st s) ->
  tenant_view t' (st (snd (DeleteGroup tenantID id env s))) = tenant_view t' (st s).
Proof.
  intros HE Hok. unfold DeleteGroup, bind, uuid_arg. destruct (pg_uuid env id) as [i|]; [|done].
  destruct (pg_uuid env tenantID) as [t|] eqn:Ht; [|done].
  assert (t <> t') as Hne by (intros ->; by apply HE). unfold statement.
  destruct (db_fault _ _); [done|]. destruct (existsb _ _) eqn:Hex; [|done].
  apply existsb_elem in Hex as (x & Hx & Hp). apply bool_decide_eq_true in Hp as [<- <-].
  destruct Hok. unfold tenant_view. cbn. rewrite !filter_filter_other; [done| |].
  - intros m Hm <- Heq. rewrite Forall_forall in ok_anchored0.
    destruct (ok_anchored0 m Hm) as [_ (y & Hy & Hid & Hty)]. rewrite <-Hty in Hne. apply Hne.
    f_equal. eapply (NoDup_key_inj gr_ID); [done..|congruence].
  - intros y Hy <-. apply Is_true_true, negb_true_iff, bool_decide_eq_false. intros [_ ?]. congruence.
Qed.

Lemma AddUserToGroup_isolated tenantID t' v i g :
  keeps (elsewhere tenantID t') (view_is t' v) (AddUserToGroup tenantID i g).
Proof.
  unfold AddUserToGroup. keeping. pose proof (uuid_elsewhere _ _ _ _ _ _ HE1 E1).
  apply preserves_keeps, preserves_statement. intros ? ? x ? y <- Hf.
  destruct (existsb (is_identity _ _) _ && _); [|by simplify_eq].
  destruct (existsb _ (d_members x)); simplify_eq. unfold tenant_view; cbn.
  by rewrite filter_snoc_other.
Qed.

Lemma RemoveUserFromGroup_isolated tenantID t' v i g :
  keeps (elsewhere tenantID t') (view_is t' v) (RemoveUserFromGroup tenantID i g).
Proof.
  unfold RemoveUserFromGroup, exec. keeping. pose proof (uuid_elsewhere _ _ _ _ _ _ HE1 E1).
  apply preserves_keeps, preserves_zoom_statement; [by intros []|].
  intros ? ? x ? y <- Hf; cbn in Hf; simplify_eq. unfold tenant_view; cbn.
  rewrite filter_filter_other; [done|]. intros z Hz <-.
  apply Is_true_true, negb_true_iff, bool_decide_eq_false. intros (_ & _ & ?). congruence.
Qed.

(** No operation of one tenant touches another: whatever it ends
    in, the identities, accounts, groups and memberships of every other tenant
    are what they were. *)
Theorem tenant_isolation tenantID t' A (m : M DirDb A) env s r u :
  dir_call tenantID m -> pg_uuid env tenantID <> Some t' -> dir_ok (st s) ->
  m env s = (r, u) -> tenant_view t' (st u) = tenant_view t' (st s).
Proof.
  intros Hc HE Hok Hr. replace u with (snd (m env s)) by (by rewrite Hr). clear Hr.
  destruct (readonly_reads tenantID) as (H1 & H2 & H3 & H4 & H5 & H6 & H7 & H8).
  destruct Hc.
  - by apply (CreateUser_isolated tenantID t').
  - by rewrite H1.
  - by rewrite H2.
  - by rewrite H3.
  - by apply (UpdateUser_isolated tenantID t').
  - by apply DeleteUser_isolated.
  - by apply (CreateGroup_isolated tenantID t').
  - by rewrite H4.
  - by rewrite H5.
  - by apply (UpdateGroup_isolated tenantID t').
  - by apply DeleteGroup_isolated.
  - by apply (AddUserToGroup_isolated tenantID t').
  - by apply (RemoveUserFromGroup_isolated tenantID t').
  - by rewrite H6.
  - by rewrite H7.
  - by rewrite H8.
Qed.

(** *** Reads see one tenant *)

Definition join (ids : list identity) (accs : list account) : list (identity * account) :=
  flat_map (fun i => map (pair i) (filter (fun a => an_identity a = id_id i) accs)) ids.

Lemma filter_join t ids accs :
  filter (fun r => id_tenant (fst r) = t) (join ids accs) =
  join (filter (fun i => id_tenant i = t) ids) accs.
Proof.
  unfold join. induction ids as [|i ids IH]; [done|]. cbn [flat_map]. rewrite filter_app, IH, filter_cons.
  destruct (decide (id_tenant i = t)) as [Ht|Ht]; cbn [flat_map].
  - f_equal. apply filter_all, Forall_forall. by intros [j a] (b & [= -> ->] & _)%list_elem_of_fmap.
  - rewrite filter_none; [done|]. by intros [j a] (b & [= -> ->] & _)%list_elem_of_fmap.
Qed.

(** The rows of a tenant in the join come from the tenant's tables. *)
Lemma joined_view t d :
  dir_ok d ->
  filter (fun r => id_tenant (fst r) = t) (joined d) =
  join (filter (fun i => id_tenant i = t) (d_identities d)) (filter (fun a => an_tenant a = t) (d_accounts d)).
Proof.
  intros []. change (joined d) with (join (d_identities d) (d_accounts d)). rewrite filter_join.
  unfold join. rewrite !flat_map_concat_map. f_equal. apply map_ext_in. intros i Hi%list_elem_of_In.
  apply list_elem_of_filter in Hi as [Ht Hi]. f_equal. symmetry. apply filter_filter_other.
  intros a Ha Hid. rewrite Forall_forall in ok_owned0.
  destruct (ok_owned0 a Ha) as (j & Hj & Hj' & Htj). rewrite <-Htj, <-Ht. f_equal.
  eapply (NoDup_key_inj id_id); [done..|congruence].
Qed.

Lemma joined_agree t (p : identity * account -> bool) d d' :
  dir_ok d -> dir_ok d' -> tenant_view t d = tenant_view t d' ->
  (forall r, p r = true -> id_tenant (fst r) = t) ->
  filter p (joined d) = filter p (joined d').
Proof.
  intros Hd Hd' Hv Hp.
  rewrite <-(filter_filter_other p (fun r => id_tenant (fst r) = t) (joined d)) by
    (intros r _ Hr%Is_true_true; auto).
  rewrite <-(filter_filter_other p (fun r => id_tenant (fst r) = t) (joined d')) by
    (intros r _ Hr%Is_true_true; auto).
  rewrite !joined_view by done. unfold tenant_view in Hv. injection Hv as H1 H2 _ _. by rewrite H1, H2.
Qed.

(** The queries of a tenant. *)
Inductive dir_read (tenantID : string) : forall {A}, M DirDb A -> Prop :=
| read_GetUserByID id : dir_read tenantID (GetUserByID tenantID id)
| read_GetUserByEmail email : dir_read tenantID (GetUserByEmail tenantID email)
| read_ListUsers limit offset : dir_read tenantID (ListUsers tenantID limit offset)
| read_GetGroupByID id : dir_read tenantID (GetGroupByID tenantID id)
| read_ListGroups limit offset : dir_read tenantID (ListGroups tenantID limit offset)
| read_VerifyCredentials email pw : dir_read tenantID (VerifyCredentials tenantID email pw).

Lemma get_joined_agree t p env n d d' :
  dir_ok d -> dir_ok d' -> tenant_view t d = tenant_view t d' ->
  (forall r, p r = true -> id_tenant (fst r) = t) ->
  fst (get_joined p env (mkSt n d)) = fst (get_joined p env (mkSt n d')).
Proof.
  intros Hd Hd' Hv Hp. unfold get_joined, select_joined, bind, statement. cbn [tick st].
  destruct (db_fault _ _); [done|]. rewrite (joined_agree t p d d') by done. by destruct (reorder _ _).
Qed.

Lemma groups_agree t (p : Group -> bool) d d' :
  tenant_view t d = tenant_view t d' -> (forall g, p g = true -> gr_TenantID g = t) ->
  filter p (d_groups d) = filter p (d_groups d').
Proof.
  intros Hv Hp.
  rewrite <-(filter_filter_other p (fun g => gr_TenantID g = t) (d_groups d)) by
    (intros g _ Hg%Is_true_true; auto).
  rewrite <-(filter_filter_other p (fun g => gr_TenantID g = t) (d_groups d')) by
    (intros g _ Hg%Is_true_true; auto).
  unfold tenant_view in Hv. injection Hv as _ _ H3 _. by rewrite H3.
Qed.

Lemma fst_bind_ret {S A B} (m : M S A) (f : A -> B) env s s' :
  fst (m env s) = fst (m env s') ->
  fst (bind m (fun a => ret (f a)) env s) = fst (bind m (fun a => ret (f a)) env s').
Proof.
  unfold bind. destruct (m env s) as [r u], (m env s') as [r' u']. cbn. intros ->. by destruct r'.
Qed.

Lemma user_reads_agree tenantID t env n d d' :
  dir_ok d -> dir_ok d' -> tenant_view t d = tenant_view t d' -> pg_uuid env tenantID = Some t ->
  (forall id, fst (GetUserByID tenantID id env (mkSt n d)) = fst (GetUserByID tenantID id env (mkSt n d'))) /\
  (forall e, fst (GetUserByEmail tenantID e env (mkSt n d)) = fst (GetUserByEmail tenantID e env (mkSt n d'))) /\
  (forall e pw, fst (VerifyCredentials tenantID e pw env (mkSt n d)) =
                fst (VerifyCredentials tenantID e pw env (mkSt n d'))).
Proof.
  intros Hd Hd' Hv Ht. split_and!.
  - intros id. unfold GetUserByID. rewrite !uuid_bind. destruct (pg_uuid env id) as [i|]; [|done].
    rewrite !uuid_bind, Ht.
    apply fst_bind_ret, (get_joined_agree t); [done..|]. intros r [_ ?]%bool_decide_eq_true. done.
  - intros e. unfold GetUserByEmail. rewrite !uuid_bind, Ht.
    apply fst_bind_ret, (get_joined_agree t); [done..|]. intros r (_ & _ & ?)%bool_decide_eq_true. done.
  - intros e pw. unfold VerifyCredentials.
    assert (fst (get_joined (is_login e t) env (mkSt n d)) = fst (get_joined (is_login e t) env (mkSt n d'))) as E.
    { apply (get_joined_agree t); [done..|]. intros r (_ & _ & ?)%bool_decide_eq_true. done. }
    unfold bind, map_err, uuid_arg. rewrite Ht.
    destruct (get_joined _ _ _) as [r u], (get_joined _ _ _) as [r' u']. cbn in E. subst r'.
    destruct r as [x|e'|p']; [|done..]. by destruct (negb _).
Qed.

(** Property C19. The answer to a query is a function of the tenant's own rows:
    two databases that agree on a tenant's identities, accounts, groups and
    memberships answer that tenant's queries alike, whatever else they hold. *)
Theorem reads_isolated tenantID t A (m : M DirDb A) env n d d' :
  dir_read tenantID m -> pg_uuid env tenantID = Some t -> dir_ok d -> dir_ok d' ->
  tenant_view t d = tenant_view t d' -> fst (m env (mkSt n d)) = fst (m env (mkSt n d')).
Proof.
  intros Hm Ht Hd Hd' Hv. destruct (user_reads_agree tenantID t env n d d' Hd Hd' Hv Ht) as (H1 & H2 & H3).
  destruct Hm as [id|e|limit offset|id|limit offset|e pw]; [done|done| | | |done].
  - assert (filter (fun r => id_tenant (fst r) = t) (joined d) = filter (fun r => id_tenant (fst r) = t) (joined d')) as Hj.
    { rewrite !joined_view by done. unfold tenant_view in Hv. injection Hv as Hi Ha _ _. by rewrite Hi, Ha. }
    unfold tenant_view in Hv. injection Hv as Hi _ _ _. rewrite <-!(filter_decide (fun i => id_tenant i = t)) in Hi.
    destruct d, d'. unfold ListUsers, bind, uuid_arg. rewrite Ht.
    unfold on_identities, zoom, sql_count, statement. cbn [tick st].
    destruct (db_fault env n); [done|]. cbn. destruct (db_fault env (S n)); [done|].
    unfold joined in Hj. cbn in Hj, Hi. rewrite Hj, Hi. by destruct (sql_page _ _ _).
  - unfold GetGroupByID, bind, uuid_arg. destruct (pg_uuid env id) as [i|]; [|done]. rewrite Ht.
    unfold on_groups, zoom, sql_get, statement. cbn [tick st]. destruct (db_fault env n); [done|].
    rewrite (groups_agree t _ d d' Hv) by (by intros g [_ ?]%bool_decide_eq_true). by destruct (reorder _ _).
  - unfold ListGroups, bind, uuid_arg. rewrite Ht. unfold on_groups, zoom, sql_count, statement. cbn [tick st].
    destruct (db_fault env n); [done|]. cbn. destruct (db_fault env (S n)); [done|].
    rewrite !filter_decide. unfold tenant_view in Hv. injection Hv as _ _ Hg _. rewrite Hg.
    by destruct (sql_page _ _ _).
Qed.

(** ** Signing in *)

Lemma elem_of_join ids accs i a :
  (i, a) ∈ join ids accs <-> i ∈ ids /\ a ∈ accs /\ an_identity a = id_id i.
Proof.
  unfold join. rewrite list_elem_of_In, in_flat_map. setoid_rewrite <-list_elem_of_In. split.
  - intros (j & Hj & (b & [= -> ->] & [? ?]%list_elem_of_filter)%list_elem_of_fmap). done.
  - intros (Hi & Ha & Hid). exists i. split; [done|]. apply list_elem_of_fmap. exists a.
    split; [done|]. by apply list_elem_of_filter.
Qed.

Lemma NoDup_join ids accs :
  NoDup (id_id <$> ids) -> NoDup (an_id <$> accs) -> NoDup ((fun r => an_id (snd r)) <$> join ids accs).
Proof.
  intros Hi Ha. induction ids as [|i ids IH]; [constructor|].
  apply NoDup_cons in Hi as [Hni Hi].
  change (join (i :: ids) accs) with
    (map (pair i) (filter (fun a => an_identity a = id_id i) accs) ++ join ids accs).
  rewrite fmap_app. apply NoDup_app. split_and!; [| |auto].
  - replace ((fun r => an_id (snd r)) <$> map (pair i) _) with (an_id <$> filter (fun a => an_identity a = id_id i) accs);
      [by apply NoDup_key_filter|].
    by induction (filter _ accs) as [|x l IH']; [|cbn; f_equal].
  - intros k (r & -> & (a & -> & [Hia Hina]%list_elem_of_filter)%list_elem_of_fmap)%list_elem_of_fmap
      ([j b] & Hk & (Hj & Hb & Hbj)%elem_of_join)%list_elem_of_fmap.
    cbn in Hk. assert (a = b) as -> by by apply (NoDup_key_inj an_id accs).
    apply Hni, list_elem_of_fmap. exists j. split; [congruence|done].
Qed.

(** The row a login names. *)
Lemma login_row d i a :
  dir_ok d -> i ∈ d_identities d -> a ∈ d_accounts d -> an_identity a = id_id i ->
  filter (is_login (an_login a) (an_tenant a)) (joined d) = [(i, a)].
Proof.
  intros Hok Hi Ha Hid. destruct Hok. assert (id_tenant i = an_tenant a) as Ht.
  { rewrite Forall_forall in ok_owned0. destruct (ok_owned0 a Ha) as (j & Hj & Hj' & <-).
    f_equal. eapply (NoDup_key_inj id_id); [done..|congruence]. }
  apply (filter_key_unique (fun r => an_id (snd r))); [by apply NoDup_join|by apply elem_of_join|].
  intros [j b] (Hj & Hb & Hjb)%elem_of_join. unfold is_login. rewrite bool_decide_eq_true. cbn. split.
  - intros (Hl & Htb & _). f_equal. apply (NoDup_key_inj login_key (d_accounts d)); [done..|congruence].
  - intros Heq. assert (b = a) as -> by by apply (NoDup_key_inj an_id (d_accounts d)).
    assert (j = i) as -> by (eapply (NoDup_key_inj id_id); [done..|congruence]). done.
Qed.

Lemma VerifyCredentials_up tenantID t email pw env n d :
  db_up env -> pg_uuid env tenantID = Some t ->
  VerifyCredentials tenantID email pw env (mkSt n d) =
    (match reorder (row_order env n) (filter (is_login email t) (joined d)) with
     | r :: _ => if CompareHashAndPassword (an_hash (snd r)) pw then Ok (row_user r)
                 else Err ErrInvalidCredentials
     | [] => Err ErrInvalidCredentials
     end, mkSt (S n) d).
Proof.
  intros Hup Ht. unfold VerifyCredentials, map_err, bind, uuid_arg. rewrite Ht.
  unfold get_joined, select_joined, bind, statement. rewrite Hup. cbn [tick st].
  destruct (reorder _ _) as [|r l]; [done|]. cbn. by destruct (CompareHashAndPassword _ _).
Qed.

(** Property C20. Credentials verify exactly when an account of the tenant has
    that login and its hash accepts the password, and then the answer is that
    user; otherwise they are invalid.  The status of the identity plays no
    part: an inactive or suspended user signs in like an active one. *)
Theorem verify_credentials_iff tenantID t email pw env n d :
  db_up env -> pg_uuid env tenantID = Some t -> dir_ok d ->
  (forall user, VerifyCredentials tenantID email pw env (mkSt n d) = (Ok user, mkSt (S n) d) <->
     exists i a, i ∈ d_identities d /\ a ∈ d_accounts d /\ an_identity a = id_id i /\
       an_tenant a = t /\ an_login a = email /\ CompareHashAndPassword (an_hash a) pw = true /\
       user = mkUser (id_id i) t email estr (id_status i) (id_created i) (id_updated i)) /\
  (is_ok (fst (VerifyCredentials tenantID email pw env (mkSt n d))) = false ->
   VerifyCredentials tenantID email pw env (mkSt n d) = (Err ErrInvalidCredentials, mkSt (S n) d)).
Proof.
  intros Hup Ht Hok. rewrite (VerifyCredentials_up _ t) by done. split.
  - intros user. split.
    + intros Heq. destruct (reorder _ _) as [|[i a] l] eqn:Hf; [done|]. cbn in Heq.
      destruct (CompareHashAndPassword _ _) eqn:Hc; [|done]. simplify_eq.
      assert ((i, a) ∈ reorder (row_order env n) (filter (is_login email t) (joined d))) as Hin by (rewrite Hf; left).
      apply reorder_elem, filter_bool_elem in Hin as [(Hi & Ha & Hid)%elem_of_join (Hl & Hta & Hti)%bool_decide_eq_true].
      cbn in *. exists i, a. unfold row_user. cbn. rewrite Hti, Hl. done.
    + intros (i & a & Hi & Ha & Hid & <- & <- & Hc & ->). rewrite (login_row d i a), reorder_one by done. cbn. rewrite Hc.
      do 2 f_equal. unfold row_user. cbn. destruct Hok. rewrite Forall_forall in ok_owned0.
      destruct (ok_owned0 a Ha) as (j & Hj & Hj' & <-). f_equal.
      f_equal. eapply (NoDup_key_inj id_id); [done..|congruence].
  - intros H. destruct (reorder _ _) as [|r l]; [done|]. cbn in *. by destruct (CompareHashAndPassword _ _).
Qed.

(** A created user's credentials verify. *)
Lemma created_verifies `{!BcryptLaws} tenantID user env s id u env' n :
  dir_ok (st s) -> CreateUser tenantID user env s = (Ok id, u) ->
  db_up env' -> pg_uuid env' tenantID = pg_uuid env tenantID ->
  exists t tm, pg_uuid env tenantID = Some t /\
    VerifyCredentials tenantID (us_Email user) (us_Password user) env' (mkSt n (st u)) =
      (Ok (mkUser id t (us_Email user) estr "active" tm tm), mkSt (S n) (st u)).
Proof.
  intros Hok Hc Hup Hpg.
  assert (dir_ok (st u)) as Hok' by exact (preserves_run dir_ok _ _ _ _ _ (CreateUser_ok _ _) Hc Hok).
  apply CreateUser_spec in Hc as (t & h & tm & aid & Ht & Hh & _ & _ & _ & Hst).
  exists t, tm. split; [done|]. rewrite (VerifyCredentials_up _ t) by (done || congruence).
  assert (filter (is_login (us_Email user) t) (joined (st u)) =
          [(mkIdentity id t "active" tm tm, mkAccount aid id t (us_Email user) h)]) as ->.
  { apply (login_row (st u) (mkIdentity id t "active" tm tm) (mkAccount aid id t (us_Email user) h));
      [done|rewrite Hst; cbn; apply elem_of_app; right; left..|done]. }
  rewrite reorder_one. cbn. by rewrite (bcrypt_roundtrip _ _ _ Hh).
Qed.

(** A user who has been created can sign in with the password
    they were created with, and is then found under their id and email; after
    they are deleted no credentials of the tenant verify as them again. *)
Theorem user_lifecycle `{!BcryptLaws} tenantID user env s id u v n :
  db_up env -> (forall n, pg_uuid env (gen_uuid env n) = Some (gen_uuid env n)) ->
  dir_ok (st s) -> CreateUser tenantID user env s = (Ok id, u) ->
  DeleteUser tenantID id env u = (Ok tt, v) ->
  (exists found w, VerifyCredentials tenantID (us_Email user) (us_Password user) env (mkSt n (st u)) = (Ok found, w) /\
     us_ID found = id /\ us_Email found = us_Email user) /\
  (forall email pw found w,
     VerifyCredentials tenantID email pw env (mkSt n (st v)) = (Ok found, w) -> us_ID found <> id).
Proof.
  intros Hup Hcan Hok Hc Hd.
  destruct (created_verifies tenantID user env s id u env n Hok Hc Hup eq_refl) as (t & tm & Ht & Hver).
  split; [eexists _, _; split; [exact Hver|done]|].
  assert (dir_ok (st u)) as Hok' by exact (preserves_run dir_ok _ _ _ _ _ (CreateUser_ok _ _) Hc Hok).
  apply CreateUser_spec in Hc as (t0 & h & tm0 & aid & Ht0 & _ & _ & _ & [k ->] & Hst).
  unfold DeleteUser in Hd. rewrite uuid_bind, Hcan, uuid_bind, Ht in Hd.
  apply statement_Ok_inv in Hd as (_ & x & Hd & ->). cbn [st] in *.
  assert (existsb (is_identity (gen_uuid env k) t) (d_identities (st u)) = true) as Hex.
  { apply existsb_elem. eexists. rewrite Hst. cbn. split; [apply elem_of_app; right; left|].
    apply bool_decide_eq_true. split; [done|]. cbn. congruence. }
  rewrite Hex in Hd. case_decide; [done|]. injection Hd as <-.
  intros email pw found w Hv. rewrite (VerifyCredentials_up _ t) in Hv by done.
  destruct (reorder _ _) as [|[i a] l] eqn:Hf; [done|].
  assert ((i, a) ∈ join (filter (fun x => negb (is_identity (gen_uuid env k) t x)) (d_identities (st u)))
            (filter (fun a => an_identity a <> gen_uuid env k) (d_accounts (st u)))) as Hin.
  { assert ((i, a) ∈ (i, a) :: l) as Hin by left. rewrite <-Hf in Hin.
    by apply reorder_elem, filter_bool_elem in Hin as [Hin _]. }
  apply elem_of_join in Hin as (_ & [Ha _]%list_elem_of_filter & Hid).
  cbn in Hv. destruct (CompareHashAndPassword _ _); simplify_eq. cbn. congruence.
Qed.

End Service.
