(* ===== verification/SignUpLogin.v ===== *)
(** * Signing up and signing in across two services

    The auth service (Login.v) with the directory service (DirectoryApi.v) as
    the peer its HTTP client talks to. *)
From S2P Require Import Prelude Bcrypt GoStd GoUrl Sha256 Sql Http Middleware Gin.
From S2P Require Import OAuthClient AuthClient TokenStores Risk AuthService AuthFacts AuthDemo.
From S2P Require Import Login LoginFacts Directory DirectoryApi DirectoryFacts.
Local Open Scope go_scope.

(** ** The deployment *)
Section Deployment.
Context {crypto : Crypto} {bcrypt_laws : BcryptLaws}.
Context {C R V O D L T : Type}.
Context `{!AuthorizationCodeStore C, !RefreshTokenStore R, !RevocationStore V, !OAuthStore O,
          !DeviceStore D, !LoginAttemptStore L, !TOTPStore T}.
Context `{!Binder CreateUserRequest, !Validator CreateUserRequest, !Validator GetUserByEmailRequest,
          !Validator GetUserByIDRequest, !Binder User, !Validator UpdateUserRequest,
          !Validator DeleteUserRequest, !Binder CreateGroupRequest, !Validator CreateGroupRequest,
          !Validator GetGroupByIDRequest, !Binder Group, !Validator UpdateGroupRequest,
          !Validator DeleteGroupRequest, !Binder AddUserToGroupRequest,
          !Validator AddUserToGroupRequest, !Validator RemoveUserFromGroupRequest,
          !Binder VerifyCredentialsRequest, !Validator VerifyCredentialsRequest}.
Context {gin : GinRedirect} (cfg : AuthConfig) (lc : LoginConfig) (serviceAuth : ServiceAuthConfig).

Abbreviation base := (lc_directoryServiceURL lc).
#[local] Instance peer : HttpPeer DirDb := directory_Do serviceAuth base.

Abbreviation Auth := (AuthState C R V O D SignalDb).
Abbreviation State := (LoginState Auth DirDb L T).

(** The two services are configured alike, and the directory's address makes
    URLs that parse. *)
Record wired : Prop := {
  w_token : lc_serviceAuthToken lc = sc_Token serviceAuth;
  w_nonempty : sc_Token serviceAuth <> estr;
  w_header : lc_serviceAuthHeader lc =
    (if decide (sc_HeaderName serviceAuth = estr) then DefaultServiceAuthHeader else sc_HeaderName serviceAuth);
  w_distinct : lower (lc_serviceAuthHeader lc) <> lower DefaultTenantHeader;
  w_users : exists u, url_Parse (base +:+ "/users") = inl u;
  w_verify : exists u, url_Parse (base +:+ "/internal/credentials/verify") = inl u
}.

(** The documents the auth service sends, as the directory decodes them. *)
Record decodes : Prop := {
  de_create : forall r email pw,
    rq_body r = JObj [("user", JObj [("email", JStr email); ("password", JStr pw); ("status", JStr "active")])] ->
    should_bind r = inl (mkCreateUserRequest (mkUser estr estr email pw "active" 0 0));
  de_verify : forall r email pw,
    rq_body r = JObj [("email", JStr email); ("password", JStr pw)] ->
    should_bind r = inl (mkVerifyCredentialsRequest email pw)
}.

Lemma User_json_id u : json_path ["user"; "id"] (JObj [("user", User_json u)]) = inl (us_ID u).
Proof.
  unfold User_json, omitempty. repeat case_decide; try reflexivity;
    match goal with H : us_ID u = _ |- _ => by rewrite H end.
Qed.

Lemma User_json_email u : json_path ["user"; "email"] (JObj [("user", User_json u)]) = inl (us_Email u).
Proof. unfold User_json, omitempty. by repeat case_decide. Qed.

(** A call to [POST /users] that is answered 201 has created the user. *)
Lemma create_call call tid email pw env n d resp t :
  decodes ->
  hc_method call = "POST" -> hc_url call = base +:+ "/users" ->
  hc_body call = JObj [("user", JObj [("email", JStr email); ("password", JStr pw); ("status", JStr "active")])] ->
  header_get DefaultTenantHeader (hc_headers call) = tid ->
  http_Do call env (mkSt n d) = (Ok resp, t) -> rs_status resp = 201%Z ->
  exists id, CreateUser tid (mkUser estr estr email pw "active" 0 0) env (mkSt n d) = (Ok id, t) /\
    rs_body resp = JObj [("user_id", JStr id)] /\ tid <> estr /\ uuidRegex tid = true.
Proof.
  intros Hdec Hm Hu Hb Hh Hdo Hs.
  unfold peer in Hdo.
  rewrite (routed serviceAuth base call "/users" "users" ["users"] [] (TenantExtractor noTenantConfig createUser)) in Hdo
    by (done || by rewrite Hm).
  apply serve_Ok_inv in Hdo; [|by rewrite Hs].
  destruct (decide (tid <> estr /\ uuidRegex tid = true)) as [[Hne Hre]|Hno]; cycle 1.
  { apply (TenantExtractor_refuses _ _ tid) in Hdo; [congruence|by cbn [rq_headers]; rewrite sent_headers_other|done]. }
  rewrite (TenantExtractor_run _ _ tid) in Hdo by (done || by cbn [rq_headers]; rewrite sent_headers_other).
  unfold createUser, handler_tenantID, with_tenant in Hdo.
  erewrite or_respond_run in Hdo by (by apply tenant_context).
  unfold bound in Hdo. erewrite (de_create Hdec) in Hdo by exact Hb.
  unfold validated in Hdo. destruct (validate_struct _); [by minv|].
  apply or_respond_Ok_inv in Hdo as [(id & u & Hc & Hdo)|(e & _ & ->)]; [|done].
  apply ret_Ok_inv in Hdo as [<- <-]. exists id. done.
Qed.

(** A call to [POST /internal/credentials/verify] with the service token is
    the verification. *)
Lemma verify_call call tid email pw env n d user t :
  wired -> decodes ->
  hc_method call = "POST" -> hc_url call = base +:+ "/internal/credentials/verify" ->
  hc_body call = JObj [("email", JStr email); ("password", JStr pw)] ->
  header_get DefaultTenantHeader (hc_headers call) = tid -> tid <> estr -> uuidRegex tid = true ->
  header_get (lc_serviceAuthHeader lc) (hc_headers call) = lc_serviceAuthToken lc ->
  validate_struct (mkVerifyCredentialsRequest email pw) = None ->
  VerifyCredentials tid email pw env (mkSt n d) = (Ok user, t) ->
  http_Do call env (mkSt n d) = (Ok (respond 200 (JObj [("user", User_json user)])), t).
Proof.
  intros [] Hdec Hm Hu Hb Hh Hne Hre Hsh Hval Hv.
  unfold peer.
  rewrite (routed serviceAuth base call _ "internal/credentials/verify" ["internal"; "credentials"; "verify"] []
    (ServiceAuthenticator serviceAuth (TenantExtractor noTenantConfig verifyCredentials)) _ _ Hu)
    by (done || by rewrite Hm).
  unfold serve, ServiceAuthenticator, GetHeader. cbn [gc_request rq_headers].
  rewrite <-w_header0, (sent_headers_found _ _ _ Hsh), w_token0 by congruence. rewrite decide_False; cycle 1.
  { intros [Hl|[?|Hc]]; [|done|by apply Hc, ConstantTimeCompare_eq].
    apply w_nonempty0. by destruct (sc_Token serviceAuth). }
  rewrite (TenantExtractor_run _ _ tid) by (done || by cbn [rq_headers]; rewrite sent_headers_other). unfold verifyCredentials, handler_tenantID, with_tenant.
  erewrite or_respond_run by (by apply tenant_context).
  unfold bound. erewrite (de_verify Hdec) by exact Hb. unfold validated. rewrite Hval.
  erewrite or_respond_run; [|exact Hv]. done.
Qed.

(** Without a device the risk is never high. *)
Lemma signals_answer userID since env s :
  exists r u, attempt (signalRepo_GetLatestCriticalEvent userID since) env s = (Ok r, u).
Proof.
  destruct (GetLatestCriticalEvent_run userID since env s) as ([event|e] & u & E & _); unfold attempt; rewrite E; by eexists _, _.
Qed.

Lemma Evaluate_no_device userID ip env (s : St (D * SignalDb)) :
  exists score u, RiskEngine_Evaluate (a_signalStore cfg) userID estr ip env s = (Ok score, u) /\
    rs_Level score <> RiskLevelHigh.
Proof.
  unfold RiskEngine_Evaluate, device_risk. rewrite decide_False by (by intros []).
  rewrite (bind_Ok _ _ _ _ _ s eq_refl). destruct (a_signalStore cfg); [|by eexists _, _].
  assert (forall since t, exists r u, attempt (on_signals (D := D) (signal_GetLatestCriticalEvent userID since)) env t = (Ok r, u))
    as Hans.
  { intros since t. destruct (signals_answer userID since env (mkSt (tick t) (snd (st t)))) as (r & u & E).
    unfold attempt in *. unfold on_signals, zoom. cbn [signal_GetLatestCriticalEvent signalRepo_store].
    destruct (signalRepo_GetLatestCriticalEvent _ _ _ _) as [[x|e|p] v]; [by eexists _, _..|done]. }
  destruct (Hans (clock env (tick s) - 24 * hour)%Z (mkSt (S (tick s)) (st s))) as (r & u & E).
  destruct r as [event|err]; 
    (erewrite bind_Ok; [|mgo (now_run env s); cbv zeta; rewrite (bind_Ok _ _ _ _ _ _ E); reflexivity]);
    by eexists _, _.
Qed.

(** What a sign-up leaves behind: a user of the directory, created with the
    given email and password in a fresh tenant. *)
Lemma SignUp_inv email pw company env (s : St State) token tenantID u :
  decodes -> SignUp cfg lc email pw company env s = (Ok (token, tenantID), u) ->
  exists id k w k', uuidRegex tenantID = true /\ tenantID <> estr /\
    CreateUser tenantID (mkUser estr estr email pw "active" 0 0) env (mkSt k (ls_dir (st s))) = (Ok id, w) /\
    ls_dir (st u) = st w /\
    SignedString (a_keyID cfg) (user_claims tenantID id (clock env k') (clock env (S k'))) = inl token.
Proof.
  intros Hdec H. unfold SignUp in H.
  apply bind_Ok_inv in H as (tid & t0 & E0 & H). apply observe_Ok_inv in E0 as [-> ->].
  unfold http_NewRequest in H. destruct (url_Parse _) as [url|e]; [|by minv].
  rewrite (bind_Ok _ _ _ _ _ _ eq_refl) in H. cbv zeta in H.
  apply bind_Ok_inv in H as (resp & t1 & E1 & H). apply zoom_Ok_inv in E1 as (w & E1 & ->).
  destruct (decide (rs_status resp <> 201%Z)) as [|Hst%dec_stable]; [by minv|].
  eapply (create_call _ (new_uuid env (tick s)) email pw) in E1 as (id & Hc & Hb & Hne & Hre);
    [|done|reflexivity|reflexivity|reflexivity|apply header_get_set|done].
  rewrite Hb in H. rewrite (bind_Ok _ _ _ _ id _ eq_refl) in H.
  apply bind_Ok_inv in H as (tok & t2 & E2 & H). apply ret_Ok_inv in H as [[= <- <-] <-].
  pose proof (signUserToken_inv cfg _ _ _ _ _ _ E2) as Hsig.
  unfold signUserToken in E2. minv.
  eexists id, _, w, _. split_and!; [done|done|exact Hc|done|exact Hsig].
Qed.

Lemma Login_run c tenantID id email pw ua ip ver env n (x : State) user m d' :
  wired -> decodes ->
  (forall uid t1 t2, exists token, SignedString (a_keyID cfg) (user_claims tenantID uid t1 t2) = inl token) ->
  gc_tenant c = Some tenantID -> tenantID <> estr -> uuidRegex tenantID = true ->
  validate_struct (mkVerifyCredentialsRequest email pw) = None ->
  VerifyCredentials tenantID email pw env (mkSt n (ls_dir x)) = (Ok user, mkSt m d') -> us_ID user = id ->
  exists token k v, Login cfg lc c email pw estr ua ip ver env (mkSt n x) = (Ok token, v) /\
    SignedString (a_keyID cfg) (user_claims tenantID id (clock env k) (clock env (S k))) = inl token.
Proof.
  intros Hw Hdec Hsign Hc Hne Hre Hval Hv Hid. unfold Login.
  rewrite (bind_Ok _ _ _ _ tenantID (mkSt n x)) by (unfold TenantIDFromContext; rewrite Hc; by rewrite decide_False).
  unfold http_NewRequest. destruct (w_verify Hw) as [url ->].
  rewrite (bind_Ok _ _ _ _ _ _ eq_refl). cbv zeta. unfold service_auth.
  rewrite (decide_True (P := lc_serviceAuthToken lc <> estr)) by (rewrite (w_token Hw); apply (w_nonempty Hw)).
  erewrite bind_Ok; cycle 1.
  { unfold in_dir, zoom. cbn [tick st]. erewrite (verify_call _ tenantID email pw);
      [reflexivity|done|done|reflexivity|reflexivity|reflexivity| |done|done|apply header_get_set|done|exact Hv].
    rewrite header_get_other by (apply not_eq_sym, (w_distinct Hw)). apply header_get_set. }
  cbn [rs_status rs_body respond tick st]. rewrite decide_False by done. rewrite decide_False by (by intros []).
  rewrite User_json_id, User_json_email. unfold decoded. rewrite (bind_Ok _ _ _ _ _ _ eq_refl).
  rewrite (bind_Ok _ _ _ _ _ _ eq_refl). rewrite Hid.
  set (x1 := mkLogin _ _ _ _).
  destruct (Evaluate_no_device id ip env (mkSt m (au_risk (ls_auth x1)))) as (score & w & Er & Hlow).
  erewrite bind_Ok; cycle 1.
  { unfold attempt, in_auth, on_risk, zoom. cbn [tick st]. rewrite Er. reflexivity. }
  cbv beta iota. rewrite decide_False by done. unfold registerLoginDevice. rewrite decide_False by (by intros []).
  rewrite (bind_Ok _ _ _ _ _ _ eq_refl). unfold signUserToken.
  set (s2 := mkSt _ _). mgo (now_run env s2). mgo (now_run env (mkSt (S (tick s2)) (st s2))). cbv zeta.
  destruct (Hsign id (clock env (tick s2)) (clock env (S (tick s2)))) as [token Htok].
  exists token, (tick s2). eexists. split; [|exact Htok]. unfold user_claims in Htok. cbn [tick st].
  by rewrite Htok.
Qed.

(** Property C21. Who signs up can sign in: after a sign-up that handed out a
    token and a tenant, a login to that tenant with the same email and
    password, from no known device, succeeds, and both tokens are for the same
    user of the same tenant. *)
Theorem signup_then_login email pw company env (s : St State) token tenantID u c ua ip ver n :
  wired -> decodes -> db_up env -> dir_ok (ls_dir (st s)) ->
  (forall uid t1 t2, exists tok, SignedString (a_keyID cfg) (user_claims tenantID uid t1 t2) = inl tok) ->
  validate_struct (mkVerifyCredentialsRequest email pw) = None ->
  SignUp cfg lc email pw company env s = (Ok (token, tenantID), u) ->
  gc_tenant c = Some tenantID ->
  exists token' v id k k',
    Login cfg lc c email pw estr ua ip ver env (mkSt n (st u)) = (Ok token', v) /\
    SignedString (a_keyID cfg) (user_claims tenantID id (clock env k) (clock env (S k))) = inl token /\
    SignedString (a_keyID cfg) (user_claims tenantID id (clock env k') (clock env (S k'))) = inl token'.
Proof.
  intros Hw Hdec Hup Hok Hsign Hval Hs Hc.
  destruct (SignUp_inv _ _ _ _ _ _ _ _ Hdec Hs) as (id & k & w & k1 & Hre & Hne & Hcr & Hdir & Htok).
  destruct (created_verifies _ _ _ (mkSt k (ls_dir (st s))) _ _ env n Hok Hcr Hup eq_refl) as (t & tm & Ht & Hv).
  cbn [us_Email us_Password] in Hv. rewrite <-Hdir in Hv.
  destruct (Login_run c tenantID id email pw ua ip ver env n (st u) _ _ _ Hw Hdec Hsign Hc Hne Hre Hval Hv eq_refl)
    as (token' & k2 & v & Hl & Htok').
  exists token', v, id, k1, k2. done.
Qed.

End Deployment.
