(* ===== verification/DirectoryDemo.v ===== *)
(** * The directory at work

    A directory with two tenants, and a sign-up and login across the two
    services: the hypotheses of the theorems of DirectoryFacts.v and
    SignUpLogin.v can be met. *)
From S2P Require Import Prelude Bcrypt GoStd GoUrl Sha256 Sql Http Middleware Gin.
From S2P Require Import OAuthClient AuthClient TokenStores Risk AuthService AuthFacts AuthDemo.
From S2P Require Import Login LoginFacts Directory DirectoryApi DirectoryFacts SignUpLogin.
Local Open Scope go_scope.

#[local] Existing Instance demo_gin.

Definition tenantA : string := demo_uuid 1.
Definition tenantB : string := demo_uuid 2.

Definition two_tenants : DirDb :=
  mkDir [mkIdentity (demo_uuid 101) tenantA "suspended" 0 0; mkIdentity (demo_uuid 102) tenantB "active" 0 0]
    [mkAccount (demo_uuid 201) (demo_uuid 101) tenantA "a@example.com" "hash of password-a";
     mkAccount (demo_uuid 202) (demo_uuid 102) tenantB "a@example.com" "hash of password-b"]
    [mkGroup (demo_uuid 301) tenantA "staff" 0 0]
    [mkMembership (demo_uuid 101) (demo_uuid 301) tenantA] [].

Lemma two_tenants_ok : dir_ok two_tenants.
Proof.
  split; cbn; try (by apply (bool_decide_unpack _)).
  - apply Forall_cons; split; [eexists; split; [left|split; reflexivity]|].
    apply Forall_cons; split; [eexists; split; [right; left|split; reflexivity]|apply Forall_nil_2].
  - apply Forall_singleton. split; eexists; (split; [left|split; reflexivity]).
Qed.

Definition new_user : User := mkUser estr estr "b@example.com" "password-c" "active" 0 0.

Lemma dir_integrity_witness :
  dir_ok (st (snd (CreateUser tenantA new_user demo_env (mkSt 0 two_tenants)))).
Proof.
  apply (dir_integrity tenantA _ (CreateUser tenantA new_user) (call_CreateUser tenantA new_user)).
  exact two_tenants_ok.
Defined.

Lemma tenant_isolation_witness :
  tenant_view tenantB (st (snd (DeleteUser tenantA (demo_uuid 101) demo_env (mkSt 0 two_tenants)))) =
  tenant_view tenantB two_tenants.
Proof.
  destruct (DeleteUser tenantA (demo_uuid 101) demo_env (mkSt 0 two_tenants)) as [r u] eqn:E.
  refine (tenant_isolation tenantA tenantB _ _ demo_env (mkSt 0 two_tenants) r u
            (call_DeleteUser tenantA (demo_uuid 101)) _ two_tenants_ok E).
  vm_compute. discriminate.
Defined.

(** The same tenant, alone in a database. *)
Definition one_tenant : DirDb :=
  mkDir [mkIdentity (demo_uuid 101) tenantA "suspended" 0 0]
    [mkAccount (demo_uuid 201) (demo_uuid 101) tenantA "a@example.com" "hash of password-a"]
    [mkGroup (demo_uuid 301) tenantA "staff" 0 0]
    [mkMembership (demo_uuid 101) (demo_uuid 301) tenantA] [].

Lemma one_tenant_ok : dir_ok one_tenant.
Proof.
  split; cbn; try (by apply (bool_decide_unpack _)).
  - apply Forall_singleton. eexists; (split; [left|split; reflexivity]).
  - apply Forall_singleton. split; eexists; (split; [left|split; reflexivity]).
Qed.

Lemma reads_isolated_witness :
  fst (ListUsers tenantA 10 0 demo_env (mkSt 0 two_tenants)) =
  fst (ListUsers tenantA 10 0 demo_env (mkSt 0 one_tenant)).
Proof.
  apply (reads_isolated tenantA tenantA _ (ListUsers tenantA 10 0) demo_env 0 two_tenants one_tenant
           (read_ListUsers tenantA 10 0)); [|exact two_tenants_ok|exact one_tenant_ok|].
  - vm_compute. reflexivity.
  - vm_compute. reflexivity.
Defined.

(** The suspended user signs in. *)
Lemma verify_credentials_iff_witness :
  exists user, VerifyCredentials tenantA "a@example.com" "password-a" demo_env (mkSt 0 two_tenants) =
    (Ok user, mkSt 1 two_tenants) /\ us_Status user = "suspended".
Proof.
  destruct (verify_credentials_iff tenantA tenantA "a@example.com" "password-a" demo_env 0 two_tenants
              demo_env_up eq_refl two_tenants_ok) as [H _].
  eexists. split; [apply H|].
  - eexists _, _. split; [left|]. split; [left|]. repeat (split; [reflexivity|]). reflexivity.
  - reflexivity.
Defined.

Lemma user_lifecycle_witness :
  exists id u v, CreateUser tenantA new_user demo_env (mkSt 0 two_tenants) = (Ok id, u) /\
    DeleteUser tenantA id demo_env u = (Ok tt, v) /\
    exists found w, VerifyCredentials tenantA "b@example.com" "password-c" demo_env (mkSt 50 (st u)) = (Ok found, w) /\
      us_ID found = id.
Proof.
  assert (is_ok (fst (CreateUser tenantA new_user demo_env (mkSt 0 two_tenants))) = true) as H1
    by (vm_compute; reflexivity).
  destruct (ok_run _ H1) as (id & u & E1).
  assert (fst (DeleteUser tenantA id demo_env u) = Ok tt) as H2.
  { assert (id = match fst (CreateUser tenantA new_user demo_env (mkSt 0 two_tenants)) with
                 | Ok i => i | _ => estr end) as -> by (rewrite E1; reflexivity).
    assert (u = snd (CreateUser tenantA new_user demo_env (mkSt 0 two_tenants))) as -> by (rewrite E1; reflexivity).
    vm_compute. reflexivity. }
  exists id, u, (snd (DeleteUser tenantA id demo_env u)). split; [exact E1|].
  split; [exact (fst_run _ _ H2)|].
  destruct (user_lifecycle tenantA new_user demo_env (mkSt 0 two_tenants) id u _ 50 demo_env_up
              demo_uuid_canonical two_tenants_ok E1 (fst_run _ _ H2)) as [(found & w & Hv & Hid & _) _].
  exists found, w. split; [exact Hv|exact Hid].
Defined.

(** ** Two services *)

(** Decoding the documents the auth service sends; no validation rule of the
    directory's requests is broken in this deployment. *)
#[local] Instance bind_create : Binder CreateUserRequest := fun r =>
  match json_path ["user"; "email"] (rq_body r), json_path ["user"; "password"] (rq_body r),
        json_path ["user"; "status"] (rq_body r) with
  | inl e, inl p, inl s => inl (mkCreateUserRequest (mkUser estr estr e p s 0 0))
  | _, _, _ => inr err_json
  end.

#[local] Instance bind_verify : Binder VerifyCredentialsRequest := fun r =>
  match json_path ["email"] (rq_body r), json_path ["password"] (rq_body r) with
  | inl e, inl p => inl (mkVerifyCredentialsRequest e p)
  | _, _ => inr err_json
  end.

#[local] Instance lenient {A} : Validator A := fun _ => None.
#[local] Instance bind_user : Binder User := fun _ => inr err_json.
#[local] Instance bind_group : Binder Group := fun _ => inr err_json.
#[local] Instance bind_create_group : Binder CreateGroupRequest := fun _ => inr err_json.
#[local] Instance bind_add : Binder AddUserToGroupRequest := fun _ => inr err_json.

Definition demo_service_auth : ServiceAuthConfig := mkServiceAuthConfig estr "secret".

Definition two_services : LoginConfig :=
  mkLoginConfig "http://dirsvc:8081" "X-Service-Token" "secret" true true true.

Definition deployment : St (LoginState Memory DirDb Attempts (list TOTPSecret)) :=
  mkSt 0 (mkLogin (st fresh) two_tenants (mkAttempts [] []) []).

Lemma two_services_wired : wired two_services demo_service_auth.
Proof.
  split; try reflexivity; try discriminate.
  - eexists. vm_compute. reflexivity.
  - eexists. vm_compute. reflexivity.
Qed.

Lemma bodies_decode : decodes.
Proof.
  split.
  - intros r email pw Hb. unfold should_bind, bind_create. by rewrite Hb.
  - intros r email pw Hb. unfold should_bind, bind_verify. by rewrite Hb.
Qed.

Lemma demo_signs tid uid t1 t2 :
  exists token, SignedString (a_keyID demo_cfg) (user_claims tid uid t1 t2) = inl token.
Proof. unfold user_claims. cbn. destruct (unix (t1 + hour)), (unix t2); eexists; reflexivity. Qed.

Lemma signup_then_login_witness :
  exists token tenantID u token' v,
    SignUp (peer := peer two_services demo_service_auth) demo_cfg two_services "new@example.com" "password-n" "Acme"
      demo_env deployment = (Ok (token, tenantID), u) /\
    Login (peer := peer two_services demo_service_auth) demo_cfg two_services
      (mkGinCtx (mkRequest [] [] [] [] JNull "10.0.0.1") (Some tenantID))
      "new@example.com" "password-n" estr estr "10.0.0.1" estr demo_env (mkSt 40 (st u)) = (Ok token', v).
Proof.
  assert (is_ok (fst (SignUp (peer := peer two_services demo_service_auth) demo_cfg two_services
            "new@example.com" "password-n" "Acme" demo_env deployment)) = true) as Hok by (vm_compute; reflexivity).
  destruct (ok_run _ Hok) as ([token tenantID] & u & E).
  destruct (signup_then_login demo_cfg two_services demo_service_auth "new@example.com" "password-n" "Acme"
              demo_env deployment token tenantID u
              (mkGinCtx (mkRequest [] [] [] [] JNull "10.0.0.1") (Some tenantID)) estr "10.0.0.1" estr 40
              two_services_wired bodies_decode demo_env_up two_tenants_ok (demo_signs tenantID) eq_refl E eq_refl)
    as (token' & v & id & k & k' & Hl & _).
  exists token, tenantID, u, token', v. split; [exact E|exact Hl].
Defined.
