(* ===== verification/Scim.v ===== *)
(** * The SCIM service

    internal/scim: SCIM users and groups mapped onto the directory
    ([DirectoryService]), and the handlers of api.go.  The times in a [Meta]
    stand as instants, not as the RFC 3339 text the code formats them to. *)
From S2P Require Import Prelude Bcrypt GoStd Sql Http Middleware Directory.
Local Open Scope go_scope.

(** ** types.go *)

Definition UserSchema : string := "urn:ietf:params:scim:schemas:core:2.0:User".
Definition GroupSchema : string := "urn:ietf:params:scim:schemas:core:2.0:Group".
Definition ListSchema : string := "urn:ietf:params:scim:api:messages:2.0:ListResponse".
Definition ErrorSchema : string := "urn:ietf:params:scim:api:messages:2.0:Error".

Record Email : Type := mkEmail { em_Value : string; em_Type : string; em_Primary : bool }.

Record Member : Type := mkMember { me_Value : string; me_Display : string; me_Type : string }.

Record Meta : Type := mkMeta {
  mt_ResourceType : string;
  mt_Created : Z;
  mt_LastModified : Z;
  mt_Location : string
}.

Record User : Type := mkScimUser {
  su_Schemas : list string;
  su_ID : string;
  su_UserName : string;
  su_GivenName : string;
  su_FamilyName : string;
  su_Emails : list Email;
  su_Active : bool;
  su_Meta : option Meta
}.

Record Group : Type := mkScimGroup {
  sg_Schemas : list string;
  sg_ID : string;
  sg_DisplayName : string;
  sg_Members : list Member;
  sg_Meta : option Meta
}.

(** [PatchOperation]; the value is any JSON. *)
Record PatchOperation : Type := mkPatchOperation { po_Op : string; po_Path : string; po_Value : json }.

Record ListResponse (A : Type) : Type := mkListResponse {
  lr_Schemas : list string;
  lr_TotalResults : Z;
  lr_StartIndex : Z;
  lr_ItemsPerPage : Z;
  lr_Resources : list A
}.
Arguments mkListResponse {A}.
Arguments lr_TotalResults {A}.
Arguments lr_StartIndex {A}.
Arguments lr_ItemsPerPage {A}.
Arguments lr_Resources {A}.

(** ** service.go *)

(** The primary email of a request, its userName when there is none. *)
Definition primary_email (req : User) : string :=
  match List.find em_Primary (su_Emails req) with
  | Some e => em_Value e
  | None => su_UserName req
  end.

(** A directory user as SCIM shows it. *)
Definition of_user (u : Directory.User) : User :=
  mkScimUser [UserSchema] (us_ID u) (us_Email u) estr estr [mkEmail (us_Email u) "work" true]
    (bool_decide (us_Status u = "active"))
    (Some (mkMeta "User" (us_CreatedAt u) (us_UpdatedAt u) ("/scim/v2/Users/" +:+ us_ID u))).

Definition of_group (g : Directory.Group) : Group :=
  mkScimGroup [GroupSchema] (gr_ID g) (gr_Name g) []
    (Some (mkMeta "Group" (gr_CreatedAt g) (gr_UpdatedAt g) ("/scim/v2/Groups/" +:+ gr_ID g))).

(** [startIndex] and [count] as the list operations read them. *)
Definition page_start (startIndex : Z) : Z := if decide (startIndex < 1)%Z then 1 else startIndex.
Definition page_count (count : Z) : Z := if decide (count < 1 \/ count > 100)%Z then 100 else count.

(** One operation of a patch on a user: [replace] of [active] with a bool or
    of [userName] with a string, and nothing else. *)
Definition patch_user (current : Directory.User) (op : PatchOperation) : Directory.User :=
  if decide (po_Op op = "replace") then
    if decide (po_Path op = "active") then
      match po_Value op with
      | JBool active =>
          mkUser (us_ID current) (us_TenantID current) (us_Email current) (us_Password current)
            (if active then "active" else "inactive") (us_CreatedAt current) (us_UpdatedAt current)
      | _ => current
      end
    else if decide (po_Path op = "userName") then
      match po_Value op with
      | JStr userName =>
          mkUser (us_ID current) (us_TenantID current) userName (us_Password current)
            (us_Status current) (us_CreatedAt current) (us_UpdatedAt current)
      | _ => current
      end
    else current
  else current.

Definition patch_group (current : Directory.Group) (op : PatchOperation) : Directory.Group :=
  if decide (po_Op op = "replace" /\ po_Path op = "displayName") then
    match po_Value op with
    | JStr name => mkGroup (gr_ID current) (gr_TenantID current) name (gr_CreatedAt current)
                     (gr_UpdatedAt current)
    | _ => current
    end
  else current.

Section Service.
Context {X : Type} `{!DirectoryService X}.

Definition CreateUser (tenantID : string) (req : User) : M X User :=
  if decide (su_UserName req = estr) then fail (ErrNew "userName is required")
  else
    let dirUser := mkUser estr estr (primary_email req) "ChangeMe123!"
                     (if su_Active req then "active" else "inactive") 0 0 in
    id <- map_err (ErrWrap "failed to create user") (dir_CreateUser tenantID dirUser);;
    created <- now;;
    modified <- now;;
    ret (mkScimUser (su_Schemas req) id (su_UserName req) (su_GivenName req) (su_FamilyName req)
           (su_Emails req) (su_Active req)
           (Some (mkMeta "User" created modified ("/scim/v2/Users/" +:+ id)))).

Definition GetUser (tenantID id : string) : M X User :=
  u <- map_err (ErrWrap "failed to get user") (dir_GetUserByID tenantID id);;
  ret (of_user u).

(** The [filter] is not looked at. *)
Definition ListUsers (tenantID filter : string) (startIndex count : Z) : M X (ListResponse User) :=
  let startIndex := page_start startIndex in
  let count := page_count count in
  let offset := (startIndex - 1)%Z in
  r <- map_err (ErrWrap "failed to list users") (dir_ListUsers tenantID count offset);;
  let '(users, total) := r in
  let resources := map of_user users in
  ret (mkListResponse [ListSchema] total startIndex (Z.of_nat (length resources)) resources).

Definition ReplaceUser (tenantID id : string) (req : User) : M X User :=
  let dirUser := mkUser estr estr (primary_email req) estr
                   (if su_Active req then "active" else "inactive") 0 0 in
  map_err (ErrWrap "failed to update user") (dir_UpdateUser tenantID id dirUser);;
  GetUser tenantID id.

Definition PatchUser (tenantID id : string) (ops : list PatchOperation) : M X User :=
  current <- map_err (ErrWrap "failed to get user") (dir_GetUserByID tenantID id);;
  let current := fold_left patch_user ops current in
  map_err (ErrWrap "failed to patch user") (dir_UpdateUser tenantID id current);;
  GetUser tenantID id.

Definition DeleteUser (tenantID id : string) : M X unit :=
  map_err (ErrWrap "failed to delete user") (dir_DeleteUser tenantID id).

Definition GetGroup (tenantID id : string) : M X Group :=
  g <- map_err (ErrWrap "failed to get group") (dir_GetGroupByID tenantID id);;
  ret (of_group g).

Definition CreateGroup (tenantID : string) (req : Group) : M X Group :=
  if decide (sg_DisplayName req = estr) then fail (ErrNew "displayName is required")
  else
    id <- map_err (ErrWrap "failed to create group")
            (dir_CreateGroup tenantID (mkGroup estr estr (sg_DisplayName req) 0 0));;
    GetGroup tenantID id.

Definition ListGroups (tenantID : string) (startIndex count : Z) : M X (ListResponse Group) :=
  let startIndex := page_start startIndex in
  let count := page_count count in
  let offset := (startIndex - 1)%Z in
  r <- map_err (ErrWrap "failed to list groups") (dir_ListGroups tenantID count offset);;
  let '(groups, total) := r in
  let resources := map of_group groups in
  ret (mkListResponse [ListSchema] total startIndex (Z.of_nat (length resources)) resources).

Definition ReplaceGroup (tenantID id : string) (req : Group) : M X Group :=
  map_err (ErrWrap "failed to update group")
    (dir_UpdateGroup tenantID id (mkGroup estr estr (sg_DisplayName req) 0 0));;
  GetGroup tenantID id.

Definition PatchGroup (tenantID id : string) (ops : list PatchOperation) : M X Group :=
  current <- map_err (ErrWrap "failed to get group") (dir_GetGroupByID tenantID id);;
  let current := fold_left patch_group ops current in
  map_err (ErrWrap "failed to patch group") (dir_UpdateGroup tenantID id current);;
  GetGroup tenantID id.

Definition DeleteGroup (tenantID id : string) : M X unit :=
  map_err (ErrWrap "failed to delete group") (dir_DeleteGroup tenantID id).

End Service.

(** ** api.go *)

Definition Meta_json (m : option Meta) : json :=
  match m with
  | None => JObj [("resourceType", JStr estr)]
  | Some m => JObj ([("resourceType", JStr (mt_ResourceType m)); ("created", JNum (mt_Created m));
                     ("lastModified", JNum (mt_LastModified m))] ++ omitempty "location" (mt_Location m))
  end.

Definition Email_json (e : Email) : json :=
  JObj ([("value", JStr (em_Value e))] ++ omitempty "type" (em_Type e)
        ++ (if em_Primary e then [("primary", JBool true)] else [])).

Definition Member_json (m : Member) : json :=
  JObj ([("value", JStr (me_Value m))] ++ omitempty "display" (me_Display m) ++ omitempty "type" (me_Type m)).

Definition omitnil {A} (k : string) (f : A -> json) (l : list A) : list (string * json) :=
  match l with [] => [] | _ => [(k, JArr (map f l))] end.

Definition User_json (u : User) : json :=
  JObj ([("schemas", JArr (map JStr (su_Schemas u)))] ++ omitempty "id" (su_ID u)
        ++ [("userName", JStr (su_UserName u));
            ("name", JObj (omitempty "givenName" (su_GivenName u) ++ omitempty "familyName" (su_FamilyName u)))]
        ++ omitnil "emails" Email_json (su_Emails u)
        ++ [("active", JBool (su_Active u)); ("meta", Meta_json (su_Meta u))]).

Definition Group_json (g : Group) : json :=
  JObj ([("schemas", JArr (map JStr (sg_Schemas g)))] ++ omitempty "id" (sg_ID g)
        ++ [("displayName", JStr (sg_DisplayName g))] ++ omitnil "members" Member_json (sg_Members g)
        ++ [("meta", Meta_json (sg_Meta g))]).

Definition ListResponse_json {A} (f : A -> json) (r : ListResponse A) : json :=
  JObj [("schemas", JArr [JStr ListSchema]); ("totalResults", JNum (lr_TotalResults r));
        ("startIndex", JNum (lr_StartIndex r)); ("itemsPerPage", JNum (lr_ItemsPerPage r));
        ("Resources", JArr (map f (lr_Resources r)))].

(** [h.respondError(c, status, detail, scimType)] *)
Definition respondError (status : Z) (detail scimType : string) : Response :=
  respond status (JObj ([("schemas", JArr [JStr ErrorSchema]); ("status", JStr (pretty status))]
                        ++ omitempty "detail" detail ++ omitempty "scimType" scimType)).

Section Api.
Context {X : Type} `{!DirectoryService X}.
Context `{!Binder User, !Binder Group, !Binder (list PatchOperation)}.

Definition scim_tenant (c : GinCtx) (k : string -> M X Response) : M X Response :=
  or_respond (fun _ => respondError 400 "invalid tenant" estr) (TenantIDFromContext c) k.

(** A request body that does not decode. *)
Definition scim_bound {A} `{!Binder A} (scimType : string) (c : GinCtx) (k : A -> M X Response)
    : M X Response :=
  match should_bind (gc_request c) with
  | inr _ => ret (respondError 400 "Invalid syntax" scimType)
  | inl req => k req
  end.

Definition or_internal {A} (m : M X A) (k : A -> M X Response) : M X Response :=
  or_respond (fun _ => respondError 500 "Internal server error" estr) m k.

Definition or_not_found {A} (m : M X A) (k : A -> M X Response) : M X Response :=
  or_respond (fun _ => respondError 404 "Resource not found" estr) m k.

(** [strconv.Atoi(c.DefaultQuery(key, d))], the error dropped *)
Definition query_int (c : GinCtx) (key d : string) : Z := fst (strconv_Atoi (DefaultQuery c key d)).

Definition listUsers : Handler X :=
  fun c => scim_tenant c (fun tenantID =>
    or_internal (ListUsers tenantID (Query c "filter") (query_int c "startIndex" "1")
                   (query_int c "count" "100")) (fun resp =>
    ret (respond 200 (ListResponse_json User_json resp)))).

Definition getUser : Handler X :=
  fun c => scim_tenant c (fun tenantID =>
    or_not_found (GetUser tenantID (Param c "id")) (fun user => ret (respond 200 (User_json user)))).

Definition createUser : Handler X :=
  fun c => scim_tenant c (fun tenantID =>
    scim_bound "scimType invalidSyntax" c (fun req : User =>
    or_internal (CreateUser tenantID req) (fun user => ret (respond 201 (User_json user))))).

Definition replaceUser : Handler X :=
  fun c => scim_tenant c (fun tenantID =>
    scim_bound "invalidSyntax" c (fun req : User =>
    or_internal (ReplaceUser tenantID (Param c "id") req) (fun user =>
    ret (respond 200 (User_json user))))).

Definition patchUser : Handler X :=
  fun c => scim_tenant c (fun tenantID =>
    scim_bound "invalidSyntax" c (fun ops : list PatchOperation =>
    or_internal (PatchUser tenantID (Param c "id") ops) (fun user =>
    ret (respond 200 (User_json user))))).

Definition deleteUser : Handler X :=
  fun c => scim_tenant c (fun tenantID =>
    or_not_found (DeleteUser tenantID (Param c "id")) (fun _ => ret (respond_status 204))).

Definition listGroups : Handler X :=
  fun c => scim_tenant c (fun tenantID =>
    or_internal (ListGroups tenantID (query_int c "startIndex" "1") (query_int c "count" "100"))
      (fun resp => ret (respond 200 (ListResponse_json Group_json resp)))).

Definition getGroup : Handler X :=
  fun c => scim_tenant c (fun tenantID =>
    or_not_found (GetGroup tenantID (Param c "id")) (fun group => ret (respond 200 (Group_json group)))).

Definition createGroup : Handler X :=
  fun c => scim_tenant c (fun tenantID =>
    scim_bound "invalidSyntax" c (fun req : Group =>
    or_internal (CreateGroup tenantID req) (fun group => ret (respond 201 (Group_json group))))).

Definition replaceGroup : Handler X :=
  fun c => scim_tenant c (fun tenantID =>
    scim_bound "invalidSyntax" c (fun req : Group =>
    or_internal (ReplaceGroup tenantID (Param c "id") req) (fun group =>
    ret (respond 200 (Group_json group))))).

Definition patchGroup : Handler X :=
  fun c => scim_tenant c (fun tenantID =>
    scim_bound "invalidSyntax" c (fun ops : list PatchOperation =>
    or_internal (PatchGroup tenantID (Param c "id") ops) (fun group =>
    ret (respond 200 (Group_json group))))).

Definition deleteGroup : Handler X :=
  fun c => scim_tenant c (fun tenantID =>
    or_not_found (DeleteGroup tenantID (Param c "id")) (fun _ => ret (respond_status 204))).

End Api.
