(* ===== verification/ScimFacts.v ===== *)
(** * What the SCIM service guarantees

    On the directory of Directory.v: pages cover the tenant's users, a
    replacement is read back, and what a creation leaves in the directory. *)
From S2P Require Import Prelude Bcrypt GoStd Sql Http Middleware Directory DirectoryFacts Scim.
Local Open Scope go_scope.

Section Facts.
Context {bcrypt : Bcrypt}.

(** ** Pages *)

Definition tenant_rows (t : string) (d : DirDb) : list (identity * account) :=
  filter (fun r => id_tenant (fst r) = t) (joined d).

(** A tenant's users, newest first, where the rows are come across in the order
    [f]. *)
Definition listed (f : nat -> nat) (t : string) (d : DirDb) : list User :=
  map of_user (map row_user (order_by_desc (fun r => id_created (fst r)) (reorder f (tenant_rows t d)))).

Definition all_users (t : string) (d : DirDb) : list User := listed (fun _ => 0) t d.

(** No two users of the tenant were created at the same time: the listing orders
    them by nothing else. *)
Definition distinct_times (t : string) (d : DirDb) : Prop := NoDup ((fun r => id_created (fst r)) <$> tenant_rows t d).

Lemma listed_all f t d : distinct_times t d -> listed f t d = all_users t d.
Proof.
  intros Hd. unfold all_users, listed. do 2 f_equal. apply order_by_desc_unique; [by rewrite reorder_Permutation|].
  by rewrite !reorder_Permutation.
Qed.

Lemma ListUsers_run tenantID t f startIndex count env n d :
  db_up env -> pg_uuid env tenantID = Some t ->
  Scim.ListUsers tenantID f startIndex count env (mkSt n d) =
    (let page := take (Z.to_nat (page_count count))
                   (drop (Z.to_nat (page_start startIndex - 1)) (listed (row_order env (S n)) t d)) in
     Ok (mkListResponse [ListSchema]
           (Z.of_nat (length (filter (fun i => id_tenant i = t) (d_identities d))))
           (page_start startIndex) (Z.of_nat (length page)) page),
     mkSt (S (S n)) d).
Proof.
  intros Hup Ht. unfold Scim.ListUsers, bind, map_err. cbn [dir_ListUsers directoryService].
  unfold Directory.ListUsers, bind, uuid_arg. rewrite Ht. unfold on_identities, zoom, sql_count.
  rewrite statement_up by done. cbn [tick st]. rewrite filter_decide.
  rewrite statement_up by done. cbn [tick st]. unfold sql_page.
  rewrite decide_False by (unfold page_count; case_decide; lia).
  rewrite decide_False by (unfold page_start; case_decide; lia).
  destruct d. cbn. unfold listed, tenant_rows, joined. cbn. by rewrite !skipn_map, !firstn_map.
Qed.

Lemma take_drop_pages {A} (l : list A) c n :
  concat (map (fun i => take c (drop (i * c) l)) (seq 0 n)) = take (n * c) l.
Proof.
  induction n as [|n IH]; [done|].
  rewrite seq_S, map_app, concat_app, IH. cbn [map concat]. rewrite app_nil_r, Nat.add_0_l.
  replace (S n * c) with (n * c + c) by lia. apply take_take_drop.
Qed.

(** Rows of different times are rows of different users. *)
Lemma tenant_rows_ids t d :
  dir_ok d -> distinct_times t d -> NoDup ((fun r => id_id (fst r)) <$> tenant_rows t d).
Proof.
  intros [Hids _ _ _ _ _ _ _] Hd. unfold distinct_times in Hd. apply NoDup_fmap_2_strong; [|by eapply NoDup_fmap_1].
  intros [i a] [j b] Hx Hy Heq. cbn in Heq. eapply (NoDup_key_inj (fun r => id_created (fst r))); [exact Hd|done|done|]. cbn.
  apply list_elem_of_filter in Hx as [_ (Hi & _)%elem_of_join]. apply list_elem_of_filter in Hy as [_ (Hj & _)%elem_of_join].
  f_equal. by eapply (NoDup_key_inj id_id).
Qed.


(** ** What is written and what is read *)

Lemma GetUserByID_Ok_inv tenantID id env s user u :
  Directory.GetUserByID tenantID id env s = (Ok user, u) ->
  exists i t ident acc, pg_uuid env id = Some i /\ pg_uuid env tenantID = Some t /\
    (ident, acc) ∈ joined (st s) /\ id_id ident = i /\ id_tenant ident = t /\
    user = row_user (ident, acc) /\ st u = st s.
Proof.
  unfold Directory.GetUserByID, get_joined, select_joined. intros H. minv.
  apply statement_Ok_inv in E2 as (_ & x & E2 & ->). injection E2 as Hf <-.
  assert (a1 ∈ a1 :: l) as Hp by left. rewrite <-Hf in Hp.
  apply reorder_elem, filter_bool_elem in Hp as [Hp [? ?]%bool_decide_eq_true]. destruct a1 as [ident acc].
  exists a, a0, ident, acc. done.
Qed.

Lemma GetUserByID_run tenantID id i t env n d ident acc :
  db_up env -> pg_uuid env id = Some i -> pg_uuid env tenantID = Some t ->
  (ident, acc) ∈ joined d -> id_id ident = i -> id_tenant ident = t ->
  exists row, row ∈ joined d /\ id_id (fst row) = i /\ id_tenant (fst row) = t /\
    Directory.GetUserByID tenantID id env (mkSt n d) = (Ok (row_user row), mkSt (S n) d).
Proof.
  intros Hup Hi Ht Hin Hid Hten. unfold Directory.GetUserByID. rewrite uuid_bind, Hi, uuid_bind, Ht.
  assert ((ident, acc) ∈ filter (fun r => is_identity i t (fst r)) (joined d)) as Hf.
  { apply filter_bool_elem. split; [done|]. by apply bool_decide_eq_true. }
  unfold get_joined, select_joined, bind. rewrite statement_up by done. cbn [tick st].
  rewrite <-(reorder_elem (row_order env n)) in Hf.
  destruct (reorder _ _) as [|r l] eqn:Ef; [by apply elem_of_nil in Hf|]. exists r.
  assert (r ∈ r :: l) as Hr by left. rewrite <-Ef in Hr.
  apply reorder_elem, filter_bool_elem in Hr as [Hr [? ?]%bool_decide_eq_true]. done.
Qed.

(** The account of a fresh identity. *)
Lemma created_row d id t tm aid email h row :
  Forall (owned d) (d_accounts d) -> (forall i, i ∈ d_identities d -> id_id i <> id) ->
  row ∈ joined (mkDir (d_identities d ++ [mkIdentity id t "active" tm tm])
                  (d_accounts d ++ [mkAccount aid id t email h]) (d_groups d) (d_members d) (d_referenced d)) ->
  id_id (fst row) = id -> row = (mkIdentity id t "active" tm tm, mkAccount aid id t email h).
Proof.
  intros Hown Hfresh Hrow Hid. destruct row as [i a]. cbn in Hid.
  apply elem_of_join in Hrow as (Hi & Ha & Hai). apply elem_of_app in Hi as [Hi|Hi].
  { exfalso. by apply (Hfresh i). }
  apply list_elem_of_singleton in Hi as ->. apply elem_of_app in Ha as [Ha|Ha].
  { exfalso. rewrite Forall_forall in Hown. destruct (Hown a Ha) as (j & Hj & Hja & _).
    cbn in Hai. apply (Hfresh j Hj). congruence. }
  by apply list_elem_of_singleton in Ha as ->.
Qed.

(** Creating a user over SCIM: the answer repeats the request,
    but the directory holds an active user whatever [active] was asked for,
    and a password every such user shares signs them in. *)
Theorem scim_create_defaults {laws : BcryptLaws} tenantID req env s resp u n :
  db_up env -> (forall n, pg_uuid env (gen_uuid env n) = Some (gen_uuid env n)) -> dir_ok (st s) ->
  Scim.CreateUser tenantID req env s = (Ok resp, u) ->
  su_Active resp = su_Active req /\
  (exists got v, Scim.GetUser tenantID (su_ID resp) env (mkSt n (st u)) = (Ok got, v) /\
     su_ID got = su_ID resp /\ su_UserName got = primary_email req /\ su_Active got = true) /\
  (exists user v, VerifyCredentials tenantID (primary_email req) "ChangeMe123!" env (mkSt n (st u)) = (Ok user, v) /\
     us_ID user = su_ID resp).
Proof.
  intros Hup Hcan Hok H. unfold Scim.CreateUser in H. case_decide; [by minv|]. cbv zeta in H.
  apply bind_Ok_inv in H as (id & t1 & E & H). apply map_err_Ok_inv in E. cbn [dir_CreateUser directoryService] in E.
  minv. unfold now in *. minv. split; [done|].
  destruct (created_verifies _ _ _ s _ _ env n Hok E Hup eq_refl) as (t & tm & Ht & Hv).
  split; [|eexists _, _; split; [exact Hv|done]]. cbn [st].
  apply CreateUser_spec in E as (t' & h & tm' & aid & Ht' & _ & Hfresh & _ & [k ->] & Hst).
  cbn [us_Email] in Hst.
  set (id := gen_uuid env k) in *.
  destruct (GetUserByID_run tenantID id id t' env n (st t1) (mkIdentity id t' "active" tm' tm')
    (mkAccount aid id t' (primary_email req) h)) as (row & Hrow & Hid & _ & Hget);
    [done|apply Hcan|done| |done|done|].
  { rewrite Hst. apply elem_of_join. split_and!; [apply elem_of_app; right; left..|done]. }
  rewrite Hst in Hrow.
  apply created_row in Hrow as ->; [|apply Hok|done|done].
  unfold Scim.GetUser, bind, map_err. cbn [dir_GetUserByID directoryService su_ID]. rewrite Hget.
  by eexists _, _.
Qed.

(** The tables after an update of the email and the status of a user. *)
Lemma UpdateUser_Ok_inv tenantID id user env s u :
  us_Email user <> estr -> us_Password user = estr -> us_Status user <> estr ->
  UpdateUser tenantID id user env s = (Ok tt, u) ->
  exists i t tm, pg_uuid env id = Some i /\ pg_uuid env tenantID = Some t /\
    st u = mkDir
      (map (fun x => if is_identity i t x then touch tm x else x)
         (map (fun x => if is_identity i t x then set_status (us_Status user) x else x) (d_identities (st s))))
      (map (fun a => if is_account_of i t a then set_login (us_Email user) a else a) (d_accounts (st s)))
      (d_groups (st s)) (d_members (st s)) (d_referenced (st s)).
Proof.
  intros He Hp Hs H. unfold UpdateUser, exec in H. apply transaction_Ok_inv in H as (w & H & Hst & _).
  rewrite (decide_True (P := us_Email user <> estr)) in H by done.
  rewrite (decide_False (P := us_Password user <> estr)) in H by auto.
  rewrite (decide_True (P := us_Status user <> estr)) in H by done.
  minv. unfold on_accounts, on_identities in *.
  repeat match goal with
  | E : zoom _ _ _ _ _ = (Ok _, _) |- _ => apply zoom_Ok_inv in E as (? & E & ->)
  | E : sql_update _ _ _ _ = (Ok _, _) |- _ => apply sql_update_Ok_inv in E as [_ ->]
  | E : sql_update_unique _ _ _ _ _ = (Ok _, _) |- _ => apply sql_update_unique_Ok_inv in E as [_ ->]
  end.
  cbn in *. simplify_eq. eexists _, _, _. split_and!; [done|done|]. rewrite Hst. reflexivity.
Qed.

(** A replacement over SCIM is read back: the user that is
    returned has the id that was named, the email of the request and the
    requested activation, and the rows of other users are untouched. *)
Theorem scim_replace_roundtrip tenantID id req env s resp u :
  dir_ok (st s) -> primary_email req <> estr ->
  Scim.ReplaceUser tenantID id req env s = (Ok resp, u) ->
  pg_uuid env id = Some (su_ID resp) /\ su_UserName resp = primary_email req /\
  su_Active resp = su_Active req /\
  (forall row, row ∈ joined (st s) -> id_id (fst row) <> su_ID resp -> row ∈ joined (st u)).
Proof.
  intros Hok Hne H. unfold Scim.ReplaceUser in H. cbv zeta in H.
  apply bind_Ok_inv in H as ([] & t1 & E & H). apply map_err_Ok_inv in E. cbn [dir_UpdateUser directoryService] in E.
  apply UpdateUser_Ok_inv in E as (i & t & tm & Hi & Ht & Hst); [|done|done|by destruct (su_Active req)].
  unfold Scim.GetUser in H. apply bind_Ok_inv in H as (x & t2 & E & H). apply map_err_Ok_inv in E.
  apply ret_Ok_inv in H as [<- <-].
  apply GetUserByID_Ok_inv in E as (i' & t' & ident & acc & Hi' & Ht' & Hin & Hid & Hten & -> & Hst2).
  rewrite Hi in Hi'. rewrite Ht in Ht'. injection Hi' as <-. injection Ht' as <-.
  rewrite Hst in Hin. apply elem_of_join in Hin as (Hj & Ha & Haid). cbn [d_identities d_accounts us_Email us_Status] in *.
  apply list_elem_of_fmap in Hj as (j & -> & (j0 & -> & Hj0)%list_elem_of_fmap).
  apply list_elem_of_fmap in Ha as (a & -> & Ha0).
  assert (is_identity i t j0 = true) as Hji.
  { apply bool_decide_eq_true. destruct (is_identity i t j0) eqn:Hb; [by apply bool_decide_eq_true in Hb|].
    rewrite Hb in Hid, Hten. done. }
  assert (is_account_of i t a = true) as Hai.
  { apply bool_decide_eq_true. apply bool_decide_eq_true in Hji as [H1 H2].
    assert (an_identity a = i) as Hani by (destruct (is_account_of i t a); cbn in Haid; congruence).
    split; [done|]. pose proof (ok_owned _ Hok) as Ho. rewrite Forall_forall in Ho.
    destruct (Ho a Ha0) as (y & Hy & Hyid & <-). rewrite <-H2. f_equal.
    eapply (NoDup_key_inj id_id); [apply (ok_identities _ Hok)|done|done|congruence]. }
  rewrite Hji, Hai. cbn. replace (is_identity i t _) with true by (symmetry; exact Hji). cbn.
  split_and!; [|done|by destruct (su_Active req)|].
  - apply bool_decide_eq_true in Hji as [-> _]. done.
  - apply bool_decide_eq_true in Hji as [-> _]. intros [k b] (Hk & Hb & Hkb)%elem_of_join Hne2. cbn in Hne2.
    rewrite Hst2, Hst. apply elem_of_join. split_and!; [| |done]; cbn.
    + assert (is_identity i t k = false) as Hf by (apply bool_decide_eq_false; by intros []).
      apply list_elem_of_fmap. exists k. rewrite Hf. split; [done|]. apply list_elem_of_fmap. exists k. by rewrite Hf.
    + apply list_elem_of_fmap. exists b. split; [|done].
      assert (is_account_of i t b = false) as -> by (apply bool_decide_eq_false; intros []; congruence). done.
Qed.

End Facts.
