(* ===== verification/ScimDemo.v ===== *)
(** * SCIM at work

    The theorems of ScimFacts.v on the directory of DirectoryDemo.v. *)
From S2P Require Import Prelude Bcrypt GoStd Sql Http Middleware AuthDemo.
From S2P Require Import Directory DirectoryFacts DirectoryDemo Scim ScimFacts.
Local Open Scope go_scope.

(** Two pages of one user. *)
Definition three_users : DirDb :=
  st (snd (Directory.CreateUser tenantA new_user demo_env (mkSt 0 two_tenants))).

Lemma three_users_ok : dir_ok three_users.
Proof.
  unfold three_users. destruct (Directory.CreateUser tenantA new_user demo_env (mkSt 0 two_tenants)) as [r u] eqn:E.
  exact (preserves_run dir_ok _ _ _ _ _ (CreateUser_ok _ _) E two_tenants_ok).
Qed.


(** A user who is to be inactive. *)
Definition inactive_user : Scim.User :=
  mkScimUser [UserSchema] estr "c@example.com" "C" estr [] false None.

Lemma scim_create_defaults_witness :
  exists resp u got v, Scim.CreateUser tenantA inactive_user demo_env (mkSt 0 two_tenants) = (Ok resp, u) /\
    su_Active resp = false /\
    Scim.GetUser tenantA (su_ID resp) demo_env (mkSt 50 (st u)) = (Ok got, v) /\ su_Active got = true.
Proof.
  assert (is_ok (fst (Scim.CreateUser tenantA inactive_user demo_env (mkSt 0 two_tenants))) = true) as Hok
    by (vm_compute; reflexivity).
  destruct (ok_run _ Hok) as (resp & u & E).
  destruct (scim_create_defaults tenantA inactive_user demo_env (mkSt 0 two_tenants) resp u 50 demo_env_up
              demo_uuid_canonical two_tenants_ok E) as (Ha & (got & v & Hg & _ & _ & Hact) & _).
  exists resp, u, got, v. split; [exact E|]. split; [exact Ha|]. split; [exact Hg|exact Hact].
Defined.

Definition replacement : Scim.User :=
  mkScimUser [UserSchema] estr "old@example.com" estr estr
    [mkEmail "home@example.com" "home" false; mkEmail "d@example.com" "work" true] true None.

Lemma scim_replace_roundtrip_witness :
  exists resp u, Scim.ReplaceUser tenantA (demo_uuid 101) replacement demo_env (mkSt 0 two_tenants) = (Ok resp, u) /\
    su_UserName resp = "d@example.com" /\ su_Active resp = true.
Proof.
  assert (is_ok (fst (Scim.ReplaceUser tenantA (demo_uuid 101) replacement demo_env (mkSt 0 two_tenants))) = true)
    as Hok by (vm_compute; reflexivity).
  destruct (ok_run _ Hok) as (resp & u & E).
  destruct (scim_replace_roundtrip tenantA (demo_uuid 101) replacement demo_env (mkSt 0 two_tenants) resp u
              two_tenants_ok ltac:(discriminate) E) as (_ & Hn & Ha & _).
  exists resp, u. split; [exact E|]. split; [exact Hn|exact Ha].
Defined.
