(* ===== verification/DirService.v ===== *)
(** * The directory process

    cmd/dirsvc: the routes of the directory service and those of the SCIM
    service (RegisterRoutes of internal/scim/api.go) on one address, and the
    middleware and the start-up of [main]. *)
From S2P Require Import Prelude Bcrypt GoStd GoUrl Sql Http Middleware Gin Server Directory DirectoryApi DirectoryFacts Scim.
Local Open Scope go_scope.

Section ScimRoutes.
Context {X : Type} `{!DirectoryService X}.
Context `{!Binder Scim.User, !Binder Scim.Group, !Binder (list PatchOperation)}.

(** The routes below /scim/v2; the content type of the answers is not part of a
    response here. *)
Definition scim_RegisterRoutes : list (Route X) :=
  let group := Use (Gin.Group root "/scim/v2") (TenantExtractor noTenantConfig) in
  [GET group "/Users" Scim.listUsers; GET group "/Users/:id" Scim.getUser; POST group "/Users" Scim.createUser;
   PUT group "/Users/:id" Scim.replaceUser; PATCH group "/Users/:id" Scim.patchUser;
   DELETE group "/Users/:id" Scim.deleteUser;
   GET group "/Groups" Scim.listGroups; GET group "/Groups/:id" Scim.getGroup; POST group "/Groups" Scim.createGroup;
   PUT group "/Groups/:id" Scim.replaceGroup; PATCH group "/Groups/:id" Scim.patchGroup;
   DELETE group "/Groups/:id" Scim.deleteGroup].

(** Those of the directory, registered before. *)
Context {gin : GinRedirect} (directory_routes : list (Route X)) (base : string).

Definition dirsvc_routes : list (Route X) := directory_routes ++ scim_RegisterRoutes.

(** The process as its clients see it when no limit is reached. *)
Definition dirsvc_Do : HttpPeer X :=
  fun call =>
    match request_path base (hc_url call) with
    | None => fail (ErrLib "dial tcp: connection refused")
    | Some path => serve (engine dirsvc_routes id (hc_method call) path) (mkGinCtx (call_request "10.0.0.2" call) None)
    end.

(** A call that reaches a route. *)
Lemma dirsvc_routed call path p h env s :
  request_path base (hc_url call) = Some path -> resolve dirsvc_routes (hc_method call) path = Some (p, h) ->
  dirsvc_Do call env s =
  serve (dispatch dirsvc_routes (hc_method call) path) (mkGinCtx (call_request "10.0.0.2" call) None) env s.
Proof.
  intros Hp Hr. unfold dirsvc_Do. rewrite Hp. unfold serve. by rewrite engine_routed by by eapply resolve_no_redirect.
Qed.

(** ** The server

    [main] applies the metrics, the security headers and a limiter twice; the
    metrics are one object, the limiters two. *)
Context {prom : PromHttp} {Lim : Type} (NewLimiter : Lim) (Allow : Z -> Lim -> bool * Lim).

Abbreviation Srv := (Server (gmap string Lim * gmap string Lim) X).

Definition dirsvc_chain (method : string) (path : list string) : Handler Srv :=
  let text := "/" +:+ strings_Join path "/" in
  engine (map app_route dirsvc_routes ++ [metrics_route])
    (fun next =>
       PrometheusMiddleware method text
         (PrometheusMiddleware method text
           (SecurityHeadersMiddleware
             (RateLimit NewLimiter Allow fst (fun m p => (m, snd p))
               (SecurityHeadersMiddleware
                 (RateLimit NewLimiter Allow snd (fun m p => (fst p, m)) next))))))
    method path.
End ScimRoutes.

(** ** Starting up *)

Section Start.
Context {host : Host} (connect : string -> option error).

(** The account of the database is fixed. *)
Definition dirsvc_db : DbConfig :=
  mkDbConfig (if decide (os_Getenv "DB_HOST" = estr) then "localhost" else os_Getenv "DB_HOST") 5432
    "user" "password" "identity_platform" "disable".

(** [main] up to [router.Run]: how callers authenticate, and the metrics. *)
Definition dirsvc_main : M MetricNames (ServiceAuthConfig * Metrics) :=
  NewConnection connect dirsvc_db;;
  let serviceToken := if decide (os_Getenv "SERVICE_AUTH_TOKEN" = estr) then "dev-internal-token"
                      else os_Getenv "SERVICE_AUTH_TOKEN" in
  let serviceHeader := os_Getenv "SERVICE_AUTH_HEADER" in
  metrics <- NewMetrics;;
  ret (mkServiceAuthConfig serviceHeader serviceToken, metrics).
End Start.

(** The directory's own routes leave those of SCIM alone, and no registration of
    the process panics. *)
Section Registered.
Context {X : Type} `{!DirectoryService X}.
Context `{!Binder Scim.User, !Binder Scim.Group, !Binder (list PatchOperation)}.
Context `{!Binder CreateUserRequest, !Validator CreateUserRequest, !Validator GetUserByEmailRequest,
          !Validator GetUserByIDRequest, !Binder Directory.User, !Validator UpdateUserRequest,
          !Validator DeleteUserRequest, !Binder CreateGroupRequest, !Validator CreateGroupRequest,
          !Validator GetGroupByIDRequest, !Binder Directory.Group, !Validator UpdateGroupRequest,
          !Validator DeleteGroupRequest, !Binder AddUserToGroupRequest,
          !Validator AddUserToGroupRequest, !Validator RemoveUserFromGroupRequest,
          !Binder VerifyCredentialsRequest, !Validator VerifyCredentialsRequest}.
Context (serviceAuth : ServiceAuthConfig).

Lemma dirsvc_registers : registered (dirsvc_routes (RegisterRoutes serviceAuth)) = true.
Proof. reflexivity. Qed.

Lemma scim_users_route :
  resolve (dirsvc_routes (RegisterRoutes serviceAuth)) "GET" ["scim"; "v2"; "Users"] =
  resolve scim_RegisterRoutes "GET" ["scim"; "v2"; "Users"].
Proof. reflexivity. Qed.
End Registered.

(** ** What the process guarantees *)

Section Guarantees.
Context {bcrypt : Bcrypt}.
Context `{!Binder Scim.User, !Binder Scim.Group, !Binder (list PatchOperation)}.
Context `{!Binder CreateUserRequest, !Validator CreateUserRequest, !Validator GetUserByEmailRequest,
          !Validator GetUserByIDRequest, !Binder Directory.User, !Validator UpdateUserRequest,
          !Validator DeleteUserRequest, !Binder CreateGroupRequest, !Validator CreateGroupRequest,
          !Validator GetGroupByIDRequest, !Binder Directory.Group, !Validator UpdateGroupRequest,
          !Validator DeleteGroupRequest, !Binder AddUserToGroupRequest,
          !Validator AddUserToGroupRequest, !Validator RemoveUserFromGroupRequest,
          !Binder VerifyCredentialsRequest, !Validator VerifyCredentialsRequest}.
Context (serviceAuth : ServiceAuthConfig).
Context {gin : GinRedirect} {prom : PromHttp} {Lim : Type} (NewLimiter : Lim) (Allow : Z -> Lim -> bool * Lim).

(** The tables are in order, and another tenant's part of them is [v]. *)
Definition dir_kept (t' : string) v (d : DirDb) : Prop := dir_ok d /\ tenant_view t' d = v.

Section Kept.
Context (tid t' : string) (v : list identity * list account * list Directory.Group * list membership).
Abbreviation kept := (keeps (elsewhere tid t') (dir_kept t' v)).

Lemma dir_call_kept A (m : M DirDb A) : dir_call tid m -> kept m.
Proof.
  intros Hc env s HE [Hok Hv]. destruct (m env s) as [r u] eqn:E. cbn. split.
  - exact (preserves_run dir_ok _ _ _ _ _ (dir_integrity tid A m Hc) E Hok).
  - by rewrite (tenant_isolation tid t' A m env s r u Hc HE Hok E).
Qed.

Lemma validated_kept {A} `{!Validator A} (req : A) (k : M DirDb Response) : kept k -> kept (validated req k).
Proof. intros Hk. unfold validated. destruct (validate_struct req); [keeping|done]. Qed.

Lemma scim_bound_kept {A} `{!Binder A} ty c (k : A -> M DirDb Response) : (forall a, kept (k a)) -> kept (scim_bound ty c k).
Proof. intros Hk. unfold scim_bound. destruct (should_bind _); [done|]. keeping. Qed.

Lemma scim_tenant_kept r (k : string -> M DirDb Response) : kept (k tid) -> kept (scim_tenant (mkGinCtx r (Some tid)) k).
Proof.
  intros Hk env s HE HP. unfold scim_tenant, or_respond, TenantIDFromContext, bind, attempt. cbn.
  destruct (decide _); cbn; [done|by apply Hk].
Qed.

#[local] Ltac handler :=
  repeat first [apply with_tenant_keeps|apply bound_keeps; intros|apply scim_bound_kept; intros|apply validated_kept
               |apply or_respond_keeps; [|intros; by keeping]|by apply dir_call_kept; constructor
               |apply keeps_map_err|apply keeps_bind; [|intros]|by keeping].

Lemma directory_handlers_kept r h :
  h ∈ [DirectoryApi.createUser; getUserByID; getUserByEmail; updateUser; DirectoryApi.deleteUser; DirectoryApi.createGroup;
       getGroupByID; updateGroup; DirectoryApi.deleteGroup; addUserToGroup; removeUserFromGroup; verifyCredentials] ->
  kept (h (mkGinCtx r (Some tid))).
Proof.
  intros Hh. repeat (apply elem_of_cons in Hh as [->|Hh]); try (by apply elem_of_nil in Hh).
  all: cbv zeta; handler.
Qed.

Lemma scim_handlers_kept r h :
  h ∈ [Scim.listUsers; Scim.getUser; Scim.createUser; Scim.replaceUser; Scim.patchUser; Scim.deleteUser; Scim.listGroups;
       Scim.getGroup; Scim.createGroup; Scim.replaceGroup; Scim.patchGroup; Scim.deleteGroup] ->
  kept (h (mkGinCtx r (Some tid))).
Proof.
  intros Hh. repeat (apply elem_of_cons in Hh as [->|Hh]); try (by apply elem_of_nil in Hh).
  all: apply scim_tenant_kept; handler.
  all: unfold Scim.ListUsers, Scim.GetUser, Scim.CreateUser, Scim.ReplaceUser, Scim.PatchUser, Scim.DeleteUser, Scim.ListGroups,
    Scim.GetGroup, Scim.CreateGroup, Scim.ReplaceGroup, Scim.PatchGroup, Scim.DeleteGroup; cbv zeta.
  all: try (destruct (decide _); [by keeping|]); handler.
Qed.

Lemma ServiceAuthenticator_kept h c : kept (h c) -> kept (ServiceAuthenticator serviceAuth h c).
Proof. intros Hh. unfold ServiceAuthenticator. cbv zeta. destruct (decide _); [keeping|done]. Qed.

Lemma dirsvc_route_kept (rt : Route DirDb) r :
  header_get DefaultTenantHeader (rq_headers r) = tid -> rt ∈ dirsvc_routes (RegisterRoutes serviceAuth) ->
  kept (ro_handler rt (mkGinCtx r None)).
Proof.
  intros Htid. pose proof (directory_handlers_kept r) as H1. pose proof (scim_handlers_kept r) as H2.
  unfold dirsvc_routes, RegisterRoutes, scim_RegisterRoutes. cbv zeta. cbn [app]. intros Hin.
  repeat (apply elem_of_cons in Hin as [->|Hin]; [cbn [ro_handler handle GET POST PUT PATCH DELETE g_use Use Gin.Group root];
    try apply ServiceAuthenticator_kept;
    first [apply TenantExtractor_keeps; rewrite Htid; first [apply H1; by repeat first [left|right]|apply H2; by repeat first [left|right]]
          |apply or_respond_keeps; [by apply dir_call_kept; constructor|intros; by keeping]
          |unfold discoverTenant; cbv zeta; destruct (decide _); [by keeping|];
           apply or_respond_keeps; [by apply dir_call_kept; constructor|intros; by keeping]]|]).
  by apply elem_of_nil in Hin.
Qed.
End Kept.

Abbreviation Srv := (Server (gmap string Lim * gmap string Lim) DirDb).

(** Property C18. Whatever is sent to the directory process, to its own routes
    or to those of SCIM, and whatever comes of it, the directory keeps its
    integrity, and the identities, accounts, groups and memberships of every
    tenant but the one the request names are what they were. *)
Theorem dirsvc_safe method path r t' env (s : St Srv) res u :
  dir_ok (sv_app (st s)) -> pg_uuid env (header_get DefaultTenantHeader (rq_headers r)) <> Some t' ->
  ServeHTTP (dirsvc_chain (RegisterRoutes serviceAuth) NewLimiter Allow method path) r env s = (res, u) ->
  dir_ok (sv_app (st u)) /\ tenant_view t' (sv_app (st u)) = tenant_view t' (sv_app (st s)).
Proof.
  intros Hok Hne E. set (tid := header_get DefaultTenantHeader (rq_headers r)).
  refine (keeps_run (elsewhere tid t') (fun sv : Srv => dir_kept t' (tenant_view t' (sv_app (st s))) (sv_app sv)) _ _ _ _ _ _ Hne E
    (conj Hok eq_refl)).
  unfold dirsvc_chain. cbv zeta. apply ServeHTTP_keeps, engine_keeps. do 2 apply Prometheus_keeps.
  do 2 (apply SecurityHeaders_keeps, RateLimit_keeps). apply routes_keep. intros rt ps Hrt. by apply dirsvc_route_kept.
Qed.
End Guarantees.
