(* ===== verification/Rbac.v ===== *)
(** * Roles and permissions

    internal/rbac: the store over the tables of migration 7, the service with
    its authorization check, and the handlers.  [ORDER BY] on text is the order
    of the bytes. *)
From S2P Require Import Prelude GoStd Sql Http Middleware.
Local Open Scope go_scope.

(** ** store.go *)

Record Role : Type := mkRole {
  ro_ID : string;
  ro_TenantID : string;
  ro_Name : string;
  ro_Description : string;
  ro_CreatedAt : Z;
  ro_UpdatedAt : Z
}.

Record Permission : Type := mkPermission {
  pm_ID : string;
  pm_TenantID : string;
  pm_Resource : string;
  pm_Action : string;
  pm_Description : string;
  pm_CreatedAt : Z
}.

Record UserRole : Type := mkUserRole {
  ur_UserID : string;
  ur_RoleID : string;
  ur_TenantID : string;
  ur_AssignedAt : Z;
  ur_AssignedBy : option string
}.

(** The tables; [rb_grants] is role_permissions. *)
Record RbacDb : Type := mkRbac {
  rb_roles : list Role;
  rb_permissions : list Permission;
  rb_grants : list (string * string);
  rb_users : list UserRole
}.

Class RbacStore (B : Type) : Type := {
  rbac_CreateRole : Role -> M B string;
  rbac_GetRole : string -> string -> M B Role;
  rbac_GetRoleByName : string -> string -> M B Role;
  rbac_ListRoles : string -> M B (list Role);
  rbac_UpdateRole : string -> Role -> M B unit;
  rbac_DeleteRole : string -> string -> M B unit;
  rbac_CreatePermission : Permission -> M B string;
  rbac_ListPermissions : string -> M B (list Permission);
  rbac_GetPermissionsByRole : string -> M B (list Permission);
  rbac_AssignPermissionToRole : string -> string -> M B unit;
  rbac_RemovePermissionFromRole : string -> string -> M B unit;
  rbac_AssignRoleToUser : string -> string -> string -> option string -> M B unit;
  rbac_RemoveRoleFromUser : string -> string -> M B unit;
  rbac_GetUserRoles : string -> string -> M B (list Role);
  rbac_GetUserPermissions : string -> string -> M B (list Permission)
}.

Definition on_roles {A} (m : M (list Role) A) : M RbacDb A :=
  zoom rb_roles (fun x d => mkRbac x (rb_permissions d) (rb_grants d) (rb_users d)) m.

Definition on_permissions {A} (m : M (list Permission) A) : M RbacDb A :=
  zoom rb_permissions (fun x d => mkRbac (rb_roles d) x (rb_grants d) (rb_users d)) m.

Definition on_grants {A} (m : M (list (string * string)) A) : M RbacDb A :=
  zoom rb_grants (fun x d => mkRbac (rb_roles d) (rb_permissions d) x (rb_users d)) m.

Definition on_user_roles {A} (m : M (list UserRole) A) : M RbacDb A :=
  zoom rb_users (fun x d => mkRbac (rb_roles d) (rb_permissions d) (rb_grants d) x) m.

Definition is_role (id tenant : string) (r : Role) : bool :=
  bool_decide (ro_ID r = id /\ ro_TenantID r = tenant).

Definition store_CreateRole (r : Role) : M RbacDb string :=
  t <- uuid_arg (ro_TenantID r);;
  varchar_arg 255 (ro_Name r);;
  on_roles (sql_insert
    (fun new old => bool_decide (ro_ID new = ro_ID old \/
                      (ro_TenantID new = ro_TenantID old /\ ro_Name new = ro_Name old)))
    (fun tm id => (mkRole id t (ro_Name r) (ro_Description r) tm tm, id))).

Definition store_GetRole (tenantID id : string) : M RbacDb Role :=
  i <- uuid_arg id;;
  t <- uuid_arg tenantID;;
  on_roles (sql_get (is_role i t)).

Definition store_GetRoleByName (tenantID name : string) : M RbacDb Role :=
  t <- uuid_arg tenantID;;
  on_roles (sql_get (fun r => bool_decide (ro_Name r = name /\ ro_TenantID r = t))).

Definition store_ListRoles (tenantID : string) : M RbacDb (list Role) :=
  t <- uuid_arg tenantID;;
  rows <- on_roles (sql_select (fun r => bool_decide (ro_TenantID r = t)));;
  ret (sort_by (fun x y => String.leb (ro_Name x) (ro_Name y)) rows).

(** [WHERE id = $3]: the tenant is not part of the statement. *)
Definition store_UpdateRole (id : string) (r : Role) : M RbacDb unit :=
  varchar_arg 255 (ro_Name r);;
  i <- uuid_arg id;;
  exec (on_roles (sql_update_unique (fun x => (ro_TenantID x, ro_Name x))
    (fun x => bool_decide (ro_ID x = i))
    (fun tm x => mkRole (ro_ID x) (ro_TenantID x) (ro_Name r) (ro_Description r) (ro_CreatedAt x) tm))).

(** The role goes, and its permissions and assignments with it. *)
Definition store_DeleteRole (tenantID id : string) : M RbacDb unit :=
  i <- uuid_arg id;;
  t <- uuid_arg tenantID;;
  statement (fun _ _ d =>
    if existsb (is_role i t) (rb_roles d) then
      inl (tt, mkRbac (filter (fun r => negb (is_role i t r)) (rb_roles d)) (rb_permissions d)
                 (filter (fun g => fst g <> i) (rb_grants d))
                 (filter (fun u => ur_RoleID u <> i) (rb_users d)))
    else inl (tt, d)).

Definition store_CreatePermission (p : Permission) : M RbacDb string :=
  t <- uuid_arg (pm_TenantID p);;
  varchar_arg 255 (pm_Resource p);;
  varchar_arg 50 (pm_Action p);;
  on_permissions (sql_insert
    (fun new old => bool_decide (pm_ID new = pm_ID old \/
       (pm_TenantID new = pm_TenantID old /\ pm_Resource new = pm_Resource old /\
        pm_Action new = pm_Action old)))
    (fun tm id => (mkPermission id t (pm_Resource p) (pm_Action p) (pm_Description p) tm, id))).

(** [ORDER BY resource, action] *)
Definition perm_leb (x y : Permission) : bool :=
  if decide (pm_Resource x = pm_Resource y) then String.leb (pm_Action x) (pm_Action y)
  else String.leb (pm_Resource x) (pm_Resource y).

Definition store_ListPermissions (tenantID : string) : M RbacDb (list Permission) :=
  t <- uuid_arg tenantID;;
  rows <- on_permissions (sql_select (fun p => bool_decide (pm_TenantID p = t)));;
  ret (sort_by perm_leb rows).

Definition store_GetPermissionsByRole (roleID : string) : M RbacDb (list Permission) :=
  i <- uuid_arg roleID;;
  statement (fun _ _ d =>
    inl (flat_map (fun p => map (fun _ => p)
           (filter (fun g => snd g = pm_ID p /\ fst g = i) (rb_grants d))) (rb_permissions d), d)).

Definition err_reference : error := ErrDB "pq: insert or update violates foreign key constraint".

(** [INSERT ... ON CONFLICT DO NOTHING]: role and permission must exist; their
    tenants are not compared. *)
Definition store_AssignPermissionToRole (roleID permissionID : string) : M RbacDb unit :=
  i <- uuid_arg roleID;;
  p <- uuid_arg permissionID;;
  statement (fun _ _ d =>
    if decide ((i, p) ∈ rb_grants d) then inl (tt, d)
    else if existsb (fun r => bool_decide (ro_ID r = i)) (rb_roles d)
         && existsb (fun x => bool_decide (pm_ID x = p)) (rb_permissions d)
    then inl (tt, mkRbac (rb_roles d) (rb_permissions d) (rb_grants d ++ [(i, p)]) (rb_users d))
    else inr err_reference).

Definition store_RemovePermissionFromRole (roleID permissionID : string) : M RbacDb unit :=
  i <- uuid_arg roleID;;
  p <- uuid_arg permissionID;;
  exec (on_grants (sql_delete (fun g => bool_decide (g = (i, p))))).

(** The role must exist; its tenant is not compared with the assignment's. *)
Definition store_AssignRoleToUser (tenantID userID roleID : string) (assignedBy : option string)
    : M RbacDb unit :=
  u <- uuid_arg userID;;
  i <- uuid_arg roleID;;
  t <- uuid_arg tenantID;;
  by' <- (match assignedBy with None => ret None | Some b => x <- uuid_arg b;; ret (Some x) end);;
  statement (fun env n d =>
    if existsb (fun r => bool_decide (ur_UserID r = u /\ ur_RoleID r = i)) (rb_users d) then inl (tt, d)
    else if existsb (fun r => bool_decide (ro_ID r = i)) (rb_roles d)
    then inl (tt, mkRbac (rb_roles d) (rb_permissions d) (rb_grants d)
                    (rb_users d ++ [mkUserRole u i t (clock env n) by']))
    else inr err_reference).

Definition store_RemoveRoleFromUser (userID roleID : string) : M RbacDb unit :=
  u <- uuid_arg userID;;
  i <- uuid_arg roleID;;
  exec (on_user_roles (sql_delete (fun r => bool_decide (ur_UserID r = u /\ ur_RoleID r = i)))).

Definition store_GetUserRoles (tenantID userID : string) : M RbacDb (list Role) :=
  u <- uuid_arg userID;;
  t <- uuid_arg tenantID;;
  statement (fun env n d =>
    inl (reorder (row_order env n) (flat_map (fun r => map (fun _ => r)
           (filter (fun x => ur_RoleID x = ro_ID r /\ ur_UserID x = u /\ ur_TenantID x = t) (rb_users d)))
           (rb_roles d)), d)).

(** [rp.role_id = ur.role_id WHERE ur.user_id = $1 AND ur.tenant_id = $2]:
    the grants a user has in a tenant. *)
Definition granted (d : RbacDb) (u t : string) (p : Permission) : bool :=
  existsb (fun g => bool_decide (snd g = pm_ID p) &&
    existsb (fun x => bool_decide (ur_RoleID x = fst g /\ ur_UserID x = u /\ ur_TenantID x = t)) (rb_users d))
    (rb_grants d).

(** [SELECT DISTINCT p.*]: each permission once. *)
Definition store_GetUserPermissions (tenantID userID : string) : M RbacDb (list Permission) :=
  u <- uuid_arg userID;;
  t <- uuid_arg tenantID;;
  statement (fun env n d => inl (reorder (row_order env n) (filter (granted d u t) (rb_permissions d)), d)).

#[export] Instance rbac_store : RbacStore RbacDb := {|
  rbac_CreateRole := store_CreateRole;
  rbac_GetRole := store_GetRole;
  rbac_GetRoleByName := store_GetRoleByName;
  rbac_ListRoles := store_ListRoles;
  rbac_UpdateRole := store_UpdateRole;
  rbac_DeleteRole := store_DeleteRole;
  rbac_CreatePermission := store_CreatePermission;
  rbac_ListPermissions := store_ListPermissions;
  rbac_GetPermissionsByRole := store_GetPermissionsByRole;
  rbac_AssignPermissionToRole := store_AssignPermissionToRole;
  rbac_RemovePermissionFromRole := store_RemovePermissionFromRole;
  rbac_AssignRoleToUser := store_AssignRoleToUser;
  rbac_RemoveRoleFromUser := store_RemoveRoleFromUser;
  rbac_GetUserRoles := store_GetUserRoles;
  rbac_GetUserPermissions := store_GetUserPermissions
|}.

(** ** service.go *)

Section Service.
Context {B : Type} `{!RbacStore B}.

Definition svc_CreateRole (tenantID name description : string) : M B Role :=
  if decide (name = estr) then fail (ErrNew "role name is required")
  else
    id <- map_err (ErrWrap "failed to create role")
            (rbac_CreateRole (mkRole estr tenantID name description 0 0));;
    rbac_GetRole tenantID id.

Definition svc_UpdateRole (tenantID id name description : string) : M B Role :=
  map_err (ErrWrap "failed to update role") (rbac_UpdateRole id (mkRole estr estr name description 0 0));;
  rbac_GetRole tenantID id.

Definition svc_CreatePermission (tenantID resource action description : string) : M B Permission :=
  if decide (resource = estr \/ action = estr) then fail (ErrNew "resource and action are required")
  else
    let p := mkPermission estr tenantID resource action description 0 in
    id <- map_err (ErrWrap "failed to create permission") (rbac_CreatePermission p);;
    ret (mkPermission id tenantID resource action description 0).

(** Exact match or wildcard. *)
Definition permits (resource action : string) (p : Permission) : bool :=
  bool_decide ((pm_Resource p = resource \/ pm_Resource p = "*") /\
               (pm_Action p = action \/ pm_Action p = "*" \/ pm_Action p = "admin")).

Definition HasPermission (tenantID userID resource action : string) : M B bool :=
  perms <- rbac_GetUserPermissions tenantID userID;;
  ret (existsb (permits resource action) perms).

(** ** api.go *)

Record RoleBody : Type := mkRoleBody { rq_Name : string; rq_Description : string }.
Record PermissionBody : Type :=
  mkPermissionBody { pb_Resource : string; pb_Action : string; pb_Description : string }.

Context `{!Binder RoleBody, !Binder PermissionBody}.

Definition Role_json (r : Role) : json :=
  JObj ([("id", JStr (ro_ID r)); ("tenant_id", JStr (ro_TenantID r)); ("name", JStr (ro_Name r))]
        ++ omitempty "description" (ro_Description r)
        ++ [("created_at", JNum (ro_CreatedAt r)); ("updated_at", JNum (ro_UpdatedAt r))]).

Definition Permission_json (p : Permission) : json :=
  JObj ([("id", JStr (pm_ID p)); ("tenant_id", JStr (pm_TenantID p)); ("resource", JStr (pm_Resource p));
         ("action", JStr (pm_Action p))] ++ omitempty "description" (pm_Description p)
        ++ [("created_at", JNum (pm_CreatedAt p))]).

Definition rbac_tenantID (c : GinCtx) (k : string -> M B Response) : M B Response :=
  with_tenant "tenant id required" c k.

Definition or_fail {A} (m : M B A) (k : A -> M B Response) : M B Response :=
  or_respond (verbatim 500) m k.

Definition createRole : Handler B :=
  fun c => rbac_tenantID c (fun tenantID => bound c (fun body : RoleBody =>
    or_fail (svc_CreateRole tenantID (rq_Name body) (rq_Description body)) (fun role =>
    ret (respond 201 (Role_json role))))).

Definition listRoles : Handler B :=
  fun c => rbac_tenantID c (fun tenantID =>
    or_fail (rbac_ListRoles tenantID) (fun roles =>
    ret (respond 200 (JObj [("roles", slice_json Role_json roles)])))).

Definition getRole : Handler B :=
  fun c => rbac_tenantID c (fun tenantID =>
    or_respond (fixed 404 "role not found") (rbac_GetRole tenantID (Param c "id")) (fun role =>
    ret (respond 200 (Role_json role)))).

Definition updateRole : Handler B :=
  fun c => rbac_tenantID c (fun tenantID => bound c (fun body : RoleBody =>
    or_fail (svc_UpdateRole tenantID (Param c "id") (rq_Name body) (rq_Description body)) (fun role =>
    ret (respond 200 (Role_json role))))).

Definition deleteRole : Handler B :=
  fun c => rbac_tenantID c (fun tenantID =>
    or_fail (rbac_DeleteRole tenantID (Param c "id")) (fun _ => ret (respond_status 204))).

Definition getRolePermissions : Handler B :=
  fun c => or_fail (rbac_GetPermissionsByRole (Param c "id")) (fun perms =>
    ret (respond 200 (JObj [("permissions", slice_json Permission_json perms)]))).

Definition assignPermissionToRole : Handler B :=
  fun c => or_fail (rbac_AssignPermissionToRole (Param c "id") (Param c "permId")) (fun _ =>
    ret (respond 200 (JObj [("status", JStr "assigned")]))).

Definition removePermissionFromRole : Handler B :=
  fun c => or_fail (rbac_RemovePermissionFromRole (Param c "id") (Param c "permId")) (fun _ =>
    ret (respond_status 204)).

Definition createPermission : Handler B :=
  fun c => rbac_tenantID c (fun tenantID => bound c (fun body : PermissionBody =>
    or_fail (svc_CreatePermission tenantID (pb_Resource body) (pb_Action body) (pb_Description body))
      (fun perm => ret (respond 201 (Permission_json perm))))).

Definition listPermissions : Handler B :=
  fun c => rbac_tenantID c (fun tenantID =>
    or_fail (rbac_ListPermissions tenantID) (fun perms =>
    ret (respond 200 (JObj [("permissions", slice_json Permission_json perms)])))).

Definition getUserRoles : Handler B :=
  fun c => rbac_tenantID c (fun tenantID =>
    or_fail (rbac_GetUserRoles tenantID (Param c "userId")) (fun roles =>
    ret (respond 200 (JObj [("roles", slice_json Role_json roles)])))).

Definition assignRoleToUser : Handler B :=
  fun c => rbac_tenantID c (fun tenantID =>
    or_fail (rbac_AssignRoleToUser tenantID (Param c "userId") (Param c "roleId") None) (fun _ =>
    ret (respond 200 (JObj [("status", JStr "assigned")])))).

Definition removeRoleFromUser : Handler B :=
  fun c => or_fail (rbac_RemoveRoleFromUser (Param c "userId") (Param c "roleId")) (fun _ =>
    ret (respond_status 204)).

Definition getUserPermissions : Handler B :=
  fun c => rbac_tenantID c (fun tenantID =>
    or_fail (rbac_GetUserPermissions tenantID (Param c "userId")) (fun perms =>
    ret (respond 200 (JObj [("permissions", slice_json Permission_json perms)])))).

End Service.
