(* ===== verification/RbacFacts.v ===== *)
(** * What roles guarantee

    The authorization check is exactly what the tables grant, deleting a role
    takes its permissions away, and where tenants are not kept apart. *)
From S2P Require Import Prelude GoStd Sql Http Middleware Rbac.
Local Open Scope go_scope.

(** ** Integrity *)

Record rbac_ok (d : RbacDb) : Prop := {
  rok_roles : NoDup (ro_ID <$> rb_roles d);
  rok_names : NoDup ((fun r => (ro_TenantID r, ro_Name r)) <$> rb_roles d);
  rok_permissions : NoDup (pm_ID <$> rb_permissions d);
  rok_grants : NoDup (rb_grants d);
  rok_users : NoDup ((fun u => (ur_UserID u, ur_RoleID u)) <$> rb_users d);
  rok_grant_role : Forall (fun g => fst g ∈ (ro_ID <$> rb_roles d)) (rb_grants d);
  rok_grant_perm : Forall (fun g => snd g ∈ (pm_ID <$> rb_permissions d)) (rb_grants d);
  rok_user_role : Forall (fun u => ur_RoleID u ∈ (ro_ID <$> rb_roles d)) (rb_users d)
}.

(** What a permission is good for: its resource or any, and its action, any
    action where it says so, and any where it is that of an administrator. *)
Definition covers (p : Permission) (resource action : string) : Prop :=
  pm_Resource p ∈ [resource; "*"] /\ pm_Action p ∈ [action; "*"; "admin"].

Lemma permits_covers resource action p : permits resource action p = true <-> covers p resource action.
Proof. unfold permits, covers. rewrite bool_decide_eq_true, !elem_of_cons, !elem_of_nil. tauto. Qed.

(** A user holds a permission in a tenant: through a role assigned there. *)
Definition holds (d : RbacDb) (u t resource action : string) : Prop :=
  exists x p, x ∈ rb_users d /\ ur_UserID x = u /\ ur_TenantID x = t /\
    p ∈ rb_permissions d /\ (ur_RoleID x, pm_ID p) ∈ rb_grants d /\ covers p resource action.

Lemma granted_spec d u t p :
  granted d u t p = true <->
  exists x, x ∈ rb_users d /\ ur_UserID x = u /\ ur_TenantID x = t /\ (ur_RoleID x, pm_ID p) ∈ rb_grants d.
Proof.
  unfold granted. rewrite existsb_elem. split.
  - intros ([i q] & Hg & [Hq Hx]%andb_true_iff). apply bool_decide_eq_true in Hq. cbn in *. subst q.
    apply existsb_elem in Hx as (x & Hx & (Hr & Hu & Ht)%bool_decide_eq_true).
    exists x. by rewrite Hr.
  - intros (x & Hx & Hu & Ht & Hg). exists (ur_RoleID x, pm_ID p). split; [done|].
    apply andb_true_iff. split; [by apply bool_decide_eq_true|].
    apply existsb_elem. exists x. split; [done|]. by apply bool_decide_eq_true.
Qed.

Lemma HasPermission_run tenantID userID t u resource action env n d :
  db_up env -> pg_uuid env tenantID = Some t -> pg_uuid env userID = Some u ->
  HasPermission tenantID userID resource action env (mkSt n d) =
    (Ok (existsb (permits resource action) (reorder (row_order env n) (filter (granted d u t) (rb_permissions d)))), mkSt (S n) d).
Proof.
  intros Hup Ht Hu. unfold HasPermission, bind. cbn [rbac_GetUserPermissions rbac_store].
  unfold store_GetUserPermissions, bind, uuid_arg. rewrite Hu, Ht. rewrite statement_up by done. done.
Qed.

Lemma existsb_holds f d u t resource action :
  existsb (permits resource action) (reorder f (filter (granted d u t) (rb_permissions d))) = true <->
  holds d u t resource action.
Proof.
  rewrite existsb_elem. unfold holds. split.
  - intros (p & [Hp (x & ? & ? & ? & ?)%granted_spec]%reorder_elem%filter_bool_elem & Hpm%permits_covers). eauto 10.
  - intros (x & p & ? & ? & ? & ? & ? & ?). exists p. split; [|by apply permits_covers]. apply reorder_elem, filter_bool_elem.
    split; [done|]. apply granted_spec. eauto.
Qed.

(** Property C23. The authorization check answers yes exactly when the user has,
    in that tenant, a role to which a permission is granted that names the
    resource (or any) and the action (or any, or admin). *)
Theorem has_permission_iff tenantID userID t u resource action env n d :
  db_up env -> pg_uuid env tenantID = Some t -> pg_uuid env userID = Some u ->
  exists b, HasPermission tenantID userID resource action env (mkSt n d) = (Ok b, mkSt (S n) d) /\
    (b = true <-> holds d u t resource action).
Proof.
  intros Hup Ht Hu. eexists. split; [by apply HasPermission_run|]. apply existsb_holds.
Qed.

(** ** Integrity is kept *)

Lemma elem_of_key {A K} (key : A -> K) (l : list A) k : k ∈ (key <$> l) <-> exists x, x ∈ l /\ key x = k.
Proof. rewrite list_elem_of_fmap. split; intros (x & ? & ?); exists x; by subst. Qed.

Lemma store_UpdateRole_ok id r : preserves rbac_ok (store_UpdateRole id r).
Proof.
  unfold store_UpdateRole, exec. effects. apply preserves_zoom_statement; [by intros []|].
  intros ? ? d ? rs [] Hf. cbn in Hf. case_decide; simplify_eq.
  split; cbn; rewrite ?(map_ext_key ro_ID) by (intros x; by destruct (bool_decide _)); done.
Qed.

Lemma store_DeleteRole_ok tenantID id : preserves rbac_ok (store_DeleteRole tenantID id).
Proof.
  unfold store_DeleteRole. effects. apply preserves_statement. intros ? ? d ? d' [] Hf.
  destruct (existsb _ _); simplify_eq; [|done].
  assert (forall k, k <> a -> k ∈ (ro_ID <$> rb_roles d) ->
            k ∈ (ro_ID <$> filter (fun r => negb (is_role a a0 r)) (rb_roles d))) as Hkeep.
  { intros k Hk (r & Hr & <-)%elem_of_key. apply elem_of_key. exists r. split; [|done].
    apply filter_bool_elem. split; [done|]. apply negb_true_iff, bool_decide_eq_false. by intros []. }
  split; cbn; auto using NoDup_key_filter, NoDup_filter, Forall_filter_weaken.
  - apply Forall_forall. intros g [Hg Hin]%list_elem_of_filter. rewrite Forall_forall in rok_grant_role0. auto.
  - apply Forall_forall. intros u [Hu Hin]%list_elem_of_filter. rewrite Forall_forall in rok_user_role0. auto.
Qed.

Lemma store_AssignPermissionToRole_ok roleID permissionID :
  preserves rbac_ok (store_AssignPermissionToRole roleID permissionID).
Proof.
  unfold store_AssignPermissionToRole. effects. apply preserves_statement. intros ? ? d ? d' [] Hf.
  case_decide; [by simplify_eq|]. destruct (existsb _ _ && _) eqn:Hex; simplify_eq.
  apply andb_true_iff in Hex as [(r & Hr & Hr')%existsb_elem (p & Hp & Hp')%existsb_elem].
  apply bool_decide_eq_true in Hr', Hp'. split; cbn; try done.
  - apply NoDup_app. split_and!; [done| |apply NoDup_singleton]. by intros g Hg ->%list_elem_of_singleton.
  - apply Forall_app. split; [done|]. apply Forall_singleton, elem_of_key. eauto.
  - apply Forall_app. split; [done|]. apply Forall_singleton, elem_of_key. eauto.
Qed.

Lemma store_AssignRoleToUser_ok tenantID userID roleID assignedBy :
  preserves rbac_ok (store_AssignRoleToUser tenantID userID roleID assignedBy).
Proof.
  unfold store_AssignRoleToUser. effects. apply preserves_statement. intros ? ? d ? d' [] Hf.
  destruct (existsb _ (rb_users d)) eqn:Hu; [by simplify_eq|].
  destruct (existsb _ (rb_roles d)) eqn:Hr; simplify_eq. rewrite existsb_false in Hu.
  apply existsb_elem in Hr as (r & Hr & Hr'%bool_decide_eq_true). split; cbn; try done.
  - apply (NoDup_key_snoc (fun u => (ur_UserID u, ur_RoleID u))); [done|]. intros x Hx [= ? ?].
    specialize (Hu x Hx). apply bool_decide_eq_false in Hu. by apply Hu.
  - apply Forall_app. split; [done|]. apply Forall_singleton, elem_of_key. eauto.
Qed.

Lemma store_CreateRole_ok r : preserves rbac_ok (store_CreateRole r).
Proof.
  unfold store_CreateRole. effects. apply preserves_zoom_statement; [by intros []|].
  intros ? ? d ? rs [] Hf. cbn in Hf. destruct (existsb _ _) eqn:Hex; simplify_eq.
  rewrite existsb_false in Hex. split; cbn; try done; [| |by apply Forall_key_snoc..].
  - apply NoDup_key_snoc; [done|]. intros x Hx Heq. specialize (Hex x Hx).
    apply bool_decide_eq_false in Hex. by apply Hex; left.
  - apply (NoDup_key_snoc (fun r => (ro_TenantID r, ro_Name r))); [done|]. intros x Hx [= ? ?].
    specialize (Hex x Hx). apply bool_decide_eq_false in Hex. by apply Hex; right.
Qed.

Lemma store_CreatePermission_ok p : preserves rbac_ok (store_CreatePermission p).
Proof.
  unfold store_CreatePermission. effects. apply preserves_zoom_statement; [by intros []|].
  intros ? ? d ? rs [] Hf. cbn in Hf. destruct (existsb _ _) eqn:Hex; simplify_eq.
  rewrite existsb_false in Hex. split; cbn; try done; [|by apply Forall_key_snoc].
  apply NoDup_key_snoc; [done|]. intros x Hx Heq. specialize (Hex x Hx).
  apply bool_decide_eq_false in Hex. by apply Hex; left.
Qed.

Lemma store_RemovePermissionFromRole_ok a b : preserves rbac_ok (store_RemovePermissionFromRole a b).
Proof.
  unfold store_RemovePermissionFromRole, exec. effects. apply preserves_zoom_statement; [by intros []|].
  intros ? ? d ? rs [] Hf. cbn in Hf. simplify_eq.
  split; cbn; auto using NoDup_filter, NoDup_key_filter, Forall_filter_weaken.
Qed.

Lemma store_RemoveRoleFromUser_ok a b : preserves rbac_ok (store_RemoveRoleFromUser a b).
Proof.
  unfold store_RemoveRoleFromUser, exec. effects. apply preserves_zoom_statement; [by intros []|].
  intros ? ? d ? rs [] Hf. cbn in Hf. simplify_eq.
  split; cbn; auto using NoDup_filter, NoDup_key_filter, Forall_filter_weaken.
Qed.

(** The operations of the service that change the tables. *)
Inductive rbac_call : forall {A}, M RbacDb A -> Prop :=
| call_CreateRole t n d : rbac_call (svc_CreateRole t n d)
| call_UpdateRole t i n d : rbac_call (svc_UpdateRole t i n d)
| call_DeleteRole t i : rbac_call (rbac_DeleteRole t i)
| call_CreatePermission t r a d : rbac_call (svc_CreatePermission t r a d)
| call_AssignPermission i p : rbac_call (rbac_AssignPermissionToRole i p)
| call_RemovePermission i p : rbac_call (rbac_RemovePermissionFromRole i p)
| call_AssignRole t u i b : rbac_call (rbac_AssignRoleToUser t u i b)
| call_RemoveRole u i : rbac_call (rbac_RemoveRoleFromUser u i).

Lemma readonly_GetRole t i : readonly (store_GetRole t i).
Proof. unfold store_GetRole. effects. apply readonly_zoom; [by intros []|]. effects. Qed.

(** Every call keeps the integrity of the tables, whether it succeeds or not. *)
Theorem rbac_integrity {A} (m : M RbacDb A) : rbac_call m -> preserves rbac_ok m.
Proof.
  intros []; unfold svc_CreateRole, svc_UpdateRole, svc_CreatePermission; cbn; try case_decide; effects;
    auto using readonly_preserves, readonly_GetRole, store_UpdateRole_ok, store_DeleteRole_ok,
      store_AssignPermissionToRole_ok, store_AssignRoleToUser_ok, store_CreateRole_ok,
      store_CreatePermission_ok, store_RemovePermissionFromRole_ok, store_RemoveRoleFromUser_ok.
Qed.

(** Property C24. Deleting a role takes away what it granted: integrity is kept,
    and afterwards a user holds a permission exactly when they held it through
    another role. *)
Theorem delete_role_revokes tenantID id i t env s u :
  pg_uuid env id = Some i -> pg_uuid env tenantID = Some t ->
  rbac_ok (st s) -> existsb (is_role i t) (rb_roles (st s)) = true ->
  store_DeleteRole tenantID id env s = (Ok tt, u) ->
  rbac_ok (st u) /\ ~ i ∈ (ro_ID <$> rb_roles (st u)) /\
  forall user tenant resource action,
    holds (st u) user tenant resource action <->
    (exists x p, x ∈ rb_users (st s) /\ ur_UserID x = user /\ ur_TenantID x = tenant /\ ur_RoleID x <> i /\
      p ∈ rb_permissions (st s) /\ (ur_RoleID x, pm_ID p) ∈ rb_grants (st s) /\ covers p resource action).
Proof.
  intros Hi Ht Hok Hex H.
  split; [exact (preserves_run rbac_ok _ _ _ _ _ (store_DeleteRole_ok _ _) H Hok)|].
  unfold store_DeleteRole in H. rewrite uuid_bind, Hi, uuid_bind, Ht in H.
  apply statement_Ok_inv in H as (_ & d & H & ->). cbn [st]. rewrite Hex in H. injection H as <-. split.
  - intros (r & [Hr Hn]%filter_bool_elem & Hid)%elem_of_key. cbn in *.
    apply existsb_elem in Hex as (r' & Hr' & [Hi' Ht']%bool_decide_eq_true).
    assert (r = r') as -> by (eapply (NoDup_key_inj ro_ID); [apply Hok|done|done|congruence]).
    apply negb_true_iff, bool_decide_eq_false in Hn. by apply Hn.
  - intros user tenant resource action. unfold holds. cbn. split.
    + intros (x & p & [Hx Hin]%list_elem_of_filter & ? & ? & ? & [? ?]%list_elem_of_filter & ?).
      exists x, p. done.
    + intros (x & p & Hx & ? & ? & Hne & ? & Hg & ?). exists x, p.
      split_and!; try done; by apply list_elem_of_filter.
Qed.

(** Updating a role ignores the tenant: called for one tenant with
    the id of another tenant's role, it renames that role and then reports that
    there is no such role. *)
Theorem update_role_crosses_tenants tenantID t id name description env n d r :
  db_up env -> pg_uuid env tenantID = Some t -> pg_uuid env id = Some (ro_ID r) ->
  rbac_ok d -> r ∈ rb_roles d -> ro_TenantID r <> t -> String.length name <= 255 ->
  (forall x, x ∈ rb_roles d -> (ro_TenantID x, ro_Name x) <> (ro_TenantID r, name)) ->
  exists u, svc_UpdateRole tenantID id name description env (mkSt n d) = (Err sql_ErrNoRows, u) /\
    exists r', r' ∈ rb_roles (st u) /\ ro_ID r' = ro_ID r /\ ro_TenantID r' = ro_TenantID r /\ ro_Name r' = name.
Proof.
  intros Hup Ht Hi Hok Hr Hne Hlen Hfree.
  set (f x := if bool_decide (ro_ID x = ro_ID r)
              then mkRole (ro_ID x) (ro_TenantID x) name description (ro_CreatedAt x) (clock env n) else x).
  assert (NoDup ((fun x => (ro_TenantID x, ro_Name x)) <$> map f (rb_roles d))) as Hnd.
  { apply (NoDup_key_map_one ro_ID _ f (ro_ID r)); [apply Hok|apply Hok| |].
    - intros x _ Hx. unfold f. by rewrite bool_decide_eq_false_2.
    - intros x y Hx Hy Hxi _. unfold f. rewrite bool_decide_eq_true_2 by done. cbn.
      assert (x = r) as -> by (eapply (NoDup_key_inj ro_ID); [apply Hok|done..]).
      apply not_eq_sym, Hfree, Hy. }
  assert (store_UpdateRole id (mkRole estr estr name description 0 0) env (mkSt n d) =
    (Ok tt, mkSt (S n) (mkRbac (map f (rb_roles d)) (rb_permissions d) (rb_grants d) (rb_users d)))) as E.
  { unfold store_UpdateRole. mgo (varchar_arg_run (S := RbacDb) 255 name env (mkSt n d) Hlen).
    rewrite uuid_bind, Hi. unfold exec, bind, on_roles, zoom, sql_update_unique.
    rewrite statement_up by done. cbn [tick st]. by rewrite decide_True by exact Hnd. }
  unfold svc_UpdateRole, bind, map_err. cbn [rbac_UpdateRole rbac_GetRole rbac_store]. rewrite E.
  unfold store_GetRole. rewrite uuid_bind, Hi, uuid_bind, Ht. unfold on_roles, zoom, sql_get.
  rewrite statement_up by done. cbn [tick st rb_roles]. rewrite filter_none.
  - eexists. split; [reflexivity|]. cbn. exists (f r). split.
    + apply list_elem_of_fmap. eauto.
    + unfold f. by rewrite bool_decide_eq_true_2.
  - intros x (y & -> & Hy)%list_elem_of_fmap [Hid Hten]%Is_true_true%bool_decide_eq_true.
    assert (y = r) as ->.
    { eapply (NoDup_key_inj ro_ID); [apply Hok|done|done|]. unfold f in Hid. by destruct (bool_decide _). }
    apply Hne. unfold f in Hten. by destruct (bool_decide _).
Qed.
