(* ===== verification/Governance.v ===== *)
(** * Governance: OAuth clients and access requests

    internal/governance: the service that registers the OAuth clients the auth
    service resolves, the access requests with their table (migration 5), the
    HTTP client that grants approved ones in the directory, and the handlers.
    Before them internal/policy: the [Engine] interface the service asks, and the
    rule of the simple engine. *)
From S2P Require Import Prelude Bcrypt GoStd GoUrl Sql Http Middleware OAuthClient AuthClient.
Local Open Scope go_scope.

(** ** internal/policy *)

Record Subject : Type := mkSubject { sb_ID : string; sb_Roles : list string }.

Record Resource : Type := mkResource { rc_Type : string; rc_ID : string }.

(** [Context] is a map of values of any type, here JSON values. *)
Record Input : Type := mkInput {
  in_Subject : Subject;
  in_Action : string;
  in_Resource : Resource;
  in_Context : gmap string json
}.

(** [Evaluate]: the decision and its reason, or an error. *)
Class Engine : Type := Evaluate : Input -> (bool * string) + error.

Definition simpleEngine_Evaluate : Engine :=
  fun input =>
    match in_Context input !! "requester_id" with
    | Some (JStr requesterID) =>
        if decide (sb_ID (in_Subject input) = requesterID /\ in_Action input = "approve")
        then inl (false, "Policy Violation: Separation of Duties - Cannot approve own request")
        else inl (true, "Allowed")
    | _ => inl (true, "Allowed")
    end.

Lemma simpleEngine_approve sub res ctx requester :
  ctx !! "requester_id" = Some (JStr requester) ->
  simpleEngine_Evaluate (mkInput sub "approve" res ctx) =
    inl (if decide (sb_ID sub = requester)
         then (false, "Policy Violation: Separation of Duties - Cannot approve own request")
         else (true, "Allowed")).
Proof.
  intros H. unfold simpleEngine_Evaluate. cbn [in_Context in_Subject in_Action]. rewrite H.
  destruct (decide (sb_ID sub = requester)).
  - by rewrite decide_True.
  - rewrite decide_False by (by intros []). done.
Qed.

(** ** types.go *)

Record AccessRequest : Type := mkAccessRequest {
  aq_ID : string;
  aq_TenantID : string;
  aq_RequesterID : string;
  aq_ResourceType : string;
  aq_ResourceID : string;
  aq_Status : string;
  aq_Reason : string;
  aq_CreatedAt : string;
  aq_UpdatedAt : string
}.

(** The struct [CreateAccessRequest]. *)
Record CreateAccessRequestBody : Type := mkCreateAccessRequestBody {
  ca_ResourceType : string;
  ca_ResourceID : string;
  ca_Reason : string
}.

Record ApprovalDecision : Type := mkApprovalDecision { ad_Comment : string }.

(** [nil] and empty slices are told apart where the code does: [None] is nil. *)
Record CreateOAuthClientInput : Type := mkCreateOAuthClientInput {
  ci_ClientID : string;
  ci_Name : string;
  ci_Description : string;
  ci_ClientType : string;
  ci_RedirectURIs : list string;
  ci_AllowedScopes : list string;
  ci_ClientSecret : string
}.

Record UpdateOAuthClientInput : Type := mkUpdateOAuthClientInput {
  ui_Name : option string;
  ui_Description : option string;
  ui_ClientType : option string;
  ui_RedirectURIs : option (list string);
  ui_AllowedScopes : option (list string);
  ui_ClientSecret : option string
}.

(** ** store.go: the table access_requests

    [rd_identities] are the ids of the directory's identities table, which the
    requester must be one of. *)
Record request_row : Type := mkRequestRow {
  rr_id : string;
  rr_tenant : string;
  rr_requester : string;
  rr_resource_type : string;
  rr_resource : string;
  rr_status : string;
  rr_reason : string;
  rr_created : Z;
  rr_updated : Z
}.

Record RequestDb : Type := mkRequestDb {
  rd_rows : list request_row;
  rd_identities : list string
}.

Class RequestStore (R : Type) : Type := {
  req_CreateRequest : AccessRequest -> M R string;
  req_GetRequest : string -> string -> M R AccessRequest;
  req_ListRequests : string -> string -> M R (list AccessRequest);
  req_UpdateRequestStatus : string -> string -> M R unit
}.

Definition on_requests {A} (m : M (list request_row) A) : M RequestDb A :=
  zoom rd_rows (fun x d => mkRequestDb x (rd_identities d)) m.

(** A scanned row, with its times formatted. *)
Definition row_request (r : request_row) : AccessRequest :=
  mkAccessRequest (rr_id r) (rr_tenant r) (rr_requester r) (rr_resource_type r) (rr_resource r)
    (rr_status r) (rr_reason r) (time_RFC3339 (rr_created r)) (time_RFC3339 (rr_updated r)).

Definition is_request (id tenant : string) (r : request_row) : bool :=
  bool_decide (rr_id r = id /\ rr_tenant r = tenant).

Definition err_requester : error :=
  ErrDB "pq: insert or update on table access_requests violates foreign key constraint".

Definition sqlStore_CreateRequest (req : AccessRequest) : M RequestDb string :=
  map_err (ErrWrap "failed to create access request")
    (t <- uuid_arg (aq_TenantID req);;
     i <- uuid_arg (aq_RequesterID req);;
     varchar_arg 50 (aq_ResourceType req);;
     x <- uuid_arg (aq_ResourceID req);;
     statement (fun env n d =>
       if decide (i ∈ rd_identities d) then
         let row := mkRequestRow (gen_uuid env n) t i (aq_ResourceType req) x "pending" (aq_Reason req)
                      (clock env n) (clock env n) in
         if existsb (fun r => bool_decide (rr_id r = rr_id row)) (rd_rows d)
         then inr (ErrDB "pq: duplicate key value violates unique constraint")
         else inl (rr_id row, mkRequestDb (rd_rows d ++ [row]) (rd_identities d))
       else inr err_requester)).

Definition sqlStore_GetRequest (tenantID id : string) : M RequestDb AccessRequest :=
  row <- map_err (fun err => if errors_Is err sql_ErrNoRows then ErrNew "request not found" else err)
           (i <- uuid_arg id;; t <- uuid_arg tenantID;; on_requests (sql_get (is_request i t)));;
  ret (row_request row).

Definition sqlStore_ListRequests (tenantID status : string) : M RequestDb (list AccessRequest) :=
  t <- uuid_arg tenantID;;
  rows <- on_requests (sql_select (fun r =>
            bool_decide (rr_tenant r = t /\ (status = estr \/ rr_status r = status))));;
  ret (map row_request (order_by_desc rr_created rows)).

(** [WHERE id = $2]: neither the tenant nor the status is looked at. *)
Definition sqlStore_UpdateRequestStatus (id status : string) : M RequestDb unit :=
  varchar_arg 20 status;;
  i <- uuid_arg id;;
  exec (on_requests (sql_update (fun r => bool_decide (rr_id r = i))
    (fun tm r => mkRequestRow (rr_id r) (rr_tenant r) (rr_requester r) (rr_resource_type r) (rr_resource r)
                   status (rr_reason r) (rr_created r) tm))).

#[export] Instance sqlStore : RequestStore RequestDb := {|
  req_CreateRequest := sqlStore_CreateRequest;
  req_GetRequest := sqlStore_GetRequest;
  req_ListRequests := sqlStore_ListRequests;
  req_UpdateRequestStatus := sqlStore_UpdateRequestStatus
|}.

(** ** dirclient.go *)

Class DirectoryClient (X : Type) : Type := client_AddUserToGroup : string -> string -> string -> M X unit.

Definition directoryHTTPClient_AddUserToGroup {X} {peer : HttpPeer X} (baseURL tenantID userID groupID : string)
    : M X unit :=
  let url := baseURL +:+ "/groups/" +:+ groupID +:+ "/users" in
  req <- map_err (ErrWrap "failed to create request")
           (http_NewRequest "POST" url (JObj [("user_id", JStr userID)]));;
  let req := with_header "Content-Type" "application/json" req in
  let req := with_header "X-Tenant-ID" tenantID req in
  resp <- map_err (ErrWrap "request to dirsvc failed") (http_Do req);;
  if decide (rs_status resp >= 300)%Z
  then fail (ErrNew ("dirsvc returned status " +:+ pretty (rs_status resp)))
  else ret tt.

Definition directoryHTTPClient {X} {peer : HttpPeer X} (baseURL : string) : DirectoryClient X :=
  directoryHTTPClient_AddUserToGroup baseURL.

(** ** service.go *)

Definition requireTenant (tenantID : string) : option error :=
  if decide (tenantID = estr) then Some (ErrValidation "tenant_id is required") else None.

Definition normalizedClientType (clientType : string) : string :=
  if decide (clientType = estr) then "public" else strings_ToLower clientType.

Definition validateClientType (clientType : string) : option error :=
  let t := normalizedClientType clientType in
  if decide (t = "public" \/ t = "confidential") then None
  else Some (ErrValidation "client_type must be public or confidential").

(** The loop over the redirect URIs. *)
Definition validateURIs (uris : list string) : option error :=
  match bad_uri uris with
  | Some (uri, _) => Some (ErrValidation ("invalid redirect_uri " +:+ uri))
  | None => None
  end.

(** The first check that fails. *)
Fixpoint first_error (checks : list (option error)) : option error :=
  match checks with
  | [] => None
  | Some e :: _ => Some e
  | None :: rest => first_error rest
  end.

Definition validateCreateInput (input : CreateOAuthClientInput) : option error :=
  first_error
    [(if decide (ci_ClientID input = estr) then Some (ErrValidation "client_id is required") else None);
     (if decide (ci_Name input = estr) then Some (ErrValidation "name is required") else None);
     validateClientType (ci_ClientType input);
     (if decide (ci_RedirectURIs input = [])
      then Some (ErrValidation "redirect_uris must include at least one URI") else None);
     validateURIs (ci_RedirectURIs input);
     (if decide (ci_AllowedScopes input = [])
      then Some (ErrValidation "allowed_scopes must include at least one scope") else None);
     (if decide (normalizedClientType (ci_ClientType input) = "confidential" /\
                 strings_TrimSpace (ci_ClientSecret input) = estr)
      then Some (ErrValidation "client_secret is required for confidential clients") else None)].

Definition validateUpdateInput (input : UpdateOAuthClientInput) : option error :=
  first_error
    [match ui_ClientType input with Some t => validateClientType t | None => None end;
     validateURIs (default [] (ui_RedirectURIs input))].

Definition normalizeClientTypePtr (value : option string) : option string :=
  match value with None => None | Some v => Some (normalizedClientType v) end.

(** [append([]string(nil), values...)]: nil when there is nothing to append. *)
Definition append_nil (values : list string) : option (list string) :=
  match values with [] => None | _ => Some values end.

Definition cloneSlice (values : option (list string)) : option (list string) :=
  match values with None => None | Some l => append_nil l end.

Definition nullableString (value : string) : option string :=
  if decide (strings_TrimSpace value = estr) then None else Some value.

Definition IsValidationError (err : error) : bool :=
  match errors_As_validation err with Some _ => true | None => false end.

Definition require {S} (e : option error) : M S unit :=
  match e with Some err => fail err | None => ret tt end.

Definition require_id {S} (clientID : string) : M S unit :=
  if decide (clientID = estr) then fail (ErrValidation "client_id is required") else ret tt.

(** [governanceService]: the two stores and what lies behind the client of the
    directory. *)
Record GovState (C R X : Type) : Type := mkGov { gv_clients : C; gv_requests : R; gv_dir : X }.
Arguments mkGov {C R X} _ _ _.
Arguments gv_clients {C R X} _.
Arguments gv_requests {C R X} _.
Arguments gv_dir {C R X} _.

Section Service.
Context {C R X : Type} {bcrypt : Bcrypt}.
Context `{!OAuthStore C, !RequestStore R, !DirectoryClient X, !Engine}.

Abbreviation GM := (M (GovState C R X)).

Definition in_clients {A} (m : M C A) : GM A :=
  zoom gv_clients (fun x s => mkGov x (gv_requests s) (gv_dir s)) m.

Definition in_requests {A} (m : M R A) : GM A :=
  zoom gv_requests (fun x s => mkGov (gv_clients s) x (gv_dir s)) m.

Definition in_directory {A} (m : M X A) : GM A :=
  zoom gv_dir (fun x s => mkGov (gv_clients s) (gv_requests s) x) m.

(** A public client, or no secret: no hash. *)
Definition maybeHashSecret {S} (clientType secret : string) : M S string :=
  if decide (normalizedClientType clientType <> "confidential" \/ strings_TrimSpace secret = estr)
  then ret estr
  else GenerateFromPassword secret.

Definition ListOAuthClients (tenantID : string) : GM (list Client) :=
  require (requireTenant tenantID);;
  in_clients (ListClientsByTenant tenantID).

Definition GetOAuthClient (tenantID clientID : string) : GM Client :=
  require (requireTenant tenantID);;
  require_id clientID;;
  in_clients (GetClient tenantID clientID).

Definition CreateOAuthClient (tenantID : string) (input : CreateOAuthClientInput) : GM Client :=
  require (requireTenant tenantID);;
  require (validateCreateInput input);;
  hash <- maybeHashSecret (ci_ClientType input) (ci_ClientSecret input);;
  in_clients (CreateClient (mkCreateClientParams tenantID (ci_ClientID input)
    (normalizedClientType (ci_ClientType input)) (ci_Name input) (nullableString (ci_Description input))
    (append_nil (ci_RedirectURIs input)) (append_nil (ci_AllowedScopes input)) hash)).

Definition UpdateOAuthClient (tenantID clientID : string) (input : UpdateOAuthClientInput) : GM Client :=
  require (requireTenant tenantID);;
  require_id clientID;;
  require (validateUpdateInput input);;
  secretHash <- (match ui_ClientSecret input with
                 | None => ret None
                 | Some secret => hash <- GenerateFromPassword secret;; ret (Some hash)
                 end);;
  in_clients (UpdateClient tenantID clientID (mkUpdateClientParams (ui_Name input) (ui_Description input)
    (cloneSlice (ui_RedirectURIs input)) (cloneSlice (ui_AllowedScopes input))
    (normalizeClientTypePtr (ui_ClientType input)) secretHash)).

Definition DeleteOAuthClient (tenantID clientID : string) : GM unit :=
  require (requireTenant tenantID);;
  require_id clientID;;
  in_clients (DeleteClient tenantID clientID).

(** The requester is a constant the code marks as a placeholder. *)
Definition CreateAccessRequest (tenantID : string) (input : CreateAccessRequestBody) : GM AccessRequest :=
  require (requireTenant tenantID);;
  id <- in_requests (req_CreateRequest (mkAccessRequest estr tenantID "todo-user-id" (ca_ResourceType input)
          (ca_ResourceID input) estr (ca_Reason input) estr estr));;
  in_requests (req_GetRequest tenantID id).

Definition ListAccessRequests (tenantID status : string) : GM (list AccessRequest) :=
  require (requireTenant tenantID);;
  in_requests (req_ListRequests tenantID status).

(** What the policy engine is asked about an approval. *)
Definition approval_input (req : AccessRequest) (requestID approverID : string) : Input :=
  mkInput (mkSubject approverID []) "approve" (mkResource "access_request" requestID)
    {[ "requester_id" := JStr (aq_RequesterID req) ]}.

Definition ApproveAccessRequest (tenantID requestID approverID comment : string) : GM unit :=
  require (requireTenant tenantID);;
  req <- map_err (ErrWrap "failed to get request") (in_requests (req_GetRequest tenantID requestID));;
  match Evaluate (approval_input req requestID approverID) with
  | inr err => fail (ErrWrap "policy evaluation failed" err)
  | inl (allowed, reason) =>
      if negb allowed then fail (ErrNew ("policy violation: " +:+ reason))
      else
        (if decide (aq_ResourceType req = "group")
         then map_err (ErrWrap "provisioning failed")
                (in_directory (client_AddUserToGroup tenantID (aq_RequesterID req) (aq_ResourceID req)))
         else ret tt);;
        in_requests (req_UpdateRequestStatus requestID "approved")
  end.

Definition RejectAccessRequest (tenantID requestID approverID comment : string) : GM unit :=
  require (requireTenant tenantID);;
  in_requests (req_UpdateRequestStatus requestID "rejected").

(** ** api.go *)

Context `{!Binder CreateOAuthClientInput, !Binder UpdateOAuthClientInput, !Binder CreateAccessRequestBody,
          !Binder ApprovalDecision}.

(** [newOAuthClientResponse], as it is written out. *)
Definition newOAuthClientResponse (client : Client) : json :=
  JObj ([("client_id", JStr (oc_ClientID client)); ("tenant_id", JStr (oc_TenantID client));
         ("client_type", JStr (oc_ClientType client)); ("name", JStr (oc_Name client))]
        ++ omitempty "description" (default estr (oc_Description client))
        ++ [("redirect_uris", slice_json JStr (oc_RedirectURIs client));
            ("allowed_scopes", slice_json JStr (oc_AllowedScopes client))]).

Definition AccessRequest_json (r : AccessRequest) : json :=
  JObj [("id", JStr (aq_ID r)); ("tenant_id", JStr (aq_TenantID r)); ("requester_id", JStr (aq_RequesterID r));
        ("resource_type", JStr (aq_ResourceType r)); ("resource_id", JStr (aq_ResourceID r));
        ("status", JStr (aq_Status r)); ("reason", JStr (aq_Reason r));
        ("created_at", JStr (aq_CreatedAt r)); ("updated_at", JStr (aq_UpdatedAt r))].

Definition handleServiceError (err : error) : Response :=
  if IsValidationError err then respond 400 (error_body (error_string err))
  else if errors_Is err ErrNotFound then respond 404 (error_body (error_string err))
  else respond 500 (error_body "internal server error").

Abbreviation GovHandler := (Handler (GovState C R X)).

Definition gov_tenantID (c : GinCtx) (k : string -> GM Response) : GM Response :=
  with_tenant "tenant id required" c k.

Definition served {A} (m : GM A) (k : A -> GM Response) : GM Response :=
  or_respond handleServiceError m k.

Definition listOAuthClients : GovHandler :=
  fun c => gov_tenantID c (fun tenantID =>
    served (ListOAuthClients tenantID) (fun clients =>
    ret (respond 200 (JObj [("clients", JArr (map newOAuthClientResponse clients))])))).

Definition getOAuthClient : GovHandler :=
  fun c => gov_tenantID c (fun tenantID =>
    served (GetOAuthClient tenantID (Param c "clientID")) (fun client =>
    ret (respond 200 (newOAuthClientResponse client)))).

Definition createOAuthClient : GovHandler :=
  fun c => gov_tenantID c (fun tenantID => bound c (fun req : CreateOAuthClientInput =>
    served (CreateOAuthClient tenantID req) (fun client =>
    ret (respond 201 (newOAuthClientResponse client))))).

Definition updateOAuthClient : GovHandler :=
  fun c => gov_tenantID c (fun tenantID =>
    let clientID := Param c "clientID" in
    bound c (fun req : UpdateOAuthClientInput =>
    served (UpdateOAuthClient tenantID clientID req) (fun client =>
    ret (respond 200 (newOAuthClientResponse client))))).

Definition deleteOAuthClient : GovHandler :=
  fun c => gov_tenantID c (fun tenantID =>
    served (DeleteOAuthClient tenantID (Param c "clientID")) (fun _ => ret (respond_status 204))).

Definition createAccessRequest : GovHandler :=
  fun c => gov_tenantID c (fun tenantID => bound c (fun req : CreateAccessRequestBody =>
    served (CreateAccessRequest tenantID req) (fun resp => ret (respond 201 (AccessRequest_json resp))))).

Definition listAccessRequests : GovHandler :=
  fun c => gov_tenantID c (fun tenantID =>
    served (ListAccessRequests tenantID (Query c "status")) (fun requests =>
    ret (respond 200 (JObj [("requests", slice_json AccessRequest_json requests)])))).

(** The optional body of a decision: an error of the binding is dropped. *)
Definition decision_comment (c : GinCtx) : string :=
  match should_bind (gc_request c) with inl body => ad_Comment body | inr _ => estr end.

Definition approveAccessRequest : GovHandler :=
  fun c => gov_tenantID c (fun tenantID =>
    served (ApproveAccessRequest tenantID (Param c "accessRequestID") "todo-admin-id" (decision_comment c))
      (fun _ => ret (respond 200 (JObj [("status", JStr "approved")])))).

Definition rejectAccessRequest : GovHandler :=
  fun c => gov_tenantID c (fun tenantID =>
    served (RejectAccessRequest tenantID (Param c "accessRequestID") "todo-admin-id" (decision_comment c))
      (fun _ => ret (respond 200 (JObj [("status", JStr "rejected")])))).

End Service.
