(* ===== verification/GovernanceFacts.v ===== *)
(** * What governance guarantees

    The clients it registers are the ones the auth service accepts; an approval
    respects the separation of duties and reaches the directory. *)
From S2P Require Import Prelude Bcrypt GoStd GoUrl Sql Http Middleware OAuthClient AuthClient.
From S2P Require Import TokenStores Risk AuthService Governance.
Local Open Scope go_scope.

(** ** Registered clients *)

(** Every row passes the checks the auth service makes on a client. *)
Definition rows_valid (l : oauth_clients) : Prop :=
  clients_ok l /\ Forall (fun r => client_valid (clientConfigFromRecord r)) l.

(** Documented behaviour of Postgres: a value of type UUID is not empty. *)
Definition uuid_nonempty (env : Env) : Prop := forall v u, pg_uuid env v = Some u -> u <> estr.

Lemma first_error_None l : first_error l = None <-> Forall (fun e => e = None) l.
Proof.
  induction l as [|[e|] l IH]; [done| |]; rewrite Forall_cons; cbn; [|rewrite IH; tauto].
  split; [done|]. by intros [].
Qed.

Lemma validateClientType_None t :
  validateClientType t = None <-> normalizedClientType t = "public" \/ normalizedClientType t = "confidential".
Proof. unfold validateClientType. case_decide; naive_solver. Qed.

Lemma validateURIs_None uris :
  validateURIs uris = None <-> Forall (fun uri => exists u, url_ParseRequestURI uri = inl u) uris.
Proof. rewrite <-bad_uri_None. unfold validateURIs. by destruct (bad_uri uris) as [[]|]. Qed.

Record input_valid (input : CreateOAuthClientInput) : Prop := {
  iv_ClientID : ci_ClientID input <> estr;
  iv_Name : ci_Name input <> estr;
  iv_ClientType : normalizedClientType (ci_ClientType input) = "public" \/
                  normalizedClientType (ci_ClientType input) = "confidential";
  iv_RedirectURIs : ci_RedirectURIs input <> [];
  iv_uris : Forall (fun uri => exists u, url_ParseRequestURI uri = inl u) (ci_RedirectURIs input);
  iv_AllowedScopes : ci_AllowedScopes input <> [];
  iv_secret : normalizedClientType (ci_ClientType input) = "confidential" ->
              strings_TrimSpace (ci_ClientSecret input) <> estr
}.

Lemma validateCreateInput_None input : validateCreateInput input = None <-> input_valid input.
Proof.
  unfold validateCreateInput. rewrite first_error_None, !Forall_cons, Forall_nil.
  rewrite validateClientType_None, validateURIs_None. split.
  - intros (H1 & H2 & H3 & H4 & H5 & H6 & H7 & _). repeat case_decide; try done. split; try done. tauto.
  - intros []. rewrite !decide_False by tauto. done.
Qed.

Lemma append_nil_Some l : l <> [] -> append_nil l = Some l.
Proof. by destruct l. Qed.

Lemma cloneSlice_Some v l : cloneSlice v = Some l -> v = Some l /\ l <> [].
Proof. destruct v as [[|x v]|]; cbn; intros; simplify_eq; done. Qed.

(** The record of a valid input makes a valid client. *)
Lemma record_valid id t input hash tm :
  input_valid input -> t <> estr ->
  client_valid (clientConfigFromRecord (mkClient id t (ci_ClientID input)
    (normalizedClientType (ci_ClientType input)) (ci_Name input) (nullableString (ci_Description input))
    (ci_RedirectURIs input) (ci_AllowedScopes input) hash tm tm)).
Proof.
  intros [] Ht. split; cbn; try done. case_decide as H; [by left|]. done.
Qed.

(** An update keeps a client valid: what it sets was checked, and a slice that
    is empty is not set. *)
Lemma update_valid input hash tm r :
  validateUpdateInput input = None -> client_valid (clientConfigFromRecord r) ->
  client_valid (clientConfigFromRecord (update_client (mkUpdateClientParams (ui_Name input)
    (ui_Description input) (cloneSlice (ui_RedirectURIs input)) (cloneSlice (ui_AllowedScopes input))
    (normalizeClientTypePtr (ui_ClientType input)) hash) tm r)).
Proof.
  unfold validateUpdateInput. rewrite first_error_None, !Forall_cons, validateURIs_None.
  intros (Ht & Hu & _) []. split; cbn in *; try done.
  - destruct (cloneSlice (ui_RedirectURIs input)) as [l|] eqn:E; cbn; [|done].
    by apply cloneSlice_Some in E as [_ ?].
  - destruct (cloneSlice (ui_RedirectURIs input)) as [l|] eqn:E; cbn; [|done].
    apply cloneSlice_Some in E as [E _]. by rewrite E in Hu.
  - destruct (cloneSlice (ui_AllowedScopes input)) as [l|] eqn:E; cbn; [|done].
    by apply cloneSlice_Some in E as [_ ?].
  - destruct (ui_ClientType input) as [t|]; cbn; [|done]. apply validateClientType_None in Ht.
    destruct (decide (normalizedClientType t = estr)); [by left|done].
Qed.

Lemma require_Ok_inv {S} e env (s : St S) x u : require e env s = (Ok x, u) -> e = None /\ s = u.
Proof. unfold require. intros H. minv; done. Qed.

Lemma readonly_require {S} e : readonly (S := S) (require e).
Proof. unfold require. effects. Qed.

Lemma readonly_require_id {S} e : readonly (S := S) (require_id e).
Proof. unfold require_id. effects. Qed.

Lemma readonly_maybeHashSecret {bcrypt : Bcrypt} {S} t secret : readonly (S := S) (maybeHashSecret t secret).
Proof. unfold maybeHashSecret. effects. Qed.
#[export] Hint Resolve readonly_require readonly_require_id readonly_maybeHashSecret : effects.

(** The statements of the repository on a table of valid clients. *)
Lemma Repository_CreateClient_valid params uris scopes :
  cp_RedirectURIs params = Some uris -> cp_AllowedScopes params = Some scopes ->
  (forall id t tm, t <> estr ->
     client_valid (clientConfigFromRecord (mkClient id t (cp_ClientID params) (cp_ClientType params)
       (cp_Name params) (cp_Description params) uris scopes (cp_ClientSecretHash params) tm tm))) ->
  keeps uuid_nonempty rows_valid (Repository_CreateClient params).
Proof.
  intros Hu Hs Hv. apply keeps_and; [apply preserves_keeps; effects|].
  unfold Repository_CreateClient, array_arg. rewrite Hu, Hs. keeping.
  apply uuid_arg_Ok_inv in E as [E <-]. apply preserves_keeps. minv. apply preserves_sql_insert.
  intros tm id l Hl _. apply Forall_app. split; [done|]. apply Forall_singleton, Hv. by eapply HE.
Qed.

Lemma Repository_UpdateClient_valid tenantID clientID params :
  (forall tm r, client_valid (clientConfigFromRecord r) ->
     client_valid (clientConfigFromRecord (update_client params tm r))) ->
  preserves rows_valid (Repository_UpdateClient tenantID clientID params).
Proof.
  intros Hv. apply preserves_and; [effects|]. unfold Repository_UpdateClient. effects.
  apply preserves_sql_update. intros tm l Hl. apply Forall_fmap. eapply Forall_impl; [exact Hl|].
  intros r Hr. cbn. case_match; auto.
Qed.

Lemma Repository_DeleteClient_valid tenantID clientID :
  preserves rows_valid (Repository_DeleteClient tenantID clientID).
Proof.
  apply preserves_and; [effects|]. unfold Repository_DeleteClient. effects.
  apply preserves_sql_delete. intros l. apply Forall_filter_weaken.
Qed.

Section Clients.
Context {R X : Type} {bcrypt : Bcrypt}.

Abbreviation State := (GovState oauth_clients R X).
Implicit Types (s u : St State).

Definition gov_valid (g : State) : Prop := rows_valid (gv_clients g).

(** The operations that write the table of clients. *)
Inductive client_call : forall {A}, M State A -> Prop :=
| call_CreateOAuthClient t input : client_call (CreateOAuthClient t input)
| call_UpdateOAuthClient t c input : client_call (UpdateOAuthClient t c input)
| call_DeleteOAuthClient t c : client_call (DeleteOAuthClient t c).

Lemma in_clients_keeps {A} (m : M oauth_clients A) :
  keeps uuid_nonempty rows_valid m -> keeps uuid_nonempty gov_valid (in_clients (R := R) (X := X) m).
Proof. apply keeps_zoom; done. Qed.

(** Each of them keeps the clients valid, whether it succeeds or not. *)
Lemma client_call_keeps {A} (m : M State A) : client_call m -> keeps uuid_nonempty gov_valid m.
Proof.
  intros []; unfold CreateOAuthClient, UpdateOAuthClient, DeleteOAuthClient; keeping; apply in_clients_keeps;
    repeat match goal with H : require _ _ _ = _ |- _ => apply require_Ok_inv in H as [? _] end.
  - match goal with H : validateCreateInput _ = None |- _ => apply validateCreateInput_None in H as Hv end.
    apply (Repository_CreateClient_valid _ (ci_RedirectURIs input) (ci_AllowedScopes input)); cbn.
    + apply append_nil_Some, Hv.
    + apply append_nil_Some, Hv.
    + intros. by apply record_valid.
  - apply preserves_keeps, Repository_UpdateClient_valid. intros. by apply update_valid.
  - apply preserves_keeps, Repository_DeleteClient_valid.
Qed.

(** Any number of calls, successful or not, one after the other. *)
Inductive client_calls (env : Env) : St State -> St State -> Prop :=
| calls_none s : client_calls env s s
| calls_more A (m : M State A) s r t u :
    client_call m -> m env s = (r, t) -> client_calls env t u -> client_calls env s u.

(** Property C25. Whatever is registered, changed or deleted through the
    governance service, starting without clients, the client that a lookup finds
    passes the checks the auth service makes before it uses one. *)
Theorem governed_clients_valid env s u tenantID clientID c v :
  uuid_nonempty env -> gv_clients (st s) = [] -> client_calls env s u ->
  GetOAuthClient tenantID clientID env u = (Ok c, v) -> validate (clientConfigFromRecord c) = None.
Proof.
  intros Hne Hs Hcalls Hg.
  assert (gov_valid (st s)) as Hv by (unfold gov_valid, rows_valid, clients_ok; rewrite Hs; split; constructor).
  clear Hs. induction Hcalls as [u|A m s r t u Hm Hr Hcalls IH].
  - unfold GetOAuthClient in Hg. minv. apply require_Ok_inv in E as [_ <-].
    rewrite <-(readonly_run _ _ _ _ _ (readonly_require_id _) E0) in Hv.
    apply zoom_Ok_inv in Hg as (t & Hg & _). apply Repository_GetClient_Ok in Hg as (Hin & _).
    destruct Hv as [_ Hall]. rewrite Forall_forall in Hall. by apply validate_None, Hall.
  - apply IH; [done|]. by eapply keeps_run; [apply client_call_keeps| | |].
Qed.
End Clients.

(** ** From registration to use *)

Lemma Repository_GetClient_run tenantID r env n l :
  db_up env -> clients_ok l -> r ∈ l -> pg_uuid env tenantID = Some (oc_TenantID r) ->
  Repository_GetClient tenantID (oc_ClientID r) env (mkSt n l) = (Ok r, mkSt (S n) l).
Proof.
  intros Hup Hok Hr Ht. unfold Repository_GetClient, map_err. rewrite uuid_bind, Ht.
  unfold sql_get. rewrite statement_up by done. cbn [tick st].
  rewrite (filter_key_unique (fun r => (oc_TenantID r, oc_ClientID r)) _ _ r); [by rewrite reorder_one|done|done|].
  intros x Hx. rewrite same_client_true. split; [by intros [-> ->]|by intros [= -> ->]].
Qed.

(** What a successful registration stored. *)
Lemma CreateOAuthClient_Ok_inv {R X} {bcrypt : Bcrypt} {laws : BcryptLaws} tenantID input env
    (s : St (GovState oauth_clients R X)) c u :
  CreateOAuthClient tenantID input env s = (Ok c, u) ->
  input_valid input /\
  (exists id t tm h, pg_uuid env tenantID = Some t /\
     c = mkClient id t (ci_ClientID input) (normalizedClientType (ci_ClientType input)) (ci_Name input)
           (nullableString (ci_Description input)) (ci_RedirectURIs input) (ci_AllowedScopes input) h tm tm /\
     (normalizedClientType (ci_ClientType input) = "confidential" ->
      CompareHashAndPassword h (ci_ClientSecret input) = true)) /\
  gv_clients (st u) = gv_clients (st s) ++ [c].
Proof.
  unfold CreateOAuthClient. intros H. minv. apply require_Ok_inv in E as [_ <-].
  apply require_Ok_inv in E0 as [Hv%validateCreateInput_None <-]. split; [done|].
  apply zoom_Ok_inv in H as (t & H & ->). cbn in H. unfold Repository_CreateClient, array_arg in H.
  rewrite !append_nil_Some in H by apply Hv. minv.
  apply sql_insert_Ok_inv in H as (r & H & _ & ->). injection H as <- <-.
  rewrite (readonly_run _ _ _ _ _ (readonly_maybeHashSecret _ _) E1). split; [|done].
  do 4 eexists. split; [done|]. split; [reflexivity|]. intros Hc. unfold maybeHashSecret in E1.
  rewrite decide_False in E1; [|intros [?|?]; [done|by apply (iv_secret _ Hv)]].
  apply GenerateFromPassword_Ok_inv in E1 as [E1 _]. by eapply bcrypt_roundtrip.
Qed.

Section Registration.
Context {crypto : Crypto} {laws : BcryptLaws}.
Context {R X C F V D G : Type}.
Context (cfg : AuthConfig).

(** A client registered through the governance service is resolved
    by the auth service that reads the same table, at once, with the redirect
    URIs, scopes and type that were registered; the secret of a confidential
    client is the one its stored hash accepts. *)
Theorem registered_client_resolves tenantID input env (s u : St (GovState oauth_clients R X)) c
    (a : AuthState C F V oauth_clients D G) n :
  db_up env -> uuid_nonempty env -> a_clientStore cfg = true -> gov_valid (st s) ->
  CreateOAuthClient tenantID input env s = (Ok c, u) -> au_clients a = gv_clients (st u) ->
  exists client, resolveClient cfg tenantID (ci_ClientID input) env (mkSt n a) = (Ok client, mkSt (S n) a) /\
    cc_ID client = ci_ClientID input /\ cc_RedirectURIs client = ci_RedirectURIs input /\
    cc_AllowedScopes client = ci_AllowedScopes input /\
    cc_ClientType client = normalizedClientType (ci_ClientType input) /\
    (cc_ClientType client = "confidential" ->
     CompareHashAndPassword (oc_ClientSecretHash c) (ci_ClientSecret input) = true).
Proof.
  intros Hup Hne Hcfg Hs H Ha.
  pose proof (keeps_run _ _ _ _ _ _ _ (client_call_keeps _ (call_CreateOAuthClient _ _)) Hne H Hs) as [Hok Hall].
  apply CreateOAuthClient_Ok_inv in H as (Hv & (id & t & tm & h & Ht & Hc & Hsec) & Hu).
  assert (c ∈ gv_clients (st u)) as Hin by (rewrite Hu; apply elem_of_app; right; apply list_elem_of_here).
  exists (clientConfigFromRecord c). rewrite Forall_forall in Hall. specialize (Hall c Hin).
  assert (cc_ClientType (clientConfigFromRecord c) = normalizedClientType (ci_ClientType input)) as Hty.
  { subst c. cbn. rewrite decide_False; [done|]. by destruct (iv_ClientType _ Hv) as [->| ->]. }
  split_and!; [|by subst c..|done|rewrite Hty; by subst c].
  unfold resolveClient. rewrite Hcfg. unfold on_clients, map_err, bind, zoom. cbn [tick st].
  replace (ci_ClientID input) with (oc_ClientID c) by (by subst c).
  cbn [GetClient Repository_Store]. rewrite Ha, (Repository_GetClient_run _ c) by (try done; by subst c).
  rewrite (proj2 (validate_None _) Hall). cbn. by destruct a; cbn in *; subst.
Qed.
End Registration.

(** ** Access requests *)

Definition set_status (status : string) (tm : Z) (r : request_row) : request_row :=
  mkRequestRow (rr_id r) (rr_tenant r) (rr_requester r) (rr_resource_type r) (rr_resource r)
    status (rr_reason r) (rr_created r) tm.

Lemma GetRequest_Ok_inv tenantID id env s req u :
  sqlStore_GetRequest tenantID id env s = (Ok req, u) ->
  exists row, row ∈ rd_rows (st s) /\ pg_uuid env id = Some (rr_id row) /\
    pg_uuid env tenantID = Some (rr_tenant row) /\ req = row_request row /\ st u = st s.
Proof.
  unfold sqlStore_GetRequest. intros H. minv. apply zoom_Ok_inv in E as (t & E & ->).
  apply sql_get_spec in E as (Hin & [<- <-]%bool_decide_eq_true & Ht). exists a. split_and!; try done.
  cbn in *. rewrite Ht. by destruct (st s).
Qed.

Lemma UpdateRequestStatus_Ok_inv id status env s x u :
  sqlStore_UpdateRequestStatus id status env s = (Ok x, u) ->
  exists i, pg_uuid env id = Some i /\
    st u = mkRequestDb (map (fun r => if bool_decide (rr_id r = i) then set_status status (clock env (tick s)) r else r)
                          (rd_rows (st s))) (rd_identities (st s)).
Proof.
  unfold sqlStore_UpdateRequestStatus, exec. intros H. minv. apply zoom_Ok_inv in E1 as (t & E1 & ->).
  minv. eauto.
Qed.

Section Requests.
Context {C X : Type} `{!DirectoryClient X}.
#[local] Existing Instance simpleEngine_Evaluate.

Abbreviation State := (GovState C RequestDb X).

(** What an approval does: the request is one of the tenant's, the approver is
    not the requester, a group request has been granted in the directory, and
    the request, and no other, is approved. *)
Lemma approve_inv tenantID requestID approverID comment env (s u : St State) x :
  ApproveAccessRequest tenantID requestID approverID comment env s = (Ok x, u) ->
  exists row tm n,
    row ∈ rd_rows (gv_requests (st s)) /\ pg_uuid env requestID = Some (rr_id row) /\
    pg_uuid env tenantID = Some (rr_tenant row) /\ approverID <> rr_requester row /\
    gv_clients (st u) = gv_clients (st s) /\
    rd_rows (gv_requests (st u)) =
      map (fun r => if bool_decide (rr_id r = rr_id row) then set_status "approved" tm r else r)
        (rd_rows (gv_requests (st s))) /\
    (if decide (rr_resource_type row = "group")
     then exists y v, client_AddUserToGroup tenantID (rr_requester row) (rr_resource row) env
                        (mkSt n (gv_dir (st s))) = (Ok y, v) /\ gv_dir (st u) = st v
     else gv_dir (st u) = gv_dir (st s)).
Proof.
  unfold ApproveAccessRequest. intros H.
  apply bind_Ok_inv in H as (? & t0 & E0 & H). apply require_Ok_inv in E0 as [_ <-].
  apply bind_Ok_inv in H as (req & t1 & E1 & H). apply map_err_Ok_inv, zoom_Ok_inv in E1 as (w & E1 & ->).
  apply GetRequest_Ok_inv in E1 as (row & Hin & Hid & Ht & -> & Hw). cbn in Hin, Hw.
  unfold Evaluate, approval_input in H. cbn [aq_RequesterID row_request] in H.
  rewrite (simpleEngine_approve _ _ _ (rr_requester row)) in H by apply lookup_singleton_eq.
  cbn [sb_ID] in H. destruct (decide (approverID = rr_requester row)); [by minv|]. cbn [negb] in H.
  apply bind_Ok_inv in H as (y & t2 & E2 & H). apply zoom_Ok_inv in H as (v & H & ->).
  apply UpdateRequestStatus_Ok_inv in H as (i & Hi & Hv). simplify_eq.
  cbn [aq_ResourceType aq_ResourceID row_request] in E2. exists row, (clock env (tick t2)), (tick w).
  case_decide; minv.
  - apply zoom_Ok_inv in E2 as (z & E2 & ->). cbn in *. rewrite Hv, Hw. cbn. split_and!; try done. eauto.
  - cbn in *. rewrite Hv, Hw. cbn. split_and!; done.
Qed.

(** Who sends an approval makes no difference: the approver is a constant, and
    neither the headers nor the comment are looked at. *)
Theorem approval_ignores_sender `{!Binder ApprovalDecision} c c' :
  gc_tenant c = gc_tenant c' -> Param c "accessRequestID" = Param c' "accessRequestID" ->
  (approveAccessRequest c : M State Response) = approveAccessRequest c'.
Proof.
  intros Ht Hp. unfold approveAccessRequest, gov_tenantID, with_tenant, TenantIDFromContext.
  rewrite Ht, Hp. reflexivity.
Qed.

(** The requester the service fills in is not a UUID: no access request is ever
    created, and nothing changes. *)
Theorem access_requests_rejected tenantID input env (s : St State) :
  pg_uuid env "todo-user-id" = None ->
  exists e, CreateAccessRequest tenantID input env s = (Err e, s).
Proof.
  intros Hp. unfold CreateAccessRequest, require, requireTenant. destruct (decide (tenantID = estr)); [by eexists|].
  unfold bind, ret, in_requests, zoom. cbn [req_CreateRequest sqlStore].
  unfold sqlStore_CreateRequest, map_err. cbn [aq_TenantID aq_RequesterID]. rewrite uuid_bind.
  destruct s as [k [c q x]]. cbn. destruct (pg_uuid env tenantID); [rewrite uuid_bind, Hp|]; by eexists.
Qed.

(** A rejection names any request: of another tenant, or one already approved. *)
Theorem reject_any_request tenantID requestID approverID comment env n (g : State) row :
  db_up env -> tenantID <> estr -> row ∈ rd_rows (gv_requests g) -> pg_uuid env requestID = Some (rr_id row) ->
  exists u, RejectAccessRequest tenantID requestID approverID comment env (mkSt n g) = (Ok tt, u) /\
    set_status "rejected" (clock env n) row ∈ rd_rows (gv_requests (st u)).
Proof.
  intros Hup Hne Hin Hi. unfold RejectAccessRequest, require, requireTenant. rewrite decide_False by done.
  unfold bind, ret, in_requests, zoom. cbn [req_UpdateRequestStatus sqlStore tick st].
  unfold sqlStore_UpdateRequestStatus. mgo (varchar_arg_run (S := RequestDb) 20 "rejected" env (mkSt n (gv_requests g)) ltac:(vm_compute; lia)).
  rewrite uuid_bind, Hi. unfold exec, bind, on_requests, zoom, sql_update. rewrite statement_up by done.
  cbn [tick st]. eexists. split; [reflexivity|]. cbn. apply list_elem_of_fmap. exists row.
  by rewrite bool_decide_eq_true_2.
Qed.
End Requests.
