(* ===== verification/GovernanceDirectory.v ===== *)
(** * Approvals that reach the directory

    The governance service (Governance.v) with the directory service
    (DirectoryApi.v) as the peer its HTTP client talks to. *)
From S2P Require Import Prelude Bcrypt GoStd GoUrl Sql Http Middleware Gin OAuthClient AuthClient.
From S2P Require Import Directory DirectoryApi DirectoryFacts TokenStores Risk AuthService Governance GovernanceFacts.
Local Open Scope go_scope.

Section Deployment.
Context {bcrypt : Bcrypt}.
Context {C : Type} `{!OAuthStore C}.
Context `{!Binder CreateUserRequest, !Validator CreateUserRequest, !Validator GetUserByEmailRequest,
          !Validator GetUserByIDRequest, !Binder User, !Validator UpdateUserRequest,
          !Validator DeleteUserRequest, !Binder CreateGroupRequest, !Validator CreateGroupRequest,
          !Validator GetGroupByIDRequest, !Binder Group, !Validator UpdateGroupRequest,
          !Validator DeleteGroupRequest, !Binder AddUserToGroupRequest,
          !Validator AddUserToGroupRequest, !Validator RemoveUserFromGroupRequest,
          !Binder VerifyCredentialsRequest, !Validator VerifyCredentialsRequest}.
Context {gin : GinRedirect} (serviceAuth : ServiceAuthConfig) (base : string).

#[local] Instance peer : HttpPeer DirDb := directory_Do serviceAuth base.
#[local] Instance dirClient : DirectoryClient DirDb := directoryHTTPClient base.
#[local] Existing Instance simpleEngine_Evaluate.

Abbreviation State := (GovState C RequestDb DirDb).

(** The document the governance service sends, as the directory decodes it. *)
Definition decodes_user_id : Prop :=
  forall r uid, rq_body r = JObj [("user_id", JStr uid)] ->
    exists g, should_bind r = inl (mkAddUserToGroupRequest uid g).

(** The group's id is one segment of the path, and stands for itself in a URL. *)
Definition one_segment (s : string) : Prop := plain s.

(** A call the client takes for a success was the directory's operation. *)
Lemma client_add_inv tenantID uid g env s x u :
  decodes_user_id -> one_segment g ->
  client_AddUserToGroup tenantID uid g env s = (Ok x, u) ->
  AddUserToGroup tenantID uid g env s = (Ok tt, u).
Proof.
  intros Hdec Hg H. unfold client_AddUserToGroup, dirClient, directoryHTTPClient in H.
  unfold directoryHTTPClient_AddUserToGroup, http_NewRequest in H. destruct (url_Parse _); [|by minv].
  rewrite (bind_Ok _ _ _ _ _ _ eq_refl) in H. cbv zeta in H.
  apply bind_Ok_inv in H as (resp & t & E & H). apply map_err_Ok_inv in E.
  destruct (decide (rs_status resp >= 300)%Z) as [|Hst]; [by minv|]. apply ret_Ok_inv in H as [_ <-].
  unfold peer in E.
  rewrite (routed serviceAuth base _ ("/groups/" +:+ g +:+ "/users") ("groups/" +:+ g +:+ "/users")
    ["groups"; g; "users"] [("id", g)] (TenantExtractor noTenantConfig addUserToGroup)) in E; cycle 1.
  { done. } { done. }
  { by apply (path_segments_Join ["groups"; g; "users"]); [|repeat constructor]. }
  { done. }
  apply serve_Ok_inv in E; [|lia].
  destruct (decide (tenantID <> estr /\ uuidRegex tenantID = true)) as [[Hne Hre]|Hno]; cycle 1.
  { apply (TenantExtractor_refuses _ _ tenantID) in E; [lia|by apply sent_header_set|done]. }
  rewrite (TenantExtractor_run _ _ tenantID) in E by (done || by apply sent_header_set).
  unfold addUserToGroup, handler_tenantID, with_tenant in E.
  erewrite or_respond_run in E by (by apply tenant_context).
  unfold bound in E. edestruct Hdec as [g' Hb]; [|erewrite Hb in E]; [reflexivity|].
  unfold validated in E. destruct (validate_struct _); [minv; cbn in Hst; lia|].
  apply or_respond_Ok_inv in E as [([] & v & Ha & E)|(e & _ & ->)]; [|cbn in Hst; lia].
  apply ret_Ok_inv in E as [<- <-]. exact Ha.
Qed.

Lemma AddUserToGroup_Ok_inv tenantID uid g env s x u :
  AddUserToGroup tenantID uid g env s = (Ok x, u) ->
  exists i k t, pg_uuid env uid = Some i /\ pg_uuid env g = Some k /\ pg_uuid env tenantID = Some t /\
    d_identities (st u) = d_identities (st s) /\ d_groups (st u) = d_groups (st s) /\
    d_members (st u) =
      (if existsb (is_identity i t) (d_identities (st s)) && existsb (is_group k t) (d_groups (st s))
       then d_members (st s) ++ [mkMembership i k t] else d_members (st s)).
Proof.
  unfold AddUserToGroup. intros H. minv. apply statement_Ok_inv in H as (_ & d & H & ->).
  exists a, a0, a1. destruct (existsb _ _ && _); [destruct (existsb _ (d_members _))|]; simplify_eq; done.
Qed.

(** Property C28. An approval that succeeds is of a request of the tenant whose
    requester is not the approver the service was told of, and marks that request
    approved; and where the request is for a group, and the requester and the
    group are users and groups of that tenant in the directory, the requester is
    a member of the group afterwards. *)
Theorem approval_grants tenantID requestID approverID comment env (s u : St State) x :
  decodes_user_id -> (forall row, row ∈ rd_rows (gv_requests (st s)) -> one_segment (rr_resource row)) ->
  (forall row, row ∈ rd_rows (gv_requests (st s)) ->
     pg_uuid env (rr_requester row) = Some (rr_requester row) /\ pg_uuid env (rr_resource row) = Some (rr_resource row)) ->
  ApproveAccessRequest tenantID requestID approverID comment env s = (Ok x, u) ->
  exists row tm, row ∈ rd_rows (gv_requests (st s)) /\ pg_uuid env requestID = Some (rr_id row) /\
    pg_uuid env tenantID = Some (rr_tenant row) /\ approverID <> rr_requester row /\
    set_status "approved" tm row ∈ rd_rows (gv_requests (st u)) /\
    (rr_resource_type row = "group" ->
     existsb (is_identity (rr_requester row) (rr_tenant row)) (d_identities (gv_dir (st s))) = true ->
     existsb (is_group (rr_resource row) (rr_tenant row)) (d_groups (gv_dir (st s))) = true ->
     mkMembership (rr_requester row) (rr_resource row) (rr_tenant row) ∈ d_members (gv_dir (st u))).
Proof.
  intros Hdec Hseg Hcanon H.
  apply approve_inv in H as (row & tm & n & Hin & Hid & Ht & Hne & _ & Hrows & Hdir).
  exists row, tm. split_and!; try done.
  - rewrite Hrows. apply list_elem_of_fmap. exists row. by rewrite bool_decide_eq_true_2.
  - intros Hg Hi Hgr. rewrite decide_True in Hdir by done. destruct Hdir as (y & v & Hc & ->).
    apply client_add_inv in Hc; [|done|by apply Hseg].
    apply AddUserToGroup_Ok_inv in Hc as (i & k & t & H1 & H2 & H3 & _ & _ & ->).
    destruct (Hcanon row Hin) as [Hq Hr]. rewrite Hq in H1. rewrite Hr in H2. rewrite Ht in H3. simplify_eq.
    cbn [st] in *. rewrite Hi, Hgr. apply elem_of_app. right. apply list_elem_of_here.
Qed.
End Deployment.
