(* ===== verification/GovernanceDemo.v ===== *)
(** * Governance at work

    The theorems of GovernanceFacts.v and GovernanceDirectory.v on a
    registration and on a request for a group. *)
From S2P Require Import Prelude Bcrypt GoStd GoUrl Sql Http Middleware Gin OAuthClient AuthClient.
From S2P Require Import TokenStores Risk AuthService AuthDemo Directory DirectoryApi DirectoryFacts DirectoryDemo.
From S2P Require Import Governance GovernanceFacts GovernanceDirectory.
Local Open Scope go_scope.

#[local] Existing Instance demo_gin.

Lemma demo_uuid_nonempty : uuid_nonempty demo_env.
Proof. intros [|a v] u; cbn; [done|]. by case_match; intros [= <-]. Qed.

(** A client without its own store: the directory and the requests play no part. *)
Abbreviation Clients := (GovState oauth_clients unit unit).
#[local] Existing Instance simpleEngine_Evaluate.

Definition no_clients : Clients := mkGov [] tt tt.

Definition registration : CreateOAuthClientInput :=
  mkCreateOAuthClientInput "backend" "Backend" estr "Confidential" ["https://app.example.com/cb"]
    ["openid"; "profile"] "s3cret".

(** The type is changed, the redirect URIs are given as an empty list. *)
Definition change : UpdateOAuthClientInput :=
  mkUpdateOAuthClientInput None (Some "A description") (Some "PUBLIC") (Some []) None None.

Definition registered : St Clients := snd (CreateOAuthClient tenantA registration demo_env (mkSt 0 no_clients)).
Definition changed : St Clients := snd (UpdateOAuthClient tenantA "backend" change demo_env registered).

Lemma governed_clients_valid_witness :
  exists c v, GetOAuthClient tenantA "backend" demo_env changed = (Ok c, v) /\
    validate (clientConfigFromRecord c) = None.
Proof.
  assert (is_ok (fst (GetOAuthClient tenantA "backend" demo_env changed)) = true) as Hok by (vm_compute; reflexivity).
  destruct (ok_run _ Hok) as (c & v & E). exists c, v. split; [exact E|].
  apply (governed_clients_valid demo_env (mkSt 0 no_clients) changed tenantA "backend" c v);
    [exact demo_uuid_nonempty|reflexivity| |exact E].
  eapply (calls_more _ _ _ _ (fst (CreateOAuthClient tenantA registration demo_env (mkSt 0 no_clients))) registered);
    [apply call_CreateOAuthClient|apply surjective_pairing|].
  eapply (calls_more _ _ _ _ (fst (UpdateOAuthClient tenantA "backend" change demo_env registered)) changed);
    [apply call_UpdateOAuthClient|apply surjective_pairing|].
  apply calls_none.
Defined.

Definition store_cfg : AuthConfig := mkAuthConfig true None false "kid".

Lemma registered_client_resolves_witness :
  exists client n a, resolveClient (C := unit) (R := unit) (V := unit) (D := unit) (G := unit)
      store_cfg tenantA "backend" demo_env (mkSt n a) = (Ok client, mkSt (S n) a) /\
    cc_ClientType client = "confidential".
Proof.
  assert (is_ok (fst (CreateOAuthClient (R := unit) (X := unit) tenantA registration demo_env (mkSt 0 no_clients))) = true) as Hok
    by (vm_compute; reflexivity).
  destruct (ok_run _ Hok) as (c & u & E).
  destruct (registered_client_resolves store_cfg tenantA registration demo_env (mkSt 0 no_clients) u c
              (mkAuth tt tt tt (gv_clients (st u)) (tt, tt)) 7 demo_env_up demo_uuid_nonempty eq_refl
              ltac:(split; constructor) E eq_refl) as (client & Hr & _ & _ & _ & Hty & _).
  exists client, 7, (mkAuth tt tt tt (gv_clients (st u)) (tt, tt)). split; [exact Hr|]. rewrite Hty. reflexivity.
Defined.

(** ** A request for a group *)

#[local] Instance bind_create : Binder CreateUserRequest := fun _ => inr err_json.
#[local] Instance bind_verify : Binder VerifyCredentialsRequest := fun _ => inr err_json.
#[local] Instance lenient {A} : Validator A := fun _ => None.
#[local] Instance bind_user : Binder User := fun _ => inr err_json.
#[local] Instance bind_group : Binder Group := fun _ => inr err_json.
#[local] Instance bind_create_group : Binder CreateGroupRequest := fun _ => inr err_json.
#[local] Instance bind_add : Binder AddUserToGroupRequest := fun r =>
  match json_path ["user_id"] (rq_body r) with
  | inl u => inl (mkAddUserToGroupRequest u estr)
  | inr e => inr e
  end.

(** A user who is not in the group yet asks for it. *)
Definition pending_row : request_row :=
  mkRequestRow (demo_uuid 601) tenantA (demo_uuid 103) "group" (demo_uuid 301) "pending" "please" 0 0.

Definition with_third_user : DirDb :=
  mkDir (d_identities two_tenants ++ [mkIdentity (demo_uuid 103) tenantA "active" 0 0]) (d_accounts two_tenants)
    (d_groups two_tenants) (d_members two_tenants) (d_referenced two_tenants).

Definition asked : St (GovState oauth_clients RequestDb DirDb) :=
  mkSt 0 (mkGov [] (mkRequestDb [pending_row] [demo_uuid 103]) with_third_user).

Lemma approval_grants_witness :
  exists u, ApproveAccessRequest (DirectoryClient0 := dirClient demo_service_auth "http://dirsvc:8081")
      tenantA (demo_uuid 601) "todo-admin-id" estr demo_env asked = (Ok tt, u) /\
    mkMembership (demo_uuid 103) (demo_uuid 301) tenantA ∈ d_members (gv_dir (st u)).
Proof.
  assert (is_ok (fst (ApproveAccessRequest (DirectoryClient0 := dirClient demo_service_auth "http://dirsvc:8081")
            tenantA (demo_uuid 601) "todo-admin-id" estr demo_env asked)) = true) as Hok by (vm_compute; reflexivity).
  destruct (ok_run _ Hok) as ([] & u & E). exists u. split; [exact E|].
  destruct (approval_grants demo_service_auth "http://dirsvc:8081" tenantA (demo_uuid 601) "todo-admin-id" estr demo_env
              asked u tt) as (row & tm & Hin & _ & _ & _ & _ & Hm); [| | |exact E|].
  - intros r uid Hb. exists estr. unfold should_bind, bind_add. by rewrite Hb.
  - apply Forall_forall. repeat constructor; vm_compute; reflexivity.
  - intros row ->%list_elem_of_singleton. split; apply demo_uuid_canonical.
  - apply list_elem_of_singleton in Hin as ->. apply Hm; vm_compute; reflexivity.
Defined.
