(* ===== verification/Campaigns.v ===== *)
(** * Certification campaigns

    internal/governance/campaign_store.go, campaign_service.go and
    campaign_api.go: campaigns and the access items under review, over the
    tables of migration 6. *)
From S2P Require Import Prelude GoStd Sql Http Middleware.
Local Open Scope go_scope.

(** ** campaign_store.go *)

Record Campaign : Type := mkCampaign {
  cg_ID : string;
  cg_TenantID : string;
  cg_Name : string;
  cg_Description : string;
  cg_Status : string;
  cg_ReviewerID : string;
  cg_StartDate : option Z;
  cg_EndDate : option Z;
  cg_CreatedAt : Z;
  cg_UpdatedAt : Z
}.

Record CertificationItem : Type := mkItem {
  ct_ID : string;
  ct_CampaignID : string;
  ct_TenantID : string;
  ct_UserID : string;
  ct_ResourceType : string;
  ct_ResourceID : string;
  ct_ResourceName : string;
  ct_Decision : option string;
  ct_DecisionAt : option Z;
  ct_DecisionComment : option string;
  ct_CreatedAt : Z
}.

Record CreateCampaignInput : Type := mkCreateCampaignInput {
  cn_Name : string;
  cn_Description : string;
  cn_ReviewerID : string;
  cn_StartDate : option Z;
  cn_EndDate : option Z
}.

(** The tables certification_campaigns and certification_items. *)
Record CampaignDb : Type := mkCampaignDb {
  cd_campaigns : list Campaign;
  cd_items : list CertificationItem
}.

Class CampaignStore (K : Type) : Type := {
  cs_CreateCampaign : Campaign -> M K string;
  cs_GetCampaign : string -> string -> M K Campaign;
  cs_ListCampaigns : string -> string -> M K (list Campaign);
  cs_UpdateCampaignStatus : string -> string -> M K unit;
  cs_DeleteCampaign : string -> string -> M K unit;
  cs_CreateItem : CertificationItem -> M K string;
  cs_ListItems : string -> string -> M K (list CertificationItem);
  cs_ListItemsByReviewer : string -> string -> M K (list CertificationItem);
  cs_UpdateItemDecision : string -> string -> string -> M K unit
}.

Definition on_campaigns {A} (m : M (list Campaign) A) : M CampaignDb A :=
  zoom cd_campaigns (fun x d => mkCampaignDb x (cd_items d)) m.

Definition on_items {A} (m : M (list CertificationItem) A) : M CampaignDb A :=
  zoom cd_items (fun x d => mkCampaignDb (cd_campaigns d) x) m.

Definition is_campaign (id tenant : string) (c : Campaign) : bool :=
  bool_decide (cg_ID c = id /\ cg_TenantID c = tenant).

(** A new campaign is a draft, whatever the struct says. *)
Definition campaignStore_CreateCampaign (c : Campaign) : M CampaignDb string :=
  t <- uuid_arg (cg_TenantID c);;
  varchar_arg 255 (cg_Name c);;
  r <- uuid_arg (cg_ReviewerID c);;
  on_campaigns (sql_insert (fun new old => bool_decide (cg_ID new = cg_ID old))
    (fun tm id => (mkCampaign id t (cg_Name c) (cg_Description c) "draft" r (cg_StartDate c) (cg_EndDate c) tm tm,
                   id))).

Definition campaignStore_GetCampaign (tenantID id : string) : M CampaignDb Campaign :=
  i <- uuid_arg id;;
  t <- uuid_arg tenantID;;
  on_campaigns (sql_get (is_campaign i t)).

Definition campaignStore_ListCampaigns (tenantID status : string) : M CampaignDb (list Campaign) :=
  t <- uuid_arg tenantID;;
  rows <- on_campaigns (sql_select (fun c =>
            bool_decide (cg_TenantID c = t /\ (status = estr \/ cg_Status c = status))));;
  ret (order_by_desc cg_CreatedAt rows).

Definition set_campaign_status (status : string) (tm : Z) (c : Campaign) : Campaign :=
  mkCampaign (cg_ID c) (cg_TenantID c) (cg_Name c) (cg_Description c) status (cg_ReviewerID c)
    (cg_StartDate c) (cg_EndDate c) (cg_CreatedAt c) tm.

(** [WHERE id = $2] *)
Definition campaignStore_UpdateCampaignStatus (id status : string) : M CampaignDb unit :=
  varchar_arg 50 status;;
  i <- uuid_arg id;;
  exec (on_campaigns (sql_update (fun c => bool_decide (cg_ID c = i)) (set_campaign_status status))).

(** The items of a deleted campaign go with it. *)
Definition campaignStore_DeleteCampaign (tenantID id : string) : M CampaignDb unit :=
  i <- uuid_arg id;;
  t <- uuid_arg tenantID;;
  statement (fun _ _ d =>
    if existsb (is_campaign i t) (cd_campaigns d) then
      inl (tt, mkCampaignDb (filter (fun c => negb (is_campaign i t c)) (cd_campaigns d))
                 (filter (fun x => ct_CampaignID x <> i) (cd_items d)))
    else inl (tt, d)).

Definition err_campaign : error :=
  ErrDB "pq: insert or update on table certification_items violates foreign key constraint".

(** The campaign must exist; its tenant is not compared. *)
Definition campaignStore_CreateItem (item : CertificationItem) : M CampaignDb string :=
  k <- uuid_arg (ct_CampaignID item);;
  t <- uuid_arg (ct_TenantID item);;
  u <- uuid_arg (ct_UserID item);;
  varchar_arg 50 (ct_ResourceType item);;
  x <- uuid_arg (ct_ResourceID item);;
  varchar_arg 255 (ct_ResourceName item);;
  statement (fun env n d =>
    let row := mkItem (gen_uuid env n) k t u (ct_ResourceType item) x (ct_ResourceName item) None None None
                 (clock env n) in
    if negb (existsb (fun c => bool_decide (cg_ID c = k)) (cd_campaigns d)) then inr err_campaign
    else if existsb (fun y => bool_decide (ct_ID y = ct_ID row)) (cd_items d)
    then inr (ErrDB "pq: duplicate key value violates unique constraint")
    else inl (ct_ID row, mkCampaignDb (cd_campaigns d) (cd_items d ++ [row]))).

(** No decision asked for: the items without one. *)
Definition campaignStore_ListItems (campaignID decision : string) : M CampaignDb (list CertificationItem) :=
  k <- uuid_arg campaignID;;
  rows <- on_items (sql_select (fun x => bool_decide (ct_CampaignID x = k /\
            ct_Decision x = (if decide (decision = estr) then None else Some decision))));;
  ret (order_by ct_CreatedAt rows).

Definition campaignStore_ListItemsByReviewer (tenantID reviewerID : string)
    : M CampaignDb (list CertificationItem) :=
  t <- uuid_arg tenantID;;
  r <- uuid_arg reviewerID;;
  statement (fun env n d =>
    let rows := flat_map (fun x => map (fun c => (c, x))
                  (filter (fun c => cg_ID c = ct_CampaignID x /\ cg_TenantID c = t /\ cg_ReviewerID c = r /\
                                    cg_Status c = "active" /\ ct_Decision x = None) (cd_campaigns d)))
                  (cd_items d) in
    inl (map snd (sort_by (fun a b =>
           (cg_CreatedAt (fst a) <? cg_CreatedAt (fst b))%Z
           || ((cg_CreatedAt (fst a) =? cg_CreatedAt (fst b))%Z
               && String.leb (ct_UserID (snd a)) (ct_UserID (snd b)))) (reorder (row_order env n) rows)), d)).

(** [WHERE id = $3]: any item, whatever its campaign's tenant and status. *)
Definition campaignStore_UpdateItemDecision (itemID decision comment : string) : M CampaignDb unit :=
  varchar_arg 50 decision;;
  i <- uuid_arg itemID;;
  exec (on_items (sql_update (fun x => bool_decide (ct_ID x = i))
    (fun tm x => mkItem (ct_ID x) (ct_CampaignID x) (ct_TenantID x) (ct_UserID x) (ct_ResourceType x)
                   (ct_ResourceID x) (ct_ResourceName x) (Some decision) (Some tm) (Some comment)
                   (ct_CreatedAt x)))).

#[export] Instance campaignStore : CampaignStore CampaignDb := {|
  cs_CreateCampaign := campaignStore_CreateCampaign;
  cs_GetCampaign := campaignStore_GetCampaign;
  cs_ListCampaigns := campaignStore_ListCampaigns;
  cs_UpdateCampaignStatus := campaignStore_UpdateCampaignStatus;
  cs_DeleteCampaign := campaignStore_DeleteCampaign;
  cs_CreateItem := campaignStore_CreateItem;
  cs_ListItems := campaignStore_ListItems;
  cs_ListItemsByReviewer := campaignStore_ListItemsByReviewer;
  cs_UpdateItemDecision := campaignStore_UpdateItemDecision
|}.

(** ** campaign_service.go *)

Section Service.
Context {K : Type} `{!CampaignStore K}.

Definition CreateCampaign (tenantID : string) (input : CreateCampaignInput) : M K Campaign :=
  if decide (cn_Name input = estr) then fail (ErrNew "campaign name is required")
  else if decide (cn_ReviewerID input = estr) then fail (ErrNew "reviewer_id is required")
  else
    id <- map_err (ErrWrap "failed to create campaign")
            (cs_CreateCampaign (mkCampaign estr tenantID (cn_Name input) (cn_Description input) estr
               (cn_ReviewerID input) (cn_StartDate input) (cn_EndDate input) 0 0));;
    cs_GetCampaign tenantID id.

Definition StartCampaign (tenantID id : string) : M K unit :=
  c <- cs_GetCampaign tenantID id;;
  if decide (cg_Status c <> "draft") then fail (ErrNew "can only start campaigns in draft status")
  else cs_UpdateCampaignStatus id "active".

Definition CompleteCampaign (tenantID id : string) : M K unit :=
  c <- cs_GetCampaign tenantID id;;
  if decide (cg_Status c <> "active") then fail (ErrNew "can only complete active campaigns")
  else cs_UpdateCampaignStatus id "completed".

(** The tenant is not used. *)
Definition CancelCampaign (tenantID id : string) : M K unit := cs_UpdateCampaignStatus id "cancelled".

Definition DeleteCampaign (tenantID id : string) : M K unit := cs_DeleteCampaign tenantID id.

Definition AddReviewItem (tenantID campaignID : string) (item : CertificationItem) : M K CertificationItem :=
  let item := mkItem (ct_ID item) campaignID tenantID (ct_UserID item) (ct_ResourceType item)
                (ct_ResourceID item) (ct_ResourceName item) (ct_Decision item) (ct_DecisionAt item)
                (ct_DecisionComment item) (ct_CreatedAt item) in
  id <- map_err (ErrWrap "failed to add review item") (cs_CreateItem item);;
  ret (mkItem id campaignID tenantID (ct_UserID item) (ct_ResourceType item)
         (ct_ResourceID item) (ct_ResourceName item) (ct_Decision item) (ct_DecisionAt item)
         (ct_DecisionComment item) (ct_CreatedAt item)).

Definition ListPendingItems (campaignID : string) : M K (list CertificationItem) :=
  cs_ListItems campaignID estr.

Definition ListReviewItems (tenantID reviewerID : string) : M K (list CertificationItem) :=
  cs_ListItemsByReviewer tenantID reviewerID.

Definition ApproveItem (itemID comment : string) : M K unit := cs_UpdateItemDecision itemID "approve" comment.

(** The access itself is not taken away. *)
Definition RevokeItem (itemID comment : string) : M K unit := cs_UpdateItemDecision itemID "revoke" comment.

(** ** campaign_api.go *)

Record CommentBody : Type := mkCommentBody { cb_Comment : string }.

Context `{!Binder CreateCampaignInput, !Binder CertificationItem, !Binder CommentBody}.

Definition omitnull {A} (k : string) (f : A -> json) (v : option A) : list (string * json) :=
  match v with None => [] | Some x => [(k, f x)] end.

Definition Campaign_json (c : Campaign) : json :=
  JObj ([("id", JStr (cg_ID c)); ("tenant_id", JStr (cg_TenantID c)); ("name", JStr (cg_Name c))]
        ++ omitempty "description" (cg_Description c)
        ++ [("status", JStr (cg_Status c)); ("reviewer_id", JStr (cg_ReviewerID c))]
        ++ omitnull "start_date" JNum (cg_StartDate c) ++ omitnull "end_date" JNum (cg_EndDate c)
        ++ [("created_at", JNum (cg_CreatedAt c)); ("updated_at", JNum (cg_UpdatedAt c))]).

Definition CertificationItem_json (x : CertificationItem) : json :=
  JObj ([("id", JStr (ct_ID x)); ("campaign_id", JStr (ct_CampaignID x)); ("tenant_id", JStr (ct_TenantID x));
         ("user_id", JStr (ct_UserID x)); ("resource_type", JStr (ct_ResourceType x));
         ("resource_id", JStr (ct_ResourceID x))]
        ++ omitempty "resource_name" (ct_ResourceName x) ++ omitnull "decision" JStr (ct_Decision x)
        ++ omitnull "decision_at" JNum (ct_DecisionAt x)
        ++ omitnull "decision_comment" JStr (ct_DecisionComment x)
        ++ [("created_at", JNum (ct_CreatedAt x))]).

Definition campaign_tenantID (c : GinCtx) (k : string -> M K Response) : M K Response :=
  with_tenant "tenant id required" c k.

Definition or_internal {A} (m : M K A) (k : A -> M K Response) : M K Response :=
  or_respond (verbatim 500) m k.

Definition status_response (key v : string) : Response := respond 200 (JObj [(key, JStr v)]).

Definition createCampaign : Handler K :=
  fun c => campaign_tenantID c (fun tenantID => bound c (fun input : CreateCampaignInput =>
    or_internal (CreateCampaign tenantID input) (fun campaign =>
    ret (respond 201 (Campaign_json campaign))))).

Definition listCampaigns : Handler K :=
  fun c => campaign_tenantID c (fun tenantID =>
    or_internal (cs_ListCampaigns tenantID (Query c "status")) (fun campaigns =>
    ret (respond 200 (JObj [("campaigns", slice_json Campaign_json campaigns)])))).

Definition getCampaign : Handler K :=
  fun c => campaign_tenantID c (fun tenantID =>
    or_respond (fixed 404 "campaign not found") (cs_GetCampaign tenantID (Param c "id")) (fun campaign =>
    ret (respond 200 (Campaign_json campaign)))).

Definition startCampaign : Handler K :=
  fun c => campaign_tenantID c (fun tenantID =>
    or_respond (verbatim 400) (StartCampaign tenantID (Param c "id")) (fun _ =>
    ret (status_response "status" "active"))).

Definition completeCampaign : Handler K :=
  fun c => campaign_tenantID c (fun tenantID =>
    or_respond (verbatim 400) (CompleteCampaign tenantID (Param c "id")) (fun _ =>
    ret (status_response "status" "completed"))).

Definition cancelCampaign : Handler K :=
  fun c => campaign_tenantID c (fun tenantID =>
    or_internal (CancelCampaign tenantID (Param c "id")) (fun _ =>
    ret (status_response "status" "cancelled"))).

Definition deleteCampaign : Handler K :=
  fun c => campaign_tenantID c (fun tenantID =>
    or_internal (DeleteCampaign tenantID (Param c "id")) (fun _ => ret (respond_status 204))).

Definition addReviewItem : Handler K :=
  fun c => campaign_tenantID c (fun tenantID => bound c (fun item : CertificationItem =>
    or_internal (AddReviewItem tenantID (Param c "id") item) (fun result =>
    ret (respond 201 (CertificationItem_json result))))).

Definition listPendingItems : Handler K :=
  fun c => or_internal (ListPendingItems (Param c "id")) (fun items =>
    ret (respond 200 (JObj [("items", slice_json CertificationItem_json items)]))).

Definition listReviewItems : Handler K :=
  fun c => campaign_tenantID c (fun tenantID =>
    let reviewerID := Query c "reviewer_id" in
    if decide (reviewerID = estr) then ret (respond 400 (error_body "reviewer_id is required"))
    else or_internal (ListReviewItems tenantID reviewerID) (fun items =>
         ret (respond 200 (JObj [("items", slice_json CertificationItem_json items)])))).

(** The optional body: an error of the binding is dropped. *)
Definition item_comment (c : GinCtx) : string :=
  match should_bind (gc_request c) with inl body => cb_Comment body | inr _ => estr end.

Definition approveItem : Handler K :=
  fun c => or_internal (ApproveItem (Param c "itemId") (item_comment c)) (fun _ =>
    ret (status_response "decision" "approve")).

Definition revokeItem : Handler K :=
  fun c => or_internal (RevokeItem (Param c "itemId") (item_comment c)) (fun _ =>
    ret (status_response "decision" "revoke")).

End Service.
