(* ===== verification/CampaignFacts.v ===== *)
(** * The life of a campaign

    Campaigns move from draft over active to completed, and from anywhere to
    cancelled; their items always belong to an existing campaign. *)
From S2P Require Import Prelude GoStd Sql Http Middleware DirectoryDemo Campaigns.
Local Open Scope go_scope.

(** ** Integrity *)

Record campaigns_ok (d : CampaignDb) : Prop := {
  cok_ids : NoDup (cg_ID <$> cd_campaigns d);
  cok_items : NoDup (ct_ID <$> cd_items d);
  cok_campaign : Forall (fun x => ct_CampaignID x ∈ (cg_ID <$> cd_campaigns d)) (cd_items d)
}.

Lemma CreateCampaign_row_ok c : preserves campaigns_ok (campaignStore_CreateCampaign c).
Proof.
  unfold campaignStore_CreateCampaign. effects. apply preserves_zoom_statement; [by intros []|].
  intros ? ? d ? rs [] Hf. cbn in Hf. destruct (existsb _ _) eqn:Hex; simplify_eq.
  rewrite existsb_false in Hex. split; cbn; try done; [|by apply Forall_key_snoc].
  apply NoDup_key_snoc; [done|]. intros x Hx Heq. specialize (Hex x Hx).
  by apply bool_decide_eq_false in Hex.
Qed.

Lemma UpdateCampaignStatus_ok id status : preserves campaigns_ok (campaignStore_UpdateCampaignStatus id status).
Proof.
  unfold campaignStore_UpdateCampaignStatus, exec. effects. apply preserves_zoom_statement; [by intros []|].
  intros ? ? d ? rs [] Hf. cbn in Hf. simplify_eq.
  split; cbn; rewrite ?(map_ext_key cg_ID) by (intros x; by destruct (bool_decide _)); done.
Qed.

Lemma DeleteCampaign_ok tenantID id : preserves campaigns_ok (campaignStore_DeleteCampaign tenantID id).
Proof.
  unfold campaignStore_DeleteCampaign. effects. apply preserves_statement. intros ? ? d ? d' [] Hf.
  destruct (existsb _ _); simplify_eq; [|done]. split; cbn; auto using NoDup_key_filter.
  apply Forall_forall. intros x [Hx Hin]%list_elem_of_filter. rewrite Forall_forall in cok_campaign0.
  apply cok_campaign0 in Hin as (c & Heq & Hc)%list_elem_of_fmap. rewrite Heq. apply list_elem_of_fmap. exists c.
  split; [done|]. apply filter_bool_elem. split; [done|]. apply negb_true_iff, bool_decide_eq_false.
  intros [? _]. congruence.
Qed.

Lemma CreateItem_ok item : preserves campaigns_ok (campaignStore_CreateItem item).
Proof.
  unfold campaignStore_CreateItem. effects. apply preserves_statement. intros ? ? d ? d' [] Hf. cbn in Hf.
  destruct (existsb _ (cd_campaigns d)) eqn:Hc; [|done]. destruct (existsb _ (cd_items d)) eqn:Hi; cbn in Hf; simplify_eq.
  rewrite existsb_false in Hi. apply existsb_elem in Hc as (c & Hc & Hid%bool_decide_eq_true).
  split; cbn; try done.
  - apply NoDup_key_snoc; [done|]. intros x Hx Heq. specialize (Hi x Hx). by apply bool_decide_eq_false in Hi.
  - apply Forall_app. split; [done|]. apply Forall_singleton, list_elem_of_fmap. eauto.
Qed.

Lemma UpdateItemDecision_ok i a b : preserves campaigns_ok (campaignStore_UpdateItemDecision i a b).
Proof.
  unfold campaignStore_UpdateItemDecision, exec. effects. apply preserves_zoom_statement; [by intros []|].
  intros ? ? d ? rs [] Hf. cbn in Hf. simplify_eq. split; cbn; [done| |].
  - by rewrite (map_ext_key ct_ID) by (intros x; by destruct (bool_decide _)).
  - apply Forall_fmap. eapply Forall_impl; [exact cok_campaign0|]. intros x Hx. cbn. by destruct (bool_decide _).
Qed.

Lemma readonly_GetCampaign t i : readonly (campaignStore_GetCampaign t i).
Proof. unfold campaignStore_GetCampaign. effects. apply readonly_zoom; [by intros []|]. effects. Qed.

(** ** Calls *)

Inductive campaign_call : forall {A}, M CampaignDb A -> Prop :=
| call_CreateCampaign t input : campaign_call (CreateCampaign t input)
| call_StartCampaign t i : campaign_call (StartCampaign t i)
| call_CompleteCampaign t i : campaign_call (CompleteCampaign t i)
| call_CancelCampaign t i : campaign_call (CancelCampaign t i)
| call_DeleteCampaign t i : campaign_call (DeleteCampaign t i)
| call_AddReviewItem t k item : campaign_call (AddReviewItem t k item)
| call_ApproveItem i c : campaign_call (ApproveItem i c)
| call_RevokeItem i c : campaign_call (RevokeItem i c).

Lemma campaign_call_ok {A} (m : M CampaignDb A) : campaign_call m -> preserves campaigns_ok m.
Proof.
  intros []; unfold CreateCampaign, StartCampaign, CompleteCampaign, CancelCampaign, DeleteCampaign,
    AddReviewItem, ApproveItem, RevokeItem; cbn; effects;
    auto using readonly_preserves, readonly_GetCampaign, CreateCampaign_row_ok, UpdateCampaignStatus_ok,
      DeleteCampaign_ok, CreateItem_ok, UpdateItemDecision_ok.
Qed.

(** ** Moves *)

Inductive moves : string -> string -> Prop :=
| stays a : moves a a
| starts : moves "draft" "active"
| completes : moves "active" "completed"
| cancels a : moves a "cancelled".

(** A call may end a campaign's row or begin one, and moves the others. *)
Definition evolves (d d' : CampaignDb) : Prop :=
  forall c c', c ∈ cd_campaigns d -> c' ∈ cd_campaigns d' -> cg_ID c = cg_ID c' ->
    moves (cg_Status c) (cg_Status c') /\ cg_TenantID c = cg_TenantID c' /\ cg_ReviewerID c = cg_ReviewerID c'.

Lemma evolves_same d d' : campaigns_ok d -> cd_campaigns d' = cd_campaigns d -> evolves d d'.
Proof.
  intros Hok Heq c c' Hc Hc' Hid. rewrite Heq in Hc'.
  assert (c = c') as -> by (eapply (NoDup_key_inj cg_ID); [apply Hok|done..]). split_and!; [constructor|done|done].
Qed.

Lemma evolves_status d i status tm items :
  campaigns_ok d -> (forall c, c ∈ cd_campaigns d -> cg_ID c = i -> moves (cg_Status c) status) ->
  evolves d (mkCampaignDb (map (fun c => if bool_decide (cg_ID c = i) then set_campaign_status status tm c else c)
                             (cd_campaigns d)) items).
Proof.
  intros Hok Hm c c' Hc (x & -> & Hx)%list_elem_of_fmap Hid.
  assert (c = x) as ->.
  { eapply (NoDup_key_inj cg_ID); [apply Hok|done|done|]. rewrite Hid. by destruct (bool_decide _). }
  destruct (bool_decide (cg_ID x = i)) eqn:E; cbn.
  - apply bool_decide_eq_true in E. split_and!; auto.
  - split_and!; [constructor|done|done].
Qed.

Lemma UpdateCampaignStatus_evolves id status env s r u :
  campaigns_ok (st s) ->
  (forall i, pg_uuid env id = Some i -> forall c, c ∈ cd_campaigns (st s) -> cg_ID c = i -> moves (cg_Status c) status) ->
  campaignStore_UpdateCampaignStatus id status env s = (r, u) -> evolves (st s) (st u).
Proof.
  intros Hok Hm H. unfold campaignStore_UpdateCampaignStatus in H.
  destruct (bind_inv _ _ _ _ _ _ H) as [([] & t & E & H1)|(r' & E & _)]; cycle 1.
  { apply evolves_same; [done|]. by rewrite (readonly_run _ _ _ _ _ (readonly_varchar_arg _ _) E). }
  apply varchar_arg_Ok_inv in E as [_ ->]. rewrite uuid_bind in H1.
  destruct (pg_uuid env id) as [i|] eqn:Hi; [|simplify_eq; by apply evolves_same].
  unfold exec, bind, ret, on_campaigns, zoom, sql_update, statement in H1. cbn [tick st] in H1.
  destruct (db_fault env (tick s)); simplify_eq; cbn; [by apply evolves_same|].
  apply evolves_status; [done|]. by apply Hm.
Qed.

(** The campaign that was fetched is the one whose id was given. *)
Lemma guarded_evolves tenantID id from to (k : error) env s (r : Res unit) u :
  campaigns_ok (st s) -> moves from to ->
  bind (campaignStore_GetCampaign tenantID id) (fun c =>
    if decide (cg_Status c <> from) then fail k else campaignStore_UpdateCampaignStatus id to) env s = (r, u) ->
  evolves (st s) (st u).
Proof.
  intros Hok Hmove H. destruct (bind_inv _ _ _ _ _ _ H) as [(c & t & E & H1)|(r' & E & _)]; cycle 1.
  { apply evolves_same; [done|]. by rewrite (readonly_run _ _ _ _ _ (readonly_GetCampaign _ _) E). }
  pose proof (readonly_run _ _ _ _ _ (readonly_GetCampaign _ _) E) as Ht.
  destruct (decide (cg_Status c <> from)) as [|Hs%dec_stable].
  { injection H1 as <- <-. apply evolves_same; [done|]. by rewrite Ht. }
  rewrite <-Ht in *. eapply UpdateCampaignStatus_evolves; [done| |done].
  intros i Hi c' Hc' Hid. unfold campaignStore_GetCampaign in E. rewrite uuid_bind, Hi in E. minv.
  apply zoom_Ok_inv in E as (w & E & _). apply sql_get_spec in E as (Hc & [Hci _]%bool_decide_eq_true & _).
  cbn in Hc. rewrite Ht in Hok, Hc'.
  assert (c' = c) as -> by (eapply (NoDup_key_inj cg_ID); [apply Hok|done|done|congruence]). done.
Qed.

(** Rows that are old ones, or have an id no old one has. *)
Lemma evolves_sub d d' :
  campaigns_ok d ->
  (forall c', c' ∈ cd_campaigns d' -> c' ∈ cd_campaigns d \/ ~ cg_ID c' ∈ (cg_ID <$> cd_campaigns d)) ->
  evolves d d'.
Proof.
  intros Hok Hsub c c' Hc Hc' Hid. destruct (Hsub c' Hc') as [Hin|Hnew].
  - assert (c = c') as -> by (eapply (NoDup_key_inj cg_ID); [apply Hok|done..]).
    split_and!; [constructor|done|done].
  - destruct Hnew. rewrite <-Hid. apply list_elem_of_fmap. eauto.
Qed.

Lemma CreateCampaign_evolves c env s r u :
  campaigns_ok (st s) -> campaignStore_CreateCampaign c env s = (r, u) -> evolves (st s) (st u).
Proof.
  intros Hok H. apply evolves_sub; [done|]. intros c' Hc'.
  unfold campaignStore_CreateCampaign, varchar_arg in H. rewrite uuid_bind in H.
  destruct (pg_uuid env _); [|simplify_eq; by left].
  unfold bind in H at 1. case_decide; cbn -[uuid_arg] in H; [|simplify_eq; by left].
  rewrite uuid_bind in H. destruct (pg_uuid env _); [|simplify_eq; by left].
  unfold on_campaigns, zoom, sql_insert, statement in H. cbn [tick st] in H.
  destruct (db_fault _ _); [simplify_eq; by left|]. destruct (existsb _ _) eqn:Hex; simplify_eq; [by left|].
  cbn in Hc'. apply elem_of_app in Hc' as [?| ->%list_elem_of_singleton]; [by left|right].
  rewrite existsb_false in Hex. intros (x & Hx & Hin)%list_elem_of_fmap. apply Hex in Hin. cbn in *.
  by apply bool_decide_eq_false in Hin.
Qed.

Lemma DeleteCampaign_evolves t i env s r u :
  campaigns_ok (st s) -> campaignStore_DeleteCampaign t i env s = (r, u) -> evolves (st s) (st u).
Proof.
  intros Hok H. apply evolves_sub; [done|]. intros c' Hc'. left. revert Hc'.
  assert (preserves (fun d => forall c, c ∈ cd_campaigns d -> c ∈ cd_campaigns (st s))
            (campaignStore_DeleteCampaign t i)) as Hp.
  { unfold campaignStore_DeleteCampaign. effects. apply preserves_statement. intros ? ? d ? d' Hd Hf.
    destruct (existsb _ _); simplify_eq; [|done]. cbn. intros c [? _]%filter_bool_elem. auto. }
  exact (preserves_run _ _ _ _ _ _ Hp H (fun _ Hc => Hc) c').
Qed.

Lemma items_only {A} (m : M CampaignDb A) env s r u :
  (forall l, preserves (fun d => cd_campaigns d = l) m) -> campaigns_ok (st s) -> m env s = (r, u) -> evolves (st s) (st u).
Proof. intros Hp Hok H. apply evolves_same; [done|]. exact (preserves_run _ _ _ _ _ _ (Hp _) H eq_refl). Qed.

Lemma CreateItem_items l item : preserves (fun d => cd_campaigns d = l) (campaignStore_CreateItem item).
Proof.
  unfold campaignStore_CreateItem. effects. apply preserves_statement. intros ? ? d ? d' <- Hf.
  cbn in Hf. destruct (negb _); [done|]. destruct (existsb _ (cd_items d)); by simplify_eq.
Qed.

Lemma UpdateItemDecision_items l i a b :
  preserves (fun d => cd_campaigns d = l) (campaignStore_UpdateItemDecision i a b).
Proof.
  unfold campaignStore_UpdateItemDecision, exec. effects. apply preserves_zoom_statement; [by intros []|].
  intros ? ? d ? rs <- Hf. cbn in Hf. by simplify_eq.
Qed.

Lemma campaign_call_evolves {A} (m : M CampaignDb A) env s r u :
  campaign_call m -> campaigns_ok (st s) -> m env s = (r, u) -> evolves (st s) (st u).
Proof.
  intros Hm Hok. revert r. destruct Hm as [t input|t i|t i|t i|t i|t k item|i c|i c]; intros r H.
  - unfold CreateCampaign in H. case_decide; [injection H as <- <-; by apply evolves_same|].
    case_decide; [injection H as <- <-; by apply evolves_same|].
    destruct (bind_inv _ _ _ _ _ _ H) as [(id & w & E & H9)|(r' & E & _)].
    + rewrite (readonly_run _ _ _ _ _ (readonly_GetCampaign _ _) H9).
      apply map_err_Ok_inv in E. by eapply CreateCampaign_evolves.
    + unfold map_err in E. destruct (cs_CreateCampaign _ _ _) as [x w] eqn:E'.
      assert (u = w) as -> by (by destruct x; injection E as <- <-). by eapply CreateCampaign_evolves.
  - eapply guarded_evolves; [done|constructor|exact H].
  - eapply guarded_evolves; [done|constructor|exact H].
  - eapply UpdateCampaignStatus_evolves; [done| |exact H]. intros. constructor.
  - by eapply DeleteCampaign_evolves.
  - eapply items_only; [|done|exact H]. intros l. unfold AddReviewItem. effects. apply CreateItem_items.
  - eapply items_only; [|done|exact H]. intros l. apply UpdateItemDecision_items.
  - eapply items_only; [|done|exact H]. intros l. apply UpdateItemDecision_items.
Qed.

(** ** A campaign through time

    [tracks env i s a u b]: from [s], where campaign [i] has status [a], calls
    lead to [u], where it has status [b], and the campaign is there in between. *)
Inductive tracks (env : Env) (i : string) : St CampaignDb -> string -> St CampaignDb -> string -> Prop :=
| track_end s c : c ∈ cd_campaigns (st s) -> cg_ID c = i -> tracks env i s (cg_Status c) s (cg_Status c)
| track_call A (m : M CampaignDb A) s c r t a u b :
    c ∈ cd_campaigns (st s) -> cg_ID c = i -> campaign_call m -> m env s = (r, t) ->
    tracks env i t a u b -> tracks env i s (cg_Status c) u b.

Lemma tracks_here env i s a u b :
  tracks env i s a u b -> exists c, c ∈ cd_campaigns (st s) /\ cg_ID c = i /\ cg_Status c = a.
Proof. intros []; eauto. Qed.

(** Where a campaign can get to. *)
Definition reaches (a b : string) : Prop :=
  a = b \/ b = "cancelled" \/ (a = "draft" /\ (b = "active" \/ b = "completed")) \/ (a = "active" /\ b = "completed").

Lemma moves_reaches a b c : moves a b -> reaches b c -> reaches a c.
Proof.
  intros [x| | |x] H; [done| | |]; unfold reaches in *; destruct H as [<-|[->|[[? H]|[? ?]]]]; try tauto; done.
Qed.

(** Property C29. Whatever calls are made, a campaign goes from draft to active to
    completed or is cancelled, and never back: no completed or cancelled
    campaign is started again, and all tables keep their integrity. *)
Theorem campaign_lifecycle env i s a u b :
  campaigns_ok (st s) -> tracks env i s a u b -> reaches a b /\ campaigns_ok (st u).
Proof.
  intros Hok Ht. induction Ht as [s c Hc Hid|A m s c r t a u b Hc Hid Hm Hr Ht IH]; [by split; [left|]|].
  destruct IH as [IH Hu]; [exact (preserves_run _ _ _ _ _ _ (campaign_call_ok _ Hm) Hr Hok)|].
  split; [|done]. apply tracks_here in Ht as (c' & Hc' & Hid' & Hs). subst a.
  eapply moves_reaches; [|exact IH].
  by apply (campaign_call_evolves _ _ _ _ _ Hm Hok Hr c c' Hc Hc'); congruence.
Qed.

(** Calls on a draft: started, completed, and an attempt to start it again. *)
Definition demo_campaign : Campaign :=
  mkCampaign (demo_uuid 701) tenantA "Q1" estr "draft" (demo_uuid 101) None None 0 0.

Definition demo_campaigns : CampaignDb := mkCampaignDb [demo_campaign] [].

Definition started : St CampaignDb :=
  snd (StartCampaign tenantA (demo_uuid 701) demo_env (mkSt 0 demo_campaigns)).
Definition completed : St CampaignDb := snd (CompleteCampaign tenantA (demo_uuid 701) demo_env started).

Lemma campaign_lifecycle_witness :
  fst (StartCampaign tenantA (demo_uuid 701) demo_env completed) =
    Err (ErrNew "can only start campaigns in draft status") /\
  reaches "draft" "completed" /\ campaigns_ok (st completed).
Proof.
  split; [vm_compute; reflexivity|].
  apply (campaign_lifecycle demo_env (demo_uuid 701) (mkSt 0 demo_campaigns) "draft" completed "completed").
  - split; by apply (bool_decide_unpack _); vm_compute.
  - apply (track_call _ _ _ (StartCampaign tenantA (demo_uuid 701)) _ demo_campaign
             (fst (StartCampaign tenantA (demo_uuid 701) demo_env (mkSt 0 demo_campaigns))) started "active");
      [apply list_elem_of_here|reflexivity|apply call_StartCampaign|apply surjective_pairing|].
    apply (track_call _ _ _ (CompleteCampaign tenantA (demo_uuid 701)) _ (set_campaign_status "active" 1000000000 demo_campaign)
             (fst (CompleteCampaign tenantA (demo_uuid 701) demo_env started)) completed "completed");
      [|reflexivity|apply call_CompleteCampaign|apply surjective_pairing|].
    + vm_compute. apply list_elem_of_here.
    + apply (track_end _ _ _ (set_campaign_status "completed" 3000000000 demo_campaign));
        [vm_compute; apply list_elem_of_here|reflexivity].
Defined.
