(* ===== verification/Connectors.v ===== *)
(** * Connectors to external identity systems

    internal/connector: the [Connector] interface, the registry of live
    connectors, the configurations (table connectors of migration 9) with the
    service over them, and the handlers.

    A connector is a handle; what its methods do to the systems behind them is
    the effect of the class [Connector] on a state of its own. *)
From S2P Require Import Prelude GoStd Sql Http Middleware.
Local Open Scope go_scope.

(** ** connector.go *)

Record Config : Type := mkConfig {
  cf_ID : string;
  cf_TenantID : string;
  cf_Name : string;
  cf_Type : string;
  cf_Enabled : bool;
  cf_Endpoint : string;
  cf_Credentials : gmap string string;
  cf_Settings : gmap string string;
  cf_CreatedAt : Z;
  cf_UpdatedAt : Z
}.

(** connector.User *)
Record ExtUser : Type := mkExtUser {
  xu_ExternalID : string;
  xu_InternalID : string;
  xu_Username : string;
  xu_Email : string;
  xu_FirstName : string;
  xu_LastName : string;
  xu_DisplayName : string;
  xu_Active : bool;
  xu_Attributes : gmap string string
}.

(** connector.Group *)
Record ExtGroup : Type := mkExtGroup {
  xg_ExternalID : string;
  xg_InternalID : string;
  xg_Name : string;
  xg_Description : string
}.

(** The methods on a connector [N] in a world [W]. *)
Class Connector (N W : Type) : Type := {
  conn_ID : N -> M W string;
  conn_Name : N -> M W string;
  conn_Type : N -> string;
  conn_Initialize : N -> Config -> M W unit;
  conn_HealthCheck : N -> M W unit;
  conn_Close : N -> M W unit;
  conn_CreateUser : N -> ExtUser -> M W string;
  conn_GetUser : N -> string -> M W ExtUser;
  conn_UpdateUser : N -> string -> ExtUser -> M W unit;
  conn_DeleteUser : N -> string -> M W unit;
  conn_ListUsers : N -> string -> Z -> Z -> M W (list ExtUser * Z);
  conn_CreateGroup : N -> ExtGroup -> M W string;
  conn_GetGroup : N -> string -> M W ExtGroup;
  conn_UpdateGroup : N -> string -> ExtGroup -> M W unit;
  conn_DeleteGroup : N -> string -> M W unit;
  conn_ListGroups : N -> string -> Z -> Z -> M W (list ExtGroup * Z);
  conn_AddUserToGroup : N -> string -> string -> M W unit;
  conn_RemoveUserFromGroup : N -> string -> string -> M W unit;
  conn_GetGroupMembers : N -> string -> M W (list ExtUser)
}.

(** ** registry.go *)

(** A [Factory] makes a connector from a configuration. *)
Record Registry (N W : Type) : Type := mkRegistry {
  rg_factories : gmap string (Config -> M W N);
  rg_connectors : gmap string N;
  rg_world : W
}.
Arguments mkRegistry {N W} _ _ _.
Arguments rg_factories {N W} _.
Arguments rg_connectors {N W} _.
Arguments rg_world {N W} _.

Section RegistryOps.
Context {N W : Type} `{!Connector N W}.

Abbreviation RM := (M (Registry N W)).

Definition in_world {A} (m : M W A) : RM A :=
  zoom rg_world (fun w r => mkRegistry (rg_factories r) (rg_connectors r) w) m.

Definition registry_Register (connectorType : string) (factory : Config -> M W N) : RM unit :=
  modify (fun r => mkRegistry (<[connectorType := factory]> (rg_factories r)) (rg_connectors r) (rg_world r)).

Definition registry_Create (connectorType : string) (config : Config) : RM N :=
  factories <- gets rg_factories;;
  match factories !! connectorType with
  | None => fail (ErrNew ("unknown connector type: " +:+ connectorType))
  | Some factory =>
      conn <- map_err (ErrWrap "failed to create connector") (in_world (factory config));;
      modify (fun r => mkRegistry (rg_factories r) (<[cf_ID config := conn]> (rg_connectors r)) (rg_world r));;
      ret conn
  end.

Definition registry_Get (connectorID : string) : RM (option N) :=
  connectors <- gets rg_connectors;; ret (connectors !! connectorID).

(** Go's iteration over a map has no order of its own. *)
Definition registry_List : RM (list N) :=
  connectors <- gets rg_connectors;; ret (snd <$> map_to_list connectors).

(** A connector that cannot be closed stays. *)
Definition registry_Remove (connectorID : string) : RM unit :=
  connectors <- gets rg_connectors;;
  match connectors !! connectorID with
  | None => fail (ErrNew ("connector not found: " +:+ connectorID))
  | Some conn =>
      map_err (ErrWrap "failed to close connector") (in_world (conn_Close conn));;
      modify (fun r => mkRegistry (rg_factories r) (delete connectorID (rg_connectors r)) (rg_world r))
  end.

End RegistryOps.

(** ** store.go

    Credentials and settings are stored as the JSON of the maps, which reads
    back as the map it was made from (a nil map as the empty one). *)
Record connector_row : Type := mkConnectorRow {
  kr_id : string;
  kr_tenant : string;
  kr_name : string;
  kr_type : string;
  kr_enabled : bool;
  kr_endpoint : string;
  kr_credentials : gmap string string;
  kr_settings : gmap string string;
  kr_created : Z;
  kr_updated : Z
}.

Class ConnectorStore (D : Type) : Type := {
  ck_Create : Config -> M D string;
  ck_Get : string -> string -> M D Config;
  ck_List : string -> M D (list Config);
  ck_Update : Config -> M D unit;
  ck_Delete : string -> string -> M D unit;
  ck_Toggle : string -> string -> bool -> M D unit
}.

Abbreviation connectors := (list connector_row).

Definition row_config (r : connector_row) : Config :=
  mkConfig (kr_id r) (kr_tenant r) (kr_name r) (kr_type r) (kr_enabled r) (kr_endpoint r) (kr_credentials r)
    (kr_settings r) (kr_created r) (kr_updated r).

Definition is_connector (id tenant : string) (r : connector_row) : bool :=
  bool_decide (kr_id r = id /\ kr_tenant r = tenant).

(** The columns of [SELECT *], and the names sqlx gives to the fields of the
    struct they are scanned into: the embedded [Config] has no tags. *)
Definition connector_columns : list string :=
  ["id"; "tenant_id"; "name"; "type"; "enabled"; "endpoint"; "credentials"; "settings"; "created_at"; "updated_at"].
Definition connector_fields : list string :=
  ["id"; "tenantid"; "name"; "type"; "enabled"; "endpoint"; "credentials"; "settings"; "createdat"; "updatedat"].

Definition connectorStore_Create (config : Config) : M connectors string :=
  t <- uuid_arg (cf_TenantID config);;
  varchar_arg 255 (cf_Name config);;
  varchar_arg 50 (cf_Type config);;
  varchar_arg 500 (cf_Endpoint config);;
  sql_insert
    (fun new old => bool_decide (kr_id new = kr_id old \/
                      (kr_tenant new = kr_tenant old /\ kr_name new = kr_name old)))
    (fun tm id => (mkConnectorRow id t (cf_Name config) (cf_Type config) (cf_Enabled config)
                     (cf_Endpoint config) (cf_Credentials config) (cf_Settings config) tm tm, id)).

Definition connectorStore_Get (tenantID id : string) : M connectors Config :=
  i <- uuid_arg id;;
  t <- uuid_arg tenantID;;
  row <- sqlx_get connector_fields connector_columns (is_connector i t);;
  ret (row_config row).

Definition connectorStore_List (tenantID : string) : M connectors (list Config) :=
  t <- uuid_arg tenantID;;
  rows <- sqlx_select connector_fields connector_columns (fun r => bool_decide (kr_tenant r = t));;
  ret (map row_config (sort_by (fun x y => String.leb (kr_name x) (kr_name y)) rows)).

(** The type is not updated. *)
Definition connectorStore_Update (config : Config) : M connectors unit :=
  varchar_arg 255 (cf_Name config);;
  varchar_arg 500 (cf_Endpoint config);;
  i <- uuid_arg (cf_ID config);;
  t <- uuid_arg (cf_TenantID config);;
  exec (sql_update_unique (fun r => (kr_tenant r, kr_name r)) (is_connector i t)
    (fun tm r => mkConnectorRow (kr_id r) (kr_tenant r) (cf_Name config) (kr_type r) (cf_Enabled config)
                   (cf_Endpoint config) (cf_Credentials config) (cf_Settings config) (kr_created r) tm)).

Definition connectorStore_Delete (tenantID id : string) : M connectors unit :=
  i <- uuid_arg id;;
  t <- uuid_arg tenantID;;
  exec (sql_delete (is_connector i t)).

Definition connectorStore_Toggle (tenantID id : string) (enabled : bool) : M connectors unit :=
  i <- uuid_arg id;;
  t <- uuid_arg tenantID;;
  exec (sql_update (is_connector i t)
    (fun tm r => mkConnectorRow (kr_id r) (kr_tenant r) (kr_name r) (kr_type r) enabled (kr_endpoint r)
                   (kr_credentials r) (kr_settings r) (kr_created r) tm)).

#[export] Instance connectorStore : ConnectorStore connectors := {|
  ck_Create := connectorStore_Create;
  ck_Get := connectorStore_Get;
  ck_List := connectorStore_List;
  ck_Update := connectorStore_Update;
  ck_Delete := connectorStore_Delete;
  ck_Toggle := connectorStore_Toggle
|}.

(** ** service.go *)

Record ConnectorState (D N W : Type) : Type := mkConnectorState {
  cns_store : D;
  cns_registry : Registry N W
}.
Arguments mkConnectorState {D N W} _ _.
Arguments cns_store {D N W} _.
Arguments cns_registry {D N W} _.

Section Service.
Context {D N W : Type} `{!ConnectorStore D, !Connector N W}.

Abbreviation KM := (M (ConnectorState D N W)).

Definition in_store {A} (m : M D A) : KM A :=
  zoom cns_store (fun x s => mkConnectorState x (cns_registry s)) m.

Definition in_registry {A} (m : M (Registry N W) A) : KM A :=
  zoom cns_registry (fun x s => mkConnectorState (cns_store s) x) m.

(** A connector that cannot be started does not fail the creation. *)
Definition CreateConnector (tenantID : string) (config : Config) : KM string :=
  if decide (cf_Name config = estr) then fail (ErrNew "connector name is required")
  else if decide (cf_Type config = estr) then fail (ErrNew "connector type is required")
  else
    let config := mkConfig (cf_ID config) tenantID (cf_Name config) (cf_Type config) true (cf_Endpoint config)
                    (cf_Credentials config) (cf_Settings config) (cf_CreatedAt config) (cf_UpdatedAt config) in
    id <- in_store (ck_Create config);;
    let config := mkConfig id tenantID (cf_Name config) (cf_Type config) true (cf_Endpoint config)
                    (cf_Credentials config) (cf_Settings config) (cf_CreatedAt config) (cf_UpdatedAt config) in
    ignore (in_registry (registry_Create (cf_Type config) config));;
    ret id.

Definition GetConnector (tenantID id : string) : KM Config := in_store (ck_Get tenantID id).

Definition ListConnectors (tenantID : string) : KM (list Config) := in_store (ck_List tenantID).

(** No credentials: the stored ones; otherwise the stored ones that are not
    given are kept. *)
Definition merge_credentials (given existing : gmap string string) : gmap string string :=
  if decide (given = ∅) then existing else given ∪ existing.

Definition UpdateConnector (tenantID : string) (config : Config) : KM unit :=
  existing <- map_err (ErrWrap "connector not found") (in_store (ck_Get tenantID (cf_ID config)));;
  let config := mkConfig (cf_ID config) tenantID (cf_Name config) (cf_Type config) (cf_Enabled config)
                  (cf_Endpoint config) (merge_credentials (cf_Credentials config) (cf_Credentials existing))
                  (cf_Settings config) (cf_CreatedAt config) (cf_UpdatedAt config) in
  in_store (ck_Update config);;
  ignore (in_registry (registry_Remove (cf_ID config)));;
  (if cf_Enabled config then ignore (in_registry (registry_Create (cf_Type config) config)) else ret tt).

Definition DeleteConnector (tenantID id : string) : KM unit :=
  in_store (ck_Delete tenantID id);;
  ignore (in_registry (registry_Remove id)).

Definition ToggleConnector (tenantID id : string) (enabled : bool) : KM unit :=
  in_store (ck_Toggle tenantID id enabled);;
  if enabled then
    r <- attempt (in_store (ck_Get tenantID id));;
    match r with
    | inl config => ignore (in_registry (registry_Create (cf_Type config) config))
    | inr _ => ret tt
    end
  else ignore (in_registry (registry_Remove id)).

Definition TestConnection (config : Config) : KM unit :=
  conn <- map_err (ErrWrap "failed to create connector") (in_registry (registry_Create (cf_Type config) config));;
  deferred (in_registry (in_world (conn_HealthCheck conn)))
    (ignore (in_registry (registry_Remove (cf_ID config)))).

(** ** api.go *)

Record ToggleBody : Type := mkToggleBody { tb_Enabled : bool }.

Context `{!Binder Config, !Binder ToggleBody}.

Abbreviation KHandler := (Handler (ConnectorState D N W)).

Definition Config_json (c : Config) : json :=
  let obj (m : gmap string string) := JObj (map (fun kv => (fst kv, JStr (snd kv))) (map_to_list m)) in
  JObj [("id", JStr (cf_ID c)); ("tenant_id", JStr (cf_TenantID c)); ("name", JStr (cf_Name c));
        ("type", JStr (cf_Type c)); ("enabled", JBool (cf_Enabled c)); ("endpoint", JStr (cf_Endpoint c));
        ("credentials", obj (cf_Credentials c)); ("settings", obj (cf_Settings c));
        ("created_at", JNum (cf_CreatedAt c)); ("updated_at", JNum (cf_UpdatedAt c))].

Definition connector_tenantID (c : GinCtx) (k : string -> KM Response) : KM Response :=
  with_tenant "tenant id required" c k.

Definition listConnectors : KHandler :=
  fun c => connector_tenantID c (fun tenantID =>
    or_respond (verbatim 500) (ListConnectors tenantID) (fun configs =>
    ret (respond 200 (JObj [("connectors", JArr (map Config_json configs))])))).

Definition createConnector : KHandler :=
  fun c => connector_tenantID c (fun tenantID => bound c (fun config : Config =>
    or_respond (verbatim 400) (CreateConnector tenantID config) (fun id =>
    ret (respond 201 (JObj [("id", JStr id)]))))).

Definition getConnector : KHandler :=
  fun c => connector_tenantID c (fun tenantID =>
    or_respond (fixed 404 "connector not found") (GetConnector tenantID (Param c "id")) (fun config =>
    ret (respond 200 (Config_json config)))).

Definition updateConnector : KHandler :=
  fun c => connector_tenantID c (fun tenantID => bound c (fun config : Config =>
    let config := mkConfig (Param c "id") (cf_TenantID config) (cf_Name config) (cf_Type config)
                    (cf_Enabled config) (cf_Endpoint config) (cf_Credentials config) (cf_Settings config)
                    (cf_CreatedAt config) (cf_UpdatedAt config) in
    or_respond (verbatim 400) (UpdateConnector tenantID config) (fun _ =>
    ret (respond 200 (JObj [("message", JStr "updated")]))))).

Definition deleteConnector : KHandler :=
  fun c => connector_tenantID c (fun tenantID =>
    or_respond (verbatim 500) (DeleteConnector tenantID (Param c "id")) (fun _ => ret (respond_status 204))).

Definition toggleConnector : KHandler :=
  fun c => connector_tenantID c (fun tenantID => bound c (fun req : ToggleBody =>
    or_respond (verbatim 500) (ToggleConnector tenantID (Param c "id") (tb_Enabled req)) (fun _ =>
    ret (respond 200 (JObj [("enabled", JBool (tb_Enabled req))]))))).

Definition testConnection : KHandler :=
  fun c => connector_tenantID c (fun _ => bound c (fun config : Config =>
    or_respond (fun err => respond 400 (JObj [("error", JStr (error_string err)); ("status", JStr "failed")]))
      (TestConnection config) (fun _ => ret (respond 200 (JObj [("status", JStr "success")]))))).

End Service.
