(* ===== verification/Provisioning.v ===== *)
(** * Provisioning tasks

    internal/connector/provisioning.go: the queue of tasks (table
    provisioning_tasks of migration 9), the operation a task asks of its
    connector, and what becomes of one that fails. *)
From S2P Require Import Prelude GoStd Sql Http Connectors.
Local Open Scope go_scope.

Record ProvisioningTask : Type := mkTask {
  pt_ID : string;
  pt_TenantID : string;
  pt_ConnectorID : string;
  pt_Operation : string;
  pt_ResourceType : string;
  pt_ResourceID : string;
  pt_Payload : json;
  pt_Status : string;
  pt_ErrorMessage : string;
  pt_RetryCount : Z;
  pt_MaxRetries : Z;
  pt_CreatedAt : Z;
  pt_ProcessedAt : option Z
}.

(** taskRow *)
Record taskRow : Type := mkTaskRow {
  tk_ID : string;
  tk_TenantID : string;
  tk_ConnectorID : string;
  tk_Operation : string;
  tk_ResourceType : string;
  tk_ResourceID : option string;
  tk_Payload : json;
  tk_Status : string;
  tk_ErrorMessage : option string;
  tk_RetryCount : Z;
  tk_MaxRetries : Z;
  tk_CreatedAt : Z;
  tk_ProcessedAt : option Z;
  tk_ScheduledAt : Z
}.

Definition toTask (r : taskRow) : ProvisioningTask :=
  mkTask (tk_ID r) (tk_TenantID r) (tk_ConnectorID r) (tk_Operation r) (tk_ResourceType r)
    (default estr (tk_ResourceID r)) (tk_Payload r) (tk_Status r) (default estr (tk_ErrorMessage r))
    (tk_RetryCount r) (tk_MaxRetries r) (tk_CreatedAt r) (tk_ProcessedAt r).

(** [SET status, error_message, retry_count, processed_at, scheduled_at]: the
    columns the service writes after the insertion. *)
Definition with_outcome (status : string) (err : option string) (retries : Z) (processed : option Z)
    (scheduled : Z) (r : taskRow) : taskRow :=
  mkTaskRow (tk_ID r) (tk_TenantID r) (tk_ConnectorID r) (tk_Operation r) (tk_ResourceType r) (tk_ResourceID r)
    (tk_Payload r) status err retries (tk_MaxRetries r) (tk_CreatedAt r) processed scheduled.

(** What Postgres answers to [NOW() + $1] when the parameter is an [int64]
    sent as its digits: [pg_plus now d], the new time or an error. *)
Class PgInterval : Type := pg_plus : Z -> Z -> Z + error.

Record ProvState (N W : Type) : Type := mkProv {
  pv_tasks : list taskRow;
  pv_registry : Registry N W
}.
Arguments mkProv {N W} _ _.
Arguments pv_tasks {N W} _.
Arguments pv_registry {N W} _.

(** [time.Duration(1<<task.RetryCount) * time.Minute], in 64 bits *)
Definition backoff (retryCount : Z) : Z :=
  int64 (int64 (if decide (retryCount < 64)%Z then 2 ^ retryCount else 0) * minute)%Z.

(** [json.Unmarshal(b, &user)] *)
Definition decode_user (payload : json) : ExtUser + error :=
  match json_object payload with
  | inr e => inr e
  | inl fields =>
      field json_string "external_id" fields (fun external =>
      field json_string "internal_id" fields (fun internal =>
      field json_string "username" fields (fun username =>
      field json_string "email" fields (fun email =>
      field json_string "first_name" fields (fun first =>
      field json_string "last_name" fields (fun last =>
      field json_string "display_name" fields (fun display =>
      field json_bool "active" fields (fun active =>
      field json_string_map "attributes" fields (fun attributes =>
      inl (mkExtUser external internal username email first last display active attributes))))))))))
  end.

(** The payload of the two group operations. *)
Definition decode_membership (payload : json) : (string * string) + error :=
  match json_object payload with
  | inr e => inr e
  | inl fields =>
      field json_string "user_id" fields (fun user =>
      field json_string "group_id" fields (fun group => inl (user, group)))
  end.

Section Provisioning.
Context {N W : Type} {connector : Connector N W} {pg : PgInterval}.

Abbreviation PM := (M (ProvState N W)).

Definition in_tasks {A} (m : M (list taskRow) A) : PM A :=
  zoom pv_tasks (fun x s => mkProv x (pv_registry s)) m.

Definition in_reg {A} (m : M (Registry N W) A) : PM A :=
  zoom pv_registry (fun x s => mkProv (pv_tasks s) x) m.

Definition is_task (id : string) (r : taskRow) : bool := bool_decide (tk_ID r = id).

Definition EnqueueTask (task : ProvisioningTask) : PM string :=
  map_err (ErrWrap "failed to enqueue task")
    (t <- uuid_arg (pt_TenantID task);;
     k <- uuid_arg (pt_ConnectorID task);;
     varchar_arg 100 (pt_Operation task);;
     varchar_arg 50 (pt_ResourceType task);;
     x <- uuid_arg (pt_ResourceID task);;
     int4_arg (pt_MaxRetries task);;
     in_tasks (sql_insert (fun new old => is_task (tk_ID new) old)
       (fun tm id => (mkTaskRow id t k (pt_Operation task) (pt_ResourceType task) (Some x) (pt_Payload task)
                        "pending" None 0 (pt_MaxRetries task) tm None tm, id)))).

Definition GetTask (tenantID taskID : string) : PM ProvisioningTask :=
  i <- uuid_arg taskID;;
  t <- uuid_arg tenantID;;
  row <- in_tasks (sql_get (fun r => bool_decide (tk_ID r = i /\ tk_TenantID r = t)));;
  ret (toTask row).

Definition ListPendingTasks (limit : Z) : PM (list ProvisioningTask) :=
  in_tasks (statement (fun env n rows =>
    match sql_page limit 0 (order_by tk_ScheduledAt (reorder (row_order env n)
            (filter (fun r => tk_Status r = "pending" /\ (tk_ScheduledAt r <= clock env n)%Z) rows))) with
    | inl l => inl (map toTask l, rows)
    | inr e => inr e
    end)).

(** [UPDATE provisioning_tasks SET ... WHERE id = $n] *)
Definition update_task (taskID : string) (f : Z -> taskRow -> taskRow) : PM unit :=
  i <- uuid_arg taskID;;
  exec (in_tasks (sql_update (is_task i) f)).

Definition failTask (taskID errMsg : string) : PM unit :=
  update_task taskID (fun tm r => with_outcome "failed" (Some errMsg) (tk_RetryCount r) (Some tm)
                                    (tk_ScheduledAt r) r).

Definition executeOperation (conn : N) (task : ProvisioningTask) : M W unit :=
  let op := pt_Operation task in
  if decide (op = "create_user") then
    user <- decoded (decode_user (pt_Payload task));; _ <- conn_CreateUser conn user;; ret tt
  else if decide (op = "update_user") then
    user <- decoded (decode_user (pt_Payload task));; conn_UpdateUser conn (pt_ResourceID task) user
  else if decide (op = "delete_user") then conn_DeleteUser conn (pt_ResourceID task)
  else if decide (op = "add_to_group") then
    p <- decoded (decode_membership (pt_Payload task));; conn_AddUserToGroup conn (fst p) (snd p)
  else if decide (op = "remove_from_group") then
    p <- decoded (decode_membership (pt_Payload task));; conn_RemoveUserFromGroup conn (fst p) (snd p)
  else fail (ErrNew ("unknown operation: " +:+ op)).

(** Another attempt is scheduled; the statement fails as a whole when the
    database rejects the time or the counter. *)
Definition rescheduleTask (taskID : string) (delay : Z) (errMsg : string) : PM unit :=
  i <- uuid_arg taskID;;
  in_tasks (statement (fun env n rows =>
    match pg_plus (clock env n) delay with
    | inr e => if existsb (is_task i) rows then inr e else inl (tt, rows)
    | inl scheduled =>
        if existsb (fun r => is_task i r && bool_decide (tk_RetryCount r + 1 >= 2 ^ 31)%Z) rows
        then inr (ErrDB "pq: integer out of range")
        else inl (tt, map (fun r => if is_task i r
                             then with_outcome "pending" (Some errMsg) (tk_RetryCount r + 1) (tk_ProcessedAt r)
                                    scheduled r
                             else r) rows)
    end)).

Definition ProcessTask (taskID : string) : PM unit :=
  update_task taskID (fun _ r => with_outcome "processing" (tk_ErrorMessage r) (tk_RetryCount r)
                                   (tk_ProcessedAt r) (tk_ScheduledAt r) r);;
  row <- (i <- uuid_arg taskID;; in_tasks (sql_get (is_task i)));;
  let task := toTask row in
  found <- in_reg (registry_Get (pt_ConnectorID task));;
  match found with
  | None => failTask taskID "connector not found"
  | Some conn =>
      r <- attempt (in_reg (in_world (executeOperation conn task)));;
      match r with
      | inr execErr =>
          if decide (pt_RetryCount task < pt_MaxRetries task)%Z
          then if decide (pt_RetryCount task < 0)%Z then panic "runtime error: negative shift amount"
               else rescheduleTask taskID (backoff (pt_RetryCount task)) (error_string execErr)
          else failTask taskID (error_string execErr)
      | inl _ =>
          update_task taskID (fun tm r => with_outcome "completed" (tk_ErrorMessage r) (tk_RetryCount r)
                                            (Some tm) (tk_ScheduledAt r) r)
      end
  end.

End Provisioning.
