(* ===== verification/ProvisioningFacts.v ===== *)
(** * What becomes of a provisioning task

    A run of a task completes it, schedules another attempt, gives it up or
    leaves it in processing; attempts are counted, so that this ends after a
    bounded number of runs. *)
From S2P Require Import Prelude GoStd Sql Http Connectors Provisioning.
Local Open Scope go_scope.

(** ** Backoff *)

(** The delay doubles with every attempt up to the 27th; the product overflows
    64 bits from the 28th on, where the delay is first negative and later 0. *)
Theorem backoff_values :
  (forall n, (0 <= n <= 27)%Z -> backoff n = (2 ^ n * minute)%Z /\ (0 < backoff n)%Z) /\
  (backoff 28 < 0)%Z /\ (forall n, (64 <= n)%Z -> backoff n = 0%Z).
Proof.
  split_and!.
  - intros n Hn. assert (1 <= 2 ^ n <= 2 ^ 27)%Z as Hp.
    { split; [change 1%Z with (2 ^ 0)%Z|]; apply Z.pow_le_mono_r; lia. }
    unfold backoff, minute. rewrite decide_True by lia.
    rewrite (int64_small (2 ^ n)) by (split; [lia|]; change (2 ^ 27)%Z with 134217728%Z in Hp; lia).
    change (2 ^ 27)%Z with 134217728%Z in Hp. rewrite int64_small; lia.
  - vm_compute. reflexivity.
  - intros n Hn. unfold backoff. rewrite decide_False by lia. reflexivity.
Qed.

Section Facts.
Context {N W : Type} {connector : Connector N W} {pg : PgInterval}.

Abbreviation State := (ProvState N W).

(** ** Integrity *)

Record tasks_ok (l : list taskRow) : Prop := {
  tok_ids : NoDup (tk_ID <$> l);
  tok_retries : Forall (fun r => (0 <= tk_RetryCount r)%Z /\
                          (tk_RetryCount r = 0%Z \/ (tk_RetryCount r <= tk_MaxRetries r)%Z)) l
}.

(** The row of a task, and an update of it. *)
Definition on_task (i : string) (f : taskRow -> taskRow) (l : list taskRow) : list taskRow :=
  map (fun r => if is_task i r then f r else r) l.

Lemma is_task_true i r : is_task i r = true <-> tk_ID r = i.
Proof. apply bool_decide_eq_true. Qed.

Lemma on_task_ids i f l : (forall r, tk_ID (f r) = tk_ID r) -> tk_ID <$> on_task i f l = tk_ID <$> l.
Proof. intros Hf. unfold on_task. apply map_ext_key. intros r. by destruct (is_task i r). Qed.

Lemma on_task_elem i f l r : r ∈ l -> tk_ID r = i -> f r ∈ on_task i f l.
Proof. intros Hr Hi. apply list_elem_of_fmap. exists r. by rewrite (proj2 (is_task_true i r)). Qed.

(** Statements on a database that answers. *)
Lemma update_task_run taskID i f env n (s : State) :
  db_up env -> pg_uuid env taskID = Some i ->
  update_task taskID f env (mkSt n s) = (Ok tt, mkSt (S n) (mkProv (on_task i (f (clock env n)) (pv_tasks s)) (pv_registry s))).
Proof.
  intros Hup Hi. unfold update_task. rewrite uuid_bind, Hi. unfold exec, bind, in_tasks, zoom, sql_update.
  by rewrite statement_up.
Qed.

Lemma get_task_run taskID i env n (s : State) r :
  db_up env -> pg_uuid env taskID = Some i -> NoDup (tk_ID <$> pv_tasks s) -> r ∈ pv_tasks s -> tk_ID r = i ->
  bind (uuid_arg taskID) (fun i => in_tasks (sql_get (is_task i))) env (mkSt n s) = (Ok r, mkSt (S n) s).
Proof.
  intros Hup Hi Hnd Hr Hid. rewrite uuid_bind, Hi. unfold in_tasks, zoom, sql_get.
  rewrite statement_up by done. cbn [tick st].
  rewrite (filter_key_unique tk_ID _ _ r); [rewrite reorder_one; by destruct s|done|done|].
  intros x _. rewrite is_task_true. by rewrite Hid.
Qed.

(** ** One run *)

Lemma on_task_twice i f g l : (forall r, tk_ID (f r) = tk_ID r) -> on_task i g (on_task i f l) = on_task i (fun r => g (f r)) l.
Proof.
  intros Hf. unfold on_task. rewrite map_map. apply map_ext. intros r.
  destruct (is_task i r) eqn:E; [|by rewrite E]. unfold is_task in *. by rewrite Hf, E.
Qed.

Definition processing (r : taskRow) : taskRow :=
  with_outcome "processing" (tk_ErrorMessage r) (tk_RetryCount r) (tk_ProcessedAt r) (tk_ScheduledAt r) r.

Definition completed (tm : Z) (r : taskRow) : taskRow :=
  with_outcome "completed" (tk_ErrorMessage r) (tk_RetryCount r) (Some tm) (tk_ScheduledAt r) r.

Definition failed (msg : string) (tm : Z) (r : taskRow) : taskRow :=
  with_outcome "failed" (Some msg) (tk_RetryCount r) (Some tm) (tk_ScheduledAt r) r.

Definition retried (msg : string) (scheduled : Z) (r : taskRow) : taskRow :=
  with_outcome "pending" (Some msg) (tk_RetryCount r + 1) (tk_ProcessedAt r) scheduled r.

(** A second update, after the task was marked as processing. *)
Lemma second_update_run taskID i f env n l (g : Registry N W) :
  db_up env -> pg_uuid env taskID = Some i ->
  update_task taskID f env (mkSt n (mkProv (on_task i processing l) g)) =
    (Ok tt, mkSt (S n) (mkProv (on_task i (fun r => f (clock env n) (processing r)) l) g)).
Proof. intros Hup Hi. rewrite (update_task_run _ i) by done. cbn [pv_tasks]. by rewrite on_task_twice. Qed.

(** What becomes of the row, and what the call returns, when the operation came
    out as [res] at time [tm]. *)
Definition outcome (r : taskRow) (res : Res unit) (tm : Z) : Res unit * (taskRow -> taskRow) :=
  match res with
  | Ok _ => (Ok tt, completed tm)
  | Panic p => (Panic p, processing)
  | Err e =>
      if decide (tk_RetryCount r < tk_MaxRetries r)%Z then
        match pg_plus tm (backoff (tk_RetryCount r)) with
        | inl scheduled => (Ok tt, retried (error_string e) scheduled)
        | inr e' => (Err e', processing)
        end
      else (Ok tt, failed (error_string e) tm)
  end.

(** The operation of a task in a state, where it has a connector. *)
Definition run_operation (env : Env) (n : nat) (s : State) (r : taskRow) : option (Res unit * St W) :=
  match rg_connectors (pv_registry s) !! tk_ConnectorID r with
  | None => None
  | Some conn => Some (executeOperation conn (toTask (processing r)) env (mkSt n (rg_world (pv_registry s))))
  end.

Definition with_world (w : W) (g : Registry N W) : Registry N W := mkRegistry (rg_factories g) (rg_connectors g) w.

Lemma rescheduleTask_run taskID i delay msg env n (s : State) r :
  db_up env -> pg_uuid env taskID = Some i -> NoDup (tk_ID <$> pv_tasks s) -> r ∈ pv_tasks s -> tk_ID r = i ->
  (tk_RetryCount r + 1 < 2 ^ 31)%Z ->
  rescheduleTask taskID delay msg env (mkSt n s) =
    match pg_plus (clock env n) delay with
    | inl scheduled => (Ok tt, mkSt (S n) (mkProv (on_task i (retried msg scheduled) (pv_tasks s)) (pv_registry s)))
    | inr e => (Err e, mkSt (S n) s)
    end.
Proof.
  intros Hup Hi Hnd Hr Hid Hlt. unfold rescheduleTask. rewrite uuid_bind, Hi. unfold in_tasks, zoom.
  rewrite statement_up by done. cbn [tick st]. destruct (pg_plus _ _) as [scheduled|e].
  - rewrite (proj2 (existsb_false _ _)); [done|]. intros x Hx.
    destruct (is_task i x) eqn:E; [|done]. apply is_task_true in E. cbn. apply bool_decide_eq_false.
    assert (x = r) as -> by (eapply (NoDup_key_inj tk_ID); [done|done|done|congruence]). lia.
  - rewrite (proj2 (existsb_elem _ _)); [by destruct s|]. exists r. split; [done|]. by apply is_task_true.
Qed.

Lemma ProcessTask_run taskID i env n (s : State) r :
  db_up env -> pg_uuid env taskID = Some i -> tasks_ok (pv_tasks s) -> r ∈ pv_tasks s -> tk_ID r = i ->
  (tk_MaxRetries r < 2 ^ 31)%Z ->
  ProcessTask taskID env (mkSt n s) =
    match run_operation env (S (S n)) s r with
    | None => (Ok tt, mkSt (S (S (S n)))
                 (mkProv (on_task i (failed "connector not found" (clock env (S (S n)))) (pv_tasks s)) (pv_registry s)))
    | Some (res, w) =>
        let '(out, f) := outcome r res (clock env (tick w)) in
        (out, mkSt (match res with Panic _ => tick w | _ => S (tick w) end)
                (mkProv (on_task i f (pv_tasks s)) (with_world (st w) (pv_registry s))))
    end.
Proof.
  intros Hup Hi Hok Hr Hid Hmax. unfold ProcessTask, run_operation.
  mgo (update_task_run taskID i (fun _ r => processing r) env n s Hup Hi). fold (processing r).
  set (s1 := mkProv (on_task i processing (pv_tasks s)) (pv_registry s)).
  assert (NoDup (tk_ID <$> pv_tasks s1)) as Hnd1 by (cbn; rewrite on_task_ids by done; apply Hok).
  assert (processing r ∈ pv_tasks s1) as Hr1 by (by apply on_task_elem).
  mgo (get_task_run taskID i env (S n) s1 (processing r) Hup Hi Hnd1 Hr1 Hid). cbv zeta.
  rewrite (bind_Ok _ _ _ _ (rg_connectors (pv_registry s) !! tk_ConnectorID r) (mkSt (S (S n)) s1)) by done.
  destruct (rg_connectors (pv_registry s) !! tk_ConnectorID r) as [conn|]; cbv beta iota.
  2: { unfold failTask, s1. by rewrite (second_update_run _ i). }
  unfold bind at 1, attempt, in_reg, in_world, zoom. cbn [tick st pv_registry s1].
  destruct (executeOperation conn _ env _) as [[x|e|p] w]; cbn [outcome tick st]; cbv beta iota; [|..|done].
  - unfold s1. cbn [pv_tasks]. by rewrite (second_update_run _ i).
  - change (pt_RetryCount (toTask (processing r))) with (tk_RetryCount r).
    change (pt_MaxRetries (toTask (processing r))) with (tk_MaxRetries r).
    case_decide; [|unfold failTask, s1; cbn [pv_tasks]; by rewrite (second_update_run _ i)].
    destruct (proj1 (Forall_forall _ _) (tok_retries _ Hok) r Hr) as [Hpos _].
    rewrite decide_False by lia. unfold s1 in *. cbn [pv_tasks] in *.
    rewrite (rescheduleTask_run _ i _ _ _ _ _ (processing r)) by (done || cbn; lia). cbn [pv_tasks pv_registry].
    destruct (pg_plus _ _); [|done]. by rewrite on_task_twice.
Qed.

(** The fate of the row [r] of a task in one run at tick [n] that returns [out]
    and leaves the row [r']. *)
Definition fate (env : Env) (n : nat) (s : State) (r : taskRow) (out : Res unit) (r' : taskRow) : Prop :=
  match run_operation env n s r with
  | None =>
      out = Ok tt /\ tk_Status r' = "failed" /\ tk_ErrorMessage r' = Some "connector not found" /\
      tk_RetryCount r' = tk_RetryCount r /\ tk_ProcessedAt r' = Some (clock env n)
  | Some (Ok _, w) =>
      out = Ok tt /\ tk_Status r' = "completed" /\ tk_RetryCount r' = tk_RetryCount r /\
      tk_ProcessedAt r' = Some (clock env (tick w))
  | Some (Panic p, w) => out = Panic p /\ tk_Status r' = "processing" /\ tk_RetryCount r' = tk_RetryCount r
  | Some (Err e, w) =>
      if decide (tk_RetryCount r < tk_MaxRetries r)%Z then
        match pg_plus (clock env (tick w)) (backoff (tk_RetryCount r)) with
        | inl scheduled =>
            out = Ok tt /\ tk_Status r' = "pending" /\ tk_ErrorMessage r' = Some (error_string e) /\
            tk_RetryCount r' = (tk_RetryCount r + 1)%Z /\ tk_ScheduledAt r' = scheduled
        | inr refused => out = Err refused /\ tk_Status r' = "processing" /\ tk_RetryCount r' = tk_RetryCount r
        end
      else out = Ok tt /\ tk_Status r' = "failed" /\ tk_ErrorMessage r' = Some (error_string e) /\
           tk_RetryCount r' = tk_RetryCount r /\ tk_ProcessedAt r' = Some (clock env (tick w))
  end.

(** What a task asks for, which no run changes. *)
Definition order (r : taskRow) :=
  (tk_ID r, tk_TenantID r, tk_ConnectorID r, (tk_Operation r, tk_ResourceType r, tk_ResourceID r, tk_Payload r),
   tk_MaxRetries r, tk_CreatedAt r).

Lemma on_task_once i f l r :
  NoDup (tk_ID <$> l) -> r ∈ l -> tk_ID r = i -> on_task i f l = on_task i (fun _ => f r) l.
Proof.
  intros Hnd Hr Hid. apply map_ext_in. intros x Hx. destruct (is_task i x) eqn:E; [|done]. f_equal.
  apply is_task_true in E. apply (NoDup_key_inj tk_ID l); [done|by apply list_elem_of_In|done|congruence].
Qed.

(** Property C30. One run of a task on a database that answers, on every branch.
    Without a connector the task fails. It is completed when the operation
    succeeds. When the operation fails it is scheduled again, with one attempt
    more on its count, while attempts are left and the database accepts the new
    time; it is failed when no attempts are left. It stays in processing when the
    operation panics, and when the database refuses the new time, which the call
    returns as its error. What the task asks for and every other row stay. *)
Theorem process_task_outcome taskID i env n (s : State) r :
  db_up env -> pg_uuid env taskID = Some i -> tasks_ok (pv_tasks s) -> r ∈ pv_tasks s -> tk_ID r = i ->
  (tk_MaxRetries r < 2 ^ 31)%Z ->
  exists out r' u, ProcessTask taskID env (mkSt n s) = (out, u) /\
    pv_tasks (st u) = map (fun x => if decide (tk_ID x = i) then r' else x) (pv_tasks s) /\
    order r' = order r /\ fate env (S (S n)) s r out r'.
Proof.
  intros Hup Hi Hok Hr Hid Hmax. rewrite (ProcessTask_run taskID i env n s r) by done.
  assert (forall f, on_task i f (pv_tasks s) = map (fun x => if decide (tk_ID x = i) then f r else x) (pv_tasks s)) as Hone.
  { intros f. rewrite (on_task_once _ _ _ r) by (done || apply Hok). apply map_ext. intros x.
    unfold is_task. by rewrite bool_decide_decide; case_decide. }
  unfold fate. destruct (run_operation env (S (S n)) s r) as [[res w]|]; cycle 1.
  { eexists _, _, _. split; [done|]. split; [apply Hone|]. done. }
  destruct (outcome r res (clock env (tick w))) as [out f] eqn:Ho. cbv beta iota zeta.
  eexists _, (f r), _. split; [done|]. split; [apply Hone|].
  unfold outcome in Ho. destruct res as [x|e|p]; [by simplify_eq| |by simplify_eq].
  case_decide; [destruct (pg_plus _ _)|]; by simplify_eq.
Qed.

(** ** Any number of runs *)

Lemma outcome_row r res tm out f :
  outcome r res tm = (out, f) ->
  (forall x, tk_ID (f x) = tk_ID x) /\ tk_MaxRetries (f r) = tk_MaxRetries r /\
  (tk_RetryCount (f r) = tk_RetryCount r \/
   (tk_RetryCount (f r) = (tk_RetryCount r + 1)%Z /\ (tk_RetryCount r < tk_MaxRetries r)%Z)).
Proof.
  unfold outcome. intros H. destruct res; [simplify_eq; auto| |simplify_eq; auto].
  case_decide; [|simplify_eq; auto]. destruct (pg_plus _ _); simplify_eq; cbn; auto.
Qed.

Lemma on_task_ok i f l r :
  tasks_ok l -> r ∈ l -> tk_ID r = i -> (forall x, tk_ID (f x) = tk_ID x) ->
  tk_MaxRetries (f r) = tk_MaxRetries r ->
  (tk_RetryCount (f r) = tk_RetryCount r \/
   (tk_RetryCount (f r) = (tk_RetryCount r + 1)%Z /\ (tk_RetryCount r < tk_MaxRetries r)%Z)) ->
  tasks_ok (on_task i f l).
Proof.
  intros [Hnd Hall] Hr Hid Hf Hm Hc. split; [by rewrite on_task_ids|].
  apply Forall_fmap, Forall_forall. intros x Hx. cbn. rewrite Forall_forall in Hall.
  destruct (is_task i x) eqn:E; [|by apply Hall]. apply is_task_true in E.
  assert (x = r) as -> by (eapply (NoDup_key_inj tk_ID); [done|done|done|congruence]).
  specialize (Hall r Hr). lia.
Qed.

(** A task that will not be run again. *)
Definition settled (r : taskRow) : Prop := tk_Status r = "completed" \/ tk_Status r = "failed".

Lemma outcome_progress r res tm out f :
  outcome r res tm = (out, f) ->
  (settled (f r) /\ tk_RetryCount (f r) = tk_RetryCount r) \/
  (tk_RetryCount (f r) = (tk_RetryCount r + 1)%Z /\ (tk_RetryCount r < tk_MaxRetries r)%Z) \/
  (tk_Status (f r) = "processing" /\ tk_RetryCount (f r) = tk_RetryCount r /\
   ((exists p, res = Panic p /\ out = Panic p) \/
    (tk_RetryCount r < tk_MaxRetries r)%Z /\ exists e, pg_plus tm (backoff (tk_RetryCount r)) = inr e /\ out = Err e)).
Proof.
  unfold outcome, settled. intros Ho. destruct res as [x|e|p]; [simplify_eq; auto| |simplify_eq; eauto 10].
  case_decide as Hlt; [|simplify_eq; auto]. destruct (pg_plus _ _) eqn:Hpg; simplify_eq; cbn; eauto 10.
Qed.

Fixpoint runs (taskID : string) (env : Env) (k : nat) (s : St State) : St State :=
  match k with
  | O => s
  | S k => runs taskID env k (snd (ProcessTask taskID env s))
  end.

(** No connector panics. *)
Definition returns (env : Env) : Prop :=
  forall conn task n w p, fst (executeOperation conn task env (mkSt n w)) <> Panic p.

(** The database accepts the new time of every attempt up to the maximum. *)
Definition accepts (env : Env) (maximum : Z) : Prop :=
  forall n k, (0 <= k < maximum)%Z -> exists t, pg_plus (clock env n) (backoff k) = inl t.

(** A run left the row in processing: the operation panicked, or the database
    refused the new time. *)
Definition stalled (out : Res unit) (r : taskRow) : Prop :=
  tk_Status r = "processing" /\ ((exists p, out = Panic p) \/ (exists e, out = Err e)).

Section Runs.
Context (taskID i : string) (env : Env) (maximum : Z).
Context (Hup : db_up env) (Hi : pg_uuid env taskID = Some i) (Hmax : (maximum < 2 ^ 31)%Z).

(** A state in which the task has been attempted [c] times. *)
Definition attempted (c : Z) (s : State) (r : taskRow) : Prop :=
  tasks_ok (pv_tasks s) /\ r ∈ pv_tasks s /\ tk_ID r = i /\ tk_RetryCount r = c /\ tk_MaxRetries r = maximum.

(** The last run of a task. *)
Definition ends (out : Res unit) (r : taskRow) : Prop :=
  settled r \/ stalled out r /\ ~ (returns env /\ accepts env maximum).

(** A run is the task's last or counts one attempt more. *)
Lemma run_progress c s r n :
  attempted c s r ->
  exists out u r', ProcessTask taskID env (mkSt n s) = (out, u) /\
    ((attempted c (st u) r' /\ ends out r') \/ (attempted (c + 1) (st u) r' /\ (c < maximum)%Z)).
Proof.
  intros (Hok & Hr & Hid & Hc & Hm).
  rewrite (ProcessTask_run taskID i env n s r) by (done || lia).
  destruct (run_operation env (S (S n)) s r) as [[res w]|] eqn:Hop; cycle 1.
  { eexists _, _, (failed "connector not found" (clock env (S (S n))) r). split; [done|]. left. split; [|by left; right].
    split_and!; cbn; try done; [by eapply on_task_ok; [..|left]|by apply on_task_elem]. }
  destruct (outcome r res (clock env (tick w))) as [out f] eqn:Hout. cbv beta iota zeta.
  eexists out, _, (f r). split; [done|]. cbn [st pv_tasks].
  destruct (outcome_row _ _ _ _ _ Hout) as (Hfid & Hfm & Hfc).
  assert (tasks_ok (on_task i f (pv_tasks s))) as Hok' by (by eapply on_task_ok).
  assert (f r ∈ on_task i f (pv_tasks s)) as Hr' by (by apply on_task_elem).
  destruct (outcome_progress _ _ _ _ _ Hout) as [[Hs Hcount]|[[Hcount Hlt]|(Hs & Hcount & Hwhy)]].
  - left. split; [|by left]. unfold attempted. cbn [pv_tasks]. by rewrite Hfid, Hfm, Hcount.
  - right. unfold attempted. cbn [pv_tasks]. rewrite Hfid, Hfm, Hcount, Hc. split_and!; try done. lia.
  - left. split; [unfold attempted; cbn [pv_tasks]; by rewrite Hfid, Hfm, Hcount|]. right.
    destruct Hwhy as [(p & -> & ->)|(Hlt & e & Hpg & ->)]; (split; [split; eauto|]); intros [Hret Hacc].
    + unfold run_operation in Hop. destruct (_ !! _) as [conn|]; [|done]. injection Hop as Hop.
      by apply (Hret conn (toTask (processing r)) (S (S n)) (rg_world (pv_registry s)) p); rewrite Hop.
    + destruct (proj1 (Forall_forall _ _) (tok_retries _ Hok) r Hr) as [Hpos _].
      destruct (Hacc (tick w) (tk_RetryCount r)) as [t Ht]; [lia|]. by rewrite Ht in Hpg.
Qed.

(** The last run comes after at most as many others as there are attempts
    left. *)
Lemma runs_end m c s r n :
  attempted c s r -> Z.to_nat (maximum - c) <= m ->
  exists k r', k <= m /\ r' ∈ pv_tasks (st (runs taskID env (S k) (mkSt n s))) /\ tk_ID r' = i /\
    ends (fst (ProcessTask taskID env (runs taskID env k (mkSt n s)))) r' /\
    (c <= tk_RetryCount r' <= Z.max c maximum)%Z.
Proof.
  revert c s r n. induction m as [|m IH]; intros c s r n Hat Hm;
    destruct (run_progress c s r n Hat) as (out & u & r' & Hu & [[(_ & Hr & Hid & Hcr & _) Hs]|[Hat' Hlt]]); try lia.
  1-2: exists 0, r'; cbn; rewrite Hu; cbn; split_and!; try done; lia.
  destruct u as [n' s']. destruct (IH (c + 1)%Z s' r' n' Hat') as (k & r'' & Hk & Hr & Hid & Hs & Hc); [lia|].
  exists (S k), r''. cbn [runs] in *. rewrite Hu. split_and!; try done; lia.
Qed.
End Runs.

(** Property C31. Retrying ends. Whether the operation succeeds or fails, a task
    with [k] attempts left is run at most [k + 1] times before it is completed,
    failed, or left in processing by a run that panicked in the connector or whose
    new time the database refused; where no connector panics and the database
    accepts the new times it is completed or failed. It is never attempted more
    often than it may. *)
Theorem retries_terminate taskID i env n (s : State) r :
  db_up env -> pg_uuid env taskID = Some i -> tasks_ok (pv_tasks s) ->
  r ∈ pv_tasks s -> tk_ID r = i -> (tk_MaxRetries r < 2 ^ 31)%Z ->
  exists k r', k <= Z.to_nat (tk_MaxRetries r - tk_RetryCount r) /\
    r' ∈ pv_tasks (st (runs taskID env (S k) (mkSt n s))) /\ tk_ID r' = i /\
    (settled r' \/ stalled (fst (ProcessTask taskID env (runs taskID env k (mkSt n s)))) r') /\
    (returns env -> accepts env (tk_MaxRetries r) -> settled r') /\
    (tk_RetryCount r <= tk_RetryCount r' <= Z.max (tk_RetryCount r) (tk_MaxRetries r))%Z.
Proof.
  intros Hup Hi Hok Hr Hid Hmax.
  destruct (runs_end taskID i env (tk_MaxRetries r) Hup Hi Hmax _ (tk_RetryCount r) s r n
              (conj Hok (conj Hr (conj Hid (conj eq_refl eq_refl)))) (le_n _)) as (k & r' & Hk & Hr' & Hid' & He & Hc).
  exists k, r'. split_and!; [done|done|done| | |apply Hc|apply Hc].
  - destruct He as [?|[? _]]; auto.
  - intros Hret Hacc. destruct He as [?|[_ []]]; auto.
Qed.

End Facts.
