(* ===== verification/ConnectorFacts.v ===== *)
(** * What the connector service does

    The table can be written but not read back, and the registry follows the
    service's calls without regard to tenants. *)
From S2P Require Import Prelude GoStd Sql Http Middleware DirectoryDemo Connectors.
Local Open Scope go_scope.

(** ** Credentials *)

(** An update keeps every stored credential that it does not give. *)
Lemma merge_credentials_lookup given existing k :
  merge_credentials given existing !! k =
    match given !! k with Some v => Some v | None => existing !! k end.
Proof.
  unfold merge_credentials. case_decide as H.
  - subst given. by rewrite lookup_empty.
  - rewrite lookup_union. by destruct (given !! k), (existing !! k).
Qed.

Section Facts.
Context {N W : Type} {connector : Connector N W}.

(** ** Reading the table *)

Lemma tenant_id_has_no_field : Exists (fun c => c ∉ connector_fields) connector_columns.
Proof. right. left. by apply (bool_decide_unpack _). Qed.

Lemma connectorStore_Get_fails tenantID id env s c u :
  sqlx_strict env -> connectorStore_Get tenantID id env s <> (Ok c, u).
Proof.
  intros Hs H. unfold connectorStore_Get in H. minv.
  by eapply sqlx_get_missing; [| |exact E1]; [|apply tenant_id_has_no_field].
Qed.

Lemma connectorStore_List_fails tenantID env s c u :
  sqlx_strict env -> connectorStore_List tenantID env s <> (Ok c, u).
Proof.
  intros Hs H. unfold connectorStore_List, sqlx_select in H. minv.
  destruct (Hs connector_fields connector_columns) as [_ Hm].
  destruct (Hm tenant_id_has_no_field) as [x Hx]. congruence.
Qed.

Abbreviation State := (ConnectorState connectors N W).

(** The columns of the table have no destination among the untagged
    fields of the struct they are scanned into: no configuration is ever read,
    listed or updated, and enabling a connector leaves the registry as it is. *)
Theorem connectors_not_read_back tenantID env (s u : St State) :
  sqlx_strict env ->
  (forall id c, GetConnector tenantID id env s <> (Ok c, u)) /\
  (forall l, ListConnectors tenantID env s <> (Ok l, u)) /\
  (forall config, UpdateConnector tenantID config env s <> (Ok tt, u)) /\
  (forall id r, ToggleConnector tenantID id true env s = (r, u) -> cns_registry (st u) = cns_registry (st s)).
Proof.
  intros Hs. split_and!.
  - intros id c H. apply zoom_Ok_inv in H as (t & H & _). by eapply connectorStore_Get_fails.
  - intros l H. apply zoom_Ok_inv in H as (t & H & _). by eapply connectorStore_List_fails.
  - intros config H. unfold UpdateConnector in H. apply bind_Ok_inv in H as (c & t & E & _).
    apply map_err_Ok_inv, zoom_Ok_inv in E as (w & E & _). by eapply connectorStore_Get_fails.
  - intros id r H. unfold ToggleConnector in H.
    destruct (bind_inv _ _ _ _ _ _ H) as [(x & t & E & H1)|(r' & E & _)].
    2: { unfold in_store, zoom in E. destruct (ck_Toggle _ _ _ _ _). by injection E as _ <-. }
    apply zoom_Ok_inv in E as (w & E & ->). unfold bind, attempt, in_store, zoom in H1. cbn [tick st] in H1.
    destruct (ck_Get tenantID id env _) as [[c|e|p] v] eqn:Eg; cbn in H1; [|injection H1 as _ <-; done..].
    by eapply connectorStore_Get_fails in Eg.
Qed.
End Facts.

(** ** The registry *)

Section Registered.
Context {D N W : Type} {store : ConnectorStore D} {connector : Connector N W}.

Abbreviation State := (ConnectorState D N W).

(** Deleting by another tenant: the table is untouched and the connector is
    closed and dropped. *)
Theorem delete_drops_any_connector tenantID id env n (s : State) conn t :
  ck_Delete tenantID id env (mkSt n (cns_store s)) = (Ok tt, t) ->
  rg_connectors (cns_registry s) !! id = Some conn ->
  (forall k w, exists v, conn_Close conn env (mkSt k w) = (Ok tt, v)) ->
  exists u, DeleteConnector tenantID id env (mkSt n s) = (Ok tt, u) /\
    cns_store (st u) = st t /\ rg_connectors (cns_registry (st u)) !! id = None.
Proof.
  intros Hd Hc Hclose. unfold DeleteConnector, bind, in_store, zoom. cbn [tick st]. rewrite Hd.
  unfold ignore, bind, attempt, in_registry, zoom, registry_Remove, gets, bind. cbn [tick st cns_registry].
  rewrite Hc. unfold map_err, in_world, zoom. cbn [tick st].
  destruct (Hclose (tick t) (rg_world (cns_registry s))) as [v ->].
  eexists. split; [reflexivity|]. cbn. split; [done|]. apply lookup_delete_eq.
Qed.
End Registered.
