(* ===== verification/ProvisioningDemo.v ===== *)
(** * Provisioning at work

    A connector whose system is down, a task for it, and the database's reading
    of the delays: the hypotheses of the theorems of ConnectorFacts.v and
    ProvisioningFacts.v can be met. *)
From S2P Require Import Prelude GoStd Sql Http AuthDemo DirectoryDemo ScimDemo Connectors ConnectorFacts Provisioning ProvisioningFacts.
Local Open Scope go_scope.

(** A connector that counts the calls and refuses each. *)
Definition refuse {A} : M nat A := modify S;; fail (ErrNew "503 Service Unavailable").

Definition down : Connector unit nat := {|
  conn_ID := fun _ => ret "c"; conn_Name := fun _ => ret "down"; conn_Type := fun _ => "scim";
  conn_Initialize := fun _ _ => ret tt; conn_HealthCheck := fun _ => refuse; conn_Close := fun _ => ret tt;
  conn_CreateUser := fun _ _ => refuse; conn_GetUser := fun _ _ => refuse; conn_UpdateUser := fun _ _ _ => refuse;
  conn_DeleteUser := fun _ _ => refuse; conn_ListUsers := fun _ _ _ _ => refuse;
  conn_CreateGroup := fun _ _ => refuse; conn_GetGroup := fun _ _ => refuse; conn_UpdateGroup := fun _ _ _ => refuse;
  conn_DeleteGroup := fun _ _ => refuse; conn_ListGroups := fun _ _ _ _ => refuse;
  conn_AddUserToGroup := fun _ _ _ => refuse; conn_RemoveUserFromGroup := fun _ _ _ => refuse;
  conn_GetGroupMembers := fun _ _ => refuse |}.

(** Postgres reads the digits it is given for an interval as seconds, and
    refuses a time after the year 294276. *)
Definition in_seconds : PgInterval := fun now d =>
  if decide (now + d * second < 9224318016000 * second)%Z then inl (now + d * second)%Z
  else inr (ErrDB "pq: timestamp out of range").

#[local] Existing Instances down in_seconds.

Definition demo_task : taskRow :=
  mkTaskRow (demo_uuid 601) tenantA (demo_uuid 501) "delete_user" "user" (Some (demo_uuid 101)) JNull
    "pending" None 0 2 0 None 0.

Definition demo_queue : ProvState unit nat :=
  mkProv [demo_task] (mkRegistry ∅ {[ demo_uuid 501 := tt ]} 0).

Lemma demo_queue_ok : tasks_ok (pv_tasks demo_queue).
Proof. split; [by apply (bool_decide_unpack _)|]. apply Forall_singleton. cbn. lia. Qed.

Lemma demo_task_queued : demo_task ∈ pv_tasks demo_queue.
Proof. by apply list_elem_of_singleton. Qed.

(** The run schedules the second attempt. *)
Lemma process_task_outcome_witness :
  exists u, ProcessTask (demo_uuid 601) demo_env (mkSt 0 demo_queue) = (Ok tt, u) /\
    map tk_RetryCount (pv_tasks (st u)) = [1%Z] /\ map tk_Status (pv_tasks (st u)) = ["pending"].
Proof.
  destruct (process_task_outcome (demo_uuid 601) (demo_uuid 601) demo_env 0
    demo_queue demo_task demo_env_up (demo_uuid_canonical 601) demo_queue_ok demo_task_queued eq_refl eq_refl)
    as (out & r & u & E & Hrows & _ & Hfate).
  assert (out = Ok tt /\ tk_Status r = "pending" /\ tk_RetryCount r = 1%Z) as (-> & Hs & Hc).
  { revert Hfate. vm_compute. intros (-> & -> & _ & -> & _). auto. }
  exists u. rewrite Hrows. cbn. rewrite decide_True by done. rewrite Hs, Hc. auto.
Defined.

Lemma down_returns env : returns (connector := down) env.
Proof.
  intros conn task n w p. unfold executeOperation.
  repeat case_decide; cbn; try done;
    [destruct (decode_user _)|destruct (decode_user _)|destruct (decode_membership _)|destruct (decode_membership _)];
    done.
Qed.

(** The same machine with its clock stopped. *)
Definition noon : Env := frozen demo_env 0.

(** Two attempts and the last one: settled after at most three runs. *)
Lemma retries_terminate_witness :
  exists k r, k <= 3 /\ r ∈ pv_tasks (st (runs (demo_uuid 601) noon k (mkSt 0 demo_queue))) /\
    settled r /\ (0 <= tk_RetryCount r <= 2)%Z.
Proof.
  destruct (retries_terminate (demo_uuid 601) (demo_uuid 601) noon 0
              demo_queue demo_task demo_env_up (demo_uuid_canonical 601) demo_queue_ok
              demo_task_queued eq_refl eq_refl) as (k & r & Hk & Hr & _ & _ & Hs & Hc).
  exists (S k), r. split_and!; [cbn in Hk; lia|exact Hr| |apply Hc|apply Hc].
  apply Hs; [apply down_returns|].
  intros m j Hj. cbn in Hj. assert (j = 0 \/ j = 1)%Z as [-> | ->] by lia; by eexists.
Defined.

(** ** The delays *)

Definition year : Z := 365 * 24 * hour.

(** A task whose operation failed is not run again for nineteen centuries: the
    delay is given in nanoseconds and read as seconds. *)
Theorem retries_wait_centuries r e tm f env n (s : ProvState unit nat) :
  (0 <= tk_RetryCount r <= 27)%Z -> (tk_RetryCount r < tk_MaxRetries r)%Z ->
  outcome r (Err e) tm = (Ok tt, f) -> pv_tasks s = [f r] -> (clock env n < tm + 1900 * year)%Z -> db_up env ->
  ListPendingTasks 10 env (mkSt n s) = (Ok [], mkSt (S n) s).
Proof.
  intros Hc Hlt Ho Hs Hn Hup.
  destruct (proj1 backoff_values _ Hc) as [Hb _].
  assert (1 <= 2 ^ tk_RetryCount r)%Z by (change 1%Z with (2 ^ 0)%Z; apply Z.pow_le_mono_r; lia).
  unfold outcome in Ho. rewrite decide_True in Ho by done. unfold pg_plus, in_seconds in Ho. case_decide; [|done].
  injection Ho as <-. unfold ListPendingTasks, in_tasks, zoom. rewrite statement_up by done. cbn [tick st].
  rewrite Hs, filter_cons_False; [by destruct s; cbn in *; subst|].
  intros [_ Hle]. cbn [tk_ScheduledAt retried with_outcome] in Hle. rewrite Hb in Hle.
  unfold year, hour, minute, second in *. lia.
Qed.

(** ** The connectors *)

Definition one_connector : ConnectorState connectors unit nat :=
  mkConnectorState
    [mkConnectorRow (demo_uuid 501) tenantA "payroll" "scim" true "https://payroll.example.com" ∅ ∅ 0 0]
    (mkRegistry ∅ ∅ 0).

Lemma connectors_not_read_back_witness :
  is_ok (fst (GetConnector (D := connectors) tenantA (demo_uuid 501) demo_env (mkSt 0 one_connector))) = false.
Proof.
  destruct (GetConnector tenantA (demo_uuid 501) demo_env (mkSt 0 one_connector)) as [[c|e|p] u] eqn:E;
    [|reflexivity..].
  destruct (proj1 (connectors_not_read_back tenantA demo_env (mkSt 0 one_connector) u demo_env_strict) _ c E).
Defined.
