(* ===== verification/AuditLog.v ===== *)
(** * The audit log

    internal/audit: the events (table audit_logs of migration 8), the store
    that writes its queries as SQL text with numbered parameters, the service
    and the handlers.

    The text of a query matters here, since it is assembled at run time: it is
    built as a string, and [pg_select] is what Postgres makes of such strings. *)
From S2P Require Import Prelude GoStd GoText Sql Http Middleware.
Local Open Scope go_scope.

(** ** store.go: the data *)

Record Event : Type := mkEvent {
  ev_ID : string;
  ev_TenantID : string;
  ev_Timestamp : Z;
  ev_ActorID : option string;
  ev_ActorType : string;
  ev_Action : string;
  ev_ResourceType : string;
  ev_ResourceID : option string;
  ev_ResourceName : option string;
  ev_Details : option json;
  ev_IPAddress : option string;
  ev_UserAgent : option string;
  ev_Outcome : string
}.

(** [li_Details] is nil, or what [json.Marshal] makes of the value. *)
Record LogInput : Type := mkLogInput {
  li_TenantID : string;
  li_ActorID : option string;
  li_ActorType : string;
  li_Action : string;
  li_ResourceType : string;
  li_ResourceID : option string;
  li_ResourceName : option string;
  li_Details : option (json + error);
  li_IPAddress : option string;
  li_UserAgent : option string;
  li_Outcome : string
}.

Record QueryParams : Type := mkQueryParams {
  qp_TenantID : string;
  qp_ActorID : option string;
  qp_Action : option string;
  qp_ResourceType : option string;
  qp_ResourceID : option string;
  qp_Outcome : option string;
  qp_StartTime : option Z;
  qp_EndTime : option Z;
  qp_Limit : Z;
  qp_Offset : Z
}.

(** ** What Postgres makes of a query *)

(** A parameter of a query. *)
Inductive arg : Type := AText (s : string) | ATime (t : Z) | AInt (n : Z).

(** A parameter [$n]; the lexer takes digits only. *)
Definition pg_param (w : string) : option nat :=
  match w with
  | String a r =>
      if decide (byte_N a = 36%N /\ r <> estr) then
        match parse_digits 0 r with DigitsOk (Zpos p) => Some (Pos.to_nat p) | _ => None end
      else None
  | EmptyString => None
  end.

(** [column op $n] *)
Record cond : Type := mkCond { cd_col : string; cd_op : string; cd_param : nat }.

Record select : Type := mkSelect {
  sl_what : string;
  sl_conds : list cond;
  sl_limit : option nat;
  sl_offset : option nat
}.

Fixpoint pg_where (ws : list string) : option (list cond * list string) :=
  match ws with
  | col :: op :: p :: rest =>
      match pg_param p with
      | None => None
      | Some n =>
          match rest with
          | w :: rest' =>
              if decide (w = "AND")
              then match pg_where rest' with
                   | Some (cs, tail) => Some (mkCond col op n :: cs, tail)
                   | None => None
                   end
              else Some ([mkCond col op n], rest)
          | [] => Some ([mkCond col op n], [])
          end
      end
  | _ => None
  end.

(** An optional clause [keyword $n]. *)
Definition pg_clause (keyword : string) (ws : list string) : option (option nat * list string) :=
  match ws with
  | w :: rest =>
      if decide (w = keyword)
      then match rest with
           | p :: rest' => match pg_param p with Some n => Some (Some n, rest') | None => None end
           | [] => None
           end
      else Some (None, ws)
  | [] => Some (None, [])
  end.

Definition pg_order (ws : list string) : list string :=
  match ws with
  | w1 :: w2 :: w3 :: w4 :: rest =>
      if decide ([w1; w2; w3; w4] = ["ORDER"; "BY"; "timestamp"; "DESC"]) then rest else ws
  | _ => ws
  end.

(** [SELECT what FROM audit_logs WHERE ... [ORDER BY timestamp DESC] [LIMIT $n] [OFFSET $n]] *)
Definition pg_parse (text : string) : option select :=
  match strings_Split text (Ascii.ascii_of_nat 32) with
  | w1 :: what :: w2 :: w3 :: w4 :: ws =>
      if decide ([w1; w2; w3; w4] = ["SELECT"; "FROM"; "audit_logs"; "WHERE"]) then
        '(cs, ws) ← pg_where ws;
        '(lim, ws) ← pg_clause "LIMIT" (pg_order ws);
        '(off, ws) ← pg_clause "OFFSET" ws;
        if decide (ws = []) then Some (mkSelect what cs lim off) else None
      else None
  | _ => None
  end.

(** A text parameter compared with a UUID column is read as one. *)
Definition uuid_column (col : string) : bool :=
  bool_decide (col ∈ ["id"; "tenant_id"; "actor_id"; "resource_id"]).

Definition pg_bind (env : Env) (col : string) (a : arg) : arg + error :=
  match a with
  | AText s =>
      if uuid_column col
      then match pg_uuid env s with
           | Some u => inl (AText u)
           | None => inr (ErrDB "pq: invalid input syntax for type uuid")
           end
      else inl a
  | _ => inl a
  end.

(** The value of a column the queries name. *)
Definition pg_column (col : string) (e : Event) : option arg :=
  if decide (col = "tenant_id") then Some (AText (ev_TenantID e))
  else if decide (col = "actor_id") then AText <$> ev_ActorID e
  else if decide (col = "action") then Some (AText (ev_Action e))
  else if decide (col = "resource_type") then Some (AText (ev_ResourceType e))
  else if decide (col = "resource_id") then AText <$> ev_ResourceID e
  else if decide (col = "outcome") then Some (AText (ev_Outcome e))
  else if decide (col = "timestamp") then Some (ATime (ev_Timestamp e))
  else None.

(** NULL compares with nothing. *)
Definition pg_compare (op : string) (v : option arg) (a : arg) : bool :=
  match v, a with
  | Some (AText x), AText y => bool_decide (op = "=" /\ x = y)
  | Some (ATime x), ATime y =>
      (bool_decide (op = ">=") && (y <=? x)%Z) || (bool_decide (op = "<=") && (x <=? y)%Z)
  | _, _ => false
  end.

Fixpoint pg_filter (env : Env) (args : list arg) (cs : list cond) : (Event -> bool) + error :=
  match cs with
  | [] => inl (fun _ => true)
  | c :: rest =>
      match args !! pred (cd_param c) with
      | None => inr (ErrDB "pq: there is no parameter")
      | Some a =>
          match pg_bind env (cd_col c) a, pg_filter env args rest with
          | inl b, inl f => inl (fun e => pg_compare (cd_op c) (pg_column (cd_col c) e) b && f e)
          | inr err, _ => inr err
          | _, inr err => inr err
          end
      end
  end.

(** A count given by a parameter; no clause, no bound. *)
Definition pg_int (args : list arg) (n : option nat) (absent : Z) : Z + error :=
  match n with
  | None => inl absent
  | Some n => match args !! pred n with Some (AInt z) => inl z | _ => inr (ErrDB "pq: there is no parameter") end
  end.

Definition pg_select (what : string) (env : Env) (n : nat) (text : string) (args : list arg) (rows : list Event) : list Event + error :=
  match pg_parse text with
  | None => inr (ErrDB "pq: syntax error")
  | Some q =>
      if decide (sl_what q <> what) then inr (ErrDB "pq: syntax error")
      else match pg_filter env args (sl_conds q) with
      | inr e => inr e
      | inl f =>
          let found := order_by_desc ev_Timestamp (reorder (row_order env n) (filter f rows)) in
          match pg_int args (sl_limit q) (Z.of_nat (length found)), pg_int args (sl_offset q) 0 with
          | inl limit, inl offset => sql_page limit offset found
          | inr e, _ => inr e
          | _, inr e => inr e
          end
      end
  end.

(** What the driver makes of a nil [[]byte]: NULL, or an empty text. *)
Class NilBytes : Type := nil_is_null : bool.

(** An address for an INET column, in the form it is read back. *)
Class PgInet : Type := pg_inet : string -> option string.

(** ** store.go: the operations *)

Class AuditStore (D : Type) : Type := {
  as_Log : Event -> M D string;
  as_Query : QueryParams -> M D (list Event * Z);
  as_GetEvent : string -> string -> M D Event
}.

(** One byte for a digit, and other bytes beyond nine. *)
Definition itoa (i : Z) : string := rune_string (48 + i)%Z.

(** The variables [query], [countQuery], [args] and [argIdx]. *)
Record Builder : Type := mkBuilder {
  bq_query : string;
  bq_count : string;
  bq_args : list arg;
  bq_idx : Z
}.

Definition start_query (tenantID : string) : Builder :=
  mkBuilder "SELECT * FROM audit_logs WHERE tenant_id = $1" "SELECT COUNT(*) FROM audit_logs WHERE tenant_id = $1"
    [AText tenantID] 2.

(** [if v != nil { query += cond + itoa(argIdx); ... }] *)
Definition add_filter (cond : string) (v : option arg) (b : Builder) : Builder :=
  match v with
  | None => b
  | Some a =>
      mkBuilder (bq_query b +:+ cond +:+ itoa (bq_idx b)) (bq_count b +:+ cond +:+ itoa (bq_idx b))
        (bq_args b ++ [a]) (bq_idx b + 1)
  end.

Definition add_filters (params : QueryParams) (b : Builder) : Builder :=
  add_filter " AND timestamp <= $" (ATime <$> qp_EndTime params)
  (add_filter " AND timestamp >= $" (ATime <$> qp_StartTime params)
  (add_filter " AND outcome = $" (AText <$> qp_Outcome params)
  (add_filter " AND resource_id = $" (AText <$> qp_ResourceID params)
  (add_filter " AND resource_type = $" (AText <$> qp_ResourceType params)
  (add_filter " AND action = $" (AText <$> qp_Action params)
  (add_filter " AND actor_id = $" (AText <$> qp_ActorID params) b)))))).

(** [if n > 0 { query += clause + itoa(argIdx); ... }] *)
Definition add_clause (clause : string) (n : Z) (b : Builder) : Builder :=
  if decide (0 < n)%Z
  then mkBuilder (bq_query b +:+ clause +:+ itoa (bq_idx b)) (bq_count b) (bq_args b ++ [AInt n]) (bq_idx b + 1)
  else b.

Definition add_pagination (params : QueryParams) (b : Builder) : Builder :=
  add_clause " OFFSET $" (qp_Offset params)
    (add_clause " LIMIT $" (qp_Limit params)
       (mkBuilder (bq_query b +:+ " ORDER BY timestamp DESC") (bq_count b) (bq_args b) (bq_idx b))).

(** [database/sql] cannot store NULL in a [json.RawMessage]. *)
Definition scan_event (e : Event) : Event + error :=
  match ev_Details e with
  | Some _ => inl e
  | None => inr (ErrLib "sql: Scan error on column index 9, name details: unsupported Scan")
  end.

Fixpoint scan_events (l : list Event) : list Event + error :=
  match l with
  | [] => inl []
  | e :: r =>
      match scan_event e, scan_events r with
      | inl e, inl l => inl (e :: l)
      | inr err, _ => inr err
      | _, inr err => inr err
      end
  end.

Section Store.
Context {nil_bytes : NilBytes} {inet : PgInet}.

Abbreviation AM := (M (list Event)).

(** A nullable argument. *)
Definition optional_arg {A B} (check : A -> AM B) (v : option A) : AM (option B) :=
  match v with None => ret None | Some x => y <- check x;; ret (Some y) end.

Definition inet_arg (v : string) : AM string :=
  match pg_inet v with Some a => ret a | None => fail (ErrDB "pq: invalid input syntax for type inet") end.

Definition text_arg (n : nat) (v : string) : AM string := varchar_arg n v;; ret v.

Definition details_arg (v : option json) : AM (option json) :=
  if decide (v = None /\ nil_is_null = false) then fail (ErrDB "pq: invalid input syntax for type json") else ret v.

Definition auditStore_Log (e : Event) : AM string :=
  t <- uuid_arg (ev_TenantID e);;
  actor <- optional_arg uuid_arg (ev_ActorID e);;
  varchar_arg 50 (ev_ActorType e);;
  varchar_arg 100 (ev_Action e);;
  varchar_arg 100 (ev_ResourceType e);;
  resource <- optional_arg uuid_arg (ev_ResourceID e);;
  name <- optional_arg (text_arg 255) (ev_ResourceName e);;
  details <- details_arg (ev_Details e);;
  ip <- optional_arg inet_arg (ev_IPAddress e);;
  varchar_arg 50 (ev_Outcome e);;
  sql_insert (fun new old => bool_decide (ev_ID new = ev_ID old))
    (fun tm id => (mkEvent id t tm actor (ev_ActorType e) (ev_Action e) (ev_ResourceType e) resource name details ip
                     (ev_UserAgent e) (ev_Outcome e), id)).

Definition auditStore_Query (params : QueryParams) : AM (list Event * Z) :=
  let b := add_filters params (start_query (qp_TenantID params)) in
  total <- statement (fun env n rows =>
    match pg_select "COUNT(*)" env n (bq_count b) (bq_args b) rows with
    | inl l => inl (Z.of_nat (length l), rows)
    | inr e => inr e
    end);;
  let b := add_pagination params b in
  found <- statement (fun env n rows =>
    match pg_select "*" env n (bq_query b) (bq_args b) rows with
    | inl l => inl (l, rows)
    | inr e => inr e
    end);;
  events <- decoded (scan_events found);;
  ret (events, total).

Definition auditStore_GetEvent (tenantID id : string) : AM Event :=
  i <- uuid_arg id;;
  t <- uuid_arg tenantID;;
  e <- sql_get (fun e => bool_decide (ev_ID e = i /\ ev_TenantID e = t));;
  decoded (scan_event e).

#[export] Instance auditStore : AuditStore (list Event) := {|
  as_Log := auditStore_Log;
  as_Query := auditStore_Query;
  as_GetEvent := auditStore_GetEvent
|}.
End Store.

(** ** service.go *)

Section Service.
Context {D : Type} {store : AuditStore D}.

Definition audit_event (input : LogInput) (details : option json) : Event :=
  mkEvent estr (li_TenantID input) 0 (li_ActorID input)
    (if decide (li_ActorType input = estr) then "user" else li_ActorType input) (li_Action input)
    (li_ResourceType input) (li_ResourceID input) (li_ResourceName input) details (li_IPAddress input)
    (li_UserAgent input) (if decide (li_Outcome input = estr) then "success" else li_Outcome input).

Definition audit_Log (input : LogInput) : M D unit :=
  if decide (li_TenantID input = estr) then fail (ErrNew "tenant_id is required")
  else if decide (li_Action input = estr) then fail (ErrNew "action is required")
  else if decide (li_ResourceType input = estr) then fail (ErrNew "resource_type is required")
  else
    details <- match li_Details input with
               | None => ret None
               | Some (inl j) => ret (Some j)
               | Some (inr err) => fail (ErrWrap "failed to serialize details" err)
               end;;
    _ <- as_Log (audit_event input details);;
    ret tt.

Definition with_page (limit offset : Z) (p : QueryParams) : QueryParams :=
  mkQueryParams (qp_TenantID p) (qp_ActorID p) (qp_Action p) (qp_ResourceType p) (qp_ResourceID p) (qp_Outcome p)
    (qp_StartTime p) (qp_EndTime p) limit offset.

Definition page_limit (limit : Z) : Z :=
  let limit := if decide (limit = 0)%Z then 100%Z else limit in
  if decide (limit > 1000)%Z then 1000%Z else limit.

Definition audit_Query (params : QueryParams) : M D (list Event * Z) :=
  as_Query (with_page (page_limit (qp_Limit params)) (qp_Offset params) params).

Definition audit_Export (params : QueryParams) : M D (list Event) :=
  r <- as_Query (with_page 10000 0 params);;
  ret (fst r).

Definition audit_GetEvent (tenantID id : string) : M D Event := as_GetEvent tenantID id.

(** ** api.go *)

Definition audit_tenantID (c : GinCtx) (k : string -> M D Response) : M D Response :=
  with_tenant "tenant id required" c k.

(** [if v := c.Query(key); v != ""]: the value, when there is one. *)
Definition query_value (c : GinCtx) (key : string) : option string :=
  if decide (Query c key = estr) then None else Some (Query c key).

(** A number that does not parse is passed over. *)
Definition query_int (c : GinCtx) (key : string) : Z :=
  match query_value c key with
  | Some v => let '(n, ok) := strconv_Atoi v in if (ok : bool) then n else 0%Z
  | None => 0%Z
  end.

Definition query_params (c : GinCtx) (tenantID : string) (limit offset : Z) : QueryParams :=
  mkQueryParams tenantID (query_value c "actor_id") (query_value c "action") (query_value c "resource_type")
    (query_value c "resource_id") (query_value c "outcome")
    (query_value c "start_time" ≫= time_Parse_RFC3339) (query_value c "end_time" ≫= time_Parse_RFC3339)
    limit offset.

Definition optional_json (k : string) (v : option string) : list (string * json) :=
  match v with Some x => [(k, JStr x)] | None => [] end.

Definition Event_json (e : Event) : json :=
  JObj ([("id", JStr (ev_ID e)); ("tenant_id", JStr (ev_TenantID e)); ("timestamp", JNum (ev_Timestamp e))]
        ++ optional_json "actor_id" (ev_ActorID e)
        ++ [("actor_type", JStr (ev_ActorType e)); ("action", JStr (ev_Action e));
            ("resource_type", JStr (ev_ResourceType e))]
        ++ optional_json "resource_id" (ev_ResourceID e) ++ optional_json "resource_name" (ev_ResourceName e)
        ++ match ev_Details e with Some d => [("details", d)] | None => [] end
        ++ optional_json "ip_address" (ev_IPAddress e) ++ optional_json "user_agent" (ev_UserAgent e)
        ++ [("outcome", JStr (ev_Outcome e))]).

Definition queryLogs : Handler D :=
  fun c => audit_tenantID c (fun tenantID =>
    let params := query_params c tenantID (query_int c "limit") (query_int c "offset") in
    or_respond (verbatim 500) (audit_Query params) (fun r =>
    ret (respond 200 (JObj [("events", slice_json Event_json (fst r)); ("total", JNum (snd r));
                            ("limit", JNum (qp_Limit params)); ("offset", JNum (qp_Offset params))])))).

Definition getEvent : Handler D :=
  fun c => audit_tenantID c (fun tenantID =>
    or_respond (fixed 404 "event not found") (audit_GetEvent tenantID (Param c "id")) (fun e =>
    ret (respond 200 (Event_json e)))).

Definition strVal (s : option string) : string := default estr s.

Definition csv_header : list string :=
  ["Time"; "Actor ID"; "Actor Type"; "Action"; "Resource Type"; "Resource Name"; "Outcome"; "IP Address"].

Definition csv_row (e : Event) : list string :=
  [time_RFC3339 (ev_Timestamp e); strVal (ev_ActorID e); ev_ActorType e; ev_Action e; ev_ResourceType e;
   strVal (ev_ResourceName e); ev_Outcome e; strVal (ev_IPAddress e)].

(** The body is the text of the document. *)
Definition exportLogs : Handler D :=
  fun c => audit_tenantID c (fun tenantID =>
    or_respond (verbatim 500) (audit_Export (query_params c tenantID 0 0)) (fun events =>
    ret (respond 200 (JStr (csv_document (csv_header :: map csv_row events)))))).
End Service.
