(* ===== verification/AuditFacts.v ===== *)
(** * What the audit log guarantees

    The SQL a query writes means what its parameters ask for, up to the one
    combination of parameters whose text is malformed; a logged event is read
    back; tenants do not see each other's events. *)
From S2P Require Import Prelude GoStd GoText Sql Http Middleware AuditLog.
Local Open Scope go_scope.

(** ** The text of a query

    The conditions, in the order the code adds them: a column, an operator and
    the parameter, if it is given. *)
Definition spec : Type := string * string * option arg.

Definition specs (p : QueryParams) : list spec :=
  [("tenant_id", "=", Some (AText (qp_TenantID p)));
   ("actor_id", "=", AText <$> qp_ActorID p); ("action", "=", AText <$> qp_Action p);
   ("resource_type", "=", AText <$> qp_ResourceType p); ("resource_id", "=", AText <$> qp_ResourceID p);
   ("outcome", "=", AText <$> qp_Outcome p);
   ("timestamp", ">=", ATime <$> qp_StartTime p); ("timestamp", "<=", ATime <$> qp_EndTime p)].

Definition spec_args (l : list spec) : list arg := omap snd l.

(** The conditions that are given, numbered from [k]. *)
Fixpoint spec_conds (k : nat) (l : list spec) : list cond :=
  match l with
  | [] => []
  | (col, op, None) :: r => spec_conds k r
  | (col, op, Some _) :: r => mkCond col op k :: spec_conds (S k) r
  end.

Definition given {A} (v : option A) : bool := match v with Some _ => true | None => false end.

(** Every filter is used. *)
Definition all_filters (p : QueryParams) : bool :=
  given (qp_ActorID p) && given (qp_Action p) && given (qp_ResourceType p) && given (qp_ResourceID p) &&
  given (qp_Outcome p) && given (qp_StartTime p) && given (qp_EndTime p).

(** Ten parameters: the tenth is the one the code cannot number. *)
Definition overfull (p : QueryParams) : Prop := all_filters p = true /\ (0 < qp_Limit p)%Z /\ (0 < qp_Offset p)%Z.

Definition filtered (p : QueryParams) : Builder := add_filters p (start_query (qp_TenantID p)).

Lemma filtered_args p : bq_args (filtered p) = spec_args (specs p).
Proof.
  destruct p as [t a1 a2 a3 a4 a5 a6 a7 l o]. unfold filtered, add_filters, start_query, specs. cbn [qp_TenantID qp_ActorID qp_Action qp_ResourceType qp_ResourceID qp_Outcome qp_StartTime qp_EndTime].
  by destruct a1, a2, a3, a4, a5, a6, a7.
Qed.

Definition limit_param (p : QueryParams) : option nat :=
  if decide (0 < qp_Limit p)%Z then Some (S (length (spec_args (specs p)))) else None.

Definition offset_param (p : QueryParams) : option nat :=
  if decide (0 < qp_Offset p)%Z
  then Some (S (length (spec_args (specs p)) + (if decide (0 < qp_Limit p)%Z then 1 else 0))) else None.

Lemma count_text p : pg_parse (bq_count (filtered p)) = Some (mkSelect "COUNT(*)" (spec_conds 1 (specs p)) None None).
Proof.
  destruct p as [t a1 a2 a3 a4 a5 a6 a7 l o].
  destruct a1, a2, a3, a4, a5, a6, a7; vm_compute; reflexivity.
Qed.

Lemma query_text p :
  ~ overfull p ->
  pg_parse (bq_query (add_pagination p (filtered p))) =
    Some (mkSelect "*" (spec_conds 1 (specs p)) (limit_param p) (offset_param p)).
Proof.
  destruct p as [t a1 a2 a3 a4 a5 a6 a7 l o]. unfold overfull, add_pagination, add_clause, limit_param, offset_param.
  cbn [qp_Limit qp_Offset]. intros H.
  destruct (decide (0 < l)%Z), (decide (0 < o)%Z);
    destruct a1, a2, a3, a4, a5, a6, a7; try (vm_compute; reflexivity). exfalso. apply H. done.
Qed.

(** The tenth parameter. *)
Lemma overfull_text p : overfull p -> pg_parse (bq_query (add_pagination p (filtered p))) = None.
Proof.
  destruct p as [t a1 a2 a3 a4 a5 a6 a7 l o]. unfold overfull, add_pagination, add_clause, all_filters.
  cbn [qp_Limit qp_Offset qp_ActorID qp_Action qp_ResourceType qp_ResourceID qp_Outcome qp_StartTime qp_EndTime].
  intros (Ha & Hl & Ho). rewrite !decide_True by done.
  destruct a1, a2, a3, a4, a5, a6, a7; done.
Qed.

(** ** What the conditions select *)

Fixpoint spec_filter (env : Env) (l : list spec) : (Event -> bool) + error :=
  match l with
  | [] => inl (fun _ => true)
  | (_, _, None) :: r => spec_filter env r
  | (col, op, Some a) :: r =>
      match pg_bind env col a, spec_filter env r with
      | inl b, inl f => inl (fun e => pg_compare op (pg_column col e) b && f e)
      | inr err, _ => inr err
      | _, inr err => inr err
      end
  end.

Lemma pg_filter_spec env pre l post :
  pg_filter env (pre ++ spec_args l ++ post) (spec_conds (S (length pre)) l) = spec_filter env l.
Proof.
  revert pre. induction l as [|[[col op] [a|]] l IH]; intros pre; [done| |by apply IH].
  cbn [spec_conds pg_filter spec_filter cd_param cd_col cd_op Nat.pred].
  change (spec_args ((col, op, Some a) :: l)) with (a :: spec_args l).
  cbn [app]. rewrite list_lookup_middle by done. specialize (IH (pre ++ [a])).
  rewrite length_app, Nat.add_1_r, <- app_assoc in IH. cbn [app] in *. by rewrite IH.
Qed.

(** An identifier given as a filter, in the form it is compared in. *)
Definition canonical (env : Env) (v : option string) : option (option string) :=
  match v with None => Some None | Some x => Some <$> pg_uuid env x end.

Definition accepts {A} (v : option A) (f : A -> bool) : bool := match v with None => true | Some x => f x end.

(** The events a query asks for: of the tenant, and passing each filter that
    is given. *)
Definition matches (t : string) (actor resource : option string) (p : QueryParams) (e : Event) : bool :=
  bool_decide (ev_TenantID e = t) &&
  accepts actor (fun a => bool_decide (ev_ActorID e = Some a)) &&
  accepts (qp_Action p) (fun a => bool_decide (ev_Action e = a)) &&
  accepts (qp_ResourceType p) (fun a => bool_decide (ev_ResourceType e = a)) &&
  accepts resource (fun a => bool_decide (ev_ResourceID e = Some a)) &&
  accepts (qp_Outcome p) (fun a => bool_decide (ev_Outcome e = a)) &&
  accepts (qp_StartTime p) (fun s => (s <=? ev_Timestamp e)%Z) &&
  accepts (qp_EndTime p) (fun s => (ev_Timestamp e <=? s)%Z).

Lemma accepts_fmap {A B} (g : A -> B) v f : accepts (g <$> v) f = accepts v (fun x => f (g x)).
Proof. by destruct v. Qed.

Lemma accepts_ext {A} (v : option A) f g : (forall x, f x = g x) -> accepts v f = accepts v g.
Proof. intros H. destruct v; [apply H|done]. Qed.

Lemma compare_text x y : pg_compare "=" (Some (AText x)) (AText y) = bool_decide (x = y).
Proof. cbn. apply bool_decide_ext. tauto. Qed.

Lemma compare_null v y : pg_compare "=" (AText <$> v) (AText y) = bool_decide (v = Some y).
Proof. destruct v as [x|]; [|done]. cbn. apply bool_decide_ext. naive_solver. Qed.

Lemma compare_from x y : pg_compare ">=" (Some (ATime x)) (ATime y) = (y <=? x)%Z.
Proof. cbn. by rewrite orb_false_r. Qed.

Lemma compare_to x y : pg_compare "<=" (Some (ATime x)) (ATime y) = (x <=? y)%Z.
Proof. done. Qed.

Lemma spec_filter_optional env col op v rest f :
  spec_filter env rest = inl f -> uuid_column col = false \/ (exists t, v = Some (ATime t)) \/ v = None ->
  exists g, spec_filter env ((col, op, v) :: rest) = inl g /\
    forall e, g e = accepts v (pg_compare op (pg_column col e)) && f e.
Proof.
  intros Hf Hv. destruct v as [a|]; [|by exists f]. cbn [spec_filter]. rewrite Hf.
  assert (pg_bind env col a = inl a) as ->.
  { destruct Hv as [Hv|[[t [= ->]]|]]; [|done|done]. destruct a; [|done..]. cbn. by rewrite Hv. }
  by eexists.
Qed.

Lemma spec_filter_uuid env col v c rest f :
  spec_filter env rest = inl f -> uuid_column col = true -> canonical env v = Some c ->
  exists g, spec_filter env ((col, "=", AText <$> v) :: rest) = inl g /\
    forall e, g e = accepts c (fun x => pg_compare "=" (pg_column col e) (AText x)) && f e.
Proof.
  intros Hf Hu Hc. destruct v as [x|]; cbn in Hc; [|simplify_eq; by exists f].
  destruct (pg_uuid env x) as [y|] eqn:Ey; [|done]. simplify_eq/=.
  rewrite Hu, Ey, Hf. by eexists.
Qed.

Lemma spec_filter_matches env p t actor resource :
  pg_uuid env (qp_TenantID p) = Some t -> canonical env (qp_ActorID p) = Some actor ->
  canonical env (qp_ResourceID p) = Some resource ->
  exists f, spec_filter env (specs p) = inl f /\ forall e, f e = matches t actor resource p e.
Proof.
  intros Ht Ha Hr. unfold specs.
  edestruct (spec_filter_optional env "timestamp" "<=" (ATime <$> qp_EndTime p) []) as (f1 & H1 & E1);
    [done|destruct (qp_EndTime p); eauto|].
  edestruct (spec_filter_optional env "timestamp" ">=" (ATime <$> qp_StartTime p)) as (f2 & H2 & E2);
    [exact H1|destruct (qp_StartTime p); eauto|].
  edestruct (spec_filter_optional env "outcome" "=" (AText <$> qp_Outcome p)) as (f3 & H3 & E3);
    [exact H2|by left|].
  edestruct (spec_filter_uuid env "resource_id") as (f4 & H4 & E4); [exact H3|done|exact Hr|].
  edestruct (spec_filter_optional env "resource_type" "=" (AText <$> qp_ResourceType p)) as (f5 & H5 & E5);
    [exact H4|by left|].
  edestruct (spec_filter_optional env "action" "=" (AText <$> qp_Action p)) as (f6 & H6 & E6);
    [exact H5|by left|].
  edestruct (spec_filter_uuid env "actor_id") as (f7 & H7 & E7); [exact H6|done|exact Ha|].
  edestruct (spec_filter_uuid env "tenant_id" (Some (qp_TenantID p)) (Some t)) as (f8 & H8 & E8);
    [exact H7|done|by cbn; rewrite Ht|].
  exists f8. split; [exact H8|]. intros e. rewrite E8, E7, E6, E5, E4, E3, E2, E1. unfold matches.
  rewrite <- !andb_assoc, andb_true_r. cbn [accepts].
  rewrite (compare_text (ev_TenantID e) t : pg_compare "=" (pg_column "tenant_id" e) (AText t) = _).
  repeat apply (f_equal2 andb); [done|..]; rewrite ?accepts_fmap; apply accepts_ext; intros x;
    first [apply (compare_text (ev_Action e))|apply compare_text|apply (compare_null (ev_ActorID e))
          |apply (compare_null (ev_ResourceID e))|apply compare_from|apply compare_to].
Qed.

(** ** A query *)

Definition page_args (p : QueryParams) : list arg :=
  (if decide (0 < qp_Limit p)%Z then [AInt (qp_Limit p)] else []) ++
  (if decide (0 < qp_Offset p)%Z then [AInt (qp_Offset p)] else []).

Lemma paginated_args p : bq_args (add_pagination p (filtered p)) = spec_args (specs p) ++ page_args p.
Proof.
  unfold add_pagination, add_clause, page_args. rewrite <- filtered_args.
  case_decide; case_decide; cbn [bq_args]; by rewrite <- ?app_assoc, ?app_nil_r.
Qed.

Definition audit_page (p : QueryParams) (l : list Event) : list Event :=
  let l := drop (Z.to_nat (qp_Offset p)) l in
  if decide (0 < qp_Limit p)%Z then take (Z.to_nat (qp_Limit p)) l else l.

Lemma limit_run p absent :
  pg_int (spec_args (specs p) ++ page_args p) (limit_param p) absent =
    inl (if decide (0 < qp_Limit p)%Z then qp_Limit p else absent).
Proof.
  unfold limit_param, page_args. case_decide; [|done]. cbn [pg_int Nat.pred app].
  by rewrite list_lookup_middle.
Qed.

Lemma offset_run p :
  pg_int (spec_args (specs p) ++ page_args p) (offset_param p) 0 =
    inl (if decide (0 < qp_Offset p)%Z then qp_Offset p else 0%Z).
Proof.
  unfold offset_param, page_args. destruct (decide (0 < qp_Offset p)%Z); [|done].
  cbn [pg_int Nat.pred]. rewrite lookup_app_r by lia. rewrite Nat.add_comm, Nat.add_sub. by case_decide.
Qed.

Lemma page_run p l :
  sql_page (if decide (0 < qp_Limit p)%Z then qp_Limit p else Z.of_nat (length l))
    (if decide (0 < qp_Offset p)%Z then qp_Offset p else 0%Z) l = inl (audit_page p l).
Proof.
  unfold sql_page, audit_page.
  rewrite decide_False by (case_decide; lia). rewrite decide_False by (case_decide; lia).
  replace (Z.to_nat (if decide (0 < qp_Offset p)%Z then qp_Offset p else 0%Z)) with (Z.to_nat (qp_Offset p))
    by (case_decide; lia).
  case_decide; [done|]. by rewrite Nat2Z.id, take_ge by (rewrite length_drop; lia).
Qed.

Section Query.
Context {nil_bytes : NilBytes} {inet : PgInet}.
Context (env : Env) (p : QueryParams) (t : string) (actor resource : option string).
Context (Hup : db_up env) (Ht : pg_uuid env (qp_TenantID p) = Some t).
Context (Ha : canonical env (qp_ActorID p) = Some actor) (Hr : canonical env (qp_ResourceID p) = Some resource).

Definition found (k : nat) (rows : list Event) : list Event :=
  order_by_desc ev_Timestamp (reorder (row_order env k) (filter (matches t actor resource p) rows)).

Lemma found_Permutation k rows : found k rows ≡ₚ filter (matches t actor resource p) rows.
Proof. unfold found, order_by_desc. rewrite sort_by_Permutation. apply reorder_Permutation. Qed.

Lemma count_run k rows : pg_select "COUNT(*)" env k (bq_count (filtered p)) (bq_args (filtered p)) rows = inl (found k rows).
Proof.
  unfold pg_select. rewrite count_text. cbn [sl_what sl_conds sl_limit sl_offset]. rewrite decide_False by tauto.
  destruct (spec_filter_matches env p t actor resource Ht Ha Hr) as (f & Hf & Hm).
  pose proof (pg_filter_spec env [] (specs p) []) as Hs. cbn [app length] in Hs. rewrite app_nil_r in Hs.
  rewrite filtered_args, Hs, Hf. cbn [pg_int]. unfold sql_page.
  rewrite decide_False by lia. rewrite decide_False by lia. rewrite Nat2Z.id, drop_0, firstn_all. unfold found.
  do 3 f_equal. apply list_filter_iff. intros e. by rewrite Hm.
Qed.

Lemma select_run k rows :
  ~ overfull p ->
  pg_select "*" env k (bq_query (add_pagination p (filtered p))) (bq_args (add_pagination p (filtered p))) rows =
    inl (audit_page p (found k rows)).
Proof.
  intros Hp. unfold pg_select. rewrite query_text by done. cbn [sl_what sl_conds sl_limit sl_offset].
  rewrite decide_False by tauto.
  destruct (spec_filter_matches env p t actor resource Ht Ha Hr) as (f & Hf & Hm).
  pose proof (pg_filter_spec env [] (specs p) (page_args p)) as Hs. cbn [app length] in Hs.
  rewrite paginated_args, Hs, Hf, limit_run, offset_run, page_run. unfold found.
  do 4 f_equal. apply list_filter_iff. intros e. by rewrite Hm.
Qed.

Lemma Query_run n rows :
  ~ overfull p ->
  auditStore_Query p env (mkSt n rows) =
    (match scan_events (audit_page p (found (S n) rows)) with
     | inl l => Ok (l, Z.of_nat (length (found (S n) rows)))
     | inr e => Err e
     end, mkSt (S (S n)) rows).
Proof.
  intros Hp. unfold auditStore_Query. fold (filtered p). cbv zeta.
  unfold bind. rewrite statement_up by done. cbn [st tick]. rewrite count_run.
  rewrite statement_up by done. cbn [st tick]. rewrite select_run by done.
  rewrite (Permutation_length (found_Permutation n rows)), (Permutation_length (found_Permutation (S n) rows)).
  destruct (scan_events _); done.
Qed.
End Query.

Section Facts.
Context {nil_bytes : NilBytes} {inet : PgInet}.

Lemma page_limit_spec l :
  page_limit l = (if decide (l = 0) then 100 else Z.min l 1000)%Z.
Proof. unfold page_limit. repeat case_decide; lia. Qed.

(** Property C32. The SQL that is put together for a query answers what the
    parameters ask: the events of the tenant that pass every filter given,
    newest first, with their number; of these the page that was asked for, a
    hundred by default and never more than a thousand, but all that follow the
    offset where the limit is negative.  The one exception is a query with all
    seven filters, an offset and a limit that is not negative. *)
Theorem audit_query_equivalent env p t actor resource n rows :
  db_up env -> pg_uuid env (qp_TenantID p) = Some t ->
  canonical env (qp_ActorID p) = Some actor -> canonical env (qp_ResourceID p) = Some resource ->
  ~ (all_filters p = true /\ (0 <= qp_Limit p)%Z /\ (0 < qp_Offset p)%Z) ->
  exists asked,
    asked ≡ₚ filter (matches t actor resource p) rows /\
    StronglySorted (fun x y => (ev_Timestamp y <= ev_Timestamp x)%Z) asked /\
    let rest := drop (Z.to_nat (qp_Offset p)) asked in
    let page := if decide (qp_Limit p < 0)%Z then rest
                else take (if decide (qp_Limit p = 0%Z) then 100 else Nat.min (Z.to_nat (qp_Limit p)) 1000) rest in
    audit_Query p env (mkSt n rows) =
      (match scan_events page with
       | inl l => Ok (l, Z.of_nat (length asked))
       | inr e => Err e
       end, mkSt (S (S n)) rows).
Proof.
  intros Hup Ht Ha Hr Hq. set (q := with_page (page_limit (qp_Limit p)) (qp_Offset p) p).
  exists (found env q t actor resource (S n) rows).
  split; [exact (found_Permutation env q t actor resource (S n) rows)|]. split; [apply order_by_desc_sorted|]. intros rest page.
  change (audit_Query p env (mkSt n rows)) with (auditStore_Query q env (mkSt n rows)).
  rewrite (Query_run env q t actor resource Hup Ht Ha Hr n rows); cycle 1.
  { intros (H1 & H2 & H3). apply Hq. split_and!; [exact H1| |exact H3]. cbn in H2. rewrite page_limit_spec in H2.
    case_decide; lia. }
  replace (audit_page q (found env q t actor resource (S n) rows)) with page; [done|].
  unfold audit_page, page, rest, q. cbn [with_page qp_Limit qp_Offset]. rewrite page_limit_spec.
  repeat case_decide; try lia; try done. f_equal. lia.
Qed.

(** The exception: the tenth parameter is written [$:], and the query fails. *)
Theorem audit_overfull_fails env p s r u : overfull p -> auditStore_Query p env s <> (Ok r, u).
Proof.
  intros Hp H. unfold auditStore_Query in H. apply bind_Ok_inv in H as (total & s1 & _ & H).
  apply bind_Ok_inv in H as (l & s2 & H & _). apply statement_Ok_inv in H as (_ & x & H & _).
  cbv zeta in H. fold (filtered p) in H. unfold pg_select in H. by rewrite overfull_text in H.
Qed.

(** ** Logging *)

Lemma optional_arg_uuid_inv v env (s : St (list Event)) a u :
  optional_arg uuid_arg v env s = (Ok a, u) -> canonical env v = Some a /\ u = s.
Proof.
  destruct v as [x|]; cbn [optional_arg]; intros H; [|unfold ret in H; by simplify_eq].
  apply bind_Ok_inv in H as (y & t & H & H1). apply uuid_arg_Ok_inv in H as [Hx ->].
  unfold ret in H1. simplify_eq. cbn. by rewrite Hx.
Qed.

Lemma optional_arg_id {A} (check : A -> M (list Event) A) v env s a u :
  (forall x y s' u', check x env s' = (Ok y, u') -> u' = s') ->
  optional_arg check v env s = (Ok a, u) -> u = s.
Proof.
  intros Hc. destruct v as [x|]; cbn [optional_arg]; intros H; [|unfold ret in H; by simplify_eq].
  apply bind_Ok_inv in H as (y & t & H & H1). apply Hc in H. unfold ret in H1. by simplify_eq.
Qed.

Lemma auditStore_Log_inv e d env s id u :
  ev_Details e = Some d -> auditStore_Log e env s = (Ok id, u) ->
  exists t actor resource name ip,
    let got := mkEvent id t (clock env (tick s)) actor (ev_ActorType e) (ev_Action e) (ev_ResourceType e) resource name
                 (Some d) ip (ev_UserAgent e) (ev_Outcome e) in
    pg_uuid env (ev_TenantID e) = Some t /\ canonical env (ev_ActorID e) = Some actor /\
    canonical env (ev_ResourceID e) = Some resource /\ id = gen_uuid env (tick s) /\
    Forall (fun old => ev_ID old <> id) (st s) /\ u = mkSt (S (tick s)) (st s ++ [got]).
Proof.
  intros Hd H. unfold auditStore_Log in H.
  apply bind_Ok_inv in H as (t & s0 & [Ht ->]%uuid_arg_Ok_inv & H).
  apply bind_Ok_inv in H as (actor & s1 & [Ha ->]%optional_arg_uuid_inv & H).
  do 3 apply bind_Ok_inv in H as (? & ? & [_ ->]%varchar_arg_Ok_inv & H).
  apply bind_Ok_inv in H as (resource & s2 & [Hr ->]%optional_arg_uuid_inv & H).
  apply bind_Ok_inv in H as (name & s3 & E & H). apply optional_arg_id in E as ->.
  2: { intros ? ? ? ? E'. unfold text_arg in E'. minv. done. }
  apply bind_Ok_inv in H as (details & s4 & E & H).
  unfold details_arg in E. rewrite decide_False in E by (rewrite Hd; by intros []). unfold ret in E. simplify_eq.
  apply bind_Ok_inv in H as (ip & s5 & E & H). apply optional_arg_id in E as ->.
  2: { intros ? ? ? ? E'. unfold inet_arg, ret, fail in E'. destruct (pg_inet _); by simplify_eq. }
  apply bind_Ok_inv in H as (? & ? & [_ ->]%varchar_arg_Ok_inv & H).
  apply sql_insert_Ok_inv in H as (r & Hmk & Hfresh & ->). simplify_eq. rewrite Hd in *.
  exists t, actor, resource, name, ip. split_and!; try done. apply Forall_forall. intros old Hold Hid.
  rewrite (proj2 (existsb_elem _ _)) in Hfresh; [done|]. exists old. split; [done|]. cbn. by apply bool_decide_eq_true.
Qed.

(** An event that was logged with details is read back under the
    identifier the log returned, by its tenant and with what was logged; the
    log only grows. *)
Theorem audit_log_roundtrip e d env n rows id u :
  db_up env -> (forall k, pg_uuid env (gen_uuid env k) = Some (gen_uuid env k)) ->
  ev_Details e = Some d -> auditStore_Log e env (mkSt n rows) = (Ok id, u) ->
  exists got, auditStore_GetEvent (ev_TenantID e) id env u = (Ok got, mkSt (S (tick u)) (st u)) /\
    st u = rows ++ [got] /\ ev_ID got = id /\ ev_Timestamp got = clock env n /\
    pg_uuid env (ev_TenantID e) = Some (ev_TenantID got) /\ canonical env (ev_ActorID e) = Some (ev_ActorID got) /\
    canonical env (ev_ResourceID e) = Some (ev_ResourceID got) /\ ev_Details got = Some d /\
    (ev_ActorType got, ev_Action got, ev_ResourceType got, ev_UserAgent got, ev_Outcome got) =
    (ev_ActorType e, ev_Action e, ev_ResourceType e, ev_UserAgent e, ev_Outcome e).
Proof.
  intros Hup Hgen Hd H.
  destruct (auditStore_Log_inv _ _ _ _ _ _ Hd H) as (t & actor & resource & name & ip & Ht & Ha & Hr & Hid & Hf & ->).
  eexists. split; [|by split_and!]. cbn [tick st] in *. unfold auditStore_GetEvent.
  rewrite uuid_bind, Hid, Hgen, uuid_bind, Ht. unfold bind, sql_get. rewrite statement_up by done. cbn [tick st].
  rewrite filter_app, (filter_none _ rows); cycle 1.
  { intros old Hold Hm. apply Is_true_true, bool_decide_eq_true in Hm as [Hm _].
    rewrite Forall_forall in Hf. apply (Hf old Hold). congruence. }
  cbn [app]. rewrite filter_cons_True; [by rewrite filter_nil, reorder_one|]. by apply Is_true_true, bool_decide_eq_true.
Qed.
End Facts.
