(* ===== verification/Webhooks.v ===== *)
(** * Webhooks and the event dispatcher

    internal/webhook (table webhooks of migration 13), the handlers of
    internal/governance/webhook_api.go, and internal/event/dispatcher.go, which
    sends a signed request to every webhook subscribed to an event.

    The dispatcher works in goroutines: [Publish] starts one per event, which
    starts one per webhook.  Each makes one query, or one exchange with its
    receiver, and shares nothing with the others, so that an interleaving is an
    order of whole goroutines. *)
From S2P Require Import Prelude GoStd GoText GoUrl Sha256 Sql Http GoJson Middleware.
Local Open Scope go_scope.

(** ** webhook/model.go and service.go *)

Record Webhook : Type := mkWebhook {
  wh_ID : string;
  wh_TenantID : string;
  wh_URL : string;
  wh_Secret : string;
  wh_Events : list string;
  wh_Active : bool;
  wh_CreatedAt : Z;
  wh_UpdatedAt : Z
}.

Abbreviation WM := (M (list Webhook)).

(** A nil slice of events is NULL, which the column does not take. *)
Definition CreateWebhook (tenantID url secret : string) (events : option (list string)) : WM string :=
  map_err (ErrWrap "create webhook")
    (t <- uuid_arg tenantID;;
     l <- match events with
          | Some l => ret l
          | None => fail (ErrDB "pq: null value in column events violates not-null constraint")
          end;;
     sql_insert (fun new old => bool_decide (wh_ID new = wh_ID old))
       (fun tm id => (mkWebhook id t url secret l true tm tm, id))).

Definition own_webhook (id tenantID : string) (w : Webhook) : bool :=
  bool_decide (wh_ID w = id /\ wh_TenantID w = tenantID).

Definition GetWebhook (tenantID id : string) : WM Webhook :=
  map_err (fun e => if errors_Is e sql_ErrNoRows then ErrNew "webhook not found" else ErrWrap "get webhook" e)
    (i <- uuid_arg id;;
     t <- uuid_arg tenantID;;
     sql_get (own_webhook i t)).

Definition ListWebhooks (tenantID : string) : WM (list Webhook) :=
  map_err (ErrWrap "list webhooks")
    (t <- uuid_arg tenantID;;
     l <- sql_select (fun w => bool_decide (wh_TenantID w = t));;
     ret (order_by_desc wh_CreatedAt l)).

Definition DeleteWebhook (tenantID id : string) : WM unit :=
  map_err (ErrWrap "delete webhook")
    (i <- uuid_arg id;;
     t <- uuid_arg tenantID;;
     exec (sql_delete (own_webhook i t))).

Definition subscribed (tenantID event : string) (w : Webhook) : bool :=
  bool_decide (wh_TenantID w = tenantID) && wh_Active w && bool_decide (event ∈ wh_Events w).

Definition GetWebhooksForEvent (tenantID event : string) : WM (list Webhook) :=
  map_err (ErrWrap "get webhooks for event")
    (t <- uuid_arg tenantID;;
     sql_select (subscribed t event)).

(** ** governance/webhook_api.go *)

Record WebhookRequest : Type := mkWebhookRequest {
  wr_URL : string;
  wr_Secret : string;
  wr_Events : list string
}.

Section Handlers.
Context `{!Binder WebhookRequest}.

(** The tenant must not be empty either. *)
Definition webhook_tenantID (c : GinCtx) (k : string -> WM Response) : WM Response :=
  with_tenant "X-Tenant-ID header required" c (fun tenantID =>
    if decide (tenantID = estr) then ret (respond 400 (error_body "X-Tenant-ID header required"))
    else k tenantID).

Definition createWebhook : Handler (list Webhook) :=
  fun c => webhook_tenantID c (fun tenantID => bound c (fun req : WebhookRequest =>
    or_500 "failed to create webhook"
      (CreateWebhook tenantID (wr_URL req) (wr_Secret req) (Some (wr_Events req))) (fun id =>
    ret (respond 201 (JObj [("id", JStr id)]))))).

Definition Webhook_json (w : Webhook) : json :=
  JObj [("id", JStr (wh_ID w)); ("tenant_id", JStr (wh_TenantID w)); ("url", JStr (wh_URL w));
        ("secret", JStr (wh_Secret w)); ("events", JArr (map JStr (wh_Events w))); ("active", JBool (wh_Active w));
        ("created_at", JNum (wh_CreatedAt w)); ("updated_at", JNum (wh_UpdatedAt w))].

Definition listWebhooks : Handler (list Webhook) :=
  fun c => webhook_tenantID c (fun tenantID =>
    or_500 "failed to list webhooks" (ListWebhooks tenantID) (fun hooks =>
    ret (respond 200 (JObj [("webhooks", slice_json Webhook_json hooks)])))).

Definition deleteWebhook : Handler (list Webhook) :=
  fun c => webhook_tenantID c (fun tenantID =>
    or_500 "failed to delete webhook" (DeleteWebhook tenantID (Param c "id")) (fun _ =>
    ret (respond_status 204))).
End Handlers.

(** ** event/dispatcher.go *)

(** [se_Payload] is what [json.Marshal] makes of the payload. *)
Record SystemEvent : Type := mkSystemEvent {
  se_ID : string;
  se_TenantID : string;
  se_Type : string;
  se_Payload : json + error;
  se_Timestamp : Z
}.

Definition event_json (e : SystemEvent) (payload : json) : json :=
  JObj [("id", JStr (se_ID e)); ("tenant_id", JStr (se_TenantID e)); ("type", JStr (se_Type e));
        ("payload", payload); ("timestamp", JStr (time_RFC3339Nano (se_Timestamp e)))].

(** A goroutine that has not run. *)
Inductive goroutine : Type :=
| GProcess (event : SystemEvent)
| GSend (hook : Webhook) (payload : json) (eventID : string).

Record Dispatcher (X : Type) : Type := mkDispatcher {
  ds_hooks : list Webhook;
  ds_pool : list goroutine;
  ds_peer : X
}.
Arguments mkDispatcher {X} _ _ _.
Arguments ds_hooks {X} _.
Arguments ds_pool {X} _.
Arguments ds_peer {X} _.

Section Dispatch.
Context {X : Type} `{!HttpPeer X}.

Abbreviation DM := (M (Dispatcher X)).

Definition in_hooks {A} (m : WM A) : DM A := zoom ds_hooks (fun x s => mkDispatcher x (ds_pool s) (ds_peer s)) m.

Definition in_peer {A} (m : M X A) : DM A := zoom ds_peer (fun x s => mkDispatcher (ds_hooks s) (ds_pool s) x) m.

Definition go (l : list goroutine) : DM unit :=
  modify (fun s => mkDispatcher (ds_hooks s) (ds_pool s ++ l) (ds_peer s)).

Definition Publish (event : SystemEvent) : DM unit := go [GProcess event].

(** An error is logged and ends the goroutine. *)
Definition processEvent (event : SystemEvent) : DM unit :=
  r <- attempt (in_hooks (GetWebhooksForEvent (se_TenantID event) (se_Type event)));;
  match r with
  | inr _ => ret tt
  | inl [] => ret tt
  | inl hooks =>
      match se_Payload event with
      | inr _ => ret tt
      | inl payload => go (map (fun hook => GSend hook (event_json event payload) (se_ID event)) hooks)
      end
  end.

Definition webhook_signature (secret payload : string) : string :=
  "sha256=" +:+ hex_Encode (hmac_sha256 secret payload).

(** The headers, in the order they are set. *)
Definition webhook_headers (hook : Webhook) (payload : json) (eventID : string) (req : HttpCall) : HttpCall :=
  with_header "X-WardSeal-Signature" (webhook_signature (wh_Secret hook) (json_Marshal payload))
    (with_header "X-WardSeal-Event-ID" eventID (with_header "Content-Type" "application/json" req)).

(** Whatever the receiver answers is only logged. *)
Definition sendWebhook (hook : Webhook) (payload : json) (eventID : string) : DM unit :=
  r <- attempt (http_NewRequest "POST" (wh_URL hook) payload);;
  match r with
  | inr _ => ret tt
  | inl req => ignore (in_peer (http_Do (webhook_headers hook payload eventID req)))
  end.

Definition run_goroutine (g : goroutine) : DM unit :=
  match g with
  | GProcess event => processEvent event
  | GSend hook payload eventID => sendWebhook hook payload eventID
  end.

(** The scheduler runs any goroutine of the pool. *)
Inductive sched (env : Env) : St (Dispatcher X) -> St (Dispatcher X) -> Prop :=
| sched_run pre g post n hooks x u :
    run_goroutine g env (mkSt n (mkDispatcher hooks (pre ++ post) x)) = (Ok tt, u) ->
    sched env (mkSt n (mkDispatcher hooks (pre ++ g :: post) x)) u.
End Dispatch.
