(* ===== verification/WebhookFacts.v ===== *)
(** * What the dispatcher guarantees

    In whatever order its goroutines run, they come to an end, and every webhook
    subscribed to an event has then been sent exactly one request for it,
    signed with the webhook's secret, and those its receiver redirected it to. *)
From stdpp Require Import relations.
From S2P Require Import Prelude GoStd GoText GoUrl Sha256 Sql Http GoJson Middleware Webhooks.
Local Open Scope go_scope.

(** ** The receivers, seen from the dispatcher

    The requests handed to the transport, each with some answer or failure. *)
Definition Exchange : Type := (HttpCall * (Response + error))%type.

Definition Recorder (answer : HttpCall -> Env -> nat -> Response + error) : HttpPeer (list Exchange) :=
  fun call env s =>
    let r := answer call env (tick s) in
    (match r with inl resp => Ok resp | inr e => Err e end, mkSt (S (tick s)) (st s ++ [(call, r)])).

(** What comes of one request: others only after an answer that redirects it,
    and ten together at most. *)
Definition redirects (resp : Response) : Prop :=
  rs_status resp ∈ [301; 302; 303; 307; 308]%Z /\ exists loc, rs_location resp = Some loc /\ loc <> estr.

Definition conversation (call : HttpCall) (log : list Exchange) : Prop :=
  exists r rest, log = (call, r) :: rest /\ length log <= 10 /\
    (rest <> [] -> exists resp, r = inl resp /\ redirects resp).

(** The request a webhook is sent; none to a URL that does not parse. *)
Definition delivery (hook : Webhook) (payload : json) (eventID : string) : list HttpCall :=
  match url_Parse (wh_URL hook) with
  | inl u => [webhook_headers hook payload eventID (mkHttpCall "POST" (wh_URL hook) [] (url_Query (u_RawQuery u)) payload)]
  | inr _ => []
  end.

Definition event_hooks (env : Env) (hooks : list Webhook) (e : SystemEvent) : list Webhook :=
  match pg_uuid env (se_TenantID e) with Some t => filter (subscribed t (se_Type e)) hooks | None => [] end.

(** The requests that are to be made for an event. *)
Definition event_deliveries (env : Env) (hooks : list Webhook) (e : SystemEvent) : list HttpCall :=
  match se_Payload e with
  | inl p => flat_map (fun h => delivery h (event_json e p) (se_ID e)) (event_hooks env hooks e)
  | inr _ => []
  end.

(** What a goroutine still has to do, and a bound on how many will run for it. *)
Definition owed (env : Env) (hooks : list Webhook) (g : goroutine) : list HttpCall :=
  match g with
  | GProcess e => event_deliveries env hooks e
  | GSend hook payload eventID => delivery hook payload eventID
  end.

Definition weight (hooks : list Webhook) (g : goroutine) : nat :=
  match g with GProcess _ => S (length hooks) | GSend _ _ _ => 1 end.

Definition total_weight (hooks : list Webhook) (pool : list goroutine) : nat := sum_list_with (weight hooks) pool.

Section Facts.
Context (answer : HttpCall -> Env -> nat -> Response + error).

#[local] Instance recorder : HttpPeer (list Exchange) := Recorder answer.

Abbreviation State := (St (Dispatcher (list Exchange))).

(** ** One goroutine *)

Lemma redirect_call_redirects first call resp r : redirect_call first call resp = Some r -> redirects resp.
Proof.
  unfold redirect_call, redirects. destruct (rs_location resp) as [loc|]; [|done]. destruct (decide _) as [|Hn]; [done|].
  intros _. destruct (decide (rs_status resp ∈ [301; 302; 303; 307; 308]%Z)); [|tauto].
  split; [done|]. exists loc. split; [done|]. tauto.
Qed.

(** The client appends one conversation. *)
Lemma http_follow_run k first call env n (sent : list Exchange) :
  exists res n' r (rest : list Exchange), http_follow k first call env (mkSt n sent) = (res, mkSt n' (sent ++ (call, r) :: rest)) /\
    (forall p, res <> Panic p) /\ length rest <= k /\ (rest <> [] -> exists resp, r = inl resp /\ redirects resp).
Proof.
  revert call n sent. induction k as [|k IH]; intros call n sent; cbn [http_follow]; unfold bind;
    change (http_RoundTrip call env (mkSt n sent)) with
      (match answer call env n with inl resp => Ok resp | inr e => Err e end, mkSt (S n) (sent ++ [(call, answer call env n)]));
    cbn [fst snd]; (destruct (answer call env n) as [resp|e] eqn:Ea; [|eexists _, _, _, []; split_and!; by try (cbn; lia)]);
    destruct (redirect_call first call resp) as [[next|err]|] eqn:Er; try (eexists _, _, _, []; split_and!; by try (cbn; lia)).
  destruct (IH next (S n) (sent ++ [(call, inl resp)])) as (res & n' & r & rest & -> & Hp & Hl & _).
  exists res, n', (inl resp), ((next, r) :: rest). rewrite <-app_assoc. split_and!; [done..|cbn; lia|].
  intros _. exists resp. split; [done|]. by eapply redirect_call_redirects.
Qed.

Lemma sendWebhook_run hook payload eventID env n hooks pool (sent : list Exchange) :
  exists n' groups, sendWebhook hook payload eventID env (mkSt n (mkDispatcher hooks pool sent)) =
      (Ok tt, mkSt n' (mkDispatcher hooks pool (sent ++ concat groups))) /\
    Forall2 conversation (delivery hook payload eventID) groups.
Proof.
  unfold sendWebhook, delivery, http_NewRequest, bind, attempt.
  destruct (url_Parse (wh_URL hook)) as [u|e]; cbn [ret fail]; [|exists n, []; by rewrite app_nil_r].
  unfold ret, ignore, bind, attempt, in_peer, zoom, http_Do. cbn [tick st ds_hooks ds_pool ds_peer].
  match goal with |- context [http_follow 9 ?c ?d env _] =>
    destruct (http_follow_run 9 c d env n sent) as (res & n' & r & rest & E & Hp & Hl & Hr) end.
  exists n', [(webhook_headers hook payload eventID (mkHttpCall "POST" (wh_URL hook) [] (url_Query (u_RawQuery u)) payload), r) :: rest].
  rewrite E. cbn [concat]. rewrite app_nil_r. split; [|apply Forall2_cons; split; [|done]; exists r, rest; split; [done|]; split; [cbn [length]; lia|done]].
  destruct res; [done..|]. by edestruct Hp.
Qed.

Lemma hooks_run env n (hooks : list Webhook) e :
  db_up env ->
  exists r n', GetWebhooksForEvent (se_TenantID e) (se_Type e) env (mkSt n hooks) = (r, mkSt n' hooks) /\
    match r with Ok l => l ≡ₚ event_hooks env hooks e | Err _ => event_hooks env hooks e = [] | Panic _ => False end.
Proof.
  intros Hup. unfold GetWebhooksForEvent, event_hooks, map_err. rewrite uuid_bind.
  destruct (pg_uuid env (se_TenantID e)) as [t|]; [|by repeat eexists].
  unfold sql_select. rewrite statement_up by done. repeat eexists. apply reorder_Permutation.
Qed.

Lemma owed_spawned env hooks e p l :
  flat_map (owed env hooks) (map (fun h => GSend h (event_json e p) (se_ID e)) l) =
  flat_map (fun h => delivery h (event_json e p) (se_ID e)) l.
Proof. induction l as [|h l IH]; [done|]. cbn. by rewrite IH. Qed.

Lemma weight_spawned hooks e p l :
  total_weight hooks (map (fun h => GSend h (event_json e p) (se_ID e)) l) = length l.
Proof. unfold total_weight. induction l as [|h l IH]; [done|]. cbn. by rewrite IH. Qed.

Lemma event_hooks_length env hooks e : length (event_hooks env hooks e) <= length hooks.
Proof. unfold event_hooks. destruct (pg_uuid _ _); [apply length_filter|cbn; lia]. Qed.

Lemma processEvent_run e env n hooks pool (sent : list Exchange) :
  db_up env ->
  exists n' spawned, processEvent e env (mkSt n (mkDispatcher hooks pool sent)) =
      (Ok tt, mkSt n' (mkDispatcher hooks (pool ++ spawned) sent)) /\
    flat_map (owed env hooks) spawned ≡ₚ event_deliveries env hooks e /\ total_weight hooks spawned <= length hooks.
Proof.
  intros Hup. unfold processEvent, event_deliveries, bind, attempt, in_hooks, zoom. cbn [tick st ds_hooks].
  destruct (hooks_run env n hooks e Hup) as (r & n' & -> & Hr). cbn [tick st ds_pool ds_peer].
  destruct r as [l|x|x]; [| |done].
  - destruct l as [|h l].
    { exists n', []. rewrite app_nil_r. apply Permutation_nil in Hr. rewrite Hr. split_and!; [done| |cbn; lia]. by destruct (se_Payload e). }
    destruct (se_Payload e) as [p|]; [|exists n', []; rewrite app_nil_r; split_and!; [done..|cbn; lia]].
    exists n', (map (fun hook => GSend hook (event_json e p) (se_ID e)) (h :: l)).
    rewrite owed_spawned, weight_spawned. split_and!; [done|by apply Permutation_flat_map|].
    rewrite (Permutation_length Hr). apply event_hooks_length.
  - exists n', []. rewrite Hr, app_nil_r. split_and!; [done| |cbn; lia]. by destruct (se_Payload e).
Qed.

(** A goroutine does what it owes or passes it on, and gets smaller by it. *)
Lemma goroutine_run g env n hooks pool (sent : list Exchange) :
  db_up env ->
  exists n' spawned now groups, run_goroutine g env (mkSt n (mkDispatcher hooks pool sent)) =
      (Ok tt, mkSt n' (mkDispatcher hooks (pool ++ spawned) (sent ++ concat groups))) /\ Forall2 conversation now groups /\
    now ++ flat_map (owed env hooks) spawned ≡ₚ owed env hooks g /\ total_weight hooks spawned < weight hooks g.
Proof.
  intros Hup. destruct g as [e|hook payload eventID]; cbn [run_goroutine owed weight].
  - destruct (processEvent_run e env n hooks pool sent Hup) as (n' & spawned & -> & Ho & Hw).
    exists n', spawned, [], []. rewrite app_nil_r. split_and!; [done..|lia].
  - destruct (sendWebhook_run hook payload eventID env n hooks pool sent) as (n' & groups & -> & Hg).
    exists n', [], (delivery hook payload eventID), groups. rewrite !app_nil_r. split_and!; [done..|cbn; lia].
Qed.

(** ** Any schedule *)

(** What has been sent and what is still owed, together. *)
Definition accounted (env : Env) (s : State) (all : list HttpCall) : Prop :=
  exists calls groups, ds_peer (st s) = concat groups /\ Forall2 conversation calls groups /\
    calls ++ flat_map (owed env (ds_hooks (st s))) (ds_pool (st s)) ≡ₚ all.

Definition remaining (s : State) : nat := total_weight (ds_hooks (st s)) (ds_pool (st s)).

Lemma sched_step env s u all :
  db_up env -> sched env s u -> accounted env s all ->
  ds_hooks (st u) = ds_hooks (st s) /\ accounted env u all /\ remaining u < remaining s.
Proof.
  intros Hup [pre g post n hooks sent v H] (calls & groups & Hsent & Hg & Hall). cbn in Hsent. subst sent.
  destruct (goroutine_run g env n hooks (pre ++ post) (concat groups) Hup) as (n' & spawned & now & more & E & Hm & Ho & Hw).
  rewrite E in H. injection H as <-. unfold accounted, remaining, total_weight in *. cbn [st ds_hooks ds_pool ds_peer] in *.
  split_and!; [done| |].
  - exists (calls ++ now), (groups ++ more). rewrite concat_app. split_and!; [done|by apply Forall2_app|].
    rewrite <-Hall, !flat_map_app. cbn [flat_map]. rewrite <-Ho. solve_Permutation.
  - rewrite !sum_list_with_app. cbn [sum_list_with]. lia.
Qed.

Lemma sched_steps env k s u all :
  db_up env -> nsteps (sched env) k s u -> accounted env s all ->
  ds_hooks (st u) = ds_hooks (st s) /\ accounted env u all /\ k + remaining u <= remaining s.
Proof.
  intros Hup. induction 1 as [s|k s t u Hst _ IH]; [done|]. intros Hs.
  destruct (sched_step _ _ _ _ Hup Hst Hs) as (Hh' & Ha' & Hr'). destruct (IH Ha') as (Hh & Ha & Hr).
  split_and!; [congruence|done|lia].
Qed.

(** No goroutine waits for another. *)
Lemma sched_progress env (s : State) : db_up env -> ds_pool (st s) <> [] -> exists u, sched env s u.
Proof.
  destruct s as [n [hooks [|g pool] sent]]; [done|]. intros Hup _.
  destruct (goroutine_run g env n hooks pool sent Hup) as (n' & spawned & now & groups & E & _).
  eexists. by apply (sched_run env []).
Qed.

Lemma accounted_published env n hooks events :
  accounted env (mkSt n (mkDispatcher hooks (map GProcess events) [])) (flat_map (event_deliveries env hooks) events).
Proof.
  exists [], []. split_and!; [done..|]. cbn. induction events as [|e l IH]; [done|]. cbn. by rewrite IH.
Qed.

Lemma remaining_published n hooks events :
  remaining (mkSt n (mkDispatcher hooks (map GProcess events) [])) = length events * S (length hooks).
Proof. unfold remaining, total_weight. cbn. induction events as [|e l IH]; [done|]. cbn. by rewrite IH. Qed.

(** A request made for an event: to a webhook of the event's tenant that is
    active and subscribed to it, carrying the event, signed with the webhook's
    secret over the bytes of the body. *)
Definition signed_for (env : Env) (hooks : list Webhook) (e : SystemEvent) (call : HttpCall) : Prop :=
  exists hook p, hook ∈ hooks /\ pg_uuid env (se_TenantID e) = Some (wh_TenantID hook) /\ wh_Active hook = true /\
    se_Type e ∈ wh_Events hook /\ se_Payload e = inl p /\ hc_method call = "POST" /\ hc_url call = wh_URL hook /\
    hc_body call = event_json e p /\ header_get "X-WardSeal-Event-ID" (hc_headers call) = se_ID e /\
    header_get "X-WardSeal-Signature" (hc_headers call) =
      webhook_signature (wh_Secret hook) (json_Marshal (hc_body call)).

Lemma event_deliveries_signed env hooks e call : call ∈ event_deliveries env hooks e -> signed_for env hooks e call.
Proof.
  unfold event_deliveries. destruct (se_Payload e) as [p|] eqn:Hp; [|by intros ?%elem_of_nil].
  intros (hook & Hh & Hc)%list_elem_of_In%in_flat_map. apply list_elem_of_In in Hh, Hc.
  unfold event_hooks in Hh. destruct (pg_uuid env (se_TenantID e)) as [t|] eqn:Ht; [|by apply elem_of_nil in Hh].
  apply filter_bool_elem in Hh as [Hin Hsub]. unfold subscribed in Hsub.
  apply andb_prop in Hsub as [Hsub Hev%bool_decide_eq_true]. apply andb_prop in Hsub as [<-%bool_decide_eq_true Hact].
  unfold delivery in Hc. destruct (url_Parse _) as [u|]; [|by apply elem_of_nil in Hc].
  apply list_elem_of_singleton in Hc as ->. exists hook, p. split_and!; done.
Qed.

End Facts.

(** ** At work *)

Definition demo_hook : Webhook :=
  mkWebhook (demo_uuid 801) (demo_uuid 1) "https://hooks.example.com/in" "s3cret-key" ["user.created"] true 0 0.

Definition demo_event : SystemEvent :=
  mkSystemEvent "evt-1" (demo_uuid 1) "user.created" (inl (JObj [("user", JStr "u")])) 0.

Definition demo_dispatcher : Dispatcher (list Exchange) := mkDispatcher [demo_hook] [GProcess demo_event] [].

(** The webhook answers with a redirect that keeps the body, and then 500. *)
Definition demo_answer : HttpCall -> Env -> nat -> Response + error :=
  fun call _ _ =>
    inl (if decide (hc_url call = "https://hooks.example.com/in") then mkResponse 308 JNull [] (Some "/v2/in") else respond_status 500).

Lemma demo_schedule :
  exists u, nsteps (sched (HttpPeer0 := Recorder demo_answer) demo_env) 2 (mkSt 0 demo_dispatcher) u /\
    ds_pool (st u) = [] /\ map (fun x => (hc_method (fst x), hc_url (fst x))) (ds_peer (st u)) =
      [("POST", "https://hooks.example.com/in"); ("POST", "https://hooks.example.com/v2/in")].
Proof.
  eexists. split.
  - eapply nsteps_l; [apply (sched_run demo_env [] (GProcess demo_event) []); vm_compute; reflexivity|].
    eapply nsteps_l; [|apply nsteps_O].
    refine (sched_run demo_env [] (GSend demo_hook _ _) [] _ _ _ _ _). vm_compute. reflexivity.
  - by split.
Qed.

