(* ===== verification/Organizations.v ===== *)
(** * Organizations and the verification of their domains

    internal/governance/organization_store.go (table organizations of
    migrations 18 and 20), organization_api.go and domain_verification.go.  The
    verification handler reads an organization through its store and the token
    of the verification straight from the table. *)
From S2P Require Import Prelude GoStd Sql Http AuditLog.
Local Open Scope go_scope.

(** ** organization_store.go *)

Record Organization : Type := mkOrganization {
  og_ID : string;
  og_TenantID : string;
  og_Name : string;
  og_DisplayName : option string;
  og_Domain : option string;
  og_DomainVerified : bool;
  og_Metadata : option json;
  og_Settings : option json;
  og_CreatedAt : Z;
  og_UpdatedAt : Z
}.

(** A row: the organization, and the two columns of migration 20. *)
Record org_row : Type := mkOrgRow {
  or_org : Organization;
  or_token : option string;
  or_expires : option Z
}.

Abbreviation OM := (M (list org_row)).

Class OrganizationStore : Type := {
  os_Create : Organization -> OM Organization;
  os_Get : string -> string -> OM (option Organization);
  os_GetByName : string -> string -> OM (option Organization);
  os_List : string -> Z -> Z -> OM (list Organization);
  os_Update : Organization -> OM unit;
  os_Delete : string -> string -> OM unit
}.

(** The columns of the table, and those the struct has a field for. *)
Definition org_fields : list string :=
  ["id"; "tenant_id"; "name"; "display_name"; "domain"; "domain_verified"; "metadata"; "settings"; "created_at";
   "updated_at"].

Definition org_columns : list string :=
  org_fields ++ ["domain_verification_token"; "domain_verification_expires_at"].

Definition org_clash (t name : string) (old : org_row) : bool :=
  bool_decide (og_TenantID (or_org old) = t /\ og_Name (or_org old) = name).

Definition own_org (t i : string) (r : org_row) : bool :=
  bool_decide (og_TenantID (or_org r) = t /\ og_ID (or_org r) = i).

Definition optional_varchar (n : nat) (v : option string) : OM unit :=
  match v with None => ret tt | Some x => varchar_arg n x end.

(** NULL cannot be scanned into a [json.RawMessage]. *)
Definition scan_org (r : org_row) : OM Organization :=
  match og_Metadata (or_org r), og_Settings (or_org r) with
  | Some _, Some _ => ret (or_org r)
  | _, _ => fail (ErrLib "sql: Scan error: unsupported Scan")
  end.

Fixpoint scan_orgs (l : list org_row) : OM (list Organization) :=
  match l with
  | [] => ret []
  | r :: rest => o <- scan_org r;; os <- scan_orgs rest;; ret (o :: os)
  end.

Section Store.
Context {nil_bytes : NilBytes}.

(** Missing documents are stored as empty objects. *)
Definition orgRepo_Create (org : Organization) : OM Organization :=
  let metadata := default (JObj []) (og_Metadata org) in
  let settings := default (JObj []) (og_Settings org) in
  t <- uuid_arg (og_TenantID org);;
  varchar_arg 255 (og_Name org);;
  optional_varchar 255 (og_DisplayName org);;
  optional_varchar 255 (og_Domain org);;
  row <- sql_insert (fun new old => org_clash (og_TenantID (or_org new)) (og_Name (or_org new)) old ||
                                    bool_decide (og_ID (or_org old) = og_ID (or_org new)))
    (fun tm id => let r := mkOrganization id t (og_Name org) (og_DisplayName org) (og_Domain org)
                             (og_DomainVerified org) (Some metadata) (Some settings) tm tm in (mkOrgRow r None None, r));;
  ret (mkOrganization (og_ID row) (og_TenantID org) (og_Name org) (og_DisplayName org) (og_Domain org)
         (og_DomainVerified org) (og_Metadata org) (og_Settings org) (og_CreatedAt row) (og_UpdatedAt row)).

Definition orgRepo_Get (tenantID orgID : string) : OM (option Organization) :=
  or_nil (t <- uuid_arg tenantID;;
          i <- uuid_arg orgID;;
          r <- sqlx_get org_fields org_columns (own_org t i);;
          scan_org r).

Definition orgRepo_GetByName (tenantID name : string) : OM (option Organization) :=
  or_nil (t <- uuid_arg tenantID;;
          r <- sqlx_get org_fields org_columns (org_clash t name);;
          scan_org r).

(** [ORDER BY name ASC]: the order of the bytes. *)
Definition orgRepo_List (tenantID : string) (limit offset : Z) : OM (list Organization) :=
  let limit := if decide (limit <= 0)%Z then 50%Z else limit in
  t <- uuid_arg tenantID;;
  l <- statement (fun env n rows =>
         match sql_page limit offset
                 (sort_by (fun x y => String.leb (og_Name (or_org x)) (og_Name (or_org y)))
                    (reorder (row_order env n) (filter (fun r => og_TenantID (or_org r) = t) rows))) with
         | inl l => inl (l, rows)
         | inr e => inr e
         end);;
  sqlx_dest org_fields org_columns;;
  scan_orgs l.

(** A document that is nil, in an update. *)
Definition document_arg (v : option json) : OM (option json) :=
  if decide (v = None /\ nil_is_null = false) then fail (ErrDB "pq: invalid input syntax for type json") else ret v.

Definition orgRepo_Update (org : Organization) : OM unit :=
  varchar_arg 255 (og_Name org);;
  optional_varchar 255 (og_DisplayName org);;
  optional_varchar 255 (og_Domain org);;
  metadata <- document_arg (og_Metadata org);;
  settings <- document_arg (og_Settings org);;
  t <- uuid_arg (og_TenantID org);;
  i <- uuid_arg (og_ID org);;
  exec (sql_update_unique (fun r => (og_TenantID (or_org r), og_Name (or_org r))) (own_org t i)
    (fun tm r => mkOrgRow (mkOrganization (og_ID (or_org r)) (og_TenantID (or_org r)) (og_Name org) (og_DisplayName org)
                             (og_Domain org) (og_DomainVerified org) metadata settings (og_CreatedAt (or_org r)) tm)
                   (or_token r) (or_expires r))).

Definition orgRepo_Delete (tenantID orgID : string) : OM unit :=
  t <- uuid_arg tenantID;;
  i <- uuid_arg orgID;;
  exec (sql_delete (own_org t i)).

#[export] Instance orgRepo : OrganizationStore := {|
  os_Create := orgRepo_Create;
  os_Get := orgRepo_Get;
  os_GetByName := orgRepo_GetByName;
  os_List := orgRepo_List;
  os_Update := orgRepo_Update;
  os_Delete := orgRepo_Delete
|}.
End Store.

(** ** organization_api.go *)

Record CreateOrganizationRequest : Type := mkCreateOrganizationRequest {
  co_Name : string;
  co_DisplayName : option string;
  co_Domain : option string;
  co_Metadata : option json;
  co_Settings : option json
}.

Record UpdateOrganizationRequest : Type := mkUpdateOrganizationRequest {
  uo_Name : option string;
  uo_DisplayName : option string;
  uo_Domain : option string;
  uo_DomainVerified : option bool;
  uo_Metadata : option json;
  uo_Settings : option json
}.

(** The tenant, as the header gives it. *)
Definition header_tenant {S} (c : GinCtx) (k : string -> M S Response) : M S Response :=
  let tenantID := GetHeader c "X-Tenant-ID" in
  if decide (tenantID = estr) then ret (respond 400 (error_body "X-Tenant-ID header required")) else k tenantID.

(** A nil [json.RawMessage] is written as null. *)
Definition document_json (v : option json) : json := default JNull v.

Definition Organization_json (o : Organization) : json :=
  JObj ([("id", JStr (og_ID o)); ("tenant_id", JStr (og_TenantID o)); ("name", JStr (og_Name o))]
        ++ optional_json "display_name" (og_DisplayName o) ++ optional_json "domain" (og_Domain o)
        ++ [("domain_verified", JBool (og_DomainVerified o)); ("metadata", document_json (og_Metadata o));
            ("settings", document_json (og_Settings o)); ("created_at", JNum (og_CreatedAt o));
            ("updated_at", JNum (og_UpdatedAt o))]).

Section Handlers.
Context {store : OrganizationStore} `{!Binder CreateOrganizationRequest, !Binder UpdateOrganizationRequest}.

Abbreviation OHandler := (Handler (list org_row)).

Definition listOrganizations : OHandler :=
  fun c => header_tenant c (fun tenantID =>
    let limit := fst (strconv_Atoi (DefaultQuery c "limit" "50")) in
    let offset := fst (strconv_Atoi (DefaultQuery c "offset" "0")) in
    or_500 "failed to list organizations" (os_List tenantID limit offset) (fun orgs =>
    ret (respond 200 (JObj [("organizations", slice_json Organization_json orgs)])))).

(** A lookup that fails counts as one that finds nothing. *)
Definition createOrganization : OHandler :=
  fun c => header_tenant c (fun tenantID => bound c (fun req : CreateOrganizationRequest =>
    existing <- attempt (os_GetByName tenantID (co_Name req));;
    match existing with
    | inl (Some _) => ret (respond 409 (error_body "organization with this name already exists"))
    | _ =>
        let org := mkOrganization estr tenantID (co_Name req) (co_DisplayName req) (co_Domain req) false
                     (co_Metadata req) (co_Settings req) 0 0 in
        or_500 "failed to create organization" (os_Create org) (fun org =>
        ret (respond 201 (Organization_json org)))
    end)).

Definition getOrganization : OHandler :=
  fun c => header_tenant c (fun tenantID =>
    or_500 "failed to get organization" (os_Get tenantID (Param c "id")) (fun org =>
    match org with
    | None => ret (respond 404 (error_body "organization not found"))
    | Some org => ret (respond 200 (Organization_json org))
    end)).

(** [if v != nil { existing.f = v }] *)
Definition update_org (req : UpdateOrganizationRequest) (o : Organization) : Organization :=
  let keep {A} (given stored : option A) := match given with Some _ => given | None => stored end in
  mkOrganization (og_ID o) (og_TenantID o) (default (og_Name o) (uo_Name req))
    (keep (uo_DisplayName req) (og_DisplayName o)) (keep (uo_Domain req) (og_Domain o))
    (default (og_DomainVerified o) (uo_DomainVerified req)) (keep (uo_Metadata req) (og_Metadata o))
    (keep (uo_Settings req) (og_Settings o)) (og_CreatedAt o) (og_UpdatedAt o).

Definition updateOrganization : OHandler :=
  fun c => header_tenant c (fun tenantID =>
    or_500 "failed to get organization" (os_Get tenantID (Param c "id")) (fun existing =>
    match existing with
    | None => ret (respond 404 (error_body "organization not found"))
    | Some existing => bound c (fun req : UpdateOrganizationRequest =>
        let existing := update_org req existing in
        or_500 "failed to update organization" (os_Update existing) (fun _ =>
        ret (respond 200 (Organization_json existing))))
    end)).

Definition deleteOrganization : OHandler :=
  fun c => header_tenant c (fun tenantID =>
    or_500 "failed to delete organization" (os_Delete tenantID (Param c "id")) (fun _ =>
    ret (respond 200 (JObj [("message", JStr "organization deleted")])))).
End Handlers.

(** ** domain_verification.go *)

(** [net.LookupTXT], observed at a moment. *)
Class Resolver : Type := lookup_TXT : string -> nat -> list string + error.

Section Verification.
Context {store : OrganizationStore} {dns : Resolver}.

Definition net_LookupTXT (hostname : string) : OM (list string) :=
  fun env s =>
    (match lookup_TXT hostname (tick s) with inl l => Ok l | inr e => Err e end, mkSt (S (tick s)) (st s)).

Definition verifyDNSTxtRecord (hostname expectedValue : string) : OM bool :=
  r <- attempt (net_LookupTXT hostname);;
  match r with
  | inr _ => ret false
  | inl records => ret (existsb (fun record => bool_decide (strings_TrimSpace record = expectedValue)) records)
  end.

(** The organization with a domain, for a handler. *)
Definition org_domain (c : GinCtx) (k : Organization -> string -> OM Response) : OM Response :=
  header_tenant c (fun tenantID =>
    r <- attempt (os_Get tenantID (Param c "id"));;
    match r with
    | inl (Some org) =>
        match og_Domain org with
        | Some domain =>
            if decide (domain = estr) then ret (respond 400 (error_body "organization has no domain configured"))
            else k org domain
        | None => ret (respond 400 (error_body "organization has no domain configured"))
        end
    | _ => ret (respond 404 (error_body "organization not found"))
    end).

Definition is_org (i : string) (r : org_row) : bool := bool_decide (og_ID (or_org r) = i).

(** [SELECT domain_verification_token, ... FROM organizations WHERE id = $1] *)
Definition get_token (orgID : string) : OM (option string * option Z) :=
  i <- uuid_arg orgID;;
  r <- sql_get (is_org i);;
  ret (or_token r, or_expires r).

Definition txt_record (domain : string) : string := "_wardseal." +:+ domain.

Definition verification_json (domain token txt instructions : string) (verified : bool) (expires : option Z) : json :=
  JObj ([("domain", JStr domain)] ++ omitempty "token" token
        ++ [("txt_record", JStr txt); ("instructions", JStr instructions); ("verified", JBool verified)]
        ++ match expires with Some t => [("expires_at", JNum t)] | None => [] end).

Definition getDomainVerification : Handler (list org_row) :=
  fun c => org_domain c (fun org domain =>
    r <- attempt (get_token (Param c "id"));;
    let '(token, expiresAt) :=
      match r with inl (Some token, expires) => (token, expires) | _ => (estr, None) end in
    ret (respond 200 (verification_json domain token (txt_record domain)
                        "Add a TXT record to your DNS with the name and value shown below."
                        (og_DomainVerified org) expiresAt))).

(** [UPDATE organizations SET ... WHERE id = $n] *)
Definition set_verification (i : string) (token : org_row -> option string) (expires : org_row -> option Z)
    (verified : bool) : OM unit :=
  exec (sql_update (is_org i) (fun _ r =>
    let o := or_org r in
    mkOrgRow (mkOrganization (og_ID o) (og_TenantID o) (og_Name o) (og_DisplayName o) (og_Domain o) verified
                (og_Metadata o) (og_Settings o) (og_CreatedAt o) (og_UpdatedAt o)) (token r) (expires r))).

Definition new_line : string := String (Ascii.ascii_of_nat 10) estr.

Definition generateVerificationToken : Handler (list org_row) :=
  fun c => org_domain c (fun org domain =>
    or_500 "failed to generate token" (rand_Read 16) (fun tokenBytes =>
    let token := "wardseal-verify=" +:+ hex_Encode tokenBytes in
    tm <- now;;
    let expiresAt := (tm + 7 * 24 * hour)%Z in
    or_500 "failed to save token"
      (varchar_arg 64 token;;
       i <- uuid_arg (Param c "id");;
       set_verification i (fun _ => Some token) (fun _ => Some expiresAt) false) (fun _ =>
    ret (respond 200 (verification_json domain token (txt_record domain)
                        ("Add a TXT record:" +:+ new_line +:+ "  Name: _wardseal." +:+ domain +:+ new_line +:+
                         "  Value: " +:+ token)
                        false (Some expiresAt)))))).

Definition verifyDomain : Handler (list org_row) :=
  fun c => org_domain c (fun org domain =>
    or_respond (fixed 400 "no verification token generated") (get_token (Param c "id")) (fun '(stored, expiresAt) =>
    match stored with
    | None => ret (respond 400 (error_body "no verification token generated"))
    | Some token =>
        if decide (token = estr) then ret (respond 400 (error_body "no verification token generated"))
        else
          expired <- match expiresAt with
                     | Some t => tm <- now;; ret (t <? tm)%Z
                     | None => ret false
                     end;;
          if (expired : bool)
          then ret (respond 400 (error_body "verification token expired, please generate a new one"))
          else
            verified <- verifyDNSTxtRecord (txt_record domain) token;;
            if (verified : bool) then
              ignore (i <- uuid_arg (Param c "id");; set_verification i or_token or_expires true);;
              ret (respond 200 (JObj [("verified", JBool true); ("message", JStr "Domain successfully verified!")]))
            else
              ret (respond 200 (JObj [("verified", JBool false);
                     ("message", JStr ("TXT record not found or doesn't match. Expected: " +:+ token +:+ " at " +:+
                                       txt_record domain))]))
    end)).
End Verification.
