(* ===== verification/OrganizationFacts.v ===== *)
(** * What the verification of a domain guarantees

    A domain is marked as verified only for a token that its tenant was given
    and that its DNS shows; that with the store of the repository no exchange
    gets that far; and where the update handler goes around it. *)
From S2P Require Import Prelude GoStd Sql Http AuditLog Organizations.
Local Open Scope go_scope.

(** ** What the handlers rely on *)

Class OrgReads (store : OrganizationStore) : Prop := {
  get_readonly tenantID orgID : readonly (os_Get tenantID orgID);
  get_found tenantID orgID env s o u :
    os_Get tenantID orgID env s = (Ok (Some o), u) ->
    exists row, row ∈ st s /\ or_org row = o /\
      pg_uuid env tenantID = Some (og_TenantID o) /\ pg_uuid env orgID = Some (og_ID o)
}.

Lemma scan_org_Ok_inv r env s o u : scan_org r env s = (Ok o, u) -> o = or_org r /\ u = s.
Proof. unfold scan_org, ret, fail. repeat case_match; intros; by simplify_eq. Qed.

Lemma readonly_scan_org r : readonly (scan_org r).
Proof. intros env s. unfold scan_org. by repeat case_match. Qed.

Lemma sqlx_get_Ok_inv {R} dest cols (p : R -> bool) env s r u :
  sqlx_get dest cols p env s = (Ok r, u) -> r ∈ st s /\ p r = true /\ st u = st s.
Proof.
  unfold sqlx_get. intros H. pose proof (readonly_sqlx_get dest cols p env s) as Hr. unfold sqlx_get in Hr.
  rewrite H in Hr. cbn in Hr. apply bind_Ok_inv in H as (l & t & E & H). apply sql_select_Ok_inv in E as [-> ->].
  apply bind_Ok_inv in H as (x & t & _ & H). destruct (reorder _ _) as [|y l] eqn:El; [done|].
  apply ret_Ok_inv in H as [<- _].
  assert (y ∈ reorder (row_order env (tick s)) (filter p (st s))) as Hy by (rewrite El; left).
  apply reorder_elem, filter_bool_elem in Hy as [? ?]. done.
Qed.

#[export] Instance orgRepo_reads {nil_bytes : NilBytes} : OrgReads orgRepo.
Proof.
  split.
  - intros tenantID orgID. change (readonly (orgRepo_Get tenantID orgID)).
    apply readonly_or_nil. effects. apply readonly_scan_org.
  - intros tenantID orgID env s o u H. cbn in H. unfold orgRepo_Get in H.
    apply or_nil_Ok_inv in H as [(o' & [= <-] & H)|(? & ? & ?)]; [|done].
    apply bind_Ok_inv in H as (t & s0 & [Ht ->]%uuid_arg_Ok_inv & H).
    apply bind_Ok_inv in H as (i & s1 & [Hi ->]%uuid_arg_Ok_inv & H).
    apply bind_Ok_inv in H as (r & s2 & (Hr & Hown & _)%sqlx_get_Ok_inv & [-> ->]%scan_org_Ok_inv).
    unfold own_org in Hown. apply bool_decide_eq_true in Hown as [Ht' Hi'].
    exists r. by rewrite Ht', Hi'.
Qed.

Section Facts.
Context {store : OrganizationStore} {reads : OrgReads store} {dns : Resolver}.

Definition org_ids (l : list org_row) : list string := (fun r => og_ID (or_org r)) <$> l.

(** ** The organization a handler works on *)

Lemma org_domain_Ok_inv c k env s resp u :
  org_domain c k env s = (Ok resp, u) ->
  st u = st s \/
  (exists row domain t, row ∈ st s /\ og_Domain (or_org row) = Some domain /\ domain <> estr /\ st t = st s /\
    pg_uuid env (GetHeader c "X-Tenant-ID") = Some (og_TenantID (or_org row)) /\
    pg_uuid env (Param c "id") = Some (og_ID (or_org row)) /\ k (or_org row) domain env t = (Ok resp, u)).
Proof.
  unfold org_domain, header_tenant. intros H. case_decide; [left; by apply ret_Ok_inv in H as [_ <-]|].
  apply bind_Ok_inv in H as (r & t & E & H).
  assert (st t = st s) as Hst.
  { pose proof (get_readonly (GetHeader c "X-Tenant-ID") (Param c "id") env s) as Hr.
    unfold attempt in E. destruct (os_Get _ _ env s) as [[x|x|x] v]; by simplify_eq. }
  destruct r as [[o|]|e]; [|left; by apply ret_Ok_inv in H as [_ <-]..].
  apply attempt_Ok_inv in E as [(a & [= <-] & E)|(? & ? & _)]; [|done].
  apply get_found in E as (row & Hrow & <- & Ht & Hi).
  destruct (og_Domain (or_org row)) as [domain|] eqn:Hd; [|left; by apply ret_Ok_inv in H as [_ <-]].
  case_decide; [left; by apply ret_Ok_inv in H as [_ <-]|].
  right. exists row, domain, t. done.
Qed.

(** ** Soundness *)

Definition with_verified (r : org_row) : org_row :=
  let o := or_org r in
  mkOrgRow (mkOrganization (og_ID o) (og_TenantID o) (og_Name o) (og_DisplayName o) (og_Domain o) true
              (og_Metadata o) (og_Settings o) (og_CreatedAt o) (og_UpdatedAt o)) (or_token r) (or_expires r).

Definition mark_verified (i : string) (l : list org_row) : list org_row :=
  map (fun r => if is_org i r then with_verified r else r) l.

Lemma get_token_Ok_inv orgID env s token expires u :
  get_token orgID env s = (Ok (token, expires), u) ->
  exists i row, pg_uuid env orgID = Some i /\ row ∈ st s /\ og_ID (or_org row) = i /\ or_token row = token /\
    or_expires row = expires /\ st u = st s.
Proof.
  unfold get_token. intros H. apply bind_Ok_inv in H as (i & t & [Hi ->]%uuid_arg_Ok_inv & H).
  apply bind_Ok_inv in H as (r & t & E & H). apply ret_Ok_inv in H as [[= <- <-] <-].
  apply sql_get_spec in E as (Hr & Hp & ->). apply bool_decide_eq_true in Hp. by exists i, r.
Qed.

Lemma readonly_get_token orgID : readonly (get_token orgID).
Proof. unfold get_token. effects. Qed.

(** The check of the expiry. *)
Lemma expired_Ok_inv (expires : option Z) env (s : St (list org_row)) b u :
  match expires with Some t => tm <- now;; ret (t <? tm)%Z | None => ret false end env s = (Ok b, u) ->
  st u = st s /\ (b = false -> forall t, expires = Some t -> (clock env (tick s) <= t)%Z).
Proof.
  destruct expires as [t|]; intros H; [|by apply ret_Ok_inv in H as [_ <-]].
  apply bind_Ok_inv in H as (tm & v & [-> ->]%observe_Ok_inv & [<- <-]%ret_Ok_inv).
  split; [done|]. intros H t' [= <-]. by apply Z.ltb_ge in H.
Qed.

Lemma verifyDNSTxtRecord_Ok_inv host value env s b u :
  verifyDNSTxtRecord host value env s = (Ok b, u) ->
  st u = st s /\
  (b = true -> exists records, lookup_TXT host (tick s) = inl records /\
     Exists (fun r => strings_TrimSpace r = value) records).
Proof.
  unfold verifyDNSTxtRecord, net_LookupTXT, bind, attempt.
  destruct (lookup_TXT host (tick s)) as [records|e]; intros [= <- <-]; [|done]. split; [done|].
  intros (r & Hr & Hv)%existsb_elem. exists records. split; [done|]. apply Exists_exists. exists r. split; [done|].
  by apply bool_decide_eq_true in Hv.
Qed.

Lemma mark_run c i env s x u :
  pg_uuid env (Param c "id") = Some i ->
  ignore (i <- uuid_arg (Param c "id");; set_verification i or_token or_expires true) env s = (Ok x, u) ->
  st u = st s \/ st u = mark_verified i (st s).
Proof.
  intros Hi H. apply ignore_Ok_inv in H as [[a H]|[e H]]; rewrite uuid_bind, Hi in H.
  - right. unfold set_verification, exec in H. apply bind_Ok_inv in H as (k & t & H & [_ <-]%ret_Ok_inv).
    apply sql_update_Ok_inv in H as [_ ->]. done.
  - left. unfold set_verification, exec, bind in H.
    destruct (sql_update _ _ env s) as [[k|e'|p] t] eqn:E; [done| |done]. injection H as _ <-.
    unfold sql_update in E. by apply statement_Err in E as ->.
Qed.

(** Property C34. A request to verify a domain changes nothing, or marks the one
    organization it names, which belongs to the caller's tenant, holds a token
    that has not expired, and whose domain shows that token in DNS. *)
Theorem domain_verified_sound c env s resp u :
  NoDup (org_ids (st s)) -> verifyDomain c env s = (Ok resp, u) ->
  st u = st s \/
  exists row domain token records j k,
    row ∈ st s /\ pg_uuid env (GetHeader c "X-Tenant-ID") = Some (og_TenantID (or_org row)) /\
    pg_uuid env (Param c "id") = Some (og_ID (or_org row)) /\
    og_Domain (or_org row) = Some domain /\ or_token row = Some token /\ token <> estr /\
    (forall t, or_expires row = Some t -> (clock env j <= t)%Z) /\
    lookup_TXT ("_wardseal." +:+ domain) k = inl records /\ Exists (fun r => strings_TrimSpace r = token) records /\
    st u = mark_verified (og_ID (or_org row)) (st s).
Proof.
  intros Hnd H. unfold verifyDomain in H.
  apply org_domain_Ok_inv in H as [H|(row & domain & t & Hrow & Hd & _ & Hst & Ht & Hi & H)]; [by left|].
  apply or_respond_Ok_inv in H as [([token expires] & t1 & E & H)|(e & E & _)]; cycle 1.
  { left. rewrite <- Hst. pose proof (readonly_get_token (Param c "id") env t) as Hr. by rewrite E in Hr. }
  apply get_token_Ok_inv in E as (i & row' & Hi' & Hrow' & Hid & Htok & Hexp & Hst1).
  assert (row' = row) as ->.
  { rewrite Hst in Hrow'. eapply (NoDup_key_inj (fun r => og_ID (or_org r))); [done|done|done|]. congruence. }
  destruct token as [token|]; [|left; apply ret_Ok_inv in H as [_ <-]; congruence].
  case_decide as Hne; [left; apply ret_Ok_inv in H as [_ <-]; congruence|].
  apply bind_Ok_inv in H as (expired & t2 & [Hst2 Hlive]%expired_Ok_inv & H).
  destruct expired; [left; apply ret_Ok_inv in H as [_ <-]; congruence|].
  apply bind_Ok_inv in H as (verified & t3 & [Hst3 Hdns]%verifyDNSTxtRecord_Ok_inv & H).
  destruct verified; [|left; apply ret_Ok_inv in H as [_ <-]; congruence].
  apply bind_Ok_inv in H as (x & t4 & E & [_ <-]%ret_Ok_inv).
  destruct (Hdns eq_refl) as (records & Hrec & Hex).
  apply (mark_run c _ _ _ _ _ Hi) in E as [E|E]; [left; congruence|right].
  exists row, domain, token, records, (tick t1), (tick t2). subst expires.
  split_and!; try done; [by apply Hlive|congruence].
Qed.
End Facts.

(** ** Where it falls short *)

(** The struct has no field for the columns migration 20 added: no organization
    is ever read. *)
Theorem organizations_not_read {nil_bytes : NilBytes} tenantID orgID env s u :
  sqlx_strict env ->
  (forall o, orgRepo_Get tenantID orgID env s <> (Ok (Some o), u)) /\
  (forall limit offset l, orgRepo_List tenantID limit offset env s <> (Ok l, u)).
Proof.
  intros Hs. assert (Exists (fun c => c ∉ org_fields) org_columns) as Hc by (by apply (bool_decide_unpack _)). split.
  - intros o H. unfold orgRepo_Get in H. apply or_nil_Ok_inv in H as [(o' & _ & H)|(? & ? & ?)]; [|done].
    apply bind_Ok_inv in H as (t & s0 & _ & H). apply bind_Ok_inv in H as (i & s1 & _ & H).
    apply bind_Ok_inv in H as (r & s2 & H & _). by eapply sqlx_get_missing.
  - intros limit offset l H. unfold orgRepo_List in H.
    apply bind_Ok_inv in H as (t & s0 & _ & H). apply bind_Ok_inv in H as (i & s1 & _ & H).
    apply bind_Ok_inv in H as (r & s2 & [H _]%sqlx_dest_Ok_inv & _).
    destruct (Hs org_fields org_columns) as [_ Hm]. destruct (Hm Hc). congruence.
Qed.

Lemma orgRepo_Get_fails {nil_bytes : NilBytes} tenantID orgID env s :
  sqlx_strict env -> exists e u, orgRepo_Get tenantID orgID env s = (Err e, u) /\ st u = st s /\ errors_Is e sql_ErrNoRows = false.
Proof.
  intros Hs. assert (Exists (fun c => c ∉ org_fields) org_columns) as Hc by (by apply (bool_decide_unpack _)).
  destruct (Hs org_fields org_columns) as [_ Hm]. destruct (Hm Hc) as [c Hmc].
  unfold orgRepo_Get, or_nil.
  match goal with |- context [attempt ?m] => assert (exists e u, m env s = (Err e, u) /\ st u = st s /\ errors_Is e sql_ErrNoRows = false)
    as (e & u & E & Hst & Hno) end; cycle 1.
  { exists e, u. split; [|done]. unfold attempt, bind at 1. rewrite E. by rewrite Hno. }
  rewrite uuid_bind. destruct (pg_uuid env tenantID) as [t|]; [|by repeat eexists].
  rewrite uuid_bind. destruct (pg_uuid env orgID) as [i|]; [|by repeat eexists].
  unfold sqlx_get, bind, sql_select, statement, sqlx_dest. destruct (db_fault env (tick s)); [by repeat eexists|].
  rewrite Hmc. by repeat eexists.
Qed.

(** Property C35. As the service is deployed, no domain is ever verified: since
    its store cannot read an organization back, the three requests of the
    exchange, for the state of a domain, for a token and to verify, are answered
    404 (400 without a tenant) whatever they name, and change nothing. *)
Theorem domain_verification_unreachable {nil_bytes : NilBytes} {dns : Resolver} c env s :
  sqlx_strict env ->
  Forall (fun h : Handler (list org_row) => exists resp u, h c env s = (Ok resp, u) /\ st u = st s /\
      rs_status resp = (if decide (GetHeader c "X-Tenant-ID" = estr) then 400 else 404)%Z)
    [getDomainVerification (store := orgRepo); generateVerificationToken (store := orgRepo); verifyDomain (store := orgRepo)].
Proof.
  intros Hs. assert (forall k, exists resp u, org_domain (store := orgRepo) c k env s = (Ok resp, u) /\ st u = st s /\
    rs_status resp = (if decide (GetHeader c "X-Tenant-ID" = estr) then 400 else 404)%Z) as H.
  { intros k. unfold org_domain, header_tenant. case_decide; [by repeat eexists|].
    destruct (orgRepo_Get_fails (GetHeader c "X-Tenant-ID") (Param c "id") env s Hs) as (e & u & E & Hst & _).
    unfold bind, attempt. cbn [os_Get orgRepo]. rewrite E. by repeat eexists. }
  repeat constructor; apply H.
Qed.

(** An update may set the flag itself, and a new domain keeps it. *)
Theorem update_keeps_verified req o domain :
  uo_Domain req = Some domain -> uo_DomainVerified req = None ->
  og_Domain (update_org req o) = Some domain /\ og_DomainVerified (update_org req o) = og_DomainVerified o.
Proof. intros Hd Hv. cbn. by rewrite Hd, Hv. Qed.
