(* ===== verification/AuditDemo.v ===== *)
(** * Roles, the audit log and organizations at work

    The theorems of RbacFacts.v on tables with three roles of two tenants, those
    of AuditFacts.v on a log of two tenants, and those of OrganizationFacts.v on
    a domain and its DNS records. *)
From S2P Require Import Prelude GoStd GoText Sql Http Middleware DirectoryDemo Rbac RbacFacts AuditLog AuditFacts.
From S2P Require Import AuthDemo Organizations OrganizationFacts.
Local Open Scope go_scope.

(** ** Roles *)

Definition role_admin : Role := mkRole (demo_uuid 401) tenantA "admin" "Administrators" 0 0.
Definition role_staff : Role := mkRole (demo_uuid 402) tenantA "staff" "Staff" 0 0.
Definition role_other : Role := mkRole (demo_uuid 403) tenantB "staff" "Staff" 0 0.
Definition perm_read : Permission := mkPermission (demo_uuid 501) tenantA "users" "read" estr 0.
Definition perm_all : Permission := mkPermission (demo_uuid 502) tenantA "*" "admin" estr 0.

(** A user who is an administrator and member of the staff. *)
Definition demo_rbac : RbacDb :=
  mkRbac [role_admin; role_staff; role_other] [perm_read; perm_all]
    [(demo_uuid 402, demo_uuid 501); (demo_uuid 401, demo_uuid 502)]
    [mkUserRole (demo_uuid 101) (demo_uuid 401) tenantA 0 None;
     mkUserRole (demo_uuid 101) (demo_uuid 402) tenantA 0 None].

Ltac listed := repeat first [apply list_elem_of_here | apply list_elem_of_further].

Lemma demo_rbac_ok : rbac_ok demo_rbac.
Proof. split; by apply (bool_decide_unpack _); vm_compute. Qed.

Lemma has_permission_iff_witness :
  exists b, HasPermission tenantA (demo_uuid 101) "groups" "delete" demo_env (mkSt 0 demo_rbac) =
    (Ok b, mkSt 1 demo_rbac) /\ (b = true <-> holds demo_rbac (demo_uuid 101) tenantA "groups" "delete").
Proof.
  apply (has_permission_iff tenantA (demo_uuid 101) tenantA (demo_uuid 101) "groups" "delete" demo_env 0 demo_rbac).
  - exact demo_env_up.
  - apply demo_uuid_canonical.
  - apply demo_uuid_canonical.
Defined.

(** Without the administrator's role the user may still read users, through the
    staff's. *)
Lemma delete_role_revokes_witness :
  exists u, store_DeleteRole tenantA (demo_uuid 401) demo_env (mkSt 0 demo_rbac) = (Ok tt, u) /\
    rbac_ok (st u) /\ holds (st u) (demo_uuid 101) tenantA "users" "read".
Proof.
  assert (is_ok (fst (store_DeleteRole tenantA (demo_uuid 401) demo_env (mkSt 0 demo_rbac))) = true) as Hok
    by (vm_compute; reflexivity).
  destruct (ok_run _ Hok) as ([] & u & E). exists u. split; [exact E|].
  destruct (delete_role_revokes tenantA (demo_uuid 401) (demo_uuid 401) tenantA demo_env (mkSt 0 demo_rbac) u
              (demo_uuid_canonical _) (demo_uuid_canonical _) demo_rbac_ok ltac:(vm_compute; reflexivity) E)
    as (Hu & _ & Hholds).
  split; [exact Hu|]. apply Hholds.
  exists (mkUserRole (demo_uuid 101) (demo_uuid 402) tenantA 0 None), perm_read.
  split_and!; try done; try (cbn; listed). split; cbn; listed.
Defined.

Lemma update_role_crosses_tenants_witness :
  exists u, svc_UpdateRole tenantA (demo_uuid 403) "renamed" estr demo_env (mkSt 0 demo_rbac) = (Err sql_ErrNoRows, u) /\
    exists r', r' ∈ rb_roles (st u) /\ ro_ID r' = demo_uuid 403 /\ ro_TenantID r' = tenantB /\ ro_Name r' = "renamed".
Proof.
  apply (update_role_crosses_tenants tenantA tenantA (demo_uuid 403) "renamed" estr demo_env 0 demo_rbac role_other).
  - exact demo_env_up.
  - apply demo_uuid_canonical.
  - apply demo_uuid_canonical.
  - exact demo_rbac_ok.
  - cbn. listed.
  - vm_compute. discriminate.
  - vm_compute. lia.
  - apply Forall_forall. repeat constructor; vm_compute; discriminate.
Defined.

(** ** The audit log *)

Definition nulls : NilBytes := true.
Definition addresses : PgInet := fun s => Some s.
#[local] Existing Instances nulls addresses.

Definition login_event (n : nat) (tenant : string) (tm : Z) : Event :=
  mkEvent (demo_uuid n) tenant tm (Some (demo_uuid 101)) "user" "user.login" "user" None None (Some (JObj [])) None None
    "success".

Definition demo_log : list Event :=
  [login_event 701 tenantA 10; login_event 702 tenantB 20; login_event 703 tenantA 30].

(** The latest login of one user of the first tenant. *)
Definition demo_params : QueryParams :=
  mkQueryParams tenantA (Some (demo_uuid 101)) (Some "user.login") None None None None None 1 0.

Lemma audit_query_equivalent_witness :
  exists asked, asked ≡ₚ [login_event 701 tenantA 10; login_event 703 tenantA 30] /\
    audit_Query demo_params demo_env (mkSt 0 demo_log) = (match scan_events (take 1 asked) with
      | inl l => Ok (l, Z.of_nat (length asked)) | inr e => Err e end, mkSt 2 demo_log) /\
    fst (audit_Query demo_params demo_env (mkSt 0 demo_log)) = Ok ([login_event 703 tenantA 30], 2%Z).
Proof.
  destruct (audit_query_equivalent demo_env demo_params tenantA (Some (demo_uuid 101)) None 0 demo_log
              demo_env_up (demo_uuid_canonical 1)) as (asked & Hp & _ & E).
  - change (Some <$> pg_uuid demo_env (demo_uuid 101) = Some (Some (demo_uuid 101))).
    by rewrite demo_uuid_canonical.
  - reflexivity.
  - intros (_ & _ & H). by apply Z.lt_irrefl in H.
  - exists asked. split; [|split].
    + etrans; [exact Hp|]. assert (filter (matches tenantA (Some (demo_uuid 101)) None demo_params) demo_log =
        [login_event 701 tenantA 10; login_event 703 tenantA 30]) as -> by (vm_compute; reflexivity). done.
    + exact E.
    + vm_compute. reflexivity.
Defined.

Lemma audit_log_roundtrip_witness :
  exists id u got, auditStore_Log (login_event 0 tenantA 0) demo_env (mkSt 5 demo_log) = (Ok id, u) /\
    fst (auditStore_GetEvent tenantA id demo_env u) = Ok got /\ st u = demo_log ++ [got].
Proof.
  destruct (ok_run (auditStore_Log (login_event 0 tenantA 0) demo_env (mkSt 5 demo_log))) as (id & u & E);
    [by vm_compute|].
  destruct (audit_log_roundtrip (login_event 0 tenantA 0) (JObj []) demo_env 5 demo_log id u demo_env_up
              demo_uuid_canonical eq_refl E) as (got & Hg & Hst & _).
  exists id, u, got. split; [exact E|]. split; [|exact Hst]. exact (f_equal fst Hg).
Defined.

(** ** Organizations *)


Definition get_org (tenantID orgID : string) : M (list org_row) (option Organization) :=
  or_nil (t <- uuid_arg tenantID;;
          i <- uuid_arg orgID;;
          r <- sql_get (own_org t i);;
          ret (or_org r)).

Definition mended : OrganizationStore :=
  let repo := orgRepo (nil_bytes := nulls) in {|
  os_Create := os_Create; os_Get := get_org; os_GetByName := os_GetByName; os_List := os_List;
  os_Update := os_Update; os_Delete := os_Delete |}.

Lemma mended_reads : OrgReads mended.
Proof.
  split.
  - intros tenantID orgID. change (readonly (get_org tenantID orgID)). apply readonly_or_nil. effects.
  - intros tenantID orgID env s o u H. change (get_org tenantID orgID env s = (Ok (Some o), u)) in H.
    apply or_nil_Ok_inv in H as [(o' & [= <-] & H)|(? & ? & ?)]; [|done].
    apply bind_Ok_inv in H as (t & s0 & [Ht ->]%uuid_arg_Ok_inv & H).
    apply bind_Ok_inv in H as (i & s1 & [Hi ->]%uuid_arg_Ok_inv & H).
    apply bind_Ok_inv in H as (r & s2 & (Hr & Hown & _)%sql_get_spec & [<- _]%ret_Ok_inv).
    apply bool_decide_eq_true in Hown as [Ht' Hi']. exists r. by rewrite Ht', Hi'.
Qed.
#[local] Existing Instances nulls mended_reads.

(** The record of the domain. *)
Definition demo_token : string := "wardseal-verify=00000000000000000000000000000001".

Definition demo_dns : Resolver := fun _ _ => inl [demo_token].
#[local] Existing Instance demo_dns.

(** An organization that was given this token. *)
Definition acme : org_row :=
  mkOrgRow (mkOrganization (demo_uuid 901) tenantA "acme" None (Some "acme.example") false (Some (JObj [])) (Some (JObj []))
              0 0) (Some demo_token) (Some (7 * 24 * hour)%Z).

Definition org_request : GinCtx :=
  mkGinCtx (mkRequest [("X-Tenant-ID", tenantA)] [] [("id", demo_uuid 901)] [] JNull "10.0.0.1") None.

(** A stopped clock. *)
Definition today : Env := frozen demo_env 0.

Lemma acme_ids : NoDup (org_ids [acme]).
Proof. apply NoDup_singleton. Qed.

Definition verified_in (r : org_row) : bool := og_DomainVerified (or_org r).

(** Its domain shows the token, and is marked. *)
Lemma domain_verified_sound_witness :
  exists resp u, verifyDomain (store := mended) org_request today (mkSt 0 [acme]) = (Ok resp, u) /\
    map verified_in (st u) = [true] /\ exists k records, lookup_TXT "_wardseal.acme.example" k = inl records /\
    Exists (fun r => strings_TrimSpace r = demo_token) records.
Proof.
  assert (match verifyDomain (store := mended) org_request today (mkSt 0 [acme]) with
          | (Ok _, u) => map verified_in (st u) | _ => [] end = [true]) as Hv by (vm_compute; reflexivity).
  destruct (verifyDomain (store := mended) org_request today (mkSt 0 [acme])) as [[resp| |] u] eqn:E; [|discriminate Hv..].
  exists resp, u. split; [reflexivity|]. split; [exact Hv|].
  destruct (domain_verified_sound (store := mended) org_request today (mkSt 0 [acme]) resp u acme_ids E)
    as [H|(row & domain & token & records & j & k & Hrow & _ & _ & Hd & Htok & _ & _ & Hl & Hex & _)];
    [rewrite H in Hv; discriminate Hv|].
  apply list_elem_of_singleton in Hrow as ->. injection Hd as <-. injection Htok as <-. by exists k, records.
Defined.

Lemma domain_verification_unreachable_witness :
  Forall (fun h : Handler (list org_row) => exists resp u, h org_request demo_env (mkSt 0 [acme]) = (Ok resp, u) /\
      st u = [acme] /\ rs_status resp = 404%Z)
    [getDomainVerification (store := orgRepo); generateVerificationToken (store := orgRepo); verifyDomain (store := orgRepo)].
Proof. exact (domain_verification_unreachable org_request demo_env (mkSt 0 [acme]) demo_env_strict). Defined.
