(* ===== verification/Sso.v ===== *)
(** * Single sign-on providers

    internal/sso: the providers (table sso_providers of migration 10), the
    service and the handlers; and internal/auth/sso_provider_store.go, the view
    the auth service has of the same table. *)
From S2P Require Import Prelude GoStd Sql Http Middleware AuditLog.
Local Open Scope go_scope.

(** ** sso/store.go *)

Definition ProviderTypeOIDC : string := "oidc".
Definition ProviderTypeSAML : string := "saml".

Record Provider : Type := mkProvider {
  pr_ID : string;
  pr_TenantID : string;
  pr_Name : string;
  pr_Type : string;
  pr_Enabled : bool;
  pr_OIDCIssuerURL : option string;
  pr_OIDCClientID : option string;
  pr_OIDCClientSecret : option string;
  pr_OIDCScopes : option string;
  pr_SAMLEntityID : option string;
  pr_SAMLSSOURL : option string;
  pr_SAMLSLOURL : option string;
  pr_SAMLCertificate : option string;
  pr_SAMLSignRequests : bool;
  pr_SAMLSignAssertions : bool;
  pr_AutoCreateUsers : bool;
  pr_DefaultRoleID : option string;
  pr_AttributeMappings : option json;
  pr_CreatedAt : Z;
  pr_UpdatedAt : Z
}.

Abbreviation SM := (M (list Provider)).

(** The fields a caller sets, over the identity of a row. *)
Definition with_settings (id tenant type : string) (role : option string) (mappings : option json)
    (created updated : Z) (p : Provider) : Provider :=
  mkProvider id tenant (pr_Name p) type (pr_Enabled p) (pr_OIDCIssuerURL p) (pr_OIDCClientID p)
    (pr_OIDCClientSecret p) (pr_OIDCScopes p) (pr_SAMLEntityID p) (pr_SAMLSSOURL p) (pr_SAMLSLOURL p)
    (pr_SAMLCertificate p) (pr_SAMLSignRequests p) (pr_SAMLSignAssertions p) (pr_AutoCreateUsers p) role mappings
    created updated.

Definition with_enabled (enabled : bool) (p : Provider) : Provider :=
  mkProvider (pr_ID p) (pr_TenantID p) (pr_Name p) (pr_Type p) enabled (pr_OIDCIssuerURL p) (pr_OIDCClientID p)
    (pr_OIDCClientSecret p) (pr_OIDCScopes p) (pr_SAMLEntityID p) (pr_SAMLSSOURL p) (pr_SAMLSLOURL p)
    (pr_SAMLCertificate p) (pr_SAMLSignRequests p) (pr_SAMLSignAssertions p) (pr_AutoCreateUsers p)
    (pr_DefaultRoleID p) (pr_AttributeMappings p) (pr_CreatedAt p) (pr_UpdatedAt p).

Class SsoStore (D : Type) : Type := {
  sso_Create : Provider -> M D string;
  sso_Get : string -> string -> M D Provider;
  sso_GetByName : string -> string -> M D Provider;
  sso_List : string -> option string -> M D (list Provider);
  sso_Update : Provider -> M D unit;
  sso_Delete : string -> string -> M D unit
}.

Definition own_provider (id tenant : string) (p : Provider) : bool :=
  bool_decide (pr_ID p = id /\ pr_TenantID p = tenant).

(** NULL cannot be scanned into a [json.RawMessage]. *)
Definition scan_provider (p : Provider) : SM Provider :=
  match pr_AttributeMappings p with
  | Some _ => ret p
  | None => fail (ErrLib "sql: Scan error on column index 17, name attribute_mappings: unsupported Scan")
  end.

Fixpoint scan_providers (l : list Provider) : SM (list Provider) :=
  match l with
  | [] => ret []
  | p :: r => x <- scan_provider p;; xs <- scan_providers r;; ret (x :: xs)
  end.

Section Store.
Context {nil_bytes : NilBytes}.

Definition max_varchar (n : nat) (v : option string) : SM unit :=
  match v with None => ret tt | Some x => varchar_arg n x end.

Definition mappings_arg (v : option json) : SM (option json) :=
  if decide (v = None /\ nil_is_null = false) then fail (ErrDB "pq: invalid input syntax for type json") else ret v.

Definition role_arg (v : option string) : SM (option string) :=
  match v with None => ret None | Some x => u <- uuid_arg x;; ret (Some u) end.

(** The checks of the columns both statements write. *)
Definition column_args (p : Provider) : SM unit :=
  varchar_arg 255 (pr_Name p);;
  max_varchar 500 (pr_OIDCIssuerURL p);;
  max_varchar 255 (pr_OIDCClientID p);;
  max_varchar 500 (pr_SAMLEntityID p);;
  max_varchar 500 (pr_SAMLSSOURL p);;
  max_varchar 500 (pr_SAMLSLOURL p).

Definition ssoStore_Create (p : Provider) : SM string :=
  t <- uuid_arg (pr_TenantID p);;
  column_args p;;
  varchar_arg 50 (pr_Type p);;
  role <- role_arg (pr_DefaultRoleID p);;
  mappings <- mappings_arg (pr_AttributeMappings p);;
  sql_insert (fun new old => bool_decide (pr_ID old = pr_ID new) ||
                             bool_decide (pr_TenantID old = pr_TenantID new /\ pr_Name old = pr_Name new))
    (fun tm id => (with_settings id t (pr_Type p) role mappings tm tm p, id)).

Definition ssoStore_Get (tenantID id : string) : SM Provider :=
  i <- uuid_arg id;;
  t <- uuid_arg tenantID;;
  p <- sql_get (own_provider i t);;
  scan_provider p.

Definition ssoStore_GetByName (tenantID name : string) : SM Provider :=
  t <- uuid_arg tenantID;;
  p <- sql_get (fun p => bool_decide (pr_Name p = name /\ pr_TenantID p = t));;
  scan_provider p.

Definition ssoStore_List (tenantID : string) (providerType : option string) : SM (list Provider) :=
  t <- uuid_arg tenantID;;
  l <- sql_select (fun p => bool_decide (pr_TenantID p = t) &&
                            match providerType with None => true | Some ty => bool_decide (pr_Type p = ty) end);;
  scan_providers (sort_by (fun x y => String.leb (pr_Name x) (pr_Name y)) l).

Definition ssoStore_Update (p : Provider) : SM unit :=
  column_args p;;
  role <- role_arg (pr_DefaultRoleID p);;
  mappings <- mappings_arg (pr_AttributeMappings p);;
  i <- uuid_arg (pr_ID p);;
  t <- uuid_arg (pr_TenantID p);;
  exec (sql_update_unique (fun x => (pr_TenantID x, pr_Name x)) (own_provider i t)
    (fun tm old => with_settings (pr_ID old) (pr_TenantID old) (pr_Type old) role mappings (pr_CreatedAt old) tm p)).

Definition ssoStore_Delete (tenantID id : string) : SM unit :=
  i <- uuid_arg id;;
  t <- uuid_arg tenantID;;
  exec (sql_delete (own_provider i t)).

#[export] Instance ssoStore : SsoStore (list Provider) := {|
  sso_Create := ssoStore_Create;
  sso_Get := ssoStore_Get;
  sso_GetByName := ssoStore_GetByName;
  sso_List := ssoStore_List;
  sso_Update := ssoStore_Update;
  sso_Delete := ssoStore_Delete
|}.
End Store.

(** ** sso/service.go *)

Section Service.
Context {D : Type} {store : SsoStore D}.

(** [v == nil || *v == ""] *)
Definition blank (v : option string) : bool := bool_decide (v = None \/ v = Some estr).

(** The checks of a creation: the error of the first that fails. *)
Definition provider_error (p : Provider) : option error :=
  if decide (pr_Name p = estr) then Some (ErrNew "provider name is required")
  else if decide (pr_Type p <> ProviderTypeOIDC /\ pr_Type p <> ProviderTypeSAML)
  then Some (ErrNew ("invalid provider type: " +:+ pr_Type p))
  else if decide (pr_Type p = ProviderTypeOIDC) then
    if blank (pr_OIDCIssuerURL p) then Some (ErrNew "OIDC issuer URL is required")
    else if blank (pr_OIDCClientID p) then Some (ErrNew "OIDC client ID is required") else None
  else if blank (pr_SAMLEntityID p) then Some (ErrNew "SAML entity ID is required")
  else if blank (pr_SAMLSSOURL p) then Some (ErrNew "SAML SSO URL is required") else None.

Definition CreateProvider (tenantID : string) (p : Provider) : M D string :=
  match provider_error p with
  | Some err => fail err
  | None =>
      sso_Create (with_enabled true
        (with_settings (pr_ID p) tenantID (pr_Type p) (pr_DefaultRoleID p) (pr_AttributeMappings p) (pr_CreatedAt p)
           (pr_UpdatedAt p) p))
  end.

Definition GetProvider (tenantID id : string) : M D Provider := sso_Get tenantID id.

Definition ListProviders (tenantID : string) (providerType : option string) : M D (list Provider) :=
  sso_List tenantID providerType.

Definition UpdateProvider (tenantID : string) (p : Provider) : M D unit :=
  existing <- map_err (ErrWrap "provider not found") (sso_Get tenantID (pr_ID p));;
  if decide (pr_Type p <> pr_Type existing) then fail (ErrNew "cannot change provider type")
  else
    sso_Update (with_settings (pr_ID p) tenantID (pr_Type p) (pr_DefaultRoleID p) (pr_AttributeMappings p)
                  (pr_CreatedAt p) (pr_UpdatedAt p) p).

Definition DeleteProvider (tenantID id : string) : M D unit := sso_Delete tenantID id.

Definition ToggleProvider (tenantID id : string) (enabled : bool) : M D unit :=
  p <- sso_Get tenantID id;;
  sso_Update (with_enabled enabled p).

(** ** sso/api.go *)

(** The body of a toggle. *)
Record ToggleProviderBody : Type := mkToggleProviderBody { tp_Enabled : bool }.

Context `{!Binder Provider, !Binder ToggleProviderBody}.

Definition sso_tenantID (c : GinCtx) (k : string -> M D Response) : M D Response :=
  with_tenant "tenant id required" c k.

(** The client secret is never written. *)
Definition Provider_json (p : Provider) : json :=
  JObj ([("id", JStr (pr_ID p)); ("tenant_id", JStr (pr_TenantID p)); ("name", JStr (pr_Name p));
         ("type", JStr (pr_Type p)); ("enabled", JBool (pr_Enabled p))]
        ++ optional_json "oidc_issuer_url" (pr_OIDCIssuerURL p) ++ optional_json "oidc_client_id" (pr_OIDCClientID p)
        ++ optional_json "oidc_scopes" (pr_OIDCScopes p) ++ optional_json "saml_entity_id" (pr_SAMLEntityID p)
        ++ optional_json "saml_sso_url" (pr_SAMLSSOURL p) ++ optional_json "saml_slo_url" (pr_SAMLSLOURL p)
        ++ optional_json "saml_certificate" (pr_SAMLCertificate p)
        ++ [("saml_sign_requests", JBool (pr_SAMLSignRequests p));
            ("saml_sign_assertions", JBool (pr_SAMLSignAssertions p));
            ("auto_create_users", JBool (pr_AutoCreateUsers p))]
        ++ optional_json "default_role_id" (pr_DefaultRoleID p)
        ++ match pr_AttributeMappings p with Some m => [("attribute_mappings", m)] | None => [] end
        ++ [("created_at", JNum (pr_CreatedAt p)); ("updated_at", JNum (pr_UpdatedAt p))]).

Definition sso_listProviders : Handler D :=
  fun c => sso_tenantID c (fun tenantID =>
    or_respond (verbatim 500) (ListProviders tenantID (query_value c "type")) (fun providers =>
    ret (respond 200 (JObj [("providers", slice_json Provider_json providers)])))).

Definition sso_createProvider : Handler D :=
  fun c => sso_tenantID c (fun tenantID => bound c (fun p : Provider =>
    or_respond (verbatim 400) (CreateProvider tenantID p) (fun id =>
    ret (respond 201 (JObj [("id", JStr id)]))))).

Definition sso_getProvider : Handler D :=
  fun c => sso_tenantID c (fun tenantID =>
    or_respond (fixed 404 "provider not found") (GetProvider tenantID (Param c "id")) (fun p =>
    ret (respond 200 (Provider_json p)))).

Definition sso_updateProvider : Handler D :=
  fun c => sso_tenantID c (fun tenantID => bound c (fun p : Provider =>
    or_respond (verbatim 400)
      (UpdateProvider tenantID (with_settings (Param c "id") (pr_TenantID p) (pr_Type p) (pr_DefaultRoleID p)
                                  (pr_AttributeMappings p) (pr_CreatedAt p) (pr_UpdatedAt p) p)) (fun _ =>
    ret (respond 200 (JObj [("message", JStr "updated")]))))).

Definition sso_deleteProvider : Handler D :=
  fun c => sso_tenantID c (fun tenantID =>
    or_respond (verbatim 500) (DeleteProvider tenantID (Param c "id")) (fun _ => ret (respond_status 204))).

Definition sso_toggleProvider : Handler D :=
  fun c => sso_tenantID c (fun tenantID => bound c (fun req : ToggleProviderBody =>
    or_respond (verbatim 500) (ToggleProvider tenantID (Param c "id") (tp_Enabled req)) (fun _ =>
    ret (respond 200 (JObj [("enabled", JBool (tp_Enabled req))]))))).
End Service.

(** ** auth/sso_provider_store.go *)

Record SSOProvider : Type := mkSSOProvider {
  sp_ID : string;
  sp_TenantID : string;
  sp_Name : string;
  sp_Type : string;
  sp_Enabled : bool;
  sp_OIDCIssuerURL : option string;
  sp_OIDCClientID : option string;
  sp_OIDCClientSecret : string;
  sp_OIDCScopes : option string
}.

Class SSOProviderStore (Q : Type) : Type :=
  provider_GetByName : string -> string -> M Q (option SSOProvider).

(** A NULL secret is a nil slice. *)
Definition row_provider (p : Provider) : SSOProvider :=
  mkSSOProvider (pr_ID p) (pr_TenantID p) (pr_Name p) (pr_Type p) (pr_Enabled p) (pr_OIDCIssuerURL p)
    (pr_OIDCClientID p) (default estr (pr_OIDCClientSecret p)) (pr_OIDCScopes p).

Definition SQLSSOProviderStore_GetByName (tenantID name : string) : SM (option SSOProvider) :=
  or_nil (t <- uuid_arg tenantID;;
          p <- sql_get (fun p => bool_decide (pr_TenantID p = t /\ pr_Name p = name /\ pr_Enabled p = true));;
          ret (row_provider p)).

#[export] Instance sqlSSOProviderStore : SSOProviderStore (list Provider) := SQLSSOProviderStore_GetByName.
