(* ===== verification/Federation.v ===== *)
(** * Login through an external provider

    internal/auth/federation.go (table federated_identities of migration 15),
    [SocialLogin] of service_federation.go with its two calls of the directory's
    SCIM interface, and the handler of federation_api.go.

    The exchange of a code and the request for the user's profile are
    golang.org/x/oauth2's: the class [OAuth2]. *)
From S2P Require Import Prelude GoStd GoUrl Sha256 Sql Http Middleware OAuthClient AuthClient TokenStores Risk.
From S2P Require Import AuthService Login AuthApi Sso.
Local Open Scope go_scope.

(** ** federation.go *)

Record FederatedIdentity : Type := mkFederated {
  fi_ID : string;
  fi_IdentityID : string;
  fi_TenantID : string;
  fi_Provider : string;
  fi_ExternalID : string;
  fi_ProfileData : option json;
  fi_CreatedAt : Z;
  fi_UpdatedAt : Z
}.

Class FederationStore (F : Type) : Type := {
  fed_Get : string -> string -> string -> M F (option FederatedIdentity);
  fed_Create : FederatedIdentity -> M F unit;
  fed_List : string -> M F (list FederatedIdentity);
  fed_Delete : string -> M F unit
}.

(** The links, and the identities they may refer to. *)
Record FedDb : Type := mkFed { fd_links : list FederatedIdentity; fd_identities : list string }.

Definition in_links {A} (m : M (list FederatedIdentity) A) : M FedDb A :=
  zoom fd_links (fun x s => mkFed x (fd_identities s)) m.

(** What [database/sql] and the driver make of the [json.RawMessage] that
    [JSON.Value] returns: an error, if they do not take it for a value. *)
Class RawMessageValue : Type := raw_message_error : option error.

Definition is_link (t provider external : string) (f : FederatedIdentity) : bool :=
  bool_decide (fi_TenantID f = t /\ fi_Provider f = provider /\ fi_ExternalID f = external).

Section Store.
Context {raw : RawMessageValue}.

Definition sqlFederationStore_Get (tenantID provider externalID : string) : M FedDb (option FederatedIdentity) :=
  or_nil (t <- uuid_arg tenantID;; in_links (sql_get_unique (is_link t provider externalID))).

Definition profile_arg (v : option json) : M FedDb unit :=
  match v, raw_message_error with Some _, Some e => fail e | _, _ => ret tt end.

Definition sqlFederationStore_Create (identity : FederatedIdentity) : M FedDb unit :=
  profile_arg (fi_ProfileData identity);;
  t <- uuid_arg (fi_TenantID identity);;
  i <- uuid_arg (fi_IdentityID identity);;
  statement (fun env n db =>
    let row := mkFederated (gen_uuid env n) i t (fi_Provider identity) (fi_ExternalID identity) (fi_ProfileData identity)
                 (clock env n) (clock env n) in
    if existsb (fun f => is_link t (fi_Provider identity) (fi_ExternalID identity) f ||
                         bool_decide (fi_ID f = fi_ID row)) (fd_links db)
    then inr (ErrDB "pq: duplicate key value violates unique constraint")
    else if decide (i ∉ fd_identities db) then inr (ErrDB "pq: insert violates foreign key constraint")
    else inl (tt, mkFed (fd_links db ++ [row]) (fd_identities db))).

Definition sqlFederationStore_List (identityID : string) : M FedDb (list FederatedIdentity) :=
  i <- uuid_arg identityID;;
  in_links (sql_select (fun f => bool_decide (fi_IdentityID f = i))).

Definition sqlFederationStore_Delete (id : string) : M FedDb unit :=
  i <- uuid_arg id;;
  exec (in_links (sql_delete (fun f => bool_decide (fi_ID f = i)))).

#[export] Instance sqlFederationStore : FederationStore FedDb := {|
  fed_Get := sqlFederationStore_Get;
  fed_Create := sqlFederationStore_Create;
  fed_List := sqlFederationStore_List;
  fed_Delete := sqlFederationStore_Delete
|}.
End Store.

(** ** types_federation.go and the OAuth client *)

Record SocialLoginRequest : Type := mkSocialLoginRequest {
  sl_Provider : string;
  sl_Code : string;
  sl_IDToken : string;
  sl_RedirectURI : string;
  sl_Email : string;
  sl_ExternalID : string
}.

(** [oauth2.Config] *)
Record OAuth2Config : Type := mkOAuth2Config {
  o2_ClientID : string;
  o2_ClientSecret : string;
  o2_Scopes : list string;
  o2_AuthURL : string;
  o2_TokenURL : string
}.

(** [conf.Exchange(ctx, code)] and [conf.Client(ctx, token).Get(url)] *)
Class OAuth2 (P : Type) : Type := {
  oauth2_Exchange : OAuth2Config -> string -> M P string;
  oauth2_Get : OAuth2Config -> string -> string -> M P Response
}.

(** ** service_federation.go *)

Record SocialState (A X P Q F : Type) : Type := mkSocial {
  so_auth : A;
  so_dir : X;
  so_idp : P;
  so_providers : Q;
  so_links : F
}.
Arguments mkSocial {A X P Q F} _ _ _ _ _.
Arguments so_auth {A X P Q F} _.
Arguments so_dir {A X P Q F} _.
Arguments so_idp {A X P Q F} _.
Arguments so_providers {A X P Q F} _.
Arguments so_links {A X P Q F} _.

Record directoryUser : Type := mkDirectoryUser { du_ID : string; du_Email : string }.

(** [json.NewDecoder(resp.Body).Decode(&v)] of the struct of the profile *)
Definition decode_profile (j : json) : (string * string * string) + error :=
  match json_object j with
  | inr e => inr e
  | inl fields =>
      field json_string "email" fields (fun email =>
      field json_string "sub" fields (fun sub =>
      field json_string "name" fields (fun name => inl (email, sub, name))))
  end.

Definition json_int (j : json) : Z + error :=
  match j with JNum z => inl z | JNull => inl 0%Z | _ => inr err_json end.

Definition decode_scim_user (j : json) : directoryUser + error :=
  match json_object j with
  | inr e => inr e
  | inl fields =>
      field json_string "id" fields (fun id =>
      field json_string "userName" fields (fun name => inl (mkDirectoryUser id name)))
  end.

Fixpoint decode_scim_users (l : list json) : list directoryUser + error :=
  match l with
  | [] => inl []
  | j :: r =>
      match decode_scim_user j, decode_scim_users r with
      | inl u, inl us => inl (u :: us)
      | inr e, _ => inr e
      | _, inr e => inr e
      end
  end.

Definition json_array (j : json) : list json + error :=
  match j with JArr l => inl l | JNull => inl [] | _ => inr err_json end.

(** [listResp]: the number of results and the resources *)
Definition decode_scim_list (j : json) : (Z * list directoryUser) + error :=
  match json_object j with
  | inr e => inr e
  | inl fields =>
      field json_int "totalResults" fields (fun total =>
      field json_array "Resources" fields (fun items =>
      match decode_scim_users items with inl users => inl (total, users) | inr e => inr e end))
  end.

(** [q.Set(key, value)] on the query of a request *)
Definition set_query (key value : string) (r : HttpCall) : HttpCall :=
  mkHttpCall (hc_method r) (hc_url r) (hc_headers r) (Values_Set (hc_query r) key value) (hc_body r).

Section Social.
Context {crypto : Crypto}.
Context {C R V O D G : Type}.
Context `{!AuthorizationCodeStore C, !RefreshTokenStore R, !RevocationStore V, !OAuthStore O,
          !DeviceStore D, !SignalStore G}.
Context {X P Q F : Type} {peer : HttpPeer X} {idp : OAuth2 P} {providers : SSOProviderStore Q}
  {links : FederationStore F}.

(** The stores a nil interface may stand for. *)
Context (cfg : AuthConfig) (lc : LoginConfig) (ssoProviderStore federationStore : bool).

Abbreviation State := (SocialState (AuthState C R V O D G) X P Q F).

Definition so_in_auth {B} (m : M (AuthState C R V O D G) B) : M State B :=
  zoom so_auth (fun a s => mkSocial a (so_dir s) (so_idp s) (so_providers s) (so_links s)) m.

Definition so_in_dir {B} (m : M X B) : M State B :=
  zoom so_dir (fun x s => mkSocial (so_auth s) x (so_idp s) (so_providers s) (so_links s)) m.

Definition so_in_idp {B} (m : M P B) : M State B :=
  zoom so_idp (fun x s => mkSocial (so_auth s) (so_dir s) x (so_providers s) (so_links s)) m.

Definition so_in_providers {B} (m : M Q B) : M State B :=
  zoom so_providers (fun x s => mkSocial (so_auth s) (so_dir s) (so_idp s) x (so_links s)) m.

Definition so_in_links {B} (m : M F B) : M State B :=
  zoom so_links (fun x s => mkSocial (so_auth s) (so_dir s) (so_idp s) (so_providers s) x) m.

(** A status other than 200 counts as not found. *)
Definition findUserByEmail (tenantID email : string) : M State (option directoryUser) :=
  let filter := "userName eq " +:+ dquote +:+ email +:+ dquote in
  req <- http_NewRequest "GET" (lc_directoryServiceURL lc +:+ "/scim/v2/Users") JNull;;
  let req := with_header DefaultTenantHeader tenantID (set_query "filter" filter req) in
  resp <- so_in_dir (http_Do (service_auth lc req));;
  if decide (rs_status resp <> 200%Z) then ret None
  else
    r <- decoded (decode_scim_list (rs_body resp));;
    match r with
    | (total, user :: _) => if decide (total > 0)%Z then ret (Some user) else ret None
    | _ => ret None
    end.

Definition scim_user_body (email name password : string) : json :=
  JObj [("active", JBool true);
        ("emails", JArr [JObj [("primary", JBool true); ("type", JStr "work"); ("value", JStr email)]]);
        ("name", JObj [("familyName", JStr name); ("formatted", JStr name)]);
        ("password", JStr password);
        ("schemas", JArr [JStr "urn:ietf:params:scim:schemas:core:2.0:User"]);
        ("userName", JStr email)].

Definition provisionUser (tenantID email name : string) : M State directoryUser :=
  r <- attempt (so_in_auth generateAuthorizationCode);;
  let randomPwd := match r with inl p => p | inr _ => estr end in
  req <- http_NewRequest "POST" (lc_directoryServiceURL lc +:+ "/scim/v2/Users") (scim_user_body email name randomPwd);;
  let req := with_header DefaultTenantHeader tenantID (with_header "Content-Type" "application/scim+json" req) in
  resp <- so_in_dir (http_Do (service_auth lc req));;
  if decide (rs_status resp <> 201%Z) then
    fail (ErrNew ("failed to provision user, status: " +:+ pretty (rs_status resp)))
  else decoded (decode_scim_user (rs_body resp)).

(** The client for a provider, and where its profiles are. *)
Definition provider_client (provider : string) (p : SSOProvider) : (OAuth2Config * string) + error :=
  match sp_OIDCIssuerURL p with
  | Some issuerURL =>
      if decide (issuerURL = estr)
      then inr (ErrService "invalid_configuration" "sso provider issuer url missing")
      else
        let issuer := strings_TrimRight issuerURL (Ascii.ascii_of_nat 47) in
        let userInfoURL := if decide (provider = "google") then "https://www.googleapis.com/oauth2/v3/userinfo"
                           else issuer +:+ "/userinfo" in
        let scopes := match sp_OIDCScopes p with
                      | Some s => if decide (s = estr) then ["openid"; "profile"; "email"]
                                  else strings_Split s (Ascii.ascii_of_nat 32)
                      | None => ["openid"; "profile"; "email"]
                      end in
        inl (mkOAuth2Config (default estr (sp_OIDCClientID p)) (sp_OIDCClientSecret p) scopes
               (issuer +:+ "/authorize") (issuer +:+ "/token"), userInfoURL)
  | None => inr (ErrService "invalid_configuration" "sso provider issuer url missing")
  end.

(** Email, subject and name of the user, from the provider. *)
Definition fetch_profile (conf : OAuth2Config) (userInfoURL code : string) : M State (string * string * string) :=
  token <- map_err (fun err => ErrService "invalid_grant" ("failed to exchange code: " +:+ error_string err))
             (so_in_idp (oauth2_Exchange conf code));;
  resp <- map_err (fun _ => ErrService "invalid_request" "failed to fetch user profile")
            (so_in_idp (oauth2_Get conf token userInfoURL));;
  profile <- map_err (fun _ => ErrService "server_error" "failed to decode user profile")
               (decoded (decode_profile (rs_body resp)));;
  let '(email, sub, _) := profile in
  if decide (email = estr \/ sub = estr)
  then fail (ErrService "invalid_request" "no email or sub in provider response")
  else ret profile.

(** The local user of a profile: linked, found by email, or created. *)
Definition federated_user (tenantID provider email sub name : string) : M State string :=
  existing <- non_nil federationStore (so_in_links (fed_Get tenantID provider sub));;
  match existing with
  | Some link => ret (fi_IdentityID link)
  | None =>
      found <- findUserByEmail tenantID email;;
      user <- match found with
              | Some user => ret user
              | None => provisionUser tenantID email name
              end;;
      so_in_links (fed_Create (mkFederated estr (du_ID user) tenantID provider sub
                                 (Some (JObj [("email", JStr email)])) 0 0));;
      ret (du_ID user)
  end.

Definition SocialLogin (ctx : GinCtx) (req : SocialLoginRequest) : M State TokenResponse :=
  tenantID <- TenantIDFromContext ctx;;
  found <- non_nil ssoProviderStore (so_in_providers (provider_GetByName tenantID (sl_Provider req)));;
  match found with
  | None => fail (ErrService "invalid_request" ("provider '" +:+ sl_Provider req +:+ "' not configured"))
  | Some provider =>
      match provider_client (sl_Provider req) provider with
      | inr err => fail err
      | inl (conf, userInfoURL) =>
          profile <- fetch_profile conf userInfoURL (sl_Code req);;
          let '(email, sub, name) := profile in
          _ <- federated_user tenantID (sl_Provider req) email sub name;;
          so_in_auth (issueTokens cfg tenantID "social-client" "openid profile email" "user")
      end
  end.

(** ** federation_api.go *)

Definition socialLogin `{!Binder SocialLoginRequest, !Validator SocialLoginRequest} : Handler State :=
  fun c => bound c (fun req : SocialLoginRequest => validated req (
    or_respond oauth_failure (SocialLogin c req) (fun resp => ret (respond 200 (TokenResponse_json resp))))).
End Social.
