(* ===== verification/FederationFacts.v ===== *)
(** * What a login through a provider guarantees

    A login is vouched for by a configured provider and leaves a link that later
    logins follow; and whom a first login is linked to. *)
From S2P Require Import Prelude Bcrypt GoStd GoUrl Sha256 Sql Http Middleware OAuthClient AuthClient TokenStores Risk.
From S2P Require Import AuthService Login AuthApi Sso Federation Directory DirectoryFacts Scim ScimFacts.
Local Open Scope go_scope.

(** ** The links *)

Class FederationLaws {F} (links : FederationStore F) : Prop := {
  fed_readonly t p e : readonly (fed_Get t p e);
  fed_found t p e env s link u :
    fed_Get t p e env s = (Ok (Some link), u) ->
    forall n r v, fed_Get t p e env (mkSt n (st s)) = (Ok r, v) -> r = Some link;
  fed_created f env s u :
    fed_Create f env s = (Ok tt, u) ->
    forall n r v, fed_Get (fi_TenantID f) (fi_Provider f) (fi_ExternalID f) env (mkSt n (st u)) = (Ok r, v) ->
    exists link, r = Some link /\ pg_uuid env (fi_IdentityID f) = Some (fi_IdentityID link)
}.

Section SqlLinks.
Context {raw : RawMessageValue}.

Lemma Get_Ok_inv t p e env s r u :
  sqlFederationStore_Get t p e env s = (Ok r, u) ->
  exists i, pg_uuid env t = Some i /\ r = head (filter (is_link i p e) (fd_links (st s))) /\ st u = st s.
Proof.
  unfold sqlFederationStore_Get. intros H. apply or_nil_Ok_inv in H as [(x & -> & H)|(x & -> & H & Hno)];
    rewrite uuid_bind in H; (destruct (pg_uuid env t) as [i|]; [|first [done|injection H as <- <-; by cbn in Hno]]);
    exists i; (split; [done|]); unfold in_links, zoom in H;
    destruct (sql_get_unique_spec (is_link i p e) env (mkSt (tick s) (fd_links (st s)))) as (r & v & E & Hst & Hr);
    rewrite E in H; injection H as -> <-; cbn [st] in Hst, Hr |- *; rewrite Hst; (split; [|by destruct (st s)]).
  - done.
  - by rewrite Hr.
Qed.

Lemma Create_Ok_inv f env s u :
  sqlFederationStore_Create f env s = (Ok tt, u) ->
  exists t i row, pg_uuid env (fi_TenantID f) = Some t /\ pg_uuid env (fi_IdentityID f) = Some i /\
    fi_IdentityID row = i /\ is_link t (fi_Provider f) (fi_ExternalID f) row = true /\
    Forall (fun x => is_link t (fi_Provider f) (fi_ExternalID f) x = false) (fd_links (st s)) /\
    fd_links (st u) = fd_links (st s) ++ [row].
Proof.
  unfold sqlFederationStore_Create. intros H.
  apply bind_Ok_inv in H as (x & s0 & E & H).
  assert (s0 = s) as -> by (unfold profile_arg, ret, fail in E; repeat case_match; by simplify_eq).
  apply bind_Ok_inv in H as (t & s1 & [Ht ->]%uuid_arg_Ok_inv & H).
  apply bind_Ok_inv in H as (i & s1 & [Hi ->]%uuid_arg_Ok_inv & H).
  apply statement_Ok_inv in H as (_ & y & H & ->). cbv zeta in H. cbn [fi_ID] in H.
  destruct (existsb _ _) eqn:Ee; [done|]. case_decide; [done|]. injection H as <-.
  exists t, i. eexists. cbn [st fd_links]. split_and!; try reflexivity; try done.
  - by apply bool_decide_eq_true.
  - apply Forall_forall. intros z Hz. destruct (is_link _ _ _ z) eqn:Ez; [|done].
    rewrite (proj2 (existsb_elem _ _)) in Ee; [done|]. exists z. by rewrite Ez.
Qed.

#[export] Instance sqlFederationStore_laws : FederationLaws sqlFederationStore.
Proof.
  split.
  - intros t p e. change (readonly (sqlFederationStore_Get t p e)). unfold sqlFederationStore_Get.
    apply readonly_or_nil. effects. unfold in_links. apply readonly_zoom; [by intros []|]. intros env s.
    destruct (sql_get_unique_spec (is_link a p e) env s) as (r & u & -> & Hst & _). exact Hst.
  - intros t p e env s link u H n r v H'. apply Get_Ok_inv in H as (i & Hi & Hl & _).
    apply Get_Ok_inv in H' as (i' & Hi' & -> & _). rewrite Hi in Hi'. injection Hi' as <-. by rewrite Hl.
  - intros f env s u H n r v H'. apply Create_Ok_inv in H as (t & i & row & Ht & Hi & Hrow & Hlink & Hnone & Hu).
    apply Get_Ok_inv in H' as (t' & Ht' & -> & _). cbn [st]. rewrite Ht in Ht'. injection Ht' as <-.
    rewrite Hu, filter_app, filter_none, filter_cons_True; cycle 1.
    { by apply Is_true_true. }
    { intros x Hx Hl. rewrite Forall_forall in Hnone. rewrite (Hnone x Hx) in Hl. done. }
    exists row. split; [done|]. by rewrite Hrow.
Qed.
End SqlLinks.

(** ** A login *)

Section Social.
Context {crypto : Crypto}.
Context {C R V O D G : Type}.
Context `{!AuthorizationCodeStore C, !RefreshTokenStore R, !RevocationStore V, !OAuthStore O,
          !DeviceStore D, !SignalStore G}.
Context {X P Q F : Type} {peer : HttpPeer X} {idp : OAuth2 P} {providers : SSOProviderStore Q}
  {links : FederationStore F} {laws : FederationLaws links}.
Context (cfg : AuthConfig) (lc : LoginConfig).

Abbreviation State := (SocialState (AuthState C R V O D G) X P Q F).

(** A link that a lookup will find. *)
Definition linked (env : Env) (t provider sub user : string) (f : F) : Prop :=
  forall n r v, fed_Get t provider sub env (mkSt n f) = (Ok r, v) ->
    exists link, r = Some link /\ (fi_IdentityID link = user \/ pg_uuid env user = Some (fi_IdentityID link)).

Lemma federated_user_linked t provider email sub name env (s : St State) user u :
  federated_user lc true t provider email sub name env s = (Ok user, u) ->
  linked env t provider sub user (so_links (st u)).
Proof.
  unfold federated_user. cbn [non_nil]. intros H. apply bind_Ok_inv in H as (found & s1 & E & H).
  apply zoom_Ok_inv in E as (v & E & ->).
  destruct found as [link|].
  - apply ret_Ok_inv in H as [<- <-]. intros n r w Hg. cbn [st so_links] in Hg.
    pose proof (fed_readonly t provider sub env (mkSt (tick s) (so_links (st s)))) as Hr. rewrite E in Hr. cbn in Hr.
    rewrite Hr in Hg. rewrite (fed_found _ _ _ _ _ _ _ E _ _ _ Hg). eauto.
  - apply bind_Ok_inv in H as (found & s2 & _ & H). apply bind_Ok_inv in H as (du & s3 & _ & H).
    apply bind_Ok_inv in H as ([] & s4 & H & [<- <-]%ret_Ok_inv).
    apply zoom_Ok_inv in H as (w & H & ->). intros n r v' Hg. cbn [st so_links] in Hg.
    destruct (fed_created _ _ _ _ H _ _ _ Hg) as (link & -> & Hl). eauto.
Qed.

(** A user who is linked: the directory is not asked. *)
Lemma federated_user_follows t provider email sub name env (s : St State) link v :
  fed_Get t provider sub env (mkSt (tick s) (so_links (st s))) = (Ok (Some link), v) ->
  exists u, federated_user lc true t provider email sub name env s = (Ok (fi_IdentityID link), u) /\
    so_dir (st u) = so_dir (st s) /\ so_links (st u) = so_links (st s).
Proof.
  intros H. pose proof (fed_readonly t provider sub env (mkSt (tick s) (so_links (st s)))) as Hr. rewrite H in Hr.
  unfold federated_user, non_nil, bind, so_in_links, zoom. rewrite H. eexists. split; [reflexivity|]. by cbn.
Qed.

(** What the provider vouched for. *)
Definition vouched (env : Env) (t : string) (req : SocialLoginRequest) (q : St Q) (email sub : string) : Prop :=
  exists provider conf url name (s1 s2 : St State),
    fst (provider_GetByName t (sl_Provider req) env q) = Ok (Some provider) /\
    provider_client (sl_Provider req) provider = inl (conf, url) /\
    fetch_profile conf url (sl_Code req) env s1 = (Ok (email, sub, name), s2).

End Social.
