(* ===== verification/FederationDirectory.v ===== *)
(** * A first login through a provider, against the directory

    The auth service (Federation.v) asks the directory process (DirService.v)
    for the user with the email of the profile.  The SCIM service does not look
    at the filter it is sent. *)
From S2P Require Import Prelude Bcrypt GoStd GoUrl Sha256 Sql Http Middleware Gin OAuthClient AuthClient TokenStores Risk.
From S2P Require Import AuthService Login AuthApi Sso Federation Directory DirectoryApi DirectoryFacts Scim ScimFacts DirService.
Local Open Scope go_scope.

Lemma scim_user_decoded (u : Scim.User) :
  decode_scim_user (Scim.User_json u) = inl (mkDirectoryUser (su_ID u) (su_UserName u)).
Proof.
  unfold Scim.User_json, omitempty, omitnil. case_decide as H; [rewrite H|]; destruct (su_Emails u); done.
Qed.

Lemma scim_users_decoded (l : list Scim.User) :
  decode_scim_users (map Scim.User_json l) = inl (map (fun u => mkDirectoryUser (su_ID u) (su_UserName u)) l).
Proof. induction l as [|u l IH]; [done|]. cbn [map decode_scim_users]. by rewrite scim_user_decoded, IH. Qed.

Lemma scim_list_decoded (r : ListResponse Scim.User) :
  decode_scim_list (ListResponse_json Scim.User_json r) =
    inl (lr_TotalResults r, map (fun u => mkDirectoryUser (su_ID u) (su_UserName u)) (lr_Resources r)).
Proof.
  transitivity (match decode_scim_users (map Scim.User_json (lr_Resources r)) with
                | inl users => inl (lr_TotalResults r, users) | inr e => inr e end : (Z * list directoryUser) + error);
    [reflexivity|]. by rewrite scim_users_decoded.
Qed.

Section Composed.
Context {bcrypt : Bcrypt}.
Context `{!Binder Scim.User, !Binder Scim.Group, !Binder (list PatchOperation)}.
Context {gin : GinRedirect} (directory_routes : list (Route DirDb)).

(** The directory has no route of its own for the path. *)
Context (Hroutes : resolve (dirsvc_routes directory_routes) "GET" ["scim"; "v2"; "Users"] =
  resolve scim_RegisterRoutes "GET" ["scim"; "v2"; "Users"]).

(** A SCIM listing over HTTP, whatever the filter. *)
Lemma scim_list_call base call tid t env n d :
  db_up env -> pg_uuid env tid = Some t -> tid <> estr -> uuidRegex tid = true ->
  hc_method call = "GET" -> request_path base (hc_url call) = Some ["scim"; "v2"; "Users"] ->
  header_get DefaultTenantHeader (hc_headers call) = tid ->
  assoc_get "startIndex" (flat_map (fun kv => map (pair (fst kv)) (snd kv)) (hc_query call)) = None ->
  assoc_get "count" (flat_map (fun kv => map (pair (fst kv)) (snd kv)) (hc_query call)) = None ->
  exists r, dirsvc_Do directory_routes base call env (mkSt n d) =
      (Ok (respond 200 (ListResponse_json Scim.User_json r)), mkSt (S (S n)) d) /\
    lr_TotalResults r = Z.of_nat (length (filter (fun i => id_tenant i = t) (d_identities d))) /\
    lr_Resources r = take 100 (listed (row_order env (S n)) t d).
Proof.
  intros Hup Ht Hne Hre Hm Hu Hh Hstart Hcount.
  rewrite (dirsvc_routed directory_routes base call ["scim"; "v2"; "Users"] [] (TenantExtractor noTenantConfig (Scim.listUsers (X := DirDb))))
    by first [done|by rewrite Hm, Hroutes].
  unfold serve, dispatch. rewrite Hm, Hroutes.
  change (resolve scim_RegisterRoutes "GET" ["scim"; "v2"; "Users"])
    with (Some (@nil (string * string), TenantExtractor noTenantConfig (Scim.listUsers (X := DirDb)))). cbv iota.
  rewrite (TenantExtractor_run _ _ tid) by first [done|rewrite <-Hh; by apply (sent_headers_other DefaultTenantHeader)].
  unfold Scim.listUsers, scim_tenant. erewrite or_respond_run by (by apply tenant_context).
  unfold query_int, DefaultQuery, call_request. cbn [gc_request rq_query]. rewrite Hstart, Hcount. cbn [default].
  unfold or_internal. erewrite or_respond_run by (by apply (ListUsers_run _ t)).
  eexists. split; [reflexivity|]. split; [reflexivity|]. cbn. by rewrite drop_0.
Qed.

Lemma filter_total f t d newest rest :
  listed f t d = newest :: rest -> (Z.of_nat (length (filter (fun i => id_tenant i = t) (d_identities d))) > 0)%Z.
Proof.
  intros H. destruct (filter (fun i => id_tenant i = t) (d_identities d)) as [|i l] eqn:E; [exfalso|cbn; lia].
  assert (su_ID newest ∈ map su_ID (listed f t d)) as Hin by (rewrite H; left).
  unfold listed in Hin. apply list_elem_of_fmap in Hin as (u & _ & Hu).
  apply list_elem_of_fmap in Hu as (v & _ & Hv). apply list_elem_of_fmap in Hv as (row & _ & Hrow).
  unfold order_by_desc in Hrow. rewrite sort_by_Permutation, reorder_Permutation in Hrow. apply list_elem_of_filter in Hrow as [Ht Hj].
  unfold joined in Hj. apply list_elem_of_In, in_flat_map in Hj as (i & Hi & Hj). apply list_elem_of_In in Hi, Hj.
  apply list_elem_of_fmap in Hj as (a & -> & _). cbn [fst] in *.
  assert (i ∈ filter (fun i => id_tenant i = t) (d_identities d)) as Hf by (by apply list_elem_of_filter).
  rewrite E in Hf. by apply elem_of_nil in Hf.
Qed.

Context {C R V O D G P Q F : Type} (lc : LoginConfig).

Abbreviation base := (lc_directoryServiceURL lc).

#[local] Instance dirsvc : HttpPeer DirDb := dirsvc_Do directory_routes base.

Abbreviation State := (SocialState (AuthState C R V O D G) DirDb P Q F).

(** Whatever the email of the profile, the search answers with the newest user
    of the tenant, where no two have the same creation time: a first login is
    linked to them. *)
Theorem find_user_ignores_email tid t email env (s : St State) newest rest url :
  db_up env -> pg_uuid env tid = Some t -> tid <> estr -> uuidRegex tid = true ->
  url_Parse (base +:+ "/scim/v2/Users") = inl url -> u_RawQuery url = estr ->
  strings_ToLower (lc_serviceAuthHeader lc) <> strings_ToLower DefaultTenantHeader ->
  distinct_times t (so_dir (st s)) -> all_users t (so_dir (st s)) = newest :: rest ->
  exists u, findUserByEmail lc tid email env s = (Ok (Some (mkDirectoryUser (su_ID newest) (su_UserName newest))), u) /\
    st u = st s.
Proof.
  intros Hup Ht Hne Hre Hurl Hq Hsvc Hdist Hall. pose proof (fun f => listed_all f t (so_dir (st s)) Hdist) as Hl. unfold findUserByEmail, http_NewRequest. cbv zeta. rewrite Hurl.
  rewrite (bind_Ok _ _ _ _ _ _ eq_refl). rewrite Hq. unfold bind at 1, so_in_dir, zoom.
  match goal with |- context [http_Do ?call env _] =>
    destruct (scim_list_call base call tid t env (tick s) (so_dir (st s)) Hup Ht Hne Hre) as (r & Hr & Htotal & Hres) end;
    [by unfold service_auth; case_decide
    |by transitivity (request_path base (base +:+ "/scim/v2/Users"));
       [unfold service_auth; case_decide|apply (request_path_app base _ "scim/v2/Users")]| | | |].
  - unfold service_auth. case_decide; [rewrite header_get_other by done|]; apply header_get_set.
  - unfold service_auth. by case_decide.
  - unfold service_auth. by case_decide.
  - rewrite (http_Do_run (peer := dirsvc) _ _ _ _ _ Hr eq_refl). cbn [tick st rs_status respond rs_body]. rewrite decide_False by tauto.
    rewrite scim_list_decoded, Hres, Htotal, Hl, Hall. rewrite (bind_Ok _ _ _ _ _ _ eq_refl). cbn [take map].
    rewrite decide_True by (by eapply filter_total). eexists. split; [reflexivity|]. by destruct (st s).
Qed.
End Composed.
