(* ===== verification/FederationDemo.v ===== *)
(** * A login through a provider at work

    The auth service with a provider that vouches for one user, against the
    directory process of two tenants: the hypotheses of the theorems of
    FederationFacts.v and FederationDirectory.v can be met. *)
From S2P Require Import Prelude Bcrypt GoStd GoUrl Sha256 Sql Http Middleware Gin OAuthClient AuthClient TokenStores Risk.
From S2P Require Import AuthService AuthFacts AuthDemo Login AuthApi Sso Federation FederationFacts FederationDirectory.
From S2P Require Import Directory DirectoryApi DirectoryFacts DirectoryDemo Scim ScimFacts DirService.
Local Open Scope go_scope.

(** The provider: any code is exchanged, the profile is fixed. *)
Definition demo_idp : OAuth2 unit := {|
  oauth2_Exchange := fun _ code => ret ("token for " +:+ code);
  oauth2_Get := fun _ _ _ =>
    ret (respond 200 (JObj [("email", JStr "new@partner.example"); ("sub", JStr "sub-1"); ("name", JStr "New")]))
|}.

Definition takes_raw : RawMessageValue := None.

Definition bind_scim_user : Binder Scim.User := fun _ => inr err_json.
Definition bind_scim_group : Binder Scim.Group := fun _ => inr err_json.
Definition bind_scim_ops : Binder (list PatchOperation) := fun _ => inr err_json.
#[local] Existing Instances demo_gin demo_idp takes_raw bind_scim_user bind_scim_group bind_scim_ops.

(** The routes of the directory are left out: the login uses those of SCIM. *)
Definition no_routes : list (Route DirDb) := [].

Definition demo_dirsvc : HttpPeer DirDb := dirsvc_Do no_routes (lc_directoryServiceURL two_services).
#[local] Existing Instance demo_dirsvc.

Definition okta : Provider :=
  mkProvider (demo_uuid 951) tenantA "okta" "oidc" true (Some "https://idp.example/") (Some "client") None None None None
    None None false true true None (Some (JObj [])) 0 0.

Definition social_state : SocialState Memory DirDb unit (list Provider) FedDb :=
  mkSocial (st fresh) two_tenants tt [okta] (mkFed [] [demo_uuid 101; demo_uuid 102]).

Definition social_ctx : GinCtx := mkGinCtx (mkRequest [] [] [] [] JNull "10.0.0.1") (Some tenantA).

Definition social_req : SocialLoginRequest := mkSocialLoginRequest "okta" "code-1" estr estr estr estr.

Lemma demo_profile conf url code env (s : St (SocialState Memory DirDb unit (list Provider) FedDb)) :
  fst (fetch_profile conf url code env s) = Ok ("new@partner.example", "sub-1", "New").
Proof. reflexivity. Qed.


(** The email of the profile is of no user; the link is to the user of the
    tenant all the same. *)
Example linked_to_another_user :
  exists u link, snd (SocialLogin demo_cfg two_services true true social_ctx social_req demo_env (mkSt 0 social_state)) = u /\
    fd_links (so_links (st u)) = [link] /\ fi_ExternalID link = "sub-1" /\ fi_IdentityID link = demo_uuid 101.
Proof. eexists _, _. split; [reflexivity|]. split; [vm_compute; reflexivity|]. by vm_compute. Qed.
