(* ===== verification/SsoFacts.v ===== *)
(** * What the configuration of providers guarantees

    A provider that was accepted is one the auth service can log users in
    through; and what an update does to its secret. *)
From S2P Require Import Prelude GoStd GoUrl Sql Http Middleware DirectoryDemo AuditLog AuditDemo Sso Federation.
Local Open Scope go_scope.

Section Facts.
Context {nil_bytes : NilBytes}.

(** What a creation leaves in the table. *)
Lemma CreateProvider_Ok_inv tenantID p env (s : St (list Provider)) id u :
  CreateProvider tenantID p env s = (Ok id, u) ->
  exists t row, provider_error p = None /\ pg_uuid env tenantID = Some t /\ st u = st s ++ [row] /\
    pr_ID row = id /\ pr_TenantID row = t /\ pr_Name row = pr_Name p /\ pr_Enabled row = true /\
    pr_OIDCIssuerURL row = pr_OIDCIssuerURL p /\ pr_OIDCClientID row = pr_OIDCClientID p /\
    pr_OIDCClientSecret row = pr_OIDCClientSecret p /\ pr_OIDCScopes row = pr_OIDCScopes p /\
    Forall (fun old => ~ (pr_TenantID old = t /\ pr_Name old = pr_Name p)) (st s).
Proof.
  unfold CreateProvider. destruct (provider_error p) eqn:He; [done|]. intros H. cbn in H. unfold ssoStore_Create in H.
  apply bind_Ok_inv in H as (t & s0 & [Ht ->]%uuid_arg_Ok_inv & H).
  apply bind_Ok_inv in H as (x & s1 & E & H).
  assert (s1 = s) as ->.
  { unfold column_args, max_varchar in E. cbn in E. minv;
      repeat match goal with H : varchar_arg _ _ _ _ = _ |- _ => apply varchar_arg_Ok_inv in H as [_ ->] end; done. }
  apply bind_Ok_inv in H as (y & s1 & [_ ->]%varchar_arg_Ok_inv & H).
  apply bind_Ok_inv in H as (role & s2 & E1 & H).
  assert (s2 = s) as ->.
  { unfold role_arg in E1. destruct (pr_DefaultRoleID _); [|by apply ret_Ok_inv in E1 as [_ <-]].
    by apply bind_Ok_inv in E1 as (v & s2' & [_ ->]%uuid_arg_Ok_inv & [_ <-]%ret_Ok_inv). }
  apply bind_Ok_inv in H as (mappings & s3 & E2 & H).
  assert (s3 = s) as -> by (unfold mappings_arg in E2; by minv).
  apply sql_insert_Ok_inv in H as (row & Hmk & Hfresh & ->). injection Hmk as <- <-.
  exists t. eexists. split_and!; try reflexivity; try done.
  apply Forall_forall. intros old Hold [H1 H2].
  rewrite (proj2 (existsb_elem _ _)) in Hfresh; [done|]. exists old. split; [done|].
  apply orb_true_iff. right. by apply bool_decide_eq_true.
Qed.

Lemma oidc_checked p :
  provider_error p = None -> pr_Type p = ProviderTypeOIDC ->
  exists issuer client, pr_OIDCIssuerURL p = Some issuer /\ issuer <> estr /\ pr_OIDCClientID p = Some client.
Proof.
  unfold provider_error. intros H Ht. repeat (case_decide; [try done|]); try done.
  destruct (blank (pr_OIDCIssuerURL p)) eqn:Hb; [done|]. unfold blank in Hb. apply bool_decide_eq_false in Hb.
  destruct (blank (pr_OIDCClientID p)) eqn:Hc; [done|]. apply bool_decide_eq_false in Hc.
  destruct (pr_OIDCIssuerURL p) as [issuer|]; [|tauto]. destruct (pr_OIDCClientID p) as [client|]; [|tauto].
  exists issuer, client. split_and!; [done| |done]. intros ->. tauto.
Qed.

(** A provider for OpenID Connect that the service accepted is found
    by the auth service under its name, enabled, with a complete client
    configuration. *)
Theorem created_provider_serves tenantID p env (s : St (list Provider)) id u n :
  db_up env -> pr_Type p = ProviderTypeOIDC -> CreateProvider tenantID p env s = (Ok id, u) ->
  exists q conf url v,
    provider_GetByName tenantID (pr_Name p) env (mkSt n (st u)) = (Ok (Some q), v) /\ sp_ID q = id /\
    provider_client (pr_Name p) q = inl (conf, url) /\
    pr_OIDCClientID p = Some (o2_ClientID conf) /\
    o2_ClientSecret conf = default estr (pr_OIDCClientSecret p).
Proof.
  intros Hup Hty H. apply CreateProvider_Ok_inv in H as (t & row & He & Ht & Hu & Hid & Hten & Hname & Hen & Hiss & Hcl & Hsec & Hsc & Hnone).
  destruct (oidc_checked p He Hty) as (issuer & client & Hi & Hne & Hc).
  unfold provider_GetByName, sqlSSOProviderStore, SQLSSOProviderStore_GetByName. rewrite Hi in Hiss. rewrite Hc in Hcl.
  eexists (row_provider row), _, _, _. split; [apply or_nil_run|split; [done|]].
  - rewrite uuid_bind, Ht. unfold bind, sql_get. rewrite statement_up by done. cbn [tick st].
    rewrite Hu, filter_app, filter_none, filter_cons_True; [by rewrite filter_nil, app_nil_l, reorder_one|by apply Is_true_true, bool_decide_eq_true|].
    intros old Hold Hm. apply Is_true_true, bool_decide_eq_true in Hm as (H1 & H2 & _).
    rewrite Forall_forall in Hnone. by apply (Hnone old Hold).
  - unfold provider_client. cbn [sp_OIDCIssuerURL row_provider]. rewrite Hiss, decide_False by done.
    split; [reflexivity|]. cbn. by rewrite Hcl, Hsec, Hc.
Qed.

(** An update without a secret, which is all a request can ask for, erases the
    stored one. *)
Theorem update_erases_secret tenantID p env (s : St (list Provider)) u i t row :
  pr_OIDCClientSecret p = None -> UpdateProvider tenantID p env s = (Ok tt, u) ->
  pg_uuid env (pr_ID p) = Some i -> pg_uuid env tenantID = Some t ->
  row ∈ st u -> pr_ID row = i -> pr_TenantID row = t -> pr_OIDCClientSecret row = None.
Proof.
  intros Hsec H Hi Ht Hrow Hid Hten. unfold UpdateProvider in H. apply bind_Ok_inv in H as (existing & s1 & _ & H).
  case_decide; [done|]. cbn in H. unfold ssoStore_Update in H.
  apply bind_Ok_inv in H as (? & ? & _ & H). apply bind_Ok_inv in H as (role & ? & _ & H).
  apply bind_Ok_inv in H as (mappings & ? & _ & H). apply bind_Ok_inv in H as (i' & ? & [Hi' ->]%uuid_arg_Ok_inv & H).
  apply bind_Ok_inv in H as (t' & ? & [Ht' ->]%uuid_arg_Ok_inv & H). cbn in Hi', Ht'.
  apply bind_Ok_inv in H as (k & ? & [_ ->]%sql_update_unique_Ok_inv & [_ <-]%ret_Ok_inv). cbn [st] in Hrow.
  apply list_elem_of_fmap in Hrow as (old & -> & Hold). simplify_eq.
  destruct (own_provider i' t' old) eqn:Eo; [done|]. apply bool_decide_eq_false in Eo. by destruct Eo.
Qed.
End Facts.

(** ** At work *)

Definition new_provider : Provider :=
  mkProvider estr estr "okta" "oidc" false (Some "https://idp.example") (Some "client") None None None None None None
    false true true None (Some (JObj [])) 0 0.

Lemma created_provider_serves_witness :
  exists id u q v, CreateProvider (store := ssoStore (nil_bytes := nulls)) tenantA new_provider demo_env (mkSt 0 []) = (Ok id, u) /\
    provider_GetByName tenantA "okta" demo_env (mkSt 5 (st u)) = (Ok (Some q), v) /\ sp_ID q = id.
Proof.
  destruct (ok_run (CreateProvider (store := ssoStore (nil_bytes := nulls)) tenantA new_provider demo_env (mkSt 0 [])))
    as (id & u & E); [by vm_compute|].
  destruct (created_provider_serves tenantA new_provider demo_env (mkSt 0 []) id u 5 demo_env_up eq_refl E)
    as (q & conf & url & v & Hq & Hid & _).
  exists id, u, q, v. split; [exact E|]. split; [exact Hq|exact Hid].
Defined.
