(* ===== verification/DeveloperApps.v ===== *)
(** * Developer apps and API keys

    internal/auth/developer_app_store.go (table developer_apps of migration 21)
    and developer_api.go, whose handlers also write the table api_keys of
    migration 22. *)
From S2P Require Import Prelude Bcrypt GoStd GoText Sql Http AuditLog.
Local Open Scope go_scope.

(** ** developer_app_store.go *)

Record DeveloperApp : Type := mkDeveloperApp {
  da_ID : string;
  da_TenantID : string;
  da_OwnerID : string;
  da_Name : string;
  da_Description : option string;
  da_ClientID : string;
  da_ClientSecretHash : string;
  da_RedirectURIs : option json;
  da_GrantTypes : option json;
  da_Scopes : option json;
  da_AppType : string;
  da_LogoURL : option string;
  da_HomepageURL : option string;
  da_PrivacyURL : option string;
  da_TosURL : option string;
  da_Status : string;
  da_CreatedAt : Z;
  da_UpdatedAt : Z
}.

Record APIKey : Type := mkAPIKey {
  ak_ID : string;
  ak_TenantID : string;
  ak_OwnerID : string;
  ak_Name : string;
  ak_KeyPrefix : string;
  ak_KeyHash : string;
  ak_Status : string;
  ak_CreatedAt : Z;
  ak_LastUsedAt : option Z
}.

(** The two tables. *)
Record DevDb : Type := mkDev { dv_apps : list DeveloperApp; dv_keys : list APIKey }.

Definition in_apps {A} (m : M (list DeveloperApp) A) : M DevDb A := zoom dv_apps (fun x s => mkDev x (dv_keys s)) m.
Definition in_keys {A} (m : M (list APIKey) A) : M DevDb A := zoom dv_keys (fun x s => mkDev (dv_apps s) x) m.

Abbreviation VM := (M DevDb).

Class DeveloperAppStore : Type := {
  app_Create : DeveloperApp -> string -> VM DeveloperApp;
  app_Get : string -> string -> VM (option DeveloperApp);
  app_GetByClientID : string -> VM (option DeveloperApp);
  app_ListByOwner : string -> string -> VM (list DeveloperApp);
  app_Update : DeveloperApp -> VM unit;
  app_Delete : string -> string -> VM unit;
  app_RotateSecret : string -> string -> VM string;
  app_ValidateCredentials : string -> string -> VM (option DeveloperApp)
}.

Fixpoint zero_bytes (n : nat) : string :=
  match n with O => estr | S n => String (Ascii.ascii_of_nat 0) (zero_bytes n) end.

(** [_, _ = rand.Read(b)]: a buffer that is not filled holds zeros. *)
Definition random_bytes {S} (n : nat) : M S string :=
  r <- attempt (rand_Read n);;
  ret (match r with inl b => b | inr _ => zero_bytes n end).

Definition generateClientID {S} : M S string := b <- random_bytes 16;; ret ("vv_" +:+ hex_Encode b).

Definition generateClientSecret {S} : M S string := b <- random_bytes 32;; ret ("vvs_" +:+ hex_Encode b).

(** Missing documents and fields get their defaults. *)
Definition with_defaults (clientID hash : string) (a : DeveloperApp) : DeveloperApp :=
  let keep {A} (v : option A) d := Some (default d v) in
  mkDeveloperApp (da_ID a) (da_TenantID a) (da_OwnerID a) (da_Name a) (da_Description a) clientID hash
    (keep (da_RedirectURIs a) (JArr []))
    (keep (da_GrantTypes a) (JArr [JStr "authorization_code"; JStr "refresh_token"]))
    (keep (da_Scopes a) (JArr [JStr "openid"; JStr "profile"; JStr "email"]))
    (if decide (da_AppType a = estr) then "web" else da_AppType a) (da_LogoURL a) (da_HomepageURL a) (da_PrivacyURL a)
    (da_TosURL a) (if decide (da_Status a = estr) then "active" else da_Status a) (da_CreatedAt a) (da_UpdatedAt a).

(** [RETURNING id, created_at, updated_at], scanned into the struct *)
Definition with_row (id tenant : string) (created updated : Z) (a : DeveloperApp) : DeveloperApp :=
  mkDeveloperApp id tenant (da_OwnerID a) (da_Name a) (da_Description a) (da_ClientID a) (da_ClientSecretHash a)
    (da_RedirectURIs a) (da_GrantTypes a) (da_Scopes a) (da_AppType a) (da_LogoURL a) (da_HomepageURL a)
    (da_PrivacyURL a) (da_TosURL a) (da_Status a) created updated.

(** The fields an update writes. *)
Definition with_details (src : DeveloperApp) (uris : option json) (tm : Z) (a : DeveloperApp) : DeveloperApp :=
  mkDeveloperApp (da_ID a) (da_TenantID a) (da_OwnerID a) (da_Name src) (da_Description src) (da_ClientID a)
    (da_ClientSecretHash a) uris (da_GrantTypes a) (da_Scopes a) (da_AppType a) (da_LogoURL src)
    (da_HomepageURL src) (da_PrivacyURL src) (da_TosURL src) (da_Status a) (da_CreatedAt a) tm.

Definition with_secret_status (hash status : string) (tm : Z) (a : DeveloperApp) : DeveloperApp :=
  mkDeveloperApp (da_ID a) (da_TenantID a) (da_OwnerID a) (da_Name a) (da_Description a) (da_ClientID a) hash
    (da_RedirectURIs a) (da_GrantTypes a) (da_Scopes a) (da_AppType a) (da_LogoURL a) (da_HomepageURL a)
    (da_PrivacyURL a) (da_TosURL a) status (da_CreatedAt a) tm.

Definition own_app (t i : string) (a : DeveloperApp) : bool := bool_decide (da_TenantID a = t /\ da_ID a = i).

Section Store.
Context {bcrypt : Bcrypt} {nil_bytes : NilBytes}.

Definition developerAppRepo_Create (app : DeveloperApp) (clientSecret : string) : VM DeveloperApp :=
  clientID <- generateClientID;;
  hash <- GenerateFromPassword clientSecret;;
  let app := with_defaults clientID hash app in
  t <- uuid_arg (da_TenantID app);;
  varchar_arg 255 (da_OwnerID app);;
  varchar_arg 255 (da_Name app);;
  varchar_arg 64 (da_ClientID app);;
  varchar_arg 255 (da_ClientSecretHash app);;
  varchar_arg 50 (da_AppType app);;
  varchar_arg 50 (da_Status app);;
  r <- in_apps (sql_insert (fun new old => bool_decide (da_ID old = da_ID new \/ da_ClientID old = da_ClientID new))
         (fun tm id => (with_row id t tm tm app, (id, tm))));;
  let '(id, tm) := r in
  ret (with_row id (da_TenantID app) tm tm app).

(** A document that is NULL cannot be scanned. *)
Definition scan_app (a : DeveloperApp) : VM DeveloperApp :=
  match da_RedirectURIs a, da_GrantTypes a, da_Scopes a with
  | Some _, Some _, Some _ => ret a
  | _, _, _ => fail (ErrLib "sql: Scan error: unsupported Scan")
  end.

Fixpoint scan_apps (l : list DeveloperApp) : VM (list DeveloperApp) :=
  match l with
  | [] => ret []
  | a :: r => x <- scan_app a;; xs <- scan_apps r;; ret (x :: xs)
  end.

Definition developerAppRepo_Get (tenantID appID : string) : VM (option DeveloperApp) :=
  or_nil (t <- uuid_arg tenantID;;
          i <- uuid_arg appID;;
          a <- in_apps (sql_get (fun a => own_app t i a && negb (bool_decide (da_Status a = "deleted"))));;
          scan_app a).

Definition developerAppRepo_GetByClientID (clientID : string) : VM (option DeveloperApp) :=
  or_nil (a <- in_apps (sql_get (fun a => bool_decide (da_ClientID a = clientID /\ da_Status a = "active")));;
          scan_app a).

Definition developerAppRepo_ListByOwner (tenantID ownerID : string) : VM (list DeveloperApp) :=
  t <- uuid_arg tenantID;;
  l <- in_apps (sql_select (fun a => bool_decide (da_TenantID a = t /\ da_OwnerID a = ownerID /\ da_Status a <> "deleted")));;
  scan_apps (order_by_desc da_CreatedAt l).

Definition uris_arg (v : option json) : VM (option json) :=
  if decide (v = None /\ nil_is_null = false) then fail (ErrDB "pq: invalid input syntax for type json") else ret v.

Definition developerAppRepo_Update (app : DeveloperApp) : VM unit :=
  varchar_arg 255 (da_Name app);;
  uris <- uris_arg (da_RedirectURIs app);;
  t <- uuid_arg (da_TenantID app);;
  i <- uuid_arg (da_ID app);;
  exec (in_apps (sql_update (own_app t i) (with_details app uris))).

Definition developerAppRepo_Delete (tenantID appID : string) : VM unit :=
  t <- uuid_arg tenantID;;
  i <- uuid_arg appID;;
  exec (in_apps (sql_update (own_app t i) (fun tm a => with_secret_status (da_ClientSecretHash a) "deleted" tm a))).

Definition developerAppRepo_RotateSecret (tenantID appID : string) : VM string :=
  newSecret <- generateClientSecret;;
  hash <- GenerateFromPassword newSecret;;
  varchar_arg 255 hash;;
  t <- uuid_arg tenantID;;
  i <- uuid_arg appID;;
  exec (in_apps (sql_update (own_app t i) (fun tm a => with_secret_status hash (da_Status a) tm a)));;
  ret newSecret.

Definition developerAppRepo_ValidateCredentials (clientID clientSecret : string) : VM (option DeveloperApp) :=
  app <- developerAppRepo_GetByClientID clientID;;
  match app with
  | None => ret None
  | Some app => if CompareHashAndPassword (da_ClientSecretHash app) clientSecret then ret (Some app) else ret None
  end.

#[export] Instance developerAppRepo : DeveloperAppStore := {|
  app_Create := developerAppRepo_Create;
  app_Get := developerAppRepo_Get;
  app_GetByClientID := developerAppRepo_GetByClientID;
  app_ListByOwner := developerAppRepo_ListByOwner;
  app_Update := developerAppRepo_Update;
  app_Delete := developerAppRepo_Delete;
  app_RotateSecret := developerAppRepo_RotateSecret;
  app_ValidateCredentials := developerAppRepo_ValidateCredentials
|}.
End Store.

(** ** developer_api.go *)

Record CreateAppRequest : Type := mkCreateAppRequest {
  ca_Name : string;
  ca_Description : option string;
  ca_RedirectURIs : list string;
  ca_AppType : string;
  ca_HomepageURL : option string
}.

Record CreateAPIKeyRequest : Type := mkCreateAPIKeyRequest { cak_Name : string }.

Definition DeveloperApp_fields (a : DeveloperApp) : list (string * json) :=
  [("id", JStr (da_ID a)); ("tenant_id", JStr (da_TenantID a)); ("owner_id", JStr (da_OwnerID a));
   ("name", JStr (da_Name a))] ++ optional_json "description" (da_Description a)
  ++ [("client_id", JStr (da_ClientID a)); ("redirect_uris", default JNull (da_RedirectURIs a));
      ("grant_types", default JNull (da_GrantTypes a)); ("scopes", default JNull (da_Scopes a));
      ("app_type", JStr (da_AppType a))]
  ++ optional_json "logo_url" (da_LogoURL a) ++ optional_json "homepage_url" (da_HomepageURL a)
  ++ optional_json "privacy_url" (da_PrivacyURL a) ++ optional_json "tos_url" (da_TosURL a)
  ++ [("status", JStr (da_Status a)); ("created_at", JNum (da_CreatedAt a)); ("updated_at", JNum (da_UpdatedAt a))].

Definition APIKey_json (k : APIKey) : json :=
  JObj ([("id", JStr (ak_ID k)); ("tenant_id", JStr (ak_TenantID k)); ("owner_id", JStr (ak_OwnerID k));
         ("name", JStr (ak_Name k)); ("key_prefix", JStr (ak_KeyPrefix k)); ("status", JStr (ak_Status k));
         ("created_at", JStr (time_RFC3339Nano (ak_CreatedAt k)))]
        ++ optional_json "last_used_at" (time_RFC3339Nano <$> ak_LastUsedAt k)).

Section Handlers.
Context {bcrypt : Bcrypt} {store : DeveloperAppStore} `{!Binder CreateAppRequest, !Binder CreateAPIKeyRequest}.

(** The tenant and the owner, as the headers give them. *)
Definition owner_headers (c : GinCtx) (k : string -> string -> VM Response) : VM Response :=
  let tenantID := GetHeader c "X-Tenant-ID" in
  let ownerID := GetHeader c "X-User-ID" in
  if decide (tenantID = estr \/ ownerID = estr)
  then ret (respond 400 (error_body "X-Tenant-ID and X-User-ID headers required"))
  else k tenantID ownerID.

Definition listApps : Handler DevDb :=
  fun c => owner_headers c (fun tenantID ownerID =>
    or_500 "failed to list apps" (app_ListByOwner tenantID ownerID) (fun apps =>
    ret (respond 200 (JObj [("apps", slice_json (fun a => JObj (DeveloperApp_fields a)) apps)])))).

(** [if len(uris) > 0], the URIs as a document *)
Definition uris_document (uris : list string) : option json :=
  match uris with [] => None | _ => Some (JArr (map JStr uris)) end.

Definition createApp : Handler DevDb :=
  fun c => owner_headers c (fun tenantID ownerID => bound c (fun req : CreateAppRequest =>
    clientSecret <- generateClientSecret;;
    let app := mkDeveloperApp estr tenantID ownerID (ca_Name req) (ca_Description req) estr estr
                 (uris_document (ca_RedirectURIs req)) None None (ca_AppType req) None (ca_HomepageURL req) None None
                 estr 0 0 in
    or_500 "failed to create app" (app_Create app clientSecret) (fun app =>
    ret (respond 201 (JObj (DeveloperApp_fields app ++ omitempty "client_secret" clientSecret)))))).

Definition getApp : Handler DevDb :=
  fun c => or_500 "failed to get app" (app_Get (GetHeader c "X-Tenant-ID") (Param c "id")) (fun app =>
    match app with
    | None => ret (respond 404 (error_body "app not found"))
    | Some app => ret (respond 200 (JObj (DeveloperApp_fields app)))
    end).

(** A lookup that fails counts as one that finds nothing. *)
Definition updateApp : Handler DevDb :=
  fun c =>
    existing <- attempt (app_Get (GetHeader c "X-Tenant-ID") (Param c "id"));;
    match existing with
    | inl (Some a) => bound c (fun req : CreateAppRequest =>
        let uris := match uris_document (ca_RedirectURIs req) with Some u => Some u | None => da_RedirectURIs a end in
        let a := mkDeveloperApp (da_ID a) (da_TenantID a) (da_OwnerID a) (ca_Name req) (ca_Description req)
                   (da_ClientID a) (da_ClientSecretHash a) uris (da_GrantTypes a) (da_Scopes a) (da_AppType a)
                   (da_LogoURL a) (ca_HomepageURL req) (da_PrivacyURL a) (da_TosURL a) (da_Status a) (da_CreatedAt a)
                   (da_UpdatedAt a) in
        or_500 "failed to update app" (app_Update a) (fun _ => ret (respond 200 (JObj (DeveloperApp_fields a)))))
    | _ => ret (respond 404 (error_body "app not found"))
    end.

Definition deleteApp : Handler DevDb :=
  fun c => or_500 "failed to delete app" (app_Delete (GetHeader c "X-Tenant-ID") (Param c "id")) (fun _ =>
    ret (respond 200 (JObj [("message", JStr "app deleted")]))).

Definition rotateSecret : Handler DevDb :=
  fun c => or_500 "failed to rotate secret" (app_RotateSecret (GetHeader c "X-Tenant-ID") (Param c "id")) (fun newSecret =>
    ret (respond 200 (JObj [("message", JStr "secret rotated successfully"); ("client_secret", JStr newSecret)]))).

Definition listAPIKeys : Handler DevDb :=
  fun c => owner_headers c (fun tenantID ownerID =>
    or_500 "failed to list API keys"
      (t <- uuid_arg tenantID;;
       l <- in_keys (sql_select (fun k => bool_decide (ak_TenantID k = t /\ ak_OwnerID k = ownerID /\
                                                       ak_Status k = "active")));;
       ret (order_by_desc ak_CreatedAt l)) (fun keys =>
    ret (respond 200 (JObj [("api_keys", slice_json APIKey_json keys)])))).

(** [INSERT INTO api_keys ... RETURNING id] *)
Definition insert_key (tenantID ownerID name keyPrefix hash : string) : VM string :=
  t <- uuid_arg tenantID;;
  varchar_arg 255 ownerID;;
  varchar_arg 255 name;;
  varchar_arg 12 keyPrefix;;
  varchar_arg 255 hash;;
  in_keys (sql_insert (fun new old => bool_decide (ak_ID old = ak_ID new))
    (fun tm id => (mkAPIKey id t ownerID name keyPrefix hash "active" tm None, id))).

Definition createAPIKey : Handler DevDb :=
  fun c => owner_headers c (fun tenantID ownerID => bound c (fun req : CreateAPIKeyRequest =>
    keyBytes <- random_bytes 32;;
    let fullKey := "vv_live_" +:+ hex_Encode keyBytes in
    let keyPrefix := String.substring 0 16 fullKey +:+ "..." in
    r <- attempt (GenerateFromPassword fullKey);;
    let hash := match r with inl h => h | inr _ => estr end in
    or_500 "failed to create API key" (insert_key tenantID ownerID (cak_Name req) keyPrefix hash) (fun keyID =>
    ret (respond 201 (JObj [("id", JStr keyID); ("name", JStr (cak_Name req)); ("key", JStr fullKey);
                            ("key_prefix", JStr keyPrefix);
                            ("message", JStr "Save this key now - it won't be shown again!")]))))).

Definition revokeAPIKey : Handler DevDb :=
  fun c => or_500 "failed to revoke API key"
    (t <- uuid_arg (GetHeader c "X-Tenant-ID");;
     i <- uuid_arg (Param c "id");;
     exec (in_keys (sql_update (fun k => bool_decide (ak_TenantID k = t /\ ak_ID k = i))
       (fun _ k => mkAPIKey (ak_ID k) (ak_TenantID k) (ak_OwnerID k) (ak_Name k) (ak_KeyPrefix k) (ak_KeyHash k)
                     "revoked" (ak_CreatedAt k) (ak_LastUsedAt k))))) (fun _ =>
    ret (respond 200 (JObj [("message", JStr "API key revoked")]))).
End Handlers.
