(* ===== verification/DeveloperFacts.v ===== *)
(** * What the developer portal guarantees

    Client identifiers stay unique and the stored documents readable, whatever
    requests are served; an application is recognised by the secret it was
    given last, until it is deleted; and no API key can be created. *)
From S2P Require Import Prelude Bcrypt GoStd GoText Sql Http AuthDemo AuditLog DirectoryDemo AuditDemo DeveloperApps.
Local Open Scope go_scope.

Definition documents (a : DeveloperApp) : Prop :=
  is_Some (da_RedirectURIs a) /\ is_Some (da_GrantTypes a) /\ is_Some (da_Scopes a).

(** The applications in the table: no client identifier twice, no document
    missing. *)
Definition apps_ok (d : DevDb) : Prop := NoDup (da_ClientID <$> dv_apps d) /\ Forall documents (dv_apps d).

(** The row [GetByClientID] asks for. *)
Definition live_app (clientID : string) (a : DeveloperApp) : bool :=
  bool_decide (da_ClientID a = clientID /\ da_Status a = "active").

Lemma scan_app_run a env s : documents a -> scan_app a env s = (Ok a, s).
Proof. intros ([r Hr] & [g Hg] & [c Hc]). unfold scan_app. by rewrite Hr, Hg, Hc. Qed.

Lemma scan_app_Ok_inv a b env s u : scan_app a env s = (Ok b, u) -> b = a /\ u = s /\ documents a.
Proof.
  unfold scan_app, documents. destruct (da_RedirectURIs a), (da_GrantTypes a), (da_Scopes a); try done.
  intros [<- <-]%ret_Ok_inv. eauto.
Qed.

Lemma readonly_scan_app a : readonly (scan_app a).
Proof. unfold scan_app. by repeat case_match. Qed.
#[export] Hint Resolve readonly_scan_app : effects.

Lemma readonly_scan_apps l : readonly (scan_apps l).
Proof. induction l; cbn [scan_apps]; effects. Qed.
#[export] Hint Resolve readonly_scan_apps : effects.

Lemma readonly_random_bytes {S} n : readonly (S := S) (random_bytes n).
Proof. unfold random_bytes. effects. Qed.
#[export] Hint Resolve readonly_random_bytes : effects.

Lemma readonly_generateClientSecret {S} : readonly (S := S) generateClientSecret.
Proof. unfold generateClientSecret. effects. Qed.

Lemma readonly_generateClientID {S} : readonly (S := S) generateClientID.
Proof. unfold generateClientID. effects. Qed.
#[export] Hint Resolve readonly_generateClientSecret readonly_generateClientID : effects.

Lemma readonly_uris_arg {nil_bytes : NilBytes} v : readonly (uris_arg v).
Proof. unfold uris_arg. by case_decide. Qed.
#[export] Hint Resolve readonly_uris_arg : effects.

(** ** The invariant *)

Ltac read_first := apply preserves_bind; [apply readonly_preserves; effects|intros ? ? ? ? _].

(** A statement on one application that leaves its client identifier alone. *)
Lemma apps_ok_update p (f : Z -> DeveloperApp -> DeveloperApp) :
  (forall tm a, da_ClientID (f tm a) = da_ClientID a) -> (forall tm a, documents a -> documents (f tm a)) ->
  preserves apps_ok (exec (in_apps (sql_update p f))).
Proof.
  intros Hc Hd. unfold exec. apply preserves_bind; [|intros; by apply readonly_preserves].
  unfold in_apps, sql_update. apply preserves_zoom_statement; [by intros []|].
  intros env t x n y [Hnd Hdoc] [= <- <-]. split; cbn [dv_apps].
  - apply NoDup_key_map; [|done]. intros a. by destruct (p a).
  - apply Forall_map. eapply Forall_impl; [exact Hdoc|]. intros a Ha. cbn. destruct (p a); [by apply Hd|done].
Qed.

Lemma keys_apps_ok {A} (m : M (list APIKey) A) : preserves apps_ok (in_keys m).
Proof.
  unfold in_keys. apply (preserves_zoom apps_ok (fun _ => True)); [done|by intros [] t|].
  intros env s _. done.
Qed.
#[export] Hint Resolve keys_apps_ok : effects.

Section Facts.
Context {bcrypt : Bcrypt} {nil_bytes : NilBytes}.

Lemma Create_apps_ok app secret : preserves apps_ok (developerAppRepo_Create app secret).
Proof.
  unfold developerAppRepo_Create. do 9 read_first.
  apply preserves_bind; [|intros [] ? ? ? ?; by apply readonly_preserves].
  unfold in_apps, sql_insert. apply preserves_zoom_statement; [by intros []|].
  intros ev tm x n y [Hnd Hdoc]. destruct (existsb _ _) eqn:Ex; [done|]. intros [= <- <-]. split; cbn [dv_apps].
  - apply NoDup_key_snoc; [done|]. intros old Hold Heq.
    rewrite existsb_false in Ex. specialize (Ex old Hold). apply bool_decide_eq_false in Ex. tauto.
  - apply Forall_app. split; [done|]. repeat constructor; by eexists.
Qed.

Lemma Delete_apps_ok t i : preserves apps_ok (developerAppRepo_Delete t i).
Proof.
  unfold developerAppRepo_Delete. do 2 read_first.
  by apply apps_ok_update.
Qed.

Lemma Rotate_apps_ok t i : preserves apps_ok (developerAppRepo_RotateSecret t i).
Proof.
  unfold developerAppRepo_RotateSecret. do 5 read_first.
  apply preserves_bind; [by apply apps_ok_update|]. intros. by apply readonly_preserves.
Qed.

Lemma Update_apps_ok app : is_Some (da_RedirectURIs app) -> preserves apps_ok (developerAppRepo_Update app).
Proof.
  intros Hu. unfold developerAppRepo_Update. read_first.
  apply preserves_bind; [apply readonly_preserves; effects|]. intros uris ev x y E.
  assert (uris = da_RedirectURIs app) as ->.
  { unfold uris_arg in E. case_decide; [done|]. by apply ret_Ok_inv in E as [-> _]. }
  do 2 read_first.
  apply apps_ok_update; [done|]. by intros tm b (_ & Hg & Hs).
Qed.

Lemma preserves_or_500 {S A} (P : S -> Prop) msg (m : M S A) (k : A -> M S Response) :
  preserves P m -> (forall a env s t, m env s = (Ok a, t) -> preserves P (k a)) -> preserves P (or_500 msg m k).
Proof.
  intros Hm Hk. unfold or_500, or_respond. apply preserves_bind; [by apply preserves_attempt|].
  intros r env s t [(a & -> & E)|(e & -> & _)]%attempt_Ok_inv; [by eapply Hk|effects].
Qed.

Lemma readonly_Get t i : readonly (developerAppRepo_Get t i).
Proof.
  unfold developerAppRepo_Get, in_apps. apply readonly_or_nil. do 2 (apply readonly_bind; [effects|intros ?]).
  apply readonly_bind; [|intros; effects]. apply readonly_zoom; [by intros []|effects].
Qed.

Lemma app_Get_Ok_inv t i env s a u : developerAppRepo_Get t i env s = (Ok (Some a), u) -> documents a.
Proof.
  unfold developerAppRepo_Get. intros [(x & [= <-] & H)|(? & ? & _)]%or_nil_Ok_inv; [|done].
  apply bind_Ok_inv in H as (? & ? & _ & H). apply bind_Ok_inv in H as (? & ? & _ & H).
  by apply bind_Ok_inv in H as (b & ? & _ & (-> & _ & Hd)%scan_app_Ok_inv).
Qed.

Lemma readonly_ListByOwner t o : readonly (developerAppRepo_ListByOwner t o).
Proof.
  unfold developerAppRepo_ListByOwner, in_apps. apply readonly_bind; [effects|intros ?].
  apply readonly_bind; [|intros; effects]. apply readonly_zoom; [by intros []|effects].
Qed.

Context `{!Binder CreateAppRequest, !Binder CreateAPIKeyRequest}.

(** The handlers of the portal. *)
Definition portal : list (Handler DevDb) :=
  [listApps; createApp; getApp; updateApp; deleteApp; rotateSecret; listAPIKeys; createAPIKey; revokeAPIKey].

Lemma owner_headers_ok c k : (forall t o, preserves apps_ok (k t o)) -> preserves apps_ok (owner_headers c k).
Proof. intros Hk. unfold owner_headers. case_decide; [effects|done]. Qed.

Lemma bound_ok {A} `{!Binder A} c (k : A -> VM Response) :
  (forall req, preserves apps_ok (k req)) -> preserves apps_ok (bound c k).
Proof. intros Hk. unfold bound. case_match; [done|effects]. Qed.

(** Requests to the portal keep the applications in order. *)
Theorem portal_keeps h c : h ∈ portal -> preserves apps_ok (h c).
Proof.
  intros Hh. repeat (apply elem_of_cons in Hh as [->|Hh]); [..|by apply elem_of_nil in Hh].
  - apply owner_headers_ok. intros. apply preserves_or_500; [apply readonly_preserves, readonly_ListByOwner|intros; effects].
  - apply owner_headers_ok. intros. apply bound_ok. intros req. read_first.
    apply preserves_or_500; [apply Create_apps_ok|intros; effects].
  - apply preserves_or_500; [apply readonly_preserves, readonly_Get|]. intros [] ? ? ? ?; effects.
  - apply preserves_bind; [apply preserves_attempt, readonly_preserves, readonly_Get|].
    intros r env s t [(a & -> & E)|(e & -> & _)]%attempt_Ok_inv; [|effects]. destruct a as [a|]; [|effects].
    apply app_Get_Ok_inv in E as (Hd & _). apply bound_ok. intros req.
    apply preserves_or_500; [apply Update_apps_ok|intros; effects]. cbn. by destruct (uris_document _).
  - apply preserves_or_500; [apply Delete_apps_ok|intros; effects].
  - apply preserves_or_500; [apply Rotate_apps_ok|intros; effects].
  - apply owner_headers_ok. intros. apply preserves_or_500; [|intros; effects]. read_first. effects.
  - apply owner_headers_ok. intros. apply bound_ok. intros req. do 2 read_first.
    apply preserves_or_500; [|intros; effects]. unfold insert_key. do 5 read_first. effects.
  - apply preserves_or_500; [|intros; effects]. do 2 read_first. unfold exec. effects.
Qed.
End Facts.

(** ** Credentials *)

Section Credentials.
Context {bcrypt : Bcrypt} {nil_bytes : NilBytes} {laws : BcryptLaws}.

(** Which secrets an application is recognised by. *)
Lemma ValidateCredentials_run env s a secret :
  db_up env -> apps_ok (st s) -> a ∈ dv_apps (st s) -> da_Status a = "active" ->
  exists u, developerAppRepo_ValidateCredentials (da_ClientID a) secret env s =
    (Ok (if CompareHashAndPassword (da_ClientSecretHash a) secret then Some a else None), u).
Proof.
  intros Hup [Hnd Hdoc] Ha Hact. unfold developerAppRepo_ValidateCredentials, developerAppRepo_GetByClientID.
  eexists. erewrite bind_Ok; [|apply or_nil_run].
  2:{ erewrite bind_Ok; [apply scan_app_run; rewrite Forall_forall in Hdoc; by apply (Hdoc a)|].
      unfold in_apps, zoom, sql_get. rewrite statement_up by done. cbn [st tick].
      rewrite (filter_key_unique da_ClientID _ _ a Hnd Ha); [by rewrite reorder_one|].
      intros x Hx. rewrite bool_decide_eq_true. split; [by intros [-> _]|].
      intros Hk. by rewrite (NoDup_key_inj da_ClientID _ x a Hnd Hx Ha Hk). }
  cbn. by destruct (CompareHashAndPassword _ _).
Qed.

(** An application that is not active is not recognised. *)
Lemma ValidateCredentials_gone env s clientID secret :
  db_up env -> (forall a, a ∈ dv_apps (st s) -> da_ClientID a = clientID -> da_Status a <> "active") ->
  exists u, developerAppRepo_ValidateCredentials clientID secret env s = (Ok None, u).
Proof.
  intros Hup Hno. unfold developerAppRepo_ValidateCredentials, developerAppRepo_GetByClientID.
  unfold or_nil, attempt, in_apps, zoom, sql_get, bind. rewrite statement_up by done. cbn [st tick].
  rewrite filter_none; [by eexists|]. intros x Hx [H1 H2]%Is_true_true%bool_decide_eq_true. by apply (Hno x Hx).
Qed.

Lemma app_Create_Ok_inv app secret env s a u :
  developerAppRepo_Create app secret env s = (Ok a, u) ->
  exists t row n k, pg_uuid env (da_TenantID app) = Some t /\ da_ID a = gen_uuid env k /\ dv_apps (st u) = dv_apps (st s) ++ [row] /\
    da_TenantID row = t /\ da_ID row = da_ID a /\ da_ClientID row = da_ClientID a /\ da_OwnerID row = da_OwnerID app /\
    da_Name row = da_Name app /\ da_Status row = (if decide (da_Status app = estr) then "active" else da_Status app) /\
    bcrypt_Generate n secret = inl (da_ClientSecretHash row).
Proof.
  unfold developerAppRepo_Create. intros H.
  apply bind_Ok_inv in H as (cid & s1 & E1 & H). apply bind_Ok_inv in H as (h & s2 & E2 & H).
  apply GenerateFromPassword_Ok_inv in E2 as [Hh ->].
  apply (readonly_run generateClientID) in E1; [|effects].
  apply bind_Ok_inv in H as (t & ? & [Ht ->]%uuid_arg_Ok_inv & H).
  do 6 (apply bind_Ok_inv in H as (? & ? & [_ ->]%varchar_arg_Ok_inv & H)).
  apply bind_Ok_inv in H as ([id tm] & s3 & E3 & H).
  apply zoom_Ok_inv in E3 as (s4 & E3 & ->). apply sql_insert_Ok_inv in E3 as (row & Hmk & _ & ->).
  injection Hmk as <- <- <-. apply ret_Ok_inv in H as [<- <-]. cbn in Ht. cbn [dv_apps st]. rewrite E1.
  exists t. eexists _, (tick s1), _. split_and!; try reflexivity; done.
Qed.

Lemma in_apps_update_Ok_inv p f env s x u :
  exec (in_apps (sql_update p f)) env s = (Ok x, u) ->
  dv_apps (st u) = map (fun r => if p r then f (clock env (tick s)) r else r) (dv_apps (st s)).
Proof.
  intros H. apply bind_Ok_inv in H as (n & s1 & E & [_ <-]%ret_Ok_inv).
  apply zoom_Ok_inv in E as (s2 & [_ ->]%sql_update_Ok_inv & ->). done.
Qed.

Lemma Rotate_Ok_inv tenantID appID env s secret u :
  developerAppRepo_RotateSecret tenantID appID env s = (Ok secret, u) ->
  exists t i h n tm, pg_uuid env tenantID = Some t /\ pg_uuid env appID = Some i /\
    bcrypt_Generate n secret = inl h /\
    dv_apps (st u) = map (fun r => if own_app t i r then with_secret_status h (da_Status r) tm r else r) (dv_apps (st s)).
Proof.
  unfold developerAppRepo_RotateSecret. intros H.
  apply bind_Ok_inv in H as (sec & s1 & E1 & H). apply bind_Ok_inv in H as (h & s2 & E2 & H).
  apply GenerateFromPassword_Ok_inv in E2 as [Hh ->].
  apply (readonly_run generateClientSecret) in E1; [|effects].
  apply bind_Ok_inv in H as (? & ? & [_ ->]%varchar_arg_Ok_inv & H).
  apply bind_Ok_inv in H as (t & ? & [Ht ->]%uuid_arg_Ok_inv & H).
  apply bind_Ok_inv in H as (i & ? & [Hi ->]%uuid_arg_Ok_inv & H).
  apply bind_Ok_inv in H as ([] & s3 & E3 & [<- <-]%ret_Ok_inv). apply in_apps_update_Ok_inv in E3.
  cbn [st tick] in E3. rewrite E1 in E3. exists t, i, h, (tick s1). eexists. split_and!; done.
Qed.

Lemma Delete_Ok_inv tenantID appID env s x u :
  developerAppRepo_Delete tenantID appID env s = (Ok x, u) ->
  exists t i tm, pg_uuid env tenantID = Some t /\ pg_uuid env appID = Some i /\
    dv_apps (st u) = map (fun r => if own_app t i r then with_secret_status (da_ClientSecretHash r) "deleted" tm r else r)
                       (dv_apps (st s)).
Proof.
  unfold developerAppRepo_Delete. intros H. apply bind_Ok_inv in H as (t & ? & [Ht ->]%uuid_arg_Ok_inv & H).
  apply bind_Ok_inv in H as (i & ? & [Hi ->]%uuid_arg_Ok_inv & E). apply in_apps_update_Ok_inv in E. eauto 10.
Qed.

(** Property C39. The life of an application's credentials: once created it is
    recognised by its identifier and its secret; once the secret is rotated, by
    the new one, and by nothing that does not match the new hash; once it is
    deleted, by nothing. *)
Theorem app_credentials app secret env s a u :
  db_up env -> apps_ok (st s) -> (forall n, pg_uuid env (gen_uuid env n) = Some (gen_uuid env n)) ->
  da_Status app = estr -> developerAppRepo_Create app secret env s = (Ok a, u) ->
  (exists row v, developerAppRepo_ValidateCredentials (da_ClientID a) secret env u = (Ok (Some row), v) /\
     da_ID row = da_ID a /\ da_OwnerID row = da_OwnerID app) /\
  (forall fresh w, developerAppRepo_RotateSecret (da_TenantID app) (da_ID a) env u = (Ok fresh, w) ->
     exists n row, bcrypt_Generate n fresh = inl (da_ClientSecretHash row) /\ da_ID row = da_ID a /\
     forall p, exists v, developerAppRepo_ValidateCredentials (da_ClientID a) p env w =
       (Ok (if CompareHashAndPassword (da_ClientSecretHash row) p then Some row else None), v)) /\
  (forall w, developerAppRepo_Delete (da_TenantID app) (da_ID a) env u = (Ok tt, w) ->
     forall p, exists v, developerAppRepo_ValidateCredentials (da_ClientID a) p env w = (Ok None, v)).
Proof.
  intros Hup Hok Hgen Hst H. pose proof (preserves_run _ _ _ _ _ _ (Create_apps_ok app secret) H Hok) as Hu.
  apply app_Create_Ok_inv in H as (t & row & n & k & Ht & Hk & Happs & Hrt & Hri & Hrc & Hro & _ & Hrs & Hh).
  rewrite decide_True in Hrs by done.
  assert (row ∈ dv_apps (st u)) as Hin by (rewrite Happs; apply elem_of_app; right; by apply list_elem_of_singleton).
  assert (own_app t (da_ID a) row = true) as Hown by by apply bool_decide_eq_true.
  rewrite <- Hrc. split_and!.
  - destruct (ValidateCredentials_run env u row secret Hup Hu Hin Hrs) as [v Hv].
    rewrite (bcrypt_roundtrip _ _ _ Hh) in Hv. eauto 6.
  - intros fresh w H. pose proof (preserves_run _ _ _ _ _ _ (Rotate_apps_ok _ _) H Hu) as Hw.
    apply Rotate_Ok_inv in H as (t' & i & h & m & tm & Ht' & Hi & Hm & Hmap).
    rewrite Hk, Hgen, <- Hk in Hi. simplify_eq. exists m, (with_secret_status h (da_Status row) tm row).
    split_and!; [done|done|]. intros p. apply (ValidateCredentials_run env w (with_secret_status _ _ _ _)); [done..| |done].
    rewrite Hmap. apply list_elem_of_fmap. exists row. by rewrite Hown.
  - intros w H p. apply Delete_Ok_inv in H as (t' & i & tm & Ht' & Hi & Hmap).
    rewrite Hk, Hgen, <- Hk in Hi. simplify_eq. apply ValidateCredentials_gone; [done|].
    intros x Hx Hc. rewrite Hmap in Hx. apply list_elem_of_fmap in Hx as (y & -> & Hy).
    assert (y = row) as ->; [|by rewrite Hown].
    apply (NoDup_key_inj da_ClientID _ y row (proj1 Hu) Hy Hin). by destruct (own_app _ _ y).
Qed.

Lemma char_length_hex d r : (d < 16)%N -> char_length (String (hex_digit d) r) = S (char_length r).
Proof.
  intros Hd. cbn [char_length].
  pose proof (below_spec 16 (fun n => negb ((128 <=? byte_N (hex_digit n)) && (byte_N (hex_digit n) <? 192)))%N
    d ltac:(by vm_compute) Hd) as H.
  cbv beta in H. revert H. by destruct (_ && _).
Qed.

(** The prefix kept of a key: its first sixteen characters and three dots. *)
Lemma key_prefix_chars b :
  4 <= String.length b -> char_length (String.substring 0 16 ("vv_live_" +:+ hex_Encode b) +:+ "...") = 19.
Proof.
  intros Hb. destruct b as [|a1 [|a2 [|a3 [|a4 b]]]]; cbn in Hb; try lia. clear Hb.
  destruct (byte_nibbles a1), (byte_nibbles a2), (byte_nibbles a3), (byte_nibbles a4).
  destruct b; change (8 + char_length
    (String (hex_digit (byte_N a1 / 16)) (String (hex_digit (byte_N a1 mod 16))
    (String (hex_digit (byte_N a2 / 16)) (String (hex_digit (byte_N a2 mod 16))
    (String (hex_digit (byte_N a3 / 16)) (String (hex_digit (byte_N a3 mod 16))
    (String (hex_digit (byte_N a4 / 16)) (String (hex_digit (byte_N a4 mod 16)) "..."))))))))%N = 19);
    by rewrite !char_length_hex.
Qed.

Lemma random_bytes_length n env (s : St DevDb) b u :
  rand_ok env -> random_bytes n env s = (Ok b, u) -> String.length b = n.
Proof.
  intros Hr H. destruct (Hr (tick s) n) as (b' & Hb & Hl). unfold random_bytes, bind, attempt in H.
  rewrite (rand_Read_run _ _ _ _ Hb) in H. by injection H as <- _.
Qed.

(** The prefix kept of a key has nineteen characters, and its column twelve:
    no request creates an API key. *)
Theorem no_api_keys `{!Binder CreateAPIKeyRequest} c env s resp u :
  rand_ok env -> createAPIKey c env s = (Ok resp, u) -> rs_status resp <> 201%Z /\ dv_keys (st u) = dv_keys (st s).
Proof.
  intros Hr. unfold createAPIKey, owner_headers. case_decide; [by intros [<- <-]%ret_Ok_inv|]. unfold bound.
  case_match; [|by intros [<- <-]%ret_Ok_inv]. intros Hc.
  apply bind_Ok_inv in Hc as (b & s1 & E1 & Hc). pose proof (random_bytes_length _ _ _ _ _ Hr E1) as Hb.
  apply (readonly_run (random_bytes 32)) in E1; [|effects]. apply bind_Ok_inv in Hc as (r & s2 & E2 & Hc).
  apply (readonly_run (attempt (GenerateFromPassword _))) in E2; [|effects].
  pose proof (key_prefix_chars b ltac:(lia)) as Hlen.
  apply or_respond_Ok_inv in Hc as [(id & s3 & Hi & _)|(e & Hi & ->)]; unfold insert_key in Hi.
  - apply bind_Ok_inv in Hi as (t & ? & _ & Hi). do 2 apply bind_Ok_inv in Hi as (? & ? & _ & Hi).
    apply bind_Ok_inv in Hi as (? & ? & [Hl _]%varchar_arg_Ok_inv & _). lia.
  - split; [done|]. revert Hi. unfold uuid_arg, bind, varchar_arg. rewrite (decide_False (P := _ <= 12)) by lia.
    unfold ret, fail. repeat case_match; intros; simplify_eq; congruence.
Qed.
End Credentials.

(** ** At work *)

Definition new_app : DeveloperApp :=
  mkDeveloperApp estr tenantA "alice" "notes" None estr estr None None None estr None None None None estr 0 0.

Lemma app_credentials_witness :
  exists a u row v, developerAppRepo_Create new_app "vvs_secret" demo_env (mkSt 0 (mkDev [] [])) = (Ok a, u) /\
    developerAppRepo_ValidateCredentials (da_ClientID a) "vvs_secret" demo_env u = (Ok (Some row), v) /\
    da_ID row = da_ID a.
Proof.
  destruct (ok_run (developerAppRepo_Create new_app "vvs_secret" demo_env (mkSt 0 (mkDev [] [])))) as (a & u & E);
    [by vm_compute|].
  destruct (app_credentials new_app "vvs_secret" demo_env (mkSt 0 (mkDev [] [])) a u demo_env_up
              (conj NoDup_nil_2 (Forall_nil_2 _)) demo_uuid_canonical eq_refl E) as [(row & v & Hv & Hid & _) _].
  exists a, u, row, v. split; [exact E|]. split; [exact Hv|exact Hid].
Defined.
