(* ===== verification/ConnObjects.v ===== *)
(** * What the connectors share

    A connector is a pointer to a struct that its methods read and write; the
    structs and the systems behind them make up the world of the class
    [Connector].  The connectors that speak JSON over HTTP also share how a
    response is decoded when its errors are dropped, and how their requests are
    made. *)
From S2P Require Import Prelude GoStd GoUrl GoJson Http Connectors.
Local Open Scope go_scope.

(** ** Structs behind pointers *)

Record Objects (C X : Type) : Type := mkObjects { ob_structs : list C; ob_net : X }.
Arguments mkObjects {C X} _ _.
Arguments ob_structs {C X} _.
Arguments ob_net {C X} _.

Section Structs.
Context {C X : Type}.

(** [&C{...}] *)
Definition ob_new (c : C) : M (Objects C X) nat :=
  n <- gets (fun o => length (ob_structs o));;
  modify (fun o => mkObjects (ob_structs o ++ [c]) (ob_net o));;
  ret n.

Definition ob_load (p : nat) : M (Objects C X) C :=
  l <- gets ob_structs;;
  match l !! p with Some c => ret c | None => panic nil_deref end.

Definition ob_store (p : nat) (c : C) : M (Objects C X) unit :=
  modify (fun o => mkObjects (<[p := c]> (ob_structs o)) (ob_net o)).

Definition on_net {A} (m : M X A) : M (Objects C X) A :=
  zoom ob_net (fun x o => mkObjects (ob_structs o) x) m.

Lemma ob_load_run p c env (s : St (Objects C X)) :
  ob_structs (st s) !! p = Some c -> ob_load p env s = (Ok c, s).
Proof. intros H. unfold ob_load, bind, gets. by rewrite H. Qed.

Lemma readonly_ob_load p : readonly (ob_load p).
Proof. unfold ob_load. effects. Qed.
End Structs.
#[export] Hint Resolve readonly_ob_load : effects.

(** A key that a map does not have reads as the empty string. *)
Definition setting (m : gmap string string) (k : string) : string := default estr (m !! k).

(** ** Decoding

    A list of values, each decoded; null is the nil slice. *)
Fixpoint json_items {A} (decode : json -> A + error) (l : list json) : list A + error :=
  match l with
  | [] => inl []
  | j :: r =>
      match decode j, json_items decode r with
      | inl a, inl rest => inl (a :: rest)
      | inr e, _ => inr e
      | _, inr e => inr e
      end
  end.

Definition json_list {A} (decode : json -> A + error) (j : json) : list A + error :=
  match j with JArr l => json_items decode l | JNull => inl [] | _ => inr err_json end.

Definition json_number (j : json) : Z + error :=
  match j with JNum z => inl z | JNull => inl 0%Z | _ => inr err_json end.

(** [_ = json.NewDecoder(resp.Body).Decode(&v)]: a value of another kind is
    skipped, and the rest of the document is decoded. *)
Definition lax {A} (zero : A) (r : A + error) : A := match r with inl a => a | inr _ => zero end.

Definition lax_fields (j : json) : list (string * json) := lax [] (json_object j).
Definition lax_string (k : string) (fields : list (string * json)) : string := lax estr (json_string (json_field k fields)).
Definition lax_bool (k : string) (fields : list (string * json)) : bool := lax false (json_bool (json_field k fields)).
Definition lax_number (k : string) (fields : list (string * json)) : Z := lax 0%Z (json_number (json_field k fields)).
Definition lax_list {A} (decode : json -> A) (k : string) (fields : list (string * json)) : list A :=
  match json_field k fields with JArr l => map decode l | _ => [] end.

(** ** Requests *)

(** The text of a response's body, white space apart. *)
Definition body_text (resp : Response) : string := json_Marshal (rs_body resp).

(** [base64.StdEncoding]: the other two digits, and padding. *)
Definition base64_Std (s : string) : string :=
  let digits := strings_ReplaceAll (strings_ReplaceAll (base64_RawURL s) (byte 45) (byte 43)) (byte 95) (byte 47) in
  match Nat.modulo (String.length s) 3 with 1 => digits +:+ "==" | 2 => digits +:+ "=" | _ => digits end.

(** [req.SetBasicAuth(user, pass)] *)
Definition with_basic_auth (user pass : string) (r : HttpCall) : HttpCall :=
  with_header "Authorization" ("Basic " +:+ base64_Std (user +:+ ":" +:+ pass)) r.

(** [req, _ := http.NewRequestWithContext(...)] followed by a use of the
    request: nil when the URL does not parse. *)
Definition must_request {S} (method url : string) (body : json) : M S HttpCall :=
  r <- attempt (http_NewRequest method url body);;
  match r with inl req => ret req | inr _ => panic nil_deref end.

(** [resp, err := client.Do(req)] with [resp.Body.Close()] deferred before the
    error is looked at: without a response, closing its body panics. *)
Definition close_first {S A} (m : M S A) : M S A :=
  r <- attempt m;;
  match r with inl a => ret a | inr _ => panic nil_deref end.

Lemma base64_Std_padding :
  (base64_Std "ab:c", base64_Std "a:b", base64_Std "ab") = ("YWI6Yw==", "YTpi", "YWI=").
Proof. reflexivity. Qed.
