(* ===== verification/ScimConnector.v ===== *)
(** * The SCIM connector

    internal/connector/scim/connector.go: the [Connector] for SCIM 2.0 targets,
    over HTTP. *)
From S2P Require Import Prelude GoStd GoUrl GoJson Http Connectors ConnObjects.
Local Open Scope go_scope.

(** The struct: its client is made once and never changes. *)
Record scimConnector : Type := mkScimConnector { sc_config : Config }.

(** ** SCIM types *)

Record scimEmail : Type := mkScimEmail { se_Value : string; se_Primary : bool }.

Record scimUserResource : Type := mkScimUser {
  su_ID : string;
  su_UserName : string;
  su_Active : bool;
  su_GivenName : string;
  su_FamilyName : string;
  su_Emails : list scimEmail;
  su_DisplayName : string
}.

Record scimGroupResource : Type := mkScimGroup { sg_ID : string; sg_DisplayName : string }.

Record scimListResponse : Type := mkScimList { sl_TotalResults : Z; sl_Resources : list scimUserResource }.

Definition toSCIMUser (u : ExtUser) : scimUserResource :=
  mkScimUser estr (xu_Username u) (xu_Active u) (xu_FirstName u) (xu_LastName u) [mkScimEmail (xu_Email u) true]
    (xu_DisplayName u).

Definition fromSCIMUser (r : scimUserResource) : ExtUser :=
  let email := match su_Emails r with e :: _ => se_Value e | [] => estr end in
  mkExtUser (su_ID r) estr (su_UserName r) email (su_GivenName r) (su_FamilyName r) (su_DisplayName r) (su_Active r) ∅.

(** [json.Marshal]; [omitempty] does nothing for a struct. *)
Definition scimEmail_json (e : scimEmail) : json :=
  JObj [("value", JStr (se_Value e)); ("primary", JBool (se_Primary e))].

Definition emails_json (l : list scimEmail) : list (string * json) :=
  match l with [] => [] | _ => [("emails", JArr (map scimEmail_json l))] end.

Definition scimUser_json (u : scimUserResource) : json :=
  JObj (omitempty "id" (su_ID u)
        ++ [("userName", JStr (su_UserName u)); ("active", JBool (su_Active u));
            ("name", JObj (omitempty "givenName" (su_GivenName u) ++ omitempty "familyName" (su_FamilyName u)))]
        ++ emails_json (su_Emails u) ++ omitempty "displayName" (su_DisplayName u)).

Definition scimGroup_json (g : scimGroupResource) : json :=
  JObj (omitempty "id" (sg_ID g) ++ [("displayName", JStr (sg_DisplayName g))]).

(** [json.Unmarshal] *)
Definition decode_email (j : json) : scimEmail + error :=
  match json_object j with
  | inr e => inr e
  | inl fields =>
      field json_string "value" fields (fun value =>
      field json_bool "primary" fields (fun primary => inl (mkScimEmail value primary)))
  end.

Definition decode_name (j : json) : (string * string) + error :=
  match json_object j with
  | inr e => inr e
  | inl fields =>
      field json_string "givenName" fields (fun given =>
      field json_string "familyName" fields (fun family => inl (given, family)))
  end.

Definition decode_scimUser (j : json) : scimUserResource + error :=
  match json_object j with
  | inr e => inr e
  | inl fields =>
      field json_string "id" fields (fun id =>
      field json_string "userName" fields (fun name =>
      field json_bool "active" fields (fun active =>
      field decode_name "name" fields (fun full =>
      field (json_list decode_email) "emails" fields (fun emails =>
      field json_string "displayName" fields (fun display =>
      inl (mkScimUser id name active (fst full) (snd full) emails display)))))))
  end.

Definition decode_scimList (j : json) : scimListResponse + error :=
  match json_object j with
  | inr e => inr e
  | inl fields =>
      field json_number "totalResults" fields (fun total =>
      field (json_list decode_scimUser) "Resources" fields (fun users => inl (mkScimList total users)))
  end.

Definition lax_scimGroup (j : json) : scimGroupResource :=
  let fields := lax_fields j in mkScimGroup (lax_string "id" fields) (lax_string "displayName" fields).

Definition group_of (g : scimGroupResource) : ExtGroup := mkExtGroup (sg_ID g) estr (sg_DisplayName g) estr.

(** ** The methods *)

Section Methods.
Context {X : Type} {peer : HttpPeer X}.

Abbreviation CM := (M (Objects scimConnector X)).

Definition scim_New (config : Config) : CM nat := ob_new (mkScimConnector config).

Definition scim_ID (c : nat) : CM string := o <- ob_load c;; ret (cf_ID (sc_config o)).

Definition scim_Name (c : nat) : CM string := o <- ob_load c;; ret (cf_Name (sc_config o)).

Definition scim_Initialize (c : nat) (config : Config) : CM unit := ob_store c (mkScimConnector config).

Definition scim_setHeaders (config : Config) (req : HttpCall) : HttpCall :=
  let req := with_header "Content-Type" "application/scim+json" req in
  let req := with_header "Accept" "application/scim+json" req in
  let req := match cf_Credentials config !! "token" with
             | Some token => with_header "Authorization" ("Bearer " +:+ token) req
             | None => req
             end in
  match cf_Credentials config !! "username", cf_Credentials config !! "password" with
  | Some user, Some pass => with_basic_auth user pass req
  | _, _ => req
  end.

(** A request to the endpoint. *)
Definition scim_send (config : Config) (method path : string) (body : json) : CM Response :=
  req <- http_NewRequest method (cf_Endpoint config +:+ path) body;;
  on_net (http_Do (scim_setHeaders config req)).

Definition scim_HealthCheck (c : nat) : CM unit :=
  o <- ob_load c;;
  resp <- scim_send (sc_config o) "GET" "/ServiceProviderConfig" JNull;;
  if decide (rs_status resp >= 400)%Z then fail (ErrNew ("health check failed: " +:+ pretty (rs_status resp)))
  else ret tt.

Definition scim_CreateUser (c : nat) (user : ExtUser) : CM string :=
  o <- ob_load c;;
  resp <- scim_send (sc_config o) "POST" "/Users" (scimUser_json (toSCIMUser user));;
  if decide (rs_status resp <> 201)%Z then fail (ErrNew ("create user failed: " +:+ body_text resp))
  else result <- decoded (decode_scimUser (rs_body resp));; ret (su_ID result).

Definition scim_GetUser (c : nat) (id : string) : CM ExtUser :=
  o <- ob_load c;;
  resp <- scim_send (sc_config o) "GET" ("/Users/" +:+ id) JNull;;
  if decide (rs_status resp <> 200)%Z then fail (ErrNew ("get user failed: " +:+ pretty (rs_status resp)))
  else result <- decoded (decode_scimUser (rs_body resp));; ret (fromSCIMUser result).

Definition scim_UpdateUser (c : nat) (id : string) (user : ExtUser) : CM unit :=
  o <- ob_load c;;
  resp <- scim_send (sc_config o) "PUT" ("/Users/" +:+ id) (scimUser_json (toSCIMUser user));;
  if decide (rs_status resp >= 400)%Z then fail (ErrNew ("update user failed: " +:+ body_text resp)) else ret tt.

Definition scim_DeleteUser (c : nat) (id : string) : CM unit :=
  o <- ob_load c;;
  resp <- scim_send (sc_config o) "DELETE" ("/Users/" +:+ id) JNull;;
  if decide (rs_status resp >= 400 /\ rs_status resp <> 204)%Z
  then fail (ErrNew ("delete user failed: " +:+ pretty (rs_status resp))) else ret tt.

(** [fmt.Sprintf("?startIndex=%d&count=%d", offset+1, limit)] *)
Definition scim_page (limit offset : Z) : string :=
  "?startIndex=" +:+ pretty (int64 (offset + 1)) +:+ "&count=" +:+ pretty limit.

Definition scim_ListUsers (c : nat) (filter : string) (limit offset : Z) : CM (list ExtUser * Z) :=
  o <- ob_load c;;
  let query := if decide (filter = estr) then estr else "&filter=" +:+ filter in
  resp <- scim_send (sc_config o) "GET" ("/Users" +:+ scim_page limit offset +:+ query) JNull;;
  result <- decoded (decode_scimList (rs_body resp));;
  ret (map fromSCIMUser (sl_Resources result), sl_TotalResults result).

Definition scim_CreateGroup (c : nat) (group : ExtGroup) : CM string :=
  o <- ob_load c;;
  resp <- scim_send (sc_config o) "POST" "/Groups" (scimGroup_json (mkScimGroup estr (xg_Name group)));;
  if decide (rs_status resp <> 201)%Z then fail (ErrNew ("create group failed: " +:+ pretty (rs_status resp)))
  else ret (sg_ID (lax_scimGroup (rs_body resp))).

Definition scim_GetGroup (c : nat) (id : string) : CM ExtGroup :=
  o <- ob_load c;;
  resp <- scim_send (sc_config o) "GET" ("/Groups/" +:+ id) JNull;;
  ret (group_of (lax_scimGroup (rs_body resp))).

Definition scim_UpdateGroup (c : nat) (id : string) (group : ExtGroup) : CM unit :=
  o <- ob_load c;;
  _ <- scim_send (sc_config o) "PUT" ("/Groups/" +:+ id) (scimGroup_json (mkScimGroup id (xg_Name group)));;
  ret tt.

Definition scim_DeleteGroup (c : nat) (id : string) : CM unit :=
  o <- ob_load c;;
  _ <- scim_send (sc_config o) "DELETE" ("/Groups/" +:+ id) JNull;;
  ret tt.

Definition scim_ListGroups (c : nat) (filter : string) (limit offset : Z) : CM (list ExtGroup * Z) :=
  o <- ob_load c;;
  resp <- scim_send (sc_config o) "GET" ("/Groups" +:+ scim_page limit offset) JNull;;
  let fields := lax_fields (rs_body resp) in
  ret (map group_of (lax_list lax_scimGroup "Resources" fields), lax_number "totalResults" fields).

(** The body of a [PATCH] with one operation; Go writes the keys of a map in
    order. *)
Definition scim_patch (operation : list (string * json)) : json :=
  JObj [("Operations", JArr [JObj operation]);
        ("schemas", JArr [JStr "urn:ietf:params:scim:api:messages:2.0:PatchOp"])].

Definition scim_AddUserToGroup (c : nat) (userID groupID : string) : CM unit :=
  o <- ob_load c;;
  _ <- scim_send (sc_config o) "PATCH" ("/Groups/" +:+ groupID)
         (scim_patch [("op", JStr "add"); ("path", JStr "members");
                      ("value", JArr [JObj [("value", JStr userID)]])]);;
  ret tt.

Definition scim_RemoveUserFromGroup (c : nat) (userID groupID : string) : CM unit :=
  o <- ob_load c;;
  _ <- scim_send (sc_config o) "PATCH" ("/Groups/" +:+ groupID)
         (scim_patch [("op", JStr "remove");
                      ("path", JStr ("members[value eq " +:+ dquote +:+ userID +:+ dquote +:+ "]"))]);;
  ret tt.

Definition scim_GetGroupMembers (c : nat) (groupID : string) : CM (list ExtUser) :=
  _ <- scim_GetGroup c groupID;; ret [].

#[export] Instance scim_connector : Connector nat (Objects scimConnector X) := {|
  conn_ID := scim_ID; conn_Name := scim_Name; conn_Type := fun _ => "scim";
  conn_Initialize := scim_Initialize; conn_HealthCheck := scim_HealthCheck; conn_Close := fun _ => ret tt;
  conn_CreateUser := scim_CreateUser; conn_GetUser := scim_GetUser; conn_UpdateUser := scim_UpdateUser;
  conn_DeleteUser := scim_DeleteUser; conn_ListUsers := scim_ListUsers;
  conn_CreateGroup := scim_CreateGroup; conn_GetGroup := scim_GetGroup; conn_UpdateGroup := scim_UpdateGroup;
  conn_DeleteGroup := scim_DeleteGroup; conn_ListGroups := scim_ListGroups;
  conn_AddUserToGroup := scim_AddUserToGroup; conn_RemoveUserFromGroup := scim_RemoveUserFromGroup;
  conn_GetGroupMembers := scim_GetGroupMembers
|}.
End Methods.
