(* ===== verification/AzureConnector.v ===== *)
(** * The Azure AD connector

    internal/connector/azuread/connector.go: the [Connector] for Microsoft
    Graph, which fetches an access token when it has none that is still good.

    A body that is not JSON, the form sent to the token endpoint, stands as its
    text. *)
From S2P Require Import Prelude GoStd GoUrl GoJson Http Connectors ConnObjects.
Local Open Scope go_scope.

Definition graphBaseURL : string := "https://graph.microsoft.com/v1.0".
Definition loginURL : string := "https://login.microsoftonline.com".

Record azureConnector : Type := mkAzureConnector {
  az_config : Config;
  az_accessToken : string;
  az_tokenExpiry : Z
}.

(** The zero [time.Time]: the year 1. *)
Definition zero_time : Z := - (62135596800 * second).

Record graphUserResponse : Type := mkGraphUser {
  gu_ID : string;
  gu_DisplayName : string;
  gu_GivenName : string;
  gu_Surname : string;
  gu_UserPrincipalName : string;
  gu_Mail : string;
  gu_AccountEnabled : bool
}.

Definition lax_graphUser (j : json) : graphUserResponse :=
  let fields := lax_fields j in
  mkGraphUser (lax_string "id" fields) (lax_string "displayName" fields) (lax_string "givenName" fields)
    (lax_string "surname" fields) (lax_string "userPrincipalName" fields) (lax_string "mail" fields)
    (lax_bool "accountEnabled" fields).

Definition fromGraphUser (u : graphUserResponse) : ExtUser :=
  let email := if decide (gu_Mail u = estr) then gu_UserPrincipalName u else gu_Mail u in
  mkExtUser (gu_ID u) estr (gu_UserPrincipalName u) email (gu_GivenName u) (gu_Surname u) (gu_DisplayName u)
    (gu_AccountEnabled u) ∅.

Definition lax_graphGroup (j : json) : ExtGroup :=
  let fields := lax_fields j in
  mkExtGroup (lax_string "id" fields) estr (lax_string "displayName" fields) (lax_string "description" fields).

Definition azure_tempPassword : string := "TempP@ss123!".

(** [strings.ReplaceAll(s, " ", "")] *)
Fixpoint remove_spaces (s : string) : string :=
  match s with
  | EmptyString => estr
  | String a r => if decide (a = byte 32) then remove_spaces r else String a (remove_spaces r)
  end.

(** The token response: the token and its life in seconds. *)
Definition decode_token (j : json) : (string * Z) + error :=
  match json_object j with
  | inr e => inr e
  | inl fields =>
      field json_string "access_token" fields (fun token =>
      field json_number "expires_in" fields (fun expires => inl (token, expires)))
  end.

Section Methods.
Context {X : Type} {peer : HttpPeer X}.

Abbreviation CM := (M (Objects azureConnector X)).

Definition azure_New (config : Config) : CM nat := ob_new (mkAzureConnector config estr zero_time).

Definition azure_ID (c : nat) : CM string := o <- ob_load c;; ret (cf_ID (az_config o)).

Definition azure_Name (c : nat) : CM string := o <- ob_load c;; ret (cf_Name (az_config o)).

Definition token_form (config : Config) : string :=
  Values_Encode (Values_Set (Values_Set (Values_Set (Values_Set []
    "client_id" (setting (cf_Credentials config) "client_id")) "client_secret" (setting (cf_Credentials config) "client_secret"))
    "scope" "https://graph.microsoft.com/.default") "grant_type" "client_credentials").

Definition azure_authenticate (c : nat) : CM unit :=
  o <- ob_load c;;
  let config := az_config o in
  req <- must_request "POST" (loginURL +:+ "/" +:+ setting (cf_Credentials config) "tenant_id" +:+ "/oauth2/v2.0/token")
           (JStr (token_form config));;
  resp <- close_first (on_net (http_Do (with_header "Content-Type" "application/x-www-form-urlencoded" req)));;
  if decide (rs_status resp <> 200)%Z then fail (ErrNew ("authentication failed: " +:+ body_text resp))
  else
    token <- decoded (decode_token (rs_body resp));;
    t <- now;;
    ob_store c (mkAzureConnector config (fst token) (t + int64 (int64 (snd token - 60) * second))%Z).

Definition azure_Initialize (c : nat) (config : Config) : CM unit :=
  o <- ob_load c;;
  ob_store c (mkAzureConnector config (az_accessToken o) (az_tokenExpiry o));;
  azure_authenticate c.

Definition azure_ensureAuthenticated (c : nat) : CM unit :=
  t <- now;;
  o <- ob_load c;;
  if decide (az_tokenExpiry o < t)%Z then azure_authenticate c else ret tt.

Definition azure_setHeaders (o : azureConnector) (req : HttpCall) : HttpCall :=
  with_header "Content-Type" "application/json" (with_header "Authorization" ("Bearer " +:+ az_accessToken o) req).

(** A request to Graph, its error looked at after its body is closed. *)
Definition azure_send (c : nat) (method path : string) (body : json) : CM Response :=
  req <- must_request method (graphBaseURL +:+ path) body;;
  o <- ob_load c;;
  close_first (on_net (http_Do (azure_setHeaders o req))).

Definition azure_HealthCheck (c : nat) : CM unit :=
  azure_ensureAuthenticated c;;
  resp <- azure_send c "GET" "/organization" JNull;;
  if decide (rs_status resp >= 400)%Z then fail (ErrNew ("health check failed: " +:+ pretty (rs_status resp)))
  else ret tt.

(** The keys of a map are written in order. *)
Definition azure_user (user : ExtUser) : json :=
  JObj [("accountEnabled", JBool (xu_Active user)); ("displayName", JStr (xu_DisplayName user));
        ("givenName", JStr (xu_FirstName user)); ("mailNickname", JStr (xu_Username user));
        ("passwordProfile", JObj [("forceChangePasswordNextSignIn", JBool true); ("password", JStr azure_tempPassword)]);
        ("surname", JStr (xu_LastName user)); ("userPrincipalName", JStr (xu_Email user))].

Definition azure_CreateUser (c : nat) (user : ExtUser) : CM string :=
  azure_ensureAuthenticated c;;
  resp <- azure_send c "POST" "/users" (azure_user user);;
  if decide (rs_status resp <> 201)%Z then fail (ErrNew ("create user failed: " +:+ body_text resp))
  else ret (gu_ID (lax_graphUser (rs_body resp))).

Definition azure_GetUser (c : nat) (id : string) : CM ExtUser :=
  azure_ensureAuthenticated c;;
  resp <- azure_send c "GET" ("/users/" +:+ id) JNull;;
  if decide (rs_status resp = 404)%Z then fail (ErrNew "user not found")
  else ret (fromGraphUser (lax_graphUser (rs_body resp))).

Definition azure_UpdateUser (c : nat) (id : string) (user : ExtUser) : CM unit :=
  azure_ensureAuthenticated c;;
  resp <- azure_send c "PATCH" ("/users/" +:+ id)
            (JObj ([("accountEnabled", JBool (xu_Active user))] ++ omitempty "displayName" (xu_DisplayName user)
                   ++ omitempty "givenName" (xu_FirstName user) ++ omitempty "surname" (xu_LastName user)));;
  if decide (rs_status resp >= 400)%Z then fail (ErrNew ("update user failed: " +:+ pretty (rs_status resp)))
  else ret tt.

(** A call whose answer is not looked at. *)
Definition azure_call (c : nat) (method path : string) (body : json) : CM unit :=
  azure_ensureAuthenticated c;;
  _ <- azure_send c method path body;;
  ret tt.

Definition azure_DeleteUser (c : nat) (id : string) : CM unit := azure_call c "DELETE" ("/users/" +:+ id) JNull.

Definition azure_page (limit offset : Z) : string := "?$top=" +:+ pretty limit +:+ "&$skip=" +:+ pretty offset.

Definition azure_ListUsers (c : nat) (filter : string) (limit offset : Z) : CM (list ExtUser * Z) :=
  azure_ensureAuthenticated c;;
  let query := if decide (filter = estr) then estr else "&$filter=" +:+ filter in
  resp <- azure_send c "GET" ("/users" +:+ azure_page limit offset +:+ query) JNull;;
  let users := map fromGraphUser (lax_list lax_graphUser "value" (lax_fields (rs_body resp))) in
  ret (users, Z.of_nat (length users)).

Definition azure_CreateGroup (c : nat) (group : ExtGroup) : CM string :=
  azure_ensureAuthenticated c;;
  resp <- azure_send c "POST" "/groups"
            (JObj [("description", JStr (xg_Description group)); ("displayName", JStr (xg_Name group));
                   ("mailEnabled", JBool false); ("mailNickname", JStr (remove_spaces (xg_Name group)));
                   ("securityEnabled", JBool true)]);;
  ret (lax_string "id" (lax_fields (rs_body resp))).

Definition azure_GetGroup (c : nat) (id : string) : CM ExtGroup :=
  azure_ensureAuthenticated c;;
  resp <- azure_send c "GET" ("/groups/" +:+ id) JNull;;
  ret (lax_graphGroup (rs_body resp)).

Definition azure_UpdateGroup (c : nat) (id : string) (group : ExtGroup) : CM unit :=
  azure_call c "PATCH" ("/groups/" +:+ id)
    (JObj [("description", JStr (xg_Description group)); ("displayName", JStr (xg_Name group))]).

Definition azure_DeleteGroup (c : nat) (id : string) : CM unit := azure_call c "DELETE" ("/groups/" +:+ id) JNull.

Definition azure_ListGroups (c : nat) (filter : string) (limit offset : Z) : CM (list ExtGroup * Z) :=
  azure_ensureAuthenticated c;;
  resp <- azure_send c "GET" ("/groups" +:+ azure_page limit offset) JNull;;
  let groups := lax_list lax_graphGroup "value" (lax_fields (rs_body resp)) in
  ret (groups, Z.of_nat (length groups)).

Definition azure_AddUserToGroup (c : nat) (userID groupID : string) : CM unit :=
  azure_call c "POST" ("/groups/" +:+ groupID +:+ "/members/$ref")
    (JObj [("@odata.id", JStr (graphBaseURL +:+ "/directoryObjects/" +:+ userID))]).

Definition azure_RemoveUserFromGroup (c : nat) (userID groupID : string) : CM unit :=
  azure_call c "DELETE" ("/groups/" +:+ groupID +:+ "/members/" +:+ userID +:+ "/$ref") JNull.

Definition azure_GetGroupMembers (c : nat) (groupID : string) : CM (list ExtUser) :=
  azure_ensureAuthenticated c;;
  resp <- azure_send c "GET" ("/groups/" +:+ groupID +:+ "/members") JNull;;
  ret (map fromGraphUser (lax_list lax_graphUser "value" (lax_fields (rs_body resp)))).

#[export] Instance azure_connector : Connector nat (Objects azureConnector X) := {|
  conn_ID := azure_ID; conn_Name := azure_Name; conn_Type := fun _ => "azure-ad";
  conn_Initialize := azure_Initialize; conn_HealthCheck := azure_HealthCheck; conn_Close := fun _ => ret tt;
  conn_CreateUser := azure_CreateUser; conn_GetUser := azure_GetUser; conn_UpdateUser := azure_UpdateUser;
  conn_DeleteUser := azure_DeleteUser; conn_ListUsers := azure_ListUsers;
  conn_CreateGroup := azure_CreateGroup; conn_GetGroup := azure_GetGroup; conn_UpdateGroup := azure_UpdateGroup;
  conn_DeleteGroup := azure_DeleteGroup; conn_ListGroups := azure_ListGroups;
  conn_AddUserToGroup := azure_AddUserToGroup; conn_RemoveUserFromGroup := azure_RemoveUserFromGroup;
  conn_GetGroupMembers := azure_GetGroupMembers
|}.
End Methods.
