(* ===== verification/GoogleConnector.v ===== *)
(** * The Google Workspace connector

    internal/connector/google/connector.go: the [Connector] for the Admin SDK's
    directory.  Its HTTP client comes from golang.org/x/oauth2, made by
    [Initialize] and nil before. *)
From S2P Require Import Prelude GoStd GoUrl GoJson Http Connectors ConnObjects.
Local Open Scope go_scope.

Definition adminAPIBase : string := "https://admin.googleapis.com/admin/directory/v1".

(** golang.org/x/oauth2/google: the credentials read from a service account's
    JSON, the client they give, the client that acts for another user, and what
    such a client's [Do] does. *)
Class GoogleOAuth (K X : Type) : Type := {
  google_CredentialsFromJSON : string -> list string -> K + error;
  google_JWTConfigFromJSON : string -> list string -> string -> K + error;
  google_Do : K -> HttpCall -> M X Response
}.

Record googleConnector (K : Type) : Type := mkGoogleConnector {
  go_config : Config;
  go_httpClient : option K;
  go_domain : string
}.
Arguments mkGoogleConnector {K} _ _ _.
Arguments go_config {K} _.
Arguments go_httpClient {K} _.
Arguments go_domain {K} _.

Record googleUserResponse : Type := mkGoogleUser {
  gg_ID : string;
  gg_PrimaryEmail : string;
  gg_GivenName : string;
  gg_FamilyName : string;
  gg_FullName : string;
  gg_Suspended : bool
}.

Definition lax_googleUser (j : json) : googleUserResponse :=
  let fields := lax_fields j in
  let name := lax_fields (json_field "name" fields) in
  mkGoogleUser (lax_string "id" fields) (lax_string "primaryEmail" fields) (lax_string "givenName" name)
    (lax_string "familyName" name) (lax_string "fullName" name) (lax_bool "suspended" fields).

Definition fromGoogleUser (u : googleUserResponse) : ExtUser :=
  mkExtUser (gg_ID u) estr (gg_PrimaryEmail u) (gg_PrimaryEmail u) (gg_GivenName u) (gg_FamilyName u) (gg_FullName u)
    (negb (gg_Suspended u)) ∅.

Definition lax_googleGroup (j : json) : ExtGroup :=
  let fields := lax_fields j in
  mkExtGroup (lax_string "id" fields) estr (lax_string "name" fields) (lax_string "description" fields).

(** A member: its identifier and email. *)
Definition lax_member (j : json) : ExtUser :=
  let fields := lax_fields j in
  mkExtUser (lax_string "id" fields) estr estr (lax_string "email" fields) estr estr estr false ∅.

Definition directory_scopes : list string :=
  ["https://www.googleapis.com/auth/admin.directory.user"; "https://www.googleapis.com/auth/admin.directory.group"].

Section Methods.
Context {K X : Type} {oauth : GoogleOAuth K X}.

Abbreviation CM := (M (Objects (googleConnector K) X)).

Definition google_New (config : Config) : CM nat :=
  ob_new (mkGoogleConnector config None (setting (cf_Settings config) "domain")).

Definition google_ID (c : nat) : CM string := o <- ob_load c;; ret (cf_ID (go_config o)).

Definition google_Name (c : nat) : CM string := o <- ob_load c;; ret (cf_Name (go_config o)).

Definition google_authenticate (c : nat) : CM unit :=
  o <- ob_load c;;
  let credJSON := setting (cf_Credentials (go_config o)) "service_account_json" in
  let adminEmail := setting (cf_Credentials (go_config o)) "admin_email" in
  creds <- map_err (ErrWrap "failed to parse credentials") (decoded (google_CredentialsFromJSON credJSON directory_scopes));;
  client <- (if decide (adminEmail = estr) then ret creds
             else map_err (ErrWrap "failed to parse JWT config")
                    (decoded (google_JWTConfigFromJSON credJSON directory_scopes adminEmail)));;
  ob_store c (mkGoogleConnector (go_config o) (Some client) (go_domain o)).

Definition google_Initialize (c : nat) (config : Config) : CM unit :=
  o <- ob_load c;;
  ob_store c (mkGoogleConnector config (go_httpClient o) (setting (cf_Settings config) "domain"));;
  google_authenticate c.

(** [c.httpClient.Do(req)]: a nil client panics. *)
Definition client_Do (c : nat) (req : HttpCall) : CM Response :=
  o <- ob_load c;;
  match go_httpClient o with
  | None => panic nil_deref
  | Some client => on_net (google_Do client req)
  end.

Definition json_type (req : HttpCall) : HttpCall := with_header "Content-Type" "application/json" req.

(** A request without a body, and one with a body of JSON; the body of the
    response is closed before the error is looked at. *)
Definition google_send (c : nat) (method path : string) : CM Response :=
  req <- must_request method (adminAPIBase +:+ path) JNull;;
  close_first (client_Do c req).

Definition google_post (c : nat) (method path : string) (body : json) : CM Response :=
  req <- must_request method (adminAPIBase +:+ path) body;;
  close_first (client_Do c (json_type req)).

Definition google_HealthCheck (c : nat) : CM unit :=
  o <- ob_load c;;
  resp <- google_send c "GET" ("/users?domain=" +:+ go_domain o +:+ "&maxResults=1");;
  if decide (rs_status resp >= 400)%Z then fail (ErrNew ("health check failed: " +:+ pretty (rs_status resp)))
  else ret tt.

(** The time gives the last digits. *)
Definition google_tempPassword : CM string :=
  t <- now;; ret ("TempP@ss123!" +:+ pretty (Z.rem (int64 t) 10000)).

Definition google_CreateUser (c : nat) (user : ExtUser) : CM string :=
  password <- google_tempPassword;;
  resp <- google_post c "POST" "/users"
            (JObj [("name", JObj [("familyName", JStr (xu_LastName user)); ("givenName", JStr (xu_FirstName user))]);
                   ("password", JStr password); ("primaryEmail", JStr (xu_Email user));
                   ("suspended", JBool (negb (xu_Active user)))]);;
  if decide (rs_status resp <> 200 /\ rs_status resp <> 201)%Z
  then fail (ErrNew ("create user failed: " +:+ body_text resp))
  else ret (gg_ID (lax_googleUser (rs_body resp))).

Definition google_GetUser (c : nat) (id : string) : CM ExtUser :=
  resp <- google_send c "GET" ("/users/" +:+ id);;
  if decide (rs_status resp = 404)%Z then fail (ErrNew "user not found")
  else ret (fromGoogleUser (lax_googleUser (rs_body resp))).

Definition google_UpdateUser (c : nat) (id : string) (user : ExtUser) : CM unit :=
  let name := if decide (xu_FirstName user = estr /\ xu_LastName user = estr) then []
              else [("name", JObj [("familyName", JStr (xu_LastName user)); ("givenName", JStr (xu_FirstName user))])] in
  resp <- google_post c "PUT" ("/users/" +:+ id) (JObj (name ++ [("suspended", JBool (negb (xu_Active user)))]));;
  if decide (rs_status resp >= 400)%Z then fail (ErrNew ("update user failed: " +:+ pretty (rs_status resp)))
  else ret tt.

Definition google_DeleteUser (c : nat) (id : string) : CM unit :=
  _ <- google_send c "DELETE" ("/users/" +:+ id);; ret tt.

Definition google_ListUsers (c : nat) (filter : string) (limit offset : Z) : CM (list ExtUser * Z) :=
  o <- ob_load c;;
  let query := if decide (filter = estr) then estr else "&query=" +:+ filter in
  resp <- google_send c "GET" ("/users?domain=" +:+ go_domain o +:+ "&maxResults=" +:+ pretty limit +:+ query);;
  let users := map fromGoogleUser (lax_list lax_googleUser "users" (lax_fields (rs_body resp))) in
  ret (users, Z.of_nat (length users)).

(** The three calls that look at the error first. *)
Definition google_CreateGroup (c : nat) (group : ExtGroup) : CM string :=
  o <- ob_load c;;
  req <- must_request "POST" (adminAPIBase +:+ "/groups")
           (JObj [("description", JStr (xg_Description group));
                  ("email", JStr (xg_Name group +:+ "@" +:+ go_domain o)); ("name", JStr (xg_Name group))]);;
  resp <- client_Do c (json_type req);;
  ret (lax_string "id" (lax_fields (rs_body resp))).

Definition google_GetGroup (c : nat) (id : string) : CM ExtGroup :=
  req <- must_request "GET" (adminAPIBase +:+ "/groups/" +:+ id) JNull;;
  resp <- client_Do c req;;
  ret (lax_googleGroup (rs_body resp)).

Definition google_UpdateGroup (c : nat) (id : string) (group : ExtGroup) : CM unit :=
  _ <- google_post c "PUT" ("/groups/" +:+ id)
         (JObj [("description", JStr (xg_Description group)); ("name", JStr (xg_Name group))]);;
  ret tt.

Definition google_DeleteGroup (c : nat) (id : string) : CM unit :=
  _ <- google_send c "DELETE" ("/groups/" +:+ id);; ret tt.

Definition google_ListGroups (c : nat) (filter : string) (limit offset : Z) : CM (list ExtGroup * Z) :=
  o <- ob_load c;;
  req <- must_request "GET" (adminAPIBase +:+ "/groups?domain=" +:+ go_domain o +:+ "&maxResults=" +:+ pretty limit) JNull;;
  resp <- client_Do c req;;
  let groups := lax_list lax_googleGroup "groups" (lax_fields (rs_body resp)) in
  ret (groups, Z.of_nat (length groups)).

Definition google_AddUserToGroup (c : nat) (userID groupID : string) : CM unit :=
  _ <- google_post c "POST" ("/groups/" +:+ groupID +:+ "/members")
         (JObj [("email", JStr userID); ("role", JStr "MEMBER")]);;
  ret tt.

Definition google_RemoveUserFromGroup (c : nat) (userID groupID : string) : CM unit :=
  _ <- google_send c "DELETE" ("/groups/" +:+ groupID +:+ "/members/" +:+ userID);; ret tt.

Definition google_GetGroupMembers (c : nat) (groupID : string) : CM (list ExtUser) :=
  resp <- google_send c "GET" ("/groups/" +:+ groupID +:+ "/members");;
  ret (lax_list lax_member "members" (lax_fields (rs_body resp))).

#[export] Instance google_connector : Connector nat (Objects (googleConnector K) X) := {|
  conn_ID := google_ID; conn_Name := google_Name; conn_Type := fun _ => "google";
  conn_Initialize := google_Initialize; conn_HealthCheck := google_HealthCheck; conn_Close := fun _ => ret tt;
  conn_CreateUser := google_CreateUser; conn_GetUser := google_GetUser; conn_UpdateUser := google_UpdateUser;
  conn_DeleteUser := google_DeleteUser; conn_ListUsers := google_ListUsers;
  conn_CreateGroup := google_CreateGroup; conn_GetGroup := google_GetGroup; conn_UpdateGroup := google_UpdateGroup;
  conn_DeleteGroup := google_DeleteGroup; conn_ListGroups := google_ListGroups;
  conn_AddUserToGroup := google_AddUserToGroup; conn_RemoveUserFromGroup := google_RemoveUserFromGroup;
  conn_GetGroupMembers := google_GetGroupMembers
|}.
End Methods.
