(* ===== verification/LdapConnector.v ===== *)
(** * The LDAP connector

    internal/connector/ldap/connector.go: the [Connector] for LDAP and Active
    Directory.  The protocol is github.com/go-ldap/ldap's: the class [Ldap],
    whose operations also say what they do on a nil connection. *)
From S2P Require Import Prelude GoStd GoUrl Http Connectors ConnObjects.
Local Open Scope go_scope.

Inductive ldap_scope : Type := ScopeBaseObject | ScopeWholeSubtree.

Record SearchRequest : Type := mkSearch {
  sr_BaseDN : string;
  sr_Scope : ldap_scope;
  sr_Filter : string;
  sr_Attributes : list string
}.

Record Entry : Type := mkEntry { en_DN : string; en_Attributes : list (string * list string) }.

(** [NewAddRequest] with its attributes, [NewModifyRequest] with its changes. *)
Record AddRequest : Type := mkAdd { ad_DN : string; ad_Attributes : list (string * list string) }.

Inductive ldap_change : Type :=
| ldap_AddValues (attr : string) (vals : list string)
| ldap_DeleteValues (attr : string) (vals : list string)
| ldap_ReplaceValues (attr : string) (vals : list string).

Record ModifyRequest : Type := mkModify { mo_DN : string; mo_Changes : list ldap_change }.

Class Ldap (C X : Type) : Type := {
  ldap_DialURL : string -> M X C;
  ldap_Bind : C -> string -> string -> M X unit;
  ldap_Close : C -> M X unit;
  ldap_Search : option C -> SearchRequest -> M X (list Entry);
  ldap_Add : option C -> AddRequest -> M X unit;
  ldap_Modify : option C -> ModifyRequest -> M X unit;
  ldap_Del : option C -> string -> M X unit;
  ldap_EscapeFilter : string -> string
}.

(** [entry.GetAttributeValues(name)] and [entry.GetAttributeValue(name)] *)
Definition GetAttributeValues (e : Entry) (name : string) : list string :=
  match list_find (fun kv => fst kv = name) (en_Attributes e) with Some (_, kv) => snd kv | None => [] end.

Definition GetAttributeValue (e : Entry) (name : string) : string :=
  match GetAttributeValues e name with v :: _ => v | [] => estr end.

Definition entry_user (e : Entry) : ExtUser :=
  mkExtUser (en_DN e) estr (GetAttributeValue e "uid") (GetAttributeValue e "mail") (GetAttributeValue e "givenName")
    (GetAttributeValue e "sn") (GetAttributeValue e "displayName") true ∅.

Definition entry_group (e : Entry) : ExtGroup :=
  mkExtGroup (en_DN e) estr (GetAttributeValue e "cn") (GetAttributeValue e "description").

Definition user_attributes : list string := ["uid"; "cn"; "sn"; "givenName"; "mail"; "displayName"].

Definition group_attributes : list string := ["cn"; "description"].

Record ldapConnector (C : Type) : Type := mkLdapConnector {
  ld_config : Config;
  ld_conn : option C;
  ld_baseDN : string
}.
Arguments mkLdapConnector {C} _ _ _.
Arguments ld_config {C} _.
Arguments ld_conn {C} _.
Arguments ld_baseDN {C} _.

(** The entries [offset .. end), as the slice is made and filled: its capacity
    may not be negative and no index either. *)
Definition slice_page (entries : list Entry) (limit offset : Z) : list Entry + string :=
  let last := Z.min (int64 (offset + limit)) (Z.of_nat (length entries)) in
  if decide (int64 (last - offset) < 0)%Z then inr "runtime error: makeslice: cap out of range"
  else if decide (offset < 0 /\ offset < last)%Z then inr "runtime error: index out of range"
  else inl (take (Z.to_nat (last - offset)) (drop (Z.to_nat offset) entries)).

Section Methods.
Context {C X : Type} {ldap : Ldap C X}.

Abbreviation CM := (M (Objects (ldapConnector C) X)).

Definition ldap_New (config : Config) : CM nat :=
  ob_new (mkLdapConnector config None (setting (cf_Settings config) "base_dn")).

Definition ldap_ID (c : nat) : CM string := o <- ob_load c;; ret (cf_ID (ld_config o)).

Definition ldap_Name (c : nat) : CM string := o <- ob_load c;; ret (cf_Name (ld_config o)).

Definition ldap_connect (c : nat) : CM unit :=
  o <- ob_load c;;
  conn <- map_err (ErrWrap "failed to connect to LDAP") (on_net (ldap_DialURL (cf_Endpoint (ld_config o))));;
  let bindDN := setting (cf_Credentials (ld_config o)) "bind_dn" in
  let bindPassword := setting (cf_Credentials (ld_config o)) "bind_password" in
  r <- attempt (on_net (ldap_Bind conn bindDN bindPassword));;
  match r with
  | inr err => ignore (on_net (ldap_Close conn));; fail (ErrWrap "failed to bind" err)
  | inl _ => ob_store c (mkLdapConnector (ld_config o) (Some conn) (ld_baseDN o))
  end.

Definition ldap_Initialize (c : nat) (config : Config) : CM unit :=
  o <- ob_load c;;
  ob_store c (mkLdapConnector config (ld_conn o) (setting (cf_Settings config) "base_dn"));;
  ldap_connect c.

Definition ldap_HealthCheck (c : nat) : CM unit :=
  o <- ob_load c;;
  match ld_conn o with
  | None => ldap_connect c
  | Some _ =>
      _ <- on_net (ldap_Search (ld_conn o) (mkSearch (ld_baseDN o) ScopeBaseObject "(objectClass=*)" []));;
      ret tt
  end.

Definition ldap_close (c : nat) : CM unit :=
  o <- ob_load c;;
  match ld_conn o with
  | None => ret tt
  | Some conn =>
      ignore (on_net (ldap_Close conn));;
      ob_store c (mkLdapConnector (ld_config o) None (ld_baseDN o))
  end.

Definition getUsersOU (o : ldapConnector C) : string :=
  match cf_Settings (ld_config o) !! "users_ou" with Some ou => ou | None => "ou=users," +:+ ld_baseDN o end.

Definition getGroupsOU (o : ldapConnector C) : string :=
  match cf_Settings (ld_config o) !! "groups_ou" with Some ou => ou | None => "ou=groups," +:+ ld_baseDN o end.

Definition ldap_CreateUser (c : nat) (user : ExtUser) : CM string :=
  o <- ob_load c;;
  let userDN := "cn=" +:+ xu_Username user +:+ "," +:+ getUsersOU o in
  let display := if decide (xu_DisplayName user = estr) then [] else [("displayName", [xu_DisplayName user])] in
  map_err (ErrWrap "failed to create user") (on_net (ldap_Add (ld_conn o) (mkAdd userDN
    ([("objectClass", ["inetOrgPerson"; "organizationalPerson"; "person"; "top"]);
      ("cn", [xu_Username user]); ("sn", [xu_LastName user]); ("givenName", [xu_FirstName user]);
      ("mail", [xu_Email user]); ("uid", [xu_Username user])] ++ display))));;
  ret userDN.

Definition ldap_GetUser (c : nat) (id : string) : CM ExtUser :=
  o <- ob_load c;;
  let id := ldap_EscapeFilter id in
  entries <- on_net (ldap_Search (ld_conn o)
    (mkSearch (getUsersOU o) ScopeWholeSubtree ("(|(uid=" +:+ id +:+ ")(cn=" +:+ id +:+ "))") user_attributes));;
  match entries with
  | [] => fail (ErrNew "user not found")
  | e :: _ => ret (entry_user e)
  end.

(** [if v != "" { modReq.Replace(attr, []string{v}) }] *)
Definition replace_if (attr v : string) : list ldap_change :=
  if decide (v = estr) then [] else [ldap_ReplaceValues attr [v]].

Definition ldap_UpdateUser (c : nat) (id : string) (user : ExtUser) : CM unit :=
  u <- ldap_GetUser c id;;
  o <- ob_load c;;
  on_net (ldap_Modify (ld_conn o) (mkModify (xu_ExternalID u)
    (replace_if "mail" (xu_Email user) ++ replace_if "givenName" (xu_FirstName user)
     ++ replace_if "sn" (xu_LastName user) ++ replace_if "displayName" (xu_DisplayName user)))).

Definition ldap_DeleteUser (c : nat) (id : string) : CM unit :=
  u <- ldap_GetUser c id;;
  o <- ob_load c;;
  on_net (ldap_Del (ld_conn o) (xu_ExternalID u)).

Definition ldap_ListUsers (c : nat) (filter : string) (limit offset : Z) : CM (list ExtUser * Z) :=
  o <- ob_load c;;
  let base := "(objectClass=inetOrgPerson)" in
  let searchFilter := if decide (filter = estr) then base else "(&" +:+ base +:+ "(" +:+ filter +:+ "))" in
  entries <- on_net (ldap_Search (ld_conn o) (mkSearch (getUsersOU o) ScopeWholeSubtree searchFilter user_attributes));;
  let total := Z.of_nat (length entries) in
  if decide (offset > total)%Z then ret ([], total)
  else match slice_page entries limit offset with
       | inl page => ret (map entry_user page, total)
       | inr msg => panic msg
       end.

Definition ldap_CreateGroup (c : nat) (group : ExtGroup) : CM string :=
  o <- ob_load c;;
  let groupDN := "cn=" +:+ xg_Name group +:+ "," +:+ getGroupsOU o in
  let description := if decide (xg_Description group = estr) then [] else [("description", [xg_Description group])] in
  map_err (ErrWrap "failed to create group") (on_net (ldap_Add (ld_conn o) (mkAdd groupDN
    ([("objectClass", ["groupOfNames"; "top"]); ("cn", [xg_Name group])] ++ description
     ++ [("member", [ld_baseDN o])]))));;
  ret groupDN.

Definition ldap_GetGroup (c : nat) (id : string) : CM ExtGroup :=
  o <- ob_load c;;
  entries <- on_net (ldap_Search (ld_conn o)
    (mkSearch (getGroupsOU o) ScopeWholeSubtree ("(cn=" +:+ ldap_EscapeFilter id +:+ ")") group_attributes));;
  match entries with
  | [] => fail (ErrNew "group not found")
  | e :: _ => ret (entry_group e)
  end.

Definition ldap_UpdateGroup (c : nat) (id : string) (group : ExtGroup) : CM unit :=
  g <- ldap_GetGroup c id;;
  o <- ob_load c;;
  on_net (ldap_Modify (ld_conn o) (mkModify (xg_ExternalID g) (replace_if "description" (xg_Description group)))).

Definition ldap_DeleteGroup (c : nat) (id : string) : CM unit :=
  g <- ldap_GetGroup c id;;
  o <- ob_load c;;
  on_net (ldap_Del (ld_conn o) (xg_ExternalID g)).

(** Without the test of the offset that [ListUsers] makes. *)
Definition ldap_ListGroups (c : nat) (filter : string) (limit offset : Z) : CM (list ExtGroup * Z) :=
  o <- ob_load c;;
  entries <- on_net (ldap_Search (ld_conn o)
    (mkSearch (getGroupsOU o) ScopeWholeSubtree "(objectClass=groupOfNames)" group_attributes));;
  match slice_page entries limit offset with
  | inl page => ret (map entry_group page, Z.of_nat (length entries))
  | inr msg => panic msg
  end.

(** One change of the members of a group. *)
Definition ldap_membership (c : nat) (change : string -> list string -> ldap_change) (userID groupID : string) : CM unit :=
  u <- ldap_GetUser c userID;;
  g <- ldap_GetGroup c groupID;;
  o <- ob_load c;;
  on_net (ldap_Modify (ld_conn o) (mkModify (xg_ExternalID g) [change "member" [xu_ExternalID u]])).

Definition ldap_AddUserToGroup (c : nat) : string -> string -> CM unit := ldap_membership c ldap_AddValues.

Definition ldap_RemoveUserFromGroup (c : nat) : string -> string -> CM unit := ldap_membership c ldap_DeleteValues.

(** The [cn] a member's name starts with: [strings.TrimPrefix(parts[0], "cn=")]. *)
Definition member_cn (memberDN : string) : string :=
  let first := match strings_Split memberDN (byte 44) with p :: _ => p | [] => estr end in
  if strings_HasPrefix first "cn=" then String.substring 3 (String.length first - 3) first else first.

(** The members that can be looked up; the placeholder is skipped. *)
Fixpoint ldap_members (c : nat) (baseDN : string) (members : list string) : CM (list ExtUser) :=
  match members with
  | [] => ret []
  | memberDN :: rest =>
      if decide (memberDN = baseDN) then ldap_members c baseDN rest
      else
        r <- attempt (ldap_GetUser c (member_cn memberDN));;
        users <- ldap_members c baseDN rest;;
        ret (match r with inl u => u :: users | inr _ => users end)
  end.

Definition ldap_GetGroupMembers (c : nat) (groupID : string) : CM (list ExtUser) :=
  g <- ldap_GetGroup c groupID;;
  o <- ob_load c;;
  entries <- on_net (ldap_Search (ld_conn o)
    (mkSearch (xg_ExternalID g) ScopeBaseObject "(objectClass=*)" ["member"]));;
  match entries with
  | [] => ret []
  | e :: _ => ldap_members c (ld_baseDN o) (GetAttributeValues e "member")
  end.

#[export] Instance ldap_connector : Connector nat (Objects (ldapConnector C) X) := {|
  conn_ID := ldap_ID; conn_Name := ldap_Name; conn_Type := fun _ => "ldap";
  conn_Initialize := ldap_Initialize; conn_HealthCheck := ldap_HealthCheck; conn_Close := ldap_close;
  conn_CreateUser := ldap_CreateUser; conn_GetUser := ldap_GetUser; conn_UpdateUser := ldap_UpdateUser;
  conn_DeleteUser := ldap_DeleteUser; conn_ListUsers := ldap_ListUsers;
  conn_CreateGroup := ldap_CreateGroup; conn_GetGroup := ldap_GetGroup; conn_UpdateGroup := ldap_UpdateGroup;
  conn_DeleteGroup := ldap_DeleteGroup; conn_ListGroups := ldap_ListGroups;
  conn_AddUserToGroup := ldap_AddUserToGroup; conn_RemoveUserFromGroup := ldap_RemoveUserFromGroup;
  conn_GetGroupMembers := ldap_GetGroupMembers
|}.
End Methods.
