(* ===== verification/GovConnectors.v ===== *)
(** * The connectors of the governance service

    cmd/govsvc/main.go registers a factory for each of the four types of
    connector; the registry then holds connectors of all of them. *)
From S2P Require Import Prelude GoStd Http Connectors ConnObjects ScimConnector LdapConnector AzureConnector GoogleConnector.
Local Open Scope go_scope.

(** A value of the interface: a pointer to a struct of one of the packages. *)
Inductive LiveConnector : Type :=
| LiveScim (c : nat)
| LiveLdap (c : nat)
| LiveAzure (c : nat)
| LiveGoogle (c : nat).

(** The structs of the four packages with the systems behind them. *)
Record Externals (XS L XL XA K XG : Type) : Type := mkExternals {
  ex_scim : Objects scimConnector XS;
  ex_ldap : Objects (ldapConnector L) XL;
  ex_azure : Objects azureConnector XA;
  ex_google : Objects (googleConnector K) XG
}.
Arguments mkExternals {XS L XL XA K XG} _ _ _ _.
Arguments ex_scim {XS L XL XA K XG} _.
Arguments ex_ldap {XS L XL XA K XG} _.
Arguments ex_azure {XS L XL XA K XG} _.
Arguments ex_google {XS L XL XA K XG} _.

Section Govsvc.
Context {XS L XL XA K XG : Type}.
Context {scim_peer : HttpPeer XS} {ldap : Ldap L XL} {azure_peer : HttpPeer XA} {oauth : GoogleOAuth K XG}.

Abbreviation World := (Externals XS L XL XA K XG).

Definition at_scim {A} (m : M (Objects scimConnector XS) A) : M World A :=
  zoom ex_scim (fun x w => mkExternals x (ex_ldap w) (ex_azure w) (ex_google w)) m.

Definition at_ldap {A} (m : M (Objects (ldapConnector L) XL) A) : M World A :=
  zoom ex_ldap (fun x w => mkExternals (ex_scim w) x (ex_azure w) (ex_google w)) m.

Definition at_azure {A} (m : M (Objects azureConnector XA) A) : M World A :=
  zoom ex_azure (fun x w => mkExternals (ex_scim w) (ex_ldap w) x (ex_google w)) m.

Definition at_google {A} (m : M (Objects (googleConnector K) XG) A) : M World A :=
  zoom ex_google (fun x w => mkExternals (ex_scim w) (ex_ldap w) (ex_azure w) x) m.

(** A method of the interface, on whatever the value holds. *)
Definition dispatch {A} (method : forall {N W}, Connector N W -> N -> M W A) (c : LiveConnector) : M World A :=
  match c with
  | LiveScim p => at_scim (method scim_connector p)
  | LiveLdap p => at_ldap (method ldap_connector p)
  | LiveAzure p => at_azure (method azure_connector p)
  | LiveGoogle p => at_google (method google_connector p)
  end.

Definition live_Type (c : LiveConnector) : string :=
  match c with LiveScim _ => "scim" | LiveLdap _ => "ldap" | LiveAzure _ => "azure-ad" | LiveGoogle _ => "google" end.

#[export] Instance live_connector : Connector LiveConnector World := {|
  conn_ID := dispatch (fun _ _ _ p => conn_ID p);
  conn_Name := dispatch (fun _ _ _ p => conn_Name p);
  conn_Type := live_Type;
  conn_Initialize := fun c config => dispatch (fun _ _ _ p => conn_Initialize p config) c;
  conn_HealthCheck := dispatch (fun _ _ _ p => conn_HealthCheck p);
  conn_Close := dispatch (fun _ _ _ p => conn_Close p);
  conn_CreateUser := fun c user => dispatch (fun _ _ _ p => conn_CreateUser p user) c;
  conn_GetUser := fun c id => dispatch (fun _ _ _ p => conn_GetUser p id) c;
  conn_UpdateUser := fun c id user => dispatch (fun _ _ _ p => conn_UpdateUser p id user) c;
  conn_DeleteUser := fun c id => dispatch (fun _ _ _ p => conn_DeleteUser p id) c;
  conn_ListUsers := fun c f limit offset => dispatch (fun _ _ _ p => conn_ListUsers p f limit offset) c;
  conn_CreateGroup := fun c group => dispatch (fun _ _ _ p => conn_CreateGroup p group) c;
  conn_GetGroup := fun c id => dispatch (fun _ _ _ p => conn_GetGroup p id) c;
  conn_UpdateGroup := fun c id group => dispatch (fun _ _ _ p => conn_UpdateGroup p id group) c;
  conn_DeleteGroup := fun c id => dispatch (fun _ _ _ p => conn_DeleteGroup p id) c;
  conn_ListGroups := fun c f limit offset => dispatch (fun _ _ _ p => conn_ListGroups p f limit offset) c;
  conn_AddUserToGroup := fun c user group => dispatch (fun _ _ _ p => conn_AddUserToGroup p user group) c;
  conn_RemoveUserFromGroup := fun c user group => dispatch (fun _ _ _ p => conn_RemoveUserFromGroup p user group) c;
  conn_GetGroupMembers := fun c group => dispatch (fun _ _ _ p => conn_GetGroupMembers p group) c
|}.

Definition make_scim (config : Config) : M World LiveConnector := p <- at_scim (scim_New config);; ret (LiveScim p).
Definition make_ldap (config : Config) : M World LiveConnector := p <- at_ldap (ldap_New config);; ret (LiveLdap p).
Definition make_azure (config : Config) : M World LiveConnector := p <- at_azure (azure_New config);; ret (LiveAzure p).
Definition make_google (config : Config) : M World LiveConnector := p <- at_google (google_New config);; ret (LiveGoogle p).

(** [connector.NewRegistry()] and the four registrations *)
Definition govsvc_registry : M (Registry LiveConnector World) unit :=
  registry_Register "scim" make_scim;;
  registry_Register "ldap" make_ldap;;
  registry_Register "azure-ad" make_azure;;
  registry_Register "google" make_google.

(** What the service starts with. *)
Definition empty_registry (w : World) : Registry LiveConnector World := mkRegistry ∅ ∅ w.

Definition started (w : World) (env : Env) : Registry LiveConnector World :=
  st (snd (govsvc_registry env (mkSt 0 (empty_registry w)))).
End Govsvc.
