(* ===== verification/ConnImplFacts.v ===== *)
(** * What the connectors do

    A user sent to a SCIM target reads back as it was; a page of an LDAP listing
    is the slice asked for; a connector to Google Workspace that was not
    initialized panics; and the SCIM connector pointed at the platform's own SCIM
    interface is refused throughout, which its group operations do not notice. *)
From S2P Require Import Prelude Bcrypt Sql Middleware Gin Server Directory DirectoryApi Scim DirService.
From S2P Require Import GoStd GoUrl GoJson Http Connectors ConnObjects ScimConnector LdapConnector GoogleConnector.
Local Open Scope go_scope.

(** ** SCIM *)

(** The value of a field that is left out when it is empty. *)
Lemma json_string_omitempty k v :
  json_string (json_field k (omitempty k v)) = inl v.
Proof. unfold omitempty. case_decide; [by subst|]. cbn. by rewrite decide_True. Qed.

Lemma json_field_app k l l' :
  json_field k (l ++ l') = match json_field k l' with JNull => json_field k l | v => v end.
Proof.
  induction l as [|[k' v] l IH]; [cbn; by destruct (json_field k l')|].
  cbn [json_field app]. rewrite IH. by destruct (json_field k l') eqn:?.
Qed.

Lemma json_field_omitempty_other k k' v :
  strings_ToLower k <> strings_ToLower k' -> json_field k (omitempty k' v) = JNull.
Proof. intros H. unfold omitempty. case_decide; [done|]. cbn. by rewrite decide_False. Qed.

Lemma decode_emails l : json_items decode_email (map scimEmail_json l) = inl l.
Proof. induction l as [|[v p] l IH]; [done|]. cbn [map json_items]. by rewrite IH. Qed.

Lemma json_field_left k l l' : json_field k l' = JNull -> json_field k (l ++ l') = json_field k l.
Proof. intros H. by rewrite json_field_app, H. Qed.

Lemma json_field_right k l l' : json_field k l = JNull -> json_field k (l ++ l') = json_field k l'.
Proof. intros H. rewrite json_field_app, H. by destruct (json_field k l'). Qed.

(** Reading the name back. *)
Lemma decode_name_omitempty given family :
  decode_name (JObj (omitempty "givenName" given ++ omitempty "familyName" family)) = inl (given, family).
Proof.
  unfold decode_name, json_object, field.
  rewrite json_field_left, json_string_omitempty by by apply json_field_omitempty_other.
  by rewrite json_field_right, json_string_omitempty by by apply json_field_omitempty_other.
Qed.

Lemma json_field_emails_other k l : strings_ToLower k <> "emails" -> json_field k (emails_json l) = JNull.
Proof. intros Hk. unfold emails_json. destruct l; [done|]. cbn. by rewrite decide_False. Qed.

Lemma decode_emails_field l : json_list decode_email (json_field "emails" (emails_json l)) = inl l.
Proof. destruct l as [|e l]; [done|]. apply (decode_emails (e :: l)). Qed.

(** The fields in the middle of a user's document, and the document. *)
Lemma user_fields id name active given family emails display :
  let body := [("userName", JStr name); ("active", JBool active);
               ("name", JObj (omitempty "givenName" given ++ omitempty "familyName" family))] in
  let l := omitempty "id" id ++ body ++ emails_json emails ++ omitempty "displayName" display in
  json_field "id" l = json_field "id" (omitempty "id" id) /\
  json_field "userName" l = JStr name /\ json_field "active" l = JBool active /\
  json_field "name" l = JObj (omitempty "givenName" given ++ omitempty "familyName" family) /\
  json_field "emails" l = json_field "emails" (emails_json emails) /\
  json_field "displayName" l = json_field "displayName" (omitempty "displayName" display).
Proof.
  cbv zeta. split_and!.
  - rewrite !json_field_left; [done|..];
      rewrite ?json_field_app, ?(json_field_omitempty_other "id" "displayName"), ?json_field_emails_other by done; done.
  - rewrite json_field_right, !json_field_left; [done|..];
      rewrite ?json_field_app, ?(json_field_omitempty_other "userName"), ?json_field_emails_other by done; done.
  - rewrite json_field_right, !json_field_left; [done|..];
      rewrite ?json_field_app, ?(json_field_omitempty_other "active"), ?json_field_emails_other by done; done.
  - rewrite json_field_right, !json_field_left; [done|..];
      rewrite ?json_field_app, ?(json_field_omitempty_other "name"), ?json_field_emails_other by done; done.
  - rewrite 2!json_field_right, json_field_left; [done|..];
      rewrite ?(json_field_omitempty_other "emails") by done; done.
  - rewrite !json_field_right; [done|..];
      rewrite ?(json_field_omitempty_other "displayName"), ?json_field_emails_other by done; done.
Qed.

(** A user reads back from the JSON it is sent as. *)
Theorem scim_user_roundtrip u : decode_scimUser (scimUser_json u) = inl u.
Proof.
  destruct u as [id name active given family emails display].
  destruct (user_fields id name active given family emails display) as (Hid & Hn & Ha & Hf & Hem & Hdis).
  unfold decode_scimUser, scimUser_json, json_object, field.
  cbn [su_ID su_UserName su_Active su_GivenName su_FamilyName su_Emails su_DisplayName].
  rewrite Hid, Hn, Ha, Hf, Hem, Hdis, !json_string_omitempty, decode_emails_field.
  by rewrite decode_name_omitempty.
Qed.

(** ** LDAP *)

Section LdapPages.
Context {C X : Type} {ldap : Ldap C X}.

(** A page within the listing is the slice asked for. *)
Lemma slice_page_spec entries limit offset :
  (0 <= limit)%Z -> (0 <= offset <= Z.of_nat (length entries))%Z -> (offset + limit < 2 ^ 63)%Z ->
  (Z.of_nat (length entries) < 2 ^ 63)%Z ->
  slice_page entries limit offset = inl (take (Z.to_nat limit) (drop (Z.to_nat offset) entries)).
Proof.
  intros Hl Ho Hov Hlen. unfold slice_page. rewrite (int64_small (offset + limit)) by lia.
  rewrite int64_small by lia. rewrite decide_False by lia. rewrite decide_False by lia. f_equal.
  destruct (decide (offset + limit <= Z.of_nat (length entries)))%Z.
  - by replace (Z.to_nat (Z.min (offset + limit) (Z.of_nat (length entries)) - offset)) with (Z.to_nat limit) by lia.
  - rewrite !take_ge; [done|rewrite length_drop; lia..].
Qed.

(** An offset past the end is a panic: the slice would have a negative capacity. *)
Lemma slice_page_past entries limit offset :
  (Z.of_nat (length entries) < offset)%Z -> (0 <= limit)%Z -> (offset + limit < 2 ^ 63)%Z ->
  slice_page entries limit offset = inr "runtime error: makeslice: cap out of range".
Proof.
  intros Ho Hl Hov. unfold slice_page. rewrite (int64_small (offset + limit)) by lia.
  rewrite int64_small by lia. by rewrite decide_True by lia.
Qed.

Context (c : nat) (o : ldapConnector C) (env : Env) (s : St (Objects (ldapConnector C) X)).
Context (Ho : ob_structs (st s) !! c = Some o).
Context (limit offset : Z) (Hlimit : (0 <= limit)%Z) (Hoffset : (0 <= offset)%Z) (Hmax : (offset + limit < 2 ^ 63)%Z).

(** Listing users: past the end of the directory's answer the page is empty,
    within it the page is the slice asked for, and the total is right. *)
Theorem ldap_users_page filter entries x :
  let query := if decide (filter = estr) then "(objectClass=inetOrgPerson)"
               else "(&(objectClass=inetOrgPerson)(" +:+ filter +:+ "))" in
  ldap_Search (ld_conn o) (mkSearch (getUsersOU o) ScopeWholeSubtree query user_attributes) env
    (mkSt (tick s) (ob_net (st s))) = (Ok entries, x) ->
  (Z.of_nat (length entries) < 2 ^ 63)%Z ->
  fst (ldap_ListUsers c filter limit offset env s) =
    Ok (map entry_user (take (Z.to_nat limit) (drop (Z.to_nat offset) entries)), Z.of_nat (length entries)).
Proof.
  cbv zeta. intros Hs Hlen. unfold ldap_ListUsers. mgo (ob_load_run _ _ env _ Ho). cbv zeta.
  assert ((if decide (filter = estr) then "(objectClass=inetOrgPerson)"
           else "(&" +:+ "(objectClass=inetOrgPerson)" +:+ "(" +:+ filter +:+ "))") =
          (if decide (filter = estr) then "(objectClass=inetOrgPerson)"
           else "(&(objectClass=inetOrgPerson)(" +:+ filter +:+ "))")) as -> by (by case_decide).
  unfold bind, on_net, zoom. rewrite Hs. cbn [tick st].
  destruct (decide (offset > Z.of_nat (length entries))%Z).
  - rewrite drop_ge by lia. cbn. by rewrite take_nil.
  - rewrite slice_page_spec by lia. done.
Qed.

(** Listing groups: the same within the answer, and a panic past its end. *)
Theorem ldap_groups_page filter entries x :
  ldap_Search (ld_conn o) (mkSearch (getGroupsOU o) ScopeWholeSubtree "(objectClass=groupOfNames)" group_attributes) env
    (mkSt (tick s) (ob_net (st s))) = (Ok entries, x) ->
  (Z.of_nat (length entries) < 2 ^ 63)%Z ->
  fst (ldap_ListGroups c filter limit offset env s) =
    if decide (offset <= Z.of_nat (length entries))%Z
    then Ok (map entry_group (take (Z.to_nat limit) (drop (Z.to_nat offset) entries)), Z.of_nat (length entries))
    else Panic "runtime error: makeslice: cap out of range".
Proof.
  intros Hs Hlen. unfold ldap_ListGroups. mgo (ob_load_run _ _ env _ Ho). cbv zeta.
  unfold bind, on_net, zoom. rewrite Hs. cbn [tick st]. case_decide.
  - rewrite slice_page_spec by lia. done.
  - rewrite slice_page_past by lia. done.
Qed.
End LdapPages.

(** ** Google Workspace *)

Section Google.
Context {K X : Type} {oauth : GoogleOAuth K X}.

(** No struct has a client: none was initialized. *)
Definition uninitialized (w : Objects (googleConnector K) X) : Prop :=
  Forall (fun o => go_httpClient o = None) (ob_structs w).

Definition panics {A} (m : M (Objects (googleConnector K) X) A) : Prop :=
  forall env s, uninitialized (st s) -> exists u, m env s = (Panic nil_deref, u) /\ st u = st s.

Lemma panics_client_Do c req : panics (client_Do c req).
Proof.
  intros env s Hs. unfold client_Do, ob_load, bind, gets. exists s. destruct (ob_structs (st s) !! c) as [o|] eqn:Ho; [|done].
  cbn. unfold uninitialized in Hs. rewrite Forall_lookup in Hs. by rewrite (Hs c o Ho).
Qed.

Lemma panics_close {A} (m : M (Objects (googleConnector K) X) A) : panics m -> panics (close_first m).
Proof. intros Hm env s Hs. destruct (Hm env s Hs) as (u & E & Hu). exists u. unfold close_first, bind, attempt. by rewrite E. Qed.

Lemma panics_bind {A B} (m : M (Objects (googleConnector K) X) A) (k : A -> M _ B) : panics m -> panics (bind m k).
Proof. intros Hm env s Hs. destruct (Hm env s Hs) as (u & E & Hu). exists u. unfold bind. by rewrite E. Qed.

(** After a part that only reads, or panics. *)
Lemma panics_after {A B} (m : M (Objects (googleConnector K) X) A) (k : A -> M _ B) :
  (forall env s, (exists a, fst (m env s) = Ok a) \/ fst (m env s) = Panic nil_deref) -> readonly m ->
  (forall a, panics (k a)) -> panics (bind m k).
Proof.
  intros Hm Hr Hk env s Hs. unfold bind. specialize (Hr env s).
  destruct (Hm env s) as [[a Ha]|Ha]; destruct (m env s) as [r t]; cbn in *; subst r; [|eauto].
  destruct (Hk a env t) as (u & E & Hu); [by rewrite Hr|]. exists u. split; [done|congruence].
Qed.

Lemma panics_must_request method url body (k : HttpCall -> M (Objects (googleConnector K) X) Response) :
  (forall req, panics (k req)) -> panics (bind (must_request method url body) k).
Proof.
  apply panics_after.
  - intros env s. unfold must_request, http_NewRequest, bind, attempt. destruct (url_Parse url); cbn; eauto.
  - unfold must_request, http_NewRequest. effects.
Qed.

Lemma panics_send c method path : panics (google_send c method path).
Proof. apply panics_must_request. intros. apply panics_close, panics_client_Do. Qed.

Lemma panics_post c method path body : panics (google_post c method path body).
Proof. apply panics_must_request. intros. apply panics_close, panics_client_Do. Qed.

Lemma panics_ob_load c {B} (k : googleConnector K -> M (Objects (googleConnector K) X) B) :
  (forall o, panics (k o)) -> panics (bind (ob_load c) k).
Proof.
  apply panics_after; [|effects]. intros env s. unfold ob_load, bind, gets. destruct (_ !! c); cbn; eauto.
Qed.

(** Without [Initialize] the connector cannot check its connection or change a
    user: each of these panics, and the structs stay as they are. *)
Theorem google_uninitialized c :
  panics (google_HealthCheck c) /\ (forall user, panics (google_CreateUser c user)) /\
  (forall id user, panics (google_UpdateUser c id user)) /\ (forall id, panics (google_DeleteUser c id)) /\
  (forall user group, panics (google_AddUserToGroup c user group)) /\
  (forall user group, panics (google_RemoveUserFromGroup c user group)).
Proof.
  split_and!; intros.
  - apply panics_ob_load. intros. apply panics_bind, panics_send.
  - apply panics_after; [by eauto|unfold google_tempPassword; effects|]. intros. apply panics_bind, panics_post.
  - apply panics_bind, panics_post.
  - apply panics_bind, panics_send.
  - apply panics_bind, panics_post.
  - apply panics_bind, panics_send.
Qed.

Lemma google_HealthCheck_keeps c : preserves uninitialized (google_HealthCheck c).
Proof.
  intros env s Hs. destruct (proj1 (google_uninitialized c) env s Hs) as (u & E & Hu). rewrite E. cbn. by rewrite Hu.
Qed.
End Google.

(** ** The SCIM connector and the directory's SCIM interface *)

Section OwnDirectory.
Context {X : Type} `{!DirectoryService X}.
Context `{!Binder Scim.User, !Binder Scim.Group, !Binder (list PatchOperation)}.
Context `{!Binder CreateUserRequest, !Validator CreateUserRequest, !Validator GetUserByEmailRequest,
          !Validator GetUserByIDRequest, !Binder Directory.User, !Validator UpdateUserRequest,
          !Validator DeleteUserRequest, !Binder CreateGroupRequest, !Validator CreateGroupRequest,
          !Validator GetGroupByIDRequest, !Binder Directory.Group, !Validator UpdateGroupRequest,
          !Validator DeleteGroupRequest, !Binder AddUserToGroupRequest,
          !Validator AddUserToGroupRequest, !Validator RemoveUserFromGroupRequest,
          !Binder VerifyCredentialsRequest, !Validator VerifyCredentialsRequest}.
Context {gin : GinRedirect} (serviceAuth : ServiceAuthConfig) (base : string).

#[local] Instance own_directory : HttpPeer X := dirsvc_Do (RegisterRoutes serviceAuth) base.

Lemma scim_sends_no_tenant config method url q body :
  header_get DefaultTenantHeader (hc_headers (scim_setHeaders config (mkHttpCall method url [] q body))) = estr.
Proof.
  unfold scim_setHeaders, with_basic_auth.
  destruct (cf_Credentials config !! "token"), (cf_Credentials config !! "username"), (cf_Credentials config !! "password"); rewrite ?header_get_other by done; done.
Qed.

Lemma scim_send_refused config method rest body params h env s :
  cf_Endpoint config = base +:+ "/scim/v2" -> rest <> [] -> Forall plain rest ->
  (exists u, url_Parse (base +:+ "/scim/v2/" +:+ strings_Join rest "/") = inl u) ->
  resolve (dirsvc_routes (RegisterRoutes serviceAuth)) method ("scim" :: "v2" :: rest) =
    Some (params, TenantExtractor noTenantConfig h) ->
  scim_send config method ("/" +:+ strings_Join rest "/") body env s =
    (Ok (respond 400 (error_body "missing tenant identifier")), s).
Proof.
  intros He Hne Hp [url Hu] Hr. unfold scim_send. rewrite He, app_str_assoc.
  change ("/scim/v2" +:+ "/" +:+ strings_Join rest "/") with ("/scim/v2/" +:+ strings_Join rest "/").
  unfold http_NewRequest. rewrite Hu, (bind_Ok _ _ _ _ _ _ eq_refl). unfold on_net, zoom.
  set (call := scim_setHeaders _ _).
  assert (hc_method call = method /\ hc_url call = base +:+ "/scim/v2/" +:+ strings_Join rest "/") as [Hm Hl].
  { unfold call, scim_setHeaders, with_basic_auth. by destruct (cf_Credentials config !! "token"), (cf_Credentials config !! "username"), (cf_Credentials config !! "password"). }
  erewrite (http_Do_run call env); [|unfold http_RoundTrip, own_directory|]; cycle 1.
  { rewrite (dirsvc_routed _ _ call ("scim" :: "v2" :: rest) params (TenantExtractor noTenantConfig h)); cycle 1.
    { rewrite Hl, (request_path_app base _ (strings_Join ("scim" :: "v2" :: rest) "/")) by (by destruct rest).
      rewrite path_segments_Join; [done|done|by repeat constructor]. }
    { by rewrite Hm. }
    rewrite Hm. unfold serve, dispatch. rewrite Hr.
    unfold TenantExtractor, GetHeader. cbn [gc_request rq_headers call_request tc_HeaderName noTenantConfig].
    rewrite (decide_True (P := estr = estr)) by done. rewrite sent_headers_other by done. unfold call.
    rewrite scim_sends_no_tenant, decide_True by (split; [done|by intros []]). reflexivity. }
  { done. }
  by destruct s as [n []].
Qed.

(** The connector sends no tenant, and the interface answers nothing without one:
    no user is created, changed or deleted, as the connector reports; and no group
    is changed either, which it reports as done. *)
Theorem scim_connector_refused c o user group id userID env s :
  ob_structs (st s) !! c = Some o -> cf_Endpoint (sc_config o) = base +:+ "/scim/v2" -> id <> estr -> plain id ->
  (forall rest, rest ∈ [["Users"]; ["Users"; id]; ["Groups"]; ["Groups"; id]] ->
    exists u, url_Parse (base +:+ "/scim/v2/" +:+ strings_Join rest "/") = inl u) ->
  (exists err, scim_CreateUser c user env s = (Err err, s)) /\
  (exists err, scim_UpdateUser c id user env s = (Err err, s)) /\
  (exists err, scim_DeleteUser c id env s = (Err err, s)) /\
  (exists err, scim_CreateGroup c group env s = (Err err, s)) /\
  scim_UpdateGroup c id group env s = (Ok tt, s) /\ scim_DeleteGroup c id env s = (Ok tt, s) /\
  scim_AddUserToGroup c userID id env s = (Ok tt, s) /\ scim_RemoveUserFromGroup c userID id env s = (Ok tt, s).
Proof.
  intros Hc He Hne Hid Hu.
  set (paths := [["Users"]; ["Users"; id]; ["Groups"]; ["Groups"; id]]) in Hu.
  assert (forall rest, rest ∈ paths -> rest <> [] /\ Forall plain rest) as Hp.
  { unfold paths. intros rest Hin. repeat (apply elem_of_cons in Hin as [->|Hin]; [split; [done|by repeat constructor]|]). by apply elem_of_nil in Hin. }
  assert (forall i rest m b ps h, paths !! i = Some rest ->
    resolve (dirsvc_routes (RegisterRoutes serviceAuth)) m ("scim" :: "v2" :: rest) = Some (ps, TenantExtractor noTenantConfig h) ->
    scim_send (sc_config o) m ("/" +:+ strings_Join rest "/") b env s = (Ok (respond 400 (error_body "missing tenant identifier")), s)) as H.
  { intros i rest m b ps h Hi%list_elem_of_lookup_2 Hr. destruct (Hp rest Hi). eapply scim_send_refused; eauto. }
  pose proof (fun m b ps h => H 0 _ m b ps h eq_refl) as S1. pose proof (fun m b ps h => H 1 _ m b ps h eq_refl) as S2.
  pose proof (fun m b ps h => H 2 _ m b ps h eq_refl) as S3. pose proof (fun m b ps h => H 3 _ m b ps h eq_refl) as S4.
  cbn [strings_Join] in S1, S2, S3, S4. clear H Hp Hu Hid paths. destruct id as [|a id]; [done|].
  unfold scim_CreateUser, scim_UpdateUser, scim_DeleteUser, scim_CreateGroup, scim_UpdateGroup, scim_DeleteGroup,
    scim_AddUserToGroup, scim_RemoveUserFromGroup, bind. rewrite !(ob_load_run c o) by done.
  split_and!; [eexists; erewrite S1 by reflexivity|eexists; erewrite S2 by reflexivity|eexists; erewrite S2 by reflexivity
              |eexists; erewrite S3 by reflexivity|erewrite S4 by reflexivity..]; reflexivity.
Qed.
End OwnDirectory.
