(* ===== verification/GovConnectorFacts.v ===== *)
(** * Provisioning through the governance service's connectors

    The connector service, the registry with its four factories, the queue of
    tasks and the connectors put together. *)
From S2P Require Import Prelude GoStd GoUrl GoJson Sql Http Connectors Provisioning ProvisioningFacts ConnObjects.
From S2P Require Import ScimConnector LdapConnector AzureConnector GoogleConnector ConnImplFacts GovConnectors.
Local Open Scope go_scope.

Section Facts.
Context {XS L XL XA K XG : Type}.
Context {scim_peer : HttpPeer XS} {ldap : Ldap L XL} {azure_peer : HttpPeer XA} {oauth : GoogleOAuth K XG}.
Context {D : Type} {store : ConnectorStore D} {pg : PgInterval}.

Abbreviation World := (Externals XS L XL XA K XG).
Abbreviation Reg := (Registry LiveConnector World).

Definition factories (g : Reg) : Prop :=
  rg_factories g !! "scim" = Some make_scim /\ rg_factories g !! "ldap" = Some make_ldap /\
  rg_factories g !! "azure-ad" = Some make_azure /\ rg_factories g !! "google" = Some make_google.

(** The service starts with the four types registered. *)
Lemma started_factories (w : World) env : factories (started w env).
Proof. by repeat split. Qed.

(** ** Google *)

Definition google_down (g : Reg) : Prop :=
  (forall ty f, rg_factories g !! ty = Some f -> f ∈ [make_scim; make_ldap; make_azure; make_google]) /\
  uninitialized (ex_google (rg_world g)).

Lemma started_google_down (w : World) env : uninitialized (ex_google w) -> google_down (started w env).
Proof.
  intros Hw. split; [|done]. intros ty f H. unfold started in H. cbn in H.
  repeat (apply lookup_insert_Some in H as [[_ <-]|[_ H]]; [set_solver|]). by rewrite lookup_empty in H.
Qed.

Lemma in_world_keeps {A} (m : M World A) :
  preserves (fun w => uninitialized (ex_google w)) m -> preserves google_down (in_world (N := LiveConnector) m).
Proof.
  intros Hm. apply (preserves_zoom google_down (fun w => uninitialized (ex_google w))); [by intros g []| |done].
  by intros g w [Hf _] Hw.
Qed.

Lemma make_keeps f config :
  f ∈ [make_scim; make_ldap; make_azure; make_google] -> preserves (fun w : World => uninitialized (ex_google w)) (f config).
Proof.
  intros Hf env s Hs. repeat (apply elem_of_cons in Hf as [->|Hf]); [done..| |by apply elem_of_nil in Hf].
  cbn. apply Forall_app. split; [done|]. by repeat constructor.
Qed.

Lemma registry_Create_keeps ty config : preserves google_down (registry_Create (N := LiveConnector) ty config).
Proof.
  intros env s Hs. unfold registry_Create, bind, gets. cbn [fst snd].
  destruct (rg_factories (st s) !! ty) as [f|] eqn:Hf; [|done].
  pose proof (make_keeps f config (proj1 Hs ty f Hf)) as Hm. apply in_world_keeps in Hm.
  specialize (Hm env s Hs). unfold map_err. destruct (in_world (f config) env s) as [[c|e|p] t]; cbn in *; [|done..].
  by destruct Hm.
Qed.

Lemma connector_dispatch_keeps {A} (method : forall {N W}, Connector N W -> N -> M W A) c :
  (forall p, preserves uninitialized (method google_connector p)) ->
  preserves (fun w : World => uninitialized (ex_google w)) (dispatch (@method) c).
Proof.
  intros Hm. destruct c; cbn [dispatch]; [by apply (preserves_zoom _ (fun _ => True))..|].
  by apply (preserves_zoom _ uninitialized).
Qed.

Lemma registry_Remove_keeps id : preserves google_down (registry_Remove (N := LiveConnector) (W := World) id).
Proof.
  intros env s Hs. unfold registry_Remove, bind, gets. destruct (rg_connectors (st s) !! id) as [c|]; [|done].
  assert (preserves google_down (in_world (N := LiveConnector) (conn_Close c))) as Hm.
  { apply in_world_keeps, connector_dispatch_keeps. intros p. by apply readonly_preserves. }
  specialize (Hm env s Hs). unfold map_err.
  destruct (in_world (conn_Close c) env s) as [[x|e|p] t]; cbn in *; [|done..]. by destruct Hm.
Qed.

Lemma preserves_deferred {S A} (P : S -> Prop) (m : M S A) d :
  preserves P m -> preserves P d -> preserves P (deferred m d).
Proof.
  intros Hm Hd env s Hs. unfold deferred. specialize (Hm env s Hs). destruct (m env s) as [r t].
  specialize (Hd env t Hm). by destruct (d env t) as [[] u].
Qed.

Abbreviation Service := (ConnectorState D LiveConnector World).

(** The calls of the connector service. *)
Inductive service_call : forall {A}, M Service A -> Prop :=
| call_CreateConnector t c : service_call (CreateConnector t c)
| call_UpdateConnector t c : service_call (UpdateConnector t c)
| call_DeleteConnector t i : service_call (DeleteConnector t i)
| call_ToggleConnector t i b : service_call (ToggleConnector t i b)
| call_TestConnection c : service_call (TestConnection c).

Lemma in_registry_keeps {A} (m : M Reg A) :
  preserves google_down m -> preserves (fun s : Service => google_down (cns_registry s)) (in_registry m).
Proof. by apply preserves_zoom. Qed.

Lemma in_store_keeps {A} (m : M D A) : preserves (fun s : Service => google_down (cns_registry s)) (in_store m).
Proof. by apply (preserves_zoom _ (fun _ => True)). Qed.

(** No call of the service initializes a connector to Google. *)
Lemma service_keeps_google {A} (m : M Service A) :
  service_call m -> preserves (fun s : Service => google_down (cns_registry s)) m.
Proof.
  intros []; unfold CreateConnector, UpdateConnector, DeleteConnector, ToggleConnector; effects;
    auto using in_store_keeps, in_registry_keeps, registry_Create_keeps, registry_Remove_keeps.
  unfold TestConnection. effects; [by auto using in_registry_keeps, registry_Create_keeps|].
  apply preserves_deferred; [|effects; by auto using in_registry_keeps, registry_Remove_keeps].
  apply in_registry_keeps, in_world_keeps, connector_dispatch_keeps. intros p. apply google_HealthCheck_keeps.
Qed.

(** An operation the queue knows, with a payload it can read. *)
Definition readable (task : ProvisioningTask) : Prop :=
  (pt_Operation task = "create_user" /\ exists u, decode_user (pt_Payload task) = inl u) \/
  (pt_Operation task = "update_user" /\ exists u, decode_user (pt_Payload task) = inl u) \/
  pt_Operation task = "delete_user" \/
  (pt_Operation task = "add_to_group" /\ exists p, decode_membership (pt_Payload task) = inl p) \/
  (pt_Operation task = "remove_from_group" /\ exists p, decode_membership (pt_Payload task) = inl p).

Lemma at_google_panics {A} (m : M _ A) env (s : St World) :
  panics m -> uninitialized (ex_google (st s)) ->
  exists u, at_google (XS := XS) (L := L) (XL := XL) (XA := XA) m env s = (Panic nil_deref, u).
Proof.
  intros Hm Hs. destruct (Hm env (mkSt (tick s) (ex_google (st s))) Hs) as (u & E & _).
  unfold at_google, zoom. rewrite E. eauto.
Qed.

Lemma google_operation_panics c task env (s : St World) :
  readable task -> uninitialized (ex_google (st s)) ->
  exists u, executeOperation (LiveGoogle c) task env s = (Panic nil_deref, u).
Proof.
  intros Hr Hs. destruct (google_uninitialized (K := K) (X := XG) c) as (_ & H1 & H2 & H3 & H4 & H5).
  unfold executeOperation.
  destruct Hr as [[-> [u E]]|[[-> [u E]]|[->|[[-> [u E]]|[-> [u E]]]]]];
    repeat (rewrite decide_False by done); rewrite decide_True by done; rewrite ?E; unfold decoded, bind, ret.
  - destruct (at_google_panics _ env s (H1 u) Hs) as (v & Ev). exists v. cbn -[at_google]. by rewrite Ev.
  - apply (at_google_panics _ env s (H2 _ u) Hs).
  - apply (at_google_panics _ env s (H3 _) Hs).
  - apply (at_google_panics _ env s (H4 _ _) Hs).
  - apply (at_google_panics _ env s (H5 _ _) Hs).
Qed.

(** A task for a connector to Google stops the worker and is left marked as
    processing, out of the reach of [ListPendingTasks]. *)
Theorem google_tasks_stuck taskID i env n (s : ProvState LiveConnector World) r c :
  db_up env -> pg_uuid env taskID = Some i -> tasks_ok (pv_tasks s) -> r ∈ pv_tasks s -> tk_ID r = i ->
  (tk_MaxRetries r < 2 ^ 31)%Z -> google_down (pv_registry s) ->
  rg_connectors (pv_registry s) !! tk_ConnectorID r = Some (LiveGoogle c) -> readable (toTask r) ->
  exists u, ProcessTask taskID env (mkSt n s) = (Panic nil_deref, u) /\
    exists r', r' ∈ pv_tasks (st u) /\ tk_ID r' = i /\ tk_Status r' = "processing".
Proof.
  intros Hup Hi Hok Hr Hid Hmax Hg Hc Hread. rewrite (ProcessTask_run taskID i env n s r) by done.
  unfold run_operation. rewrite Hc.
  destruct (google_operation_panics c (toTask (processing r)) env (mkSt (S (S n)) (rg_world (pv_registry s))) Hread (proj2 Hg))
    as (w & ->).
  eexists. split; [reflexivity|]. exists (processing r). split; [by apply on_task_elem|done].
Qed.

(** ** SCIM *)

(** The SCIM document of a user that has no identifier yet: names that are empty
    are left out, and the address is the primary one. *)
Definition user_document (user : ExtUser) : json :=
  JObj ([("userName", JStr (xu_Username user)); ("active", JBool (xu_Active user));
         ("name", JObj (omitempty "givenName" (xu_FirstName user) ++ omitempty "familyName" (xu_LastName user)));
         ("emails", JArr [JObj [("value", JStr (xu_Email user)); ("primary", JBool true)]])]
        ++ omitempty "displayName" (xu_DisplayName user)).

(** The credentials of a configuration: a user name and a password count more
    than a token. *)
Definition authorization (config : Config) : string :=
  match cf_Credentials config !! "username", cf_Credentials config !! "password", cf_Credentials config !! "token" with
  | Some user, Some pass, _ => "Basic " +:+ base64_Std (user +:+ ":" +:+ pass)
  | _, _, Some token => "Bearer " +:+ token
  | _, _, None => estr
  end.

(** What the request for a new user has to look like. *)
Definition creates_user (config : Config) (user : ExtUser) (call : HttpCall) : Prop :=
  hc_method call = "POST" /\ hc_url call = cf_Endpoint config +:+ "/Users" /\ hc_body call = user_document user /\
  header_get "Content-Type" (hc_headers call) = "application/scim+json" /\
  header_get "Authorization" (hc_headers call) = authorization config.

Lemma scim_headers config user query :
  creates_user config user
    (scim_setHeaders config (mkHttpCall "POST" (cf_Endpoint config +:+ "/Users") [] query (scimUser_json (toSCIMUser user)))).
Proof.
  unfold scim_setHeaders.
  split_and!; [by repeat case_match..| |].
  - repeat case_match; unfold with_basic_auth; rewrite ?header_get_other by done; by rewrite header_get_set.
  - unfold authorization, with_basic_auth. repeat case_match; simplify_eq; first [done|apply header_get_set].
Qed.

(** The target creates users: asked for one, it answers 201 with the user. *)
Definition target_creates (config : Config) (user : ExtUser) (env : Env) : Prop :=
  forall call (s : St XS), creates_user config user call ->
    exists resp id t, http_RoundTrip call env s = (Ok resp, t) /\ rs_status resp = 201%Z /\ decode_scimUser (rs_body resp) = inl id.

Lemma http_Do_created call env (s : St XS) resp t :
  http_RoundTrip call env s = (Ok resp, t) -> rs_status resp = 201%Z -> http_Do call env s = (Ok resp, t).
Proof.
  intros E Hs. unfold http_Do. cbn [http_follow]. rewrite (bind_Ok _ _ _ _ _ _ E).
  unfold redirect_call. destruct (rs_location resp); [|done]. rewrite decide_True; [done|]. right. rewrite Hs. by apply (bool_decide_unpack _).
Qed.

Lemma scim_CreateUser_run p config user url env (s : St (Objects scimConnector XS)) :
  ob_structs (st s) !! p = Some (mkScimConnector config) -> url_Parse (cf_Endpoint config +:+ "/Users") = inl url ->
  target_creates config user env ->
  exists id call t, scim_CreateUser p user env s = (Ok id, mkSt (tick t) (mkObjects (ob_structs (st s)) (st t))) /\
    creates_user config user call /\ snd (http_RoundTrip call env (mkSt (tick s) (ob_net (st s)))) = t.
Proof.
  intros Hp Hu Ht. unfold scim_CreateUser. mgo (ob_load_run _ _ env s Hp). cbn [sc_config].
  unfold scim_send, http_NewRequest. rewrite Hu.
  pose proof (scim_headers config user (url_Query (u_RawQuery url))) as Hcall.
  set (call := scim_setHeaders config _) in Hcall.
  destruct (Ht call (mkSt (tick s) (ob_net (st s))) Hcall) as (resp & id & t & E & Hs & Hd).
  exists (su_ID id), call, t. split_and!; [|done|by rewrite E].
  unfold bind, on_net, zoom, ret. fold call. rewrite (http_Do_created _ _ _ _ _ E Hs), decide_False by tauto. rewrite Hd. done.
Qed.

Definition scim_added (config : Config) (w : World) : World :=
  mkExternals (mkObjects (ob_structs (ex_scim w) ++ [mkScimConnector config]) (ob_net (ex_scim w)))
    (ex_ldap w) (ex_azure w) (ex_google w).

Lemma registry_Create_scim config env n (g : Reg) :
  factories g ->
  let c := LiveScim (length (ob_structs (ex_scim (rg_world g)))) in
  registry_Create "scim" config env (mkSt n g) =
    (Ok c, mkSt n (mkRegistry (rg_factories g) (<[cf_ID config := c]> (rg_connectors g)) (scim_added config (rg_world g)))).
Proof. intros (Hf & _). unfold registry_Create, bind, gets. cbn [st]. by rewrite Hf. Qed.

(** What a creation through the service leaves in the registry. *)
Lemma CreateConnector_scim tenantID config env (s : St Service) id u :
  factories (cns_registry (st s)) -> cf_Type config = "scim" ->
  CreateConnector tenantID config env s = (Ok id, u) ->
  exists p config', rg_connectors (cns_registry (st u)) !! id = Some (LiveScim p) /\
    ob_structs (ex_scim (rg_world (cns_registry (st u)))) !! p = Some (mkScimConnector config') /\
    cf_Endpoint config' = cf_Endpoint config /\ cf_Credentials config' = cf_Credentials config.
Proof.
  intros Hf Hty H. unfold CreateConnector in H. repeat (case_decide; [done|]). cbv zeta in H.
  cbn [cf_Type cf_Name cf_Endpoint cf_Credentials cf_Settings cf_CreatedAt cf_UpdatedAt] in H. rewrite Hty in H.
  apply bind_Ok_inv in H as (id' & s1 & E & H). apply zoom_Ok_inv in E as (t & _ & ->).
  set (config' := mkConfig id' _ _ _ _ _ _ _ _ _) in H.
  erewrite bind_Ok in H; [|eapply ignore_run; unfold in_registry, zoom; cbn [tick st cns_registry];
                           rewrite registry_Create_scim by done; reflexivity].
  apply ret_Ok_inv in H as [<- <-]. eexists _, config'. cbn [st cns_registry rg_connectors rg_world].
  split_and!; [apply lookup_insert_eq| |done|done]. by apply list_lookup_middle.
Qed.

(** Property C40. A SCIM connector created through the service works: a queued
    task to create a user, run over the service's registry, sends the target one
    request, to the configured endpoint, with the SCIM document of that user and
    the configured credentials: the user name and password where both are
    configured, and otherwise the token. When the target creates the user the task
    is completed, no other task changes, and nothing else is sent anywhere. *)
Theorem created_connector_provisions tenantID config env (s : St Service) id u url taskID i n tasks r user :
  db_up env -> factories (cns_registry (st s)) -> cf_Type config = "scim" ->
  url_Parse (cf_Endpoint config +:+ "/Users") = inl url ->
  CreateConnector tenantID config env s = (Ok id, u) ->
  pg_uuid env taskID = Some i -> tasks_ok tasks -> r ∈ tasks -> tk_ID r = i -> (tk_MaxRetries r < 2 ^ 31)%Z ->
  tk_ConnectorID r = id -> tk_Operation r = "create_user" -> decode_user (tk_Payload r) = inl user ->
  target_creates config user env ->
  let w := rg_world (cns_registry (st u)) in
  exists call t v,
    ProcessTask taskID env (mkSt n (mkProv tasks (cns_registry (st u)))) = (Ok tt, v) /\
    creates_user config user call /\ snd (http_RoundTrip call env (mkSt (S (S n)) (ob_net (ex_scim w)))) = t /\
    pv_tasks (st v) = on_task i (completed (clock env (tick t))) tasks /\
    rg_world (pv_registry (st v)) =
      mkExternals (mkObjects (ob_structs (ex_scim w)) (st t)) (ex_ldap w) (ex_azure w) (ex_google w).
Proof.
  intros Hup Hf Hty Hurl HC Hi Hok Hr Hid Hmax Hcon Hop Hdec Htarget. cbv zeta.
  destruct (CreateConnector_scim _ _ _ _ _ _ Hf Hty HC) as (p & config' & Hreg & Hp & He & Hc).
  assert (forall call, creates_user config' user call <-> creates_user config user call) as Hsame.
  { intros call. unfold creates_user, authorization. by rewrite He, Hc. }
  destruct (scim_CreateUser_run p config' user url env
              (mkSt (S (S n)) (ex_scim (rg_world (cns_registry (st u)))))) as (x & call & t & Erun & Hcall & Ht).
  { done. } { by rewrite He. } { intros c' s' Hc'. by apply Htarget, Hsame. }
  assert (conn_CreateUser (LiveScim p) user env (mkSt (S (S n)) (rg_world (cns_registry (st u)))) =
            (Ok x, mkSt (tick t) (let w := rg_world (cns_registry (st u)) in
               mkExternals (mkObjects (ob_structs (ex_scim w)) (st t)) (ex_ldap w) (ex_azure w) (ex_google w)))) as Ecreate.
  { cbn [conn_CreateUser live_connector dispatch scim_connector]. unfold at_scim, zoom. cbn [tick st]. by rewrite Erun. }
  rewrite (ProcessTask_run taskID i env n _ r) by done. unfold run_operation. cbn [pv_registry].
  rewrite Hcon, Hreg. unfold executeOperation.
  change (pt_Operation (toTask (processing r))) with (tk_Operation r). rewrite Hop, decide_True by done.
  change (pt_Payload (toTask (processing r))) with (tk_Payload r). rewrite Hdec. unfold decoded, bind, ret.
  rewrite Ecreate. cbn [tick st outcome].
  exists call, t. eexists. split; [reflexivity|]. split_and!; [by apply Hsame|done|done|done].
Qed.
End Facts.
