(* ===== verification/GovConnectorDemo.v ===== *)
(** * Provisioning at work

    A SCIM target that creates every user it is asked for, and a task for a
    connector made by the service. *)
From S2P Require Import Prelude GoStd GoUrl Sql Http AuthDemo DirectoryDemo Connectors Provisioning ProvisioningFacts ProvisioningDemo.
From S2P Require Import ConnObjects ScimConnector LdapConnector GoogleConnector GovConnectors GovConnectorFacts.
Local Open Scope go_scope.

(** The target counts its requests. *)
Definition obliging : HttpPeer nat := fun _ => modify S;; ret (respond 201 (JObj [("id", JStr "42")])).

Definition no_ldap : Ldap unit unit := {|
  ldap_DialURL := fun _ => fail (ErrNew "unreachable"); ldap_Bind := fun _ _ _ => fail (ErrNew "unreachable");
  ldap_Close := fun _ => ret tt; ldap_Search := fun _ _ => fail (ErrNew "unreachable");
  ldap_Add := fun _ _ => fail (ErrNew "unreachable"); ldap_Modify := fun _ _ => fail (ErrNew "unreachable");
  ldap_Del := fun _ _ => fail (ErrNew "unreachable"); ldap_EscapeFilter := fun s => s |}.

Definition no_google : GoogleOAuth unit unit := {|
  google_CredentialsFromJSON := fun _ _ => inr (ErrNew "no credentials");
  google_JWTConfigFromJSON := fun _ _ _ => inr (ErrNew "no credentials");
  google_Do := fun _ _ => fail (ErrNew "unreachable") |}.

#[local] Existing Instances obliging no_ldap no_google in_seconds.

Definition demo_externals : Externals nat unit unit nat unit unit :=
  mkExternals (mkObjects [] 0) (mkObjects [] tt) (mkObjects [] 0) (mkObjects [] tt).

Definition demo_service : ConnectorState connectors LiveConnector (Externals nat unit unit nat unit unit) :=
  mkConnectorState [] (started demo_externals demo_env).

Definition demo_scim : Config :=
  mkConfig estr estr "payroll" "scim" false "https://payroll.example/scim" {[ "token" := "s3cret" ]} ∅ 0 0.

Definition demo_scim_task : taskRow :=
  mkTaskRow (demo_uuid 601) tenantA (gen_uuid demo_env 0) "create_user" "user" (Some (demo_uuid 101))
    (JObj [("username", JStr "alice"); ("email", JStr "alice@example.com"); ("active", JBool true)])
    "pending" None 0 2 0 None 0.

Definition demo_user : ExtUser := mkExtUser estr estr "alice" "alice@example.com" estr estr estr true ∅.

Lemma obliging_creates config user env : target_creates config user env.
Proof. intros call s _. eexists _, _, _. split; [reflexivity|]. by split. Qed.

Lemma created_connector_provisions_witness :
  exists id u v, CreateConnector tenantA demo_scim demo_env (mkSt 0 demo_service) = (Ok id, u) /\
    ProcessTask (demo_uuid 601) demo_env (mkSt 9 (mkProv [demo_scim_task] (cns_registry (st u)))) = (Ok tt, v) /\
    map tk_Status (pv_tasks (st v)) = ["completed"].
Proof.
  destruct (ok_run (CreateConnector tenantA demo_scim demo_env (mkSt 0 demo_service))) as (id & u & E); [by vm_compute|].
  assert (Ok id = Ok (gen_uuid demo_env 0)) as Hid by (change (Ok id) with (fst (Ok id, u)); rewrite <- E; by vm_compute).
  injection Hid as ->.
  destruct (created_connector_provisions tenantA demo_scim demo_env (mkSt 0 demo_service) (gen_uuid demo_env 0) u
              (match url_Parse "https://payroll.example/scim/Users" with inl x => x | inr _ => mkURL estr estr None estr estr estr false false estr estr estr end)
              (demo_uuid 601) (demo_uuid 601) 9 [demo_scim_task] demo_scim_task demo_user)
    as (call & t & v & Hv & _ & _ & Htasks & _).
  - exact demo_env_up.
  - apply started_factories.
  - reflexivity.
  - by vm_compute.
  - exact E.
  - apply demo_uuid_canonical.
  - split; [by apply (bool_decide_unpack _)|]. apply Forall_singleton. cbn. lia.
  - by apply list_elem_of_singleton.
  - reflexivity.
  - cbn. lia.
  - reflexivity.
  - reflexivity.
  - by vm_compute.
  - apply obliging_creates.
  - exists (gen_uuid demo_env 0), u, v. split; [exact E|]. split; [exact Hv|]. rewrite Htasks. reflexivity.
Defined.
