(* ===== verification/Branding.v ===== *)
(** * Branding

    internal/auth/branding.go (table tenant_branding of migration 14),
    service_branding.go, and the handlers of branding_api.go.

    The statement of [Upsert] names its parameters and casts one of them,
    [:config::jsonb]: what sqlx makes of that text is the class [NamedCast]. *)
From S2P Require Import Prelude GoStd Sql Http Middleware Federation.
Local Open Scope go_scope.

Record BrandingConfig : Type := mkBranding {
  br_TenantID : string;
  br_LogoURL : string;
  br_PrimaryColor : string;
  br_BackgroundColor : string;
  br_CSSOverride : string;
  br_Config : option json;
  br_CreatedAt : Z;
  br_UpdatedAt : Z
}.

Class BrandingStore (B : Type) : Type := {
  branding_Get : string -> M B BrandingConfig;
  branding_Upsert : BrandingConfig -> M B unit
}.

(** The error, if any, with which sqlx rejects a parameter followed by a cast. *)
Class NamedCast : Type := named_cast_error : option error.

(** [BrandingConfig{TenantID: tenantID}] *)
Definition no_branding (tenantID : string) : BrandingConfig := mkBranding tenantID estr estr estr estr None 0 0.

Section Store.
Context {raw : RawMessageValue} {cast : NamedCast}.

Definition sqlBrandingStore_Get (tenantID : string) : M (list BrandingConfig) BrandingConfig :=
  b <- or_nil (t <- uuid_arg tenantID;; sql_get (fun b => bool_decide (br_TenantID b = t)));;
  ret (default (no_branding tenantID) b).

(** [JSON.Value] *)
Definition config_arg {S} (v : option json) : M S unit :=
  match v, raw_message_error with Some _, Some e => fail e | _, _ => ret tt end.

Definition sqlBrandingStore_Upsert (config : BrandingConfig) : M (list BrandingConfig) unit :=
  match named_cast_error with Some e => fail e | None => ret tt end;;
  t <- uuid_arg (br_TenantID config);;
  varchar_arg 7 (br_PrimaryColor config);;
  varchar_arg 7 (br_BackgroundColor config);;
  config_arg (br_Config config);;
  sql_upsert (fun new old => bool_decide (br_TenantID old = br_TenantID new)) (fun _ _ => false)
    (fun new old => mkBranding (br_TenantID old) (br_LogoURL new) (br_PrimaryColor new) (br_BackgroundColor new)
                      (br_CSSOverride new) (br_Config new) (br_CreatedAt old) (br_UpdatedAt new))
    (fun tm _ => mkBranding t (br_LogoURL config) (br_PrimaryColor config) (br_BackgroundColor config)
                   (br_CSSOverride config) (br_Config config) tm tm)
    (fun _ => tt).

#[export] Instance sqlBrandingStore : BrandingStore (list BrandingConfig) := {|
  branding_Get := sqlBrandingStore_Get;
  branding_Upsert := sqlBrandingStore_Upsert
|}.
End Store.

(** ** service_branding.go and branding_api.go *)

Section Service.
Context {B : Type} {store : BrandingStore B} `{!Binder BrandingConfig}.

(** Whether the service was given a store. *)
Context (present : bool).

Definition GetBranding (tenantID : string) : M B BrandingConfig :=
  if present then branding_Get tenantID else ret (no_branding tenantID).

Definition UpdateBranding (config : BrandingConfig) : M B unit :=
  if present then branding_Upsert config else ret tt.

Definition BrandingConfig_json (b : BrandingConfig) : json :=
  JObj [("tenant_id", JStr (br_TenantID b)); ("logo_url", JStr (br_LogoURL b));
        ("primary_color", JStr (br_PrimaryColor b)); ("background_color", JStr (br_BackgroundColor b));
        ("css_override", JStr (br_CSSOverride b)); ("config", default JNull (br_Config b));
        ("created_at", JNum (br_CreatedAt b)); ("updated_at", JNum (br_UpdatedAt b))].

Definition getPublicBranding : Handler B :=
  fun c =>
    let tenantID := Param c "tenantID" in
    if decide (tenantID = estr) then ret (respond 400 (error_body "tenant ID required"))
    else or_500 "failed to fetch branding" (GetBranding tenantID) (fun config =>
         ret (respond 200 (BrandingConfig_json config))).

Definition getBranding : Handler B :=
  fun c => or_respond (fixed 400 "tenant ID required") (TenantIDFromContext c) (fun tenantID =>
    or_500 "failed to fetch branding" (GetBranding tenantID) (fun config =>
    ret (respond 200 (BrandingConfig_json config)))).

Definition updateBranding : Handler B :=
  fun c => or_respond (fixed 400 "tenant ID required") (TenantIDFromContext c) (fun tenantID =>
    bound c (fun req : BrandingConfig =>
    let req := mkBranding tenantID (br_LogoURL req) (br_PrimaryColor req) (br_BackgroundColor req) (br_CSSOverride req)
                 (br_Config req) (br_CreatedAt req) (br_UpdatedAt req) in
    or_500 "failed to update branding" (UpdateBranding req) (fun _ =>
    ret (respond 200 (BrandingConfig_json req))))).
End Service.

(** ** What is stored is served *)

Section Facts.
Context {raw : RawMessageValue} {cast : NamedCast}.

(** The appearance two rows give a tenant. *)
Definition same_look (a b : BrandingConfig) : Prop :=
  br_LogoURL a = br_LogoURL b /\ br_PrimaryColor a = br_PrimaryColor b /\
  br_BackgroundColor a = br_BackgroundColor b /\ br_CSSOverride a = br_CSSOverride b /\ br_Config a = br_Config b.

Lemma Upsert_Ok_inv config env s u :
  sqlBrandingStore_Upsert config env s = (Ok tt, u) ->
  exists t tm, pg_uuid env (br_TenantID config) = Some t /\
    ((exists old, old ∈ st s /\ br_TenantID old = t /\
       st u = map (fun b => if bool_decide (br_TenantID b = t)
                            then mkBranding (br_TenantID b) (br_LogoURL config) (br_PrimaryColor config)
                                   (br_BackgroundColor config) (br_CSSOverride config) (br_Config config)
                                   (br_CreatedAt b) tm
                            else b) (st s)) \/
     ((forall x, x ∈ st s -> br_TenantID x <> t) /\ exists row, st u = st s ++ [row] /\ br_TenantID row = t /\ same_look row config)).
Proof.
  unfold sqlBrandingStore_Upsert. intros H. apply bind_Ok_inv in H as (x & s0 & E0 & H).
  assert (s0 = s) as -> by (destruct named_cast_error; [done|by apply ret_Ok_inv in E0 as [_ <-]]).
  apply bind_Ok_inv in H as (t & ? & [Ht ->]%uuid_arg_Ok_inv & H).
  do 2 (apply bind_Ok_inv in H as (? & ? & [_ ->]%varchar_arg_Ok_inv & H)).
  apply bind_Ok_inv in H as (y & s1 & E1 & H).
  assert (s1 = s) as -> by (unfold config_arg in E1; by repeat case_match; try apply ret_Ok_inv in E1 as [_ <-]).
  apply sql_upsert_Ok_inv in H as (_ & [(old & Hin & Hc & _ & Hu)|(Hno & _ & Hu)]); exists t, (clock env (tick s)); (split; [done|]).
  - left. exists old. apply bool_decide_eq_true in Hc. split_and!; [done|done|exact Hu].
  - right. split; [|eexists; split; [exact Hu|by split]]. intros x' Hx. specialize (Hno x' Hx).
    by apply bool_decide_eq_false in Hno.
Qed.

(** An update is what the tenant is shown from then on, also by the public
    endpoint, and no other tenant's branding changes. *)
Theorem branding_roundtrip config env s u n :
  db_up env -> UpdateBranding true config env s = (Ok tt, u) ->
  (exists b v, GetBranding true (br_TenantID config) env (mkSt n (st u)) = (Ok b, v) /\ same_look b config /\
     pg_uuid env (br_TenantID config) = Some (br_TenantID b)) /\
  (forall t, pg_uuid env (br_TenantID config) <> Some t ->
     filter (fun b => br_TenantID b = t) (st u) = filter (fun b => br_TenantID b = t) (st s)).
Proof.
  intros Hup H. cbn in H. apply Upsert_Ok_inv in H as (t & tm & Ht & Hu). split.
  - assert (exists b l, reorder (row_order env n) (filter (fun b => bool_decide (br_TenantID b = t)) (st u)) = b :: l) as (b & l & Hb).
    { destruct (reorder _ _) as [|b l] eqn:Ef; [|eauto]. exfalso. apply reorder_nil in Ef.
      assert (exists x, x ∈ st u /\ br_TenantID x = t) as (x & Hx & Hxt).
      { destruct Hu as [(old & Hin & Ho & ->)|(_ & row & -> & Hr & _)].
        - eexists. split; [apply list_elem_of_fmap; by exists old|]. by case_bool_decide.
        - exists row. split; [apply elem_of_app; right; by apply list_elem_of_singleton|done]. }
      assert (x ∈ filter (fun b => bool_decide (br_TenantID b = t)) (st u)) as Hf.
      { apply filter_bool_elem. split; [done|by apply bool_decide_eq_true]. }
      rewrite Ef in Hf. by apply elem_of_nil in Hf. }
    assert (b ∈ st u /\ br_TenantID b = t) as [Hin Hbt].
    { assert (b ∈ reorder (row_order env n) (filter (fun b => bool_decide (br_TenantID b = t)) (st u))) as Hf by (rewrite Hb; left).
      apply reorder_elem, filter_bool_elem in Hf as [? ?%bool_decide_eq_true]. done. }
    exists b. eexists. split; [|split; [|by rewrite Hbt]].
    + cbn. unfold sqlBrandingStore_Get. rewrite (bind_Ok _ _ _ _ (Some b) (mkSt (S n) (st u))); [reflexivity|]. apply or_nil_run.
      rewrite uuid_bind, Ht. unfold sql_get. rewrite statement_up by done. cbn [tick st]. by rewrite Hb.
    + destruct Hu as [(old & _ & _ & Hu)|(Hno & row & Hu & _ & Hlook)]; rewrite Hu in Hin.
      * apply list_elem_of_fmap in Hin as (x & -> & _). by case_bool_decide.
      * apply elem_of_app in Hin as [Hin|Hin]; [by destruct (Hno b Hin)|].
        by apply list_elem_of_singleton in Hin as ->.
  - intros t' Hne. destruct Hu as [(old & _ & _ & ->)|(_ & row & -> & Hr & _)].
    + apply filter_map_other; intros x; case_bool_decide; naive_solver.
    + apply filter_snoc_other. naive_solver.
Qed.

(** Where sqlx rejects the cast, no tenant can ever change its branding. *)
Theorem branding_cast_rejected config env s e :
  named_cast_error = Some e -> UpdateBranding true config env s = (Err e, s).
Proof. intros He. cbn. unfold sqlBrandingStore_Upsert, bind. by rewrite He. Qed.
End Facts.
