(* ===== verification/Saml.v ===== *)
(** * SAML service providers

    internal/saml/store.go (table saml_providers of migration 11) and the
    management handlers of api.go, as cmd/authsvc/main.go mounts them.

    PEM and X.509 parsing are the Go library's on bytes this development does
    not follow: the class [X509].  The identity provider itself, idp.go, is in
    AuthSvc.v. *)
From S2P Require Import Prelude GoStd GoUrl Sql Http Middleware.
Local Open Scope go_scope.

Record ServiceProvider : Type := mkServiceProvider {
  sp_EntityID : string;
  sp_TenantID : string;
  sp_MetadataURL : string;
  sp_ACSURL : string;
  sp_Certificate : string;
  sp_CreatedAt : Z;
  sp_UpdatedAt : Z
}.

(** [pem.Decode] and [x509.ParseCertificate] *)
Class X509 (C : Type) : Type := {
  pem_Decode : string -> option string;
  x509_ParseCertificate : string -> C + error
}.

(** saml2.ServiceProvider, the fields that are set *)
Record SamlProvider (C : Type) : Type := mkSamlProvider {
  s2_EntityID : string;
  s2_MetadataURL : URL;
  s2_AcsURL : URL;
  s2_Certificate : option C
}.
Arguments mkSamlProvider {C} _ _ _ _.
Arguments s2_EntityID {C} _.
Arguments s2_MetadataURL {C} _.
Arguments s2_AcsURL {C} _.
Arguments s2_Certificate {C} _.

Definition zero_URL : URL := mkURL estr estr None estr estr estr false false estr estr estr.

Section Store.
Context {C : Type} {x509 : X509 C}.

Definition parseCert (pemStr : string) : option C + error :=
  if decide (pemStr = estr) then inl None
  else match pem_Decode pemStr with
       | None => inr (ErrNew "failed to decode PEM block")
       | Some bytes => match x509_ParseCertificate bytes with inl c => inl (Some c) | inr e => inr e end
       end.

Definition parseURL (u : string) : URL := match url_Parse u with inl url => url | inr _ => zero_URL end.

Definition GetServiceProvider (entityID : string) : M (list ServiceProvider) (SamlProvider C) :=
  sp <- sql_get (fun sp => bool_decide (sp_EntityID sp = entityID));;
  cert <- map_err (ErrWrap "failed to parse certificate") (decoded (parseCert (sp_Certificate sp)));;
  ret (mkSamlProvider (sp_EntityID sp) (parseURL (sp_MetadataURL sp)) (parseURL (sp_ACSURL sp)) cert).
End Store.

(** ** api.go *)

(** The struct has no JSON tags. *)
Definition ServiceProvider_json (sp : ServiceProvider) : json :=
  JObj [("EntityID", JStr (sp_EntityID sp)); ("TenantID", JStr (sp_TenantID sp)); ("MetadataURL", JStr (sp_MetadataURL sp));
        ("ACSURL", JStr (sp_ACSURL sp)); ("Certificate", JStr (sp_Certificate sp)); ("CreatedAt", JNum (sp_CreatedAt sp));
        ("UpdatedAt", JNum (sp_UpdatedAt sp)); ("EncryptionKey", JNull)].

Definition own_sp (entityID tenantID : string) (sp : ServiceProvider) : bool :=
  bool_decide (sp_EntityID sp = entityID /\ sp_TenantID sp = tenantID).

Section Handlers.
Context `{!Binder ServiceProvider}.

Abbreviation SPHandler := (Handler (list ServiceProvider)).

Definition saml_tenantID (c : GinCtx) (k : string -> M (list ServiceProvider) Response) : M (list ServiceProvider) Response :=
  with_tenant "tenant id required" c k.

Definition saml_listProviders : SPHandler :=
  fun c => saml_tenantID c (fun tenantID =>
    or_respond (verbatim 500) (sql_select (fun sp => bool_decide (sp_TenantID sp = tenantID))) (fun providers =>
    ret (respond 200 (JObj [("providers", slice_json ServiceProvider_json providers)])))).

Definition saml_createProvider : SPHandler :=
  fun c => saml_tenantID c (fun tenantID => bound c (fun input : ServiceProvider =>
    created <- now;;
    updated <- now;;
    let input := mkServiceProvider (sp_EntityID input) tenantID (sp_MetadataURL input) (sp_ACSURL input)
                   (sp_Certificate input) created updated in
    or_respond (verbatim 500)
      (sql_insert (fun new old => bool_decide (sp_EntityID old = sp_EntityID new)) (fun _ _ => (input, tt))) (fun _ =>
    ret (respond 201 (ServiceProvider_json input))))).

(** Any failure reads as a provider that does not exist. *)
Definition saml_getProvider : SPHandler :=
  fun c => saml_tenantID c (fun tenantID =>
    or_respond (fixed 404 "provider not found") (sql_get (own_sp (Param c "entityID") tenantID)) (fun sp =>
    ret (respond 200 (ServiceProvider_json sp)))).

Definition saml_deleteProvider : SPHandler :=
  fun c => saml_tenantID c (fun tenantID =>
    or_respond (verbatim 500) (exec (sql_delete (own_sp (Param c "entityID") tenantID))) (fun _ =>
    ret (respond_status 204))).

(** The routes, in a group of the auth service that has no middleware of its
    own: what the handlers get is the bare request. *)
Definition saml_routes : list (string * string * SPHandler) :=
  [("GET", "/saml/providers", saml_listProviders); ("POST", "/saml/providers", saml_createProvider);
   ("GET", "/saml/providers/:entityID", saml_getProvider); ("DELETE", "/saml/providers/:entityID", saml_deleteProvider)].

Definition authsvc_saml (h : SPHandler) (r : Request) : M (list ServiceProvider) Response := serve h (mkGinCtx r None).

(** ** What the handlers keep *)

Lemma saml_tenantID_inv c k env s resp u :
  saml_tenantID c k env s = (Ok resp, u) ->
  (exists t, gc_tenant c = Some t /\ k t env s = (Ok resp, u)) \/ (rs_status resp = 400%Z /\ u = s).
Proof.
  unfold saml_tenantID, with_tenant, TenantIDFromContext.
  intros [(t & s1 & E & H)|(e & E & ->)]%or_respond_Ok_inv; destruct (gc_tenant c) as [t0|]; try done; try case_decide; try done;
    [left|right..]; simplify_eq/=; [eexists; split; [done|]; by apply ret_Ok_inv in E as [<- <-]|by injection E as _ <-..].
Qed.

(** A tenant reaches only its own providers: whatever the request, the rows of
    other tenants stay. *)
Theorem saml_isolated h c env s resp u t :
  h ∈ map snd saml_routes -> h c env s = (Ok resp, u) -> gc_tenant c <> Some t ->
  filter (fun sp => sp_TenantID sp = t) (st u) = filter (fun sp => sp_TenantID sp = t) (st s).
Proof.
  intros Hh H Hne. cbn in Hh. repeat (apply elem_of_cons in Hh as [->|Hh]); [..|by apply elem_of_nil in Hh];
    apply saml_tenantID_inv in H as [(t' & Ht & H)|[_ ->]]; try done; assert (t' <> t) as Htt by congruence.
  - apply or_respond_Ok_inv in H as [(l & s1 & E & [_ <-]%ret_Ok_inv)|(e & E & _)].
    + by apply sql_select_Ok_inv in E as [_ ->].
    + by apply statement_Err in E as ->.
  - unfold bound in H. case_match; [|by apply ret_Ok_inv in H as [_ <-]].
    apply bind_Ok_inv in H as (t1 & s1 & [_ ->]%observe_Ok_inv & H).
    apply bind_Ok_inv in H as (t2 & s2 & [_ ->]%observe_Ok_inv & H). cbv zeta in H.
    apply or_respond_Ok_inv in H as [(x & s3 & E & [_ <-]%ret_Ok_inv)|(e & E & _)].
    + apply sql_insert_Ok_inv in E as (row & [= <-] & _ & ->). by apply filter_snoc_other.
    + by apply statement_Err in E as ->.
  - apply or_respond_Ok_inv in H as [(l & s1 & E & [_ <-]%ret_Ok_inv)|(e & E & _)].
    + by apply sql_get_Ok_inv in E as [_ ->].
    + by apply statement_Err in E as ->.
  - apply or_respond_Ok_inv in H as [(l & s1 & E & [_ <-]%ret_Ok_inv)|(e & E & _)].
    + apply bind_Ok_inv in E as (k & s2 & [_ ->]%sql_delete_Ok_inv & [_ <-]%ret_Ok_inv). apply filter_filter_other.
      intros sp _ Hsp. unfold own_sp. apply Is_true_true. rewrite bool_decide_eq_false_2; [done|]. naive_solver.
    + apply bind_inv in E as [(k & s2 & _ & E)|(r' & E & Hr & _)]; [done|].
      unfold sql_delete, statement in E. destruct (db_fault _ _); injection E as <- <-; done.
Qed.

(** As the auth service mounts them, no handler ever gets past its first line:
    every request is answered 400 and the table never changes. *)
Theorem saml_management_unreachable h r env s :
  h ∈ map snd saml_routes ->
  authsvc_saml h r env s = (Ok (respond 400 (error_body "tenant id required")), s).
Proof.
  intros Hh. cbn in Hh. by repeat (apply elem_of_cons in Hh as [->|Hh]); [..|by apply elem_of_nil in Hh].
Qed.
End Handlers.
