(* ===== verification/License.v ===== *)
(** * Licenses

    internal/license/license.go and the claims that cmd/tools/licensegen signs.
    Keys, signatures and the checks a JWT goes through are
    github.com/golang-jwt/jwt's and the Go library's: the class [LicenseJwt]. *)
From S2P Require Import Prelude GoStd.
Local Open Scope go_scope.

(** jwt.RegisteredClaims, the fields used here, with the two fields of its own *)
Record LicenseClaims : Type := mkLicenseClaims {
  lk_Subject : string;
  lk_Issuer : string;
  lk_ExpiresAt : option Z;
  lk_IssuedAt : option Z;
  lk_Features : list string;
  lk_Plan : string
}.

Record License : Type := mkLicense {
  li_CustomerName : string;
  li_ExpiresAt : Z;
  li_Features : list string;
  li_Plan : string
}.

(** What a token says about its signature: the algorithm, and whether it is one
    of the RSA family. *)
Record TokenMethod : Type := mkTokenMethod { tm_alg : string; tm_rsa : bool }.

(** [ParseWithClaims] at a time, with the function that chooses the key, gives
    the claims and whether the token is valid; [jwt.NewNumericDate] drops the
    fraction of a second. *)
Class LicenseJwt (Pub Priv : Type) : Type := {
  pem_public_key : string -> option (option Pub + error);
  jwt_ParseWithClaims : Z -> string -> (TokenMethod -> Pub + error) -> (LicenseClaims * bool) + error;
  jwt_SignRS256 : Priv -> LicenseClaims -> string + error;
  NumericDate : Z -> Z
}.

Section License.
Context {Pub Priv : Type} {jwt : LicenseJwt Pub Priv}.

Record Manager : Type := mkManager { mg_publicKey : Pub }.

(** [pem_public_key] is [None] for text that is not PEM, and [inl None] for a
    key that is not RSA. *)
Definition NewManager (publicKeyPEM : string) : Manager + error :=
  match pem_public_key publicKeyPEM with
  | None => inr (ErrNew "failed to parse public key PEM")
  | Some (inr err) => inr (ErrWrap "failed to parse public key" err)
  | Some (inl None) => inr (ErrNew "public key is not RSA")
  | Some (inl (Some key)) => inl (mkManager key)
  end.

(** The key for a token, refused to one that is not signed with RSA. *)
Definition license_key (m : Manager) (t : TokenMethod) : Pub + error :=
  if tm_rsa t then inl (mg_publicKey m) else inr (ErrNew ("unexpected signing method: " +:+ tm_alg t)).

Definition Verify {S} (m : Manager) (tokenString : string) : M S License :=
  t <- now;;
  match jwt_ParseWithClaims t tokenString (license_key m) with
  | inr err => fail (ErrWrap "invalid license" err)
  | inl (claims, valid) =>
      if valid then
        expired <- (match lk_ExpiresAt claims with
                    | None => ret false
                    | Some e => t' <- now;; ret (bool_decide (e < t')%Z)
                    end);;
        if expired : bool then fail (ErrNew "license expired")
        else match lk_ExpiresAt claims with
             | None => panic "runtime error: invalid memory address or nil pointer dereference"
             | Some e => ret (mkLicense (lk_Subject claims) e (lk_Features claims) (lk_Plan claims))
             end
      else fail (ErrNew "invalid license claims")
  end.

(** ** licensegen *)

Definition day : Z := 24 * 3600 * second.

(** [time.Duration( *days) * 24 * time.Hour], in 64 bits *)
Definition validity (days : Z) : Z := int64 (int64 (days * 24) * (3600 * second)).

Definition license_claims {S} (customer : string) (days : Z) (plan features : string) : M S LicenseClaims :=
  t <- now;;
  t' <- now;;
  ret (mkLicenseClaims customer "WardSeal" (Some (NumericDate (t + validity days))) (Some (NumericDate t'))
         (strings_Split features (Ascii.ascii_of_N 44)) plan).

Definition generate_license {S} (key : Priv) (customer : string) (days : Z) (plan features : string) : M S string :=
  claims <- license_claims customer days plan features;;
  match jwt_SignRS256 key claims with inl token => ret token | inr e => fail e end.

(** ** What a license guarantees *)

(** Claims whose dates are [NumericDate]s, and those whose text is UTF-8. *)
Definition whole_seconds (claims : LicenseClaims) : Prop :=
  forall e, lk_ExpiresAt claims = Some e \/ lk_IssuedAt claims = Some e -> exists t, e = NumericDate t.

Definition valid_texts (claims : LicenseClaims) : bool :=
  forallb utf8_ValidString (lk_Subject claims :: lk_Issuer claims :: lk_Plan claims :: lk_Features claims).

(** Documented behaviour for a key pair: a token signed with RS256 for claims
    with dates in whole seconds parses, for the key function that gives the
    public key to RSA, as long as it has not expired, with the same expiry and,
    where they are UTF-8, the same texts; it is refused from then on; a token is
    not the empty string. *)
Class LicenseLaws (pub : Pub) (priv : Priv) : Prop := {
  license_parse : forall t claims token keyfunc,
    jwt_SignRS256 priv claims = inl token -> keyfunc (mkTokenMethod "RS256" true) = inl pub -> whole_seconds claims ->
    (forall e, lk_ExpiresAt claims = Some e -> (t < e)%Z) ->
    exists claims', jwt_ParseWithClaims t token keyfunc = inl (claims', true) /\ lk_ExpiresAt claims' = lk_ExpiresAt claims /\
      (valid_texts claims = true -> claims' = claims);
  license_expired : forall t claims token keyfunc e,
    jwt_SignRS256 priv claims = inl token -> keyfunc (mkTokenMethod "RS256" true) = inl pub -> whole_seconds claims ->
    lk_ExpiresAt claims = Some e -> (e <= t)%Z -> exists err, jwt_ParseWithClaims t token keyfunc = inr err;
  license_nonempty : forall claims token, jwt_SignRS256 priv claims = inl token -> token <> estr;
  NumericDate_bounds : forall t, (t - second < NumericDate t <= t)%Z
}.

Lemma validity_days days : (0 <= days <= 106751)%Z -> validity days = (days * day)%Z.
Proof. intros H. unfold validity, day, second. rewrite (int64_small (days * 24)) by lia. rewrite int64_small by lia. lia. Qed.

(** From 106752 days on the duration is past the range of its type. *)
Lemma validity_overflow days : (106752 <= days <= 213503)%Z -> (validity days < 0)%Z.
Proof.
  intros H. unfold validity, second. rewrite (int64_small (days * 24)) by lia.
  unfold int64. rewrite <-(Z_mod_plus_full _ (-1)), Z.mod_small; lia.
Qed.

Lemma license_claims_inv {S} customer days plan features env (s : St S) claims u :
  license_claims customer days plan features env s = (Ok claims, u) ->
  claims = mkLicenseClaims customer "WardSeal" (Some (NumericDate (clock env (tick s) + validity days)))
             (Some (NumericDate (clock env (Datatypes.S (tick s))))) (strings_Split features (Ascii.ascii_of_N 44)) plan /\
  st u = st s.
Proof.
  unfold license_claims. intros E. apply bind_Ok_inv in E as (t & s2 & [-> ->]%observe_Ok_inv & E).
  by apply bind_Ok_inv in E as (t' & s3 & [-> ->]%observe_Ok_inv & [<- <-]%ret_Ok_inv).
Qed.

Lemma generate_license_signed {S} priv customer days plan features env (s : St S) token u :
  generate_license priv customer days plan features env s = (Ok token, u) ->
  exists claims, jwt_SignRS256 priv claims = inl token /\ whole_seconds claims /\
    lk_ExpiresAt claims = Some (NumericDate (clock env (tick s) + validity days)) /\
    lk_Subject claims = customer /\ lk_Issuer claims = "WardSeal" /\
    lk_Features claims = strings_Split features (Ascii.ascii_of_N 44) /\ lk_Plan claims = plan.
Proof.
  intros H. apply bind_Ok_inv in H as (claims & s1 & [-> _]%license_claims_inv & H).
  destruct (jwt_SignRS256 _ _) as [tok|] eqn:Esign; [|done]. apply ret_Ok_inv in H as [-> _].
  eexists. split_and!; [exact Esign| |done..]. intros e [[= <-]|[= <-]]; eauto.
Qed.

(** A signed license is accepted before its expiry. *)
Lemma Verify_signed pub priv (laws : LicenseLaws pub priv) {S} claims token e env (s : St S) :
  jwt_SignRS256 priv claims = inl token -> whole_seconds claims -> lk_ExpiresAt claims = Some e ->
  (clock env (tick s) < e)%Z -> (clock env (Datatypes.S (tick s)) <= e)%Z ->
  exists lic, Verify (mkManager pub) token env s = (Ok lic, mkSt (Datatypes.S (Datatypes.S (tick s))) (st s)) /\
    li_ExpiresAt lic = e /\
    (valid_texts claims = true -> lic = mkLicense (lk_Subject claims) e (lk_Features claims) (lk_Plan claims)).
Proof.
  intros Esign Hw He H1 H2. unfold Verify, bind. rewrite now_run.
  destruct (license_parse (clock env (tick s)) _ _ (license_key (mkManager pub)) Esign eq_refl Hw) as (claims' & Hp & He' & Ht);
    [rewrite He; congruence|].
  rewrite Hp, He', He, now_run. cbn [tick st]. rewrite bool_decide_eq_false_2 by lia.
  eexists. split_and!; [reflexivity|done|]. by intros ->%Ht.
Qed.

Lemma Verify_expired pub priv (laws : LicenseLaws pub priv) {S} claims token e env (s : St S) :
  jwt_SignRS256 priv claims = inl token -> whole_seconds claims -> lk_ExpiresAt claims = Some e -> (e <= clock env (tick s))%Z ->
  exists err, Verify (mkManager pub) token env s = (Err err, mkSt (Datatypes.S (tick s)) (st s)).
Proof.
  intros Esign Hw He H1. unfold Verify, bind. rewrite now_run.
  destruct (license_expired _ _ _ (license_key (mkManager pub)) e Esign eq_refl Hw He H1) as [err ->]. by eexists.
Qed.

(** A generated license is accepted until the last second of its last day, with
    the customer, plan and features it was made for where these are UTF-8. *)
Theorem license_roundtrip pub priv {S T} (laws : LicenseLaws pub priv) customer days plan features env (s : St S) token u env' (v : St T) :
  (0 <= days <= 106751)%Z -> generate_license priv customer days plan features env s = (Ok token, u) ->
  (clock env' (tick v) <= clock env' (Datatypes.S (tick v)))%Z ->
  (clock env' (Datatypes.S (tick v)) + second <= clock env (tick s) + days * day)%Z ->
  exists lic w, Verify (mkManager pub) token env' v = (Ok lic, w) /\
    (clock env (tick s) + days * day - second < li_ExpiresAt lic <= clock env (tick s) + days * day)%Z /\
    (forallb utf8_ValidString (customer :: plan :: strings_Split features (Ascii.ascii_of_N 44)) = true ->
     lic = mkLicense customer (li_ExpiresAt lic) (strings_Split features (Ascii.ascii_of_N 44)) plan).
Proof.
  intros Hd (claims & Esign & Hw & He & Hc & Hi & Hf & Hp)%generate_license_signed Hmono Hlife.
  rewrite validity_days in He by done.
  pose proof (NumericDate_bounds (clock env (tick s) + days * day)) as Hn.
  destruct (Verify_signed pub priv laws _ _ _ env' v Esign Hw He) as (lic & Ev & Hexp & Ht); [lia..|].
  exists lic. eexists. split; [exact Ev|]. rewrite Hexp. split; [exact Hn|]. intros Hv. rewrite Ht; [congruence|].
  unfold valid_texts. rewrite Hc, Hi, Hf, Hp. cbn in Hv |- *. exact Hv.
Qed.

(** Property C38. The number of days licensegen is given is honoured from 1 to
    106751 and nowhere else up to 213503: a license made for so many days is
    accepted on its first day, one made for none has expired, and from 106752
    days on the duration overflows 64 bits and the license has expired before
    it was made. *)
Theorem license_days pub priv {S T} (laws : LicenseLaws pub priv) customer days plan features env (s : St S) token u env' (v : St T) :
  (0 <= days <= 213503)%Z -> generate_license priv customer days plan features env s = (Ok token, u) ->
  (clock env (tick s) <= clock env' (tick v) <= clock env' (Datatypes.S (tick v)))%Z ->
  (clock env' (Datatypes.S (tick v)) + second <= clock env (tick s) + day)%Z ->
  (exists lic w, Verify (mkManager pub) token env' v = (Ok lic, w)) <-> (1 <= days <= 106751)%Z.
Proof.
  intros Hd H Hmono Hday. split.
  - intros (lic & w & Hv). destruct (decide (1 <= days <= 106751)%Z) as [|Hbad]; [done|exfalso].
    apply generate_license_signed in H as (claims & Esign & Hw & He & _).
    pose proof (NumericDate_bounds (clock env (tick s) + validity days)) as Hn.
    assert (validity days <= 0)%Z as H0.
    { destruct (decide (days = 0)%Z) as [->|]; [done|]. pose proof (validity_overflow days ltac:(lia)). lia. }
    destruct (Verify_expired pub priv laws _ _ _ env' v Esign Hw He ltac:(lia)) as [err Hx].
    rewrite Hx in Hv. discriminate.
  - intros Hg. assert (day <= days * day)%Z by (unfold day, second; lia).
    destruct (license_roundtrip pub priv laws customer days plan features env s token u env' v) as (e & w & Hv & _);
      [lia|exact H|lia|lia|eauto].
Qed.

(** A valid license without an expiry date is not refused: reading it panics. *)
Theorem license_without_expiry {S} m token claims env (s : St S) :
  jwt_ParseWithClaims (clock env (tick s)) token (license_key m) = inl (claims, true) -> lk_ExpiresAt claims = None ->
  exists p u, Verify m token env s = (Panic p, u).
Proof. intros E He. unfold Verify, bind. rewrite now_run, E, He. cbn. eauto. Qed.
End License.
