(* ===== verification/CommandLine.v ===== *)
(** * Command lines

    What the commands under cmd/ use of the flag, fmt and log packages, and the
    tools that are only that: cmd/tools/hashgen, cmd/tools/licensegen and
    cmd/migrate_patch.

    A process writes to its standard output and error and ends with a status. *)
From S2P Require Import Prelude Bcrypt GoStd GoUrl Http Middleware Gin Server License.
Local Open Scope go_scope.

(** ** [strconv.ParseInt(s, 0, 64)]

    The base is read from the prefix, and underscores may separate digits. *)

(** The value of a digit, of any base. *)
Definition digit_value (a : Ascii.ascii) : option Z :=
  let c := byte_N a in
  let l := byte_N (lower_byte a) in
  if ((48 <=? c) && (c <=? 57))%N then Some (Z.of_N (c - 48))
  else if ((97 <=? l) && (l <=? 122))%N then Some (Z.of_N (l - 97 + 10)) else None.

(** The digits of a number, and whether there were underscores among them. *)
Fixpoint parse_base (base n : Z) (underscores : bool) (s : string) : digits_result * bool :=
  match s with
  | EmptyString => (DigitsOk n, underscores)
  | String a r =>
      if decide (a = byte 95) then parse_base base n true r
      else match digit_value a with
           | None => (DigitsSyntax, underscores)
           | Some d =>
               if decide (d >= base)%Z then (DigitsSyntax, underscores)
               else let n' := (base * n + d)%Z in
                    if decide (n' >= 2 ^ 64)%Z then (DigitsRange, underscores) else parse_base base n' underscores r
           end
  end.

(** What the byte before was: a digit or a prefix, an underscore, or neither. *)
Inductive underscore_state : Type := AfterDigit | AfterUnderscore | AfterOther.

Fixpoint underscores_separate (hex : bool) (i : underscore_state) (s : string) : bool :=
  match s with
  | EmptyString => match i with AfterUnderscore => false | _ => true end
  | String a r =>
      let c := byte_N a in
      let l := byte_N (lower_byte a) in
      if ((48 <=? c) && (c <=? 57) || hex && ((97 <=? l) && (l <=? 102)))%N then underscores_separate hex AfterDigit r
      else if decide (a = byte 95) then
        match i with AfterDigit => underscores_separate hex AfterUnderscore r | _ => false end
      else match i with AfterUnderscore => false | _ => underscores_separate hex AfterOther r end
  end.

(** The base, and what follows its prefix; an octal number may have just a 0. *)
Definition base_prefix (s : string) : Z * string :=
  match s with
  | String z (String b r) =>
      if decide (z = byte 48) then
        let rest := String b r in
        if decide (r = estr) then (8, rest)%Z
        else if decide (lower_byte b = byte 98) then (2, r)%Z
        else if decide (lower_byte b = byte 111) then (8, r)%Z
        else if decide (lower_byte b = byte 120) then (16, r)%Z
        else (8, rest)%Z
      else (10, s)%Z
  | String z EmptyString => if decide (z = byte 48) then (8, estr)%Z else (10, s)%Z
  | EmptyString => (10, s)%Z
  end.

Definition underscoreOK (s : string) : bool :=
  match s with
  | String z (String b r) =>
      let l := lower_byte b in
      if decide (z = byte 48 /\ (l = byte 98 \/ l = byte 111 \/ l = byte 120))
      then underscores_separate (bool_decide (l = byte 120)) AfterDigit r
      else underscores_separate false AfterOther s
  | _ => underscores_separate false AfterOther s
  end.

(** The value, or what [flag] says of the error. *)
Definition strconv_ParseInt (s : string) : Z + string :=
  let '(neg, s) :=
    match s with
    | EmptyString => (false, s)
    | String a r => if decide (a = byte 43) then (false, r) else if decide (a = byte 45) then (true, r) else (false, s)
    end in
  if decide (s = estr) then inr "parse error"
  else
    let '(base, digits) := base_prefix s in
    let '(r, underscores) := parse_base base 0 false digits in
    match r with
    | DigitsSyntax => inr "parse error"
    | DigitsRange => inr "value out of range"
    | DigitsOk n =>
        if (underscores : bool) && negb (underscoreOK s) then inr "parse error"
        else if (neg : bool) then (if decide (n > 2 ^ 63)%Z then inr "value out of range" else inl (- n)%Z)
        else if decide (n >= 2 ^ 63)%Z then inr "value out of range" else inl n
    end.

Example ParseInt_values :
  map strconv_ParseInt ["365"; "-0x10"; "0b101"; "017"; "0o17"; "1_000"; "1__0"; "_1"; "0x_f"; "08"; "0"; "-"; "9223372036854775808"] =
  [inl 365; inl (-16); inl 5; inl 15; inl 15; inl 1000; inr "parse error"; inr "parse error"; inl 15; inr "parse error"; inl 0;
   inr "parse error"; inr "value out of range"]%Z.
Proof. reflexivity. Qed.

(** [strconv.ParseBool] *)
Definition strconv_ParseBool (s : string) : option bool :=
  if decide (s ∈ ["1"; "t"; "T"; "true"; "TRUE"; "True"]) then Some true
  else if decide (s ∈ ["0"; "f"; "F"; "false"; "FALSE"; "False"]) then Some false
  else None.

(** ** The flag package *)

Inductive FlagKind : Type := StringFlag | IntFlag | BoolFlag.

Definition string_flags (names : list string) : list (string * FlagKind) := map (fun n => (n, StringFlag)) names.

Inductive FlagResult : Type :=
| FlagsParsed (values : list (string * string))
| FlagHelp
| FlagError (msg : string).

Definition flag_lookup (name : string) (formal : list (string * FlagKind)) : option FlagKind :=
  snd <$> head (filter (fun f => fst f = name) formal).

(** [name] or [name=value] *)
Definition split_flag (s : string) : string * option string :=
  match s with
  | EmptyString => (estr, None)
  | String a r => let '(name, rest, found) := strings_Cut r (byte 61) in
                  (String a name, if (found : bool) then Some rest else None)
  end.

(** The complaint about a value, if any. *)
Definition flag_refuses (kind : FlagKind) (name value : string) : option string :=
  match kind with
  | StringFlag => None
  | IntFlag => match strconv_ParseInt value with
               | inl _ => None
               | inr e => Some ("invalid value " +:+ strconv_Quote value +:+ " for flag -" +:+ name +:+ ": " +:+ e)
               end
  | BoolFlag => match strconv_ParseBool value with
                | Some _ => None
                | None => Some ("invalid boolean value " +:+ strconv_Quote value +:+ " for -" +:+ name +:+ ": parse error")
                end
  end.

(** [fs.Parse(args)]: the flags that are set, in order; a flag for a bool takes
    no argument of its own; what follows the first argument that is not a flag is
    left alone. *)
Fixpoint flag_Parse (formal : list (string * FlagKind)) (args : list string) (set : list (string * string)) : FlagResult :=
  match args with
  | [] => FlagsParsed set
  | s :: args =>
      match s with
      | String b (String c t) =>
          if decide (b <> byte 45 \/ s = "--") then FlagsParsed set
          else
            let name := if decide (c = byte 45) then t else String c t in
            if decide (name = estr \/ strings_HasPrefix name "-" = true \/ strings_HasPrefix name "=" = true)
            then FlagError ("bad flag syntax: " +:+ s)
            else
              let '(name, value) := split_flag name in
              let use (kind : FlagKind) (v : string) (k : list (string * string) -> FlagResult) :=
                match flag_refuses kind name v with Some msg => FlagError msg | None => k (set ++ [(name, v)]) end in
              match flag_lookup name formal with
              | Some kind =>
                  match value, kind, args with
                  | Some v, _, _ => use kind v (flag_Parse formal args)
                  | None, BoolFlag, _ => use kind "true" (flag_Parse formal args)
                  | None, _, v :: args => use kind v (flag_Parse formal args)
                  | None, _, [] => FlagError ("flag needs an argument: -" +:+ name)
                  end
              | None =>
                  if decide (name = "help" \/ name = "h") then FlagHelp
                  else FlagError ("flag provided but not defined: -" +:+ name)
              end
      | _ => FlagsParsed set
      end
  end.

(** The value of a flag: the last one set, or the default. *)
Definition flag_value (set : list (string * string)) (name deflt : string) : string :=
  default deflt (assoc_get name (reverse set)).

Definition flag_int (set : list (string * string)) (name : string) (deflt : Z) : Z :=
  match assoc_get name (reverse set) with
  | Some v => match strconv_ParseInt v with inl n => n | inr _ => deflt end
  | None => deflt
  end.

Definition flag_bool (set : list (string * string)) (name : string) : bool :=
  match assoc_get name (reverse set) with Some v => default false (strconv_ParseBool v) | None => false end.

(** ** The process *)

Definition new_line : string := String (byte 10) estr.

(** The process: what it has written, and what it talks to. *)
Record Cli (X : Type) : Type := mkCli { cli_stdout : string; cli_stderr : string; cli_peer : X }.
Arguments mkCli {X}.
Arguments cli_stdout {X} _.
Arguments cli_stderr {X} _.
Arguments cli_peer {X} _.

Section Process.
Context {X : Type}.

Abbreviation CM := (M (Cli X)).

Definition fmt_Print (s : string) : CM unit := modify (fun p => mkCli (cli_stdout p +:+ s) (cli_stderr p) (cli_peer p)).
Definition fmt_Println (s : string) : CM unit := fmt_Print (s +:+ new_line).
Definition print_error (s : string) : CM unit := modify (fun p => mkCli (cli_stdout p) (cli_stderr p +:+ s) (cli_peer p)).

(** [flag.ExitOnError]: help ends the process with 0 and an error with 2, the
    message on the error output (the list of flags is left out). A command ends
    with [None] where it returns nil and with the status where it exits. *)
Definition with_flags (formal : list (string * FlagKind)) (args : list string) (k : list (string * string) -> CM (option Z)) : CM (option Z) :=
  match flag_Parse formal args [] with
  | FlagsParsed set => k set
  | FlagHelp => ret (Some 0%Z)
  | FlagError msg => print_error (msg +:+ new_line);; ret (Some 2%Z)
  end.
End Process.

(** ** cmd/tools/hashgen *)

Definition hashgen_main {X} {bcrypt : Bcrypt} (args : list string) : M (Cli X) Z :=
  match args with
  | [] => fmt_Println "Usage: hashgen <password>";; ret 1%Z
  | password :: _ =>
      r <- attempt (GenerateFromPassword password);;
      match r with
      | inr err => print_error ("Error: " +:+ error_string err +:+ new_line);; ret 1%Z
      | inl hash => fmt_Println hash;; ret 0%Z
      end
  end.

(** ** cmd/migrate_patch

    [os.ReadDir] and the database are parameters; the time stamps of the log
    package are left out. *)

Definition strings_HasSuffix (s suffix : string) : bool :=
  bool_decide (String.length suffix <= String.length s /\
    String.substring (String.length s - String.length suffix) (String.length suffix) s = suffix).

(** The names in the order of [sort.Strings] *)
Definition up_migrations (files : list string) : list string :=
  merge_sort String.le (filter (fun name => strings_HasSuffix name ".up.sql" = true) files).

Section Migrate.
Context {host : Host} (os_ReadDir : string -> list string + error).
Context {X : Type} (connect : string -> option error) (db_Exec : string -> M X unit).

Definition migrate_connStr : string :=
  let dbHost := if decide (os_Getenv "DB_HOST" = estr) then "localhost" else os_Getenv "DB_HOST" in
  "postgres://" +:+ envOr "DB_USER" "user" +:+ ":" +:+ envOr "DB_PASSWORD" "password" +:+ "@" +:+ dbHost +:+ ":5432/"
  +:+ envOr "DB_NAME" "identity_platform" +:+ "?sslmode=" +:+ envOr "DB_SSLMODE" "disable".

Definition apply_migration (filename : string) : M (Cli X) unit :=
  fmt_Println ("Applying migration: " +:+ filename);;
  content <- map_err (ErrWrap ("Failed to read migration file " +:+ filename)) (decoded (os_ReadFile ("migrations/" +:+ filename)));;
  r <- attempt (zoom cli_peer (fun x p => mkCli (cli_stdout p) (cli_stderr p) x) (db_Exec content));;
  match r with
  | inr err => print_error ("Warning applying " +:+ filename +:+ ": " +:+ error_string err +:+ new_line)
  | inl _ => fmt_Println ("Successfully applied " +:+ filename)
  end.

Fixpoint apply_migrations (names : list string) : M (Cli X) unit :=
  match names with [] => ret tt | f :: r => apply_migration f;; apply_migrations r end.

(** [log.Fatal] ends the process with 1. *)
Definition migrate_main : M (Cli X) Z :=
  r <- attempt (fmt_Println ("Connecting to " +:+ migrate_connStr +:+ "...");;
                check_error (connect migrate_connStr);;
                files <- map_err (ErrWrap "Failed to read migrations directory") (decoded (os_ReadDir "migrations"));;
                apply_migrations (up_migrations files);;
                fmt_Println "All migrations processed!");;
  match r with
  | inr err => print_error (error_string err +:+ new_line);; ret 1%Z
  | inl _ => ret 0%Z
  end.
End Migrate.

(** ** cmd/tools/licensegen

    Files are a map from names to contents; a write may be refused. *)

(** crypto/rsa, crypto/x509 and encoding/pem as the tool uses them: a fresh key
    pair; the two PEM files of a pair; and a private key read back, as PKCS #1 or
    else as PKCS #8, where the text may be no PEM at all and a PKCS #8 key need
    not be RSA. *)
Class LicenseKeys (Priv : Type) : Type := {
  rsa_NewKey : nat -> Priv + error;
  pem_PrivateKey : Priv -> string;
  pem_PublicKey : Priv -> string + error;
  ParsePKCS1PrivateKey : string -> option (Priv + error);
  ParsePKCS8PrivateKey : string -> option Priv + error
}.

Abbreviation Files := (gmap string string).

Section LicenseGen.
Context {Pub Priv : Type} {jwt : LicenseJwt Pub Priv} {keys : LicenseKeys Priv}.
Context (write_error : nat -> string -> option error) (format_RFC822 : Z -> string).

Abbreviation LM := (M (Cli Files)).

Definition on_files {A} (m : M Files A) : LM A := zoom cli_peer (fun x p => mkCli (cli_stdout p) (cli_stderr p) x) m.

Definition file_Read (name : string) : LM string :=
  found <- on_files (gets (fun fs => fs !! name));;
  match found with
  | Some content => ret content
  | None => fail (ErrLib ("open " +:+ name +:+ ": no such file or directory"))
  end.

Definition file_Write (name content : string) : LM unit :=
  refused <- observe (fun _ n => write_error n name);;
  check_error refused;;
  on_files (modify (fun fs => <[name := content]> fs)).

Definition generateKeys : LM unit :=
  key <- observe (fun _ n => rsa_NewKey n);;
  privKey <- map_err (ErrWrap "Failed to generate key") (decoded key);;
  map_err (ErrWrap "Failed to write private.pem") (file_Write "private.pem" (pem_PrivateKey privKey));;
  pubPEM <- map_err (ErrWrap "Failed to marshal public key") (decoded (pem_PublicKey privKey));;
  map_err (ErrWrap "Failed to write public.pem") (file_Write "public.pem" pubPEM);;
  fmt_Println "Keys generated: private.pem, public.pem".

(** The private key in a PEM file; a key that is not RSA fails the assertion of
    its type. *)
Definition load_private_key (keyBytes : string) : LM Priv :=
  match ParsePKCS1PrivateKey keyBytes with
  | None => fail (ErrNew "Failed to decode private key PEM")
  | Some (inl privKey) => ret privKey
  | Some (inr err) =>
      match ParsePKCS8PrivateKey keyBytes with
      | inr err2 => fail (ErrNew ("Failed to parse private key: " +:+ error_string err +:+ " (PKCS1) / " +:+ error_string err2 +:+ " (PKCS8)"))
      | inl None => panic "interface conversion: interface {} is not *rsa.PrivateKey"
      | inl (Some privKey) => ret privKey
      end
  end.

Definition licensegen_flags : list (string * FlagKind) :=
  [("customer", StringFlag); ("days", IntFlag); ("plan", StringFlag); ("features", StringFlag); ("key", StringFlag);
   ("gen-key", BoolFlag)].

(** [main] after the flags; [log.Fatal] is an error here, and [main] ends with
    [Some] status where it exits. *)
Definition licensegen_run (set : list (string * string)) : LM (option Z) :=
  let customer := flag_value set "customer" estr in
  if flag_bool set "gen-key" then generateKeys;; ret None
  else if decide (customer = estr) then ret (Some 1%Z)
  else
    keyBytes <- map_err (ErrWrap "Failed to read private key") (file_Read (flag_value set "key" "private.pem"));;
    privKey <- load_private_key keyBytes;;
    claims <- license_claims customer (flag_int set "days" 365) (flag_value set "plan" "enterprise")
                (flag_value set "features" "sso,mfa,audit");;
    tokenString <- map_err (ErrWrap "Failed to sign token") (decoded (jwt_SignRS256 privKey claims));;
    fmt_Print (new_line +:+ "License Key for " +:+ customer +:+ ":" +:+ new_line +:+ new_line +:+ tokenString
               +:+ new_line +:+ new_line);;
    fmt_Print ("Expires: " +:+ format_RFC822 (default 0%Z (lk_ExpiresAt claims)) +:+ new_line);;
    ret None.

(** The status of the process; the text of the flags' usage is left out. *)
Definition licensegen_main (args : list string) : LM Z :=
  r <- attempt (with_flags licensegen_flags args licensegen_run);;
  match r with
  | inl (Some status) => ret status
  | inl None => ret 0%Z
  | inr err => print_error (error_string err +:+ new_line);; ret 1%Z
  end.
End LicenseGen.

(** ** What the tools do *)

(** What hashgen prints is a hash of the password it was given. *)
Theorem hashgen_prints {X} {bcrypt : Bcrypt} {laws : BcryptLaws} password rest env (s u : St (Cli X)) :
  hashgen_main (password :: rest) env s = (Ok 0%Z, u) ->
  exists hash, cli_stdout (st u) = cli_stdout (st s) +:+ (hash +:+ new_line) /\ CompareHashAndPassword hash password = true.
Proof.
  unfold hashgen_main, fmt_Println, fmt_Print. intros H. apply bind_Ok_inv in H as (r & t & E & H).
  destruct r as [hash|err]; [|by apply bind_Ok_inv in H as (? & ? & _ & [[=] _]%ret_Ok_inv)].
  apply bind_Ok_inv in H as ([] & v & ->%modify_Ok_inv & [_ <-]%ret_Ok_inv).
  apply attempt_Ok_inv in E as [(h & [= <-] & E)|(? & [=] & _)].
  apply GenerateFromPassword_Ok_inv in E as [E ->]. exists hash. split; [done|by eapply bcrypt_roundtrip].
Qed.

Section LicenseTool.
Context {Pub Priv : Type} {jwt : LicenseJwt Pub Priv} {keys : LicenseKeys Priv}.
Context (write_error : nat -> string -> option error) (format_RFC822 : Z -> string).

(** Documented behaviour of the key formats: the two files of a pair read back
    as the pair they were made from. *)
Class LicenseKeyLaws (public : Priv -> Pub) : Prop := {
  PKCS1_roundtrip : forall k, ParsePKCS1PrivateKey (pem_PrivateKey k) = Some (inl k);
  PKIX_roundtrip : forall k p, pem_PublicKey k = inl p -> pem_public_key p = Some (inl (Some (public k)));
  pair_laws : forall k, LicenseLaws (public k) k
}.

Lemma file_Write_inv name content env s u :
  file_Write write_error name content env s = (Ok tt, u) -> cli_peer (st u) = <[name := content]> (cli_peer (st s)).
Proof.
  unfold file_Write, on_files. intros H. apply bind_Ok_inv in H as (r & t & [-> ->]%observe_Ok_inv & H).
  apply bind_Ok_inv in H as ([] & v & E & H). unfold check_error in E. destruct (write_error _ _); [done|].
  apply ret_Ok_inv in E as [_ <-]. by apply zoom_Ok_inv in H as (w & ->%modify_Ok_inv & ->).
Qed.

(** [-gen-key] leaves the two files of one pair. *)
Lemma generateKeys_inv env s u :
  generateKeys write_error env s = (Ok tt, u) ->
  exists k p, pem_PublicKey k = inl p /\ cli_peer (st u) !! "private.pem" = Some (pem_PrivateKey k) /\
    cli_peer (st u) !! "public.pem" = Some p.
Proof.
  unfold generateKeys, fmt_Println, fmt_Print. intros H. apply bind_Ok_inv in H as (r & t1 & [-> ->]%observe_Ok_inv & H).
  apply bind_Ok_inv in H as (k & t2 & [_ ->]%map_err_Ok_inv%decoded_Ok_inv & H).
  apply bind_Ok_inv in H as ([] & t3 & E1%map_err_Ok_inv%file_Write_inv & H).
  apply bind_Ok_inv in H as (p & t4 & [Ep ->]%map_err_Ok_inv%decoded_Ok_inv & H).
  apply bind_Ok_inv in H as ([] & t5 & E2%map_err_Ok_inv%file_Write_inv & ->%modify_Ok_inv).
  exists k, p. cbn [st cli_peer]. rewrite E2, E1. split; [done|]. by simplify_map_eq.
Qed.

Lemma licensegen_exit args env s u :
  licensegen_main write_error format_RFC822 args env s = (Ok 0%Z, u) ->
  flag_Parse licensegen_flags args [] = FlagHelp \/
  exists set, flag_Parse licensegen_flags args [] = FlagsParsed set /\
    licensegen_run write_error format_RFC822 set env s = (Ok None, u).
Proof.
  unfold licensegen_main, with_flags. intros H. apply bind_Ok_inv in H as (r & t & E & H).
  destruct r as [[status|]|err]; [|apply ret_Ok_inv in H as [_ <-]|by apply bind_Ok_inv in H as (? & ? & _ & [[=] _]%ret_Ok_inv)].
  - apply ret_Ok_inv in H as [-> <-]. apply attempt_Ok_inv in E as [(? & [= <-] & E)|(? & [=] & _)].
    destruct (flag_Parse _ _ _) as [set| |msg]; [|by left|].
    + exfalso. revert E. unfold licensegen_run. destruct (flag_bool _ _).
      { intros E. by apply bind_Ok_inv in E as (? & ? & _ & [[=] _]%ret_Ok_inv). }
      case_decide; [intros E; by apply ret_Ok_inv in E as [[=] _]|]. intros E.
      repeat (apply bind_Ok_inv in E as (? & ? & _ & E)). by apply ret_Ok_inv in E as [[=] _].
    + by apply bind_Ok_inv in E as (? & ? & _ & [[=] _]%ret_Ok_inv).
  - apply attempt_Ok_inv in E as [(? & [= <-] & E)|(? & [=] & _)].
    destruct (flag_Parse _ _ _) as [set| |msg]; [right; eauto|by apply ret_Ok_inv in E as [[=] _]|].
    by apply bind_Ok_inv in E as (? & ? & _ & [[=] _]%ret_Ok_inv).
Qed.

(** A run that makes a license prints the token of the claims of its flags,
    signed with the key in the file, and touches no file. *)
Lemma licensegen_license set k env s u :
  licensegen_run write_error format_RFC822 set env s = (Ok None, u) -> flag_bool set "gen-key" = false ->
  cli_peer (st s) !! flag_value set "key" "private.pem" = Some (pem_PrivateKey k) ->
  ParsePKCS1PrivateKey (pem_PrivateKey k) = Some (inl k) ->
  exists v v' token expires,
    generate_license k (flag_value set "customer" estr) (flag_int set "days" 365) (flag_value set "plan" "enterprise")
      (flag_value set "features" "sso,mfa,audit") env v = (Ok token, v') /\ st v = st s /\
    cli_stdout (st u) = cli_stdout (st s) +:+ (new_line +:+ "License Key for " +:+ flag_value set "customer" estr +:+ ":"
      +:+ new_line +:+ new_line +:+ token +:+ new_line +:+ new_line) +:+ ("Expires: " +:+ expires +:+ new_line) /\
    cli_peer (st u) = cli_peer (st s).
Proof.
  unfold licensegen_run. intros H Hg Hf Hk. rewrite Hg in H. case_decide; [by apply ret_Ok_inv in H as [[=] _]|].
  apply bind_Ok_inv in H as (bytes & t1 & E1%map_err_Ok_inv & H).
  apply bind_Ok_inv in H as (k' & t2 & E2 & H). apply bind_Ok_inv in H as (claims & t3 & E3 & H).
  apply bind_Ok_inv in H as (token & t4 & [Es ->]%map_err_Ok_inv%decoded_Ok_inv & H).
  unfold file_Read, on_files in E1. apply bind_Ok_inv in E1 as (found & t5 & Eg & E1).
  apply zoom_Ok_inv in Eg as (w & Eg & ->). apply gets_Ok_inv in Eg as [-> <-]. cbn [st] in E1. rewrite Hf in E1.
  apply ret_Ok_inv in E1 as [<- <-]. unfold load_private_key in E2. rewrite Hk in E2. apply ret_Ok_inv in E2 as [<- <-].
  pose proof (license_claims_inv _ _ _ _ _ _ _ _ E3) as [_ Ht3].
  unfold fmt_Print in H. apply bind_Ok_inv in H as ([] & t6 & ->%modify_Ok_inv & H).
  apply bind_Ok_inv in H as ([] & t7 & ->%modify_Ok_inv & [_ <-]%ret_Ok_inv).
  eexists _, t3, token, _. split; [|cbn [st cli_stdout cli_peer] in *].
  - unfold generate_license, bind. rewrite E3, Es. reflexivity.
  - rewrite Ht3. destruct (st s). cbn. by rewrite app_str_assoc.
Qed.
End LicenseTool.

Section Migrating.
Context {host : Host} (os_ReadDir : string -> list string + error).
Context {X : Type} (connect : string -> option error) (db_Exec : string -> M X unit).

(** Statements run one after the other, whether they fail or not. *)
Inductive executed (env : Env) : list string -> X -> X -> Prop :=
| executed_nil x : executed env [] x x
| executed_cons content l x y z n r t :
    db_Exec content env (mkSt n x) = (r, t) -> st t = y -> executed env l y z -> executed env (content :: l) x z.

Lemma apply_migrations_executed names env s u :
  apply_migrations db_Exec names env s = (Ok tt, u) ->
  exists contents, Forall2 (fun f c => os_ReadFile ("migrations/" +:+ f) = inl c) names contents /\
    executed env contents (cli_peer (st s)) (cli_peer (st u)).
Proof.
  revert s. induction names as [|f names IH]; intros s H.
  { injection H as <-. exists []. split; constructor. }
  cbn [apply_migrations] in H. apply bind_Ok_inv in H as ([] & t & E & H).
  apply IH in H as (contents & Hc & Hx). unfold apply_migration, fmt_Println, fmt_Print, print_error in E.
  apply bind_Ok_inv in E as ([] & t1 & ->%modify_Ok_inv & E).
  apply bind_Ok_inv in E as (content & t2 & E2 & E). apply map_err_Ok_inv, decoded_Ok_inv in E2 as [Ef ->].
  apply bind_Ok_inv in E as (r & t3 & E3 & E). exists (content :: contents). split; [by constructor|].
  assert (exists n res y, db_Exec content env (mkSt n (cli_peer (st s))) = (res, y) /\ st y = cli_peer (st t)) as (n & res & y & Ey & Hy).
  { apply attempt_Ok_inv in E3 as [([] & -> & E3)|(e & -> & E3)]; apply modify_Ok_inv in E as ->; cbn [st cli_peer];
      unfold zoom in E3; cbn [tick st cli_peer] in E3;
      destruct (db_Exec content env _) as [res y] eqn:Ey; injection E3 as -> <-; by eexists _, _, y. }
  eapply executed_cons; [exact Ey|exact Hy|exact Hx].
Qed.

(** A run that ends with 0 has executed each of the .up.sql files once, in the
    order of their names. *)
Theorem migrations_applied env s u :
  migrate_main os_ReadDir connect db_Exec env s = (Ok 0%Z, u) ->
  exists files contents, os_ReadDir "migrations" = inl files /\
    up_migrations files ≡ₚ filter (fun name => strings_HasSuffix name ".up.sql" = true) files /\
    Sorted String.le (up_migrations files) /\
    Forall2 (fun f c => os_ReadFile ("migrations/" +:+ f) = inl c) (up_migrations files) contents /\
    executed env contents (cli_peer (st s)) (cli_peer (st u)).
Proof.
  unfold migrate_main, fmt_Println, fmt_Print, print_error. intros H. apply bind_Ok_inv in H as (r & t & E & H).
  destruct r as [[]|err]; [|by apply bind_Ok_inv in H as (? & ? & _ & [[=] _]%ret_Ok_inv)].
  apply ret_Ok_inv in H as [_ <-]. apply attempt_Ok_inv in E as [([] & _ & E)|(? & [=] & _)].
  apply bind_Ok_inv in E as ([] & t1 & ->%modify_Ok_inv & E). apply bind_Ok_inv in E as ([] & t2 & E2 & E).
  unfold check_error in E2. destruct (connect _); [done|]. apply ret_Ok_inv in E2 as [_ <-].
  apply bind_Ok_inv in E as (files & t3 & E3 & E). apply map_err_Ok_inv, decoded_Ok_inv in E3 as [Ef ->].
  apply bind_Ok_inv in E as ([] & t4 & E4 & ->%modify_Ok_inv).
  apply apply_migrations_executed in E4 as (contents & Hc & Hx). exists files, contents.
  split_and!; [done|apply merge_sort_Permutation|apply Sorted_merge_sort; apply _|done|exact Hx].
Qed.
End Migrating.
