(* ===== verification/AuthSvc.v ===== *)
(** * The auth process

    cmd/authsvc: the state of the whole process, the routes of its handlers
    ([RegisterRoutes] of api.go, totp_api.go, mfa_api.go, branding_api.go,
    developer_api.go and internal/saml/api.go) on gin's router, the constructor
    of the service, and [main] from the environment to the running server.

    Also here: webauthn_store.go, whose table no migration creates, and
    internal/saml/idp.go around crewjam/saml. *)
From S2P Require Import Prelude Bcrypt GoStd GoUrl Sha256 Sql Http Middleware Gin Server.
From S2P Require Import OAuthClient AuthClient TokenStores Risk AuthService Login AuthApi.
From S2P Require Import Sso Federation DeveloperApps Branding Saml License.
Local Open Scope go_scope.

(** ** webauthn_store.go *)

Record WebAuthnCredentialEntity : Type := mkWebAuthnCredentialEntity {
  we_ID : string;
  we_TenantID : string;
  we_UserID : string;
  we_CredentialID : string;
  we_PublicKey : string;
  we_AttestationType : string;
  we_AAGUID : string;
  we_SignCount : Z;
  we_CloneWarning : bool;
  we_UpdatedAt : Z
}.

(** The table webauthn_credentials where there is one; the columns that no
    statement names keep their defaults. *)
Abbreviation Credentials := (option (list WebAuthnCredentialEntity)).

Definition err_no_table : error := ErrDB "pq: relation webauthn_credentials does not exist".

Definition on_credentials {A} (m : M (list WebAuthnCredentialEntity) A) : M Credentials A :=
  table <- gets id;;
  match table with
  | None => fail err_no_table
  | Some _ => zoom (default []) (fun l _ => Some l) m
  end.

Definition repository_SaveCredential (tenantID userID : string) (cred : Credential) : M Credentials unit :=
  id <- uuid_New;;
  t <- now;;
  on_credentials (sql_insert (fun new old => bool_decide (we_ID old = we_ID new))
    (fun _ _ => (mkWebAuthnCredentialEntity id tenantID userID (cr_ID cred) (cr_PublicKey cred)
                   (cr_AttestationType cred) (cr_AAGUID cred) (cr_SignCount cred) (cr_CloneWarning cred) t, tt))).

Definition entity_credential (e : WebAuthnCredentialEntity) : Credential :=
  mkCredential (we_CredentialID e) (we_PublicKey e) (we_AttestationType e) (we_AAGUID e) (we_SignCount e)
    (we_CloneWarning e).

Definition repository_ListCredentials (userID : string) : M Credentials (list Credential) :=
  entities <- on_credentials (sql_select (fun e => bool_decide (we_UserID e = userID)));;
  ret (map entity_credential entities).

Definition repository_UpdateCredential (cred : Credential) : M Credentials unit :=
  t <- now;;
  on_credentials (exec (sql_update (fun e => bool_decide (we_CredentialID e = cr_ID cred))
    (fun _ e => mkWebAuthnCredentialEntity (we_ID e) (we_TenantID e) (we_UserID e) (we_CredentialID e)
                  (we_PublicKey e) (we_AttestationType e) (we_AAGUID e) (cr_SignCount cred) (cr_CloneWarning cred) t))).

#[export] Instance webauthn_repository : WebAuthnRepository Credentials := {|
  wa_SaveCredential := repository_SaveCredential;
  wa_ListCredentials := repository_ListCredentials;
  wa_UpdateCredential := repository_UpdateCredential
|}.

(** ** idp.go

    samlidp.Server of crewjam/saml: its constructor, its own router, and its
    flow started by the provider, over a state of its own. *)
Class SamlIdp (Y : Type) : Type := {
  samlidp_New : URL -> option error;
  samlidp_ServeHTTP : Handler Y;
  samlidp_HandleIDPInitiated : Handler Y
}.

Section Idp.
Context {Y : Type} {idp : SamlIdp Y}.

(** [NewProvider(cfg)]: the error, if any. *)
Definition NewProvider (baseURL : string) : option error :=
  match url_Parse baseURL with
  | inr err => Some (ErrWrap "invalid base URL" err)
  | inl u => match samlidp_New u with
             | Some err => Some (ErrWrap "failed to create IDP server" err)
             | None => None
             end
  end.

Definition Provider_ServeHTTP : Handler Y := samlidp_ServeHTTP.

(** [http.Error] answers with text. *)
Definition ServeIDPInitiated : Handler Y :=
  fun c =>
    let spEntityID := Query c "sp" in
    if decide (spEntityID = estr) then ret (respond 400 (JStr ("sp query parameter required" +:+ String (byte 10) estr)))
    else samlidp_HandleIDPInitiated c.

Definition Provider_RegisterRoutes (rg : RouterGroup Y) : list (Route Y) :=
  [GET rg "/saml/metadata" samlidp_ServeHTTP; POST rg "/saml/sso" samlidp_ServeHTTP;
   GET rg "/saml/sso" samlidp_ServeHTTP; GET rg "/saml/idp-init" ServeIDPInitiated].
End Idp.

(** ** The state of the process *)

Record AuthApp (A X L T W SD Y P Q F B : Type) : Type := mkApp {
  ap_auth : A;
  ap_dir : X;
  ap_attempts : L;
  ap_totp : T;
  ap_creds : W;
  ap_sessions : gmap string SD;
  ap_saml : Y;
  ap_idp : P;
  ap_providers : Q;
  ap_links : F;
  ap_branding : B;
  ap_sps : list ServiceProvider;
  ap_dev : DevDb
}.
Arguments mkApp {A X L T W SD Y P Q F B}.
Arguments ap_auth {A X L T W SD Y P Q F B} _.
Arguments ap_dir {A X L T W SD Y P Q F B} _.
Arguments ap_attempts {A X L T W SD Y P Q F B} _.
Arguments ap_totp {A X L T W SD Y P Q F B} _.
Arguments ap_creds {A X L T W SD Y P Q F B} _.
Arguments ap_sessions {A X L T W SD Y P Q F B} _.
Arguments ap_saml {A X L T W SD Y P Q F B} _.
Arguments ap_idp {A X L T W SD Y P Q F B} _.
Arguments ap_providers {A X L T W SD Y P Q F B} _.
Arguments ap_links {A X L T W SD Y P Q F B} _.
Arguments ap_branding {A X L T W SD Y P Q F B} _.
Arguments ap_sps {A X L T W SD Y P Q F B} _.
Arguments ap_dev {A X L T W SD Y P Q F B} _.

(** What [NewService] decides besides [AuthConfig] and [LoginConfig]: which
    stores the service has, and the public key of its key pair (modulus and
    exponent, as a JWK spells them). *)
Record ServiceParts : Type := mkServiceParts {
  sv_deviceStore : bool;
  sv_signalStore : bool;
  sv_brandingStore : bool;
  sv_federationStore : bool;
  sv_ssoProviderStore : bool;
  sv_samlProvider : bool;
  sv_publicKey : string * string
}.

(** The service, as [NewService] returns it. *)
Record AuthService : Type := mkAuthService {
  as_cfg : AuthConfig;
  as_lc : LoginConfig;
  as_parts : ServiceParts
}.

Section Process.
Context {crypto : Crypto} {totp : Totp}.
Context {C R V O D G X L T W SD Y P Q F B : Type}.
Context `{!AuthorizationCodeStore C, !RefreshTokenStore R, !RevocationStore V, !OAuthStore O,
          !DeviceStore D, !SignalStore G}.
Context {peer : HttpPeer X} `{!LoginAttemptStore L, !TOTPStore T, !WebAuthnRepository W} {webauthn : WebAuthn SD}
  {samlidp : SamlIdp Y} {idp : OAuth2 P} {providers : SSOProviderStore Q} {links : FederationStore F}
  {branding : BrandingStore B} {apps : DeveloperAppStore}.
Context `{!Binder LoginRequest, !Validator LoginRequest, !Binder MFALoginRequest, !Binder SignupRequest,
          !Binder LookupRequest, !Binder AuthorizeRequest, !Validator AuthorizeRequest, !Binder TokenRequest,
          !Validator TokenRequest, !Binder IntrospectRequest, !Validator IntrospectRequest, !Binder RevokeRequest,
          !Validator RevokeRequest, !Binder TOTPEnrollRequest, !Binder TOTPVerifyRequest,
          !Binder RegisterDeviceRequest, !Binder UpdatePostureRequest, !Binder IngestSignalRequest,
          !Binder BeginLoginRequest, !Binder SocialLoginRequest, !Validator SocialLoginRequest,
          !Binder BrandingConfig, !Binder ServiceProvider, !Binder CreateAppRequest, !Binder CreateAPIKeyRequest}.
Context (svc : AuthService).

Abbreviation cfg := (as_cfg svc).
Abbreviation lc := (as_lc svc).
Abbreviation parts := (as_parts svc).
Abbreviation Auth := (AuthState C R V O D G).
Abbreviation App := (AuthApp Auth X L T W SD Y P Q F B).

(** Each group of handlers on its part of the state. *)
Definition at_login (h : Handler (LoginState Auth X L T)) : Handler App :=
  fun c => zoom (fun a => mkLogin (ap_auth a) (ap_dir a) (ap_attempts a) (ap_totp a))
    (fun l a => mkApp (ls_auth l) (ls_dir l) (ls_attempts l) (ls_totp l) (ap_creds a) (ap_sessions a) (ap_saml a)
                  (ap_idp a) (ap_providers a) (ap_links a) (ap_branding a) (ap_sps a) (ap_dev a)) (h c).

Definition at_lookup (h : Handler (X * W)) : Handler App :=
  fun c => zoom (fun a => (ap_dir a, ap_creds a))
    (fun l a => mkApp (ap_auth a) (fst l) (ap_attempts a) (ap_totp a) (snd l) (ap_sessions a) (ap_saml a)
                  (ap_idp a) (ap_providers a) (ap_links a) (ap_branding a) (ap_sps a) (ap_dev a)) (h c).

Definition at_auth (h : Handler Auth) : Handler App :=
  fun c => zoom ap_auth
    (fun x a => mkApp x (ap_dir a) (ap_attempts a) (ap_totp a) (ap_creds a) (ap_sessions a) (ap_saml a)
                  (ap_idp a) (ap_providers a) (ap_links a) (ap_branding a) (ap_sps a) (ap_dev a)) (h c).

Definition at_devices (h : Handler D) : Handler App :=
  at_auth (fun c => on_risk (zoom fst (fun d s => (d, snd s)) (h c))).

Definition at_signals (h : Handler G) : Handler App :=
  at_auth (fun c => on_risk (zoom snd (fun g s => (fst s, g)) (h c))).

Definition at_passkeys (h : Handler (PasskeyState Auth W SD)) : Handler App :=
  fun c => zoom (fun a => mkPasskey (ap_auth a) (ap_creds a) (ap_sessions a))
    (fun p a => mkApp (pk_auth p) (ap_dir a) (ap_attempts a) (ap_totp a) (pk_creds p) (pk_sessions p) (ap_saml a)
                  (ap_idp a) (ap_providers a) (ap_links a) (ap_branding a) (ap_sps a) (ap_dev a)) (h c).

Definition at_totp (h : Handler T) : Handler App :=
  fun c => zoom ap_totp
    (fun x a => mkApp (ap_auth a) (ap_dir a) (ap_attempts a) x (ap_creds a) (ap_sessions a) (ap_saml a)
                  (ap_idp a) (ap_providers a) (ap_links a) (ap_branding a) (ap_sps a) (ap_dev a)) (h c).

Definition at_saml (h : Handler Y) : Handler App :=
  fun c => zoom ap_saml
    (fun x a => mkApp (ap_auth a) (ap_dir a) (ap_attempts a) (ap_totp a) (ap_creds a) (ap_sessions a) x
                  (ap_idp a) (ap_providers a) (ap_links a) (ap_branding a) (ap_sps a) (ap_dev a)) (h c).

Definition at_social (h : Handler (SocialState Auth X P Q F)) : Handler App :=
  fun c => zoom (fun a => mkSocial (ap_auth a) (ap_dir a) (ap_idp a) (ap_providers a) (ap_links a))
    (fun s a => mkApp (so_auth s) (so_dir s) (ap_attempts a) (ap_totp a) (ap_creds a) (ap_sessions a) (ap_saml a)
                  (so_idp s) (so_providers s) (so_links s) (ap_branding a) (ap_sps a) (ap_dev a)) (h c).

Definition at_branding (h : Handler B) : Handler App :=
  fun c => zoom ap_branding
    (fun x a => mkApp (ap_auth a) (ap_dir a) (ap_attempts a) (ap_totp a) (ap_creds a) (ap_sessions a) (ap_saml a)
                  (ap_idp a) (ap_providers a) (ap_links a) x (ap_sps a) (ap_dev a)) (h c).

Definition at_sps (h : Handler (list ServiceProvider)) : Handler App :=
  fun c => zoom ap_sps
    (fun x a => mkApp (ap_auth a) (ap_dir a) (ap_attempts a) (ap_totp a) (ap_creds a) (ap_sessions a) (ap_saml a)
                  (ap_idp a) (ap_providers a) (ap_links a) (ap_branding a) x (ap_dev a)) (h c).

Definition at_dev (h : Handler DevDb) : Handler App :=
  fun c => zoom ap_dev
    (fun x a => mkApp (ap_auth a) (ap_dir a) (ap_attempts a) (ap_totp a) (ap_creds a) (ap_sessions a) (ap_saml a)
                  (ap_idp a) (ap_providers a) (ap_links a) (ap_branding a) (ap_sps a) x) (h c).

(** [s.JWKS()] and [h.jwks(c)]: the document go-jose writes for the public key *)
Definition JWKS : json :=
  JObj [("keys", JArr [JObj [("use", JStr "sig"); ("kty", JStr "RSA"); ("kid", JStr (a_keyID cfg)); ("alg", JStr "RS256");
                             ("n", JStr (fst (sv_publicKey parts))); ("e", JStr (snd (sv_publicKey parts)))]])].

Definition jwks : Handler App := fun _ => ret (respond 200 JWKS).

(** [getTokenFromCookieOrHeader(c)] *)
Definition getTokenFromCookieOrHeader (c : GinCtx) : string :=
  let cookie := default estr (assoc_get AccessTokenCookie (rq_cookies (gc_request c))) in
  if decide (cookie <> estr) then cookie
  else let authHeader := GetHeader c "Authorization" in
       if decide (7 < String.length authHeader /\ String.substring 0 7 authHeader = "Bearer ")
       then drop_bytes 7 authHeader else estr.

(** ** Routes *)

Abbreviation RG := (RouterGroup App).
Abbreviation tenant_extractor := (TenantExtractor (S := App) noTenantConfig).

Definition registerWebAuthnRoutes (rg : RG) : list (Route App) :=
  [POST rg "/mfa/webauthn/register/begin" (at_passkeys beginWebAuthnRegistration);
   POST rg "/mfa/webauthn/register/finish" (at_passkeys finishWebAuthnRegistration);
   POST rg "/mfa/webauthn/login/begin" (at_passkeys beginWebAuthnLogin);
   POST rg "/mfa/webauthn/login/finish" (at_passkeys (finishWebAuthnLogin cfg))].

Definition RegisterTOTPRoutes (rg : RG) : list (Route App) :=
  let totp := Group rg "/mfa/totp" in
  [POST totp "/enroll" (at_totp (enrollTOTP (lc_totpStore lc)));
   POST totp "/verify" (at_totp (verifyTOTP (lc_totpStore lc)));
   DELETE totp estr (at_totp (deleteTOTP (lc_totpStore lc)));
   GET totp "/status" (at_totp (getTOTPStatus (lc_totpStore lc)))].

(** [h.RegisterRoutes(router)] of api.go *)
Definition auth_RegisterRoutes : list (Route App) :=
  let tenantProtected := Use (Group root "/") tenant_extractor in
  let deviceGroup := Group tenantProtected "/api/v1/devices" in
  let signalGroup := Group tenantProtected "/api/v1/signals" in
  [POST root "/api/v1/signup" (at_login (signup cfg lc));
   POST root "/login/lookup" (at_lookup (lookupUser lc));
   POST tenantProtected "/login" (at_login (login cfg lc));
   POST tenantProtected "/login/mfa" (at_login (completeMFALogin lc));
   POST tenantProtected "/logout" (at_login logout);
   GET tenantProtected "/oauth2/authorize" (at_auth (authorize cfg));
   POST tenantProtected "/oauth2/token" (at_auth (token cfg));
   POST tenantProtected "/oauth2/introspect" (at_auth (introspect cfg));
   POST tenantProtected "/oauth2/revoke" (at_auth revoke);
   GET root "/.well-known/jwks.json" jwks;
   POST deviceGroup "/register" (at_devices (registerDevice (sv_deviceStore parts)));
   POST deviceGroup "/:id/posture" (at_devices (updatePosture (sv_deviceStore parts)));
   GET deviceGroup estr (at_devices (listDevices (sv_deviceStore parts)));
   DELETE deviceGroup "/:id" (at_devices (deleteDevice (sv_deviceStore parts)));
   POST signalGroup "/ingest" (at_signals (ingestSignal (sv_signalStore parts)));
   POST tenantProtected "/social/login"
     (at_social (socialLogin cfg lc (sv_ssoProviderStore parts) (sv_federationStore parts)))]
  ++ registerWebAuthnRoutes tenantProtected
  ++ RegisterTOTPRoutes (Group tenantProtected "/api/v1")
  ++ (if sv_samlProvider parts then
        let samlHandler := at_saml Provider_ServeHTTP in
        [GET root "/saml/metadata" samlHandler; POST root "/saml/sso" samlHandler;
         GET root "/saml/idp-init" samlHandler]
      else []).

Definition RegisterBrandingRoutes (router : RG) : list (Route App) :=
  let mgmt := Use (Group router "/api/v1/branding") tenant_extractor in
  [GET router "/branding/public/:tenantID" (at_branding (getPublicBranding (sv_brandingStore parts)));
   GET mgmt estr (at_branding (getBranding (sv_brandingStore parts)));
   PUT mgmt estr (at_branding (updateBranding (sv_brandingStore parts)))].

Definition saml_RegisterRoutes (rg : RG) : list (Route App) :=
  let saml := Group rg "/saml" in
  [GET saml "/providers" (at_sps saml_listProviders); POST saml "/providers" (at_sps saml_createProvider);
   GET saml "/providers/:entityID" (at_sps saml_getProvider); DELETE saml "/providers/:entityID" (at_sps saml_deleteProvider)].

Definition developer_RegisterRoutes (rg : RG) : list (Route App) :=
  let apps := Group rg "/apps" in
  let keys := Group rg "/api-keys" in
  [GET apps estr (at_dev listApps); POST apps estr (at_dev createApp); GET apps "/:id" (at_dev getApp);
   PUT apps "/:id" (at_dev updateApp); DELETE apps "/:id" (at_dev deleteApp);
   POST apps "/:id/rotate-secret" (at_dev rotateSecret);
   GET keys estr (at_dev listAPIKeys); POST keys estr (at_dev createAPIKey); DELETE keys "/:id" (at_dev revokeAPIKey)].

(** The routes [main] registers, but for the metrics. *)
Definition authsvc_app_routes : list (Route App) :=
  auth_RegisterRoutes ++ RegisterBrandingRoutes (Group root "/")
  ++ saml_RegisterRoutes (Group root "/api/v1") ++ developer_RegisterRoutes (Group root "/api/v1").

(** ** The server *)

Context {gin : GinRedirect} {prom : PromHttp} {Lim : Type} (NewLimiter : Lim) (Allow : Z -> Lim -> bool * Lim).

Abbreviation Srv := (Server (gmap string Lim) App).

Definition authsvc_routes : list (Route Srv) := map app_route authsvc_app_routes ++ [metrics_route].

(** The middleware in the order of [router.Use], inside the recovery of
    [gin.Default()]; tracing and logging observe only. *)
Definition authsvc_chain (method : string) (path : list string) : Handler Srv :=
  engine authsvc_routes
    (fun next =>
       PrometheusMiddleware method ("/" +:+ strings_Join path "/")
         (SecurityHeadersMiddleware (RateLimit NewLimiter Allow id (fun m _ => m) next)))
    method path.

Definition authsvc_Do (base ip : string) : HttpPeer Srv := server_Do base ip authsvc_chain.
End Process.

(** ** Starting up *)

(** [Config]: the stores as whether they are set. *)
Record ServiceConfig : Type := mkServiceConfig {
  cf_DirectoryServiceURL : string;
  cf_ServiceAuthToken : string;
  cf_ServiceAuthHeader : string;
  cf_Clients : list ClientConfig;
  cf_ClientStore : bool;
  cf_DeviceStore : bool;
  cf_SignalStore : bool;
  cf_BrandingStore : bool;
  cf_FederationStore : bool;
  cf_BaseURL : string;
  cf_CodeStore : bool;
  cf_RefreshStore : bool;
  cf_RevocationStore : bool;
  cf_TOTPStore : bool;
  cf_SSOProviderStore : bool
}.

(** crypto/rsa, crypto/x509 and go-webauthn at start-up: the public half of a
    fresh key pair, the certificate made from it and read back, and the check of
    the relying party's origins. *)
Class KeyMaterial : Type := {
  rsa_GenerateKey : nat -> (string * string) + error;
  x509_SelfSigned : nat -> string * string -> option error;
  webauthn_New : list string -> option error
}.

Section Start.
Context {keys : KeyMaterial} {host : Host} {Y : Type} {samlidp : SamlIdp Y}.
Context {Pub Priv : Type} {jwt : LicenseJwt Pub Priv}.

(** Whether ENVIRONMENT is production is read when a cookie is set. *)
Definition production : bool := bool_decide (os_Getenv "ENVIRONMENT" = "production").

(** [NewService(cfg)], and whether the three token stores are those of the
    configuration or in memory; the login attempts are the handler's. *)
Definition NewService {S} (loginAttemptStore : bool) (cfg : ServiceConfig) : M S (AuthService * (bool * bool * bool)) :=
  if decide (cf_BaseURL cfg = estr) then fail (ErrNew "base URL is required")
  else if decide (cf_DirectoryServiceURL cfg = estr) then fail (ErrNew "directory service URL is required")
  else
    let header := if decide (cf_ServiceAuthHeader cfg = estr) then DefaultServiceAuthHeader else cf_ServiceAuthHeader cfg in
    key <- observe (fun _ n => rsa_GenerateKey n);;
    publicKey <- decoded key;;
    cert <- observe (fun _ n => x509_SelfSigned n publicKey);;
    check_error cert;;
    check_error (NewProvider (cf_BaseURL cfg));;
    check_error (webauthn_New [cf_BaseURL cfg; "http://localhost:5173"]);;
    clientMap <- (if cf_ClientStore cfg then
                    if decide (cf_Clients cfg <> [])
                    then fail (ErrNew "both ClientStore and static Clients provided; choose one source")
                    else ret None
                  else match buildClientMap (cf_Clients cfg) with inl m => ret (Some m) | inr err => fail err end);;
    keyID <- uuid_New;;
    ret (mkAuthService (mkAuthConfig (cf_ClientStore cfg) clientMap (cf_SignalStore cfg) keyID)
           (mkLoginConfig (cf_DirectoryServiceURL cfg) header (cf_ServiceAuthToken cfg) loginAttemptStore (cf_TOTPStore cfg)
              production)
           (mkServiceParts (cf_DeviceStore cfg) (cf_SignalStore cfg) (cf_BrandingStore cfg) (cf_FederationStore cfg)
              (cf_SSOProviderStore cfg) true publicKey),
         (cf_CodeStore cfg, cf_RefreshStore cfg, cf_RevocationStore cfg)).

(** The license check; [log.Fatal] ends the process. *)
Definition check_license {S} : M S unit :=
  if decide (os_Getenv "REQUIRE_LICENSE" = "true") then
    let pubKeyPath := if decide (os_Getenv "LICENSE_PUBLIC_KEY_PATH" = estr) then "/etc/wardseal/license_public.pem"
                      else os_Getenv "LICENSE_PUBLIC_KEY_PATH" in
    pubKey <- map_err (ErrWrap "Failed to read license public key") (decoded (os_ReadFile pubKeyPath));;
    mgr <- map_err (ErrWrap "Failed to initialize license manager") (decoded (NewManager pubKey));;
    let licenseKey := os_Getenv "LICENSE_KEY" in
    if decide (licenseKey = estr) then fail (ErrNew "LICENSE_KEY environment variable is required for enterprise edition")
    else exec (map_err (ErrWrap "Invalid license key") (Verify mgr licenseKey))
  else ret tt.

Definition authsvc_db : DbConfig :=
  mkDbConfig (if decide (os_Getenv "DB_HOST" = estr) then "localhost" else os_Getenv "DB_HOST") 5432
    (envOr "DB_USER" "user") (envOr "DB_PASSWORD" "password") (envOr "DB_NAME" "identity_platform")
    (envOr "DB_SSLMODE" "disable").

(** [sqlx.Connect] and the ping of [NewConnection] *)
Context (connect : string -> option error).

(** The configuration [main] puts together: every store but the one of
    federated identities. *)
Definition authsvc_config : ServiceConfig :=
  let directoryServiceURL := if decide (os_Getenv "DIRECTORY_SERVICE_URL" = estr) then "http://dirsvc:8081"
                             else os_Getenv "DIRECTORY_SERVICE_URL" in
  let serviceToken := if decide (os_Getenv "SERVICE_AUTH_TOKEN" = estr) then "dev-internal-token"
                      else os_Getenv "SERVICE_AUTH_TOKEN" in
  let authServiceURL := if decide (os_Getenv "AUTH_SERVICE_URL" = estr) then "http://localhost:8080"
                        else os_Getenv "AUTH_SERVICE_URL" in
  mkServiceConfig directoryServiceURL serviceToken (os_Getenv "SERVICE_AUTH_HEADER") [] true true true true false
    authServiceURL true true true true true.

(** [main] up to [router.Run]: the service it serves, and its metrics. *)
Definition authsvc_main : M MetricNames (AuthService * (bool * bool * bool) * Metrics) :=
  check_license;;
  NewConnection connect authsvc_db;;
  svc <- NewService true authsvc_config;;
  metrics <- NewMetrics;;
  ret (svc, metrics).
End Start.
