(* ===== verification/AuthSvcFacts.v ===== *)
(** * What the auth process guarantees

    Theorems about cmd/authsvc as a whole: its routes register without a
    conflict, start-up needs a valid license where one is required, a request
    without a tenant changes nothing behind the tenant extractor, every answer
    carries the security headers, and what is known of the service's operations
    holds over any sequence of HTTP requests to the process. *)
From S2P Require Import Prelude Bcrypt GoStd GoUrl Sha256 Sql Http Middleware Gin Server.
From S2P Require Import OAuthClient AuthClient TokenStores Risk AuthService AuthFacts Login AuthApi.
From S2P Require Import Sso Federation DeveloperApps Branding Saml License CommandLine AuthSvc Directory DirService SignUpLogin.
Local Open Scope go_scope.

(** ** Start-up *)

(** Where [check_license] looks for the public key *)
Definition license_path {host : Host} : string :=
  if decide (os_Getenv "LICENSE_PUBLIC_KEY_PATH" = estr) then "/etc/wardseal/license_public.pem"
  else os_Getenv "LICENSE_PUBLIC_KEY_PATH".

Section Start.
Context {keys : KeyMaterial} {host : Host} {Y : Type} {samlidp : SamlIdp Y}.
Context {Pub Priv : Type} {jwt : LicenseJwt Pub Priv} (connect : string -> option error).

Lemma check_license_inv {S} env (s : St S) u :
  check_license env s = (Ok tt, u) -> os_Getenv "REQUIRE_LICENSE" = "true" ->
  exists pem mgr lic t,
    os_ReadFile license_path = inl pem /\
    NewManager pem = inl mgr /\ Verify mgr (os_Getenv "LICENSE_KEY") env t = (Ok lic, u) /\ st t = st s.
Proof.
  unfold check_license. intros H Hreq. rewrite decide_True in H by done. cbv zeta in H.
  apply bind_Ok_inv in H as (pem & t1 & E1 & H). apply map_err_Ok_inv, decoded_Ok_inv in E1 as [Ef ->].
  apply bind_Ok_inv in H as (mgr & t2 & E2 & H). apply map_err_Ok_inv, decoded_Ok_inv in E2 as [Em ->].
  destruct (decide (os_Getenv "LICENSE_KEY" = estr)); [done|]. unfold exec in H.
  apply bind_Ok_inv in H as (lic & t3 & E3%map_err_Ok_inv & [_ <-]%ret_Ok_inv).
  by exists pem, mgr, lic, s.
Qed.

Lemma NewService_inv {S} attempts c env (s : St S) svc stores u :
  NewService attempts c env s = (Ok (svc, stores), u) ->
  cf_BaseURL c <> estr /\ cf_DirectoryServiceURL c <> estr /\
  NewProvider (cf_BaseURL c) = None /\
  as_parts svc = mkServiceParts (cf_DeviceStore c) (cf_SignalStore c) (cf_BrandingStore c) (cf_FederationStore c)
                   (cf_SSOProviderStore c) true (sv_publicKey (as_parts svc)) /\
  lc_directoryServiceURL (as_lc svc) = cf_DirectoryServiceURL c /\
  lc_serviceAuthToken (as_lc svc) = cf_ServiceAuthToken c /\
  lc_serviceAuthHeader (as_lc svc) =
    (if decide (cf_ServiceAuthHeader c = estr) then DefaultServiceAuthHeader else cf_ServiceAuthHeader c) /\
  lc_loginAttemptStore (as_lc svc) = attempts /\ lc_totpStore (as_lc svc) = cf_TOTPStore c /\
  a_clientStore (as_cfg svc) = cf_ClientStore c /\
  match a_clients (as_cfg svc) with
  | Some m => cf_ClientStore c = false /\ buildClientMap (cf_Clients c) = inl m
  | None => cf_ClientStore c = true /\ cf_Clients c = []
  end /\
  stores = (cf_CodeStore c, cf_RefreshStore c, cf_RevocationStore c).
Proof.
  unfold NewService. intros H. case_decide; [done|]. case_decide; [done|]. cbv zeta in H.
  apply bind_Ok_inv in H as (key & t1 & _ & H). apply bind_Ok_inv in H as (pk & t2 & _ & H).
  apply bind_Ok_inv in H as (cert & t3 & _ & H). apply bind_Ok_inv in H as ([] & t4 & _ & H).
  apply bind_Ok_inv in H as ([] & t5 & Esaml & H). apply bind_Ok_inv in H as ([] & t6 & _ & H).
  apply bind_Ok_inv in H as (cm & t7 & Ecm & H). apply bind_Ok_inv in H as (kid & t8 & _ & H).
  apply ret_Ok_inv in H as [[= <- <-] <-]. cbn.
  assert (NewProvider (cf_BaseURL c) = None) as -> by (unfold check_error in Esaml; by destruct (NewProvider _)).
  split_and!; try done.
  - destruct (cf_ClientStore c).
    + case_decide as Hc; [done|]. apply ret_Ok_inv in Ecm as [<- _]. split; [done|]. destruct (cf_Clients c); [done|by destruct Hc].
    + destruct (buildClientMap _) as [m|]; [|done]. by apply ret_Ok_inv in Ecm as [<- _].
Qed.

(** The process serves only after the license check passed where one is
    required, and then with clients from the database, the Postgres token
    stores, login attempts and TOTP, and without a store of federated
    identities. *)
Theorem authsvc_started env s svc stores metrics u :
  authsvc_main connect env s = (Ok (svc, stores, metrics), u) ->
  (os_Getenv "REQUIRE_LICENSE" = "true" ->
     exists pem mgr lic t v, NewManager pem = inl mgr /\
       Verify mgr (os_Getenv "LICENSE_KEY") env (S := MetricNames) t = (Ok lic, v)) /\
  a_clientStore (as_cfg svc) = true /\ a_clients (as_cfg svc) = None /\
  stores = (true, true, true) /\ lc_loginAttemptStore (as_lc svc) = true /\ lc_totpStore (as_lc svc) = true /\
  lc_serviceAuthToken (as_lc svc) <> estr /\ lc_serviceAuthHeader (as_lc svc) <> estr /\
  sv_federationStore (as_parts svc) = false /\ sv_ssoProviderStore (as_parts svc) = true /\
  sv_samlProvider (as_parts svc) = true.
Proof.
  unfold authsvc_main. intros H. apply bind_Ok_inv in H as ([] & t1 & E1 & H).
  apply bind_Ok_inv in H as ([] & t2 & _ & H). apply bind_Ok_inv in H as ([svc' stores'] & t3 & E3 & H).
  apply bind_Ok_inv in H as (m & t4 & _ & [[= -> -> ->] <-]%ret_Ok_inv). split.
  { intros Hreq. apply check_license_inv in E1 as (pem & mgr & lic & t & _ & Hm & Hv & _); [eauto 10|done]. }
  apply NewService_inv in E3 as (_ & _ & _ & Hp & _ & Htok & Hh & Hl & Ht & Hcs & Hc & ->).
  rewrite Hp. cbn in *. destruct (a_clients _); [by destruct Hc|].
  split_and!; try done; [rewrite Htok; clear Hh|rewrite Hh; clear Htok]; by case_decide.
Qed.
End Start.

(** ** Licenses, from the tool to the process *)

Lemma check_license_run {host : Host} {Pub Priv : Type} {jwt : LicenseJwt Pub Priv} {S} pem mgr env (v : St S) :
  os_Getenv "REQUIRE_LICENSE" = "true" -> os_ReadFile license_path = inl pem -> NewManager pem = inl mgr ->
  os_Getenv "LICENSE_KEY" <> estr ->
  check_license env v = exec (map_err (ErrWrap "Invalid license key") (Verify mgr (os_Getenv "LICENSE_KEY"))) env v.
Proof.
  intros Hr Hf Hm Hk. unfold check_license. rewrite decide_True by done. cbv zeta. fold license_path.
  rewrite Hf. unfold bind, map_err, decoded at 1. cbn. rewrite Hm. cbn. by rewrite decide_False.
Qed.

(** Property C37. The license tool and the license check of the auth process fit
    together: with the public key written by -gen-key, the token that a later
    run of the tool with the default key file prints for 0 to 106751 days lets
    the process start until the last second of the last of its days, and stops it
    from the end of that day on. *)
Theorem license_chain {Pub Priv : Type} {jwt : LicenseJwt Pub Priv} {keys : LicenseKeys Priv} (public : Priv -> Pub)
    {laws : LicenseKeyLaws public} write_error format_RFC822 {S} args set env s t env1 t' u :
  licensegen_main write_error format_RFC822 ["-gen-key"] env s = (Ok 0%Z, t) -> cli_peer (st t') = cli_peer (st t) ->
  licensegen_main write_error format_RFC822 args env1 t' = (Ok 0%Z, u) ->
  flag_Parse licensegen_flags args [] = FlagsParsed set -> flag_bool set "gen-key" = false ->
  flag_value set "key" "private.pem" = "private.pem" -> (0 <= flag_int set "days" 365 <= 106751)%Z ->
  exists n token expires pem,
    cli_stdout (st u) = cli_stdout (st t') +:+ (new_line +:+ "License Key for " +:+ flag_value set "customer" estr +:+ ":"
      +:+ new_line +:+ new_line +:+ token +:+ new_line +:+ new_line) +:+ ("Expires: " +:+ expires +:+ new_line) /\
    cli_peer (st u) !! "public.pem" = Some pem /\
    forall (host : Host) env2 (v : St S),
      os_Getenv "REQUIRE_LICENSE" = "true" -> os_Getenv "LICENSE_KEY" = token -> os_ReadFile license_path = inl pem ->
      (clock env2 (tick v) <= clock env2 (Datatypes.S (tick v)))%Z ->
      let last := (clock env1 n + flag_int set "days" 365 * day)%Z in
      ((clock env2 (Datatypes.S (tick v)) + second <= last)%Z -> exists w, check_license env2 v = (Ok tt, w)) /\
      ((last <= clock env2 (tick v))%Z -> exists err w, check_license env2 v = (Err err, w)).
Proof.
  intros Hgen Hp Hmake Hset Hng Hkey Hd.
  apply licensegen_exit in Hgen as [[=]|(gset & [= <-] & Hgen)]. unfold licensegen_run in Hgen. cbn in Hgen.
  apply bind_Ok_inv in Hgen as ([] & t0 & Hgen & [_ <-]%ret_Ok_inv).
  apply generateKeys_inv in Hgen as (k & pem & Epem & Hpriv & Hpub).
  apply licensegen_exit in Hmake as [Hh|(set' & Hset' & Hrun)]; [congruence|].
  rewrite Hset in Hset'. injection Hset' as <-. rewrite <-Hp in Hpriv, Hpub.
  apply (licensegen_license write_error format_RFC822 set k) in Hrun as (a & b & token & expires & Hlic & _ & Hout & Hfiles);
    [|done|by rewrite Hkey|apply PKCS1_roundtrip].
  exists (tick a), token, expires, pem. rewrite Hfiles. split_and!; [done|done|].
  intros host env2 v Hr Hk Hf Hmono last.
  pose proof (pair_laws (LicenseKeyLaws := laws) k) as L.
  pose proof (generate_license_signed k _ _ _ _ _ _ _ _ Hlic) as (claims & Hsign & Hw & He & _).
  rewrite (check_license_run pem (mkManager (public k)));
    [|done|done|unfold NewManager; by rewrite (PKIX_roundtrip _ _ Epem)|rewrite Hk; by eapply license_nonempty].
  rewrite Hk. unfold exec, bind, map_err. split; intros Ht.
  - destruct (license_roundtrip (public k) k L _ _ _ _ env1 a token b env2 v Hd Hlic Hmono Ht) as (e & w & -> & _). by eexists.
  - rewrite validity_days in He by done.
    destruct (Verify_expired (public k) k L _ _ _ env2 v Hsign Hw He) as [err ->]; [|by eexists _, _].
    pose proof (NumericDate_bounds (clock env1 (tick a) + flag_int set "days" 365 * day)). lia.
Qed.

(** Started in environments that agree on SERVICE_AUTH_TOKEN and
    SERVICE_AUTH_HEADER, set or not, the directory accepts the calls of the auth
    process: what [SignUpLogin] takes the two services to be configured with. *)
Theorem services_wired {keys : KeyMaterial} {auth_host dir_host : Host} {Y : Type} {samlidp : SamlIdp Y}
    {Pub Priv : Type} {jwt : LicenseJwt Pub Priv} connect connect' env s svc stores metrics u env' s' serviceAuth metrics' u' :
  authsvc_main (host := auth_host) connect env s = (Ok (svc, stores, metrics), u) ->
  dirsvc_main (host := dir_host) connect' env' s' = (Ok (serviceAuth, metrics'), u') ->
  (forall k, k ∈ ["SERVICE_AUTH_TOKEN"; "SERVICE_AUTH_HEADER"] -> os_Getenv (Host := auth_host) k = os_Getenv (Host := dir_host) k) ->
  lower (os_Getenv (Host := auth_host) "SERVICE_AUTH_HEADER") <> lower DefaultTenantHeader ->
  (exists v, url_Parse (lc_directoryServiceURL (as_lc svc) +:+ "/users") = inl v) ->
  (exists v, url_Parse (lc_directoryServiceURL (as_lc svc) +:+ "/internal/credentials/verify") = inl v) ->
  wired (as_lc svc) serviceAuth.
Proof.
  intros Ha Hd Hsame Hdist Husers Hverify.
  unfold authsvc_main in Ha. apply bind_Ok_inv in Ha as ([] & t1 & _ & Ha).
  apply bind_Ok_inv in Ha as ([] & t2 & _ & Ha). apply bind_Ok_inv in Ha as ([svc' stores'] & t3 & E & Ha).
  apply bind_Ok_inv in Ha as (m & t4 & _ & [[= -> -> ->] <-]%ret_Ok_inv).
  apply NewService_inv in E as (_ & _ & _ & _ & _ & Htok & Hh & _). cbn in Htok, Hh.
  unfold dirsvc_main in Hd. apply bind_Ok_inv in Hd as ([] & v1 & _ & Hd).
  apply bind_Ok_inv in Hd as (m' & v2 & _ & [[= <- ->] <-]%ret_Ok_inv).
  rewrite (Hsame "SERVICE_AUTH_TOKEN") in Htok by set_solver. rewrite (Hsame "SERVICE_AUTH_HEADER") in Hh, Hdist by set_solver.
  split; cbn [sc_Token sc_HeaderName]; try done; [clear; by case_decide|]. rewrite Hh. clear Htok Hh. by case_decide.
Qed.

(** ** Any request *)

Lemma oauth_failure_status e : rs_status (oauth_failure e) <> 200%Z.
Proof. unfold oauth_failure, respondOAuthError. destruct (errors_As_service e) as [[]|]; cbn; [by case_decide|done]. Qed.

Section Process.
Context {crypto : Crypto} {totp : Totp}.
Context {C R V O D G X L T W SD Y P Q F B : Type}.
Context `{!AuthorizationCodeStore C, !RefreshTokenStore R, !RevocationStore V, !OAuthStore O,
          !DeviceStore D, !SignalStore G}.
Context {peer : HttpPeer X} `{!LoginAttemptStore L, !TOTPStore T, !WebAuthnRepository W} {webauthn : WebAuthn SD}
  {samlidp : SamlIdp Y} {idp : OAuth2 P} {providers : SSOProviderStore Q} {links : FederationStore F}
  {branding : BrandingStore B} {apps : DeveloperAppStore}.
Context `{!Binder LoginRequest, !Validator LoginRequest, !Binder MFALoginRequest, !Binder SignupRequest,
          !Binder LookupRequest, !Binder AuthorizeRequest, !Validator AuthorizeRequest, !Binder TokenRequest,
          !Validator TokenRequest, !Binder IntrospectRequest, !Validator IntrospectRequest, !Binder RevokeRequest,
          !Validator RevokeRequest, !Binder TOTPEnrollRequest, !Binder TOTPVerifyRequest,
          !Binder RegisterDeviceRequest, !Binder UpdatePostureRequest, !Binder IngestSignalRequest,
          !Binder BeginLoginRequest, !Binder SocialLoginRequest, !Validator SocialLoginRequest,
          !Binder BrandingConfig, !Binder ServiceProvider, !Binder CreateAppRequest, !Binder CreateAPIKeyRequest}.
Context {gin : GinRedirect} {prom : PromHttp} {Lim : Type} (NewLimiter : Lim) (Allow : Z -> Lim -> bool * Lim).
Context (svc : AuthService).

Abbreviation Auth := (AuthState C R V O D G).
Abbreviation App := (AuthApp Auth X L T W SD Y P Q F B).
Abbreviation Srv := (Server (gmap string Lim) App).
Abbreviation app_routes := (authsvc_app_routes svc : list (Route App)).
Abbreviation routes := (authsvc_routes svc : list (Route Srv)).
Abbreviation chain := (authsvc_chain svc NewLimiter Allow : string -> list string -> Handler Srv).

(** No registration panics. *)
Theorem authsvc_registers : registered routes = true.
Proof.
  unfold authsvc_routes, authsvc_app_routes, auth_RegisterRoutes.
  destruct (sv_samlProvider (as_parts svc)); reflexivity.
Qed.

(** The routes that are not behind the tenant extractor. *)
Definition public_routes : list (string * string) :=
  [("POST", "/api/v1/signup"); ("POST", "/login/lookup"); ("GET", "/.well-known/jwks.json");
   ("GET", "/saml/metadata"); ("POST", "/saml/sso"); ("GET", "/saml/idp-init");
   ("GET", "/branding/public/:tenantID");
   ("GET", "/api/v1/saml/providers"); ("POST", "/api/v1/saml/providers");
   ("GET", "/api/v1/saml/providers/:entityID"); ("DELETE", "/api/v1/saml/providers/:entityID");
   ("GET", "/api/v1/apps"); ("POST", "/api/v1/apps"); ("GET", "/api/v1/apps/:id"); ("PUT", "/api/v1/apps/:id");
   ("DELETE", "/api/v1/apps/:id"); ("POST", "/api/v1/apps/:id/rotate-secret");
   ("GET", "/api/v1/api-keys"); ("POST", "/api/v1/api-keys"); ("DELETE", "/api/v1/api-keys/:id")].

Lemma route_guarded : guarded app_routes public_routes.
Proof.
  unfold guarded, authsvc_app_routes, auth_RegisterRoutes, registerWebAuthnRoutes, RegisterTOTPRoutes, RegisterBrandingRoutes,
    saml_RegisterRoutes, developer_RegisterRoutes.
  destruct (sv_samlProvider (as_parts svc)); cbv zeta; cbn [app]; intros r Hr;
    repeat (apply elem_of_cons in Hr as [->|Hr]; [first [right; by eexists|left; reflexivity]|]); by apply elem_of_nil in Hr.
Qed.

(** Property C8. A request to the auth process that names no well-formed
    tenant, to any path but the public ones, changes nothing of the
    application's state. It is answered 400, 404 or 429 with the security
    headers, or, where only the path with the other slash has a route, with
    gin's redirect, 301 to GET and 307 else, which carries none of them. *)
Theorem authsvc_tenant_required method path r env s :
  is_public public_routes method path = false -> uuidRegex (header_get DefaultTenantHeader (rq_headers r)) = false ->
  exists h resp u, ServeHTTP (chain method path) r env s = (Ok (h, resp), u) /\ sv_app (st u) = sv_app (st s) /\
    if slash_redirect routes method path
    then h = [] /\ rs_status resp = (if decide (method = "GET") then 301 else 307)%Z
    else hardened h /\ rs_status resp ∈ [400; 404; 429]%Z.
Proof.
  intros Hpub Hu. destruct (slash_redirect routes method path) eqn:Hsl.
  { destruct (ServeHTTP_redirect routes (stack NewLimiter Allow id (fun m _ => m) method ("/" +:+ strings_Join path "/"))
      method path r env s Hsl) as (resp & u & E & Hst & Ha). by exists [], resp, u. }
  destruct (ServeHTTP_app_routes NewLimiter Allow id (fun m _ => m) app_routes method path
    ("/" +:+ strings_Join path "/") r env s (public_not_metrics _ _ _ Hpub) Hsl) as (h & n & Hh & [(u & Eu & Ha)|Hrun]).
  - exists h. eexists _, u. split_and!; [exact Eu|done|done|]. do 2 right. left.
  - destruct (dispatch_refused app_routes public_routes method path r env (mkSt n (sv_app (st s))) route_guarded Hpub Hu) as (resp & Er & Hst).
    destruct (Hrun _ _ Er) as (u & Eu & Ha). exists h, resp, u. split_and!; [exact Eu|done|done|]. destruct Hst as [->| ->]; [left|right; left].
Qed.

(** *** The service's operations on a revoked token *)
Lemma Revoke_revoked `{!RevocationLaws V} tok env (s : St Auth) u :
  Revoke tok env s = (Ok tt, u) -> revoked (au_revoked (st u)) tok.
Proof.
  unfold Revoke. intros H. apply bind_Ok_inv in H as ([] & t & E & H).
  assert (revoked (au_revoked (st t)) tok) as Ht.
  { apply zoom_Ok_inv in E as (v & Ev & ->). by apply rev_Revoke_Ok in Ev. }
  refine (preserves_run (fun x : Auth => revoked (au_revoked x) tok) _ _ _ _ _ _ H Ht).
  effects. apply (preserves_zoom _ (fun _ => True)); [done|by intros|done].
Qed.

Lemma Introspect_revoked `{!RevocationLaws V} tok env (s : St Auth) r u :
  revoked (au_revoked (st s)) tok -> Introspect (as_cfg svc) tok env s = (Ok r, u) -> r = inactive.
Proof.
  intros Hs H. unfold Introspect in H. apply bind_Ok_inv in H as (b & t & Eb & H).
  apply on_revoked_IsRevoked in Eb as [Hb _]. apply Hb in Hs as ->. by apply ret_Ok_inv in H as [<- _].
Qed.

Lemma Token_revoked `{!RevocationLaws V} ctx req env (s : St Auth) r u :
  revoked (au_revoked (st s)) (tr_RefreshToken req) -> tr_GrantType req = "refresh_token" ->
  Token (as_cfg svc) ctx req env s = (Ok r, u) -> False.
Proof.
  intros Hs Hg H. unfold Token in H. apply bind_Ok_inv in H as (tn & t & Et & H). rewrite Hg in H. cbn in H.
  assert (st t = st s) as Hst by (refine (readonly_run _ _ _ _ _ _ Et); unfold TenantIDFromContext; effects).
  unfold handleRefreshTokenGrant in H. minv; apply on_revoked_IsRevoked in E as [Hb _];
    unfold is_revoked in Hb; rewrite Hst in Hb; by apply Hb in Hs.
Qed.

(** *** Revocation over HTTP *)
Section Revocation.
Context `{!RevocationLaws V} (revoked_token : string).

Abbreviation gone := (fun a : Auth => revoked (au_revoked a) revoked_token).
Abbreviation gone_app := (fun a : App => gone (ap_auth a)).

#[local] Ltac elsewhere := apply (preserves_zoom _ (fun _ => True)); [done|by intros|done].

#[local] Hint Extern 2 (preserves _ (on_codes _)) => solve [elsewhere] : effects.
#[local] Hint Extern 2 (preserves _ (on_refresh _)) => solve [elsewhere] : effects.
#[local] Hint Extern 2 (preserves _ (on_clients _)) => solve [elsewhere] : effects.
#[local] Hint Extern 2 (preserves _ (on_risk _)) => solve [elsewhere] : effects.
#[local] Hint Extern 2 (preserves _ (in_dir _)) => solve [elsewhere] : effects.
#[local] Hint Extern 2 (preserves _ (in_attempts _)) => solve [elsewhere] : effects.
#[local] Hint Extern 2 (preserves _ (in_totp _)) => solve [elsewhere] : effects.
#[local] Hint Extern 2 (preserves _ (in_pk_creds _)) => solve [elsewhere] : effects.
#[local] Hint Extern 2 (preserves _ (so_in_dir _)) => solve [elsewhere] : effects.
#[local] Hint Extern 2 (preserves _ (so_in_idp _)) => solve [elsewhere] : effects.
#[local] Hint Extern 2 (preserves _ (so_in_providers _)) => solve [elsewhere] : effects.
#[local] Hint Extern 2 (preserves _ (so_in_links _)) => solve [elsewhere] : effects.

#[local] Hint Extern 1 (readonly now) => done : effects.
#[local] Hint Extern 1 (readonly uuid_New) => done : effects.

Lemma gone_TenantID {S} (Q' : S -> Prop) ctx : preserves Q' (TenantIDFromContext ctx).
Proof. unfold TenantIDFromContext. effects. Qed.

Lemma gone_IsRevoked t : preserves gone (on_revoked (rev_IsRevoked t)).
Proof.
  apply (preserves_zoom _ (fun v => revoked v revoked_token)); [done|done|].
  apply readonly_preserves, rev_IsRevoked_readonly.
Qed.

Lemma gone_resolveClient tenantID clientID : preserves gone (resolveClient (as_cfg svc) tenantID clientID).
Proof. unfold resolveClient, check. effects. Qed.

#[local] Hint Resolve gone_TenantID gone_IsRevoked gone_resolveClient : effects.

Lemma gone_issue tenantID clientID scope sub :
  preserves gone (generateAccessToken (as_cfg svc) tenantID clientID scope sub) /\
  preserves gone (generateRefreshToken tenantID clientID scope sub) /\
  preserves gone (issueTokens (as_cfg svc) tenantID clientID scope sub).
Proof.
  assert (preserves gone (generateAccessToken (as_cfg svc) tenantID clientID scope sub)) as H1
    by (unfold generateAccessToken; effects).
  assert (preserves gone (generateRefreshToken tenantID clientID scope sub)) as H2
    by (unfold generateRefreshToken; effects).
  split_and!; [done..|]. unfold issueTokens. effects.
Qed.

Lemma gone_Authorize ctx req : preserves gone (Authorize (as_cfg svc) ctx req).
Proof.
  assert (preserves gone generateAuthorizationCode) by (unfold generateAuthorizationCode; effects).
  assert (forall a b c, preserves gone (buildAuthorizationRedirect a b c)) by (intros; unfold buildAuthorizationRedirect; effects).
  unfold Authorize. effects.
Qed.

Lemma gone_Token ctx req : preserves gone (Token (as_cfg svc) ctx req).
Proof.
  assert (forall a b c d, preserves gone (generateAccessToken (as_cfg svc) a b c d)) by (intros; apply gone_issue).
  assert (forall a b c d, preserves gone (issueTokens (as_cfg svc) a b c d)) by (intros; apply gone_issue).
  unfold Token, handleAuthorizationCodeGrant, handleClientCredentialsGrant, handleRefreshTokenGrant, check. effects.
Qed.

Lemma gone_Introspect t : preserves gone (Introspect (as_cfg svc) t).
Proof. unfold Introspect, on_signal_store. effects. Qed.

Lemma gone_Revoke t : preserves gone (Revoke t).
Proof. apply keeps_revoked_Revoke. Qed.

(** The handlers, group by group. *)
#[local] Ltac in_handler := unfold bound, validated, or_500, or_respond, non_nil, with_tenant; effects.

#[local] Hint Resolve gone_Authorize gone_Token gone_Introspect gone_Revoke : effects.

Lemma gone_at_auth (h : Handler Auth) c : preserves gone (h c) -> preserves gone_app (at_auth h c).
Proof. apply preserves_zoom; [done|done]. Qed.

Lemma gone_oauth c :
  preserves gone_app (at_auth (authorize (as_cfg svc)) c) /\ preserves gone_app (at_auth (token (as_cfg svc)) c) /\
  preserves gone_app (at_auth (introspect (as_cfg svc)) c) /\ preserves gone_app (at_auth revoke c).
Proof.
  split_and!; apply gone_at_auth; unfold authorize, token, introspect, revoke; in_handler.
Qed.

Abbreviation gone_login := (fun l : LoginState Auth X L T => gone (ls_auth l)).

Lemma gone_in_auth {A} (m : M Auth A) : preserves gone m -> preserves gone_login (in_auth m).
Proof. apply preserves_zoom; [done|done]. Qed.
#[local] Hint Resolve gone_in_auth : effects.

Lemma gone_login_handlers c :
  preserves gone_app (at_login (signup (as_cfg svc) (as_lc svc)) c) /\
  preserves gone_app (at_login (login (as_cfg svc) (as_lc svc)) c) /\
  preserves gone_app (at_login (completeMFALogin (as_lc svc)) c) /\ preserves gone_app (at_login logout c).
Proof.
  assert (forall a b, preserves gone_login (signUserToken (as_cfg svc) a b)) by (intros; unfold signUserToken; effects).
  assert (forall a b d e f, preserves gone_login (registerLoginDevice a b d e f)) by (intros; unfold registerLoginDevice; effects).
  assert (forall a b d e f g, preserves gone_login (Login (as_cfg svc) (as_lc svc) c a b d e f g))
    by (intros; unfold Login, http_NewRequest, decoded; effects).
  assert (forall a b d, preserves gone_login (SignUp (as_cfg svc) (as_lc svc) a b d))
    by (intros; unfold SignUp, http_NewRequest, decoded; effects).
  assert (forall a b d, preserves gone_login (recordFailure (as_lc svc) a b d)) by (intros; unfold recordFailure; effects).
  split_and!; (apply (preserves_zoom _ gone_login); [done|done|]); unfold signup, login, completeMFALogin, logout; effects.
Qed.

Abbreviation gone_passkey := (fun p : PasskeyState Auth W SD => gone (pk_auth p)).

Lemma gone_passkeys c :
  preserves gone_app (at_passkeys beginWebAuthnRegistration c) /\ preserves gone_app (at_passkeys finishWebAuthnRegistration c) /\
  preserves gone_app (at_passkeys beginWebAuthnLogin c) /\ preserves gone_app (at_passkeys (finishWebAuthnLogin (as_cfg svc)) c).
Proof.
  assert (forall {A} (m : M Auth A), preserves gone m -> preserves gone_passkey (in_pk_auth m)) as Hin
    by (intros; by apply (preserves_zoom _ gone)).
  assert (forall a b d e, preserves gone_passkey (in_pk_auth (generateAccessToken (as_cfg svc) a b d e)))
    by (intros; apply Hin, gone_issue).
  assert (forall k v, preserves gone_passkey (set_session k v)) by (intros; apply preserves_modify; done).
  assert (forall k, preserves gone_passkey (delete_session k)) by (intros; apply preserves_modify; done).
  assert (forall a, preserves gone_passkey (BeginWebAuthnRegistration a))
    by (intros; unfold BeginWebAuthnRegistration, decoded; effects).
  assert (forall a b d, preserves gone_passkey (FinishWebAuthnRegistration a b d))
    by (intros; unfold FinishWebAuthnRegistration, decoded; effects).
  assert (forall a, preserves gone_passkey (BeginWebAuthnLogin a)) by (intros; unfold BeginWebAuthnLogin, decoded; effects).
  assert (forall a b d, preserves gone_passkey (FinishWebAuthnLogin (as_cfg svc) a b d))
    by (intros; unfold FinishWebAuthnLogin, decoded; effects).
  split_and!; (apply (preserves_zoom _ gone_passkey); [done|done|]);
    unfold beginWebAuthnRegistration, finishWebAuthnRegistration, beginWebAuthnLogin, finishWebAuthnLogin; cbv zeta; effects.
Qed.

Abbreviation gone_social := (fun x : SocialState Auth X P Q F => gone (so_auth x)).

Lemma gone_socialLogin sso fed c :
  preserves gone_app (at_social (socialLogin (as_cfg svc) (as_lc svc) sso fed) c).
Proof.
  assert (forall {A} (m : M Auth A), preserves gone m -> preserves gone_social (so_in_auth m)) as Hin
    by (intros; by apply (preserves_zoom _ gone)).
  assert (forall a b d e, preserves gone_social (so_in_auth (issueTokens (as_cfg svc) a b d e)))
    by (intros; apply Hin, gone_issue).
  assert (preserves gone_social (so_in_auth generateAuthorizationCode))
    by (apply Hin; unfold generateAuthorizationCode; effects).
  assert (forall a b, preserves gone_social (findUserByEmail (as_lc svc) a b))
    by (intros; unfold findUserByEmail, http_NewRequest, decoded; effects).
  assert (forall a b d, preserves gone_social (provisionUser (as_lc svc) a b d))
    by (intros; unfold provisionUser, http_NewRequest, decoded; effects).
  assert (forall a b d, preserves gone_social (fetch_profile a b d)) by (intros; unfold fetch_profile, decoded; effects).
  assert (forall a b d e f, preserves gone_social (federated_user (as_lc svc) fed a b d e f))
    by (intros; unfold federated_user, non_nil; effects).
  apply (preserves_zoom _ gone_social); [done|done|]. unfold socialLogin, SocialLogin. in_handler.
Qed.

Lemma gone_routes r c : r ∈ app_routes -> preserves gone_app (ro_handler r c).
Proof.
  assert (forall h c, preserves gone_app (at_lookup h c)) as H1 by (intros; elsewhere).
  assert (forall h c, preserves gone_app (at_totp h c)) as H2 by (intros; elsewhere).
  assert (forall h c, preserves gone_app (at_saml h c)) as H3 by (intros; elsewhere).
  assert (forall h c, preserves gone_app (at_branding h c)) as H4 by (intros; elsewhere).
  assert (forall h c, preserves gone_app (at_sps h c)) as H5 by (intros; elsewhere).
  assert (forall h c, preserves gone_app (at_dev h c)) as H6 by (intros; elsewhere).
  assert (forall h c, preserves gone_app (at_devices h c)) as H7 by (intros; apply gone_at_auth; elsewhere).
  assert (forall h c, preserves gone_app (at_signals h c)) as H8 by (intros; apply gone_at_auth; elsewhere).
  assert (preserves gone_app (jwks svc c)) as H9 by (unfold jwks; effects).
  unfold authsvc_app_routes, auth_RegisterRoutes, registerWebAuthnRoutes, RegisterTOTPRoutes, RegisterBrandingRoutes,
    saml_RegisterRoutes, developer_RegisterRoutes.
  destruct (sv_samlProvider (as_parts svc)); cbv zeta; cbn [app]; intros Hr;
    repeat (apply elem_of_cons in Hr as [->|Hr]; [cbn [ro_handler handle GET POST PUT DELETE g_use Use Gin.Group root];
      first [apply TenantExtractor_preserves; intros c'|idtac];
      first [apply H1|apply H2|apply H3|apply H4|apply H5|apply H6|apply H7|apply H8|apply H9|apply gone_oauth
            |apply gone_login_handlers|apply gone_passkeys|apply gone_socialLogin]|]); by apply elem_of_nil in Hr.
Qed.
End Revocation.

(** *** Runs of the process

    Calls from any address, and the limiter's clean-up between them. *)
Context (base : string).

Inductive serving (env : Env) : St Srv -> St Srv -> Prop :=
| serving_nil s : serving env s s
| serving_call s ip call r t u :
    authsvc_Do svc NewLimiter Allow base ip call env s = (r, t) -> serving env t u -> serving env s u
| serving_cleanup s r t u :
    zoom sv_limiters (fun l sv => mkServer (sv_header sv) l (sv_metrics sv) (sv_app sv)) limiter_cleanup env s = (r, t) ->
    serving env t u -> serving env s u.

Lemma serving_preserves (Inv : App -> Prop) env s u :
  (forall r c, r ∈ app_routes -> preserves Inv (ro_handler r c)) ->
  serving env s u -> Inv (sv_app (st s)) -> Inv (sv_app (st u)).
Proof.
  intros Hroutes.
  induction 1 as [|s ip call r t u E _ IH|s r t u E _ IH]; [done|..]; intros HP; apply IH.
  - refine (preserves_run (fun sv => Inv (sv_app sv)) _ _ _ _ _ _ E HP). unfold authsvc_Do, server_Do.
    destruct (request_path _ _); [|effects]. apply preserves_bind; [|intros; effects].
    apply preserves_always, ServeHTTP_keeps, engine_keeps, Prometheus_keeps, SecurityHeaders_keeps, RateLimit_keeps, routes_keep.
    intros rt ps Hrt. by apply preserves_keeps, Hroutes.
  - unfold zoom in E. cbn in E. by injection E as _ <-.
Qed.

Lemma app_no_redirect method path params h :
  not_metrics method path -> resolve app_routes method path = Some (params, h) -> slash_redirect routes method path = false.
Proof.
  intros Hm Hr. apply (resolve_no_redirect _ _ _ (params, fun c => on_app (LS := gmap string Lim) (h c))).
  unfold authsvc_routes. by rewrite resolve_app, Hr.
Qed.

(** An answer other than the limiter's and the recovery's is the handler's. *)
Lemma authsvc_call ip call path params h env s resp u :
  request_path base (hc_url call) = Some path -> not_metrics (hc_method call) path ->
  resolve app_routes (hc_method call) path = Some (params, h) ->
  authsvc_Do svc NewLimiter Allow base ip call env s = (Ok resp, u) ->
  rs_status resp <> 429%Z -> rs_status resp <> 500%Z ->
  exists n t, h (mkGinCtx (mkRequest (sent_headers call) (rq_query (call_request ip call)) params [] (hc_body call) ip) None)
      env (mkSt n (sv_app (st s))) = (Ok resp, t) /\ sv_app (st u) = st t.
Proof.
  intros Hp Hm Hr H H429 H500.
  unfold authsvc_Do, server_Do in H. rewrite Hp in H.
  apply bind_Ok_inv in H as ([hs resp'] & t & E & [Hresp <-]%ret_Ok_inv). cbn in Hresp. subst resp'.
  destruct (ServeHTTP_app_routes NewLimiter Allow id (fun m _ => m) app_routes (hc_method call) path
    ("/" +:+ strings_Join path "/") (call_request ip call) env s Hm (app_no_redirect _ _ _ _ Hm Hr)) as (h0 & n & _ & [(v & Ev & _)|Hrun]).
  { exfalso. pose proof (eq_trans (eq_sym E) Ev) as [= _ -> _]. by destruct H429. }
  destruct (dispatch app_routes (hc_method call) path (mkGinCtx (call_request ip call) None) env (mkSt n (sv_app (st s))))
    as [res v] eqn:Ed.
  destruct (Hrun _ _ eq_refl) as (w & Ew & Ha). pose proof (eq_trans (eq_sym E) Ew) as Heq.
  unfold dispatch in Ed. rewrite Hr in Ed. exists n, v. clear E Ew Hrun.
  destruct res as [x|e|p]; [injection Heq as _ -> ->; by split|done|].
  injection Heq as _ -> _. by destruct H500.
Qed.

(** A route whose handler does not redirect is answered in place. *)
Lemma authsvc_stays ip call path params h :
  request_path base (hc_url call) = Some path -> not_metrics (hc_method call) path ->
  resolve app_routes (hc_method call) path = Some (params, h) -> (forall c, stays (h c)) ->
  stays (authsvc_Do svc NewLimiter Allow base ip call).
Proof.
  intros Hp Hm Hr Hst env s resp u H. unfold authsvc_Do, server_Do in H. rewrite Hp in H.
  apply bind_Ok_inv in H as ([hs resp'] & t & E & [Hresp <-]%ret_Ok_inv). cbn in Hresp. subst resp'.
  destruct (ServeHTTP_app_routes NewLimiter Allow id (fun m _ => m) app_routes (hc_method call) path
    ("/" +:+ strings_Join path "/") (call_request ip call) env s Hm (app_no_redirect _ _ _ _ Hm Hr)) as (h0 & n & _ & [(v & Ev & _)|Hrun]).
  { by pose proof (eq_trans (eq_sym E) Ev) as [= _ -> _]. }
  destruct (dispatch app_routes (hc_method call) path (mkGinCtx (call_request ip call) None) env (mkSt n (sv_app (st s))))
    as [res v] eqn:Ed.
  destruct (Hrun _ _ eq_refl) as (w & Ew & _). pose proof (eq_trans (eq_sym E) Ew) as Heq.
  unfold dispatch in Ed. rewrite Hr in Ed.
  destruct res as [x|e|p]; [injection Heq as _ -> _; by eapply Hst|done|by injection Heq as _ -> _].
Qed.

(** A call that a tenant-protected route answers 200. *)
Lemma protected_call ip call p path h env s resp u :
  hc_method call = "POST" -> hc_url call = base +:+ p -> request_path base (base +:+ p) = Some path ->
  resolve app_routes "POST" path = Some ([], TenantExtractor noTenantConfig h) ->
  authsvc_Do svc NewLimiter Allow base ip call env s = (Ok resp, u) -> rs_status resp = 200%Z ->
  uuidRegex (header_get DefaultTenantHeader (hc_headers call)) = true /\
  exists n t, h (mkGinCtx (call_request ip call) (Some (header_get DefaultTenantHeader (hc_headers call)))) env
      (mkSt n (sv_app (st s))) = (Ok resp, t) /\ sv_app (st u) = st t.
Proof.
  intros Hm Hu Hp Hr H H200. rewrite <-Hu in Hp. rewrite <-Hm in Hr.
  destruct (authsvc_call ip call path [] (TenantExtractor noTenantConfig h) env s resp u Hp) as (n & t & E & Ha);
    [intros He; congruence|done|done|by rewrite H200..|].
  assert (header_get DefaultTenantHeader (sent_headers call) = header_get DefaultTenantHeader (hc_headers call)) as Hh
    by by apply sent_headers_other.
  destruct (uuidRegex (header_get DefaultTenantHeader (hc_headers call))) eqn:Hre.
  - split; [done|]. change (TenantExtractor noTenantConfig h (mkGinCtx (call_request ip call) None) env (mkSt n (sv_app (st s))) = (Ok resp, t)) in E.
    rewrite (TenantExtractor_run h (call_request ip call) _ Hh (uuidRegex_nonempty _ Hre) Hre) in E. by exists n, t.
  - exfalso. destruct (TenantExtractor_gate h (mkGinCtx (call_request ip call) None) env (mkSt n (sv_app (st s))))
      as [(Hre' & _)|(_ & body & Eb)].
    + change (uuidRegex (header_get DefaultTenantHeader (sent_headers call)) = true) in Hre'. congruence.
    + pose proof (eq_trans (eq_sym Eb) E) as [= <- _]. by cbn in H200.
Qed.

Lemma oauth_call ip call p path h env s resp u :
  hc_method call = "POST" -> hc_url call = base +:+ p -> request_path base (base +:+ p) = Some path ->
  resolve app_routes "POST" path = Some ([], TenantExtractor noTenantConfig (at_auth h)) ->
  authsvc_Do svc NewLimiter Allow base ip call env s = (Ok resp, u) -> rs_status resp = 200%Z ->
  exists n t tn, h (mkGinCtx (call_request ip call) tn) env (mkSt n (ap_auth (sv_app (st s)))) = (Ok resp, t) /\
    ap_auth (sv_app (st u)) = st t.
Proof.
  intros Hm Hu Hp Hr H H200.
  destruct (protected_call ip call p path (at_auth h) env s resp u) as (_ & n & t & E & Ha); [done..|].
  unfold at_auth in E. apply zoom_Ok_inv in E as (v & Ev & ->). exists n, v. eexists. split; [exact Ev|]. by rewrite Ha.
Qed.

(** Property C3. Once the process has answered a revocation with 200, the
    token stays revoked: after any calls to any of its routes, from any
    addresses, introspection over HTTP answers that it is inactive, and the
    refresh grant does not answer 200 for it. *)
Theorem authsvc_revocation_final `{!RevocationLaws V} tok hint ip call resp env s s1 s2 :
  hc_method call = "POST" -> hc_url call = base +:+ "/oauth2/revoke" ->
  should_bind (call_request ip call) = inl (mkRevokeRequest tok hint) ->
  authsvc_Do svc NewLimiter Allow base ip call env s = (Ok resp, s1) -> rs_status resp = 200%Z ->
  serving env s1 s2 ->
  (forall ip' call' hint' resp' u, hc_method call' = "POST" -> hc_url call' = base +:+ "/oauth2/introspect" ->
     should_bind (call_request ip' call') = inl (mkIntrospectRequest tok hint') ->
     authsvc_Do svc NewLimiter Allow base ip' call' env s2 = (Ok resp', u) -> rs_status resp' = 200%Z ->
     rs_body resp' = IntrospectResponse_json inactive) /\
  (forall ip' call' req resp' u, hc_method call' = "POST" -> hc_url call' = base +:+ "/oauth2/token" ->
     should_bind (call_request ip' call') = inl req -> tr_GrantType req = "refresh_token" -> tr_RefreshToken req = tok ->
     authsvc_Do svc NewLimiter Allow base ip' call' env s2 = (Ok resp', u) -> rs_status resp' <> 200%Z).
Proof.
  intros Hm Hu Hb H H200 Hserve.
  assert (revoked (au_revoked (ap_auth (sv_app (st s2)))) tok) as Hgone.
  { refine (serving_preserves (fun a => revoked (au_revoked (ap_auth a)) tok) env s1 s2 (gone_routes tok) Hserve _).
    destruct (oauth_call ip call "/oauth2/revoke" ["oauth2"; "revoke"] revoke env s resp s1) as (n & t & tn & E & Ha);
      [done|done|by apply (request_path_app base _ "oauth2/revoke")|reflexivity|done|done|].
    rewrite Ha. unfold revoke, bound, validated in E. cbn [gc_request] in E. rewrite Hb in E.
    destruct (validate_struct _); [apply ret_Ok_inv in E as [<- _]; by cbn in H200|].
    apply bind_Ok_inv in E as (r & t' & Er & E). apply attempt_Ok_inv in Er as [([] & -> & Er)|(e & -> & _)].
    - apply ret_Ok_inv in E as [_ <-]. by apply Revoke_revoked in Er.
    - apply ret_Ok_inv in E as [<- _]. by cbn in H200. }
  split.
  - intros ip' call' hint' resp' u Hm' Hu' Hb' H' H200'.
    destruct (oauth_call ip' call' "/oauth2/introspect" ["oauth2"; "introspect"] (introspect (as_cfg svc)) env s2 resp' u)
      as (n & t & tn & E & _); [done|done|by apply (request_path_app base _ "oauth2/introspect")|reflexivity|done|done|].
    unfold introspect, bound, validated in E. cbn [gc_request] in E. rewrite Hb' in E.
    destruct (validate_struct _); [apply ret_Ok_inv in E as [<- _]; by cbn in H200'|].
    apply bind_Ok_inv in E as (r & t' & Er & E). apply attempt_Ok_inv in Er as [(ans & -> & Er)|(e & -> & _)];
      apply ret_Ok_inv in E as [<- _]; [|by cbn in H200'].
    by apply Introspect_revoked in Er as ->.
  - intros ip' call' req resp' u Hm' Hu' Hb' Hg Ht H' H200'.
    destruct (oauth_call ip' call' "/oauth2/token" ["oauth2"; "token"] (token (as_cfg svc)) env s2 resp' u)
      as (n & t & tn & E & _); [done|done|by apply (request_path_app base _ "oauth2/token")|reflexivity|done|done|].
    unfold token, bound, validated in E. cbn [gc_request] in E. rewrite Hb' in E.
    destruct (validate_struct _); [apply ret_Ok_inv in E as [<- _]; by cbn in H200'|].
    apply bind_Ok_inv in E as (r & t' & Er & E). apply attempt_Ok_inv in Er as [(ans & -> & Er)|(e & -> & _)].
    + eapply Token_revoked; [|exact Hg|exact Er]. by rewrite Ht.
    + apply ret_Ok_inv in E as [<- _]. by apply oauth_failure_status in H200'.
Qed.

(** *** What a deployment lacks *)

(** Without a store of federated identities, as [main] starts the service, no
    social login succeeds: the nil store panics. *)
Lemma social_login_unavailable ip call env s resp u :
  sv_federationStore (as_parts svc) = false ->
  hc_method call = "POST" -> hc_url call = base +:+ "/social/login" ->
  authsvc_Do svc NewLimiter Allow base ip call env s = (Ok resp, u) -> rs_status resp <> 200%Z.
Proof.
  intros Hf Hm Hu H H200.
  destruct (protected_call ip call "/social/login" ["social"; "login"]
    (at_social (socialLogin (as_cfg svc) (as_lc svc) (sv_ssoProviderStore (as_parts svc)) (sv_federationStore (as_parts svc))))
    env s resp u) as (_ & n & t & E & _);
    [done|done|by apply (request_path_app base _ "social/login")|reflexivity|done|done|].
  rewrite Hf in E. apply zoom_Ok_inv in E as (v & Ev & _). unfold socialLogin, bound, validated in Ev.
  destruct (should_bind _); [|apply ret_Ok_inv in Ev as [<- _]; by cbn in H200].
  destruct (validate_struct _); [apply ret_Ok_inv in Ev as [<- _]; by cbn in H200|].
  apply or_respond_Ok_inv in Ev as [(tok & w & Ew & _)|(e & _ & ->)].
  - unfold SocialLogin in Ew. minv; match goal with E : federated_user _ false _ _ _ _ _ _ _ = _ |- _ => done end.
  - by apply oauth_failure_status in H200.
Qed.
End Process.

(** ** The deployment

    The Postgres token stores, and a database without webauthn_credentials. *)
Section Deployed.
Context {crypto : Crypto} {totp : Totp}.
Context {V O D X L T SD Y P Q F B : Type}.
Context `{!RevocationStore V, !OAuthStore O, !DeviceStore D}.
Context {peer : HttpPeer X} `{!LoginAttemptStore L, !TOTPStore T} {webauthn : WebAuthn SD}
  {samlidp : SamlIdp Y} {idp : OAuth2 P} {providers : SSOProviderStore Q} {links : FederationStore F}
  {branding : BrandingStore B} {apps : DeveloperAppStore}.
Context `{!Binder LoginRequest, !Validator LoginRequest, !Binder MFALoginRequest, !Binder SignupRequest,
          !Binder LookupRequest, !Binder AuthorizeRequest, !Validator AuthorizeRequest, !Binder TokenRequest,
          !Validator TokenRequest, !Binder IntrospectRequest, !Validator IntrospectRequest, !Binder RevokeRequest,
          !Validator RevokeRequest, !Binder TOTPEnrollRequest, !Binder TOTPVerifyRequest,
          !Binder RegisterDeviceRequest, !Binder UpdatePostureRequest, !Binder IngestSignalRequest,
          !Binder BeginLoginRequest, !Binder SocialLoginRequest, !Validator SocialLoginRequest,
          !Binder BrandingConfig, !Binder ServiceProvider, !Binder CreateAppRequest, !Binder CreateAPIKeyRequest}.
Context {gin : GinRedirect} {prom : PromHttp} {Lim : Type} (NewLimiter : Lim) (Allow : Z -> Lim -> bool * Lim).
Context (svc : AuthService) (base : string).

Abbreviation Auth := (AuthState (list authorizationCode) (list refreshTokenEntry) V O D SignalDb).
Abbreviation App := (AuthApp Auth X L T Credentials SD Y P Q F B).
Abbreviation Srv := (Server (gmap string Lim) App).
Abbreviation no_table := (fun a : App => ap_creds a = None).

#[local] Ltac elsewhere := apply (preserves_zoom _ (fun _ => True)); [done|by intros|done].

Lemma no_table_statement {A} (m : M (list WebAuthnCredentialEntity) A) env s :
  st s = None -> on_credentials m env s = (Err err_no_table, s).
Proof. intros Hs. unfold on_credentials, bind, gets. by rewrite Hs. Qed.

Lemma no_table_repository userID tenantID cred :
  preserves (fun w : Credentials => w = None) (wa_ListCredentials userID) /\
  preserves (fun w : Credentials => w = None) (wa_SaveCredential tenantID userID cred) /\
  preserves (fun w : Credentials => w = None) (wa_UpdateCredential cred).
Proof.
  assert (forall A (m : M (list WebAuthnCredentialEntity) A), preserves (fun w => w = None) (on_credentials m)) as Hm.
  { intros A m env s Hs. by rewrite no_table_statement. }
  cbn. unfold repository_ListCredentials, repository_SaveCredential, repository_UpdateCredential.
  split_and!; effects.
Qed.

Lemma no_table_passkeys c :
  preserves no_table (at_passkeys beginWebAuthnRegistration c) /\ preserves no_table (at_passkeys finishWebAuthnRegistration c) /\
  preserves no_table (at_passkeys beginWebAuthnLogin c) /\ preserves no_table (at_passkeys (finishWebAuthnLogin (as_cfg svc)) c).
Proof.
  set (I := fun p : PasskeyState Auth Credentials SD => pk_creds p = None).
  assert (forall {A} (m : M Credentials A), preserves (fun w => w = None) m -> preserves I (in_pk_creds m)) as Hin
    by (intros; by apply (preserves_zoom _ (fun w => w = None))).
  assert (forall a, preserves I (in_pk_creds (wa_ListCredentials a))) by (intros; apply Hin, (no_table_repository a a (mkCredential a a a a 0 false))).
  assert (forall a b d, preserves I (in_pk_creds (wa_SaveCredential a b d))) by (intros; apply Hin, no_table_repository).
  assert (forall d, preserves I (in_pk_creds (wa_UpdateCredential d))) by (intros; apply Hin, (no_table_repository estr estr d)).
  assert (forall {A} (m : M Auth A), preserves I (in_pk_auth m)) by (intros; elsewhere).
  assert (forall k v, preserves I (set_session k v)) by (intros; apply preserves_modify; done).
  assert (forall k, preserves I (delete_session k)) by (intros; apply preserves_modify; done).
  assert (forall a, preserves I (BeginWebAuthnRegistration a)) by (intros; unfold BeginWebAuthnRegistration, decoded; effects).
  assert (forall a b d, preserves I (FinishWebAuthnRegistration a b d)) by (intros; unfold FinishWebAuthnRegistration, decoded; effects).
  assert (forall a, preserves I (BeginWebAuthnLogin a)) by (intros; unfold BeginWebAuthnLogin, decoded; effects).
  assert (forall a b d, preserves I (FinishWebAuthnLogin (as_cfg svc) a b d)) by (intros; unfold FinishWebAuthnLogin, decoded; effects).
  split_and!; (apply (preserves_zoom _ I); [done|done|]);
    unfold beginWebAuthnRegistration, finishWebAuthnRegistration, beginWebAuthnLogin, finishWebAuthnLogin; cbv zeta; effects.
Qed.

Lemma no_table_lookup c : preserves no_table (at_lookup (lookupUser (as_lc svc)) c).
Proof.
  set (I := fun p : X * Credentials => snd p = None).
  assert (forall {A} (m : M X A), preserves I (on_peer m)) by (intros; elsewhere).
  assert (forall a, preserves I (on_creds (wa_ListCredentials a))).
  { intros a. apply (preserves_zoom _ (fun w => w = None)); [done|done|].
    apply (no_table_repository a a (mkCredential a a a a 0 false)). }
  assert (forall a, preserves I (AuthApi.discoverTenant (as_lc svc) a))
    by (intros; unfold AuthApi.discoverTenant, http_NewRequest, decoded; effects).
  assert (forall a b, preserves I (LookupUser (as_lc svc) a b)) by (intros; unfold LookupUser, http_NewRequest, decoded; effects).
  apply (preserves_zoom _ I); [done|done|]. unfold lookupUser, bound. effects.
Qed.

Lemma no_table_routes r c : r ∈ (authsvc_app_routes svc : list (Route App)) -> preserves no_table (ro_handler r c).
Proof.
  assert (forall h c, preserves no_table (at_login h c)) as H0 by (intros; elsewhere).
  assert (forall h c, preserves no_table (at_auth h c)) as H1 by (intros; elsewhere).
  assert (forall h c, preserves no_table (at_totp h c)) as H2 by (intros; elsewhere).
  assert (forall h c, preserves no_table (at_saml h c)) as H3 by (intros; elsewhere).
  assert (forall h c, preserves no_table (at_branding h c)) as H4 by (intros; elsewhere).
  assert (forall h c, preserves no_table (at_sps h c)) as H5 by (intros; elsewhere).
  assert (forall h c, preserves no_table (at_dev h c)) as H6 by (intros; elsewhere).
  assert (forall h c, preserves no_table (at_social h c)) as H7 by (intros; elsewhere).
  assert (preserves no_table (jwks svc c)) as H9 by (unfold jwks; effects).
  unfold authsvc_app_routes, auth_RegisterRoutes, registerWebAuthnRoutes, RegisterTOTPRoutes, RegisterBrandingRoutes,
    saml_RegisterRoutes, developer_RegisterRoutes, at_devices, at_signals.
  destruct (sv_samlProvider (as_parts svc)); cbv zeta; cbn [app]; intros Hr;
    repeat (apply elem_of_cons in Hr as [->|Hr]; [cbn [ro_handler handle GET POST PUT DELETE g_use Use Gin.Group root];
      first [apply TenantExtractor_preserves; intros c'|idtac];
      first [apply H0|apply H1|apply H2|apply H3|apply H4|apply H5|apply H6|apply H7|apply H9
            |apply no_table_passkeys|apply no_table_lookup]|]); by apply elem_of_nil in Hr.
Qed.

(** A passkey handler that needs the table. *)
Lemma passkey_call ip call p path h env s resp u :
  hc_method call = "POST" -> hc_url call = base +:+ p -> request_path base (base +:+ p) = Some path ->
  resolve (authsvc_app_routes svc : list (Route App)) "POST" path = Some ([], TenantExtractor noTenantConfig (at_passkeys h)) ->
  ap_creds (sv_app (st s)) = None ->
  (forall c v v', pk_creds (st v) = None -> h c env v = (Ok resp, v') -> rs_status resp <> 200%Z) ->
  authsvc_Do svc NewLimiter Allow base ip call env (s : St Srv) = (Ok resp, u) -> rs_status resp <> 200%Z.
Proof.
  intros Hm Hu Hp Hr Hn Hh H H200.
  destruct (protected_call NewLimiter Allow svc base ip call p path (at_passkeys h) env s resp u) as (_ & n & t & E & _); [done..|].
  apply zoom_Ok_inv in E as (v & Ev & _). cbn [tick st] in Ev.
  by apply (Hh _ (mkSt n (mkPasskey (ap_auth (sv_app (st s))) (ap_creds (sv_app (st s))) (ap_sessions (sv_app (st s))))) v Hn Ev).
Qed.

Lemma no_list {A} userID (k : list Credential -> M (PasskeyState Auth Credentials SD) A) env s :
  pk_creds (st s) = None -> bind (in_pk_creds (wa_ListCredentials userID)) k env s = (Err err_no_table, s).
Proof.
  intros Hs. apply bind_Err. unfold in_pk_creds, zoom. cbn. unfold repository_ListCredentials.
  rewrite (bind_Err _ _ _ _ err_no_table (mkSt (tick s) (pk_creds (st s)))) by (by apply no_table_statement).
  cbn. by destruct s as [? []].
Qed.

Lemma no_save tenantID userID cred env (s : St (PasskeyState Auth Credentials SD)) r u :
  pk_creds (st s) = None -> in_pk_creds (wa_SaveCredential tenantID userID cred) env s <> (Ok r, u).
Proof.
  intros Hs (t & E & _)%zoom_Ok_inv. cbn in E. by rewrite Hs in E.
Qed.

(** The handlers that need the table. *)
Lemma no_registration c env v resp v' :
  pk_creds (st v) = None -> finishWebAuthnRegistration c env (v : St (PasskeyState Auth Credentials SD)) = (Ok resp, v') ->
  rs_status resp <> 200%Z.
Proof.
  intros Hv E H200. unfold finishWebAuthnRegistration in E. cbv zeta in E. minv; try by cbn in H200.
  match goal with E : attempt _ _ _ = _ |- _ => apply attempt_Ok_inv in E as [(x & _ & E)|(x & ? & _)]; [|done];
    unfold FinishWebAuthnRegistration in E; apply bind_Ok_inv in E as (cred & t1 & [_ ->]%decoded_Ok_inv & E);
    by apply no_save in E end.
Qed.

Lemma no_begin `{!Binder BeginLoginRequest} c env v resp v' :
  pk_creds (st v) = None -> beginWebAuthnLogin c env (v : St (PasskeyState Auth Credentials SD)) = (Ok resp, v') ->
  rs_status resp <> 200%Z.
Proof.
  intros Hv E H200. unfold beginWebAuthnLogin, bind at 1, attempt, BeginWebAuthnLogin in E.
  destruct (should_bind _) as [req|]; [|apply ret_Ok_inv in E as [<- _]; by cbn in H200].
  rewrite no_list in E by done. apply ret_Ok_inv in E as [<- _]. by cbn in H200.
Qed.

Lemma no_login c env v resp v' :
  pk_creds (st v) = None -> finishWebAuthnLogin (as_cfg svc) c env (v : St (PasskeyState Auth Credentials SD)) = (Ok resp, v') ->
  rs_status resp <> 200%Z.
Proof.
  intros Hv E H200. unfold finishWebAuthnLogin in E. cbv zeta in E. minv; try by cbn in H200.
  match goal with E : attempt _ _ _ = _ |- _ => apply attempt_Ok_inv in E as [(x & _ & E)|(x & ? & _)]; [|done];
    unfold FinishWebAuthnLogin in E; by rewrite no_list in E end.
Qed.

(** Property C12. As cmd/authsvc is deployed (the Postgres token stores, no store
    of federated identities, and a schema whose migrations create no
    webauthn_credentials), whatever calls came before: the token endpoint
    answers 200 only to client credentials, and neither social login nor the
    completion of a passkey's registration or login is ever answered 200. *)
Theorem deployment_limits env s0 s ip call resp u :
  sqlx_strict env -> sv_federationStore (as_parts svc) = false -> ap_creds (sv_app (st s0)) = None ->
  serving NewLimiter Allow svc base env s0 s ->
  hc_method call = "POST" -> authsvc_Do svc NewLimiter Allow base ip call env (s : St Srv) = (Ok resp, u) ->
  rs_status resp = 200%Z ->
  (hc_url call = base +:+ "/oauth2/token" ->
     exists req, should_bind (call_request ip call) = inl req /\ tr_GrantType req = "client_credentials") /\
  hc_url call <> base +:+ "/social/login" /\
  hc_url call <> base +:+ "/mfa/webauthn/register/finish" /\
  hc_url call <> base +:+ "/mfa/webauthn/login/begin" /\
  hc_url call <> base +:+ "/mfa/webauthn/login/finish".
Proof.
  intros Hstrict Hf Hn Hs Hm H H200.
  assert (ap_creds (sv_app (st s)) = None) as Hnone
    by exact (serving_preserves NewLimiter Allow svc base no_table env s0 s no_table_routes Hs Hn).
  split_and!.
  - intros Hu. destruct (oauth_call NewLimiter Allow svc base ip call "/oauth2/token" ["oauth2"; "token"] (token (as_cfg svc)) env s resp u)
      as (n & t & tn & E & _); [done|done|by apply (request_path_app base _ "oauth2/token")|reflexivity|done|done|].
    unfold token, bound, validated in E. cbn [gc_request] in E. destruct (should_bind (call_request ip call)) as [req|]; cycle 1.
    { apply ret_Ok_inv in E as [<- _]. by cbn in H200. }
    exists req. split; [done|]. destruct (validate_struct _); [apply ret_Ok_inv in E as [<- _]; by cbn in H200|].
    apply bind_Ok_inv in E as (r & t' & Er & E). apply attempt_Ok_inv in Er as [(ans & -> & Er)|(e & -> & _)].
    + destruct (decide (tr_GrantType req = "authorization_code" \/ tr_GrantType req = "refresh_token")) as [Hg|Hg];
        [by apply sql_grants_fail in Er|].
      unfold Token in Er. apply bind_Ok_inv in Er as (tid & t1 & _ & Er).
      rewrite decide_False in Er by tauto. case_decide; [done|]. rewrite decide_False in Er by tauto. done.
    + apply ret_Ok_inv in E as [<- _]. by apply oauth_failure_status in H200.
  - intros Hu. by apply (social_login_unavailable NewLimiter Allow svc base) in H.
  - intros Hu. revert H200. refine (passkey_call ip call _ ["mfa"; "webauthn"; "register"; "finish"] finishWebAuthnRegistration env s resp u
      Hm Hu _ eq_refl Hnone _ H); [by apply (request_path_app base _ "mfa/webauthn/register/finish")|].
    intros c v v'. apply no_registration.
  - intros Hu. revert H200. refine (passkey_call ip call _ ["mfa"; "webauthn"; "login"; "begin"] beginWebAuthnLogin env s resp u
      Hm Hu _ eq_refl Hnone _ H); [by apply (request_path_app base _ "mfa/webauthn/login/begin")|].
    intros c v v'. apply no_begin.
  - intros Hu. revert H200. refine (passkey_call ip call _ ["mfa"; "webauthn"; "login"; "finish"] (finishWebAuthnLogin (as_cfg svc)) env s resp u
      Hm Hu _ eq_refl Hnone _ H); [by apply (request_path_app base _ "mfa/webauthn/login/finish")|].
    intros c v v'. apply no_login.
Qed.
End Deployed.
