(* ===== verification/GovSvc.v ===== *)
(** * The governance process

    cmd/govsvc: the state of the whole process, the routes of its nine handlers
    on gin's router, the CORS configuration read from the environment, and
    [main] up to the running server. gin-contrib/cors is a parameter with the
    behaviour its documentation gives.

    Also here: the servers of cmd/policysvc and cmd/provsvc, which answer health
    checks only. *)
From S2P Require Import Prelude Bcrypt GoStd GoUrl Sha256 Sql Http Middleware.
From S2P Require Import OAuthClient AuthSvc Governance Campaigns Rbac AuditLog Organizations Sso Webhooks.
From S2P Require Import Connectors GovConnectors Gin Server.
Local Open Scope go_scope.

(** ** The state of the process *)

Record GovApp (G K B A S N : Type) : Type := mkGovApp {
  ga_gov : G;
  ga_campaigns : K;
  ga_rbac : B;
  ga_audit : A;
  ga_orgs : list org_row;
  ga_sso : S;
  ga_connectors : N;
  ga_webhooks : list Webhook
}.
Arguments mkGovApp {G K B A S N}.
Arguments ga_gov {G K B A S N} _.
Arguments ga_campaigns {G K B A S N} _.
Arguments ga_rbac {G K B A S N} _.
Arguments ga_audit {G K B A S N} _.
Arguments ga_orgs {G K B A S N} _.
Arguments ga_sso {G K B A S N} _.
Arguments ga_connectors {G K B A S N} _.
Arguments ga_webhooks {G K B A S N} _.

(** [HealthCheckResponse] and [healthCheck] of the three services: the check
    itself always succeeds. *)
Definition HealthCheckResponse_json (healthy : bool) : json := JObj [("healthy", JBool healthy)].

Definition HealthCheck {S} : M S bool := ret true.

Definition healthCheck {S} : Handler S :=
  fun _ => or_respond (verbatim 500) HealthCheck (fun ok => ret (respond 200 (HealthCheckResponse_json ok))).

Section Process.
Context {bcrypt : Bcrypt} {dns : Resolver}.
Context {C R X K B A S D N W : Type}.
Context `{!OAuthStore C, !RequestStore R, !DirectoryClient X, !Engine, !CampaignStore K, !RbacStore B}
  {audits : AuditStore A} {orgs : OrganizationStore} {ssos : SsoStore S} `{!ConnectorStore D, !Connector N W}.
Context `{!Binder CreateOAuthClientInput, !Binder UpdateOAuthClientInput, !Binder CreateAccessRequestBody,
          !Binder ApprovalDecision, !Binder CreateCampaignInput, !Binder CertificationItem, !Binder CommentBody,
          !Binder RoleBody, !Binder PermissionBody, !Binder CreateOrganizationRequest, !Binder UpdateOrganizationRequest,
          !Binder Provider, !Binder ToggleProviderBody, !Binder Config, !Binder ToggleBody, !Binder WebhookRequest}.

Abbreviation App := (GovApp (GovState C R X) K B A S (ConnectorState D N W)).
Abbreviation RG := (RouterGroup App).

(** Each group of handlers on its part of the state. *)
Definition at_gov (h : Handler (GovState C R X)) : Handler App :=
  fun c => zoom ga_gov (fun x a => mkGovApp x (ga_campaigns a) (ga_rbac a) (ga_audit a) (ga_orgs a) (ga_sso a)
                                     (ga_connectors a) (ga_webhooks a)) (h c).
Definition at_campaigns (h : Handler K) : Handler App :=
  fun c => zoom ga_campaigns (fun x a => mkGovApp (ga_gov a) x (ga_rbac a) (ga_audit a) (ga_orgs a) (ga_sso a)
                                           (ga_connectors a) (ga_webhooks a)) (h c).
Definition at_rbac (h : Handler B) : Handler App :=
  fun c => zoom ga_rbac (fun x a => mkGovApp (ga_gov a) (ga_campaigns a) x (ga_audit a) (ga_orgs a) (ga_sso a)
                                      (ga_connectors a) (ga_webhooks a)) (h c).
Definition at_audit (h : Handler A) : Handler App :=
  fun c => zoom ga_audit (fun x a => mkGovApp (ga_gov a) (ga_campaigns a) (ga_rbac a) x (ga_orgs a) (ga_sso a)
                                       (ga_connectors a) (ga_webhooks a)) (h c).
Definition at_orgs (h : Handler (list org_row)) : Handler App :=
  fun c => zoom ga_orgs (fun x a => mkGovApp (ga_gov a) (ga_campaigns a) (ga_rbac a) (ga_audit a) x (ga_sso a)
                                      (ga_connectors a) (ga_webhooks a)) (h c).
Definition at_sso (h : Handler S) : Handler App :=
  fun c => zoom ga_sso (fun x a => mkGovApp (ga_gov a) (ga_campaigns a) (ga_rbac a) (ga_audit a) (ga_orgs a) x
                                     (ga_connectors a) (ga_webhooks a)) (h c).
Definition at_connectors (h : Handler (ConnectorState D N W)) : Handler App :=
  fun c => zoom ga_connectors (fun x a => mkGovApp (ga_gov a) (ga_campaigns a) (ga_rbac a) (ga_audit a) (ga_orgs a)
                                            (ga_sso a) x (ga_webhooks a)) (h c).
Definition at_webhooks (h : Handler (list Webhook)) : Handler App :=
  fun c => zoom ga_webhooks (fun x a => mkGovApp (ga_gov a) (ga_campaigns a) (ga_rbac a) (ga_audit a) (ga_orgs a)
                                          (ga_sso a) (ga_connectors a) x) (h c).

(** ** Routes *)

(** [h.RegisterRoutes(router)] of internal/governance/api.go *)
Definition governance_RegisterRoutes : list (Route App) :=
  let tenantGroup := Use (Group root "/api/v1") (TenantExtractor noTenantConfig) in
  let clients := Group tenantGroup "/oauth/clients" in
  let requests := Group tenantGroup "/governance/requests" in
  [GET root "/health" healthCheck;
   GET clients estr (at_gov listOAuthClients);
   POST clients estr (at_gov createOAuthClient);
   GET clients "/:clientID" (at_gov getOAuthClient);
   PUT clients "/:clientID" (at_gov updateOAuthClient);
   DELETE clients "/:clientID" (at_gov deleteOAuthClient);
   POST requests estr (at_gov createAccessRequest);
   GET requests estr (at_gov listAccessRequests);
   POST requests "/:accessRequestID/approve" (at_gov approveAccessRequest);
   POST requests "/:accessRequestID/reject" (at_gov rejectAccessRequest)].

Definition campaign_RegisterRoutes (rg : RG) : list (Route App) :=
  let campaigns := Group rg "/campaigns" in
  [POST campaigns estr (at_campaigns createCampaign);
   GET campaigns estr (at_campaigns listCampaigns);
   GET campaigns "/:id" (at_campaigns getCampaign);
   POST campaigns "/:id/start" (at_campaigns startCampaign);
   POST campaigns "/:id/complete" (at_campaigns completeCampaign);
   POST campaigns "/:id/cancel" (at_campaigns cancelCampaign);
   DELETE campaigns "/:id" (at_campaigns deleteCampaign);
   POST campaigns "/:id/items" (at_campaigns addReviewItem);
   GET campaigns "/:id/items" (at_campaigns listPendingItems);
   GET campaigns "/items" (at_campaigns listReviewItems);
   POST campaigns "/:id/items/:itemId/approve" (at_campaigns approveItem);
   POST campaigns "/:id/items/:itemId/revoke" (at_campaigns revokeItem)].

Definition rbac_RegisterRoutes (rg : RG) : list (Route App) :=
  let roles := Group rg "/roles" in
  let perms := Group rg "/permissions" in
  let users := Group rg "/users" in
  [POST roles estr (at_rbac createRole);
   GET roles estr (at_rbac listRoles);
   GET roles "/:id" (at_rbac getRole);
   PUT roles "/:id" (at_rbac updateRole);
   DELETE roles "/:id" (at_rbac deleteRole);
   GET roles "/:id/permissions" (at_rbac getRolePermissions);
   POST roles "/:id/permissions/:permId" (at_rbac assignPermissionToRole);
   DELETE roles "/:id/permissions/:permId" (at_rbac removePermissionFromRole);
   POST perms estr (at_rbac createPermission);
   GET perms estr (at_rbac listPermissions);
   GET users "/:userId/roles" (at_rbac getUserRoles);
   POST users "/:userId/roles/:roleId" (at_rbac assignRoleToUser);
   DELETE users "/:userId/roles/:roleId" (at_rbac removeRoleFromUser);
   GET users "/:userId/permissions" (at_rbac getUserPermissions)].

Definition audit_RegisterRoutes (rg : RG) : list (Route App) :=
  let audit := Group rg "/audit" in
  [GET audit estr (at_audit queryLogs);
   GET audit "/export" (at_audit exportLogs);
   GET audit "/:id" (at_audit getEvent)].

Definition organization_RegisterRoutes (rg : RG) : list (Route App) :=
  let orgs := Group rg "/organizations" in
  [GET orgs estr (at_orgs listOrganizations);
   POST orgs estr (at_orgs createOrganization);
   GET orgs "/:id" (at_orgs getOrganization);
   PUT orgs "/:id" (at_orgs updateOrganization);
   DELETE orgs "/:id" (at_orgs deleteOrganization)].

Definition domain_RegisterRoutes (rg : RG) : list (Route App) :=
  [GET rg "/organizations/:id/domain-verification" (at_orgs getDomainVerification);
   POST rg "/organizations/:id/domain-verification/generate" (at_orgs generateVerificationToken);
   POST rg "/organizations/:id/domain-verification/verify" (at_orgs verifyDomain)].

Definition sso_RegisterRoutes (rg : RG) : list (Route App) :=
  let sso := Group rg "/sso/providers" in
  [GET sso estr (at_sso sso_listProviders);
   POST sso estr (at_sso sso_createProvider);
   GET sso "/:id" (at_sso sso_getProvider);
   PUT sso "/:id" (at_sso sso_updateProvider);
   DELETE sso "/:id" (at_sso sso_deleteProvider);
   POST sso "/:id/toggle" (at_sso sso_toggleProvider)].

Definition connector_RegisterRoutes (rg : RG) : list (Route App) :=
  let g := Group rg "/connectors" in
  [GET g estr (at_connectors listConnectors);
   POST g estr (at_connectors createConnector);
   GET g "/:id" (at_connectors getConnector);
   PUT g "/:id" (at_connectors updateConnector);
   DELETE g "/:id" (at_connectors deleteConnector);
   POST g "/:id/toggle" (at_connectors toggleConnector);
   POST g "/test" (at_connectors testConnection)].

Definition webhook_RegisterRoutes (rg : RG) : list (Route App) :=
  let hooks := Group rg "/webhooks" in
  [POST hooks estr (at_webhooks createWebhook);
   GET hooks estr (at_webhooks listWebhooks);
   DELETE hooks "/:id" (at_webhooks deleteWebhook)].

(** The routes [main] registers, but for the metrics. *)
Definition govsvc_app_routes : list (Route App) :=
  let apiGroup := Use (Group root "/api/v1") (TenantExtractor noTenantConfig) in
  governance_RegisterRoutes ++ campaign_RegisterRoutes apiGroup ++ rbac_RegisterRoutes apiGroup
  ++ audit_RegisterRoutes apiGroup ++ organization_RegisterRoutes apiGroup ++ domain_RegisterRoutes apiGroup
  ++ sso_RegisterRoutes apiGroup ++ connector_RegisterRoutes apiGroup ++ webhook_RegisterRoutes apiGroup.
End Process.

(** ** cmd/policysvc and cmd/provsvc

    Their routes, with nothing but [gin.Default()] around them. *)
Definition policy_RegisterRoutes {S} : list (Route S) := [GET root "/health" healthCheck].
Definition provisioning_RegisterRoutes {S} : list (Route S) := [GET root "/health" healthCheck].

Definition bare_Do {S} {gin : GinRedirect} (routes : list (Route S)) (base ip : string) : HttpPeer S :=
  fun call =>
    match request_path base (hc_url call) with
    | None => fail (ErrLib "dial tcp: connection refused")
    | Some path => serve (engine routes id (hc_method call) path) (mkGinCtx (call_request ip call) None)
    end.

Definition policysvc_Do {S} {gin : GinRedirect} : string -> string -> HttpPeer S := bare_Do policy_RegisterRoutes.
Definition provsvc_Do {S} {gin : GinRedirect} : string -> string -> HttpPeer S := bare_Do provisioning_RegisterRoutes.

(** ** CORS *)

(** [parseCSV(value)] *)
Definition parseCSV (value : string) : list string :=
  filter (fun trimmed => trimmed <> estr) (map strings_TrimSpace (strings_Split value (byte 44))).

Definition allowsAllOrigins (origins : list string) : bool := existsb (fun origin => bool_decide (origin = "*")) origins.

(** [cors.Config], of the fields [main] sets *)
Record CorsConfig : Type := mkCorsConfig {
  co_AllowMethods : list string;
  co_AllowHeaders : list string;
  co_ExposeHeaders : list string;
  co_MaxAge : Z;
  co_AllowAllOrigins : bool;
  co_AllowOrigins : list string
}.

Definition cors_config (origins : list string) : CorsConfig :=
  let all := allowsAllOrigins origins in
  mkCorsConfig ["GET"; "POST"; "PUT"; "DELETE"; "OPTIONS"] ["Origin"; "Content-Type"; "X-Tenant-ID"] ["Content-Length"]
    43200 all (if all then [] else origins).

(** What the middleware of gin-contrib/cors does with a request: it sets
    headers and goes on, or sets headers and ends the request. *)
Inductive CorsVerdict : Type :=
| CorsNext (headers : list (string * string))
| CorsAbort (status : Z) (headers : list (string * string)).

(** [config.Validate()], whose error [cors.New] panics with, and the verdict on
    a request by its Host, its method and its headers. *)
Class Cors : Type := {
  cors_Validate : CorsConfig -> option error;
  cors_verdict : CorsConfig -> string -> string -> list (string * string) -> CorsVerdict
}.

Definition same_origin (host origin : string) : Prop := origin = "http://" +:+ host \/ origin = "https://" +:+ host.

(** Documented: a request without an Origin, or with the server's own, is no
    cross-origin request; an origin that is not allowed is answered 403; an
    allowed one goes on, or gets the answer to its preflight. A configuration
    must allow some origin, and origins have a schema. *)
Class CorsLaws {cors : Cors} : Prop := {
  cors_no_origin : forall cfg host method hs, header_get "Origin" hs = estr -> cors_verdict cfg host method hs = CorsNext [];
  cors_own_origin : forall cfg host method hs, same_origin host (header_get "Origin" hs) ->
    cors_verdict cfg host method hs = CorsNext [];
  cors_refused : forall cfg host method hs origin, header_get "Origin" hs = origin -> origin <> estr ->
    ~ same_origin host origin -> co_AllowAllOrigins cfg = false -> "*" ∉ co_AllowOrigins cfg ->
    strings_ToLower origin ∉ map strings_ToLower (co_AllowOrigins cfg) ->
    exists headers, cors_verdict cfg host method hs = CorsAbort 403 headers;
  cors_allowed : forall cfg host method hs, header_get "Origin" hs <> estr -> method <> "OPTIONS" ->
    co_AllowAllOrigins cfg = true \/ header_get "Origin" hs ∈ co_AllowOrigins cfg ->
    exists headers, cors_verdict cfg host method hs = CorsNext headers;
  cors_preflight : forall cfg host hs, header_get "Origin" hs <> estr -> ~ same_origin host (header_get "Origin" hs) ->
    co_AllowAllOrigins cfg = true \/ header_get "Origin" hs ∈ co_AllowOrigins cfg ->
    exists headers, cors_verdict cfg host "OPTIONS" hs = CorsAbort 204 headers;
  cors_needs_origins : forall cfg, co_AllowAllOrigins cfg = false -> co_AllowOrigins cfg = [] ->
    is_Some (cors_Validate cfg);
  cors_valid_all : forall cfg, co_AllowAllOrigins cfg = true -> co_AllowOrigins cfg = [] -> cors_Validate cfg = None
}.

Section Server.
Context {gin : GinRedirect} {cors : Cors} {prom : PromHttp} {Lim S : Type} (NewLimiter : Lim) (Allow : Z -> Lim -> bool * Lim).
Abbreviation Srv := (Server (gmap string Lim) S).

Fixpoint set_headers (l : list (string * string)) : M Srv unit :=
  match l with [] => ret tt | (k, v) :: l => Header_Set k v;; set_headers l end.

(** [cors.New(cfg)], as middleware *)
Definition cors_middleware (cfg : CorsConfig) (host method : string) (next : Handler Srv) : Handler Srv :=
  fun c => match cors_verdict cfg host method (rq_headers (gc_request c)) with
           | CorsNext headers => set_headers headers;; next c
           | CorsAbort status headers => set_headers headers;; ret (respond_status status)
           end.

(** The middleware in the order of [router.Use]. *)
Definition govsvc_chain (routes : list (Route S)) (cfg : CorsConfig) (host method : string) (path : list string) : Handler Srv :=
  engine (map app_route routes ++ [metrics_route])
    (fun next =>
       PrometheusMiddleware method ("/" +:+ strings_Join path "/")
         (SecurityHeadersMiddleware
           (RateLimit NewLimiter Allow id (fun m _ => m) (cors_middleware cfg host method next))))
    method path.

Definition govsvc_Do (routes : list (Route S)) (cfg : CorsConfig) (host ip : string) : HttpPeer Srv :=
  server_Do ("http://" +:+ host) ip (govsvc_chain routes cfg host).
End Server.

(** ** Starting up *)

Section Start.
Context {host : Host} {cors : Cors} (connect : string -> option error).

Definition govsvc_db : DbConfig :=
  mkDbConfig (envOr "DB_HOST" "localhost") 5432 (envOr "DB_USER" "user") (envOr "DB_PASSWORD" "password")
    (envOr "DB_NAME" "identity_platform") (envOr "DB_SSLMODE" "disable").

Definition govsvc_cors : CorsConfig :=
  cors_config (parseCSV (envOr "CORS_ALLOWED_ORIGINS" "http://localhost:5173,http://127.0.0.1:5173")).

(** [main] up to [router.Run]: the address of the directory, the configuration
    of the middleware and the metrics. *)
Definition govsvc_main : M MetricNames (string * CorsConfig * Metrics) :=
  NewConnection connect govsvc_db;;
  let dirSvcURL := envOr "DIRSVC_URL" "http://localhost:8081" in
  metrics <- NewMetrics;;
  match cors_Validate govsvc_cors with
  | Some err => panic (error_string err)
  | None => ret (dirSvcURL, govsvc_cors, metrics)
  end.
End Start.

(** * What the process guarantees *)

(** ** Origins *)

(** The parts between the commas, trimmed, but for empty ones. *)
Lemma parseCSV_elem o value :
  o ∈ parseCSV value <-> o <> estr /\ exists part, part ∈ strings_Split value (byte 44) /\ strings_TrimSpace part = o.
Proof.
  unfold parseCSV. rewrite list_elem_of_filter, list_elem_of_fmap. split.
  - intros [Hne (part & -> & Hp)]. eauto.
  - intros [Hne (part & Hp & <-)]. eauto.
Qed.

Lemma allowsAllOrigins_iff l : allowsAllOrigins l = true <-> "*" ∈ l.
Proof.
  unfold allowsAllOrigins. rewrite existsb_exists. split.
  - intros (o & Ho & ->%bool_decide_eq_true). by apply list_elem_of_In.
  - intros Ho%list_elem_of_In. exists "*". by rewrite bool_decide_eq_true_2.
Qed.

Section Facts.
Context {gin : GinRedirect} {cors : Cors} {prom : PromHttp} {Lim S : Type} (NewLimiter : Lim) (Allow : Z -> Lim -> bool * Lim).
Context (routes : list (Route S)).
Abbreviation Srv := (Server (gmap string Lim) S).
Abbreviation chain := (govsvc_chain (S := S) NewLimiter Allow routes).
Abbreviation redirected := (slash_redirect (map app_route routes ++ [metrics_route] : list (Route Srv))).

Lemma set_headers_app l env (s : St Srv) :
  exists h, set_headers l env s = (Ok tt, mkSt (tick s) (mkServer h (sv_limiters (st s)) (sv_metrics (st s)) (sv_app (st s)))).
Proof.
  revert s. induction l as [|[k v] l IH]; intros [n [h lim m a]]; [by exists h|]. cbn [set_headers]. unfold bind.
  match goal with |- context [Header_Set k v env ?s] => destruct (IH (snd (Header_Set k v env s))) as (h' & E) end.
  exists h'. exact E.
Qed.

(** A request that is not redirected ends in the limiter or in the middleware,
    or is dispatched. *)
Lemma ServeHTTP_govsvc cfg host method path r env (s : St Srv) :
  not_metrics method path -> redirected method path = false ->
  exists n, (exists h resp u, ServeHTTP (chain cfg host method path) r env s = (Ok (h, resp), u) /\
      rs_status resp = 429%Z /\ rs_location resp = None /\ sv_app (st u) = sv_app (st s)) \/
    match cors_verdict cfg host method (rq_headers r) with
    | CorsAbort status _ =>
        exists h u, ServeHTTP (chain cfg host method path) r env s = (Ok (h, respond_status status), u) /\
          sv_app (st u) = sv_app (st s)
    | CorsNext _ =>
        forall res t, Gin.dispatch routes method path (mkGinCtx r None) env (mkSt n (sv_app (st s))) = (res, t) ->
        exists h u, ServeHTTP (chain cfg host method path) r env s = (outcome h res, u) /\ sv_app (st u) = st t
    end.
Proof.
  intros Hm Hsl. unfold govsvc_chain. rewrite !ServeHTTP_routed by exact Hsl.
  destruct (ServeHTTP_stack NewLimiter Allow id (fun m _ => m) method ("/" +:+ strings_Join path "/")
    (cors_middleware cfg host method (Gin.dispatch (map app_route routes ++ [metrics_route]) method path)) r env s)
    as (h & n & Hh & [(u & Eu & Ha & _)|Hrun]); exists n; [left|right].
  { exists h. by eexists _, u. }
  unfold cors_middleware in Hrun. cbn [gc_request] in Hrun.
  destruct (cors_verdict _ _ _ _) as [hs|status hs].
  - intros res t Et.
    destruct (set_headers_app hs env (mkSt n (mkServer h (sv_limiters (st s)) (sv_metrics (st s)) (sv_app (st s))))) as (h' & Eh).
    destruct (Hrun res (mkSt (tick t) (mkServer h' (sv_limiters (st s)) (sv_metrics (st s)) (st t)))) as (u & Eu & Ha & _).
    { unfold bind. rewrite Eh. rewrite dispatch_app by done. unfold on_app, zoom. cbn [tick st sv_app]. by rewrite Et. }
    exists h', u. by split.
  - destruct (set_headers_app hs env (mkSt n (mkServer h (sv_limiters (st s)) (sv_metrics (st s)) (sv_app (st s))))) as (h' & Eh).
    edestruct (Hrun (Ok (respond_status status))) as (u & Eu & Ha & _); [unfold bind; rewrite Eh; reflexivity|].
    exists h', u. by split.
Qed.

(** A list of origins that names none stops the process at start-up. *)
Theorem govsvc_needs_origins {host : Host} {laws : CorsLaws} connect env s :
  parseCSV (envOr "CORS_ALLOWED_ORIGINS" "http://localhost:5173,http://127.0.0.1:5173") = [] ->
  forall r u, govsvc_main connect env s <> (Ok r, u).
Proof.
  intros Ho r u H. unfold govsvc_main in H. apply bind_Ok_inv in H as ([] & t & _ & H).
  apply bind_Ok_inv in H as (m & v & _ & H).
  destruct (cors_needs_origins govsvc_cors) as [e He]; [unfold govsvc_cors; by rewrite Ho..|]. by rewrite He in H.
Qed.

(** A browser's request from an origin that is not among the
    comma-separated parts of CORS_ALLOWED_ORIGINS, where these do not have the
    asterisk, is answered 403 or 429 whatever its method and path, or is
    redirected to the path with the other slash; it changes nothing of the
    application's state. *)
Theorem foreign_origin_refused {laws : CorsLaws} csv host method path r origin env s :
  header_get "Origin" (rq_headers r) = origin -> origin <> estr -> ~ same_origin host origin ->
  (forall part, part ∈ strings_Split csv (byte 44) ->
     strings_TrimSpace part <> "*" /\ strings_ToLower (strings_TrimSpace part) <> strings_ToLower origin) ->
  not_metrics method path ->
  exists h resp u, ServeHTTP (chain (cors_config (parseCSV csv)) host method path) r env s = (Ok (h, resp), u) /\
    (if redirected method path then rs_status resp ∈ [301; 307]%Z else rs_status resp ∈ [403; 429]%Z) /\
    sv_app (st u) = sv_app (st s).
Proof.
  intros Ho Hne Hown Hparts Hm. destruct (redirected method path) eqn:Hsl.
  { destruct (ServeHTTP_redirect _ (fun next => stack NewLimiter Allow id (fun m _ => m) method ("/" +:+ strings_Join path "/")
      (cors_middleware (cors_config (parseCSV csv)) host method next)) method path r env s Hsl) as (resp & u & E & Hst & Ha).
    exists [], resp, u. split_and!; [exact E| |done]. rewrite Hst. case_decide; [left|right; left]. }
  assert (allowsAllOrigins (parseCSV csv) = false) as Hall.
  { apply not_true_iff_false. rewrite allowsAllOrigins_iff, parseCSV_elem. intros (_ & part & Hp & Ht).
    by destruct (Hparts part Hp). }
  destruct (ServeHTTP_govsvc (cors_config (parseCSV csv)) host method path r env s Hm Hsl) as (n & [(h & resp & u & E & H429 & _ & Ha)|H]).
  { exists h, resp, u. split_and!; [done| |done]. rewrite H429. right. left. }
  destruct (cors_refused (cors_config (parseCSV csv)) host method (rq_headers r) origin) as (hs & Hv); try done.
  - cbn. by rewrite Hall, <-allowsAllOrigins_iff, Hall.
  - cbn. rewrite Hall. intros (o & Heq & Hin)%list_elem_of_fmap. apply parseCSV_elem in Hin as (_ & part & Hp & <-).
    by destruct (Hparts part Hp) as [_ []].
  - rewrite Hv in H. destruct H as (h & u & E & Ha). exists h. eexists _, u. split_and!; [exact E|left|done].
Qed.
End Facts.

(** ** Tenants *)

(** *** Statements that leave the rows of a tenant alone *)
Section Rows.
Context {R : Type} (tenant : R -> string) (v : string) (w : list R).

Abbreviation rows_are := (fun l : list R => filter (fun r => tenant r = v) l = w).

Lemma insert_elsewhere {A} clash (mk : Z -> string -> R * A) :
  (forall tm id, tenant (fst (mk tm id)) <> v) -> preserves rows_are (sql_insert clash mk).
Proof. intros Hmk. apply preserves_sql_insert. intros tm id l <- _. by rewrite filter_snoc_other. Qed.

Lemma map_elsewhere (p : R -> bool) (f : R -> R) l :
  (forall r, p r = true -> tenant r <> v) -> (forall r, tenant (f r) = tenant r) ->
  filter (fun r => tenant r = v) (map (fun r => if p r then f r else r) l) = filter (fun r => tenant r = v) l.
Proof.
  intros Hp Hf. apply filter_map_other.
  - intros r. destruct (p r); [|done]. by rewrite Hf.
  - intros r Hr. destruct (p r) eqn:E; [|done]. by destruct (Hp r E).
Qed.

Lemma update_elsewhere (p : R -> bool) f :
  (forall r, p r = true -> tenant r <> v) -> (forall tm r, tenant (f tm r) = tenant r) ->
  preserves rows_are (sql_update p f).
Proof. intros Hp Hf. apply preserves_sql_update. intros tm l <-. by apply map_elsewhere. Qed.

Lemma update_unique_elsewhere {K} `{!EqDecision K} (key : R -> K) (p : R -> bool) f :
  (forall r, p r = true -> tenant r <> v) -> (forall tm r, tenant (f tm r) = tenant r) ->
  preserves rows_are (sql_update_unique key p f).
Proof. intros Hp Hf. apply preserves_sql_update_unique. intros tm l <- l' _. by apply map_elsewhere. Qed.

Lemma delete_elsewhere (p : R -> bool) :
  (forall r, p r = true -> tenant r <> v) -> preserves rows_are (sql_delete p).
Proof.
  intros Hp. apply preserves_sql_delete. intros l <-. apply filter_filter_other. intros r _ Hr.
  apply Is_true_true, negb_true_iff, not_true_iff_false. intros Hpr. by destruct (Hp r Hpr).
Qed.
End Rows.

(** A UUID in the form the database stores it reads back as itself. *)
Definition uuid_stable (env : Env) : Prop := forall s t, pg_uuid env s = Some t -> pg_uuid env t = Some t.

Section Stores.
Context {nil_bytes : NilBytes} (tid v : string).

(** Surroundings in which [tid] is the identifier of another tenant. *)
Definition other_tenant_in (env : Env) : Prop := uuid_stable env /\ pg_uuid env tid <> Some v.
Abbreviation other := other_tenant_in.

Lemma other_uuid {S} env (s : St S) t u : other env -> uuid_arg tid env s = (Ok t, u) -> t <> v.
Proof. intros [_ Hv] [Ht _]%uuid_arg_Ok_inv ->. by apply Hv. Qed.

#[local] Ltac other_tenant := match goal with
  | HE : other ?e, H : uuid_arg _ ?e _ = (Ok _, _) |- _ => pose proof (other_uuid _ _ _ _ HE H)
  end.

Lemma clients_isolated w :
  let P := fun l : oauth_clients => filter (fun r => oc_TenantID r = v) l = w in
  (forall params, cp_TenantID params = tid -> keeps other P (Repository_CreateClient params)) /\
  (forall c params, keeps other P (Repository_UpdateClient tid c params)) /\
  (forall c, keeps other P (Repository_DeleteClient tid c)).
Proof.
  intros P. assert (forall t c r, t <> v -> same_client t c r = true -> oc_TenantID r <> v) as Hs.
  { intros t c r Ht [<- _]%same_client_true. done. }
  split_and!.
  - intros params Hp. unfold Repository_CreateClient. rewrite Hp. keeping; other_tenant.
    all: try (unfold array_arg; keeping). all: apply preserves_keeps, insert_elsewhere; done.
  - intros c params. unfold Repository_UpdateClient. keeping; other_tenant.
    apply preserves_keeps, update_elsewhere; [intros r; by apply Hs|done].
  - intros c. unfold Repository_DeleteClient. keeping; other_tenant.
    apply preserves_keeps, delete_elsewhere. intros r. by apply Hs.
Qed.

Lemma providers_isolated w :
  let P := fun l : list Provider => filter (fun r => pr_TenantID r = v) l = w in
  (forall p, pr_TenantID p = tid -> keeps other P (ssoStore_Create p)) /\
  (forall p, pr_TenantID p = tid -> keeps other P (ssoStore_Update p)) /\
  (forall id, keeps other P (ssoStore_Delete tid id)).
Proof.
  intros P. assert (forall i t r, t <> v -> own_provider i t r = true -> pr_TenantID r <> v) as Hs.
  { intros i t r Ht [_ <-]%bool_decide_eq_true. done. }
  split_and!.
  - intros p Hp. unfold ssoStore_Create. rewrite Hp. keeping; other_tenant.
    all: try (unfold column_args, max_varchar, role_arg, mappings_arg; by keeping).
    apply preserves_keeps, insert_elsewhere; done.
  - intros p Hp. unfold ssoStore_Update, exec. rewrite Hp. keeping.
    all: try (unfold column_args, max_varchar, role_arg, mappings_arg; by keeping). other_tenant.
    apply preserves_keeps, update_unique_elsewhere; [intros r; by apply Hs|done].
  - intros id. unfold ssoStore_Delete, exec. keeping; other_tenant.
    apply preserves_keeps, delete_elsewhere. intros r. by apply Hs.
Qed.

Lemma connectors_isolated w :
  let P := fun l : connectors => filter (fun r => kr_tenant r = v) l = w in
  (forall c, cf_TenantID c = tid -> keeps other P (connectorStore_Create c)) /\
  (forall c, cf_TenantID c = tid -> keeps other P (connectorStore_Update c)) /\
  (forall id, keeps other P (connectorStore_Delete tid id)) /\
  (forall id b, keeps other P (connectorStore_Toggle tid id b)).
Proof.
  intros P. assert (forall i t r, t <> v -> is_connector i t r = true -> kr_tenant r <> v) as Hs.
  { intros i t r Ht [_ <-]%bool_decide_eq_true. done. }
  split_and!.
  - intros c Hc. unfold connectorStore_Create. rewrite Hc. keeping; other_tenant.
    apply preserves_keeps, insert_elsewhere; done.
  - intros c Hc. unfold connectorStore_Update, exec. rewrite Hc. keeping; other_tenant.
    apply preserves_keeps, update_unique_elsewhere; [intros r; by apply Hs|done].
  - intros id. unfold connectorStore_Delete, exec. keeping; other_tenant.
    apply preserves_keeps, delete_elsewhere. intros r. by apply Hs.
  - intros id b. unfold connectorStore_Toggle, exec. keeping; other_tenant.
    apply preserves_keeps, update_elsewhere; [intros r; by apply Hs|done].
Qed.

Lemma webhooks_isolated w :
  let P := fun l : list Webhook => filter (fun r => wh_TenantID r = v) l = w in
  (forall url secret events, keeps other P (CreateWebhook tid url secret events)) /\
  (forall id, keeps other P (DeleteWebhook tid id)).
Proof.
  intros P. split.
  - intros url secret events. unfold CreateWebhook. keeping; other_tenant.
    apply preserves_keeps, insert_elsewhere; done.
  - intros id. unfold DeleteWebhook, exec. keeping; other_tenant.
    apply preserves_keeps, delete_elsewhere. by intros r [_ <-]%bool_decide_eq_true.
Qed.
End Stores.

Section Isolation.
Context {bcrypt : Bcrypt} {dns : Resolver} {nil_bytes : NilBytes}.
Context {R X K B A N W : Type}.
Context `{!RequestStore R, !DirectoryClient X, !Engine, !CampaignStore K, !RbacStore B}
  {audits : AuditStore A} {orgs : OrganizationStore} `{!Connector N W}.
Context `{!Binder CreateOAuthClientInput, !Binder UpdateOAuthClientInput, !Binder CreateAccessRequestBody,
          !Binder ApprovalDecision, !Binder CreateCampaignInput, !Binder CertificationItem, !Binder CommentBody,
          !Binder RoleBody, !Binder PermissionBody, !Binder CreateOrganizationRequest, !Binder UpdateOrganizationRequest,
          !Binder Provider, !Binder ToggleProviderBody, !Binder Config, !Binder ToggleBody, !Binder WebhookRequest}.

Abbreviation App := (GovApp (GovState oauth_clients R X) K B A (list Provider) (ConnectorState connectors N W)).

(** What the process holds for a tenant in four tables. *)
Record TenantRows : Type := mkTenantRows {
  tw_clients : list Client;
  tw_providers : list Provider;
  tw_connectors : list connector_row;
  tw_webhooks : list Webhook
}.

Definition tenant_rows (v : string) (a : App) : TenantRows :=
  mkTenantRows (filter (fun r => oc_TenantID r = v) (gv_clients (ga_gov a)))
    (filter (fun r => pr_TenantID r = v) (ga_sso a))
    (filter (fun r => kr_tenant r = v) (cns_store (ga_connectors a)))
    (filter (fun r => wh_TenantID r = v) (ga_webhooks a)).

Context (env0 : Env) (tid v : string) (Hother : other_tenant_in tid v env0).

Lemma kept_at {S T} (P : S -> Prop) (m : M S T) t :
  keeps (other_tenant_in t v) P m -> other_tenant_in t v env0 -> keeps (eq env0) P m.
Proof. intros Hm Ht env s <- HP. by apply Hm. Qed.

#[local] Ltac elsewhere := apply preserves_keeps, (preserves_zoom _ (fun _ => True)); [done|by intros|done].

Lemma gov_handlers_isolated w r h :
  h ∈ [listOAuthClients; createOAuthClient; getOAuthClient; updateOAuthClient; deleteOAuthClient;
       createAccessRequest; listAccessRequests; approveAccessRequest; rejectAccessRequest] ->
  keeps (eq env0) (fun g : GovState oauth_clients R X => filter (fun r => oc_TenantID r = v) (gv_clients g) = w)
    (h (mkGinCtx r (Some tid))).
Proof.
  destruct (clients_isolated tid v w) as (Hc & Hu & Hd).
  assert (forall T (m : M oauth_clients T), keeps (eq env0) (fun l => filter (fun r => oc_TenantID r = v) l = w) m ->
    keeps (eq env0) (fun g : GovState oauth_clients R X => filter (fun r => oc_TenantID r = v) (gv_clients g) = w) (in_clients m)) as Hin.
  { intros T m Hm. by apply (keeps_zoom _ _ (fun l => filter (fun r => oc_TenantID r = v) l = w)). }
  intros Hh. repeat (apply elem_of_cons in Hh as [->|Hh]); try (by apply elem_of_nil in Hh).
  all: apply with_tenant_keeps; try (apply bound_keeps; intros ?); apply or_respond_keeps; [|intros; keeping].
  all: unfold ListOAuthClients, CreateOAuthClient, GetOAuthClient, UpdateOAuthClient, DeleteOAuthClient, CreateAccessRequest,
    ListAccessRequests, ApproveAccessRequest, RejectAccessRequest, require, require_id, maybeHashSecret.
  all: keeping; try elsewhere; apply Hin.
  all: first [by apply (kept_at _ _ tid); [apply Hc|]|by apply (kept_at _ _ tid); [apply Hu|]|by apply (kept_at _ _ tid); [apply Hd|]|idtac].
  - cbn [ListClientsByTenant Repository_Store]. unfold Repository_ListClientsByTenant. keeping.
  - apply preserves_keeps, readonly_preserves, Repository_GetClient_readonly.
Qed.

Lemma scan_providers_readonly l : readonly (scan_providers l).
Proof. induction l as [|p l IH]; cbn [scan_providers]; unfold scan_provider; effects. Qed.

Lemma ssoStore_Get_tenant id env s p u :
  ssoStore_Get tid id env s = (Ok p, u) -> pg_uuid env tid = Some (pr_TenantID p).
Proof.
  unfold ssoStore_Get, scan_provider. intros Hg. apply bind_Ok_inv in Hg as (i & s1 & _ & Hg).
  apply bind_Ok_inv in Hg as (t & s2 & [Ht _]%uuid_arg_Ok_inv & Hg).
  apply bind_Ok_inv in Hg as (row & s3 & (_ & Ho & _)%sql_get_spec & Hg). apply bool_decide_eq_true in Ho as [_ Ho].
  destruct (pr_AttributeMappings row); [|done]. apply ret_Ok_inv in Hg as [<- _]. by rewrite Ho.
Qed.

Lemma sso_handlers_isolated w r h :
  h ∈ [sso_listProviders; sso_createProvider; sso_getProvider; sso_updateProvider; sso_deleteProvider; sso_toggleProvider] ->
  keeps (eq env0) (fun l : list Provider => filter (fun r => pr_TenantID r = v) l = w) (h (mkGinCtx r (Some tid))).
Proof.
  assert (forall id, readonly (ssoStore_Get tid id)) as Hget by (intros id; unfold ssoStore_Get, scan_provider; effects).
  assert (forall ty, readonly (ssoStore_List tid ty)) as Hlist by (intros ty; unfold ssoStore_List; effects; apply scan_providers_readonly).
  destruct (providers_isolated tid v w) as (Hc & Hu & Hd).
  intros Hh. repeat (apply elem_of_cons in Hh as [->|Hh]); try (by apply elem_of_nil in Hh).
  all: apply with_tenant_keeps; try (apply bound_keeps; intros ?); apply or_respond_keeps; [|intros; keeping].
  all: unfold ListProviders, CreateProvider, GetProvider, UpdateProvider, DeleteProvider, ToggleProvider;
    cbn [sso_Create sso_Get sso_List sso_Update sso_Delete ssoStore].
  all: keeping; try (by apply preserves_keeps, readonly_preserves).
  all: first [by apply (kept_at _ _ tid); [apply Hc|]|by apply (kept_at _ _ tid); [apply Hu|]|by apply (kept_at _ _ tid); [apply Hd|]|idtac].
  rewrite <-HE in E. apply (kept_at _ _ (pr_TenantID a0)).
  - destruct (providers_isolated (pr_TenantID a0) v w) as (_ & Hu' & _). by apply Hu'.
  - destruct Hother as [Hst Hne]. apply ssoStore_Get_tenant in E. split; [done|]. rewrite (Hst _ _ E). congruence.
Qed.
Lemma connector_handlers_isolated w r h :
  h ∈ [listConnectors; createConnector; getConnector; updateConnector; deleteConnector; toggleConnector; testConnection] ->
  keeps (eq env0) (fun x : ConnectorState connectors N W => filter (fun r => kr_tenant r = v) (cns_store x) = w)
    (h (mkGinCtx r (Some tid))).
Proof.
  destruct (connectors_isolated tid v w) as (Hc & Hu & Hd & Ht).
  assert (forall T (m : M connectors T), keeps (eq env0) (fun l => filter (fun r => kr_tenant r = v) l = w) m ->
    keeps (eq env0) (fun x : ConnectorState connectors N W => filter (fun r => kr_tenant r = v) (cns_store x) = w) (in_store m)) as Hin.
  { intros T m Hm. by apply (keeps_zoom _ _ (fun l => filter (fun r => kr_tenant r = v) l = w)). }
  intros Hh. repeat (apply elem_of_cons in Hh as [->|Hh]); try (by apply elem_of_nil in Hh).
  all: apply with_tenant_keeps; try (apply bound_keeps; intros ?); apply or_respond_keeps; [|intros; keeping].
  all: unfold ListConnectors, CreateConnector, GetConnector, UpdateConnector, DeleteConnector, ToggleConnector, TestConnection;
    cbn [ck_Create ck_Get ck_List ck_Update ck_Delete ck_Toggle connectorStore].
  all: keeping; try elsewhere; try (apply Hin).
  all: first [by apply (kept_at _ _ tid); [apply Hc|]|by apply (kept_at _ _ tid); [apply Hu|]|by apply (kept_at _ _ tid); [apply Hd|]
             |by apply (kept_at _ _ tid); [apply Ht|]|idtac].
  all: try (unfold connectorStore_List, connectorStore_Get; by keeping).
  apply preserves_keeps, deferred_preserves; [|unfold ignore; effects];
    (apply (preserves_zoom _ (fun _ => True)); [done|by intros|done]).
Qed.

Lemma webhook_handlers_isolated w r h :
  h ∈ [createWebhook; listWebhooks; deleteWebhook] ->
  keeps (eq env0) (fun l : list Webhook => filter (fun r => wh_TenantID r = v) l = w) (h (mkGinCtx r (Some tid))).
Proof.
  destruct (webhooks_isolated tid v w) as (Hc & Hd).
  intros Hh. repeat (apply elem_of_cons in Hh as [->|Hh]); try (by apply elem_of_nil in Hh).
  all: apply with_tenant_keeps; keeping; try (apply bound_keeps; intros ?); apply or_respond_keeps; [|intros; keeping].
  - by apply (kept_at _ _ tid).
  - unfold ListWebhooks. keeping.
  - by apply (kept_at _ _ tid).
Qed.
(** Each group of handlers within the whole state. *)
Abbreviation rows_kept w := (fun a : App => tenant_rows v a = w).

#[local] Ltac part Q := apply (keeps_zoom _ _ Q); [by intros x <-|intros x y <- Hy; unfold tenant_rows; cbn; by rewrite Hy].

Lemma at_parts_isolated w :
  (forall h c, keeps (eq env0) (fun g => filter (fun r => oc_TenantID r = v) (gv_clients g) = tw_clients w) (h c) ->
     keeps (eq env0) (rows_kept w) (at_gov h c)) /\
  (forall h c, keeps (eq env0) (fun l => filter (fun r => pr_TenantID r = v) l = tw_providers w) (h c) ->
     keeps (eq env0) (rows_kept w) (at_sso h c)) /\
  (forall h c, keeps (eq env0) (fun x => filter (fun r => kr_tenant r = v) (cns_store x) = tw_connectors w) (h c) ->
     keeps (eq env0) (rows_kept w) (at_connectors h c)) /\
  (forall h c, keeps (eq env0) (fun l => filter (fun r => wh_TenantID r = v) l = tw_webhooks w) (h c) ->
     keeps (eq env0) (rows_kept w) (at_webhooks h c)).
Proof.
  split_and!; intros h c; unfold at_gov, at_sso, at_connectors, at_webhooks.
  - part (fun g : GovState oauth_clients R X => filter (fun r => oc_TenantID r = v) (gv_clients g) = tw_clients w).
  - part (fun l : list Provider => filter (fun r => pr_TenantID r = v) l = tw_providers w).
  - part (fun x : ConnectorState connectors N W => filter (fun r => kr_tenant r = v) (cns_store x) = tw_connectors w).
  - part (fun l : list Webhook => filter (fun r => wh_TenantID r = v) l = tw_webhooks w).
Qed.

Lemma routes_isolated w (rt : Route App) r :
  header_get DefaultTenantHeader (rq_headers r) = tid -> rt ∈ govsvc_app_routes ->
  keeps (eq env0) (rows_kept w) (ro_handler rt (mkGinCtx r None)).
Proof.
  intros Htid Hin. destruct (at_parts_isolated w) as (H1 & H2 & H3 & H4).
  pose proof (gov_handlers_isolated (tw_clients w) r) as G1.
  pose proof (sso_handlers_isolated (tw_providers w) r) as G2.
  pose proof (connector_handlers_isolated (tw_connectors w) r) as G3.
  pose proof (webhook_handlers_isolated (tw_webhooks w) r) as G4.
  revert Hin. unfold govsvc_app_routes, governance_RegisterRoutes, campaign_RegisterRoutes, rbac_RegisterRoutes, audit_RegisterRoutes,
    organization_RegisterRoutes, domain_RegisterRoutes, sso_RegisterRoutes, connector_RegisterRoutes, webhook_RegisterRoutes.
  cbv zeta. cbn [app]. intros Hin.
  repeat (apply elem_of_cons in Hin as [->|Hin]; [cbn [ro_handler handle GET POST PUT DELETE g_use Use Group root];
    first [apply TenantExtractor_keeps; rewrite Htid|idtac];
    first [elsewhere|apply H1, G1|apply H2, G2|apply H3, G3|apply H4, G4|by apply preserves_keeps; unfold healthCheck, or_respond; effects];
    repeat first [left|right]|]).
  by apply elem_of_nil in Hin.
Qed.
End Isolation.

(** *** The process *)
Section Guarantees.
Context {bcrypt : Bcrypt} {dns : Resolver} {nil_bytes : NilBytes}.
Context {R X K B A N W : Type}.
Context `{!RequestStore R, !DirectoryClient X, !Engine, !CampaignStore K, !RbacStore B}
  {audits : AuditStore A} {orgs : OrganizationStore} `{!Connector N W}.
Context `{!Binder CreateOAuthClientInput, !Binder UpdateOAuthClientInput, !Binder CreateAccessRequestBody,
          !Binder ApprovalDecision, !Binder CreateCampaignInput, !Binder CertificationItem, !Binder CommentBody,
          !Binder RoleBody, !Binder PermissionBody, !Binder CreateOrganizationRequest, !Binder UpdateOrganizationRequest,
          !Binder Provider, !Binder ToggleProviderBody, !Binder Config, !Binder ToggleBody, !Binder WebhookRequest}.
Context {gin : GinRedirect} {cors : Cors} {prom : PromHttp} {Lim : Type} (NewLimiter : Lim) (Allow : Z -> Lim -> bool * Lim).

Abbreviation App := (GovApp (GovState oauth_clients R X) K B A (list Provider) (ConnectorState connectors N W)).
Abbreviation Srv := (Server (gmap string Lim) App).
Abbreviation app_routes := (govsvc_app_routes : list (Route App)).
Abbreviation chain := (govsvc_chain NewLimiter Allow app_routes : CorsConfig -> string -> string -> list string -> Handler Srv).

(** No registration panics. *)
Theorem govsvc_registers : registered (map app_route app_routes ++ [metrics_route] : list (Route Srv)) = true.
Proof. reflexivity. Qed.

Lemma govsvc_guarded : guarded app_routes [("GET", "/health")].
Proof.
  unfold guarded, govsvc_app_routes, governance_RegisterRoutes, campaign_RegisterRoutes, rbac_RegisterRoutes, audit_RegisterRoutes,
    organization_RegisterRoutes, domain_RegisterRoutes, sso_RegisterRoutes, connector_RegisterRoutes, webhook_RegisterRoutes.
  cbv zeta; cbn [app]; intros rt Hr;
    repeat (apply elem_of_cons in Hr as [->|Hr]; [first [right; by eexists|left; reflexivity]|]); by apply elem_of_nil in Hr.
Qed.

(** Of the governance process only the health check and the
    metrics answer a request that names no well-formed tenant: every other one
    ends in 400, 404, 429, an answer of the CORS middleware or a redirect to the
    path with the other slash, and changes nothing of the application's state. *)
Theorem govsvc_tenant_required cfg host method path r env s :
  is_public [("GET", "/health")] method path = false -> uuidRegex (header_get DefaultTenantHeader (rq_headers r)) = false ->
  exists h resp u, ServeHTTP (chain cfg host method path) r env s = (Ok (h, resp), u) /\ sv_app (st u) = sv_app (st s) /\
    (rs_status resp ∈ [400; 404; 429]%Z \/
     slash_redirect (map app_route app_routes ++ [metrics_route] : list (Route Srv)) method path = true /\ rs_status resp ∈ [301; 307]%Z \/
     exists hs, cors_verdict cfg host method (rq_headers r) = CorsAbort (rs_status resp) hs).
Proof.
  intros Hpub Hu.
  destruct (slash_redirect (map app_route app_routes ++ [metrics_route] : list (Route Srv)) method path) eqn:Hsl.
  { destruct (ServeHTTP_redirect _ (fun next => stack NewLimiter Allow id (fun m _ => m) method ("/" +:+ strings_Join path "/")
      (cors_middleware cfg host method next)) method path r env s Hsl) as (resp & u & E & Hst & Ha).
    exists [], resp, u. split_and!; [exact E|done|]. right. left. split; [done|]. rewrite Hst. case_decide; [left|right; left]. }
  destruct (ServeHTTP_govsvc NewLimiter Allow app_routes cfg host method path r env s (public_not_metrics _ _ _ Hpub) Hsl)
    as (n & [(h & resp & u & E & H429 & _ & Ha)|HN]).
  { exists h, resp, u. split_and!; [done..|]. left. rewrite H429. do 2 right. left. }
  destruct (cors_verdict cfg host method (rq_headers r)) as [hs|status hs].
  - destruct (dispatch_refused app_routes _ method path r env (mkSt n (sv_app (st s))) govsvc_guarded Hpub Hu) as (resp & Er & Hst).
    destruct (HN _ _ Er) as (h & u & E & Ha). exists h, resp, u. split_and!; [done..|]. left.
    destruct Hst as [->| ->]; [left|right; left].
  - destruct HN as (h & u & E & Ha). exists h. eexists _, u. split_and!; [exact E|done|]. right. right. by exists hs.
Qed.

(** Property C26. A request changes nothing another tenant has among OAuth
    clients, identity providers, connectors and webhooks: whatever its method,
    path, body and outcome, the rows of every tenant but the one its header
    names are what they were. *)
Theorem govsvc_isolated cfg host method path r v env (s : St Srv) res u :
  uuid_stable env -> pg_uuid env (header_get DefaultTenantHeader (rq_headers r)) <> Some v ->
  ServeHTTP (chain cfg host method path) r env s = (res, u) ->
  tenant_rows v (sv_app (st u)) = tenant_rows v (sv_app (st s)).
Proof.
  intros Hst Hne E. set (P := fun a : App => tenant_rows v a = tenant_rows v (sv_app (st s))).
  refine (keeps_run (eq env) (fun sv : Srv => P (sv_app sv)) _ _ _ _ _ _ eq_refl E eq_refl).
  apply ServeHTTP_keeps, engine_keeps, Prometheus_keeps, SecurityHeaders_keeps, RateLimit_keeps. unfold cors_middleware.
  assert (forall l, preserves (fun sv : Srv => P (sv_app sv)) (set_headers l)) as Hset.
  { intros l env' s' HP. destruct (set_headers_app l env' s') as (h' & ->). exact HP. }
  destruct (cors_verdict _ _ _ _); (apply keeps_bind; [by apply preserves_keeps|intros _ _ _ _ _ _]); [|keeping].
  apply routes_keep. intros rt ps Hr. by eapply routes_isolated.
Qed.
End Guarantees.
