(* ===== verification/ClientSdk.v ===== *)
(** * Clients of the services

    pkg/client, the SDK, and cmd/admincli, the command line for OAuth clients,
    with what they use of encoding/json and net/http; and their use
    against the auth, directory and governance processes. *)
From S2P Require Import Prelude Bcrypt GoStd GoUrl GoJson Sha256 Sql Http Middleware ConnObjects.
From S2P Require Import OAuthClient AuthClient TokenStores Risk AuthService AuthFacts Directory Scim DirectoryFacts ScimFacts.
From S2P Require Import DirService Login LoginFacts AuthApi Sso Federation DeveloperApps Branding Saml License Governance GovernanceFacts.
From S2P Require Import FederationDirectory Campaigns Rbac AuditLog Organizations Webhooks Connectors Gin Server CommandLine AuthSvc AuthSvcFacts GovSvc.
Local Open Scope go_scope.

(** ** pkg/client *)

(** [Config] and [Client]; durations in nanoseconds *)
Record SdkConfig : Type := mkSdkConfig {
  sdc_BaseURL : string;
  sdc_TenantID : string;
  sdc_Timeout : Z
}.

Record SdkClient : Type := mkSdkClient {
  sdk_BaseURL : string;
  sdk_Timeout : Z;
  sdk_Token : string;
  sdk_TenantID : string
}.

(** [New(cfg)] *)
Definition sdk_New (cfg : SdkConfig) : SdkClient :=
  mkSdkClient (sdc_BaseURL cfg) (if decide (sdc_Timeout cfg = 0%Z) then 10 * second else sdc_Timeout cfg)%Z estr (sdc_TenantID cfg).

(** What a response's body reads as; an answer without one is empty. *)
Definition read_text (resp : Response) : string :=
  match rs_body resp with JNull => estr | j => json_Marshal j end.

Record ScimUser : Type := mkScimUser { sdu_ID : string; sdu_UserName : string; sdu_Active : bool }.

Definition decode_ScimUser (j : json) : ScimUser + error :=
  match json_object j with
  | inr e => inr e
  | inl fields =>
      field json_string "id" fields (fun id =>
      field json_string "userName" fields (fun name =>
      field json_bool "active" fields (fun active => inl (mkScimUser id name active))))
  end.

Definition decode_Resources (j : json) : list ScimUser + error :=
  match json_object j with
  | inr e => inr e
  | inl fields => json_list decode_ScimUser (json_field "Resources" fields)
  end.

(** The headers of an authenticated request *)
Definition authenticated (c : SdkClient) (req : HttpCall) : HttpCall :=
  let req := if decide (sdk_Token c <> estr) then with_header "Authorization" ("Bearer " +:+ sdk_Token c) req else req in
  if decide (sdk_TenantID c <> estr) then with_header "X-Tenant-ID" (sdk_TenantID c) req else req.

Section Sdk.
Context {X : Type} {peer : HttpPeer X}.

(** The client, and what is behind its base URL. *)
Abbreviation Sdk := (M (SdkClient * X)).

Definition SetToken (token : string) : Sdk unit :=
  modify (fun s => (mkSdkClient (sdk_BaseURL (fst s)) (sdk_Timeout (fst s)) token (sdk_TenantID (fst s)), snd s)).

Definition sdk_Do (call : HttpCall) : Sdk Response := zoom snd (fun x s => (fst s, x)) (http_Do call).

(** [c.Login(ctx, username, password)] *)
Definition sdk_Login (username password : string) : Sdk unit :=
  c <- gets fst;;
  req <- http_NewRequest "POST" (sdk_BaseURL c +:+ "/login") (JObj [("password", JStr password); ("username", JStr username)]);;
  let req := with_header "Content-Type" "application/json" req in
  let req := if decide (sdk_TenantID c <> estr) then with_header "X-Tenant-ID" (sdk_TenantID c) req else req in
  resp <- sdk_Do req;;
  if decide (rs_status resp <> 200%Z) then fail (ErrNew ("login failed: " +:+ read_text resp))
  else
    token <- decoded (json_path ["token"] (rs_body resp));;
    SetToken token.

(** [c.doRequest(ctx, method, path, body, out)]: the body and the destination
    may be nil. *)
Definition sdk_doRequest {A} (method path : string) (body : option json) (zero : A) (out : option (json -> A + error)) : Sdk A :=
  c <- gets fst;;
  req <- http_NewRequest method (sdk_BaseURL c +:+ path) (default JNull body);;
  let req := if decide (body <> None) then with_header "Content-Type" "application/json" req else req in
  resp <- sdk_Do (authenticated c req);;
  if decide (rs_status resp >= 400)%Z
  then fail (ErrNew ("API error " +:+ pretty (rs_status resp) +:+ ": " +:+ read_text resp))
  else match out with
       | Some decode => if decide (rs_status resp <> 204%Z) then decoded (decode (rs_body resp)) else ret zero
       | None => ret zero
       end.

(** [c.ListUsers(ctx, filter)] *)
Definition sdk_ListUsers (filter : string) : Sdk (list ScimUser) :=
  let path := "/scim/v2/Users" +:+ (if decide (filter <> estr) then "?filter=" +:+ QueryEscape filter else estr) in
  sdk_doRequest "GET" path None [] (Some decode_Resources).
End Sdk.

(** ** [json.MarshalIndent(v, "", "  ")] *)

Fixpoint indent (depth : nat) : string := match depth with 0 => estr | S d => "  " +:+ indent d end.

Fixpoint json_MarshalIndent (depth : nat) (j : json) : string :=
  let within (open close : string) (items : list string) :=
    match items with
    | [] => open +:+ close
    | _ => open +:+ new_line +:+ indent (S depth) +:+ strings_Join items ("," +:+ new_line +:+ indent (S depth))
           +:+ new_line +:+ indent depth +:+ close
    end in
  match j with
  | JArr l => within "[" "]" (map (json_MarshalIndent (S depth)) l)
  | JObj fields =>
      within "{" "}" (map (fun '(k, v) => json_quote k +:+ ": " +:+ json_MarshalIndent (S depth) v) fields)
  | _ => json_Marshal j
  end.

(** ** [resp.Status]: the code with the text the server sends for it *)

Definition StatusText (code : Z) : string :=
  default ("status code " +:+ pretty code)
    (assoc_get (pretty code)
       [("100", "Continue"); ("101", "Switching Protocols"); ("102", "Processing"); ("103", "Early Hints");
        ("200", "OK"); ("201", "Created"); ("202", "Accepted"); ("203", "Non-Authoritative Information");
        ("204", "No Content"); ("205", "Reset Content"); ("206", "Partial Content"); ("207", "Multi-Status");
        ("208", "Already Reported"); ("226", "IM Used"); ("300", "Multiple Choices"); ("301", "Moved Permanently");
        ("302", "Found"); ("303", "See Other"); ("304", "Not Modified"); ("305", "Use Proxy");
        ("307", "Temporary Redirect"); ("308", "Permanent Redirect"); ("400", "Bad Request");
        ("401", "Unauthorized"); ("402", "Payment Required"); ("403", "Forbidden"); ("404", "Not Found");
        ("405", "Method Not Allowed"); ("406", "Not Acceptable"); ("407", "Proxy Authentication Required");
        ("408", "Request Timeout"); ("409", "Conflict"); ("410", "Gone"); ("411", "Length Required");
        ("412", "Precondition Failed"); ("413", "Request Entity Too Large"); ("414", "Request URI Too Long");
        ("415", "Unsupported Media Type"); ("416", "Requested Range Not Satisfiable"); ("417", "Expectation Failed");
        ("418", "I'm a teapot"); ("421", "Misdirected Request"); ("422", "Unprocessable Entity"); ("423", "Locked");
        ("424", "Failed Dependency"); ("425", "Too Early"); ("426", "Upgrade Required");
        ("428", "Precondition Required"); ("429", "Too Many Requests"); ("431", "Request Header Fields Too Large");
        ("451", "Unavailable For Legal Reasons"); ("500", "Internal Server Error"); ("501", "Not Implemented");
        ("502", "Bad Gateway"); ("503", "Service Unavailable"); ("504", "Gateway Timeout");
        ("505", "HTTP Version Not Supported"); ("506", "Variant Also Negotiates"); ("507", "Insufficient Storage");
        ("508", "Loop Detected"); ("510", "Not Extended"); ("511", "Network Authentication Required")]).

Definition resp_Status (resp : Response) : string := pretty (rs_status resp) +:+ " " +:+ StatusText (rs_status resp).

(** ** cmd/admincli *)

Definition tenantHeader : string := "X-Tenant-ID".
Definition defaultBaseURL : string := "http://localhost:8082".
Definition defaultTenantID : string := "11111111-1111-1111-1111-111111111111".

(** [oauthClient]: a slice may be nil *)
Record oauthClient : Type := mkOauthClient {
  ac_ClientID : string;
  ac_TenantID : string;
  ac_ClientType : string;
  ac_Name : string;
  ac_Description : string;
  ac_RedirectURIs : option (list string);
  ac_AllowedScopes : option (list string)
}.

Definition json_slice (j : json) : option (list string) + error :=
  match j with
  | JNull => inl None
  | _ => match json_list json_string j with inl l => inl (Some l) | inr e => inr e end
  end.

Definition decode_oauthClient (j : json) : oauthClient + error :=
  match json_object j with
  | inr e => inr e
  | inl fields =>
      field json_string "client_id" fields (fun id =>
      field json_string "tenant_id" fields (fun tenant =>
      field json_string "client_type" fields (fun ty =>
      field json_string "name" fields (fun name =>
      field json_string "description" fields (fun description =>
      field json_slice "redirect_uris" fields (fun uris =>
      field json_slice "allowed_scopes" fields (fun scopes =>
      inl (mkOauthClient id tenant ty name description uris scopes))))))))
  end.

(** [listClientsResponse] *)
Definition decode_listClients (j : json) : list oauthClient + error :=
  match json_object j with
  | inr e => inr e
  | inl fields => json_list decode_oauthClient (json_field "clients" fields)
  end.

Definition oauthClient_json (c : oauthClient) : json :=
  let slice (v : option (list string)) := match v with None => JNull | Some l => JArr (map JStr l) end in
  JObj [("client_id", JStr (ac_ClientID c)); ("tenant_id", JStr (ac_TenantID c)); ("client_type", JStr (ac_ClientType c));
        ("name", JStr (ac_Name c)); ("description", JStr (ac_Description c)); ("redirect_uris", slice (ac_RedirectURIs c));
        ("allowed_scopes", slice (ac_AllowedScopes c))].

(** [splitAndClean(values)]: nil when nothing is left *)
Definition splitAndClean (values : string) : list string :=
  if decide (strings_TrimSpace values = estr) then []
  else filter (fun trimmed => trimmed <> estr) (map strings_TrimSpace (strings_Split values (byte 44))).

Definition usage_text : string :=
  let tab := String (byte 9) estr in
  strings_Join
    ["Usage: admincli <command> [options]"; estr; "Commands:"; "  list        List OAuth clients for a tenant";
     "  get         Fetch a single OAuth client"; "  create      Register a new OAuth client";
     "  delete      Remove an OAuth client"; estr; "Global options:";
     tab +:+ "-base-url   Governance service base URL (default http://localhost:8082)";
     tab +:+ "-tenant     Tenant identifier header (default 11111111-1111-1111-1111-111111111111)"; estr] new_line.

Section AdminCli.
Context {X : Type} {peer : HttpPeer X}.

Abbreviation CM := (M (Cli X)).

Definition prettyPrint (v : json) : CM unit := fmt_Println (json_MarshalIndent 0 v).

Definition usage : CM unit := fmt_Print usage_text.

Definition common_flags : list (string * FlagKind) := string_flags ["base-url"; "tenant"].
Definition base_url (set : list (string * string)) : string := flag_value set "base-url" defaultBaseURL.
Definition tenant_flag (set : list (string * string)) : string := flag_value set "tenant" defaultTenantID.

(** [doRequest(method, baseURL, path, tenantID, payload)]: the body *)
Definition cli_doRequest (method baseURL path tenantID : string) (payload : option json) : CM json :=
  let endpoint := strings_TrimRight baseURL (byte 47) +:+ path in
  req <- map_err (ErrWrap "failed to build request") (http_NewRequest method endpoint (default JNull payload));;
  let req := if decide (payload <> None) then with_header "Content-Type" "application/json" req else req in
  let req := with_header tenantHeader tenantID req in
  resp <- zoom cli_peer (fun x p => mkCli (cli_stdout p) (cli_stderr p) x) (http_Do req);;
  if decide (rs_status resp >= 400)%Z
  then fail (ErrNew ("request failed: " +:+ resp_Status resp +:+ " - " +:+ strings_TrimSpace (read_text resp)))
  else ret (rs_body resp).

Definition parse_response {A} (decode : json -> A + error) (body : json) : CM A :=
  map_err (ErrWrap "failed to parse response") (decoded (decode body)).

Definition print_client (c : oauthClient) : CM unit :=
  fmt_Println ("- " +:+ ac_ClientID c +:+ " (" +:+ ac_Name c +:+ ") [" +:+ ac_ClientType c +:+ "]");;
  fmt_Println ("  Redirect URIs: " +:+ strings_Join (default [] (ac_RedirectURIs c)) ", ");;
  fmt_Println ("  Allowed scopes: " +:+ strings_Join (default [] (ac_AllowedScopes c)) ", ");;
  if decide (ac_Description c <> estr) then fmt_Println ("  Description: " +:+ ac_Description c) else ret tt.

Fixpoint print_clients (l : list oauthClient) : CM unit :=
  match l with [] => ret tt | c :: r => print_client c;; print_clients r end.

Definition runList (args : list string) : CM (option Z) :=
  with_flags common_flags args (fun set =>
    body <- cli_doRequest "GET" (base_url set) "/api/v1/oauth/clients" (tenant_flag set) None;;
    clients <- parse_response decode_listClients body;;
    (if decide (clients = []) then fmt_Println ("No OAuth clients found for tenant " +:+ tenant_flag set)
     else print_clients clients);;
    ret None).

Definition client_path (clientID : string) : string := "/api/v1/oauth/clients/" +:+ clientID.

Definition runGet (args : list string) : CM (option Z) :=
  with_flags (("client-id", StringFlag) :: common_flags) args (fun set =>
    let clientID := flag_value set "client-id" estr in
    if decide (clientID = estr) then fail (ErrNew "client-id is required")
    else
      body <- cli_doRequest "GET" (base_url set) (client_path clientID) (tenant_flag set) None;;
      client <- parse_response decode_oauthClient body;;
      prettyPrint (oauthClient_json client);;
      ret None).

(** [payload]: [json.Marshal] writes the keys of a map in order *)
Definition create_payload (clientID name clientType description secret : string) (redirects scopes : list string) : json :=
  JObj ([("allowed_scopes", JArr (map JStr scopes)); ("client_id", JStr clientID)]
        ++ (if decide (strings_TrimSpace secret <> estr) then [("client_secret", JStr secret)] else [])
        ++ [("client_type", JStr (strings_ToLower clientType))]
        ++ (if decide (strings_TrimSpace description <> estr) then [("description", JStr description)] else [])
        ++ [("name", JStr name); ("redirect_uris", JArr (map JStr redirects))]).

Definition runCreate (args : list string) : CM (option Z) :=
  with_flags (string_flags ["client-id"; "name"; "type"; "description"; "redirects"; "scopes"; "secret"] ++ common_flags) args (fun set =>
    let clientID := flag_value set "client-id" estr in
    let name := flag_value set "name" estr in
    let clientType := flag_value set "type" "public" in
    let description := flag_value set "description" estr in
    let secret := flag_value set "secret" estr in
    if decide (clientID = estr \/ name = estr) then fail (ErrNew "client-id and name are required")
    else
      let redirects := splitAndClean (flag_value set "redirects" estr) in
      if decide (redirects = []) then fail (ErrNew "at least one redirect URI is required")
      else
        let allowedScopes := splitAndClean (flag_value set "scopes" estr) in
        if decide (allowedScopes = []) then fail (ErrNew "at least one scope is required")
        else if decide (strings_ToLower clientType = "confidential" /\ strings_TrimSpace secret = estr)
        then fail (ErrNew "secret is required for confidential clients")
        else
          body <- cli_doRequest "POST" (base_url set) "/api/v1/oauth/clients" (tenant_flag set)
                    (Some (create_payload clientID name clientType description secret redirects allowedScopes));;
          client <- parse_response decode_oauthClient body;;
          fmt_Println "Client created:";;
          prettyPrint (oauthClient_json client);;
          ret None).

Definition runDelete (args : list string) : CM (option Z) :=
  with_flags (("client-id", StringFlag) :: common_flags) args (fun set =>
    let clientID := flag_value set "client-id" estr in
    if decide (clientID = estr) then fail (ErrNew "client-id is required")
    else
      _ <- cli_doRequest "DELETE" (base_url set) (client_path clientID) (tenant_flag set) None;;
      fmt_Println "Client deleted";;
      ret None).

(** [main], by [os.Args[1:]]: the status of the process *)
Definition admincli_run (run : CM (option Z)) : CM Z :=
  r <- attempt run;;
  match r with
  | inl (Some status) => ret status
  | inl None => ret 0%Z
  | inr err => print_error ("Error: " +:+ error_string err +:+ new_line);; ret 1%Z
  end.

Definition admincli_main (args : list string) : CM Z :=
  match args with
  | [] => usage;; ret 1%Z
  | command :: rest =>
      if decide (command = "list") then admincli_run (runList rest)
      else if decide (command = "get") then admincli_run (runGet rest)
      else if decide (command = "create") then admincli_run (runCreate rest)
      else if decide (command = "delete") then admincli_run (runDelete rest)
      else if decide (command ∈ ["help"; "-h"; "--help"]) then usage;; ret 0%Z
      else usage;; ret 1%Z
  end.
End AdminCli.

(** * The clients at work *)

(** ** Listing users *)

Lemma sdk_user_decoded (u : Scim.User) :
  decode_ScimUser (Scim.User_json u) = inl (mkScimUser (su_ID u) (su_UserName u) (su_Active u)).
Proof.
  unfold Scim.User_json, omitempty, omitnil. case_decide as H; [rewrite H|]; destruct (su_Emails u); done.
Qed.

Definition sdk_view (u : Scim.User) : ScimUser := mkScimUser (su_ID u) (su_UserName u) (su_Active u).

Lemma sdk_list_decoded (r : ListResponse Scim.User) :
  decode_Resources (ListResponse_json Scim.User_json r) = inl (map sdk_view (lr_Resources r)).
Proof.
  change (decode_Resources (ListResponse_json Scim.User_json r)) with (json_items decode_ScimUser (map Scim.User_json (lr_Resources r))).
  induction (lr_Resources r) as [|u l IH]; [done|]. cbn [map json_items]. by rewrite sdk_user_decoded, IH.
Qed.

Lemma sdk_filter_query filter k :
  k <> "filter" ->
  assoc_get k (flat_map (fun kv => map (pair (fst kv)) (snd kv)) (url_Query ("filter=" +:+ QueryEscape filter))) = None.
Proof.
  intros Hk. change ("filter=" +:+ QueryEscape filter) with (strings_Join (encode_pair <$> [("filter", filter)]) "&").
  rewrite url_Query_pairs. cbn. by rewrite decide_False.
Qed.

Lemma authenticated_call c req :
  hc_method (authenticated c req) = hc_method req /\ hc_url (authenticated c req) = hc_url req /\
  hc_query (authenticated c req) = hc_query req /\ hc_body (authenticated c req) = hc_body req.
Proof. unfold authenticated. by repeat case_decide. Qed.

Lemma authenticated_tenant c req :
  sdk_TenantID c <> estr -> header_get DefaultTenantHeader (hc_headers (authenticated c req)) = sdk_TenantID c.
Proof. intros Hne. unfold authenticated. rewrite decide_True by done. apply header_get_set. Qed.

Lemma Cut_prefix p s sep :
  forall_bytes (fun c => negb (bool_decide (c = sep))) p = true ->
  fst (fst (strings_Cut (p +:+ s) sep)) = p +:+ fst (fst (strings_Cut s sep)).
Proof.
  induction p as [|a p IH]; intros Hp; [done|]. cbn in Hp. apply andb_true_iff in Hp as [Ha%negb_true_iff%bool_decide_eq_false Hp].
  specialize (IH Hp). change (String a p +:+ s) with (String a (p +:+ s)). cbn [strings_Cut]. rewrite decide_False by done.
  destruct (strings_Cut (p +:+ s) sep) as [[x y] o]. cbn [fst] in IH |- *. by rewrite IH.
Qed.

Lemma users_path base filter :
  request_path base (base +:+ "/scim/v2/Users" +:+ (if decide (filter <> estr) then "?filter=" +:+ QueryEscape filter else estr)) =
  Some ["scim"; "v2"; "Users"].
Proof.
  case_decide.
  - rewrite (request_path_app base _ ("scim/v2/Users?filter=" +:+ QueryEscape filter)) by done. unfold path_segments.
    by rewrite Cut_prefix.
  - by rewrite (request_path_app base _ "scim/v2/Users").
Qed.

Section Listing.
Context {bcrypt : Bcrypt}.
Context `{!Binder Scim.User, !Binder Scim.Group, !Binder (list PatchOperation)}.
Context {gin : GinRedirect} (directory_routes : list (Route DirDb)).
Context (Hroutes : resolve (dirsvc_routes directory_routes) "GET" ["scim"; "v2"; "Users"] =
  resolve scim_RegisterRoutes "GET" ["scim"; "v2"; "Users"]).
Context (base : string).

#[local] Instance sdk_dirsvc : HttpPeer DirDb := dirsvc_Do directory_routes base.

(** Listing users with the SDK, against the directory process,
    gives the tenant's first hundred users, newest first, with their ids, user
    names and states, where no two have the same creation time; the filter makes
    no difference. *)
Theorem sdk_lists_users filter c t url env n d :
  db_up env -> pg_uuid env (sdk_TenantID c) = Some t -> uuidRegex (sdk_TenantID c) = true -> distinct_times t d -> sdk_BaseURL c = base ->
  url_Parse (base +:+ "/scim/v2/Users" +:+ (if decide (filter <> estr) then "?filter=" +:+ QueryEscape filter else estr)) = inl url ->
  u_RawQuery url = (if decide (filter <> estr) then "filter=" +:+ QueryEscape filter else estr) ->
  exists m, sdk_ListUsers filter env (mkSt n (c, d)) = (Ok (map sdk_view (take 100 (all_users t d))), mkSt m (c, d)).
Proof.
  intros Hup Ht Hre Hdist Hb Hurl Hq. pose proof (uuidRegex_nonempty _ Hre) as Hne.
  unfold sdk_ListUsers, sdk_doRequest. rewrite (bind_Ok _ _ _ _ c (mkSt n (c, d))) by done.
  unfold http_NewRequest. rewrite Hb, Hurl. rewrite (bind_Ok _ _ _ _ _ _ eq_refl). rewrite decide_False by (by intros []).
  match goal with |- context [authenticated c ?req] => set (call := req) end.
  destruct (authenticated_call c call) as (Hm & Hu & Hqs & _).
  destruct (scim_list_call directory_routes Hroutes base (authenticated c call) (sdk_TenantID c) t env n d Hup Ht Hne Hre)
    as (r & Hr & _ & Hres); [done|by rewrite Hu; apply users_path|by apply authenticated_tenant| | |].
  1-2: rewrite Hqs; unfold call; cbn [hc_query]; rewrite Hq; case_decide; [by apply sdk_filter_query|done].
  unfold sdk_Do, zoom, bind. cbn [tick st snd]. rewrite (http_Do_run (peer := sdk_dirsvc) _ _ _ _ _ Hr eq_refl). cbn [rs_status respond rs_body].
  rewrite decide_False by lia. rewrite decide_True by done. rewrite sdk_list_decoded, Hres, listed_all by done. by eexists.
Qed.
End Listing.

(** ** Logging in *)

Definition decode_LoginRequest (j : json) : LoginRequest + error :=
  match json_object j with
  | inr e => inr e
  | inl fields =>
      field json_string "username" fields (fun username =>
      field json_string "password" fields (fun password => inl (mkLoginRequest username password)))
  end.

Section LoggingIn.
Context {crypto : Crypto} {totp : Totp}.
Context {C R V O D G X L T W SD Y P Q F B : Type}.
Context `{!AuthorizationCodeStore C, !RefreshTokenStore R, !RevocationStore V, !OAuthStore O,
          !DeviceStore D, !SignalStore G}.
Context {dir : HttpPeer X} `{!LoginAttemptStore L, !TOTPStore T, !WebAuthnRepository W} {webauthn : WebAuthn SD}
  {samlidp : SamlIdp Y} {idp : OAuth2 P} {providers : SSOProviderStore Q} {links : FederationStore F}
  {branding : BrandingStore B} {apps : DeveloperAppStore}.
Context `{!Binder LoginRequest, !Validator LoginRequest, !Binder MFALoginRequest, !Binder SignupRequest,
          !Binder LookupRequest, !Binder AuthorizeRequest, !Validator AuthorizeRequest, !Binder TokenRequest,
          !Validator TokenRequest, !Binder IntrospectRequest, !Validator IntrospectRequest, !Binder RevokeRequest,
          !Validator RevokeRequest, !Binder TOTPEnrollRequest, !Binder TOTPVerifyRequest,
          !Binder RegisterDeviceRequest, !Binder UpdatePostureRequest, !Binder IngestSignalRequest,
          !Binder BeginLoginRequest, !Binder SocialLoginRequest, !Validator SocialLoginRequest,
          !Binder BrandingConfig, !Binder ServiceProvider, !Binder CreateAppRequest, !Binder CreateAPIKeyRequest}.
Context {gin : GinRedirect} {prom : PromHttp} {Lim : Type} (NewLimiter : Lim) (Allow : Z -> Lim -> bool * Lim).
Context (svc : AuthService) (base ip : string).

Abbreviation Auth := (AuthState C R V O D G).
Abbreviation App := (AuthApp Auth X L T W SD Y P Q F B).
Abbreviation Srv := (Server (gmap string Lim) App).

#[local] Instance sdk_authsvc : HttpPeer Srv := authsvc_Do svc NewLimiter Allow base ip.

(** gin decodes the JSON of the body into the struct. *)
Context (Hbind : forall r, should_bind r = decode_LoginRequest (rq_body r)).

Abbreviation lc := (as_lc svc).
Abbreviation LState := (LoginState Auth X L T).

(** What the second factor has to do with a login: nothing is asked for unless
    the store of the secrets has a verified one for the user. *)
Definition asks_factor (tenant user : string) (env : Env) (secrets : T) (asked : bool) : Prop :=
  exists k, asked =
    (lc_totpStore lc && match fst (totp_GetByIdentity tenant user env (mkSt k secrets)) with
                        | Ok (Some secret) => tp_Verified secret
                        | _ => false
                        end).

(** The handler redirects nobody. *)
Lemma login_stays c : stays (login (as_cfg svc) lc c : M LState Response).
Proof. unfold login, login_response, mfa_response, locked_response, respondOAuthError. cbv zeta. by staying. Qed.

(** A login the handler answers 200. *)
Lemma login_accepted user pass tenant c env (s : St LState) resp u :
  rq_body (gc_request c) = JObj [("password", JStr pass); ("username", JStr user)] ->
  GetHeader c "X-Tenant-ID" = tenant -> tenant <> estr ->
  login (as_cfg svc) lc c env s = (Ok resp, u) -> rs_status resp = 200%Z ->
  exists (t v : St LState) token asked,
    (ls_auth (st t), ls_dir (st t), ls_totp (st t)) = (ls_auth (st s), ls_dir (st s), ls_totp (st s)) /\
    Login (as_cfg svc) lc c user pass (GetHeader c "X-Device-ID") (GetHeader c "User-Agent") (ClientIP c)
      (GetHeader c "X-OS-Version") env t = (Ok token, v) /\
    asks_factor tenant user env (ls_totp (st s)) asked /\
    rs_body resp = (if asked then JObj [("mfa_required", JBool true); ("pending_token", JStr token); ("user_id", JStr user)]
                    else JObj [("token", JStr token)]).
Proof.
  intros Hb Htid Hne H H200. unfold login in H. rewrite Hbind, Hb in H.
  change (decode_LoginRequest (JObj [("password", JStr pass); ("username", JStr user)])) with (inl (mkLoginRequest user pass) : LoginRequest + error) in H.
  cbn [lr_Username lr_Password] in H. destruct (validate_struct _); [apply ret_Ok_inv in H as [<- _]; by cbn in H200|].
  cbv zeta in H. rewrite Htid in H. apply bind_Ok_inv in H as (locked & t & El & H).
  destruct locked; [apply ret_Ok_inv in H as [<- _]; by cbn in H200|].
  assert ((ls_auth (st t), ls_dir (st t), ls_totp (st t)) = (ls_auth (st s), ls_dir (st s), ls_totp (st s))) as Hst.
  { case_decide; [|by apply ret_Ok_inv in El as [_ <-]]. apply bind_Ok_inv in El as (x & t0 & El & [_ <-]%ret_Ok_inv).
    unfold attempt, in_attempts, zoom in El. destruct (attempt_IsLocked _ _ _ _) as [[]]; by simplify_eq. }
  apply bind_Ok_inv in H as (r & t' & Er & H). apply attempt_Ok_inv in Er as [(token & -> & Er)|(e & -> & _)]; cycle 1.
  { exfalso. apply bind_Ok_inv in H as ([] & t2 & _ & H). case_match; apply ret_Ok_inv in H as [<- _]; by cbn in H200. }
  exists t, t', token. apply bind_Ok_inv in H as ([] & t2 & Ea & H). apply bind_Ok_inv in H as (secret & t3 & Es & H).
  assert (ls_totp (st t2) = ls_totp (st s)) as Htotp.
  { refine (preserves_run (fun x : LState => ls_totp x = ls_totp (st s)) _ _ _ _ _ _ Ea _).
    - pose proof (fun A (m : M L A) => in_attempts_totp (C := C) (R := R) (V := V) (O := O) (D := D) (G := G) (X := X) (T := T) m (ls_totp (st s))) as Hin. case_decide; effects.
    - refine (preserves_run (fun x : LState => ls_totp x = ls_totp (st s)) _ _ _ _ _ _ Er _); [apply Login_totp|congruence]. }
  exists (match secret with Some sec => tp_Verified sec | None => false end).
  split_and!; [done|exact Er| |].
  - exists (tick t2). destruct (lc_totpStore lc) eqn:Hl; [|by rewrite decide_False in Es by (by intros []); apply ret_Ok_inv in Es as [<- _]].
    rewrite decide_True in Es by done. apply bind_Ok_inv in Es as (x & t4 & Ex & [<- _]%ret_Ok_inv).
    unfold attempt, in_totp, zoom in Ex. rewrite Htotp in Ex.
    destruct (totp_GetByIdentity _ _ _ _) as [[y|e|p] w]; by simplify_eq.
  - destruct secret as [sec|]; [destruct (tp_Verified sec)|]; by apply ret_Ok_inv in H as [<- _].
Qed.

(** Property C17. When the SDK's Login returns nil, the auth process has accepted
    the user name and password for the tenant of the client, in the state it was
    in; the client then holds the token that was issued, unless the store of TOTP
    secrets has a verified one for the user: then it holds no token at all. *)
Theorem sdk_login_outcome user pass c env (s u : St (SdkClient * Srv)) :
  fst (st s) = c -> sdk_BaseURL c = base ->
  sdk_Login user pass env s = (Ok tt, u) ->
  let a := sv_app (snd (st s)) in
  exists ctx (t v : St LState) token asked,
    (ls_auth (st t), ls_dir (st t), ls_totp (st t)) = (ap_auth a, ap_dir a, ap_totp a) /\
    gc_tenant ctx = Some (sdk_TenantID c) /\
    Login (as_cfg svc) lc ctx user pass estr "Go-http-client/1.1" ip estr env t = (Ok token, v) /\
    asks_factor (sdk_TenantID c) user env (ap_totp a) asked /\
    sdk_Token (fst (st u)) = (if asked then estr else token).
Proof.
  intros Hc Hb H a. unfold sdk_Login in H. apply bind_Ok_inv in H as (c' & s1 & E1 & H). apply gets_Ok_inv in E1 as [-> <-].
  rewrite Hc in H.
  apply bind_Ok_inv in H as (req & s2 & Ereq & H). unfold http_NewRequest in Ereq. rewrite Hb in Ereq.
  destruct (url_Parse _) as [url|]; [|done]. apply ret_Ok_inv in Ereq as [<- <-]. cbv zeta in H.
  set (call0 := with_header "Content-Type" "application/json" _) in H.
  set (call := if decide (sdk_TenantID c <> estr) then _ else call0) in H.
  assert (hc_method call = "POST" /\ hc_url call = base +:+ "/login" /\
    hc_body call = JObj [("password", JStr pass); ("username", JStr user)]) as (Hm & Hu & Hbody) by (unfold call; by case_decide).
  assert (header_get "X-Tenant-ID" (hc_headers call) = sdk_TenantID c) as Htid.
  { unfold call. case_decide as Hd; [apply header_get_set|]. by destruct (decide (sdk_TenantID c = estr)) as [->|]. }
  assert (header_get "X-Device-ID" (sent_headers call) = estr /\ header_get "X-OS-Version" (sent_headers call) = estr /\
    header_get "User-Agent" (sent_headers call) = "Go-http-client/1.1") as (Hh1 & Hh2 & Hh3)
    by (unfold call, call0; by case_decide).
  apply bind_Ok_inv in H as (resp & s3 & E & H). apply zoom_Ok_inv in E as (v & E & ->).
  assert (request_path base (hc_url call) = Some ["login"]) as Hpath by (rewrite Hu; by apply (request_path_app base _ "login")).
  rewrite http_Do_stays in E; cycle 1.
  { apply (authsvc_stays NewLimiter Allow svc base ip call ["login"] [] (TenantExtractor noTenantConfig (at_login (login (as_cfg svc) lc))));
      [done|intros He; congruence|by rewrite Hm|]. intros c0. unfold TenantExtractor, at_login. cbv zeta.
    repeat case_match; first [by apply stays_ret|apply stays_zoom, login_stays]. }
  destruct (decide (rs_status resp <> 200%Z)) as [|Hst]; [done|]. apply dec_stable in Hst.
  destruct (protected_call NewLimiter Allow svc base ip call "/login" ["login"] (at_login (login (as_cfg svc) lc)) env
    (mkSt (tick s) (snd (st s))) resp v Hm Hu) as (Hre & n & t & E' & _);
    [by apply (request_path_app base _ "login")|reflexivity|exact E|done|].
  change (header_get DefaultTenantHeader (hc_headers call) = sdk_TenantID c) in Htid. rewrite Htid in Hre, E'. unfold at_login in E'. apply zoom_Ok_inv in E' as (w & E' & _).
  apply (login_accepted user pass (sdk_TenantID c)) in E' as (t1 & t2 & token & asked & Hs & El & Hf & Hr);
    [|done|etrans; [by apply (sent_headers_other "X-Tenant-ID")|done]|by apply uuidRegex_nonempty|done].
  exists (mkGinCtx (call_request ip call) (Some (sdk_TenantID c))), t1, t2, token, asked.
  unfold GetHeader in El. cbn [gc_request call_request rq_headers] in El. rewrite Hh1, Hh2, Hh3 in El.
  split_and!; [exact Hs|done|exact El|exact Hf|].
  apply bind_Ok_inv in H as (tok & s4 & [Ht ->]%decoded_Ok_inv & H). unfold SetToken in H. apply modify_Ok_inv in H as ->. cbn.
  destruct asked; rewrite Hr in Ht; by injection Ht as <-.
Qed.
End LoggingIn.

(** ** Registering a client *)

(** [createOAuthClientRequest] by its tags *)
Definition decode_createRequest (j : json) : CreateOAuthClientInput + error :=
  match json_object j with
  | inr e => inr e
  | inl fields =>
      field json_string "client_id" fields (fun id =>
      field json_string "name" fields (fun name =>
      field json_string "description" fields (fun description =>
      field json_string "client_type" fields (fun ty =>
      field (json_list json_string) "redirect_uris" fields (fun uris =>
      field (json_list json_string) "allowed_scopes" fields (fun scopes =>
      field json_string "client_secret" fields (fun secret =>
      inl (mkCreateOAuthClientInput id name description ty uris scopes secret))))))))
  end.

Definition unless_blank (s : string) : string := if decide (strings_TrimSpace s <> estr) then s else estr.

Lemma strings_decoded l : json_list json_string (JArr (map JStr l)) = inl l.
Proof. induction l as [|s l IH]; [done|]. cbn in IH |- *. by rewrite IH. Qed.

(** What the service reads is what the command was given. *)
Lemma create_payload_decoded id name ty description secret redirects scopes :
  decode_createRequest (create_payload id name ty description secret redirects scopes) =
  inl (mkCreateOAuthClientInput id name (unless_blank description) (strings_ToLower ty) redirects scopes (unless_blank secret)).
Proof.
  transitivity (match json_list json_string (JArr (map JStr redirects)), json_list json_string (JArr (map JStr scopes)) with
    | inl uris, inl sc => inl (mkCreateOAuthClientInput id name (unless_blank description) (strings_ToLower ty) uris sc (unless_blank secret))
    | inr e, _ | _, inr e => inr e end : CreateOAuthClientInput + error); [|by rewrite !strings_decoded].
  unfold create_payload, unless_blank.
  destruct (decide (strings_TrimSpace secret <> estr)), (decide (strings_TrimSpace description <> estr)); reflexivity.
Qed.

Lemma cli_doRequest_Ok_inv {X} {peer : HttpPeer X} method baseURL path tid payload env (s : St (Cli X)) body u :
  cli_doRequest method baseURL path tid payload env s = (Ok body, u) ->
  exists call resp v, hc_method call = method /\ hc_url call = strings_TrimRight baseURL (byte 47) +:+ path /\
    hc_body call = default JNull payload /\ header_get DefaultTenantHeader (hc_headers call) = tid /\
    header_get "Origin" (hc_headers call) = estr /\
    http_Do call env (mkSt (tick s) (cli_peer (st s))) = (Ok resp, v) /\ (rs_status resp < 400)%Z /\ body = rs_body resp /\
    u = mkSt (tick v) (mkCli (cli_stdout (st s)) (cli_stderr (st s)) (st v)).
Proof.
  unfold cli_doRequest. cbv zeta. intros H. apply bind_Ok_inv in H as (req & s1 & E & H).
  apply map_err_Ok_inv in E. unfold http_NewRequest in E. destruct (url_Parse _) as [url|]; [|done].
  apply ret_Ok_inv in E as [<- <-]. apply bind_Ok_inv in H as (resp & s2 & E & H).
  apply zoom_Ok_inv in E as (v & E & ->). destruct (decide (rs_status resp >= 400)%Z) as [|Hst]; [done|].
  apply ret_Ok_inv in H as [<- <-]. eexists _, resp, v. split_and!; [..|exact E|lia|done|done].
  1-3: by case_decide.
  - apply header_get_set.
  - by case_decide.
Qed.

Lemma fmt_Println_peer {X} text env (s : St (Cli X)) r u : fmt_Println text env s = (r, u) -> cli_peer (st u) = cli_peer (st s).
Proof. by intros [= _ <-]. Qed.

Section Registering.
Context {crypto : Crypto} {blaws : BcryptLaws} {dns : Resolver} {nil_bytes : NilBytes}.
Context {R X K B A N W : Type}.
Context `{!RequestStore R, !DirectoryClient X, !CampaignStore K, !RbacStore B} {engine : Engine}
  {audits : AuditStore A} {orgs : OrganizationStore} `{!Connector N W}.
Context `{!Binder CreateOAuthClientInput, !Binder UpdateOAuthClientInput, !Binder CreateAccessRequestBody,
          !Binder ApprovalDecision, !Binder CreateCampaignInput, !Binder CertificationItem, !Binder CommentBody,
          !Binder RoleBody, !Binder PermissionBody, !Binder CreateOrganizationRequest, !Binder UpdateOrganizationRequest,
          !Binder Provider, !Binder ToggleProviderBody, !Binder Config, !Binder ToggleBody, !Binder WebhookRequest}.
Context {gin : GinRedirect} {cors : Cors} {claws : CorsLaws} {prom : PromHttp} {Lim : Type} (NewLimiter : Lim) (Allow : Z -> Lim -> bool * Lim).
Context (cfg : CorsConfig) (host ip : string).

Abbreviation App := (GovApp (GovState oauth_clients R X) K B A (list Provider) (ConnectorState connectors N W)).
Abbreviation Srv := (Server (gmap string Lim) App).
Abbreviation app_routes := (govsvc_app_routes : list (Route App)).
Abbreviation base := ("http://" +:+ host).

#[local] Instance cli_govsvc : HttpPeer Srv := govsvc_Do NewLimiter Allow app_routes cfg host ip.

Lemma gov_no_redirect method path params h :
  not_metrics method path -> resolve app_routes method path = Some (params, h) ->
  slash_redirect (map app_route app_routes ++ [metrics_route] : list (Route Srv)) method path = false.
Proof.
  intros Hm Hr. apply (resolve_no_redirect _ _ _ (params, fun c => on_app (LS := gmap string Lim) (h c))).
  by rewrite resolve_app, Hr.
Qed.

(** A route whose handler does not redirect is answered in place. *)
Lemma govsvc_stays call path params h :
  request_path base (hc_url call) = Some path -> not_metrics (hc_method call) path ->
  header_get "Origin" (hc_headers call) = estr ->
  resolve app_routes (hc_method call) path = Some (params, h) -> (forall c, stays (h c)) ->
  stays (govsvc_Do NewLimiter Allow app_routes cfg host ip call).
Proof.
  intros Hp Hm Ho Hr Hst env s resp u H. unfold govsvc_Do, server_Do in H. rewrite Hp in H.
  apply bind_Ok_inv in H as ([hs resp'] & t & E & [Hresp <-]%ret_Ok_inv). cbn in Hresp. subst resp'.
  destruct (ServeHTTP_govsvc NewLimiter Allow app_routes cfg host (hc_method call) path (call_request ip call) env s Hm
    (gov_no_redirect _ _ _ _ Hm Hr)) as (n & [(h0 & r0 & v & Ev & H0 & Hloc & _)|Hrun]).
  { by pose proof (eq_trans (eq_sym E) Ev) as [= _ -> _]. }
  rewrite cors_no_origin in Hrun by (etrans; [by apply (sent_headers_other "Origin")|exact Ho]).
  destruct (Gin.dispatch app_routes (hc_method call) path (mkGinCtx (call_request ip call) None) env (mkSt n (sv_app (st s))))
    as [res v] eqn:Ed.
  destruct (Hrun _ _ eq_refl) as (h1 & w & Ew & Ha). pose proof (eq_trans (eq_sym E) Ew) as Heq.
  unfold Gin.dispatch in Ed. rewrite Hr in Ed.
  destruct res as [x|e|p]; [injection Heq as _ -> _; by eapply Hst|done|by injection Heq as _ -> _].
Qed.

(** The answer to a call without an Origin, other than the limiter's and the
    recovery's, is the handler's. *)
Lemma govsvc_call call path params h env (s : St Srv) resp u :
  request_path base (hc_url call) = Some path -> not_metrics (hc_method call) path ->
  header_get "Origin" (hc_headers call) = estr ->
  resolve app_routes (hc_method call) path = Some (params, h) ->
  govsvc_Do NewLimiter Allow app_routes cfg host ip call env s = (Ok resp, u) ->
  rs_status resp <> 429%Z -> rs_status resp <> 500%Z ->
  exists n t, h (mkGinCtx (mkRequest (sent_headers call) (rq_query (call_request ip call)) params [] (hc_body call) ip) None)
      env (mkSt n (sv_app (st s))) = (Ok resp, t) /\ sv_app (st u) = st t.
Proof.
  intros Hp Hm Ho Hr H H429 H500. unfold govsvc_Do, server_Do in H. rewrite Hp in H.
  apply bind_Ok_inv in H as ([hs resp'] & t & E & [Hresp <-]%ret_Ok_inv). cbn in Hresp. subst resp'.
  destruct (ServeHTTP_govsvc NewLimiter Allow app_routes cfg host (hc_method call) path (call_request ip call) env s Hm (gov_no_redirect _ _ _ _ Hm Hr))
    as (n & [(h0 & r0 & v & Ev & H0 & _ & _)|Hrun]).
  { exfalso. pose proof (eq_trans (eq_sym E) Ev) as [= _ -> _]. by destruct H429. }
  rewrite cors_no_origin in Hrun by (etrans; [by apply (sent_headers_other "Origin")|exact Ho]).
  destruct (Gin.dispatch app_routes (hc_method call) path (mkGinCtx (call_request ip call) None) env (mkSt n (sv_app (st s))))
    as [res v] eqn:Ed.
  destruct (Hrun _ _ eq_refl) as (h1 & w & Ew & Ha). pose proof (eq_trans (eq_sym E) Ew) as Heq.
  unfold Gin.dispatch in Ed. rewrite Hr in Ed. exists n, v. clear E Ew Hrun.
  destruct res as [x|e|p]; [injection Heq as _ -> ->; by split|done|].
  injection Heq as _ -> _. by destruct H500.
Qed.

(** gin decodes the JSON of the body into the struct. *)
Context (Hbind : forall r, should_bind r = decode_createRequest (rq_body r)).

(** A registration the handler answers with less than 400. *)
Lemma createOAuthClient_accepted r tid input env (s : St (GovState oauth_clients R X)) resp u :
  tid <> estr -> decode_createRequest (rq_body r) = inl input ->
  createOAuthClient (mkGinCtx r (Some tid)) env s = (Ok resp, u) -> (rs_status resp < 400)%Z ->
  exists c, CreateOAuthClient tid input env s = (Ok c, u).
Proof.
  intros Hne Hd H Hlt. unfold createOAuthClient, gov_tenantID, with_tenant in H.
  erewrite or_respond_run in H by (by apply tenant_context). unfold bound in H. cbn [gc_request] in H. rewrite Hbind, Hd in H.
  unfold served, or_respond in H. apply bind_Ok_inv in H as (x & t & E & H).
  apply attempt_Ok_inv in E as [(c & -> & E)|(e & -> & _)]; apply ret_Ok_inv in H as [<- <-]; [by exists c|].
  exfalso. unfold handleServiceError in Hlt. repeat case_match; cbn in Hlt; lia.
Qed.

Abbreviation create_flags := (string_flags ["client-id"; "name"; "type"; "description"; "redirects"; "scopes"; "secret"] ++ common_flags).

(** A creation that exits with 0. *)
Lemma runCreate_inv args set env (s u : St (Cli Srv)) r :
  flag_Parse create_flags args [] = FlagsParsed set ->
  runCreate args env s = (Ok r, u) ->
  r = None /\ exists call resp v,
    hc_method call = "POST" /\ hc_url call = strings_TrimRight (base_url set) (byte 47) +:+ "/api/v1/oauth/clients" /\
    hc_body call = create_payload (flag_value set "client-id" estr) (flag_value set "name" estr) (flag_value set "type" "public")
      (flag_value set "description" estr) (flag_value set "secret" estr) (splitAndClean (flag_value set "redirects" estr))
      (splitAndClean (flag_value set "scopes" estr)) /\
    header_get DefaultTenantHeader (hc_headers call) = tenant_flag set /\ header_get "Origin" (hc_headers call) = estr /\
    http_Do call env (mkSt (tick s) (cli_peer (st s))) = (Ok resp, v) /\ (rs_status resp < 400)%Z /\ cli_peer (st u) = st v.
Proof.
  intros Hf H. unfold runCreate, with_flags in H. rewrite Hf in H. cbv zeta in H.
  do 4 (destruct (decide _); [done|]). apply bind_Ok_inv in H as (body & s1 & E & H).
  apply cli_doRequest_Ok_inv in E as (call & resp & v & Hm & Hu & Hb & Ht & Ho & E & Hst & _ & ->).
  apply bind_Ok_inv in H as (client & s2 & Ep & H).
  unfold parse_response in Ep. apply map_err_Ok_inv, decoded_Ok_inv in Ep as [_ ->].
  apply bind_Ok_inv in H as ([] & s3 & Ep & H). apply bind_Ok_inv in H as ([] & s4 & Eq & [<- <-]%ret_Ok_inv).
  split; [done|]. exists call, resp, v. split_and!; [done..|].
  by rewrite (fmt_Println_peer _ env _ _ _ Eq), (fmt_Println_peer _ env _ _ _ Ep).
Qed.

(** What the flags ask to register. *)
Definition cli_input (set : list (string * string)) : CreateOAuthClientInput :=
  mkCreateOAuthClientInput (flag_value set "client-id" estr) (flag_value set "name" estr)
    (unless_blank (flag_value set "description" estr)) (strings_ToLower (flag_value set "type" "public"))
    (splitAndClean (flag_value set "redirects" estr)) (splitAndClean (flag_value set "scopes" estr))
    (unless_blank (flag_value set "secret" estr)).

(** From the command line to the service, through the process. *)
Lemma cli_create_runs args set env (s u : St (Cli Srv)) :
  flag_Parse create_flags args [] = FlagsParsed set -> strings_TrimRight (base_url set) (byte 47) = base ->
  admincli_main ("create" :: args) env s = (Ok 0%Z, u) ->
  exists n c w, CreateOAuthClient (tenant_flag set) (cli_input set) env (mkSt n (ga_gov (sv_app (cli_peer (st s))))) = (Ok c, w) /\
    ga_gov (sv_app (cli_peer (st u))) = st w.
Proof.
  intros Hf Hbase H. unfold admincli_main in H. cbn in H. unfold admincli_run in H.
  apply bind_Ok_inv in H as (x & s1 & E & H). apply attempt_Ok_inv in E as [(st0 & -> & E)|(e & -> & _)];
    [|by apply bind_Ok_inv in H as (? & ? & _ & [? _]%ret_Ok_inv)].
  apply (runCreate_inv args set) in E as (-> & call & resp & v & Hm & Hu & Hb & Ht & Ho & E & Hlt & Hpeer); [|done].
  apply ret_Ok_inv in H as [_ <-]. rewrite Hpeer. rewrite Hbase in Hu.
  rewrite http_Do_stays in E; cycle 1.
  { apply (govsvc_stays call ["api"; "v1"; "oauth"; "clients"] [] (TenantExtractor noTenantConfig (at_gov createOAuthClient)));
      [by rewrite Hu; apply (request_path_app base _ "api/v1/oauth/clients")|by intros He; rewrite Hm in He|done|rewrite Hm; reflexivity|].
    intros c0. unfold TenantExtractor, at_gov. cbv zeta. repeat case_match; first [by apply stays_ret|apply stays_zoom];
      unfold createOAuthClient, gov_tenantID, with_tenant, served, handleServiceError; by staying. }
  destruct (govsvc_call call ["api"; "v1"; "oauth"; "clients"] [] (TenantExtractor noTenantConfig (at_gov createOAuthClient)) env
    (mkSt (tick s) (cli_peer (st s))) resp v) as (n & t & E1 & ->);
    [by rewrite Hu; apply (request_path_app base _ "api/v1/oauth/clients")|by intros He; rewrite Hm in He|done|rewrite Hm; reflexivity
    |exact E|lia|lia|].
  set (rq := mkRequest _ _ _ _ _ _) in E1.
  destruct (TenantExtractor_gate (at_gov createOAuthClient) (mkGinCtx rq None) env (mkSt n (sv_app (cli_peer (st s)))))
    as [[Hre _]|[_ (b & Eb)]]; [|pose proof (eq_trans (eq_sym Eb) E1) as [= <- _]; by cbn in Hlt].
  assert (header_get DefaultTenantHeader (rq_headers rq) = tenant_flag set) as Hrq
    by (etrans; [by apply (sent_headers_other DefaultTenantHeader)|done]).
  change (GetHeader (mkGinCtx rq None) DefaultTenantHeader) with (header_get DefaultTenantHeader (rq_headers rq)) in Hre.
  rewrite Hrq in Hre. pose proof (uuidRegex_nonempty _ Hre) as Htne.
  rewrite (TenantExtractor_run _ rq (tenant_flag set) Hrq Htne Hre) in E1.
  unfold at_gov in E1. apply zoom_Ok_inv in E1 as (w & E1 & ->). cbn [tick st] in E1.
  apply (createOAuthClient_accepted rq (tenant_flag set) (cli_input set)) in E1 as (c & Ec);
    [|done|unfold rq; cbn [rq_body]; rewrite Hb; apply create_payload_decoded|done].
  by exists n, c, w.
Qed.

Context {C F V D G : Type} (acfg : AuthConfig).

End Registering.

(** [admincli get] puts the identifier in the path as it is: what follows a
    question mark addresses nothing, and the client named by the rest is asked
    for. *)
Example client_path_unescaped :
  request_path "http://localhost:8082" ("http://localhost:8082" +:+ client_path "shop?v=2") =
  request_path "http://localhost:8082" ("http://localhost:8082" +:+ client_path "shop").
Proof. reflexivity. Qed.
