(* ===== verification/ProcessDemo.v ===== *)
(** * The processes at work

    The theorems of Middleware.v, Gin.v, AuthSvcFacts.v, DirService.v, GovSvc.v and
    ClientSdk.v on small deployments: requests over HTTP to the three processes,
    and the SDK and the command line against them. *)
From S2P Require Import Prelude Bcrypt GoStd GoUrl GoJson Sha256 Sql Http Middleware ConnObjects.
From S2P Require Import OAuthClient AuthClient TokenStores Risk AuthService AuthFacts AuthDemo Directory Scim DirectoryFacts DirectoryDemo ScimFacts.
From S2P Require Import DirectoryApi DirService Login AuthApi Sso Federation FederationDemo DeveloperApps Branding Saml License.
From S2P Require Import ProvisioningDemo GovernanceDemo Governance GovernanceFacts Campaigns Rbac AuditLog Organizations Webhooks Connectors.
From S2P Require Import Gin Server CommandLine AuthSvc AuthSvcFacts GovSvc ClientSdk.
Local Open Scope go_scope.

#[local] Existing Instance demo_gin.

(** ** Surroundings *)

#[local] Instance page : PromHttp := fun _ => respond 200 (JStr "metrics").
#[local] Instance no_binding {A} : Binder A | 100 := fun _ => inr err_json.
#[local] Instance lenient_validator {A} : Validator A | 100 := fun _ => None.
#[local] Existing Instances demo_idp takes_raw.
#[local] Instance nulls : NilBytes := true.
#[local] Instance casts : NamedCast := None.

(** No limit. *)
Definition allow_all : Z -> unit -> bool * unit := fun _ _ => (true, tt).

(** A call to a process at [base]. *)
Definition call_to (base method path tid : string) (body : json) : HttpCall :=
  mkHttpCall method (base +:+ path) [("X-Tenant-ID", tid)] [] body.

(** ** The auth process *)

#[local] Instance demo_totp : Totp := {|
  totp_Validate := fun _ code secret => bool_decide (code = "111111");
  totp_Generate := fun _ _ => inl ("JBSWY3DPEHPK3PXP", "otpauth://totp/x", "png")
|}.

#[local] Instance demo_webauthn : WebAuthn string := {|
  wa_BeginRegistration := fun _ u => inl (JObj [("challenge", JStr "c")], wu_ID u);
  wa_FinishRegistration := fun u _ _ => inl (mkCredential "cred" "key" "none" estr 0 false);
  wa_BeginLogin := fun _ u => inl (JObj [("challenge", JStr "c")], wu_ID u);
  wa_FinishLogin := fun u _ _ => match wu_Credentials u with c :: _ => inl c | [] => inr (ErrLib "no credential") end
|}.

#[local] Instance demo_saml : SamlIdp unit := {|
  samlidp_New := fun _ => None;
  samlidp_ServeHTTP := fun _ => ret (respond 200 (JStr "metadata"));
  samlidp_HandleIDPInitiated := fun _ => ret (respond 200 (JStr "form"))
|}.

(** A directory with one user. *)
#[local] Instance one_user : HttpPeer unit := fun call =>
  ret (if decide (json_path ["email"] (hc_body call) = inl "alice@example.com" /\
                  json_path ["password"] (hc_body call) = inl "correct horse")
       then respond 200 (JObj [("user", JObj [("id", JStr (demo_uuid 11)); ("email", JStr "alice@example.com")])])
       else respond 401 (error_body "invalid credentials")).

#[local] Instance bind_token : Binder TokenRequest := fun r =>
  match json_path ["grant_type"] (rq_body r), json_path ["refresh_token"] (rq_body r) with
  | inl "client_credentials", _ => inl credentials_req
  | inl g, inl t => inl (mkTokenRequest g estr estr estr "web" estr estr t)
  | _, _ => inr err_json
  end.
#[local] Instance bind_revoke : Binder RevokeRequest := fun r =>
  match json_path ["token"] (rq_body r) with inl t => inl (mkRevokeRequest t estr) | inr e => inr e end.
#[local] Instance bind_introspect : Binder IntrospectRequest := fun r =>
  match json_path ["token"] (rq_body r) with inl t => inl (mkIntrospectRequest t estr) | inr e => inr e end.
#[local] Instance bind_login : Binder LoginRequest := fun r => decode_LoginRequest (rq_body r).

Definition demo_svc : AuthService :=
  mkAuthService store_cfg (mkLoginConfig "http://dirsvc:8081" "X-Service-Token" "secret" true true true)
    (mkServiceParts true true true false true true ("n", "AQAB")).

Definition auth_base : string := "http://localhost:8080".

Definition no_metrics : Metrics := mkMetrics ∅ ∅ ∅ ∅ ∅ 0.

Abbreviation DemoApp Auth := (AuthApp Auth unit Attempts (list TOTPSecret) Credentials string unit unit (list Provider) FedDb (list BrandingConfig)).

Definition demo_app {Auth} (a : Auth) (secrets : list TOTPSecret) : DemoApp Auth :=
  mkApp a tt (mkAttempts [] []) secrets None ∅ tt tt [] (mkFed [] []) [] [] (mkDev [] []).

Definition demo_server {Auth} (a : Auth) (secrets : list TOTPSecret) : St (Server (gmap string unit) (DemoApp Auth)) :=
  mkSt 0 (mkServer [] ∅ no_metrics (demo_app a secrets)).

(** The status of a run that is known to have succeeded. *)
Definition run_status {S} (p : Res Response * St S) : Z := match fst p with Ok r => rs_status r | _ => 0 end.

Lemma answered {S} (p : Res Response * St S) resp u code :
  p = (Ok resp, u) -> run_status p = code -> rs_status resp = code.
Proof. intros -> H. exact H. Qed.

(** A request without a tenant to a protected path. *)
Definition untenanted : Request := mkRequest [("Content-Type", "application/json")] [] [] [] JNull "10.0.0.1".

Lemma authsvc_tenant_required_witness :
  is_public public_routes "GET" ["api"; "v1"; "devices"] = false /\
  exists h resp u,
    ServeHTTP (authsvc_chain demo_svc tt allow_all "GET" ["api"; "v1"; "devices"]) untenanted demo_env
      (demo_server (st with_store) []) = (Ok (h, resp), u) /\ rs_status resp = 400%Z /\
    sv_app (st u) = demo_app (st with_store) [].
Proof.
  split; [vm_compute; reflexivity|].
  destruct (authsvc_tenant_required tt allow_all demo_svc "GET" ["api"; "v1"; "devices"] untenanted demo_env
    (demo_server (st with_store) []) eq_refl eq_refl) as (h & resp & u & E & Ha & _).
  exists h, resp, u. split; [exact E|]. split; [|exact Ha].
  assert (match fst (ServeHTTP (authsvc_chain demo_svc tt allow_all "GET" ["api"; "v1"; "devices"]) untenanted demo_env
            (demo_server (st with_store) [])) with Ok (_, r) => rs_status r = 400%Z | _ => True end) as H by (vm_compute; reflexivity).
  rewrite E in H. exact H.
Defined.

Abbreviation send call s := (authsvc_Do demo_svc tt allow_all auth_base "10.0.0.1" call demo_env s).

Definition revoke_call : HttpCall := call_to auth_base "POST" "/oauth2/revoke" tenant (JObj [("token", JStr "tok-1")]).
Definition introspect_call : HttpCall := call_to auth_base "POST" "/oauth2/introspect" tenant (JObj [("token", JStr "tok-1")]).

Lemma authsvc_revocation_final_witness :
  exists resp s1 resp' u, send revoke_call (demo_server (st fresh) []) = (Ok resp, s1) /\ rs_status resp = 200%Z /\
    send introspect_call s1 = (Ok resp', u) /\ rs_status resp' = 200%Z /\ rs_body resp' = IntrospectResponse_json inactive.
Proof.
  assert (is_ok (fst (send revoke_call (demo_server (st fresh) []))) = true) as Hok by (vm_compute; reflexivity).
  destruct (ok_run _ Hok) as (resp & s1 & E).
  assert (rs_status resp = 200%Z) as H200 by (apply (answered _ _ _ _ E); vm_compute; reflexivity).
  assert (match fst (send introspect_call s1) with Ok r => rs_status r = 200%Z | _ => False end) as H2.
  { replace s1 with (snd (send revoke_call (demo_server (st fresh) []))) by (by rewrite E). vm_compute. reflexivity. }
  destruct (send introspect_call s1) as [[resp'| |] u] eqn:E2; [|destruct H2..].
  exists resp, s1, resp', u. split; [exact E|]. split; [exact H200|]. split; [exact E2|]. split; [exact H2|].
  destruct (authsvc_revocation_final tt allow_all demo_svc auth_base "tok-1" estr "10.0.0.1" revoke_call resp demo_env
    (demo_server (st fresh) []) s1 s1 eq_refl eq_refl eq_refl E H200 (serving_nil _ _ _ _ _ _)) as [Hi _].
  exact (Hi "10.0.0.1" introspect_call estr resp' u eq_refl eq_refl eq_refl E2 H2).
Defined.

(** As deployed: the Postgres stores, and a client with a secret. *)
Abbreviation SqlAuth := (AuthState (list authorizationCode) (list refreshTokenEntry) (gmap string Z) (list Client) (list Device) SignalDb).

Definition sql_stores : SqlAuth := mkAuth [] [] ∅ [service_client] ([], None).

Definition token_call : HttpCall :=
  call_to auth_base "POST" "/oauth2/token" tenant (JObj [("grant_type", JStr "client_credentials")]).

Lemma deployment_limits_witness :
  exists resp u, send token_call (demo_server sql_stores []) = (Ok resp, u) /\ rs_status resp = 200%Z /\
    exists req, should_bind (call_request "10.0.0.1" token_call) = inl req /\ tr_GrantType req = "client_credentials".
Proof.
  assert (is_ok (fst (send token_call (demo_server sql_stores []))) = true) as Hok by (vm_compute; reflexivity).
  destruct (ok_run _ Hok) as (resp & u & E).
  assert (rs_status resp = 200%Z) as H200 by (apply (answered _ _ _ _ E); vm_compute; reflexivity).
  exists resp, u. split; [exact E|]. split; [exact H200|].
  exact (proj1 (deployment_limits tt allow_all demo_svc auth_base demo_env (demo_server sql_stores []) (demo_server sql_stores [])
    "10.0.0.1" token_call resp u demo_env_strict eq_refl eq_refl (serving_nil _ _ _ _ _ _) eq_refl E H200) eq_refl).
Defined.

(** ** The rate limiter *)

(** A limiter that lets one request through. *)
Definition one_request (_ : Z) (used : bool) : bool * bool := (negb used, true).

Lemma limiter_run_isolated_witness :
  exists oks s', limiter_run false one_request [Arrives "10.0.0.1"; Arrives "10.0.0.2"; CleansUp; Arrives "10.0.0.1"] demo_env (mkSt 0 ∅) = (Ok oks, s') /\
    answers_of "10.0.0.1" ["10.0.0.1"; "10.0.0.2"; "10.0.0.1"] oks = [true; false] /\
    answers_of "10.0.0.2" ["10.0.0.1"; "10.0.0.2"; "10.0.0.1"] oks = [true].
Proof.
  destruct (limiter_run_isolated false one_request demo_env [Arrives "10.0.0.1"; Arrives "10.0.0.2"; CleansUp; Arrives "10.0.0.1"] ∅ 0)
    as (oks & s' & E & _ & Hip).
  exists oks, s'. split; [exact E|]. split.
  - etransitivity; [apply (proj2 (Hip "10.0.0.1")); vm_compute; discriminate|]. vm_compute. reflexivity.
  - etransitivity; [apply (proj2 (Hip "10.0.0.2")); vm_compute; discriminate|]. vm_compute. reflexivity.
Defined.

(** With ten thousand other addresses a round of the clean-up gives the first one
    its request back. *)
Example limiter_cleanup_resets :
  let others := map (fun k => Arrives (pretty k)) (seq 0 (Z.to_nat 10000)) in
  match limiter_run false one_request ([Arrives "10.0.0.1"; Arrives "10.0.0.1"] ++ others ++ [CleansUp; Arrives "10.0.0.1"]) demo_env (mkSt 0 ∅) with
  | (Ok oks, _) => (take 2 oks, drop (Z.to_nat 10002) oks) = ([true; false], [true])
  | _ => False
  end.
Proof. vm_compute. reflexivity. Qed.

(** ** The SDK *)

#[local] Instance sdk_auth : HttpPeer (Server (gmap string unit) (DemoApp Memory)) := sdk_authsvc tt allow_all demo_svc auth_base "10.0.0.1".

Definition sdk_client : SdkClient := sdk_New (mkSdkConfig auth_base tenant 0).

Lemma sdk_login_outcome_witness :
  exists u, sdk_Login "alice@example.com" "correct horse" demo_env (mkSt 0 (sdk_client, st (demo_server (st fresh) []))) = (Ok tt, u) /\
    exists ctx t v token, Login store_cfg (as_lc demo_svc) ctx "alice@example.com" "correct horse" estr "Go-http-client/1.1" "10.0.0.1" estr demo_env
      (t : St (LoginState Memory unit Attempts (list TOTPSecret))) = (Ok token, v) /\ sdk_Token (fst (st u)) = token.
Proof.
  assert (is_ok (fst (sdk_Login "alice@example.com" "correct horse" demo_env (mkSt 0 (sdk_client, st (demo_server (st fresh) []))))) = true)
    as Hok by (vm_compute; reflexivity).
  destruct (ok_run _ Hok) as ([] & u & E). exists u. split; [exact E|].
  destruct (sdk_login_outcome tt allow_all demo_svc auth_base "10.0.0.1" (fun r => eq_refl) "alice@example.com" "correct horse" sdk_client
    demo_env (mkSt 0 (sdk_client, st (demo_server (st fresh) []))) u eq_refl eq_refl E)
    as (ctx & t & v & token & asked & _ & _ & El & (k & Hk) & Ht).
  assert (asked = false) as Hf by (rewrite Hk; vm_compute; reflexivity). rewrite Hf in Ht.
  exists ctx, t, v, token. split; [exact El|exact Ht].
Defined.

Definition directory_client : SdkClient := sdk_New (mkSdkConfig "http://localhost:8081" tenantA 0).

#[local] Instance sdk_dir : HttpPeer DirDb :=
  sdk_dirsvc (Binder0 := bind_scim_user) (Binder1 := bind_scim_group) (Binder2 := bind_scim_ops) no_routes "http://localhost:8081".

Lemma sdk_lists_users_witness :
  exists m, sdk_ListUsers "userName eq x" demo_env (mkSt 0 (directory_client, two_tenants)) =
    (Ok (map sdk_view (take 100 (all_users tenantA two_tenants))), mkSt m (directory_client, two_tenants)).
Proof.
  refine (sdk_lists_users no_routes eq_refl "http://localhost:8081" "userName eq x" directory_client tenantA
    _ demo_env 0 two_tenants demo_env_up (demo_uuid_canonical 1) _ _ eq_refl _ _); try (vm_compute; reflexivity).
  apply (bool_decide_eq_true_1 (distinct_times tenantA two_tenants)). vm_compute. reflexivity.
Defined.

(** With a second factor the SDK's login returns nil and stores no token. *)
Example sdk_login_second_factor :
  let secret := mkTOTPSecret (demo_uuid 21) "alice@example.com" tenant "JBSWY3DPEHPK3PXP" true 0 (Some 0%Z) in
  let '(r, u) := sdk_Login "alice@example.com" "correct horse" demo_env (mkSt 0 (sdk_client, st (demo_server (st fresh) [secret]))) in
  r = Ok tt /\ sdk_Token (fst (st u)) = estr.
Proof. vm_compute. split; reflexivity. Qed.

(** ** The governance process *)

Lemma lower_byte_facts a :
  is_hex (lower_byte a) = is_hex a /\ lower_byte (lower_byte a) = lower_byte a /\
  bool_decide (byte_N (lower_byte a) = 45%N) = bool_decide (byte_N a = 45%N).
Proof. destruct a as [[] [] [] [] [] [] [] []]; vm_compute; auto. Qed.

Lemma ToLower_twice s : strings_ToLower (strings_ToLower s) = strings_ToLower s.
Proof. induction s as [|a s IH]; [done|]. cbn. by rewrite (proj1 (proj2 (lower_byte_facts a))), IH. Qed.

Lemma hex_run_lower n s : hex_run n (strings_ToLower s) = strings_ToLower <$> hex_run n s.
Proof.
  revert s. induction n as [|n IH]; intros s; [done|]. destruct s as [|a s]; [done|]. cbn.
  rewrite (proj1 (lower_byte_facts a)). destruct (is_hex a); [apply IH|done].
Qed.

Lemma hex_groups_lower ns s : hex_groups ns (strings_ToLower s) = hex_groups ns s.
Proof.
  revert s. induction ns as [|n ns IH]; intros s; [done|]. cbn [hex_groups]. rewrite hex_run_lower.
  destruct (hex_run n s) as [[|a r]|]; cbn [fmap option_fmap option_map strings_ToLower]; [done| |done].
  destruct ns; [done|]. by rewrite (proj2 (proj2 (lower_byte_facts a))), IH.
Qed.

Lemma demo_uuid_stable : uuid_stable demo_env.
Proof.
  intros s t. cbn [pg_uuid demo_env]. destruct (hex_groups _ s) eqn:E; [|done]. intros [= <-].
  by rewrite hex_groups_lower, E, ToLower_twice.
Qed.

(** Requests of the address [http://localhost:8082] have no Origin or one of the
    configuration. *)
#[local] Instance demo_cors : Cors := {|
  cors_Validate := fun cfg => if decide (co_AllowAllOrigins cfg = false /\ co_AllowOrigins cfg = []) then Some (ErrLib "all origins disabled") else None;
  cors_verdict := fun cfg host method hs =>
    let origin := header_get "Origin" hs in
    if decide (origin = estr \/ same_origin host origin) then CorsNext []
    else if decide (co_AllowAllOrigins cfg = true \/ origin ∈ co_AllowOrigins cfg)
         then if decide (method = "OPTIONS") then CorsAbort 204 [] else CorsNext [("Access-Control-Allow-Origin", origin)]
         else CorsAbort 403 []
|}.

#[local] Instance demo_cors_laws : CorsLaws.
Proof.
  split; cbn; intros.
  - by rewrite decide_True by auto.
  - by rewrite decide_True by auto.
  - subst origin. rewrite decide_False by tauto. rewrite decide_False; [by eexists|].
    intros [?|Hin]; [congruence|]. match goal with H : _ ∉ map _ _ |- _ => apply H end. by apply list_elem_of_fmap_2.
  - case_decide; [by eexists|]. rewrite decide_True by done. rewrite decide_False by done. by eexists.
  - rewrite decide_False by tauto. rewrite decide_True by done. by eexists.
  - rewrite decide_True by done. by eexists.
  - rewrite decide_False; [done|]. intros [? _]. congruence.
Qed.

#[local] Instance no_directory : DirectoryClient unit := fun _ _ _ => ret tt.
#[local] Existing Instances simpleEngine_Evaluate down.
#[local] Instance no_dns : Resolver := fun _ _ => inl [].
#[local] Instance addresses : PgInet := fun s => Some s.
#[local] Instance bind_client : Binder CreateOAuthClientInput := fun r => decode_createRequest (rq_body r).
#[local] Instance bind_webhook : Binder WebhookRequest := fun _ => inl (mkWebhookRequest "https://hooks.example.com" "s" ["user.created"]).

Definition their_webhook : Webhook := mkWebhook (demo_uuid 601) tenantB "https://b.example.com" "s" ["user.created"] true 0 0.

Abbreviation GovDemo :=
  (GovApp (GovState oauth_clients RequestDb unit) CampaignDb RbacDb (list Event) (list Provider) (ConnectorState connectors unit nat)).

Definition gov_app : GovDemo :=
  mkGovApp (mkGov [] (mkRequestDb [] []) tt) (mkCampaignDb [] []) (mkRbac [] [] [] []) [] [] []
    (mkConnectorState [] (mkRegistry ∅ ∅ 0)) [their_webhook].

Definition gov_server : Server (gmap string unit) GovDemo := mkServer [] ∅ no_metrics gov_app.

Definition demo_origins : CorsConfig := cors_config ["http://localhost:5173"].
Abbreviation gov_chain := (govsvc_chain tt allow_all (govsvc_app_routes : list (Route GovDemo)) demo_origins "localhost:8082").

(** The first tenant tries to delete the webhook of the second. *)
Definition foreign_delete : Request := mkRequest [("X-Tenant-ID", tenantA)] [] [] [] JNull "10.0.0.1".

Lemma govsvc_isolated_witness :
  exists res u, ServeHTTP (gov_chain "DELETE" ["api"; "v1"; "webhooks"; demo_uuid 601]) foreign_delete demo_env (mkSt 0 gov_server) = (Ok res, u) /\
    tw_webhooks (tenant_rows tenantB (sv_app (st u))) = [their_webhook].
Proof.
  assert (is_ok (fst (ServeHTTP (gov_chain "DELETE" ["api"; "v1"; "webhooks"; demo_uuid 601]) foreign_delete demo_env (mkSt 0 gov_server))) = true)
    as Hok by (vm_compute; reflexivity).
  destruct (ok_run _ Hok) as (res & u & E). exists res, u. split; [exact E|].
  rewrite (govsvc_isolated tt allow_all demo_origins "localhost:8082" "DELETE" ["api"; "v1"; "webhooks"; demo_uuid 601] foreign_delete tenantB
    demo_env (mkSt 0 gov_server) (Ok res) u demo_uuid_stable); [vm_compute; reflexivity| |exact E].
  change (header_get DefaultTenantHeader (rq_headers foreign_delete)) with tenantA. unfold tenantA. rewrite demo_uuid_canonical. vm_compute. discriminate.
Defined.

(** ** The command line *)

#[local] Instance gov_peer : HttpPeer (Server (gmap string unit) GovDemo) := cli_govsvc tt allow_all demo_origins "localhost:8082" "10.0.0.1".

Definition create_args : list string :=
  ["-tenant"; tenantA; "-client-id=shop"; "-name"; "Shop"; "-redirects"; "https://shop.example.com/cb, ,"; "-scopes"; "openid,email"].

Definition create_set : list (string * string) :=
  [("tenant", tenantA); ("client-id", "shop"); ("name", "Shop"); ("redirects", "https://shop.example.com/cb, ,"); ("scopes", "openid,email")].


(** ** Licenses

    A license scheme in which a key is a number and a token spells out, in
    binary, the key and the claims it signs. *)

Fixpoint pos_digits (p : positive) : string :=
  match p with xH => "1" | xO q => String (byte 48) (pos_digits q) | xI q => String (byte 49) (pos_digits q) end.

Fixpoint digits_pos (s : string) : option positive :=
  match s with
  | EmptyString => None
  | String a EmptyString => if decide (a = byte 49) then Some xH else None
  | String a r => (if decide (a = byte 49) then xI else xO) <$> digits_pos r
  end.

Lemma pos_digits_cons p : exists a r, pos_digits p = String a r.
Proof. destruct p; cbn; eauto. Qed.

Lemma digits_pos_digits p : digits_pos (pos_digits p) = Some p.
Proof.
  induction p as [p IH|p IH|]; [| |done]; cbn [pos_digits digits_pos];
    destruct (pos_digits_cons p) as (a & r & E); rewrite E in *; cbn [digits_pos] in *; by rewrite IH.
Qed.

Definition claims_tuple (c : LicenseClaims) : string * string * option Z * option Z * list string * string :=
  (lk_Subject c, lk_Issuer c, lk_ExpiresAt c, lk_IssuedAt c, lk_Features c, lk_Plan c).

Definition tuple_claims (t : string * string * option Z * option Z * list string * string) : LicenseClaims :=
  let '(a, b, c, d, e, f) := t in mkLicenseClaims a b c d e f.

Definition demo_sign (k : positive) (c : LicenseClaims) : string := pos_digits (encode (k, claims_tuple c)).

Definition demo_open (token : string) : option (positive * LicenseClaims) :=
  match digits_pos token with
  | Some p => match decode p with Some (k, t) => Some (k, tuple_claims t) | None => None end
  | None => None
  end.

Lemma demo_open_sign k c : demo_open (demo_sign k c) = Some (k, c).
Proof. unfold demo_open, demo_sign. rewrite digits_pos_digits. cbn. rewrite decode_encode. by destruct c. Qed.

Definition live (t : Z) (c : LicenseClaims) : bool :=
  match lk_ExpiresAt c with Some e => bool_decide (t < e)%Z | None => true end.

#[local] Instance demo_jwt : LicenseJwt positive positive := {|
  pem_public_key := fun s => match digits_pos s with Some k => Some (inl (Some k)) | None => None end;
  jwt_ParseWithClaims := fun t token keyfunc =>
    match demo_open token, keyfunc (mkTokenMethod "RS256" true) with
    | Some (k, c), inl pub =>
        if bool_decide (k = pub) && live t c then inl (c, true) else inr (ErrLib "token is invalid")
    | _, _ => inr (ErrLib "token is malformed")
    end;
  jwt_SignRS256 := fun k c => inl (demo_sign k c);
  NumericDate := fun t => (t - t mod second)%Z
|}.

#[local] Instance demo_keys : LicenseKeys positive := {|
  rsa_NewKey := fun n => inl (Pos.of_succ_nat n);
  pem_PrivateKey := pos_digits;
  pem_PublicKey := fun k => inl (pos_digits k);
  ParsePKCS1PrivateKey := fun s => match digits_pos s with Some k => Some (inl k) | None => None end;
  ParsePKCS8PrivateKey := fun _ => inr (ErrLib "x509: failed to parse private key")
|}.

Lemma demo_license_laws k : LicenseLaws k k.
Proof.
  split; cbn [jwt_SignRS256 jwt_ParseWithClaims NumericDate demo_jwt].
  - intros t claims token keyfunc [= <-] -> _ He. exists claims. split; [|done].
    rewrite demo_open_sign, bool_decide_eq_true_2 by done. unfold live.
    destruct (lk_ExpiresAt claims) as [e|]; [|done]. by rewrite bool_decide_eq_true_2 by auto.
  - intros t claims token keyfunc e [= <-] -> _ He Ht. rewrite demo_open_sign, bool_decide_eq_true_2 by done. unfold live.
    rewrite He, bool_decide_eq_false_2 by lia. by eexists.
  - intros claims token [= <-] E. unfold demo_sign in E.
    destruct (pos_digits_cons (encode (k, claims_tuple claims))) as (a & r & E'). congruence.
  - intros t. pose proof (Z.mod_pos_bound t second ltac:(done)). lia.
Qed.

#[local] Instance demo_key_laws : LicenseKeyLaws (fun k => k).
Proof.
  split; cbn.
  - intros k. by rewrite digits_pos_digits.
  - intros k p [= <-]. by rewrite digits_pos_digits.
  - exact demo_license_laws.
Qed.

Definition no_failure (n : nat) (name : string) : option error := None.
Definition no_format (t : Z) : string := "01 Jan 70 00:00 UTC".

Definition license_args : list string := ["-customer"; "Acme"; "-days=30"].
Definition license_set : list (string * string) := [("customer", "Acme"); ("days", "30")].

Lemma license_days_witness :
  exists token u, generate_license 7%positive "Acme" 106752 "enterprise" "sso" demo_env (mkSt 0 tt) = (Ok token, u) /\
    ~ (exists lic w, Verify (mkManager 7%positive) token demo_env (mkSt 3 tt) = (Ok lic, w)).
Proof.
  destruct (generate_license 7%positive "Acme" 106752 "enterprise" "sso" demo_env (mkSt 0 tt)) as [[token| |] u] eqn:E;
    [|discriminate E..].
  exists token, u. split; [reflexivity|]. intros H.
  apply (license_days 7%positive 7%positive (demo_license_laws 7) "Acme" 106752 "enterprise" "sso" demo_env (mkSt 0 tt) token u demo_env (mkSt 3 tt)
    ltac:(lia) E ltac:(cbn; lia) ltac:(cbn; unfold day, second; lia)) in H. lia.
Defined.

(** The environment of a process with a license *)
Definition licensed_host (token pem : string) : Host := {|
  os_Getenv := fun k => if decide (k = "REQUIRE_LICENSE") then "true" else if decide (k = "LICENSE_KEY") then token else estr;
  os_ReadFile := fun _ => inl pem
|}.

(** After -gen-key *)
Definition keyed : St (Cli Files) := snd (licensegen_main no_failure no_format ["-gen-key"] demo_env (mkSt 0 (mkCli estr estr ∅))).

Lemma license_chain_witness :
  exists token pem w, check_license (host := licensed_host token pem) demo_env (mkSt 9 tt) = (Ok tt, w).
Proof.
  assert (licensegen_main no_failure no_format ["-gen-key"] demo_env (mkSt 0 (mkCli estr estr ∅)) = (Ok 0%Z, keyed)) as E1
    by (vm_compute; reflexivity).
  assert (fst (licensegen_main no_failure no_format license_args demo_env keyed) = Ok 0%Z) as H2 by (vm_compute; reflexivity).
  destruct (licensegen_main no_failure no_format license_args demo_env keyed) as [r2 u] eqn:E2. cbn in H2. subst r2.
  destruct (license_chain (fun k => k) no_failure no_format (S := unit) license_args license_set demo_env (mkSt 0 (mkCli estr estr ∅)) keyed demo_env keyed u
    E1 eq_refl E2 ltac:(vm_compute; reflexivity) eq_refl eq_refl ltac:(vm_compute; split; discriminate)) as (n & token & expires & pem & _ & _ & H).
  destruct (H (licensed_host token pem) demo_env (mkSt 9 tt) eq_refl eq_refl eq_refl ltac:(cbn; lia)) as [Hok _].
  destruct Hok as [w Hw]; [|exists token, pem, w; exact Hw].
  change (flag_int license_set "days" 365) with 30%Z. cbn [clock demo_env tick]. unfold day, second. lia.
Defined.

(** ** The directory process *)

#[local] Existing Instances bind_scim_user bind_scim_group bind_scim_ops.

Abbreviation dir_chain := (dirsvc_chain (RegisterRoutes demo_service_auth) tt allow_all).

Definition dir_server : Server (gmap string unit * gmap string unit) DirDb := mkServer [] (∅, ∅) no_metrics two_tenants.

(** Over SCIM the first tenant deletes one of its own users. *)
Definition delete_own : list string := ["scim"; "v2"; "Users"; default estr (id_id <$> head (d_identities two_tenants))].

Lemma dirsvc_safe_witness :
  exists res u, ServeHTTP (dir_chain "DELETE" delete_own) foreign_delete demo_env (mkSt 0 dir_server) = (Ok res, u) /\
    rs_status (snd res) = 204%Z /\ tenant_view tenantB (sv_app (st u)) = tenant_view tenantB two_tenants.
Proof.
  assert (match fst (ServeHTTP (dir_chain "DELETE" delete_own) foreign_delete demo_env (mkSt 0 dir_server)) with
          | Ok res => rs_status (snd res) = 204%Z | _ => False end) as Hok by (vm_compute; reflexivity).
  destruct (ServeHTTP (dir_chain "DELETE" delete_own) foreign_delete demo_env (mkSt 0 dir_server)) as [[res| |] u] eqn:E; [|destruct Hok..].
  exists res, u. split; [reflexivity|]. split; [exact Hok|].
  refine (proj2 (dirsvc_safe demo_service_auth tt allow_all "DELETE" delete_own foreign_delete tenantB demo_env (mkSt 0 dir_server) (Ok res) u
    two_tenants_ok _ E)).
  change (header_get DefaultTenantHeader (rq_headers foreign_delete)) with tenantA. unfold tenantA. rewrite demo_uuid_canonical. vm_compute. discriminate.
Defined.
